(* ===== verification/_CoqProject ===== *)
-Q . S2P
Prelude.v
Clock.v
Input.v
Interrupts.v
Sampling.v
SamplingProps.v
History.v
Blitter.v
Float.v
FloatExact.v
Hdmi.v
HdmiProps.v
Printf.v
PrintfProps.v
Numerals.v
Formats.v
FloatPrintf.v
FloatPrintfProps.v
Util.v
Init.v
Gfx.v
GfxProps.v
Video.v
Modes.v
Menu.v
Canvas.v
Status.v
Main.v
Screens.v
Debug.v
Config.v
Firmware.v
System.v
Crtc.v
IntCtrl.v
Tilemap.v
SysBus.v
PllQueue.v
TileBus.v
Board.v
Mif.v
RomLoad.v
Sheet.v
CpuRam.v
ReadBack.v
