(* ===== verification/Prelude.v ===== *)
(** * MiSTer Laggy: a verification library of the firmware

    MiSTer Laggy measures the delay of a display.  A 68000 in an FPGA core runs
    the firmware of src/firmware/src: it flashes a square on the picture, two
    interrupts take the time of the frame and of a light sensor at the display,
    and the difference is shown with its statistics.  A menu sets the
    resolution and refresh rate of the HDMI output and the shape of the 240p
    picture.  This library is a model of the C code of the firmware and of the
    hardware of the core it depends on, with theorems about the parts and about
    the program as a whole.

    ** Parts, and where they are

    - Prelude.v: integers of 8, 16 and 32 bits, arrays with bounds, the error
      type [result] (a fault is a value: an access out of bounds, a null
      pointer, a division by zero, a misaligned word, a loop that does not
      end), state passing [M] with a total-correctness triple [hoare], shared
      lemmas and tactics.
    - Clock.v: clock.h, clock.c and the tick counter of rtl/system.sv.
    - Input.v: input.c, input.h.
    - Interrupts.v: a main program and interrupt handlers, interleaved at every
      access to a shared object; the class [InterruptSpec] is the contract
      between them.  Sampling.v: the handlers, [do_sampling], [sample_switch],
      the history and [wait_vblank] of main.c on that machine;
      SamplingProps.v: the instance of the contract and the theorems;
      History.v: the history holds the last samples that were recorded.
    - Printf.v: printf/printf.c as the Makefile configures it; PrintfProps.v,
      Numerals.v, Formats.v: buffers and termination, what the integer
      conversions print, and how the format strings of the firmware run.
      FloatExact.v: when an operation of binary64 is exact; FloatPrintf.v,
      FloatPrintfProps.v: the floating-point conversions of printf.c, in the
      configuration of the file (the Makefile of the firmware turns them off).
    - Util.v: util.h.  Init.v: init.c, interrupts_default.c, with the symbols
      of mrlaggy.ld as variables.
    - Blitter.v: rtl/blitter.sv as a clocked machine and as the job it does.
    - Gfx.v, Menu.v, Video.v: gfx.c and gfx.h (contexts, drawing, windows, text;
      menus; the 240p mode, the page flip and the fetches of rtl/tilemap.sv).
      GfxProps.v and Canvas.v: rules for drawing, as precise as the cells
      written or as coarse as the shape of the context.
    - Float.v, Hdmi.v, HdmiProps.v: hdmi.c and hdmi.h (timing, PLL search, the
      writes) and the receivers in sys/sys_top.v and rtl/crtc.sv.
    - Modes.v, Status.v, Main.v: the tables, the status lines, the screens, the
      menu and the main loop of main.c.  Screens.v, Config.v, Firmware.v: the
      screens stay in their page, the menu refines its specification, and the
      invariant of the main loop.  System.v: the main loop and the handlers of
      Sampling.v as one machine.
    - Debug.v: debug.c and debug.h (turned off by the Makefile as well).
    - Crtc.v: rtl/crtc.sv and its clock divider rtl/jtframe_frac_cen.v, clock
      by clock.  Tilemap.v: rtl/tilemap.sv and the palette beside the CRT
      controller, up to the color on the screen.  IntCtrl.v: the interrupt
      controller of rtl/system.sv.  SysBus.v: its address decoding, its
      registers, the acknowledgement of a cycle, the palette's port, and the
      way of a write to the CRT controller and to the HDMI port in
      sys/sys_top.v.  PllQueue.v: the reader of the PLL requests in
      MiSTerLaggy.sv, and the mode, the state machine and the wait request of
      the port in sys/pll_cfg/altera_pll_reconfig_core.v.  TileBus.v: the register port of the blitter, the tile
      memory it shares with the processor and the tile map on the bus, with
      the acknowledgement the blitter holds back.  CpuRam.v: the two byte lanes
      of the processor's RAM.  ReadBack.v: the dual-port memory of
      rtl/dpramv.sv, the tile memory made of two of them, and the read ports of
      the tile map and the CRT controller.
    - Board.v: the composition of the program (System.v) with the devices on
      its bus (TileBus.v, SysBus.v), all on the same clocks.
    - Mif.v: firmware/genmif.py, and a reader of its memory images.  RomLoad.v:
      the host's port in sys/sys_top.v, the transfer of a file in
      sys/hps_io.sv and the ROM.  Sheet.v: roms/gfxgen.py, and the pixels of
      the texts and images drawn with its tiles.

    The globals of a C file are a record, a function of it is a definition of
    the same name, and a loop is a recursive function.  An array the code does
    not initialise is an argument.  Words are kept at their width; what the C
    code leaves undefined is a fault.  The screen of Gfx.v carries, beside the
    globals of gfx.c, the list [log] of the accesses the code has made to the
    tile memory, the blitter and the offsets.  No definition reads it: it is
    what the bus has to carry ([traced] says that it accounts for the memory).
    The hardware is clocked machines, a function from the registers and the
    inputs of a clock to the registers; where a bus carries the accesses of a
    program, the clocks that may carry them are an inductive predicate
    ([cycles], [carried], [ram_cycles], [sends]) and the theorem holds for all
    of them.

    ** What the theorems show

    - Measurement: in every interleaving a recorded sample is the time from the
      frame to the sensor of the same cycle; the state machine moves along its
      cycle, every branch of a window's end, how long a cycle can last, how
      often a sample starts; and the one way a false sample arises, when the
      counter wraps.  An interrupt is an edge of its source, the sensor is
      served first, and there is one frame interrupt a frame.
    - Clock and pad: a reading is atomic under interrupts, the conversion is
      exact, a press is reported once.
    - Text: a bounded print is the prefix of the unbounded one, formatting ends
      for every format, numbers print as their digits and read back, and the
      status lines show the statistics of the history.  [%f] rounds to the
      nearest where the scaled fraction is exact, the floating-point
      conversions end, and every tie that rounds up to one is printed wrongly.
    - Drawing: the blitter does its job and stops; rectangles and texts write
      exactly their cells; the contexts are a stack; the menus go round; a text
      shows the pixels of the font and the image those of the picture the
      tiles were made from.
    - Video: both receivers hold the mode that was sent, the bus carries every
      write to them once and in order, the PLL gets every request, the CRT
      controller scans the mode, its pixels are those of the front page, and
      the clock of every mode of the menu is as accurate as stated.
    - Memory and start-up: the copies, the strings, the segments, the vectors;
      the RAM implements the byte memory; the ROM holds the program, whether
      it was built in or sent by the host.
    - The program: from power on every frame returns, one frame is one step of
      the specification of the user interface, a choice reaches both outputs,
      and the picture shown is never drawn on; this holds in every
      interleaving with the handlers, and the status lines then show the
      samples that were recorded.
    - The board: when the bus has carried the accesses of the program, in
      however many clocks, the tile memory holds its picture and both outputs
      are set to its mode ([board_follows]); and while a frame is carried,
      every pixel of a line that begins after its flip is one of the picture
      before, in the colors of the palette at that clock ([frame_steady]).

    ** Bounds and fuel

    Most loops recurse on a count the code has.  The others take fuel and fault
    with [Hang] when it runs out; no theorem about a result is conditional on
    it.  The formatter gets one unit per character of the format, its inner
    loops their width or the 32 characters of the number buffer, and
    [formatting_terminates] shows that this is enough.  The loops of the
    floating-point conversions get the digits of a 64-bit number or the room in
    the buffer; [floating_terminates] shows that this is enough.  The loops of
    the start code, [strlen] and [strcpy] get the length of the memory, past
    which they would fault anyway.  The PLL search gets [PLL_FUEL] = 2048
    steps; its theorems are about the modes of the menu, for
    which it is evaluated.  Facts about all the modes of the menu are proved by
    evaluating the floating-point code on each of them.

    ** Hypotheses

    The hardware the processor waits for answers: the reads of the PLL busy
    flag are a stream in which each wait ends ([pll_answers]).  The command
    decoder of the HDMI port is idle at the start ([rx_idle]).  The linker
    script places the segments in memory without overlap ([layout]).  The pad
    and the sensor line are any values; Firmware.v takes the outcome of the
    sampling as any that [env_ok] allows, and System.v proves that the handlers
    leave such an outcome as long as fewer than 2^32 samples were recorded.
    The memory blocks and the queue of the FPGA, which are not in the sources,
    are classes with their laws: a block shows the word of an address some
    clocks later ([MemBlock], [BlockReads]), the palette keeps what is written
    to it and shows the entry of an address that is not being written
    ([PalBlock], [PalReads]), a queue shows its first entry ([ReadFifo],
    [ShowAhead]).  Once the PLL is locked and its port ready, it stays so until
    the next reconfiguration, and no request comes between a reconfiguration
    and its end ([orderly]): the program of a mode ends with it
    ([program_orderly]), and the next mode is set by the user (the flag the
    processor polls only says that the queue is full).  The interrupts that
    can fall into a reading of the clock are below level 7 ([maskable]), as
    IntCtrl.v makes them.
    How many clocks a cycle of the processor lasts is left open; what TileBus.v
    takes from the processor is that it does not end a cycle before it has seen
    an acknowledge ([carried]), and CpuRam.v that it puts a byte on both halves
    of the bus.  At power on the offsets of the tile map are zero.  The host
    puts every word up and down on its port, and a file in words with the first
    byte in the low half ([sends], [transfer]).  The imaging library cuts a
    picture into the pixels of its parts, row by row ([crop_reads]).

    ** Not modelled

    - The processor: it is a third-party core; the C code is modelled as it is
      written, not as it is compiled.
    - The memory blocks, the PLL cores and the rest of their reconfiguration
      port, the scaler and the rest of the framework in sys/: third-party or
      generated hardware that the sources instantiate.
    - The order of the accesses of different kinds in one trace: a trace of
      Board.v carries the drawing in its order and the writes to the outputs in
      theirs, and the theorems hold however the two are interleaved.
    - The time the processor takes: a frame of System.v is drawn in one step,
      and Board.v relates the states between frames to the traces that carry
      what was done until then.
    - In System.v the interrupts may come in any order; that the hardware
      serves the sensor first is a theorem of IntCtrl.v that it does not need.
    - The clock enables of the processor (phi1 and phi2 of system.sv), which
      only its core uses.
    - The command line of genmif.py, [math.log] (the digits of an address are
      an argument), the files of pictures, the Makefile, schematics and
      releases. *)

From Stdlib Require Export ZArith Lia.
From stdpp Require Export base tactics list gmap strings numbers.

(** ** Notations

    C's bit operators on mathematical integers, in a scope of their own. *)
Declare Scope c_scope.
Delimit Scope c_scope with c.
Infix "&&&" := Z.land (at level 40, left associativity) : c_scope.
Infix "^^^" := Z.lxor (at level 45, left associativity) : c_scope.
Infix "|||" := Z.lor (at level 50, left associativity) : c_scope.
Infix "<<<" := Z.shiftl (at level 38, left associativity) : c_scope.
Infix ">>>" := Z.shiftr (at level 38, left associativity) : c_scope.

#[global] Open Scope Z_scope.
Open Scope c_scope.

(** [if (x & mask)]: some bit of [mask] is set in [x]. *)
Definition has (x mask : Z) : bool := negb (x &&& mask =? 0).

(** ** Machine integers

    A C object of an integer type is the mathematical integer it holds; a
    store to it goes through the conversion of its type.  The 68000 has
    8-bit [char] (signed), 16-bit [short] and 32-bit [int] and [long]. *)
Definition u8 (x : Z) : Z := x mod 256.
Definition u16 (x : Z) : Z := x mod 65536.
Definition u32 (x : Z) : Z := x mod 4294967296.
Definition i8 (x : Z) : Z := (x + 128) mod 256 - 128.
Definition i16 (x : Z) : Z := (x + 32768) mod 65536 - 32768.
Definition i32 (x : Z) : Z := (x + 2147483648) mod 4294967296 - 2147483648.

Definition is_u8 (x : Z) : Prop := 0 <= x < 256.
Definition is_u16 (x : Z) : Prop := 0 <= x < 65536.
Definition is_u32 (x : Z) : Prop := 0 <= x < 4294967296.

Create HintDb word.

(** [word_lia]: linear arithmetic after the wrap-arounds are written out. *)
Ltac unfold_words :=
  unfold is_u8, is_u16, is_u32, u8, u16, u32, i8, i16, i32 in *.
Ltac word_lia := unfold_words; Z.div_mod_to_equations; lia.

Lemma u8_small x : is_u8 x -> u8 x = x.
Proof. intros; unfold u8; apply Z.mod_small; done. Qed.
Lemma u16_small x : is_u16 x -> u16 x = x.
Proof. intros; unfold u16; apply Z.mod_small; done. Qed.
Lemma u32_small x : is_u32 x -> u32 x = x.
Proof. intros; unfold u32; apply Z.mod_small; done. Qed.
Lemma i16_small x : -32768 <= x < 32768 -> i16 x = x.
Proof. intros; unfold i16; rewrite Z.mod_small by lia; lia. Qed.
Lemma i32_small x : -2147483648 <= x < 2147483648 -> i32 x = x.
Proof. intros; unfold i32; rewrite Z.mod_small by lia; lia. Qed.

Lemma u8_range x : is_u8 (u8 x).
Proof. apply Z.mod_pos_bound; lia. Qed.
Lemma u16_range x : is_u16 (u16 x).
Proof. apply Z.mod_pos_bound; lia. Qed.
Lemma u32_range x : is_u32 (u32 x).
Proof. apply Z.mod_pos_bound; lia. Qed.
Lemma u16_idemp x : u16 (u16 x) = u16 x.
Proof. apply u16_small, u16_range. Qed.
Lemma u32_idemp x : u32 (u32 x) = u32 x.
Proof. apply u32_small, u32_range. Qed.
#[export] Hint Resolve u8_range u16_range u32_range : word.

Lemma u16_testbit x i : 0 <= i < 16 -> Z.testbit (u16 x) i = Z.testbit x i.
Proof. intros; unfold u16; change 65536 with (2 ^ 16); apply Z.mod_pow2_bits_low; lia. Qed.

(** A non-negative integer below [2^n] has no bit at or above [n]. *)
Lemma testbit_high x n i : 0 <= x < 2 ^ n -> n <= i -> Z.testbit x i = false.
Proof.
  intros Hx Hi. destruct (decide (0 <= n)).
  - rewrite <- (Z.mod_small x (2 ^ n)) by done. apply Z.mod_pow2_bits_high; lia.
  - rewrite Z.pow_neg_r in Hx; lia.
Qed.


(** ** Faults and results

    What the source leaves undefined or cannot recover from is an error
    value: an array access outside its array, a division by zero, an
    argument of the wrong type read by [va_arg], a signed overflow, a
    floating-point value outside the integer type it is converted to, a
    loop that does not end, a null pointer dereference, and a word access at
    an odd address. *)
Inductive fault : Type :=
  | OutOfBounds
  | DivideByZero
  | BadVarArg
  | SignedOverflow
  | BadConversion
  | Hang
  | NullPointer
  | AddressError.

Inductive result (A : Type) : Type :=
  | Ok (a : A)
  | Err (f : fault).
Arguments Ok {A} a.
Arguments Err {A} f.

#[export] Instance fault_eq_dec : EqDecision fault.
Proof. solve_decision. Defined.
#[export] Instance result_eq_dec {A} `{EqDecision A} : EqDecision (result A).
Proof. solve_decision. Defined.

#[export] Instance result_ret : MRet result := fun A a => Ok a.
#[export] Instance result_bind : MBind result :=
  fun A B k m => match m with Ok a => k a | Err f => Err f end.
#[export] Instance result_fmap : FMap result :=
  fun A B h m => match m with Ok a => Ok (h a) | Err f => Err f end.

Lemma bind_Ok {A B} (m : result A) (k : A -> result B) b :
  m ≫= k = Ok b <-> exists a, m = Ok a /\ k a = Ok b.
Proof. destruct m; cbn; naive_solver. Qed.

Lemma bind_assoc {A B C} (m : result A) (h : A -> result B) (k : B -> result C) :
  (m ≫= h) ≫= k = m ≫= (fun a => h a ≫= k).
Proof. by destruct m. Qed.

Definition is_Ok {A} (m : result A) : Prop := exists a, m = Ok a.

(** Split every hypothesis [m ≫= k = Ok b] into its two steps. *)
Ltac res_inv :=
  repeat match goal with
    | H : _ ≫= _ = Ok _ |- _ => apply bind_Ok in H as (? & ? & ?)
    | H : mret _ = Ok _ |- _ => injection H as H
    | H : Ok _ = Ok _ |- _ => injection H as H
    | H : Err _ = Ok _ |- _ => discriminate H
    end; simplify_eq/=.

(** ** State and errors

    Code that works on a state and can fail. *)
Definition M (S A : Type) : Type := S -> result (A * S).

#[export] Instance M_ret {S} : MRet (M S) := fun A a s => Ok (a, s).
#[export] Instance M_bind {S} : MBind (M S) :=
  fun A B k m s => match m s with Ok (a, s') => k a s' | Err f => Err f end.

Definition gets {S A} (f : S -> A) : M S A := fun s => Ok (f s, s).
Definition modify {S} (f : S -> S) : M S unit := fun s => Ok (tt, f s).
Definition lift {S A} (r : result A) : M S A :=
  fun s => match r with Ok a => Ok (a, s) | Err f => Err f end.

(** [for (i = lo; i < lo + n; i++)] *)
Fixpoint for_from {S} (n : nat) (lo : Z) (body : Z -> M S unit) : M S unit :=
  match n with
  | O => mret tt
  | Datatypes.S n => body lo;; for_from n (lo + 1) body
  end.

(** [m] returns from every state of [P], with a result and state of [Q]. *)
Definition hoare {S A} (P : S -> Prop) (m : M S A) (Q : A -> S -> Prop) : Prop :=
  forall s, P s -> exists a s', m s = Ok (a, s') /\ Q a s'.

Lemma hoare_ret {S A} (P : S -> Prop) (a : A) (Q : A -> S -> Prop) :
  (forall s, P s -> Q a s) -> hoare P (mret a) Q.
Proof. intros H s Hs. exists a, s. split; [done|auto]. Qed.

Lemma hoare_bind {S A B} (P : S -> Prop) (m : M S A) (R : A -> S -> Prop) (k : A -> M S B) (Q : B -> S -> Prop) :
  hoare P m R -> (forall a, hoare (R a) (k a) Q) -> hoare P (m ≫= k) Q.
Proof.
  intros Hm Hk s Hs. destruct (Hm s Hs) as (a & s1 & E & H1). destruct (Hk a s1 H1) as (b & s2 & E2 & H2).
  exists b, s2. split; [|done]. unfold mbind, M_bind. by rewrite E.
Qed.

Lemma hoare_gets {S A} (P : S -> Prop) (f : S -> A) (Q : A -> S -> Prop) :
  (forall s, P s -> Q (f s) s) -> hoare P (gets f) Q.
Proof. intros H s Hs. exists (f s), s. split; [done|auto]. Qed.

Lemma hoare_modify {S} (P : S -> Prop) (f : S -> S) (Q : unit -> S -> Prop) :
  (forall s, P s -> Q tt (f s)) -> hoare P (modify f) Q.
Proof. intros H s Hs. exists tt, (f s). split; [done|auto]. Qed.

Lemma hoare_conseq {S A} (P P' : S -> Prop) (m : M S A) (Q Q' : A -> S -> Prop) :
  hoare P m Q -> (forall s, P' s -> P s) -> (forall a s, Q a s -> Q' a s) -> hoare P' m Q'.
Proof. intros H HP HQ s Hs. destruct (H s (HP _ Hs)) as (a & s' & E & Hq). eauto 10. Qed.

Lemma hoare_at {S A} (P : S -> Prop) (m : M S A) (v : A) (Q : S -> Prop) s :
  P s -> hoare P m (fun r s' => r = v /\ Q s') -> exists s', m s = Ok (v, s') /\ Q s'.
Proof. intros Hs H. destruct (H s Hs) as (r & s' & E & -> & HQ). eauto. Qed.

(** A loop whose body keeps an invariant that speaks of the counter. *)
Lemma hoare_for {S} (I : Z -> S -> Prop) n lo (body : Z -> M S unit) :
  (forall i, lo <= i < lo + Z.of_nat n -> hoare (I i) (body i) (fun _ => I (i + 1))) ->
  hoare (I lo) (for_from n lo body) (fun _ => I (lo + Z.of_nat n)).
Proof.
  revert lo. induction n as [|n IH]; intros lo Hb; cbn [for_from].
  - apply hoare_ret. intros s. by rewrite Z.add_0_r.
  - apply hoare_bind with (R := fun _ => I (lo + 1)); [apply Hb; lia|]. intros _.
    replace (lo + Z.of_nat (Datatypes.S n)) with (lo + 1 + Z.of_nat n) by lia. apply IH.
    intros i Hi. apply Hb. lia.
Qed.

(** ** C arrays

    An array is the list of its elements; an index outside it is a fault. *)
Section arrays.
Context {A : Type}.
Implicit Types (l : list A) (i : Z) (x : A).

Definition aget l i : result A :=
  if i <? 0 then Err OutOfBounds
  else match l !! Z.to_nat i with Some x => Ok x | None => Err OutOfBounds end.

Definition aset l i x : result (list A) :=
  if (i <? 0) || (Z.of_nat (length l) <=? i) then Err OutOfBounds
  else Ok (<[Z.to_nat i := x]> l).

Lemma aget_lookup l i x :
  0 <= i -> l !! Z.to_nat i = Some x -> aget l i = Ok x.
Proof. intros Hi Hl. unfold aget. destruct (Z.ltb_spec i 0); [lia|]. by rewrite Hl. Qed.

Lemma aget_Ok_inv l i x : aget l i = Ok x -> 0 <= i < Z.of_nat (length l) /\ l !! Z.to_nat i = Some x.
Proof.
  unfold aget. destruct (Z.ltb_spec i 0); [done|].
  destruct (l !! Z.to_nat i) eqn:E; [|done]. intros [= ->].
  apply lookup_lt_Some in E as ?. split; [lia|done].
Qed.

Lemma aget_is_Ok l i : 0 <= i < Z.of_nat (length l) -> is_Ok (aget l i).
Proof.
  intros Hi. destruct (lookup_lt_is_Some_2 l (Z.to_nat i)) as [x Hx]; [lia|].
  exists x. apply aget_lookup; [lia|done].
Qed.

Lemma aset_in l i x :
  0 <= i < Z.of_nat (length l) -> aset l i x = Ok (<[Z.to_nat i := x]> l).
Proof.
  intros Hi. unfold aset.
  destruct (Z.ltb_spec i 0), (Z.leb_spec (Z.of_nat (length l)) i); try lia; done.
Qed.

Lemma aset_out l i x :
  ~ (0 <= i < Z.of_nat (length l)) -> aset l i x = Err OutOfBounds.
Proof.
  intros Hi. unfold aset.
  destruct (Z.ltb_spec i 0), (Z.leb_spec (Z.of_nat (length l)) i); try lia; done.
Qed.
End arrays.

(** ** C strings

    A [char] is its signed 8-bit value; a string is the list of its
    characters before the terminating NUL. *)
Fixpoint chars (s : string) : list Z :=
  match s with
  | EmptyString => []
  | String a s' => i8 (Z.of_nat (Ascii.nat_of_ascii a)) :: chars s'
  end.

Definition zlen {A} (l : list A) : Z := Z.of_nat (length l).
