(* ===== verification/Clock.v ===== *)
(** * The tick clock (firmware/src/clock.h, clock.c, interrupts.h; rtl/system.sv)

    The free-running 10 MHz counter of the core, the latch the firmware reads
    it through, the interrupt mask around the read, and the conversion of a
    tick count to milliseconds and microseconds. *)

From S2P Require Import Prelude.

Definition CLOCK_REF_HZ : Z := 10000000.
Definition CLOCK_REF_KHZ : Z := 10000.
Definition CLOCK_REF_MHZ : Z := 10.
Definition CLOCK_MS_TO_TICKS (ms : Z) : Z := ms * CLOCK_REF_KHZ.
Definition CLOCK_TICKS_TO_US (ticks : Z) : Z := ticks / CLOCK_REF_MHZ.

(** [clock_ticks_to_ms_us]: the two values stored through [ms] and [us]. *)
Definition clock_ticks_to_ms_us (ticks : Z) : Z * Z :=
  (ticks / CLOCK_REF_KHZ, (ticks / CLOCK_REF_MHZ) mod 1000).

(** ** The status register *)

Definition enable_interrupts (sr : Z) : Z := sr &&& 0xf8ff.
Definition disable_interrupts (sr : Z) : Z := sr ||| 0x0700.

(** The interrupt priority mask, bits 8 to 10: an interrupt is taken when its
    level is above the mask (level 7 always). *)
Definition int_mask (sr : Z) : Z := (sr >>> 8) &&& 7.

(** ** The counter of rtl/system.sv

    [cnt] divides the 50 MHz clock by five; [ticks2] carries the counter into
    the system clock domain; a bus write to the region copies it into
    [ticks_latch], which is what a bus read returns, one half at a time. *)
Record TickDev : Type := mkTickDev {
  cnt : Z;
  ticks : Z;
  ticks2 : Z;
  ticks_latch : Z
}.

(** One rising edge of [clk_50m]. *)
Definition edge_50m (d : TickDev) : TickDev :=
  if cnt d =? 4
  then {| cnt := 0; ticks := u32 (ticks d + 1); ticks2 := ticks2 d; ticks_latch := ticks_latch d |}
  else {| cnt := (cnt d + 1) mod 8; ticks := ticks d; ticks2 := ticks2 d; ticks_latch := ticks_latch d |}.

(** One rising edge of [clk], with or without a bus write to the region. *)
Definition edge_sys (write : bool) (d : TickDev) : TickDev :=
  {| cnt := cnt d; ticks := ticks d; ticks2 := ticks d;
     ticks_latch := if write then ticks2 d else ticks_latch d |}.

(** The edges of the two clocks; [write] is asserted in every clock of [clk]
    that a bus write to the region lasts. *)
Inductive clk_event : Type := Edge50m | EdgeSys.

Definition clk_step (write : bool) (d : TickDev) (e : clk_event) : TickDev :=
  match e with Edge50m => edge_50m d | EdgeSys => edge_sys write d end.

Definition clk_run (write : bool) (es : list clk_event) (d : TickDev) : TickDev := foldl (clk_step write) d es.

(** A bus write to the region, with the edges before its last clock. *)
Definition latch_write (es : list clk_event) (d : TickDev) : TickDev := edge_sys true (clk_run true es d).

Definition read_hi (d : TickDev) : Z := u16 (ticks_latch d >>> 16).
Definition read_lo (d : TickDev) : Z := u16 (ticks_latch d).

(** ** Interrupts

    What happens between two instructions: an edge, or an interrupt, which is
    taken when its level is above the mask, and level 7 always.  [body] are
    the edges while its handler runs, which reads the clock and so writes the
    latch itself; when it returns, the status register is as it was. *)
Inductive cpu_event : Type :=
  | Clk (e : clk_event)
  | Irq (level : Z) (body : list (bool * clk_event)).

Definition handler_run (body : list (bool * clk_event)) (d : TickDev) : TickDev := foldl (fun d x => clk_step x.1 d x.2) d body.

Definition cpu_step (sr : Z) (d : TickDev) (e : cpu_event) : TickDev :=
  match e with
  | Clk e => clk_step false d e
  | Irq level body => if (int_mask sr <? level) || (level =? 7) then handler_run body d else d
  end.

Definition cpu_run (sr : Z) (es : list cpu_event) (d : TickDev) : TickDev := foldl (cpu_step sr) d es.

(** [clock_get_ticks]: mask interrupts, write the latch, read [value] as the
    two bus words of one 32-bit read, unmask.  [e0], [e1] and [e3] happen
    between the instructions, the edges [w] and [e2] inside of them. *)
Definition clock_get_ticks (e0 : list cpu_event) (w : list clk_event) (e1 : list cpu_event) (e2 : list clk_event) (e3 : list cpu_event)
    (sr : Z) (d : TickDev) : Z * Z * TickDev :=
  let sr := disable_interrupts sr in
  let d := cpu_run sr e0 d in
  let d := latch_write w d in
  let d := cpu_run sr e1 d in
  let hi := read_hi d in
  let d := clk_run false e2 d in
  let lo := read_lo d in
  let d := cpu_run sr e3 d in
  let res := hi * 65536 + lo in
  (res, enable_interrupts sr, d).

(** ** Lemmas *)

Lemma clk_run_latch es d : ticks_latch (clk_run false es d) = ticks_latch d.
Proof.
  unfold clk_run. revert d. induction es as [|e es IH]; intros d; cbn; [done|].
  rewrite IH. destruct e; cbn; [|done]. unfold edge_50m. by case_match.
Qed.

(** The width of the counter. *)
Definition ticks_ok (d : TickDev) : Prop := is_u32 (ticks d) /\ is_u32 (ticks2 d).

Lemma clk_run_ok w es : forall d, ticks_ok d -> ticks_ok (clk_run w es d).
Proof.
  induction es as [|e es IH]; intros d H; [done|]. cbn [clk_run foldl]. apply IH. destruct H as [H1 H2].
  destruct e; [|by split]. unfold clk_step, edge_50m. destruct (cnt d =? 4); (split; [|done]); [apply u32_range|done].
Qed.

(** The edges among some events. *)
Fixpoint edges (es : list cpu_event) : list clk_event :=
  match es with [] => [] | Clk e :: es => e :: edges es | Irq _ _ :: es => edges es end.

(** The hardware has no interrupt of level 7 (its [IPL0n] is tied). *)
Definition maskable (e : cpu_event) : Prop := match e with Clk _ => True | Irq level _ => level <= 6 end.

Lemma masked_run sr es : forall d, int_mask sr = 7 -> Forall maskable es -> cpu_run sr es d = clk_run false (edges es) d.
Proof.
  intros d Hm H. revert d. induction H as [|e es He _ IH]; intros d; [done|]. cbn [cpu_run foldl]. destruct e as [e|level body]; cbn [edges]; [apply IH|].
  cbn [cpu_step maskable] in *. rewrite Hm, (proj2 (Z.ltb_ge 7 level)), (proj2 (Z.eqb_neq level 7)) by lia. apply IH.
Qed.

Lemma int_mask_disable sr : int_mask (disable_interrupts sr) = 7.
Proof.
  unfold int_mask, disable_interrupts. apply Z.bits_inj'; intros i Hi.
  rewrite Z.land_spec, Z.shiftr_spec, Z.lor_spec by lia. destruct (decide (i < 3)) as [Hl|Hl].
  - assert (i = 0 \/ i = 1 \/ i = 2) as [-> | [-> | ->]] by lia; cbn; by rewrite orb_true_r.
  - by rewrite (testbit_high 7 3 i), andb_false_r by lia.
Qed.

Lemma hi_lo_join x : is_u32 x -> u16 (x >>> 16) * 65536 + u16 x = x.
Proof.
  intros Hx. rewrite Z.shiftr_div_pow2 by lia. change (2 ^ 16) with 65536. word_lia.
Qed.

Lemma int_mask_enable sr : int_mask (enable_interrupts sr) = 0.
Proof.
  unfold int_mask, enable_interrupts. apply Z.bits_inj'; intros i Hi.
  rewrite Z.land_spec, Z.shiftr_spec, Z.land_spec, Z.bits_0 by lia.
  destruct (decide (i < 3)) as [Hl|Hl].
  - assert (i = 0 \/ i = 1 \/ i = 2) as [-> | [-> | ->]] by lia; cbn; by rewrite andb_false_r.
  - by rewrite (testbit_high 7 3 i), andb_false_r by lia.
Qed.

(** The counter after [n] edges of the 50 MHz clock from reset. *)
Lemma ticks_count n d :
  cnt d = 0 -> is_u32 (ticks d) ->
  cnt (Nat.iter n edge_50m d) = Z.of_nat n mod 5 /\
  ticks (Nat.iter n edge_50m d) = u32 (ticks d + Z.of_nat n / 5).
Proof.
  intros Hc Ht. induction n as [|n [IHc IHt]].
  - cbn. rewrite Hc. split; [done|]. symmetry. rewrite Z.add_0_r. by apply u32_small.
  - rewrite Nat2Z.inj_succ.
    change (Nat.iter (S n) edge_50m d) with (edge_50m (Nat.iter n edge_50m d)).
    remember (Nat.iter n edge_50m d) as d' eqn:Ed'. clear Ed'. unfold edge_50m.
    destruct (Z.eqb_spec (cnt d') 4) as [E|E]; cbn; rewrite IHt.
    + rewrite IHc in E. split; word_lia.
    + rewrite IHc in *. split; word_lia.
Qed.

(** ** Properties *)

(** C15: [clock_ticks_to_ms_us] splits a tick count exactly: the milliseconds
    and microseconds it returns are the whole number of microseconds of the
    count, the microseconds stay below 1000 (so three digits print them), and
    both fit the 32-bit objects they are stored in. *)
Theorem ticks_to_ms_us_exact (t : Z) :
  is_u32 t ->
  let '(ms, us) := clock_ticks_to_ms_us t in
  ms * 1000 + us = CLOCK_TICKS_TO_US t /\ 0 <= us < 1000 /\ is_u32 ms /\ is_u32 us.
Proof.
  intros Ht. unfold clock_ticks_to_ms_us, CLOCK_TICKS_TO_US, CLOCK_REF_KHZ, CLOCK_REF_MHZ.
  repeat split; word_lia.
Qed.

Lemma ticks_to_ms_us_exact_witness :
  is_u32 165432 /\
  (let '(ms, us) := clock_ticks_to_ms_us 165432 in
   ms * 1000 + us = CLOCK_TICKS_TO_US 165432 /\ 0 <= us < 1000 /\ is_u32 ms /\ is_u32 us).
Proof. split; [unfold is_u32; lia|]. apply (ticks_to_ms_us_exact 165432). unfold is_u32; lia. Defined.

(** C14: a read of the clock is atomic.  Whatever interrupts are requested
    between its instructions, with handlers that read the clock themselves,
    and whatever edges of the two clocks fall anywhere, [clock_get_ticks]
    returns the 32-bit value the counter had in the last clock of its own
    write to the latch; no handler runs before the read is done; and it leaves
    the interrupt mask at zero whatever the mask was before the call. *)
Theorem clock_get_ticks_atomic (e0 : list cpu_event) (w : list clk_event) (e1 : list cpu_event) (e2 : list clk_event) (e3 : list cpu_event)
    (sr : Z) (d : TickDev) :
  ticks_ok d -> Forall maskable (e0 ++ e1 ++ e3) ->
  let before := clk_run true w (clk_run false (edges e0) d) in
  let '(t, sr', d') := clock_get_ticks e0 w e1 e2 e3 sr d in
  t = ticks2 before /\ int_mask sr' = 0 /\ d' = clk_run false (edges e1 ++ e2 ++ edges e3) (edge_sys true before).
Proof.
  intros Hd H before. apply Forall_app in H as [H0 H]. apply Forall_app in H as [H1 H3].
  unfold clock_get_ticks, latch_write, read_hi, read_lo. rewrite !masked_run by (done || apply int_mask_disable). fold before. rewrite !clk_run_latch.
  split; [apply hi_lo_join; by apply clk_run_ok, clk_run_ok|]. split; [apply int_mask_enable|].
  unfold clk_run. by rewrite !foldl_app.
Qed.

(** The counter steps over 65536 while the call waits for the bus, and a
    handler is held back until the read is done. *)
Lemma clock_get_ticks_atomic_witness :
  let d := {| cnt := 4; ticks := 65535; ticks2 := 65535; ticks_latch := 7 |} in
  let irq := Irq 6 [(false, Edge50m); (true, EdgeSys)] in
  clock_get_ticks [] [EdgeSys] [Clk Edge50m; irq; Clk EdgeSys] [Edge50m; EdgeSys] [irq] 0x2000 d =
    (65535, 0x2000, {| cnt := 1; ticks := 65536; ticks2 := 65536; ticks_latch := 65535 |}).
Proof.
  intros d irq. pose proof (clock_get_ticks_atomic [] [EdgeSys] [Clk Edge50m; irq; Clk EdgeSys] [Edge50m; EdgeSys] [irq] 0x2000 d) as H.
  destruct (clock_get_ticks _ _ _ _ _ _ d) as [[t sr'] d'] eqn:E. destruct H as (H1 & H2 & H3).
  { split; unfold is_u32; cbn; lia. }
  { repeat apply Forall_cons_2; first [apply Forall_nil_2 | done | cbn; lia]. }
  rewrite H1, H3. injection E as _ <- _. reflexivity.
Defined.

(** Without the mask a handler would replace the value. *)
Lemma unmasked_latch :
  let d := {| cnt := 0; ticks := 9; ticks2 := 9; ticks_latch := 7 |} in
  ticks_latch (latch_write [] d) = 9 /\
  ticks_latch (cpu_run 0x2000 [Irq 6 (replicate 5 (false, Edge50m) ++ [(false, EdgeSys); (true, EdgeSys)])] (latch_write [] d)) = 10.
Proof. by split. Qed.

(** the counter really runs at [CLOCK_REF_HZ]: after [n] periods of the
    50 MHz clock it has advanced by [n / 5], so 50,000 periods (one
    millisecond) are [CLOCK_MS_TO_TICKS 1] ticks. *)
Theorem tick_rate (n : nat) (d : TickDev) :
  cnt d = 0 -> is_u32 (ticks d) ->
  ticks (Nat.iter n edge_50m d) = u32 (ticks d + Z.of_nat n / (50000000 / CLOCK_REF_HZ)) /\
  forall ms, Z.of_nat n = 50000 * ms ->
    ticks (Nat.iter n edge_50m d) = u32 (ticks d + CLOCK_MS_TO_TICKS ms).
Proof.
  intros Hc Ht. destruct (ticks_count n d Hc Ht) as [_ ->]. split; [done|].
  intros ms ->. do 2 f_equal. unfold CLOCK_MS_TO_TICKS, CLOCK_REF_KHZ.
  rewrite (Z.mul_comm 50000 ms). change 50000 with (10000 * 5). rewrite Z.mul_assoc.
  by rewrite Z.div_mul by lia.
Qed.

Lemma tick_rate_witness :
  let d := {| cnt := 0; ticks := 4294967295; ticks2 := 0; ticks_latch := 0 |} in
  ticks (Nat.iter 17 edge_50m d) = 2.
Proof.
  cbn zeta. rewrite (proj1 (tick_rate 17 {| cnt := 0; ticks := 4294967295; ticks2 := 0; ticks_latch := 0 |}
    ltac:(reflexivity) ltac:(unfold is_u32; cbn; lia))). reflexivity.
Defined.
