(* ===== verification/Input.v ===== *)
(** * The game pad (firmware/src/input.c, input.h)

    The polled state of the buttons and its edges. *)

From S2P Require Import Prelude.

Definition INPUT_RIGHT : Z := 1 <<< 0.
Definition INPUT_LEFT : Z := 1 <<< 1.
Definition INPUT_DOWN : Z := 1 <<< 2.
Definition INPUT_UP : Z := 1 <<< 3.
Definition INPUT_OK : Z := 1 <<< 4.
Definition INPUT_BACK : Z := 1 <<< 5.
Definition INPUT_MENU : Z := 1 <<< 6.

Record Input : Type := mkInput {
  gamepad_prev : Z;
  gamepad : Z;
  gamepad_pressed : Z;
  gamepad_released : Z
}.

(** The static initialisers: [gamepad_prev = 0], the others in the zero
    segment. *)
Definition input_init : Input :=
  {| gamepad_prev := 0; gamepad := 0; gamepad_pressed := 0; gamepad_released := 0 |}.

(** [input_poll], with the word read from the port. *)
Definition input_poll (port : Z) (s : Input) : Input :=
  let pad := u16 port in
  let pressed := (pad ^^^ gamepad_prev s) &&& pad in
  let released := (pad ^^^ gamepad_prev s) &&& gamepad_prev s in
  {| gamepad_prev := pad; gamepad := pad;
     gamepad_pressed := pressed; gamepad_released := released |}.

Definition input_pressed (s : Input) : Z := gamepad_pressed s.
Definition input_state (s : Input) : Z := gamepad s.
Definition input_released (s : Input) : Z := gamepad_released s.

(** The states the polls of a run leave, one per port value. *)
Fixpoint input_run (ports : list Z) (s : Input) : list Input :=
  match ports with
  | [] => []
  | p :: ps => let s' := input_poll p s in s' :: input_run ps s'
  end.

(** ** Specification: the edges of one button over a run *)

Fixpoint rising_edges (i : Z) (prev : bool) (ports : list Z) : nat :=
  match ports with
  | [] => 0
  | p :: ps =>
      let b := Z.testbit p i in
      ((if b && negb prev then 1 else 0) + rising_edges i b ps)%nat
  end.

Definition press_count (i : Z) (ss : list Input) : nat :=
  length (filter (fun s => Z.testbit (input_pressed s) i = true) ss).

(** ** Lemmas *)

Lemma poll_pressed_bit port s i :
  0 <= i < 16 ->
  Z.testbit (input_pressed (input_poll port s)) i =
    Z.testbit port i && negb (Z.testbit (gamepad_prev s) i).
Proof.
  intros Hi. cbn. rewrite Z.land_spec, Z.lxor_spec, !u16_testbit by lia.
  by destruct (Z.testbit port i), (Z.testbit (gamepad_prev s) i).
Qed.

Lemma poll_released_bit port s i :
  0 <= i < 16 ->
  Z.testbit (input_released (input_poll port s)) i =
    negb (Z.testbit port i) && Z.testbit (gamepad_prev s) i.
Proof.
  intros Hi. cbn. rewrite Z.land_spec, Z.lxor_spec, !u16_testbit by lia.
  by destruct (Z.testbit port i), (Z.testbit (gamepad_prev s) i).
Qed.

Lemma poll_prev_bit port s i :
  0 <= i < 16 -> Z.testbit (gamepad_prev (input_poll port s)) i = Z.testbit port i.
Proof. intros. cbn. by apply u16_testbit. Qed.

Lemma press_count_edges i ports s :
  0 <= i < 16 ->
  press_count i (input_run ports s) = rising_edges i (Z.testbit (gamepad_prev s) i) ports.
Proof.
  intros Hi. revert s. induction ports as [|p ps IH]; intros s; [done|].
  cbn [input_run rising_edges]. unfold press_count in *.
  rewrite filter_cons. case_decide as Hd; rewrite poll_pressed_bit in Hd by done;
    cbn [length]; rewrite IH, poll_prev_bit by done;
    by destruct (Z.testbit p i), (Z.testbit (gamepad_prev s) i).
Qed.

(** ** Properties *)

(** C40: every press is reported exactly once: over any sequence of polls, the
    number of polls whose pressed word has a button's bit is the number of
    rising edges of that button on the port, so a button that is held down is
    reported only at the poll that first sees it. *)
Theorem press_reported_once (i : Z) (ports : list Z) :
  0 <= i < 16 ->
  press_count i (input_run ports input_init) = rising_edges i false ports.
Proof. intros Hi. rewrite press_count_edges by done. cbn. by rewrite Z.testbit_0_l. Qed.

Lemma press_reported_once_witness :
  press_count 6 (input_run [0; 64; 64; 65; 0; 64] input_init) = 2%nat.
Proof. rewrite press_reported_once; [reflexivity | lia]. Defined.

(** the three words of a poll agree: a button is reported pressed when it
    is down and was up, released when it is up and was down, never both, and
    the state word is the port. *)
Theorem poll_edges (port : Z) (s : Input) (i : Z) :
  0 <= i < 16 ->
  let s' := input_poll port s in
  Z.testbit (input_pressed s') i = Z.testbit port i && negb (Z.testbit (gamepad_prev s) i) /\
  Z.testbit (input_released s') i = negb (Z.testbit port i) && Z.testbit (gamepad_prev s) i /\
  Z.testbit (input_pressed s' &&& input_released s') i = false /\
  input_state s' = u16 port.
Proof.
  intros Hi s'. subst s'. rewrite Z.land_spec, poll_pressed_bit, poll_released_bit by done.
  repeat split. by destruct (Z.testbit port i), (Z.testbit (gamepad_prev s) i).
Qed.

Lemma poll_edges_witness :
  let s := {| gamepad_prev := 5; gamepad := 5; gamepad_pressed := 0; gamepad_released := 0 |} in
  input_pressed (input_poll 6 s) = 2 /\ Z.testbit (input_released (input_poll 6 s)) 0 = true.
Proof.
  split; [reflexivity|].
  rewrite (proj1 (proj2 (poll_edges 6 {| gamepad_prev := 5; gamepad := 5; gamepad_pressed := 0; gamepad_released := 0 |} 0 ltac:(lia)))).
  reflexivity.
Defined.
