(* ===== verification/Interrupts.v ===== *)
(** * A main program and its interrupt handlers

    The execution model the concurrency theorems are about.  A C function that
    touches memory an interrupt handler shares is a [prog]: a tree of atomic
    operations (one read or one write of a [volatile] object, one read of the
    clock) with the code in between.  A machine runs one main program and a
    stack of handler activations: an interrupt may arrive between any two
    operations, also inside a handler (every handler that reads the clock
    leaves the interrupt mask at zero, see Clock.v),
    and what it interrupted goes on when it returns.  Priorities are not
    modelled: every interleaving the hardware allows is one of the model's.

    [InterruptSpec] is the contract between a main program and its handlers,
    in the rely-guarantee style, and [reachable_ok] is what it gives for every
    reachable configuration. *)

From S2P Require Import Prelude.

(** ** Programs *)

Inductive prog (Op : Type -> Type) (A : Type) : Type :=
  | Ret (a : A)
  | Do {X : Type} (o : Op X) (k : X -> prog Op A).
Arguments Ret {Op A} a.
Arguments Do {Op A X} o k.

Fixpoint prog_bind_def {Op A B} (h : A -> prog Op B) (p : prog Op A) : prog Op B :=
  match p with
  | Ret a => h a
  | Do o k => Do o (fun x => prog_bind_def h (k x))
  end.

#[export] Instance prog_ret {Op} : MRet (prog Op) := fun A a => Ret a.
#[export] Instance prog_bind {Op} : MBind (prog Op) := fun A B h p => prog_bind_def h p.

(** ** The machine *)

Section machine.
Context {W : Type} {Op : Type -> Type}.
Context (exec : forall X, Op X -> W -> X * W).
Context (advance : Z -> W -> W).
Context (wake : W -> bool).
Context (handlers frames : list (prog Op unit)).

(** [cmain = None]: the main loop spins in its wait for the next frame. *)
Record config : Type := Config {
  cmain : option (prog Op unit);
  cstack : list (prog Op unit);
  cworld : W
}.

Inductive step : config -> config -> Prop :=
  | step_time d m st w :
      0 <= d -> step (Config m st w) (Config m st (advance d w))
  | step_irq h m st w :
      h ∈ handlers -> step (Config m st w) (Config m (h :: st) w)
  | step_handler {X} (o : Op X) k m st w :
      step (Config m (Do o k :: st) w)
           (Config m (k (exec X o w).1 :: st) (exec X o w).2)
  | step_return u m st w :
      step (Config m (Ret u :: st) w) (Config m st w)
  | step_main {X} (o : Op X) k w :
      step (Config (Some (Do o k)) [] w)
           (Config (Some (k (exec X o w).1)) [] (exec X o w).2)
  | step_end u w :
      step (Config (Some (Ret u)) [] w) (Config None [] w)
  | step_wake p w :
      wake w = true -> p ∈ frames -> step (Config None [] w) (Config (Some p) [] w).

Definition reachable (w0 : W) (c : config) : Prop := rtc step (Config None [] w0) c.

(** An executable scheduler, for concrete runs. *)
Inductive choice : Type :=
  | CTime (d : Z)
  | CIrq (i : nat)
  | CRun
  | CWake (i : nat).

Definition sched1 (ch : choice) (c : config) : option config :=
  match ch, c with
  | CTime d, Config m st w => if 0 <=? d then Some (Config m st (advance d w)) else None
  | CIrq i, Config m st w => h ← handlers !! i; Some (Config m (h :: st) w)
  | CRun, Config m (Do o k :: st) w => Some (Config m (k (exec _ o w).1 :: st) (exec _ o w).2)
  | CRun, Config m (Ret u :: st) w => Some (Config m st w)
  | CRun, Config (Some (Do o k)) [] w => Some (Config (Some (k (exec _ o w).1)) [] (exec _ o w).2)
  | CRun, Config (Some (Ret _)) [] w => Some (Config None [] w)
  | CWake i, Config None [] w =>
      if wake w then p ← frames !! i; Some (Config (Some p) [] w) else None
  | _, _ => None
  end.

Fixpoint sched (chs : list choice) (c : config) : option config :=
  match chs with
  | [] => Some c
  | ch :: chs => c' ← sched1 ch c; sched chs c'
  end.

Lemma sched1_step ch c c' : sched1 ch c = Some c' -> step c c'.
Proof.
  destruct ch as [d|i| |i], c as [m st w]; cbn.
  - destruct (Z.leb_spec 0 d); [|done]. intros [= <-]. by constructor.
  - intros (h & Hh & [= <-])%bind_Some. constructor. by eapply list_elem_of_lookup_2.
  - destruct st as [|[u|X o k] st]; destruct m as [[u'|X' o' k']|]; intros ?; simplify_eq;
      first [apply step_handler | apply step_return | apply step_main | apply step_end].
  - destruct m, st; try done. destruct (wake w) eqn:E; [|done].
    intros (p & Hp & [= <-])%bind_Some. constructor; [done|]. by eapply list_elem_of_lookup_2.
Qed.

Lemma sched_steps chs c c' : sched chs c = Some c' -> rtc step c c'.
Proof.
  revert c. induction chs as [|ch chs IH]; intros c; cbn.
  - intros [= <-]. constructor.
  - intros (c1 & H1 & H2)%bind_Some. eapply rtc_l; [by eapply sched1_step | by apply IH].
Qed.

(** A program run with no interrupt. *)
Fixpoint run {A} (p : prog Op A) (w : W) : A * W :=
  match p with
  | Ret a => (a, w)
  | Do o k => run (k (exec _ o w).1) (exec _ o w).2
  end.

Lemma run_bind {A B} (p : prog Op A) (h : A -> prog Op B) w :
  run (p ≫= h) w = run (h (run p w).1) (run p w).2.
Proof. revert w. induction p as [a|X o k IH]; intros w; cbn; [done|]. apply IH. Qed.

(** ** The contract *)

(** [inv] holds in every reachable world.  [hrely b w w'] is what the
    handlers may do to a world [w] while the main program is stopped in [b].
    [good w o] is what must hold of an operation [o] the main program
    performs in [w].  [idle w] is what a frame leaves for the next one. *)
Section safety.
Context (inv idle : W -> Prop) (hrely : W -> W -> W -> Prop).
Context (good : forall X, W -> Op X -> Prop).

Fixpoint hsafe (b : W) (p : prog Op unit) (w : W) : Prop :=
  match p with
  | Ret _ => True
  | Do o k => forall w', hrely b w w' -> inv w' ->
      inv (exec _ o w').2 /\ hrely b w' (exec _ o w').2 /\
      hsafe b (k (exec _ o w').1) (exec _ o w').2
  end.

Fixpoint safe (p : prog Op unit) (w : W) : Prop :=
  match p with
  | Ret _ => forall w', hrely w w w' -> inv w' -> idle w'
  | Do o k => forall w', hrely w w w' -> inv w' ->
      good _ w' o /\ inv (exec _ o w').2 /\ safe (k (exec _ o w').1) (exec _ o w').2
  end.
End safety.

Class InterruptSpec (inv idle : W -> Prop) (hrely : W -> W -> W -> Prop)
    (good : forall X, W -> Op X -> Prop) : Prop := {
  hrely_refl b w : hrely b w w;
  hrely_trans b w1 w2 w3 : hrely b w1 w2 -> hrely b w2 w3 -> hrely b w1 w3;
  hrely_rebase b w w' : hrely b b w -> hrely w w w' -> hrely b b w';
  advance_rely b d w : 0 <= d -> hrely b w (advance d w);
  advance_inv d w : 0 <= d -> inv w -> inv (advance d w);
  handlers_safe b h w : h ∈ handlers -> hrely b b w -> inv w -> hsafe inv hrely b h w;
  idle_stable w w' : idle w -> hrely w w w' -> inv w' -> idle w';
  frames_safe p w : p ∈ frames -> inv w -> idle w -> safe inv idle hrely good p w
}.

Section soundness.
Context {inv idle : W -> Prop} {hrely : W -> W -> W -> Prop} {good : forall X, W -> Op X -> Prop}.
Context {SPEC : InterruptSpec inv idle hrely good}.

#[local] Hint Extern 2 (hrely _ _ _) => (eapply hrely_trans; eassumption) : core.
#[local] Hint Extern 1 (hrely _ ?w ?w) => apply hrely_refl : core.
#[local] Hint Extern 1 (hsafe _ _ _ _ _) => (apply handlers_safe; assumption) : core.

Lemma hsafe_mono b p w w' :
  hrely b w w' -> hsafe inv hrely b p w -> hsafe inv hrely b p w'.
Proof.
  destruct p as [u|X o k]; cbn; [done|]. intros Hr H w'' Hr'.
  apply H. by eapply hrely_trans.
Qed.

Lemma safe_mono p w w' :
  hrely w w w' -> safe inv idle hrely good p w -> safe inv idle hrely good p w'.
Proof.
  destruct p as [u|X o k]; cbn; intros Hr H w'' Hr'; apply H; by eapply hrely_rebase.
Qed.

Lemma safe_run p w :
  safe inv idle hrely good p w -> inv w -> inv (run p w).2 /\ idle (run p w).2.
Proof.
  revert w. induction p as [u|X o k IH]; cbn; intros w Hs Hi.
  - split; [done|]. apply Hs; [apply hrely_refl | done].
  - destruct (Hs w) as (_ & Hi' & Hs'); [apply hrely_refl | done |]. by apply IH.
Qed.

Definition config_ok (c : config) : Prop :=
  inv (cworld c) /\
  exists b, hrely b b (cworld c) /\
    Forall (fun p => hsafe inv hrely b p (cworld c)) (cstack c) /\
    from_option (fun p => safe inv idle hrely good p b) (idle b) (cmain c).

Lemma step_ok c c' : step c c' -> config_ok c -> config_ok c'.
Proof.
  assert (forall b w w' st, hrely b w w' ->
    Forall (fun p => hsafe inv hrely b p w) st -> Forall (fun p => hsafe inv hrely b p w') st) as Hst.
  { intros b w w' st Hr. apply Forall_impl. intros p. by apply hsafe_mono. }
  destruct 1 as [d m st w Hd|h m st w Hh|X o k m st w|u m st w|X o k w|u w|p w Hw Hp];
    intros (Hinv & b & Hb & Hs & Hm); cbn in *.
  - pose proof (advance_rely b d w Hd). split; [by apply advance_inv|].
    exists b; cbn. eauto.
  - split; [done|]. exists b; cbn. eauto.
  - apply Forall_cons_1 in Hs as [Hp Hs].
    destruct (Hp w) as (Hi & Hg & Hn); [apply hrely_refl | done |].
    split; [done|]. exists b; cbn. eauto.
  - apply Forall_cons_1 in Hs as [_ Hs]. split; [done|]. by exists b.
  - destruct (Hm w Hb Hinv) as (_ & Hi & Hn). split; [done|].
    exists (exec X o w).2; cbn. eauto.
  - split; [done|]. exists w; cbn. eauto.
  - split; [done|]. exists w; cbn. split_and!; [apply hrely_refl | done |].
    apply frames_safe; [done..|]. by eapply idle_stable.
Qed.

Lemma reachable_ok w0 c : inv w0 -> idle w0 -> reachable w0 c -> config_ok c.
Proof.
  intros H0 Hi0 Hr. unfold reachable in Hr.
  assert (config_ok (Config None [] w0)) as Hok.
  { split; [done|]. exists w0; cbn. eauto. }
  revert Hok. induction Hr; eauto using step_ok.
Qed.

(** The invariant holds in every reachable world, and every operation the
    main program is about to perform is a good one. *)
Lemma reachable_inv w0 c : inv w0 -> idle w0 -> reachable w0 c -> inv (cworld c).
Proof. intros H0 Hi0 Hr. apply (reachable_ok w0 c H0 Hi0 Hr). Qed.

Lemma reachable_good w0 {X} (o : Op X) k w :
  inv w0 -> idle w0 -> reachable w0 (Config (Some (Do o k)) [] w) -> good X w o.
Proof.
  intros H0 Hi0 Hr. destruct (reachable_ok w0 _ H0 Hi0 Hr) as (Hinv & b & Hb & _ & Hm).
  by destruct (Hm w Hb Hinv).
Qed.
End soundness.
End machine.

Arguments Config {W Op} cmain cstack cworld.
Arguments cmain {W Op} c.
Arguments cstack {W Op} c.
Arguments cworld {W Op} c.
