(* ===== verification/Sampling.v ===== *)
(** * Latency sampling (firmware/src/main.c)

    The measurement itself: the three interrupt handlers, the sampling state
    machine of [do_sampling], the sample history, and the wait for the
    vertical blank, as programs over the globals they share.  The theorems are
    about every interleaving of the main loop with the handlers
    ([Interrupts.reachable]): what a recorded sample means, how the state
    machine moves and how long it stays in its states. *)

From S2P Require Import Prelude Clock Interrupts.

Definition WAIT_CLEAR_TICKS : Z := CLOCK_MS_TO_TICKS 200.
Definition MIN_SAMPLE_TICKS : Z := CLOCK_MS_TO_TICKS 200.
Definition MAX_SAMPLE_TICKS : Z := CLOCK_MS_TO_TICKS 500.

Definition HISTORY_SIZE : Z := 16.

(** [State] and [SampleStatus]: C enumerations are ints. *)
Definition ST_CLEAR : Z := 0.
Definition ST_WAIT_CLEAR : Z := 1.
Definition ST_START_SAMPLE : Z := 2.
Definition ST_WAIT_SAMPLE : Z := 3.
Definition ST_END_SAMPLE : Z := 4.

Definition NO_SAMPLE : Z := 0.
Definition NEW_SAMPLE : Z := 1.
Definition MISSING_SAMPLE : Z := 2.

(** ** Globals *)

Inductive var : Type :=
  | vblank_int_count
  | vblank_count
  | sample_seq
  | frame_seq
  | sensor_seq
  | frame_ticks
  | sensor_ticks
  | state
  | state_start_ticks
  | samples (i : Z)
  | latest_sample
  | sample_idx
  | sample_status
  | palette_ram (i : Z).

Definition var_eqb (a b : var) : bool :=
  match a, b with
  | vblank_int_count, vblank_int_count | vblank_count, vblank_count
  | sample_seq, sample_seq | frame_seq, frame_seq | sensor_seq, sensor_seq
  | frame_ticks, frame_ticks | sensor_ticks, sensor_ticks
  | state, state | state_start_ticks, state_start_ticks
  | latest_sample, latest_sample | sample_idx, sample_idx
  | sample_status, sample_status => true
  | samples i, samples j | palette_ram i, palette_ram j => i =? j
  | _, _ => false
  end.

(** The conversion a store to each object makes. *)
Definition conv (v : var) (x : Z) : Z :=
  match v with
  | sample_seq | frame_seq | sensor_seq | palette_ram _ => u16 x
  | state | sample_status => i32 x
  | _ => u32 x
  end.

(** The globals, the true time in ticks since the counter was zero, and six
    history variables that the programs cannot read: how many samples were
    started and when the last one was ([sample_seq++]), for which of them the
    frame and the sensor were last captured, when [state] was last stored, and
    the samples stored in the history, in order. *)
Record world : Type := World {
  mem : var -> Z;
  now : Z;
  started : Z;
  start_time : Z;
  framed : Z;
  sensed : Z;
  state_at : Z;
  recorded : list Z
}.

Inductive op : Type -> Type :=
  | Get (v : var) : op Z
  | Put (v : var) (x : Z) : op unit
  | Clock : op Z.

Definition store (v : var) (x : Z) (w : world) : world :=
  {| mem := fun u => if var_eqb u v then conv v x else mem w u;
     now := now w;
     started := match v with sample_seq => started w + 1 | _ => started w end;
     start_time := match v with sample_seq => now w | _ => start_time w end;
     framed := match v with frame_seq => started w | _ => framed w end;
     sensed := match v with sensor_seq => started w | _ => sensed w end;
     state_at := match v with state => now w | _ => state_at w end;
     recorded := match v with samples _ => recorded w ++ [conv v x] | _ => recorded w end |}.

Definition exec (X : Type) (o : op X) (w : world) : X * world :=
  match o with
  | Get v => (mem w v, w)
  | Put v x => (tt, store v x w)
  | Clock => (u32 (now w), w)
  end.

Definition advance (d : Z) (w : world) : world :=
  {| mem := mem w; now := now w + d; started := started w; start_time := start_time w;
     framed := framed w; sensed := sensed w; state_at := state_at w; recorded := recorded w |}.

(** The zero-initialised globals. *)
Definition world0 : world :=
  {| mem := fun _ => 0; now := 0; started := 0; start_time := 0; framed := 0;
     sensed := 0; state_at := 0; recorded := [] |}.

Definition get (v : var) : prog op Z := Do (Get v) Ret.
Definition put (v : var) (x : Z) : prog op unit := Do (Put v x) Ret.
Definition clock : prog op Z := Do Clock Ret.
Definition skip : prog op unit := Ret tt.

(** ** Interrupt handlers *)

Definition level2_handler : prog op unit :=
  n ← get vblank_int_count;
  put vblank_int_count (n + 1).

Definition level4_handler : prog op unit :=
  fs ← get frame_seq;
  ss ← get sample_seq;
  if fs =? ss then skip
  else
    t ← clock;
    put frame_ticks t;;
    ss ← get sample_seq;
    put frame_seq ss.

Definition level6_handler : prog op unit :=
  fs ← get sensor_seq;
  ss ← get sample_seq;
  if fs =? ss then skip
  else
    t ← clock;
    put sensor_ticks t;;
    ss ← get sample_seq;
    put sensor_seq ss.

Definition handlers : list (prog op unit) := [level2_handler; level4_handler; level6_handler].

(** ** Main program *)

Definition set_state (s : Z) : prog op unit :=
  put state s;;
  t ← clock;
  put state_start_ticks t.

Definition record_new_sample (ticks : Z) : prog op unit :=
  put latest_sample ticks;;
  i ← get sample_idx;
  put (samples (i mod HISTORY_SIZE)) ticks;;
  i ← get sample_idx;
  put sample_idx (i + 1);;
  put sample_status NEW_SAMPLE.

Definition record_missing_sample : prog op unit :=
  put sample_status MISSING_SAMPLE.

(** The [switch (state)] of [do_sampling]. *)
Definition sample_switch (state_ticks st : Z) : prog op unit :=
  if st =? ST_CLEAR then
    put (palette_ram 0x80) 0x0000;;
    set_state ST_WAIT_CLEAR
  else if st =? ST_WAIT_CLEAR then
    if WAIT_CLEAR_TICKS <=? state_ticks then set_state ST_START_SAMPLE else skip
  else if st =? ST_START_SAMPLE then
    set_state ST_WAIT_SAMPLE;;
    put (palette_ram 0x80) 0xffff;;
    n ← get sample_seq;
    put sample_seq (n + 1)
  else if st =? ST_WAIT_SAMPLE then
    if state_ticks <? MIN_SAMPLE_TICKS then skip
    else if MAX_SAMPLE_TICKS <? state_ticks then
      set_state ST_CLEAR;;
      record_missing_sample
    else
      n ← get sample_seq;
      f ← get frame_seq;
      if negb (n =? f) then skip
      else
        n ← get sample_seq;
        s ← get sensor_seq;
        if negb (n =? s) then skip
        else
          set_state ST_CLEAR;;
          ft ← get frame_ticks;
          st ← get sensor_ticks;
          if st <=? ft then record_missing_sample
          else
            st ← get sensor_ticks;
            ft ← get frame_ticks;
            record_new_sample (u32 (st - ft))
  else set_state ST_CLEAR.

(** [do_sampling], less its drawing and its status lines (which touch no
    shared object): the switch and the reset of [sample_status]. *)
Definition do_sampling : prog op unit :=
  cur_ticks ← clock;
  start ← get state_start_ticks;
  let state_ticks := u32 (cur_ticks - start) in
  st ← get state;
  sample_switch state_ticks st;;
  put sample_status NO_SAMPLE.

(** The end of [wait_vblank], once the counts differ. *)
Definition wait_vblank_end : prog op unit :=
  n ← get vblank_int_count;
  put vblank_count n.

(** The loop condition of [wait_vblank]: a frame starts when it is false. *)
Definition vblank_seen (w : world) : bool := negb (mem w vblank_count =? mem w vblank_int_count).

(** What the main loop runs in a frame: with the sampling state machine in
    [MODE_SAMPLING], without it in the other modes. *)
Definition sampling_frame : prog op unit := wait_vblank_end;; do_sampling.
Definition other_frame : prog op unit := wait_vblank_end.
Definition frames : list (prog op unit) := [sampling_frame; other_frame].

Abbreviation mstep := (step exec advance vblank_seen handlers frames).
Abbreviation mreachable := (reachable exec advance vblank_seen handlers frames).
Abbreviation msched := (sched exec advance vblank_seen handlers frames).

(** ** The contract of the handlers and the state machine *)

Definition CYCLE_TICKS : Z := WAIT_CLEAR_TICKS + MIN_SAMPLE_TICKS.

(** The objects the handlers write. *)
Definition handler_var (v : var) : bool :=
  match v with
  | vblank_int_count | frame_seq | sensor_seq | frame_ticks | sensor_ticks => true
  | _ => false
  end.

(** [ticks] holds the clock at some moment since the current sample began. *)
Definition since_start (w : world) (ticks : var) : Prop :=
  exists t, start_time w <= t <= now w /\ mem w ticks = u32 t.

Record hrely (b w w' : world) : Prop := {
  r_now : now w <= now w';
  r_started : started w' = started w;
  r_start : start_time w' = start_time w;
  r_state_at : state_at w' = state_at w;
  r_mem v : handler_var v = false -> mem w' v = mem w v;
  r_frame : since_start w frame_ticks -> since_start w' frame_ticks;
  r_sensor : since_start w sensor_ticks -> since_start w' sensor_ticks;
  r_frame_cap : mem b frame_seq = mem b sample_seq ->
    mem w' frame_seq = mem w frame_seq /\ mem w' frame_ticks = mem w frame_ticks;
  r_sensor_cap : mem b sensor_seq = mem b sample_seq ->
    mem w' sensor_seq = mem w sensor_seq /\ mem w' sensor_ticks = mem w sensor_ticks
}.

(** When the state machine is in a state, at least so much time has gone by:
    each sample takes [CYCLE_TICKS] or more. *)
Definition cycle_bound (w : world) : Prop :=
  let st := mem w state in
  let n := started w in
  (st = ST_CLEAR \/ st = ST_WAIT_CLEAR -> n * CYCLE_TICKS - WAIT_CLEAR_TICKS <= state_at w) /\
  (st = ST_START_SAMPLE -> n * CYCLE_TICKS <= state_at w) /\
  (st = ST_WAIT_SAMPLE -> (n - 1) * CYCLE_TICKS <= state_at w).

Record inv (w : world) : Prop := {
  i_state_at : 0 <= state_at w <= now w;
  i_start : start_time w <= now w;
  i_seq : mem w sample_seq = u16 (started w);
  i_framed : mem w frame_seq = u16 (framed w) /\ 0 <= framed w <= started w;
  i_sensed : mem w sensor_seq = u16 (sensed w) /\ 0 <= sensed w <= started w;
  i_frame : framed w = started w -> since_start w frame_ticks;
  i_sensor : sensed w = started w -> since_start w sensor_ticks;
  i_frame_u32 : is_u32 (mem w frame_ticks);
  i_sensor_u32 : is_u32 (mem w sensor_ticks);
  i_state : ST_CLEAR <= mem w state <= ST_WAIT_SAMPLE;
  i_cycle : cycle_bound w
}.

(** Between frames [state_start_ticks] holds the clock at some moment since
    [state] was stored. *)
Definition idle (w : world) : Prop :=
  exists t, state_at w <= t <= now w /\ mem w state_start_ticks = u32 t.

(** The transitions of the sampling state machine. *)
Inductive next_state : Z -> Z -> Prop :=
  | next_clear : next_state ST_CLEAR ST_WAIT_CLEAR
  | next_wait_clear : next_state ST_WAIT_CLEAR ST_START_SAMPLE
  | next_start : next_state ST_START_SAMPLE ST_WAIT_SAMPLE
  | next_wait : next_state ST_WAIT_SAMPLE ST_CLEAR.

(** The least time spent in a state. *)
Definition min_stay (st : Z) : Z :=
  if st =? ST_WAIT_CLEAR then WAIT_CLEAR_TICKS
  else if st =? ST_WAIT_SAMPLE then MIN_SAMPLE_TICKS
  else 0.

(** What the main program's stores are. *)
Definition good (X : Type) (w : world) (o : op X) : Prop :=
  match o with
  | Put state s => next_state (mem w state) s /\ state_at w + min_stay (mem w state) <= now w
  | Put sample_seq n =>
      mem w (palette_ram 0x80) = 0xffff /\ mem w state = ST_WAIT_SAMPLE /\
      n = mem w sample_seq + 1
  | Put latest_sample d =>
      mem w frame_seq = mem w sample_seq /\ mem w sensor_seq = mem w sample_seq /\
      mem w frame_ticks < mem w sensor_ticks /\ d = mem w sensor_ticks - mem w frame_ticks
  | Put v _ => handler_var v = false
  | _ => True
  end.

(** ** Laws of the rely relation *)

Lemma since_start_mono w w' v :
  now w <= now w' -> start_time w' = start_time w -> mem w' v = mem w v ->
  since_start w v -> since_start w' v.
Proof. intros Hn Hs Hm (t & Ht & E). exists t. rewrite Hm, Hs. split; [lia|done]. Qed.

Lemma hrely_refl' b w : hrely b w w.
Proof. constructor; auto; lia. Qed.

Lemma hrely_trans' b w1 w2 w3 : hrely b w1 w2 -> hrely b w2 w3 -> hrely b w1 w3.
Proof.
  intros [] []; constructor; eauto with lia; try congruence.
  intros v Hv. rewrite r_mem1, r_mem0; done.
Qed.

Lemma hrely_captured b w :
  hrely b b w ->
  (mem b frame_seq = mem b sample_seq -> mem w frame_seq = mem w sample_seq) /\
  (mem b sensor_seq = mem b sample_seq -> mem w sensor_seq = mem w sample_seq).
Proof.
  intros []. rewrite (r_mem0 sample_seq eq_refl). split; intros Hb.
  - destruct (r_frame_cap0 Hb). congruence.
  - destruct (r_sensor_cap0 Hb). congruence.
Qed.

Lemma hrely_rebase' b w w' : hrely b b w -> hrely w w w' -> hrely b b w'.
Proof.
  intros H1 H2. destruct (hrely_captured b w H1) as [Hf Hs].
  apply (hrely_trans' b b w w' H1). destruct H2. constructor; auto.
Qed.

Lemma advance_rely' b d w : 0 <= d -> hrely b w (advance d w).
Proof.
  intros Hd. constructor; cbn; auto; try lia; apply since_start_mono; cbn; auto; lia.
Qed.

Lemma advance_inv' d w : 0 <= d -> inv w -> inv (advance d w).
Proof.
  intros Hd []. constructor; cbn; auto; try lia;
    intros; (eapply since_start_mono; [| | |eauto]); cbn; auto; lia.
Qed.

(** ** The handlers keep the contract *)

Lemma vblank_store_ok b w x :
  inv w -> inv (store vblank_int_count x w) /\ hrely b w (store vblank_int_count x w).
Proof. intros []. split; constructor; cbn; auto; try lia; intros []; done. Qed.

Lemma frame_ticks_store_ok b w t :
  inv w -> start_time w <= t <= now w ->
  mem b frame_seq <> mem b sample_seq ->
  let w' := store frame_ticks (u32 t) w in
  inv w' /\ hrely b w w' /\ since_start w' frame_ticks.
Proof.
  intros [] Ht Hb w'. assert (since_start w' frame_ticks) as Hv.
  { exists t. cbn. by rewrite u32_idemp. }
  split_and!; [constructor; cbn; auto with word..| |done].
  constructor; cbn; auto; try lia; try done. intros []; done.
Qed.

Lemma frame_seq_store_ok b w :
  inv w -> since_start w frame_ticks ->
  mem b frame_seq <> mem b sample_seq ->
  let w' := store frame_seq (mem w sample_seq) w in
  inv w' /\ hrely b w w'.
Proof.
  intros [] Ht Hb w'. split; constructor; cbn; auto; try lia; try done.
  - rewrite i_seq0, u16_idemp. split; [done|lia].
  - intros []; done.
Qed.

Lemma sensor_ticks_store_ok b w t :
  inv w -> start_time w <= t <= now w ->
  mem b sensor_seq <> mem b sample_seq ->
  let w' := store sensor_ticks (u32 t) w in
  inv w' /\ hrely b w w' /\ since_start w' sensor_ticks.
Proof.
  intros [] Ht Hb w'. assert (since_start w' sensor_ticks) as Hv.
  { exists t. cbn. by rewrite u32_idemp. }
  split_and!; [constructor; cbn; auto with word..| |done].
  constructor; cbn; auto; try lia; try done. intros []; done.
Qed.

Lemma sensor_seq_store_ok b w :
  inv w -> since_start w sensor_ticks ->
  mem b sensor_seq <> mem b sample_seq ->
  let w' := store sensor_seq (mem w sample_seq) w in
  inv w' /\ hrely b w w'.
Proof.
  intros [] Ht Hb w'. split; constructor; cbn; auto; try lia; try done.
  - rewrite i_seq0, u16_idemp. split; [done|lia].
  - intros []; done.
Qed.

#[local] Hint Resolve hrely_refl' : core.

(** One operation of a handler that only reads. *)
Ltac handler_read w' R I :=
  intros w' R I; split_and!; [exact I | apply hrely_refl' |].

Lemma level2_safe b w : hrely b b w -> inv w -> hsafe exec inv hrely b level2_handler w.
Proof.
  intros Hb Hi. cbn. handler_read w1 R1 I1. intros w2 R2 I2.
  destruct (vblank_store_ok b w2 (mem w1 vblank_int_count + 1) I2). done.
Qed.

Lemma level4_safe b w : hrely b b w -> inv w -> hsafe exec inv hrely b level4_handler w.
Proof.
  intros Hb Hi. cbn. handler_read w1 R1 I1. handler_read w2 R2 I2.
  destruct (Z.eqb_spec (mem w1 frame_seq) (mem w2 sample_seq)) as [E|E]; cbn; [done|].
  assert (mem b frame_seq <> mem b sample_seq) as Hc.
  { intros Hc. apply E. rewrite (r_mem _ _ _ R2) by done.
    by apply (hrely_captured b w1); [eapply hrely_trans'|]. }
  handler_read w3 R3 I3. intros w4 R4 I4.
  destruct (frame_ticks_store_ok b w4 (now w3) I4) as (I4' & R4' & V); [|done|].
  { pose proof (i_start _ I3). rewrite (r_start _ _ _ R4). pose proof (r_now _ _ _ R4). lia. }
  split_and!; [done..|]. handler_read w5 R5 I5. intros w6 R6 I6.
  rewrite <- (r_mem _ _ _ R6 sample_seq) by done.
  destruct (frame_seq_store_ok b w6 I6); [|done..].
  by eapply r_frame, r_frame.
Qed.

Lemma level6_safe b w : hrely b b w -> inv w -> hsafe exec inv hrely b level6_handler w.
Proof.
  intros Hb Hi. cbn. handler_read w1 R1 I1. handler_read w2 R2 I2.
  destruct (Z.eqb_spec (mem w1 sensor_seq) (mem w2 sample_seq)) as [E|E]; cbn; [done|].
  assert (mem b sensor_seq <> mem b sample_seq) as Hc.
  { intros Hc. apply E. rewrite (r_mem _ _ _ R2) by done.
    by apply (hrely_captured b w1); [eapply hrely_trans'|]. }
  handler_read w3 R3 I3. intros w4 R4 I4.
  destruct (sensor_ticks_store_ok b w4 (now w3) I4) as (I4' & R4' & V); [|done|].
  { pose proof (i_start _ I3). rewrite (r_start _ _ _ R4). pose proof (r_now _ _ _ R4). lia. }
  split_and!; [done..|]. handler_read w5 R5 I5. intros w6 R6 I6.
  rewrite <- (r_mem _ _ _ R6 sample_seq) by done.
  destruct (sensor_seq_store_ok b w6 I6); [|done..].
  by eapply r_sensor, r_sensor.
Qed.

(** ** The state machine keeps the contract *)

(** The objects only the main program uses and no invariant speaks of. *)
Definition quiet (v : var) : bool :=
  match v with
  | vblank_count | samples _ | latest_sample | sample_idx | sample_status | palette_ram _ => true
  | _ => false
  end.

Lemma quiet_store v x w :
  quiet v = true ->
  (inv w -> inv (store v x w)) /\ (idle w -> idle (store v x w)) /\
  (forall u, quiet u = false -> mem (store v x w) u = mem w u).
Proof.
  intros Hq. split_and!.
  - intros []. destruct v; try done; constructor; cbn; auto.
  - intros (t & Ht & E). exists t. by destruct v.
  - intros u Hu. destruct v, u; done.
Qed.

Lemma start_ticks_store w t :
  inv w -> state_at w <= t <= now w ->
  inv (store state_start_ticks (u32 t) w) /\ idle (store state_start_ticks (u32 t) w).
Proof.
  intros [] Ht. split; [constructor; cbn; auto|]. exists t. cbn. by rewrite u32_idemp.
Qed.

Lemma cycle_ticks_value :
  CYCLE_TICKS = 4000000 /\ WAIT_CLEAR_TICKS = 2000000 /\ MIN_SAMPLE_TICKS = 2000000 /\
  MAX_SAMPLE_TICKS = 5000000.
Proof. done. Qed.

Ltac ticks_lia :=
  pose proof cycle_ticks_value as (? & ? & ? & ?);
  unfold ST_CLEAR, ST_WAIT_CLEAR, ST_START_SAMPLE, ST_WAIT_SAMPLE in *; lia.

Lemma state_store_inv w s :
  inv w -> next_state (mem w state) s -> state_at w + min_stay (mem w state) <= now w ->
  inv (store state s w).
Proof.
  intros [] Hn Ht. destruct i_cycle0 as (H1 & H2 & H3).
  assert (ST_CLEAR <= s <= ST_WAIT_SAMPLE) as Hs by (destruct Hn; done).
  constructor; cbn; auto; try lia.
  - rewrite i32_small; ticks_lia.
  - unfold cycle_bound. cbn. rewrite i32_small by ticks_lia.
    inversion Hn as [E1 E2|E1 E2|E1 E2|E1 E2]; rewrite <- E1 in *; unfold min_stay in Ht; cbn in Ht;
      split_and!; intros; ticks_lia.
Qed.

(** Both handlers have captured the current sample, with these clock values. *)
Definition captured (a c : Z) (w : world) : Prop :=
  mem w frame_seq = mem w sample_seq /\ mem w sensor_seq = mem w sample_seq /\
  mem w frame_ticks = a /\ mem w sensor_ticks = c.

Lemma captured_rely a c w w' : hrely w w w' -> captured a c w -> captured a c w'.
Proof.
  intros [] (Hf & Hs & Ha & Hc).
  destruct (r_frame_cap0 Hf), (r_sensor_cap0 Hs). unfold captured.
  rewrite (r_mem0 sample_seq eq_refl). split_and!; congruence.
Qed.

Lemma idle_rely w w' : hrely w w w' -> idle w -> idle w'.
Proof.
  intros [] (t & Ht & E). exists t. rewrite r_mem0, r_state_at0 by done. split; [lia|done].
Qed.

Abbreviation msafe := (safe exec inv idle hrely good).

(** A store to a quiet object. *)
Lemma safe_put_quiet v x k w :
  quiet v = true ->
  (forall w', hrely w w w' -> inv w' -> good unit w' (Put v x)) ->
  (forall w', hrely w w w' -> inv w' -> inv (store v x w') -> msafe (k tt) (store v x w')) ->
  msafe (Do (Put v x) k) w.
Proof.
  intros Hq Hg Hk w' Hr Hi. pose proof (proj1 (quiet_store v x w' Hq) Hi) as Hi'.
  split_and!; [by apply Hg | done | by apply Hk].
Qed.

Lemma safe_get v k w :
  (forall w', hrely w w w' -> inv w' -> msafe (k (mem w' v)) w') -> msafe (Do (Get v) k) w.
Proof. intros Hk w' Hr Hi. split_and!; [done | done | by apply Hk]. Qed.

Lemma safe_set_state s k w :
  next_state (mem w state) s -> state_at w + min_stay (mem w state) <= now w ->
  (forall w', inv w' -> idle w' -> mem w' state = s -> now w <= state_at w' ->
     started w' = started w ->
     (forall a c, captured a c w -> captured a c w') -> msafe (k tt) w') ->
  msafe (set_state s ≫= k) w.
Proof.
  intros Hn Ht Hk. cbn. intros w1 R1 I1.
  assert (next_state (mem w1 state) s) as Hn1 by (by rewrite (r_mem _ _ _ R1)).
  assert (state_at w1 + min_stay (mem w1 state) <= now w1) as Ht1.
  { rewrite (r_mem _ _ _ R1), (r_state_at _ _ _ R1) by done. pose proof (r_now _ _ _ R1). lia. }
  assert (i32 s = s) as Es.
  { destruct Hn; reflexivity. }
  split_and!; [done | done | by apply state_store_inv |].
  intros w2 R2 I2. split_and!; [done..|]. intros w3 R3 I3.
  destruct (start_ticks_store w3 (now w2) I3) as [I3' D3].
  { pose proof (i_state_at _ I2). pose proof (r_now _ _ _ R3). rewrite (r_state_at _ _ _ R3). lia. }
  split_and!; [done..|]. apply Hk; [done | done | | | |]; cbn.
  - rewrite (r_mem _ _ _ R3), (r_mem _ _ _ R2) by done. cbn. done.
  - rewrite (r_state_at _ _ _ R3), (r_state_at _ _ _ R2). cbn. apply R1.
  - rewrite (r_started _ _ _ R3), (r_started _ _ _ R2). cbn. apply R1.
  - intros a c Hc. apply (captured_rely _ _ _ _ R1) in Hc.
    apply (captured_rely a c w2 w3 R3), (captured_rely a c _ w2 R2), Hc.
Qed.

(** A program that only reads and stores quiet objects. *)
Definition quiet_op {X} (o : op X) : bool :=
  match o with
  | Put latest_sample _ => false
  | Put v _ => quiet v
  | _ => true
  end.

Fixpoint only_quiet (p : prog op unit) : Prop :=
  match p with
  | Ret _ => True
  | Do o k => quiet_op o = true /\ forall x, only_quiet (k x)
  end.

Lemma quiet_op_ok {X} (o : op X) w :
  quiet_op o = true -> inv w -> idle w ->
  good X w o /\ inv (exec X o w).2 /\ idle (exec X o w).2.
Proof.
  destruct o as [v|v x|]; intros Hq Hi Hd; [done| |done].
  assert (quiet v = true) as Hv by (by destruct v).
  destruct (quiet_store v x w Hv) as (H1 & H2 & _).
  split_and!; [by destruct v | by apply H1 | by apply H2].
Qed.

Lemma only_quiet_safe p w : only_quiet p -> inv w -> idle w -> msafe p w.
Proof.
  revert w. induction p as [u|X o k IH]; cbn; intros w.
  - intros _ _ Hd w' Hr _. by eapply idle_rely.
  - intros [Hq Hk] Hi Hd w' Hr Hi'.
    destruct (quiet_op_ok o w' Hq Hi' (idle_rely _ _ Hr Hd)) as (Hg & Hi'' & Hd'').
    split_and!; [done|done|]. by apply IH.
Qed.

Definition finish : prog op unit := put sample_status NO_SAMPLE.

Lemma record_new_safe a c w :
  inv w -> idle w -> captured a c w -> a < c ->
  msafe (record_new_sample (u32 (c - a)) ≫= fun _ => finish) w.
Proof.
  intros Hi Hd Hc Hlt. apply (safe_put_quiet latest_sample); [done|..]; intros w' Hr Hi'.
  - pose proof (captured_rely _ _ _ _ Hr Hc) as (Hf & Hs & Ha & Hcc).
    pose proof (i_frame_u32 _ Hi'). pose proof (i_sensor_u32 _ Hi'). cbn.
    rewrite Ha, Hcc in *. split_and!; [done..|]. apply u32_small. unfold is_u32 in *; lia.
  - intros Hi''. apply only_quiet_safe; [done|done|].
    apply quiet_store; [done|]. by eapply idle_rely.
Qed.

(** What the time stamps of [do_sampling] give: when [state_ticks] is at least
    [n], so much time has gone by since [state] was stored. *)
Lemma elapsed_at_least w w1 w2 n :
  idle w -> hrely w w w1 -> hrely w1 w1 w2 ->
  n <= u32 (u32 (now w1) - mem w2 state_start_ticks) -> state_at w2 + n <= now w2.
Proof.
  intros (t & Ht & E) R1 R2. rewrite (r_mem _ _ _ R2), (r_mem _ _ _ R1), E by done.
  rewrite (r_state_at _ _ _ R2), (r_state_at _ _ _ R1).
  pose proof (r_now _ _ _ R1). pose proof (r_now _ _ _ R2). intros Hn.
  assert (u32 (u32 (now w1) - u32 t) <= now w1 - t); [|lia]. word_lia.
Qed.

Lemma finish_safe w : inv w -> idle w -> msafe finish w.
Proof. intros. by apply only_quiet_safe. Qed.

Lemma switch_clear_safe w :
  inv w -> mem w state = ST_CLEAR ->
  msafe ((put (palette_ram 0x80) 0x0000;; set_state ST_WAIT_CLEAR) ≫= fun _ => finish) w.
Proof.
  intros Hi Hs. apply (safe_put_quiet (palette_ram 0x80)); [done|done|].
  intros w1 R1 I1 I1'. assert (mem w1 state = ST_CLEAR) as E by (by rewrite (r_mem _ _ _ R1)).
  apply (safe_set_state ST_WAIT_CLEAR (fun _ => finish)); cbn; rewrite ?E.
  - constructor.
  - pose proof (i_state_at _ I1). unfold min_stay; cbn. lia.
  - intros w2 I2 D2 _ _ _ _. by apply finish_safe.
Qed.

Lemma sample_seq_store_inv w :
  inv w -> mem w state = ST_WAIT_SAMPLE -> started w * CYCLE_TICKS <= state_at w ->
  inv (store sample_seq (mem w sample_seq + 1) w).
Proof.
  intros [] Hs Hb. constructor; cbn; auto; try lia.
  - rewrite i_seq0. word_lia.
  - unfold cycle_bound. cbn. rewrite Hs. split_and!; ticks_lia.
Qed.

Lemma switch_start_safe w :
  inv w -> mem w state = ST_START_SAMPLE ->
  msafe ((set_state ST_WAIT_SAMPLE;; put (palette_ram 0x80) 0xffff;;
          n ← get sample_seq; put sample_seq (n + 1)) ≫= fun _ => finish) w.
Proof.
  intros Hi Hs.
  apply (safe_set_state ST_WAIT_SAMPLE (fun _ => Do (Put (palette_ram 0x80) 0xffff) (fun _ =>
    Do (Get sample_seq) (fun n => Do (Put sample_seq (n + 1)) (fun _ => finish))))).
  - rewrite Hs. constructor.
  - rewrite Hs. pose proof (i_state_at _ Hi). unfold min_stay; cbn. lia.
  - intros w1 I1 D1 S1 T1 N1 _.
    assert (started w1 * CYCLE_TICKS <= state_at w1) as B1.
    { destruct (i_cycle _ Hi) as (_ & B & _). specialize (B Hs). pose proof (i_state_at _ Hi).
      rewrite N1. lia. }
    apply safe_put_quiet; [done|done|]. intros w2 R2 I2 I2'. apply safe_get. intros w3 R3 I3.
    intros w4 R4 I4.
    assert (forall v, handler_var v = false -> mem w4 v = mem (store (palette_ram 0x80) 0xffff w2) v) as M.
    { intros v Hv. by rewrite (r_mem _ _ _ R4), (r_mem _ _ _ R3). }
    assert (mem w4 state = ST_WAIT_SAMPLE) as S4.
    { rewrite M by done. cbn. by rewrite (r_mem _ _ _ R2). }
    assert (started w4 = started w1 /\ state_at w4 = state_at w1) as [N4 T4].
    { rewrite (r_started _ _ _ R4), (r_started _ _ _ R3), (r_state_at _ _ _ R4), (r_state_at _ _ _ R3).
      cbn. split; apply R2. }
    pose proof (r_mem _ _ _ R4 sample_seq eq_refl) as <-.
    assert (inv (store sample_seq (mem w4 sample_seq + 1) w4)) as I4'.
    { apply sample_seq_store_inv; [done..|]. by rewrite N4, T4. }
    assert (idle w4) as (t & ? & ?).
    { eapply idle_rely, idle_rely; [done..|]. apply quiet_store; [done|]. by eapply idle_rely. }
    split; [split_and!; [by rewrite M | done | done] | split; [done|]].
    apply finish_safe; [done|]. by exists t.
Qed.

(** The end of a sample window, once both handlers have captured it. *)
Lemma switch_captured_safe a c w :
  inv w -> captured a c w -> mem w state = ST_WAIT_SAMPLE ->
  state_at w + MIN_SAMPLE_TICKS <= now w ->
  msafe ((set_state ST_CLEAR;;
          ft ← get frame_ticks; st ← get sensor_ticks;
          if st <=? ft then record_missing_sample
          else st ← get sensor_ticks; ft ← get frame_ticks;
               record_new_sample (u32 (st - ft))) ≫= fun _ => finish) w.
Proof.
  intros Hi Hc Hs Ht.
  apply (safe_set_state ST_CLEAR (fun _ =>
    (ft ← get frame_ticks; st ← get sensor_ticks;
     if st <=? ft then record_missing_sample
     else st ← get sensor_ticks; ft ← get frame_ticks;
          record_new_sample (u32 (st - ft))) ≫= fun _ => finish)).
  - rewrite Hs. constructor.
  - rewrite Hs. done.
  - intros w1 I1 D1 _ _ _ C1. specialize (C1 a c Hc).
    apply safe_get. intros w2 R2 I2. apply safe_get. intros w3 R3 I3.
    pose proof (captured_rely _ _ _ _ R2 C1) as C2. pose proof (captured_rely _ _ _ _ R3 C2) as C3.
    pose proof (idle_rely _ _ R3 (idle_rely _ _ R2 D1)) as D3.
    destruct C2 as (_ & _ & -> & _), C3 as (? & ? & ? & Ec) eqn:E3. rewrite Ec.
    destruct (Z.leb_spec c a); [by apply only_quiet_safe|].
    assert (captured a c w3) as C3' by done.
    apply safe_get. intros w4 R4 I4. apply safe_get. intros w5 R5 I5.
    pose proof (captured_rely _ _ _ _ R4 C3') as C4. pose proof (captured_rely _ _ _ _ R5 C4) as C5.
    destruct C4 as (_ & _ & _ & ->), C5 as (? & ? & Ea & ?) eqn:E5. rewrite Ea.
    apply record_new_safe; [done| |done|done]. by eapply idle_rely, idle_rely.
Qed.

Lemma switch_wait_safe ticks w :
  inv w -> idle w -> mem w state = ST_WAIT_SAMPLE ->
  (forall n, n <= ticks -> state_at w + n <= now w) ->
  msafe (sample_switch ticks ST_WAIT_SAMPLE ≫= fun _ => finish) w.
Proof.
  intros Hi Hd Hs Ht. unfold sample_switch. cbn [Z.eqb Pos.eqb].
  destruct (Z.ltb_spec ticks MIN_SAMPLE_TICKS); [by apply finish_safe|].
  destruct (Z.ltb_spec MAX_SAMPLE_TICKS ticks).
  - apply (safe_set_state ST_CLEAR (fun _ => record_missing_sample ≫= fun _ => finish)).
    + rewrite Hs. constructor.
    + rewrite Hs. by apply Ht.
    + intros w1 I1 D1 _ _ _ _. by apply only_quiet_safe.
  - apply safe_get. intros w1 R1 I1. apply safe_get. intros w2 R2 I2.
    destruct (Z.eqb_spec (mem w1 sample_seq) (mem w2 frame_seq)) as [E1|E1]; cbn [negb];
      [|by apply finish_safe; [|eapply idle_rely, idle_rely]].
    apply safe_get. intros w3 R3 I3. apply safe_get. intros w4 R4 I4.
    destruct (Z.eqb_spec (mem w3 sample_seq) (mem w4 sensor_seq)) as [E2|E2]; cbn [negb];
      [|by apply finish_safe; [|eapply idle_rely, idle_rely, idle_rely, idle_rely]].
    pose proof (r_mem _ _ _ R2 sample_seq eq_refl) as M2.
    pose proof (hrely_captured _ _ (hrely_rebase' _ _ _ R3 R4)) as [Cf _].
    apply (switch_captured_safe (mem w4 frame_ticks) (mem w4 sensor_ticks)); [done| | |].
    + split_and!; [| |done|done].
      * apply Cf. congruence.
      * rewrite <- E2. symmetry. by apply R4.
    + by rewrite (r_mem _ _ _ R4), (r_mem _ _ _ R3), (r_mem _ _ _ R2), (r_mem _ _ _ R1).
    + rewrite (r_state_at _ _ _ R4), (r_state_at _ _ _ R3), (r_state_at _ _ _ R2), (r_state_at _ _ _ R1).
      pose proof (r_now _ _ _ R4). pose proof (r_now _ _ _ R3). pose proof (r_now _ _ _ R2).
      pose proof (r_now _ _ _ R1). specialize (Ht MIN_SAMPLE_TICKS). lia.
Qed.

Lemma switch_safe ticks w :
  inv w -> idle w ->
  (forall n, n <= ticks -> state_at w + n <= now w) ->
  msafe (sample_switch ticks (mem w state) ≫= fun _ => finish) w.
Proof.
  intros Hi Hd Ht. pose proof (i_state _ Hi) as Hs.
  assert (mem w state = ST_CLEAR \/ mem w state = ST_WAIT_CLEAR \/ mem w state = ST_START_SAMPLE \/
    mem w state = ST_WAIT_SAMPLE) as [E|[E|[E|E]]] by ticks_lia; rewrite E.
  - by apply switch_clear_safe.
  - unfold sample_switch. cbn [Z.eqb Pos.eqb].
    destruct (Z.leb_spec WAIT_CLEAR_TICKS ticks); [|by apply finish_safe].
    apply (safe_set_state ST_START_SAMPLE (fun _ => finish)).
    + rewrite E. constructor.
    + rewrite E. by apply Ht.
    + intros w1 I1 D1 _ _ _ _. by apply finish_safe.
  - by apply switch_start_safe.
  - by apply switch_wait_safe.
Qed.

Lemma sampling_frame_safe w : inv w -> idle w -> msafe sampling_frame w.
Proof.
  intros Hi Hd. apply safe_get. intros w1 R1 I1.
  apply safe_put_quiet; [done|done|]. intros w2 R2 I2 I2'.
  assert (idle (store vblank_count (mem w1 vblank_int_count) w2)) as D2.
  { apply quiet_store; [done|]. by eapply idle_rely, idle_rely. }
  intros w3 R3 I3. split_and!; [done..|]. apply safe_get. intros w4 R4 I4.
  apply safe_get. intros w5 R5 I5.
  apply (switch_safe _ w5); [done|by eapply idle_rely, idle_rely, idle_rely|].
  intros n Hn. cbn in Hn. rewrite (r_state_at _ _ _ R5). pose proof (r_now _ _ _ R5).
  enough (state_at w4 + n <= now w4) by lia.
  by eapply (elapsed_at_least _ w3 w4).
Qed.

Lemma other_frame_safe w : inv w -> idle w -> msafe other_frame w.
Proof. intros. by apply only_quiet_safe. Qed.

#[export] Instance sampling_spec :
  InterruptSpec exec advance handlers frames inv idle hrely good.
Proof.
  constructor.
  - apply hrely_refl'.
  - apply hrely_trans'.
  - apply hrely_rebase'.
  - apply advance_rely'.
  - apply advance_inv'.
  - unfold handlers. intros b h w Hh. rewrite !elem_of_cons, elem_of_nil in Hh.
    destruct Hh as [->|[->|[->|[]]]]; [apply level2_safe | apply level4_safe | apply level6_safe].
  - intros w w' Hd Hr _. by eapply idle_rely.
  - unfold frames. intros p w Hp. rewrite !elem_of_cons, elem_of_nil in Hp.
    destruct Hp as [->|[->|[]]]; [apply sampling_frame_safe | apply other_frame_safe].
Qed.

Lemma world0_inv : inv world0 /\ idle world0.
Proof.
  split; [|by exists 0].
  constructor; cbn; try done; try lia; by exists 0.
Qed.
