(* ===== verification/SamplingProps.v ===== *)
(** * What a measurement means

    The properties of the sampling component over every interleaving of the
    main loop with its interrupts, and of its state machine run frame by
    frame. *)

From S2P Require Import Prelude Clock Interrupts Sampling.

(** The store the main program performs next, if it performs one. *)
Definition main_store (c : config (W := world) (Op := op)) : option (var * Z) :=
  match c with
  | Config (Some (Do o _)) [] _ => match o with Put v x => Some (v, x) | _ => None end
  | _ => None
  end.

Lemma main_store_good c v x :
  mreachable world0 c -> main_store c = Some (v, x) ->
  good unit (cworld c) (Put v x) /\ inv (cworld c).
Proof.
  destruct world0_inv as [H0 H1]. intros Hr Hm.
  split; [|by apply (reachable_inv (SPEC := sampling_spec) _ _ _ _ _ _ _ H0 H1 Hr)].
  destruct c as [[[u|X o k]|] [|] w]; cbn in Hm; try done.
  destruct o; simplify_eq.
  by apply (reachable_good (SPEC := sampling_spec) _ _ _ _ _ _ _ _ _ H0 H1 Hr).
Qed.

(** Two residues modulo 65536 of numbers less than 65536 apart. *)
Lemma seq_eq_started a n : 0 <= a <= n -> n - a < 65536 -> u16 a = u16 n -> a = n.
Proof. intros. word_lia. Qed.

(** C1: a recorded sample is the latency: in every interleaving, when the main
    program stores a new sample [d], the frame and the sensor interrupt have
    both read the clock, at [tf] and [ts], after this sample's flash was armed;
    [d] is positive and is the difference of the two readings; and unless the
    32-bit counter wrapped since the sample began, the frame came first and
    [d] is the true time between them.  The two hypotheses say that the 16-bit
    sequence number did not come round unseen ([sample_rate] gives them for
    the first seven hours). *)
Theorem sample_is_latency (c : config) (d : Z) :
  mreachable world0 c ->
  main_store c = Some (latest_sample, d) ->
  let w := cworld c in
  started w - framed w < 65536 ->
  started w - sensed w < 65536 ->
  exists tf ts,
    start_time w <= tf <= now w /\ start_time w <= ts <= now w /\
    mem w frame_ticks = u32 tf /\ mem w sensor_ticks = u32 ts /\
    0 < d /\ d = u32 ts - u32 tf /\
    (start_time w / 4294967296 = now w / 4294967296 -> tf < ts /\ d = ts - tf).
Proof.
  intros Hr Hm w Hf Hs. destruct (main_store_good c _ _ Hr Hm) as [(Ef & Es & Hlt & Hd) Hi].
  fold w in Ef, Es, Hlt, Hd, Hi. destruct (i_framed _ Hi) as [Qf Bf], (i_sensed _ Hi) as [Qs Bs].
  assert (framed w = started w) as Ff.
  { apply seq_eq_started; [done..|]. rewrite <- Qf, <- (i_seq _ Hi). done. }
  assert (sensed w = started w) as Fs.
  { apply seq_eq_started; [done..|]. rewrite <- Qs, <- (i_seq _ Hi). done. }
  destruct (i_frame _ Hi Ff) as (tf & Tf & Mf), (i_sensor _ Hi Fs) as (ts & Ts & Ms).
  exists tf, ts. rewrite Mf, Ms in *. split_and!; [lia..|done|done|lia|done|].
  intros Hw. clear - Tf Ts Hlt Hd Hw.
  assert (tf / 4294967296 = now w / 4294967296) as E1 by (Z.div_mod_to_equations; lia).
  assert (ts / 4294967296 = now w / 4294967296) as E2 by (Z.div_mod_to_equations; lia).
  unfold u32 in *. Z.div_mod_to_equations; lia.
Qed.

(** The time in which [n] samples can start only if [n] is at most 65,535. *)
Definition UNAMBIGUOUS_TICKS : Z := 65535 * CYCLE_TICKS.

(** how often samples can start: in every reachable state [n] samples take
    at least [n - 1] cycles of 400 ms; so for the first 65,535 cycles (seven
    hours and a quarter) no sequence number is used twice, and the tests the
    code makes on the 16-bit numbers are exactly the tests on the samples
    themselves. *)
Theorem sample_rate (c : config) :
  mreachable world0 c ->
  let w := cworld c in
  (started w - 1) * CYCLE_TICKS <= now w /\
  (now w < UNAMBIGUOUS_TICKS ->
     started w - framed w < 65536 /\ started w - sensed w < 65536 /\
     (mem w frame_seq = mem w sample_seq <-> framed w = started w) /\
     (mem w sensor_seq = mem w sample_seq <-> sensed w = started w)).
Proof.
  intros Hr w. destruct world0_inv as [H0 H1].
  pose proof (reachable_inv (SPEC := sampling_spec) _ _ _ _ _ _ _ H0 H1 Hr) as Hi. fold w in Hi.
  assert ((started w - 1) * CYCLE_TICKS <= now w) as Hb.
  { pose proof (i_state _ Hi). pose proof (i_state_at _ Hi). destruct (i_cycle _ Hi) as (B1 & B2 & B3).
    assert (mem w state = ST_CLEAR \/ mem w state = ST_WAIT_CLEAR \/ mem w state = ST_START_SAMPLE \/
      mem w state = ST_WAIT_SAMPLE) as [E|[E|[E|E]]] by ticks_lia; ticks_lia. }
  split; [done|]. intros Ht. destruct (i_framed _ Hi) as [Qf Bf], (i_sensed _ Hi) as [Qs Bs].
  assert (started w < 65536) by (unfold UNAMBIGUOUS_TICKS in Ht; ticks_lia). rewrite Qf, Qs, (i_seq _ Hi).
  split_and!; [lia|lia|split..]; try congruence; apply seq_eq_started; lia.
Qed.

(** C32: the sampling state machine: in every interleaving, every store to
    [state] is one of the four transitions clear, wait, start, sample, clear,
    and it comes at least 200 ms after the previous one when it ends the wait
    for a clear screen or the sample window. *)
Theorem state_transitions (c : config) (s : Z) :
  mreachable world0 c -> main_store c = Some (state, s) ->
  let w := cworld c in
  next_state (mem w state) s /\ state_at w + min_stay (mem w state) <= now w.
Proof. intros Hr Hm. apply (main_store_good c _ _ Hr Hm). Qed.

(** a sample is armed only with the flash on: in every interleaving, when
    the main program increments [sample_seq], entry 0x80 of the palette is
    white and the state is [ST_WAIT_SAMPLE]; and the main program never stores
    to an object a handler writes. *)
Theorem armed_after_flash (c : config) (v : var) (x : Z) :
  mreachable world0 c -> main_store c = Some (v, x) ->
  let w := cworld c in
  handler_var v = false /\
  (v = sample_seq ->
     mem w (palette_ram 0x80) = 0xffff /\ mem w state = ST_WAIT_SAMPLE /\
     x = mem w sample_seq + 1).
Proof.
  intros Hr Hm w. destruct (main_store_good c _ _ Hr Hm) as [Hg _].
  split; [by destruct v | by intros ->].
Qed.

(** ** A concrete run

    One whole sample: the screen is cleared and lit, the frame interrupt reads
    the clock and is itself interrupted by the sensor 16.5432 ms later, before
    it has stored what it read; the main program then runs to the store of the
    sample. *)
Definition runs (n : nat) : list choice := repeat CRun n.
Definition vblank_irq : list choice := CIrq 0 :: runs 3.
Definition frame_of (n : nat) : list choice := vblank_irq ++ CWake 0 :: runs n.

Definition demo_schedule : list choice :=
  frame_of 11 ++ [CTime 2000000] ++ frame_of 10 ++ [CTime 166667] ++ frame_of 13 ++
  [CTime 100000; CIrq 1] ++ runs 3 ++ [CTime 165432; CIrq 2] ++ runs 7 ++ runs 4 ++
  [CTime 2000000] ++ frame_of 16.

Definition demo_view (c : config) : option (var * Z) * list Z :=
  (main_store c, let w := cworld c in
   [now w; started w; start_time w; framed w; sensed w; mem w state; mem w (palette_ram 0x80)]).

Lemma demo_run :
  demo_view <$> msched demo_schedule (Config None [] world0) =
    Some (Some (latest_sample, 165432), [4432099; 1; 2166667; 1; 1; 0; 65535]).
Proof. vm_compute. reflexivity. Qed.

Lemma demo_config :
  exists c, mreachable world0 c /\ main_store c = Some (latest_sample, 165432) /\
    now (cworld c) = 4432099 /\ started (cworld c) = 1 /\ start_time (cworld c) = 2166667 /\
    framed (cworld c) = 1 /\ sensed (cworld c) = 1.
Proof.
  pose proof demo_run as H. destruct (msched _ _) as [c|] eqn:E; [|discriminate H].
  apply sched_steps in E. exists c. split; [exact E|].
  unfold demo_view in H. cbn in H. by injection H.
Qed.

Lemma sample_is_latency_witness :
  exists c, main_store c = Some (latest_sample, 165432) /\
    exists tf ts, start_time (cworld c) <= tf < ts /\ 165432 = ts - tf.
Proof.
  destruct demo_config as (c & Hr & Hm & En & Es & Et & Ef & Ese). exists c. split; [done|].
  destruct (sample_is_latency c 165432 Hr Hm) as (tf & ts & H1 & _ & _ & _ & _ & _ & H2); [lia|lia|].
  exists tf, ts. rewrite En, Et in *. specialize (H2 eq_refl). lia.
Defined.

Lemma sample_rate_witness :
  exists c, main_store c = Some (latest_sample, 165432) /\
    mem (cworld c) sensor_seq = mem (cworld c) sample_seq.
Proof.
  destruct demo_config as (c & Hr & Hm & En & Es & Et & Ef & Ese). exists c. split; [done|].
  destruct (sample_rate c Hr) as [_ H]. destruct H as (_ & _ & _ & H).
  - rewrite En. reflexivity.
  - apply H. by rewrite Es.
Defined.

Definition start_schedule : list choice :=
  frame_of 11 ++ [CTime 2000000] ++ vblank_irq ++ CWake 0 :: runs 5.

Lemma state_transitions_witness :
  exists c, main_store c = Some (state, ST_START_SAMPLE) /\
    next_state (mem (cworld c) state) ST_START_SAMPLE.
Proof.
  assert (main_store <$> msched start_schedule (Config None [] world0) =
    Some (Some (state, ST_START_SAMPLE))) as H by (vm_compute; reflexivity).
  destruct (msched _ _) as [c|] eqn:E; [|done]. cbn in H. injection H as H.
  exists c. split; [done|].
  exact (proj1 (state_transitions c _ (sched_steps _ _ _ _ _ _ _ _ E) H)).
Defined.

Definition arm_schedule : list choice :=
  frame_of 11 ++ [CTime 2000000] ++ frame_of 10 ++ [CTime 166667] ++
  vblank_irq ++ CWake 0 :: runs 10.

Lemma armed_after_flash_witness :
  exists c, main_store c = Some (sample_seq, 1) /\ mem (cworld c) (palette_ram 0x80) = 0xffff.
Proof.
  assert (main_store <$> msched arm_schedule (Config None [] world0) =
    Some (Some (sample_seq, 1))) as H by (vm_compute; reflexivity).
  destruct (msched _ _) as [c|] eqn:E; [|done]. cbn in H. injection H as H.
  exists c. split; [done|].
  by destruct (armed_after_flash c _ _ (sched_steps _ _ _ _ _ _ _ _ E) H) as [_ [? _]].
Defined.

(** ** Which interrupt is captured *)

Inductive level : Type := L2 | L4 | L6.

#[export] Instance level_eq_dec : EqDecision level.
Proof. solve_decision. Defined.

Definition handler_of (l : level) : prog op unit :=
  match l with L2 => level2_handler | L4 => level4_handler | L6 => level6_handler end.

(** The objects a capturing handler writes. *)
Definition seq_of (l : level) : var := match l with L6 => sensor_seq | _ => frame_seq end.
Definition ticks_of (l : level) : var := match l with L6 => sensor_ticks | _ => frame_ticks end.

(** Interrupts one after the other, each with the time since the one before. *)
Fixpoint irq_run (evs : list (Z * level)) (w : world) : world :=
  match evs with
  | [] => w
  | (d, l) :: evs => irq_run evs (run exec (handler_of l) (advance d w)).2
  end.

Fixpoint first_at (l : level) (t : Z) (evs : list (Z * level)) : option Z :=
  match evs with
  | [] => None
  | (d, l') :: evs => if decide (l = l') then Some (t + d) else first_at l (t + d) evs
  end.

Lemma handler_effect l l' d w :
  l <> L2 -> is_u16 (mem w sample_seq) ->
  let w' := (run exec (handler_of l') (advance d w)).2 in
  let fires := bool_decide (l = l') && negb (mem w (seq_of l) =? mem w sample_seq) in
  now w' = now w + d /\ mem w' sample_seq = mem w sample_seq /\
  mem w' (seq_of l) = (if fires then mem w sample_seq else mem w (seq_of l)) /\
  mem w' (ticks_of l) = (if fires then u32 (now w + d) else mem w (ticks_of l)).
Proof.
  intros Hl Hs. destruct l' ; cbn.
  - by destruct l.
  - destruct (Z.eqb_spec (mem w frame_seq) (mem w sample_seq)) as [E|E]; destruct l; cbn; try done;
      rewrite ?(proj2 (Z.eqb_neq _ _) E), ?(proj2 (Z.eqb_eq _ _) E), ?u32_idemp, ?u16_small; done.
  - destruct (Z.eqb_spec (mem w sensor_seq) (mem w sample_seq)) as [E|E]; destruct l; cbn; try done;
      rewrite ?(proj2 (Z.eqb_neq _ _) E), ?(proj2 (Z.eqb_eq _ _) E), ?u32_idemp, ?u16_small; done.
Qed.

Lemma irq_run_captured l evs w :
  l <> L2 -> is_u16 (mem w sample_seq) -> mem w (seq_of l) = mem w sample_seq ->
  mem (irq_run evs w) (ticks_of l) = mem w (ticks_of l) /\
  mem (irq_run evs w) (seq_of l) = mem w sample_seq /\
  mem (irq_run evs w) sample_seq = mem w sample_seq.
Proof.
  intros Hl. revert w. induction evs as [|[d l'] evs IH]; intros w Hs Hc; [done|]. cbn [irq_run].
  destruct (handler_effect l l' d w Hl Hs) as (_ & E2 & E3 & E4).
  rewrite Hc, Z.eqb_refl, andb_false_r in E3, E4.
  destruct (IH (run exec (handler_of l') (advance d w)).2) as (-> & -> & ->).
  - by rewrite E2.
  - by rewrite E2, E3.
  - by rewrite E2, E4.
Qed.

(** the first edge counts: from the moment a sample is armed, whatever
    interrupts follow, the captured frame (level 4) and sensor (level 6) time
    is the clock at the first interrupt of that level, later ones change
    nothing, and the sequence number equals the armed one exactly when there
    was one. *)
Theorem first_edge_captured (l : level) (evs : list (Z * level)) (w : world) :
  l <> L2 -> is_u16 (mem w sample_seq) -> mem w (seq_of l) <> mem w sample_seq ->
  let w' := irq_run evs w in
  match first_at l (now w) evs with
  | Some t => mem w' (ticks_of l) = u32 t /\ mem w' (seq_of l) = mem w' sample_seq
  | None => mem w' (ticks_of l) = mem w (ticks_of l) /\ mem w' (seq_of l) <> mem w' sample_seq
  end.
Proof.
  intros Hl. revert w. induction evs as [|[d l'] evs IH]; intros w Hs Hc; [done|].
  cbn [irq_run first_at].
  destruct (handler_effect l l' d w Hl Hs) as (E1 & E2 & E3 & E4).
  rewrite (proj2 (Z.eqb_neq _ _) Hc), andb_true_r in E3, E4. cbn [negb] in *.
  set (w1 := (run exec (handler_of l') (advance d w)).2) in *.
  destruct (decide (l = l')) as [Hll|Hll].
  - rewrite bool_decide_true in E3, E4 by done.
    destruct (irq_run_captured l evs w1) as (-> & -> & ->); [done|by rewrite E2|by rewrite E2, E3|].
    by rewrite E4, E2.
  - rewrite bool_decide_false in E3, E4 by done. rewrite <- E1, <- E4.
    apply IH; [by rewrite E2 | by rewrite E2, E3].
Qed.

Lemma first_edge_captured_witness :
  let w := store sample_seq 1 world0 in
  mem (irq_run [(5, L2); (100, L6); (7, L4); (30, L6)] w) sensor_ticks = 105.
Proof.
  destruct (first_edge_captured L6 [(5, L2); (100, L6); (7, L4); (30, L6)] (store sample_seq 1 world0))
    as [E _]; [done | split; vm_compute; congruence | done | exact E].
Defined.

(** ** The state machine, frame by frame *)

(** [state_start_ticks] is the clock at the store of [state], less than one
    turn of the counter ago. *)
Definition exact (w : world) : Prop :=
  mem w state_start_ticks = u32 (state_at w) /\ 0 <= now w - state_at w < 4294967296.

Lemma exact_elapsed w :
  exact w -> u32 (u32 (now w) - mem w state_start_ticks) = now w - state_at w.
Proof. intros [-> H]. word_lia. Qed.

Lemma run_do_sampling w :
  exact w ->
  run exec do_sampling w =
    run exec (sample_switch (now w - state_at w) (mem w state) ≫= fun _ => put sample_status NO_SAMPLE) w.
Proof. intros He. unfold do_sampling. cbn [run]. cbn. by rewrite exact_elapsed. Qed.

(** C31: the end of a sample window, on every branch: too early, or in the
    window without both captures, [do_sampling] records nothing and stays;
    too late, or with the sensor not after the frame, it goes back to clear
    and records nothing; otherwise it goes back to clear and records the
    difference as the latest sample and in the slot of the history that is
    next.  The status shown for the frame says which: a new sample, a missing
    one, or none. *)
Theorem window_outcome (w : world) :
  exact w -> mem w state = ST_WAIT_SAMPLE ->
  is_u32 (mem w frame_ticks) -> is_u32 (mem w sensor_ticks) -> is_u32 (mem w sample_idx) ->
  let e := now w - state_at w in
  let ft := mem w frame_ticks in
  let st := mem w sensor_ticks in
  let i := mem w sample_idx in
  let both := (mem w frame_seq =? mem w sample_seq) && (mem w sensor_seq =? mem w sample_seq) in
  let w' := (run exec do_sampling w).2 in
  let recorded := (MIN_SAMPLE_TICKS <=? e) && (e <=? MAX_SAMPLE_TICKS) && both && (ft <? st) in
  mem w' state =
    (if (MIN_SAMPLE_TICKS <=? e) && ((MAX_SAMPLE_TICKS <? e) || both) then ST_CLEAR else ST_WAIT_SAMPLE) /\
  mem w' latest_sample = (if recorded then st - ft else mem w latest_sample) /\
  mem w' sample_idx = (if recorded then u32 (i + 1) else i) /\
  (forall j, mem w' (samples j) =
     if recorded && (j =? i mod HISTORY_SIZE) then st - ft else mem w (samples j)) /\
  mem (run exec (sample_switch e (mem w state)) w).2 sample_status =
    (if recorded then NEW_SAMPLE
     else if (MIN_SAMPLE_TICKS <=? e) && ((MAX_SAMPLE_TICKS <? e) || both) then MISSING_SAMPLE else mem w sample_status).
Proof.
  intros He Hs Hf Hst Hi e ft st i both w' recorded.
  subst w'. rewrite run_do_sampling, Hs by done. fold e. unfold sample_switch. cbn [Z.eqb Pos.eqb].
  subst recorded both. destruct (Z.ltb_spec e MIN_SAMPLE_TICKS) as [H1|H1].
  { rewrite (proj2 (Z.leb_gt MIN_SAMPLE_TICKS e) H1). cbn. by rewrite Hs. }
  rewrite (proj2 (Z.leb_le MIN_SAMPLE_TICKS e) H1). cbn [andb].
  destruct (Z.ltb_spec MAX_SAMPLE_TICKS e) as [H2|H2].
  { rewrite (proj2 (Z.leb_gt e MAX_SAMPLE_TICKS) H2). by cbn. }
  rewrite (proj2 (Z.leb_le e MAX_SAMPLE_TICKS) H2). cbn [andb orb].
  cbn. rewrite (Z.eqb_sym (mem w frame_seq)), (Z.eqb_sym (mem w sensor_seq)).
  destruct (mem w sample_seq =? mem w frame_seq); cbn; [|by rewrite Hs].
  destruct (mem w sample_seq =? mem w sensor_seq); cbn; [|by rewrite Hs].
  fold ft st i. rewrite Z.ltb_antisym. destruct (Z.leb_spec st ft) as [H3|H3]; cbn; [done|].
  assert (u32 (u32 (mem w sensor_ticks - mem w frame_ticks)) = st - ft) as ->.
  { rewrite u32_idemp. apply u32_small. unfold is_u32 in *. subst ft st. lia. }
  split_and!; [done..| |done]. intros j. by destruct (j =? _).
Qed.

(** A frame of the main loop: the interrupts that arrive in it, the time left
    after the last one, and the sampling of that frame. *)
Definition frame_gap : Type := list (Z * level) * Z.

Definition gap_time (g : frame_gap) : Z := foldr (fun ev t => ev.1 + t) g.2 g.1.

Definition frame_step (g : frame_gap) (w : world) : world :=
  (run exec do_sampling (advance g.2 (irq_run g.1 w))).2.

Fixpoint frames_run (f : nat -> frame_gap) (n : nat) (w : world) : world :=
  match n with
  | O => w
  | S n => frame_step (f n) (frames_run f n w)
  end.

(** What an interrupt between frames leaves alone. *)
Definition same_machine (w w' : world) : Prop :=
  mem w' state = mem w state /\ mem w' state_start_ticks = mem w state_start_ticks /\
  state_at w' = state_at w /\ started w' = started w.

Lemma handler_same l d w :
  same_machine w (run exec (handler_of l) (advance d w)).2 /\
  now (run exec (handler_of l) (advance d w)).2 = now w + d.
Proof.
  destruct l; cbn.
  - done.
  - by destruct (mem w frame_seq =? mem w sample_seq).
  - by destruct (mem w sensor_seq =? mem w sample_seq).
Qed.

Lemma irq_run_same evs d w :
  same_machine w (irq_run evs w) /\
  now (irq_run evs w) + d = now w + gap_time (evs, d).
Proof.
  revert w. induction evs as [|[d' l] evs IH]; intros w; cbn; [done|].
  destruct (handler_same l d' w) as [(A1 & A2 & A3 & A4) A5].
  destruct (IH (run exec (handler_of l) (advance d' w)).2) as [(B1 & B2 & B3 & B4) B5].
  split; [split_and!; congruence|]. rewrite B5, A5. unfold gap_time. cbn. lia.
Qed.

Ltac branch :=
  cbn; unfold exact; cbn; rewrite ?u32_idemp, ?Z.sub_diag; naive_solver ticks_lia.

(** One run of the state machine: the state it leads to, when, and the samples
    started. *)
Lemma do_sampling_step w :
  exact w ->
  let w' := (run exec do_sampling w).2 in
  let e := now w - state_at w in
  now w' = now w /\ exact w' /\
  (state_at w' = now w' /\ mem w' state <> mem w state \/
   state_at w' = state_at w /\ mem w' state = mem w state) /\
  (mem w state = ST_CLEAR -> mem w' state = ST_WAIT_CLEAR /\ started w' = started w) /\
  (mem w state = ST_WAIT_CLEAR ->
     mem w' state = (if WAIT_CLEAR_TICKS <=? e then ST_START_SAMPLE else ST_WAIT_CLEAR) /\
     started w' = started w) /\
  (mem w state = ST_START_SAMPLE -> mem w' state = ST_WAIT_SAMPLE /\ started w' = started w + 1) /\
  (mem w state = ST_WAIT_SAMPLE ->
     (mem w' state = ST_CLEAR \/ mem w' state = ST_WAIT_SAMPLE /\ e <= MAX_SAMPLE_TICKS) /\
     started w' = started w).
Proof.
  intros He w' e. subst w'. rewrite run_do_sampling by done. fold e. destruct He as [E1 E2].
  unfold sample_switch.
  destruct (Z.eqb_spec (mem w state) ST_CLEAR) as [S|S0]; [rewrite S; branch|].
  destruct (Z.eqb_spec (mem w state) ST_WAIT_CLEAR) as [S|S1].
  { rewrite S. destruct (Z.leb_spec WAIT_CLEAR_TICKS e); branch. }
  destruct (Z.eqb_spec (mem w state) ST_START_SAMPLE) as [S|S2]; [rewrite S; branch|].
  destruct (Z.eqb_spec (mem w state) ST_WAIT_SAMPLE) as [S|S3]; [|branch].
  rewrite S. destruct (Z.ltb_spec e MIN_SAMPLE_TICKS); [branch|].
  destruct (Z.ltb_spec MAX_SAMPLE_TICKS e); [branch|]. cbn.
  destruct (mem w sample_seq =? mem w frame_seq); [|branch]. cbn.
  destruct (mem w sample_seq =? mem w sensor_seq); [|branch]. cbn.
  destruct (mem w sensor_ticks <=? mem w frame_ticks); branch.
Qed.

Lemma frame_step_spec g w :
  exact w -> 0 <= gap_time g -> now w + gap_time g - state_at w < 4294967296 ->
  let w' := frame_step g w in
  let e := now w + gap_time g - state_at w in
  now w' = now w + gap_time g /\ exact w' /\
  (state_at w' = now w' /\ mem w' state <> mem w state \/
   state_at w' = state_at w /\ mem w' state = mem w state) /\
  (mem w state = ST_CLEAR -> mem w' state = ST_WAIT_CLEAR /\ started w' = started w) /\
  (mem w state = ST_WAIT_CLEAR ->
     mem w' state = (if WAIT_CLEAR_TICKS <=? e then ST_START_SAMPLE else ST_WAIT_CLEAR) /\
     started w' = started w) /\
  (mem w state = ST_START_SAMPLE -> mem w' state = ST_WAIT_SAMPLE /\ started w' = started w + 1) /\
  (mem w state = ST_WAIT_SAMPLE ->
     (mem w' state = ST_CLEAR \/ mem w' state = ST_WAIT_SAMPLE /\ e <= MAX_SAMPLE_TICKS) /\
     started w' = started w).
Proof.
  intros [E1 E2] Hg Hw. destruct g as [evs d]. unfold frame_step. cbn [fst snd].
  destruct (irq_run_same evs d w) as [(A1 & A2 & A3 & A4) A5].
  set (w1 := advance d (irq_run evs w)).
  assert (now w1 = now w + gap_time (evs, d)) as N by exact A5.
  assert (exact w1) as He.
  { split; [cbn; by rewrite A2, A3|]. rewrite N.
    change (state_at w1) with (state_at (irq_run evs w)). rewrite A3. lia. }
  pose proof (do_sampling_step w1 He) as H. cbn zeta in H.
  change (mem w1) with (mem (irq_run evs w)) in H. change (state_at w1) with (state_at (irq_run evs w)) in H.
  change (started w1) with (started (irq_run evs w)) in H. rewrite N, A1, A3, A4 in H. exact H.
Qed.

Section liveness.
Context (f : nat -> frame_gap) (P : Z) (w : world).
Context (HP : P <= 10000000) (Hf : forall i, 0 < gap_time (f i) <= P).

(** Leaving a state that is left once its time is over. *)
Lemma leave_state st st' lim :
  0 <= lim <= MAX_SAMPLE_TICKS ->
  (forall g v, exact v -> 0 <= gap_time g -> now v + gap_time g - state_at v < 4294967296 ->
     mem v state = st ->
     let v' := frame_step g v in
     started v' = started v /\
     (mem v' state = st' /\ mem v' state <> st \/
      mem v' state = st /\ now v + gap_time g - state_at v <= lim)) ->
  forall k n, let v := frames_run f n w in
  exact v -> mem v state = st -> now v - state_at v <= lim ->
  lim - (now v - state_at v) < Z.of_nat k ->
  exists m, let v' := frames_run f m w in
    exact v' /\ mem v' state = st' /\ state_at v' = now v' /\ started v' = started v /\
    now v <= now v' <= state_at v + lim + P.
Proof.
  intros Hlim Hstep. induction k as [|k IH]; intros n v He Hs Hl Hk; [lia|].
  pose proof (Hf n) as Hg. destruct He as [E1 E2] eqn:Ee. clear Ee.
  pose proof cycle_ticks_value as (_ & _ & _ & Hmax).
  destruct (frame_step_spec (f n) v) as (N & X & A & _); [done|lia|lia|].
  destruct (Hstep (f n) v) as (B & [[C D]|[C D]]); [done|lia|lia|done|..].
  - exists (S n). cbn. fold v. split_and!; [done|done| |done|lia|lia].
    destruct A as [[A _]|[_ A]]; [done|congruence].
  - destruct A as [[_ A]|[A _]]; [congruence|].
    destruct (IH (S n)) as (m & F1 & F2 & F3 & F4 & F5); cbn; fold v; [done|done|lia|lia|].
    exists m. cbn in F4, F5. fold v in F4, F5. split_and!; [done|done|done|congruence|lia|lia].
Qed.

Lemma leave_wait_clear n :
  let v := frames_run f n w in
  exact v -> mem v state = ST_WAIT_CLEAR -> state_at v = now v ->
  exists m, let v' := frames_run f m w in
    exact v' /\ mem v' state = ST_START_SAMPLE /\ state_at v' = now v' /\
    started v' = started v /\ now v <= now v' <= now v + WAIT_CLEAR_TICKS + P.
Proof.
  intros v He Hs Ha. pose proof cycle_ticks_value as (_ & Hw & _ & Hmax).
  destruct (leave_state ST_WAIT_CLEAR ST_START_SAMPLE (WAIT_CLEAR_TICKS - 1)) with
    (k := Z.to_nat WAIT_CLEAR_TICKS) (n := n) as (m & H1 & H2 & H3 & H4 & H5); fold v; try done; try lia.
  - intros g u Hu Hg Hlt Su u'.
    destruct (frame_step_spec g u Hu Hg Hlt) as (_ & _ & _ & _ & B & _).
    destruct (B Su) as [B1 B2]. subst u'. rewrite B1. split; [done|].
    destruct (Z.leb_spec WAIT_CLEAR_TICKS (now u + gap_time g - state_at u)); [by left|right]. lia.
  - exists m. fold v in H4, H5. rewrite Ha in H5. split_and!; try done; lia.
Qed.

Lemma leave_wait_sample n :
  let v := frames_run f n w in
  exact v -> mem v state = ST_WAIT_SAMPLE -> state_at v = now v ->
  exists m, let v' := frames_run f m w in
    exact v' /\ mem v' state = ST_CLEAR /\ state_at v' = now v' /\
    started v' = started v /\ now v <= now v' <= now v + MAX_SAMPLE_TICKS + P.
Proof.
  intros v He Hs Ha. pose proof cycle_ticks_value as (_ & _ & _ & Hmax).
  destruct (leave_state ST_WAIT_SAMPLE ST_CLEAR MAX_SAMPLE_TICKS) with
    (k := Z.to_nat (MAX_SAMPLE_TICKS + 1)) (n := n) as (m & H1 & H2 & H3 & H4 & H5);
    fold v; try done; try lia.
  - intros g u Hu Hg Hlt Su u'.
    destruct (frame_step_spec g u Hu Hg Hlt) as (_ & _ & _ & _ & _ & _ & B).
    destruct (B Su) as [B1 B2]. subst u'. split; [done|]. destruct B1 as [->|[-> ?]]; [by left|by right].
  - exists m. fold v in H4, H5. rewrite Ha in H5. split_and!; try done; lia.
Qed.
End liveness.

(** C30: a sample always ends: whatever interrupts arrive between the frames,
    as long as frames keep coming at most [P] ticks apart (one second or
    less), the state machine returns from clear to clear having started exactly
    one sample, within 700 ms and four frames. *)
Theorem cycle_completes (f : nat -> frame_gap) (P : Z) (w : world) :
  P <= 10000000 -> (forall i, 0 < gap_time (f i) <= P) ->
  exact w -> mem w state = ST_CLEAR -> now w - state_at w + P < 4294967296 ->
  exists n, let w' := frames_run f n w in
    exact w' /\ mem w' state = ST_CLEAR /\ started w' = started w + 1 /\
    now w < now w' <= now w + WAIT_CLEAR_TICKS + MAX_SAMPLE_TICKS + 4 * P.
Proof.
  intros HP Hf He Hs Hn. pose proof cycle_ticks_value as (_ & Hw & _ & Hmax).
  pose proof (Hf O) as Hg0.
  destruct (frame_step_spec (f O) w) as (N1 & E1 & A1 & S1 & _); [done|lia|lia|].
  destruct (S1 Hs) as [S1' T1].
  destruct A1 as [[A1 _]|[_ A1]]; [|rewrite S1', Hs in A1; done].
  destruct (leave_wait_clear f P w HP Hf 1 E1 S1' A1) as (m2 & E2 & S2 & A2 & T2 & N2).
  cbn [frames_run] in N2, T2.
  pose proof (Hf m2) as Hg2.
  destruct (frame_step_spec (f m2) (frames_run f m2 w)) as (N3 & E3 & A3 & _ & _ & S3 & _);
    [done|lia|lia|].
  destruct (S3 S2) as [S3' T3].
  destruct A3 as [[A3 _]|[_ A3]]; [|rewrite S3', S2 in A3; done].
  destruct (leave_wait_sample f P w HP Hf (S m2) E3 S3' A3) as (m4 & E4 & S4 & A4 & T4 & N4).
  cbn [frames_run] in N4, T4. exists m4. split_and!; [done|done|lia|lia|lia].
Qed.

Lemma cycle_completes_witness :
  exists n, started (frames_run (fun _ => ([(1000, L4); (50000, L6)], 115667)) n world0) = 1.
Proof.
  destruct (cycle_completes (fun _ => ([(1000, L4); (50000, L6)], 115667)) 166667 world0)
    as (n & _ & _ & H & _).
  - lia.
  - intros _. cbn. lia.
  - split; cbn; [done|lia].
  - done.
  - cbn. lia.
  - by exists n.
Defined.

Lemma window_outcome_witness :
  let w := store state ST_WAIT_SAMPLE (store sensor_ticks 300 (store frame_ticks 100 world0)) in
  mem (run exec do_sampling (advance 2000000 w)).2 latest_sample = 200.
Proof.
  intros w. pose proof (window_outcome (advance 2000000 w)) as H. cbn zeta in H.
  destruct H as (_ & -> & _); [split; cbn; [done|lia] | done | split; vm_compute; congruence.. |].
  vm_compute. reflexivity.
Defined.

(** ** The counter wraps *)

Definition wrap_schedule : list choice :=
  frame_of 11 ++ [CTime 2000000] ++ frame_of 10 ++ [CTime 4292867296] ++ frame_of 13 ++
  [CTime 50000; CIrq 2] ++ runs 7 ++ [CTime 100000; CIrq 1] ++ runs 7 ++
  [CTime 2000000] ++ frame_of 16.

(** C33: the comparison of the captured times is not safe against the wrap of
    the counter: there is a run in which the sensor fires 10 ms before the
    frame, the counter wraps in between, and the main program records
    429,486.7 ms instead of a missing sample. *)
Theorem wrap_false_sample :
  exists c, mreachable world0 c /\ main_store c = Some (latest_sample, 4294867296) /\
    let w := cworld c in
    mem w sensor_ticks = u32 (start_time w + 50000) /\
    mem w frame_ticks = u32 (start_time w + 150000) /\
    start_time w + 150000 <= now w < start_time w + MAX_SAMPLE_TICKS.
Proof.
  assert ((fun c => (main_store c, let w := cworld c in
      [mem w sensor_ticks; mem w frame_ticks; start_time w; now w]))
    <$> msched wrap_schedule (Config None [] world0) =
    Some (Some (latest_sample, 4294867296), [4294917296; 50000; 4294867296; 4297017296])) as H
    by (vm_compute; reflexivity).
  destruct (msched _ _) as [c|] eqn:E; [|discriminate H].
  apply sched_steps in E. cbn in H. injection H as E0 E1 E2 E3 E4.
  exists c. split; [exact E|]. split; [done|]. cbn zeta. rewrite E1, E2, E3, E4.
    pose proof cycle_ticks_value as (_ & _ & _ & ->). repeat split; lia.
Qed.
