(* ===== verification/History.v ===== *)
(** * The sample history (firmware/src/main.c)

    What the main program keeps of the samples it has recorded: the ring of
    sixteen ([samples], [sample_idx]), the latest one and the outcome of the
    current frame ([sample_status]).  They are written by the main program
    alone, so the contract with the interrupt handlers is a simple one: a
    second instance of [InterruptSpec], beside the one of Sampling.v. *)

From S2P Require Import Prelude Clock Interrupts Sampling SamplingProps.

(** ** The ring *)

(** Sixteen entries, entry [n mod 16] overwritten by the sample number [n]. *)
Definition ring_push (s : list Z * nat) (d : Z) : list Z * nat := (<[(s.2 mod 16)%nat := d]> s.1, S s.2).
Definition ring_of (h : list Z) : list Z := (foldl ring_push (replicate 16 0, 0%nat) h).1.

(** The last sixteen samples, or all of them. *)
Definition recent (h : list Z) : list Z := drop (length h - 16) h.

Lemma ring_of_snoc h d : ring_of (h ++ [d]) = <[(length h mod 16)%nat := d]> (ring_of h).
Proof.
  unfold ring_of. rewrite foldl_app. cbn [foldl].
  assert (forall s, (foldl ring_push s h).2 = (s.2 + length h)%nat) as E.
  { induction h as [|x h IH]; intros s; cbn [foldl length]; [lia|]. rewrite IH. cbn. lia. }
  cbn. by rewrite E.
Qed.

Lemma ring_of_length h : length (ring_of h) = 16%nat.
Proof. induction h as [|d h IH] using rev_ind; [done|]. by rewrite ring_of_snoc, length_insert. Qed.

Lemma ring_of_Forall h : Forall is_u32 h -> Forall is_u32 (ring_of h).
Proof.
  induction h as [|d h IH] using rev_ind; intros Hh; [apply Forall_replicate; unfold is_u32; lia|]. apply Forall_app in Hh as [Hh Hd].
  rewrite ring_of_snoc. apply Forall_insert; [by apply IH|by apply Forall_singleton].
Qed.

Lemma recent_snoc h d :
  recent (h ++ [d]) = if decide (length h < 16)%nat then h ++ [d] else drop 1 (recent h) ++ [d].
Proof.
  unfold recent. rewrite length_app. cbn [length]. destruct (decide _) as [H|H].
  - replace (length h + 1 - 16)%nat with 0%nat by lia. done.
  - rewrite drop_app_le, drop_drop by lia. repeat f_equal. lia.
Qed.

(** The ring is the recent samples, cut where the next one goes. *)
Lemma ring_of_recent h :
  let k := (length h mod 16)%nat in
  if decide (length h < 16)%nat then ring_of h = h ++ replicate (16 - length h) 0
  else ring_of h = drop (16 - k) (recent h) ++ take (16 - k) (recent h) /\ length (recent h) = 16%nat.
Proof.
  induction h as [|d h IH] using rev_ind; [done|]. cbv zeta in *. rewrite ring_of_snoc, recent_snoc, length_app. cbn [length].
  destruct (decide (length h < 16)%nat) as [H|H].
  - rewrite (Nat.mod_small (length h)), IH by lia. rewrite insert_app_r_alt, Nat.sub_diag by lia.
    replace (16 - length h)%nat with (S (16 - (length h + 1))) by lia. cbn [replicate insert list_insert].
    destruct (decide (length h + 1 < 16)%nat); [by rewrite <- app_assoc|].
    replace (length h + 1)%nat with 16%nat by lia. cbn. rewrite length_app. cbn. split; [|lia].
    rewrite drop_ge, take_ge by (rewrite length_app; cbn; lia). by rewrite app_nil_l.
  - rewrite decide_False by lia. destruct IH as [IH L]. rewrite IH.
    assert (length h mod 16 < 16)%nat as Hk by (by apply Nat.mod_upper_bound).
    assert ((length h + 1) mod 16 = if decide (length h mod 16 = 15) then 0 else S (length h mod 16))%nat as Ek.
    { destruct (decide _); pose proof (Nat.div_mod_eq (length h) 16); [|]. 
      - symmetry. apply (Nat.mod_unique _ _ (length h / 16 + 1)); lia.
      - symmetry. apply (Nat.mod_unique _ _ (length h / 16)); lia. }
    rewrite Ek. generalize dependent (length h mod 16)%nat. intros k _ Hk _. clear -L Hk.
    destruct (recent h) as [|x0 l]; [done|]. do 15 (destruct l as [|? l]; [done|]). destruct l; [|done].
    do 16 (destruct k as [|k]; [by split|]). lia.
Qed.

(** What the statistics are computed over: the filled part of the ring. *)
Lemma ring_perm h : take (length h) (ring_of h) ≡ₚ recent h.
Proof.
  pose proof (ring_of_recent h) as H. cbv zeta in H. destruct (decide (length h < 16)%nat) as [Hl|Hl].
  - rewrite H, take_app_length. unfold recent. by replace (length h - 16)%nat with 0%nat by lia.
  - rewrite take_ge by (rewrite ring_of_length; lia). destruct H as [-> _]. rewrite Permutation_app_comm. by rewrite take_drop.
Qed.

Lemma recent_last h d : exists h', recent (h ++ [d]) = h' ++ [d].
Proof. rewrite recent_snoc. case_decide; eauto. Qed.

(** ** The contract *)

Definition ring_in (w : world) : list Z := map (fun i => mem w (samples i)) (seqZ 0 HISTORY_SIZE).

Definition history (w : world) : Prop :=
  mem w sample_idx = u32 (zlen (recorded w)) /\ ring_in w = ring_of (recorded w) /\ Forall is_u32 (recorded w).

(** The state in which the outcome of a frame is shown. *)
Definition outcome (w : world) : Prop :=
  history w /\ (mem w sample_status = NEW_SAMPLE -> exists h, recorded w = h ++ [mem w latest_sample]).

(** Handlers leave all of it alone. *)
Definition hist_rely (_ w w' : world) : Prop :=
  recorded w' = recorded w /\ forall v, handler_var v = false -> mem w' v = mem w v.

Definition hist_idle (w : world) : Prop := outcome w /\ mem w sample_status = NO_SAMPLE.

Definition hist_good (X : Type) (w : world) (o : op X) : Prop :=
  match o with Put sample_status x => x = NO_SAMPLE -> outcome w | Put vblank_count _ => outcome w | _ => True end.

Abbreviation hist_safe := (safe exec (fun _ => True) hist_idle hist_rely hist_good).

Lemma outcome_rely b w w' : hist_rely b w w' -> outcome w -> outcome w'.
Proof.
  intros [Hr Hm] [(Hi & Hs & Hu) Hn]. unfold outcome, history, ring_in in *.
  rewrite Hr, !Hm by done. split; [split_and!; [done| |done]|done]. rewrite <- Hs. apply map_ext. intros i. by apply Hm.
Qed.

(** The objects the history is about. *)
Definition history_var (v : var) : bool :=
  match v with samples _ | latest_sample | sample_idx | sample_status => true | _ => false end.

Lemma outcome_store v x w : history_var v = false -> outcome w -> outcome (store v x w).
Proof.
  intros Hv [(Hi & Hs & Hu) Hn]. unfold outcome, history, ring_in in *.
  assert (forall u, history_var u = true -> mem (store v x w) u = mem w u) as Hm by (by intros []; destruct v).
  assert (recorded (store v x w) = recorded w) as -> by (by destruct v).
  rewrite !Hm by done. split; [split_and!; [done| |done]|done]. rewrite <- Hs. apply map_ext. intros i. by apply Hm.
Qed.

(** A program that does not touch them. *)
Fixpoint apart {A} (p : prog op A) : Prop :=
  match p with
  | Ret _ => True
  | Do o k => match o with Put v _ => history_var v = false | _ => True end /\ forall x, apart (k x)
  end.

Lemma apart_safe {A} (p : prog op A) k w :
  apart p -> outcome w -> (forall a w', outcome w' -> hist_safe (k a) w') -> hist_safe (p ≫= k) w.
Proof.
  intros Hp Ho Hk. revert w Ho Hp. induction p as [a|X o f IH]; intros w Ho Hp; [by apply Hk|].
  destruct Hp as [Hv Hp]. cbn. intros w' Hr _. apply (outcome_rely _ _ _ Hr) in Ho.
  split_and!; [by destruct o as [|[]|]|done|]. apply IH; [|done]. destruct o; [done| |done]. by apply outcome_store.
Qed.

Lemma get_hist v k w : outcome w -> (forall x w', outcome w' -> hist_safe (k x) w') -> hist_safe (Do (Get v) k) w.
Proof. intros Ho Hk. by apply (apart_safe (get v) k). Qed.

Lemma outcome_no_news x w : i32 x <> NEW_SAMPLE -> outcome w -> outcome (store sample_status x w).
Proof. intros Hx [Hh _]. split; [exact Hh|]. intros H. by destruct Hx. Qed.

Lemma finish_hist w : outcome w -> hist_safe finish w.
Proof.
  intros Ho w1 R1 _. apply (outcome_rely _ _ _ R1) in Ho. split; [by intros _|split; [done|]]. intros w2 R2 _.
  assert (mem w2 sample_status = NO_SAMPLE) as E by (rewrite (proj2 R2) by done; reflexivity).
  split; [|done]. apply (outcome_rely _ _ _ R2). by apply outcome_no_news.
Qed.

Lemma missing_hist w : outcome w -> hist_safe (record_missing_sample ≫= fun _ => finish) w.
Proof.
  intros Ho w1 R1 _. apply (outcome_rely _ _ _ R1) in Ho. split; [by intros _|split; [done|]]. apply finish_hist.
  by apply outcome_no_news.
Qed.

(** The store of a sample is one push. *)
Lemma ring_in_store i x w :
  0 <= i < HISTORY_SIZE -> ring_in (store (samples i) x w) = <[Z.to_nat i := u32 x]> (ring_in w).
Proof.
  intros Hi. apply list_eq. intros j. unfold ring_in, HISTORY_SIZE in *.
  destruct (decide (j = Z.to_nat i)) as [->|Hj].
  - rewrite list_lookup_insert_eq, list_lookup_fmap, lookup_seqZ_lt by (rewrite ?length_map, ?length_seqZ; lia).
    cbn. by rewrite Z2Nat.id, Z.eqb_refl by lia.
  - rewrite list_lookup_insert_ne, !list_lookup_fmap by done. destruct (decide (j < 16)%nat).
    + rewrite lookup_seqZ_lt by lia. cbn. rewrite (proj2 (Z.eqb_neq _ _)) by lia. done.
    + rewrite lookup_seqZ_ge by lia. done.
Qed.

Lemma new_hist d w : history w -> hist_safe (record_new_sample d ≫= fun _ => finish) w.
Proof.
  intros (Hi & Hs & Hu) w1 [H1 M1] _. split; [done|split; [done|]]. cbn. intros w2 [H2 M2] _. split; [done|split; [done|]].
  intros w3 [H3 M3] _. split; [done|split; [done|]]. intros w4 [H4 M4] _. split; [done|split; [done|]].
  intros w5 [H5 M5] _. split; [done|split; [done|]]. intros w6 [H6 M6] _. split; [discriminate|split; [done|]].
  cbn in *. set (n := length (recorded w)) in *.
  assert (forall v, handler_var v = false -> v <> latest_sample -> mem w2 v = mem w v) as E2.
  { intros v Hv Hn. rewrite M2 by done. cbn. destruct v; try done; by rewrite M1. }
  assert (mem w2 sample_idx mod HISTORY_SIZE = Z.of_nat (n mod 16)%nat) as Ei.
  { rewrite E2, Hi by done. unfold zlen. fold n. unfold HISTORY_SIZE. rewrite Nat2Z.inj_mod. word_lia. }
  rewrite Ei in *. set (i := Z.of_nat (n mod 16)) in *.
  assert (0 <= i < HISTORY_SIZE) as Hb by (unfold HISTORY_SIZE; pose proof (Nat.mod_upper_bound n 16); lia).
  apply finish_hist. split; [split_and!|]; cbn.
  - rewrite H6, H5, H4, H3, H2, H1. rewrite (M6 sample_idx), (M4 sample_idx) by done. cbn. rewrite (M3 sample_idx), E2, Hi by done.
    unfold zlen. rewrite length_app. cbn. fold n. word_lia.
  - change (ring_in w6 = ring_of (recorded w6)). rewrite H6, H5, H4, H3, H2, H1, ring_of_snoc. fold n. rewrite <- Hs.
    transitivity (ring_in (store (samples i) d w3)).
    + apply map_ext. intros j. rewrite (M6 (samples j)) by done. cbn. rewrite (M5 (samples j)), (M4 (samples j)) by done. done.
    + rewrite ring_in_store by done. unfold i. rewrite Nat2Z.id. f_equal. apply map_ext. intros j. rewrite (M3 (samples j)) by done.
      by apply E2.
  - rewrite H6, H5, H4, H3, H2, H1. apply Forall_app. split; [done|]. repeat constructor; apply u32_range.
  - intros _. exists (recorded w). rewrite H6, H5, H4, H3, H2, H1. do 2 f_equal.
    rewrite (M6 latest_sample) by done. cbn. rewrite (M5 latest_sample), (M4 latest_sample) by done. cbn.
    rewrite (M3 latest_sample), (M2 latest_sample) by done. done.
Qed.

Lemma switch_hist ticks st w : outcome w -> hist_safe (sample_switch ticks st ≫= fun _ => finish) w.
Proof.
  intros Ho. unfold sample_switch.
  destruct (st =? ST_CLEAR); [by apply apart_safe; [done|done|intros; apply finish_hist]|].
  destruct (st =? ST_WAIT_CLEAR); [apply apart_safe; [by destruct (_ <=? _)|done|intros; by apply finish_hist]|].
  destruct (st =? ST_START_SAMPLE); [by apply apart_safe; [done|done|intros; apply finish_hist]|].
  destruct (st =? ST_WAIT_SAMPLE); [|by apply apart_safe; [done|done|intros; apply finish_hist]].
  destruct (_ <? _); [by apply finish_hist|].
  destruct (_ <? _); [apply (apart_safe (set_state ST_CLEAR)); [done|done|intros; by apply missing_hist]|].
  apply (get_hist sample_seq); [done|]. intros n w1 O1. apply (get_hist frame_seq); [done|]. intros f w2 O2.
  destruct (negb _); [by apply finish_hist|].
  apply (get_hist sample_seq); [done|]. intros n' w3 O3. apply (get_hist sensor_seq); [done|]. intros s w4 O4.
  destruct (negb _); [by apply finish_hist|]. apply (apart_safe (set_state ST_CLEAR)); [done|done|]. intros _ w5 O5.
  apply (get_hist frame_ticks); [done|]. intros ft w6 O6. apply (get_hist sensor_ticks); [done|]. intros se w7 O7.
  destruct (_ <=? _); [by apply missing_hist|].
  apply (get_hist sensor_ticks); [done|]. intros se' w8 O8. apply (get_hist frame_ticks); [done|]. intros ft' w9 O9.
  apply new_hist, O9.
Qed.

Lemma sampling_frame_hist w : outcome w -> hist_safe sampling_frame w.
Proof.
  intros Ho. apply (apart_safe wait_vblank_end); [done|done|]. intros _ w1 O1. apply (apart_safe clock); [done|done|].
  intros t w2 O2. apply (get_hist state_start_ticks); [done|]. intros s w3 O3. apply (get_hist state); [done|].
  intros st w4 O4. by apply switch_hist.
Qed.

(** A frame without the state machine keeps [sample_status] as well. *)
Lemma other_frame_hist w : hist_idle w -> hist_safe other_frame w.
Proof.
  intros [Ho Hn] w1 R1 _. split; [done|split; [done|]]. intros w2 R2 _.
  split; [by apply (outcome_rely _ _ _ R2), (outcome_rely _ _ _ R1)|split; [done|]]. intros w3 R3 _.
  split; [|rewrite (proj2 R3) by done; cbn; rewrite (proj2 R2) by done; cbn; by rewrite (proj2 R1)].
  apply (outcome_rely _ _ _ R3), outcome_store, (outcome_rely _ _ _ R2), (outcome_rely _ _ _ R1); done.
Qed.

(** A handler stores only to its own objects. *)
Fixpoint handler_only (p : prog op unit) : Prop :=
  match p with
  | Ret _ => True
  | Do o k => match o with Put v _ => handler_var v = true | _ => True end /\ forall x, handler_only (k x)
  end.

Lemma hist_rely_refl b w : hist_rely b w w.
Proof. by split. Qed.

Lemma hist_rely_trans b w1 w2 w3 : hist_rely b w1 w2 -> hist_rely b w2 w3 -> hist_rely b w1 w3.
Proof. intros [H1 M1] [H2 M2]. split; [congruence|]. intros v Hv. by rewrite M2, M1. Qed.

Lemma handler_hist b p w : handler_only p -> hsafe exec (fun _ => True) hist_rely b p w.
Proof.
  revert w. induction p as [u|X o k IH]; intros w; cbn; [done|]. intros [Ho Hk] w' _ _. split_and!; [done| |by apply IH].
  destruct o as [v|v x|]; [by apply hist_rely_refl| |by apply hist_rely_refl].
  split; [by destruct v|]. intros u Hu. by destruct v, u.
Qed.

#[export] Instance history_spec :
  InterruptSpec exec advance handlers frames (fun _ => True) hist_idle hist_rely hist_good.
Proof.
  constructor; try done.
  - apply hist_rely_trans.
  - intros b w w' H1 H2. exact (hist_rely_trans b b w w' H1 H2).
  - unfold handlers. intros b h w Hh _ _. apply handler_hist. rewrite !elem_of_cons, elem_of_nil in Hh.
    destruct Hh as [->|[->|[->|[]]]]; repeat first [done|split; [done|]|intros ?|destruct (_ =? _)|progress cbn].
  - intros w w' [Ho Hn] Hr _. split; [by eapply outcome_rely|]. by rewrite (proj2 Hr).
  - unfold frames. intros p w Hp _ Hd. rewrite !elem_of_cons, elem_of_nil in Hp.
    destruct Hp as [->|[->|[]]]; [by apply sampling_frame_hist, Hd|by apply other_frame_hist].
Qed.

Lemma world0_hist : hist_idle world0.
Proof. split; [|done]. split; [|done]. split_and!; [done|done|constructor]. Qed.

(** Where the main program is about to show the outcome of a frame, or starts
    a frame, the history is as described. *)
Lemma reachable_outcome c v x :
  mreachable world0 c -> main_store c = Some (v, x) -> v = vblank_count \/ v = sample_status /\ x = NO_SAMPLE ->
  outcome (cworld c).
Proof.
  intros Hr Hm Hv. destruct c as [[[u|X o k]|] [|] w]; cbn in Hm; try done. destruct o; simplify_eq.
  assert (hist_good unit w (Put v x)) as Hg.
  { by apply (reachable_good (SPEC := history_spec) _ _ _ _ _ _ _ _ _ I world0_hist Hr). }
  destruct Hv as [->|[-> ->]]; [done|by apply Hg].
Qed.

Lemma recorded_mono c c' : mstep c c' -> recorded (cworld c) `prefix_of` recorded (cworld c').
Proof.
  assert (forall X (o : op X) w, recorded w `prefix_of` recorded (exec X o w).2) as He.
  { intros X [v|v x|] w; cbn; [done| |done]. destruct v; try done. by eexists. }
  destruct 1; cbn; done || apply He.
Qed.
