(* ===== verification/Blitter.v ===== *)
(** * The blitter (rtl/blitter.sv, rtl/system.sv)

    The registers and the clocked behaviour of the blitter that fills
    rectangles of the tile map, and the equivalence of a submitted job with
    the list of writes it stands for.  While it is active the processor gets
    no acknowledge, so a job is one atomic step of the firmware. *)

From S2P Require Import Prelude.

(** The tile map memory: 16384 words, read and written modulo its size. *)
Definition vmem : Type := Z -> Z.
Definition VRAM_WORDS : Z := 16384.
Definition vwrite (a x : Z) (m : vmem) : vmem :=
  fun b => if b =? a mod VRAM_WORDS then x else m b.

(** The five registers the firmware sets. *)
Record Blitter : Type := mkBlitter {
  value : Z;
  span : Z;
  skip : Z;
  repeat : Z;
  addr : Z
}.

(** ** The hardware *)

(** The other registers of the module, and the memory behind it. *)
Record blit_hw : Type := mkBlitHw {
  regs : Blitter;
  blit_active : bool;
  blit_wr : bool;
  blit_addr : Z;
  blit_dout : Z;
  blit_next_addr : Z;
  blit_span_count : Z;
  blit_repeat_count : Z;
  ram : vmem
}.

(** A write of 1 to [submit] while the blitter is idle. *)
Definition hw_submit (h : blit_hw) : blit_hw :=
  {| regs := regs h; blit_active := true; blit_wr := false; blit_addr := blit_addr h; blit_dout := blit_dout h;
     blit_next_addr := addr (regs h); blit_span_count := 0; blit_repeat_count := 0; ram := ram h |}.

(** One clock of an active blitter: the memory takes the write that is on the
    outputs, and the next one goes out. *)
Definition hw_clock (h : blit_hw) : blit_hw :=
  let m := if blit_active h && blit_wr h then vwrite (blit_addr h) (blit_dout h) (ram h) else ram h in
  let r := regs h in
  if negb (blit_active h) then
    {| regs := r; blit_active := false; blit_wr := false; blit_addr := blit_addr h; blit_dout := blit_dout h;
       blit_next_addr := blit_next_addr h; blit_span_count := blit_span_count h;
       blit_repeat_count := blit_repeat_count h; ram := m |}
  else if repeat r <? blit_repeat_count h then
    {| regs := r; blit_active := false; blit_wr := false; blit_addr := blit_addr h; blit_dout := blit_dout h;
       blit_next_addr := blit_next_addr h; blit_span_count := blit_span_count h;
       blit_repeat_count := blit_repeat_count h; ram := m |}
  else if blit_span_count h =? span r then
    {| regs := r; blit_active := true; blit_wr := true; blit_addr := blit_next_addr h; blit_dout := value r;
       blit_next_addr := u16 (blit_next_addr h + skip r); blit_span_count := 0;
       blit_repeat_count := u16 (blit_repeat_count h + 1); ram := m |}
  else
    {| regs := r; blit_active := true; blit_wr := true; blit_addr := blit_next_addr h; blit_dout := value r;
       blit_next_addr := u16 (blit_next_addr h + 1); blit_span_count := u16 (blit_span_count h + 1);
       blit_repeat_count := blit_repeat_count h; ram := m |}.

Definition hw_clocks (n : nat) (h : blit_hw) : blit_hw := Nat.iter n hw_clock h.

(** ** What a job writes *)

(** [n] cells from [a] on, then [k] more rows, each [step] after the last. *)
Definition row_writes (a : Z) (n : nat) : list Z := map (fun i => u16 (a + Z.of_nat i)) (seq 0 n).
Definition job_writes (a : Z) (n k : nat) (step : Z) : list Z :=
  concat (map (fun j => row_writes (a + Z.of_nat j * step) n) (seq 0 k)).

Definition write_all (x : Z) (cells : list Z) (m : vmem) : vmem := foldl (fun m a => vwrite a x m) m cells.

(** The effect of a submitted job.  With [repeat] at its maximum the row
    counter never exceeds it, and the processor waits for ever. *)
Definition blit (r : Blitter) (m : vmem) : result vmem :=
  if repeat r =? 65535 then Err Hang
  else Ok (write_all (value r)
         (job_writes (addr r) (S (Z.to_nat (span r))) (S (Z.to_nat (repeat r))) (span r + skip r)) m).

(** ** Equivalence *)

Lemma row_writes_S a n : row_writes a (S n) = u16 a :: row_writes (a + 1) n.
Proof.
  unfold row_writes. cbn [seq map]. rewrite Z.add_0_r. f_equal. rewrite <- seq_shift, map_map.
  apply map_ext. intros i. f_equal. lia.
Qed.

Lemma job_writes_S a n k step : job_writes a n (S k) step = row_writes a n ++ job_writes (a + step) n k step.
Proof.
  unfold job_writes. cbn [seq map concat]. rewrite Z.mul_0_l, Z.add_0_r. f_equal. f_equal.
  rewrite <- seq_shift, map_map. apply map_ext. intros j. f_equal. lia.
Qed.

Lemma write_all_app x l k m : write_all x (l ++ k) m = write_all x k (write_all x l m).
Proof. apply foldl_app. Qed.

Section job.
Context (r : Blitter) (Hspan : is_u16 (span r)) (Hrepeat : is_u16 (repeat r)).

(** The memory with the write on the outputs done. *)
Definition settled (h : blit_hw) : vmem :=
  if blit_active h && blit_wr h then vwrite (blit_addr h) (blit_dout h) (ram h) else ram h.

(** The blitter is about to write the cell [col] of the row [row] at [a]. *)
Definition at_cell (h : blit_hw) (a : Z) (col row : Z) (m : vmem) : Prop :=
  regs h = r /\ blit_active h = true /\ blit_next_addr h = u16 a /\ blit_span_count h = col /\
  blit_repeat_count h = row /\ settled h = m.

Lemma clock_inside h a col row m :
  at_cell h a col row m -> 0 <= col < span r -> row <= repeat r ->
  at_cell (hw_clock h) (a + 1) (col + 1) row (vwrite (u16 a) (value r) m).
Proof.
  intros (Er & Ea & En & Ec & Ew & Es) Hc Hr. unfold is_u16 in *. unfold at_cell, hw_clock, settled in *.
  rewrite Er, Ea, Ec, Ew, En in *. cbn [negb].
  rewrite (proj2 (Z.ltb_ge (repeat r) row)) by lia. rewrite (proj2 (Z.eqb_neq col (span r))) by lia.
  cbn. split_and!; try done; [word_lia| |by subst m]. apply u16_small. unfold is_u16. lia.
Qed.

Lemma clock_row_end h a row m :
  at_cell h a (span r) row m -> 0 <= row <= repeat r -> repeat r < 65535 ->
  at_cell (hw_clock h) (a + skip r) 0 (row + 1) (vwrite (u16 a) (value r) m).
Proof.
  intros (Er & Ea & En & Ec & Ew & Es) Hr Hlt. unfold is_u16 in *. unfold at_cell, hw_clock, settled in *.
  rewrite Er, Ea, Ec, Ew, En in *. cbn [negb].
  rewrite (proj2 (Z.ltb_ge (repeat r) row)) by lia. rewrite Z.eqb_refl.
  cbn. split_and!; try done; [word_lia| |by subst m]. apply u16_small. unfold is_u16. lia.
Qed.

Lemma hw_clocks_add m n h : hw_clocks (m + n) h = hw_clocks n (hw_clocks m h).
Proof. unfold hw_clocks. rewrite Nat.add_comm. apply Nat.iter_add. Qed.

Lemma clocks_row n h a col row m :
  at_cell h a col row m -> 0 <= col -> col + Z.of_nat n = span r -> 0 <= row <= repeat r -> repeat r < 65535 ->
  at_cell (hw_clocks (S n) h) (a + Z.of_nat n + skip r) 0 (row + 1)
    (write_all (value r) (row_writes a (S n)) m).
Proof.
  revert h a col m. induction n as [|n IH]; intros h a col m H Hc Hn Hr Hlt.
  - replace col with (span r) in H by lia. rewrite row_writes_S. cbn. rewrite Z.add_0_r.
    by apply clock_row_end.
  - pose proof (clock_inside h a col row m H ltac:(lia) ltac:(lia)) as H1.
    specialize (IH _ _ _ _ H1 ltac:(lia) ltac:(lia) Hr Hlt). rewrite row_writes_S.
    change (S (S n)) with (1 + S n)%nat. rewrite hw_clocks_add.
    replace (a + Z.of_nat (S n) + skip r) with (a + 1 + Z.of_nat n + skip r) by lia. exact IH.
Qed.

Lemma clocks_rows k h a row m :
  at_cell h a 0 row m -> 0 <= row -> row + Z.of_nat k = repeat r + 1 -> repeat r < 65535 ->
  let n := S (Z.to_nat (span r)) in
  at_cell (hw_clocks (k * n) h) (a + Z.of_nat k * (span r + skip r)) 0 (repeat r + 1)
    (write_all (value r) (job_writes a n k (span r + skip r)) m).
Proof.
  intros H Hr Hk Hlt n. revert h a row m H Hr Hk. induction k as [|k IH]; intros h a row m H Hr Hk.
  - cbn. replace row with (repeat r + 1) in H by lia. by rewrite Z.add_0_r.
  - unfold is_u16 in Hspan.
    pose proof (clocks_row (Z.to_nat (span r)) h a 0 row m H ltac:(lia) ltac:(lia) ltac:(lia) Hlt) as H1.
    specialize (IH _ _ _ _ H1 ltac:(lia) ltac:(lia)). rewrite job_writes_S, write_all_app.
    change (S k * n)%nat with (n + k * n)%nat. rewrite hw_clocks_add.
    replace (a + Z.of_nat (S k) * (span r + skip r))
      with (a + Z.of_nat (Z.to_nat (span r)) + skip r + Z.of_nat k * (span r + skip r)) by lia.
    replace (a + Z.of_nat (Z.to_nat (span r)) + skip r) with (a + (span r + skip r)) in IH |- * by lia. exact IH.
Qed.
End job.

Lemma hw_clocks_idle n h : blit_active h = false -> blit_active (hw_clocks n h) = false.
Proof.
  intros H. induction n as [|n IH]; [done|]. change (hw_clocks (S n) h) with (hw_clock (hw_clocks n h)).
  unfold hw_clock. by rewrite IH.
Qed.

Lemma submitted h : is_u16 (addr (regs h)) -> at_cell (regs h) (hw_submit h) (addr (regs h)) 0 0 (ram h).
Proof. intros H. split_and!; try done. cbn. by rewrite u16_small. Qed.

Lemma hw_stuck n h :
  repeat (regs h) = 65535 ->
  regs (hw_clocks n (hw_submit h)) = regs h /\ blit_active (hw_clocks n (hw_submit h)) = true /\
  is_u16 (blit_repeat_count (hw_clocks n (hw_submit h))).
Proof.
  intros E. induction n as [|n (Er & Ea & Ec)]; [by split_and!|].
  change (hw_clocks (S n) ?x) with (hw_clock (hw_clocks n x)). unfold hw_clock. rewrite Ea, Er, E. cbn [negb].
  rewrite (proj2 (Z.ltb_ge _ _)) by (unfold is_u16 in Ec; lia).
  destruct (_ =? span _); cbn; split_and!; try done. apply u16_range.
Qed.

(** The clocks a job takes. *)
Definition job_clocks (r : Blitter) : nat := S (S (Z.to_nat (repeat r)) * S (Z.to_nat (span r))).

(** A submitted job is its list of writes.  For any register contents
    with [repeat] below its maximum, the blitter is active for exactly
    [(span + 1) * (repeat + 1) + 1] clocks, and then the memory is the one
    with [value] written to the [span + 1] cells of each of the [repeat + 1]
    rows, [span + skip] apart: the last write, which goes out one clock late,
    included.  With [repeat] at 65535, which a height of zero gives, it stays
    active for ever. *)
Theorem blitter_job (h : blit_hw) :
  let r := regs h in
  is_u16 (span r) -> is_u16 (repeat r) -> is_u16 (addr r) ->
  match blit r (ram h) with
  | Ok m =>
      ram (hw_clocks (job_clocks r) (hw_submit h)) = m /\
      (forall n, blit_active (hw_clocks n (hw_submit h)) = bool_decide (n < job_clocks r)%nat)
  | Err e => e = Hang /\ forall n, blit_active (hw_clocks n (hw_submit h)) = true
  end.
Proof.
  intros r Hs Hr Ha. unfold blit. destruct (Z.eqb_spec (repeat r) 65535) as [E|E].
  { split; [done|]. intros n. by apply hw_stuck. }
  pose proof (submitted h Ha) as H0. fold r in H0. pose proof Hr as Hr'. unfold is_u16 in Hr'.
  apply (clocks_rows r Hs Hr (S (Z.to_nat (repeat r)))) in H0; [|lia..].
  set (h1 := hw_clocks _ _) in H0. destruct H0 as (Er & Ea & _ & _ & Ec & Em).
  change (job_clocks r) with (S (S (Z.to_nat (repeat r)) * S (Z.to_nat (span r)))).
  assert (blit_active (hw_clock h1) = false /\ ram (hw_clock h1) = settled h1) as [F1 F2].
  { unfold hw_clock, settled. rewrite Er, Ea, Ec. cbn [negb].
    by rewrite (proj2 (Z.ltb_lt (repeat r) (repeat r + 1))) by lia. }
  split; [by rewrite <- Em|]. intros n.
  set (k := (S (Z.to_nat (repeat r)) * S (Z.to_nat (span r)))%nat) in *.
  destruct (decide (n < S k)%nat) as [Hn|Hn]; [rewrite bool_decide_true by done|rewrite bool_decide_false by done].
  - destruct (blit_active (hw_clocks n (hw_submit h))) eqn:En; [done|].
    apply (hw_clocks_idle (k - n)) in En. rewrite <- hw_clocks_add in En.
    replace (n + (k - n))%nat with k in En by lia. fold h1 in En. congruence.
  - replace n with (k + (1 + (n - S k)))%nat by lia. rewrite !hw_clocks_add. fold h1. by apply hw_clocks_idle.
Qed.

(** A job of two rows of three cells. *)
Definition demo_job : blit_hw :=
  {| regs := {| value := 0x420; span := 2; skip := 126; repeat := 1; addr := 130 |}; blit_active := false;
     blit_wr := false; blit_addr := 0; blit_dout := 0; blit_next_addr := 0; blit_span_count := 0;
     blit_repeat_count := 0; ram := fun _ => 0 |}.

Lemma blitter_job_witness :
  ram (hw_clocks 7 (hw_submit demo_job)) = write_all 0x420 [130; 131; 132; 258; 259; 260] (fun _ => 0) /\
  blit_active (hw_clocks 6 (hw_submit demo_job)) = true /\ blit_active (hw_clocks 7 (hw_submit demo_job)) = false.
Proof.
  destruct (blitter_job demo_job) as [H1 H2]; [by vm_compute..|].
  split; [exact H1|]. split; [apply (H2 6%nat)|apply (H2 7%nat)].
Defined.
