(* ===== verification/Float.v ===== *)
(** * Floating point (the float and double arithmetic of firmware/src/hdmi.c)

    The firmware is built without a floating-point unit: [float] and [double]
    are IEEE 754 binary32 and binary64, every operation rounded to nearest
    even in its own type.  The values and operations are those of the
    Standard Library's executable specification. *)

From Stdlib Require Import SpecFloat.
From S2P Require Import Prelude.

Definition float : Type := spec_float.

(** The two formats. *)
Inductive fmt : Type := F32 | F64.
Definition prec (t : fmt) : Z := match t with F32 => 24 | F64 => 53 end.
Definition emax (t : fmt) : Z := match t with F32 => 128 | F64 => 1024 end.

Definition fadd (t : fmt) : float -> float -> float := SFadd (prec t) (emax t).
Definition fsub (t : fmt) : float -> float -> float := SFsub (prec t) (emax t).
Definition fmul (t : fmt) : float -> float -> float := SFmul (prec t) (emax t).
Definition fdiv (t : fmt) : float -> float -> float := SFdiv (prec t) (emax t).

(** An integer, and a value of the other format, in the format [t]. *)
Definition of_Z (t : fmt) (z : Z) : float := binary_normalize (prec t) (emax t) z 0 false.
Definition convert (t : fmt) (f : float) : float :=
  match f with
  | S754_finite s m e => binary_normalize (prec t) (emax t) (if s then Zneg m else Zpos m) e s
  | _ => f
  end.

(** A decimal constant [n / d]: the quotient of two exact integers is rounded once. *)
Definition const (t : fmt) (n d : Z) : float := fdiv t (of_Z t n) (of_Z t d).

Definition flt (a b : float) : bool := SFltb a b.
Definition fle (a b : float) : bool := SFleb a b.

(** [f] as a condition. *)
Definition nonzero_f (f : float) : bool := negb (SFeqb f (S754_zero false)).

(** Truncation; a NaN or an infinity has none. *)
Definition trunc (f : float) : option Z :=
  match f with
  | S754_zero _ => Some 0
  | S754_finite s m e =>
      let a := if 0 <=? e then Zpos m * 2 ^ e else Zpos m / 2 ^ (- e) in
      Some (if s then - a else a)
  | _ => None
  end.

(** The conversions to [uint32_t] and [int], undefined out of range. *)
Definition to_u32 (f : float) : result Z :=
  match trunc f with
  | Some z => if (0 <=? z) && (z <? 2 ^ 32) then Ok z else Err BadConversion
  | None => Err BadConversion
  end.
Definition to_int (f : float) : result Z :=
  match trunc f with
  | Some z => if (- 2 ^ 31 <=? z) && (z <? 2 ^ 31) then Ok z else Err BadConversion
  | None => Err BadConversion
  end.
