(* ===== verification/FloatExact.v ===== *)
(** * Exact floating-point arithmetic

    The operations of binary64 where their result is representable: the
    canonical form of a number [M * 2 ^ E], and that sums, products,
    comparisons and truncations of such numbers are exact. *)

From Stdlib Require Import SpecFloat.
From S2P Require Import Prelude Float.

(** The canonical form of [M * 2 ^ E]. *)
Definition fl (s : bool) (M E : Z) : float :=
  let l := Z.log2 M in
  S754_finite s (Z.to_pos (if l <=? 52 then M * 2 ^ (52 - l) else M / 2 ^ (l - 52))) (l + E - 52).

(** The exponents of normal numbers. *)
Definition normal (M E : Z) : Prop := -1022 <= Z.log2 M + E <= 1023.

(** ** Shifts *)

Lemma digits2_log2 m : Zpos (digits2_pos m) = Z.log2 (Zpos m) + 1.
Proof.
  induction m as [p IH|p IH|]; [| |done]; cbn [digits2_pos]; rewrite Pos2Z.inj_succ, IH.
  - rewrite (Pos2Z.inj_xI p), Z.log2_succ_double by lia. lia.
  - rewrite (Pos2Z.inj_xO p), Z.log2_double by lia. lia.
Qed.

Lemma iter_pos_nat {A} (f : A -> A) p x : SpecFloat.iter_pos f p x = Nat.iter (Pos.to_nat p) f x.
Proof.
  revert x. induction p as [p IH|p IH|]; intros x; [| |done]; cbn [SpecFloat.iter_pos]; rewrite !IH, <- Nat.iter_add.
  - rewrite <- Nat.iter_succ_r. f_equal. lia.
  - f_equal. lia.
Qed.

Lemma shr_exact n : forall M, 0 < M -> Nat.iter n shr_1 {| shr_m := M * 2 ^ Z.of_nat n; shr_r := false; shr_s := false |} =
  {| shr_m := M; shr_r := false; shr_s := false |}.
Proof.
  induction n as [|n IH]; intros M HM; [cbn; by rewrite Z.mul_1_r|].
  rewrite Nat.iter_succ_r. replace (M * 2 ^ Z.of_nat (S n)) with (2 * (M * 2 ^ Z.of_nat n)) by (rewrite Nat2Z.inj_succ, Z.pow_succ_r; lia).
  assert (0 < M * 2 ^ Z.of_nat n) as H by (apply Z.mul_pos_pos; [done|apply Z.pow_pos_nonneg; lia]).
  specialize (IH M HM). destruct (M * 2 ^ Z.of_nat n) as [|p|p]; try lia. exact IH.
Qed.

Lemma shl_align_fst mx ex ez : ez <= ex -> Zpos (fst (shl_align mx ex ez)) = Zpos mx * 2 ^ (ex - ez).
Proof.
  intros H. unfold shl_align. destruct (ez - ex) as [|p|p] eqn:E; [| lia|].
  - replace (ex - ez) with 0 by lia. cbn. lia.
  - replace (ex - ez) with (Zpos p) by lia. cbn [fst]. clear. induction p as [|p IH] using Pos.peano_ind; [cbn; lia|].
    rewrite Pos.iter_succ, Pos2Z.inj_succ, Z.pow_succ_r, Pos2Z.inj_xO, IH by lia. lia.
Qed.

(** ** Rounding what needs none *)

Lemma log2_shift M k : 0 < M -> 0 <= k -> Z.log2 (M * 2 ^ k) = Z.log2 M + k.
Proof. intros. rewrite Z.log2_mul_pow2; lia. Qed.

Lemma mantissa_pos M : 0 < M -> 0 < (if Z.log2 M <=? 52 then M * 2 ^ (52 - Z.log2 M) else M / 2 ^ (Z.log2 M - 52)).
Proof.
  intros HM. pose proof (Z.log2_spec M HM) as [L _]. pose proof (Z.log2_nonneg M). destruct (Z.leb_spec (Z.log2 M) 52).
  - apply Z.mul_pos_pos; [done|apply Z.pow_pos_nonneg; lia].
  - apply Z.div_str_pos. split; [apply Z.pow_pos_nonneg; lia|]. etransitivity; [|exact L]. apply Z.pow_le_mono_r; lia.
Qed.

Lemma fl_shift s M E k : 0 < M -> 0 <= k -> fl s (M * 2 ^ k) (E - k) = fl s M E.
Proof.
  intros HM Hk. pose proof (Z.log2_nonneg M). unfold fl. rewrite log2_shift by done. f_equal; [|lia]. f_equal.
  destruct (Z.leb_spec (Z.log2 M + k) 52), (Z.leb_spec (Z.log2 M) 52); try lia.
  - rewrite <- Z.mul_assoc, <- Z.pow_add_r by lia. do 2 f_equal. lia.
  - replace (M * 2 ^ k) with (M * 2 ^ (52 - Z.log2 M) * 2 ^ (Z.log2 M + k - 52)) by (rewrite <- Z.mul_assoc, <- Z.pow_add_r by lia; do 2 f_equal; lia).
    apply Z.div_mul, Z.pow_nonzero; lia.
  - replace (2 ^ (Z.log2 M + k - 52)) with (2 ^ (Z.log2 M - 52) * 2 ^ k) by (rewrite <- Z.pow_add_r by lia; f_equal; lia).
    apply Z.div_mul_cancel_r; apply Z.pow_nonzero; lia.
Qed.

Lemma fexp_normal M E : 0 < M -> -1074 <= Z.log2 M + E - 52 -> fexp 53 1024 (Zdigits2 M + E) = Z.log2 M + E - 52.
Proof. intros HM HE. destruct M as [|m|m]; try lia. unfold Zdigits2, fexp, emin. rewrite digits2_log2. lia. Qed.

(** Mantissas of 53 bits and more. *)
Lemma round_aux_exact s N k E :
  0 < N -> Z.log2 N = 52 -> 0 <= k -> -1074 <= E + k <= 971 ->
  binary_round_aux 53 1024 s (N * 2 ^ k) E loc_Exact = S754_finite s (Z.to_pos N) (E + k).
Proof.
  intros HN HL Hk HE. unfold binary_round_aux, shr_fexp at 1.
  assert (0 < N * 2 ^ k) as HM by (apply Z.mul_pos_pos; [done|apply Z.pow_pos_nonneg; lia]).
  rewrite fexp_normal, log2_shift by (rewrite ?log2_shift; lia). replace (Z.log2 N + k + E - 52 - E) with k by lia. cbn [shr_record_of_loc].
  assert (shr {| shr_m := N * 2 ^ k; shr_r := false; shr_s := false |} E k = ({| shr_m := N; shr_r := false; shr_s := false |}, E + k)) as ->.
  { unfold shr. destruct k as [|p|p]; [by rewrite Z.mul_1_r, Z.add_0_r| |lia].
    rewrite iter_pos_nat. rewrite <- (shr_exact (Pos.to_nat p) N HN). do 4 f_equal. by rewrite positive_nat_Z. }
  cbn [shr_m loc_of_shr_record round_nearest_even]. unfold shr_fexp. rewrite fexp_normal by lia. rewrite HL.
  replace (52 + (E + k) - 52 - (E + k)) with 0 by lia. cbn [shr shr_record_of_loc shr_m].
  destruct N as [|n|n]; try lia. rewrite (proj2 (Z.leb_le _ _)) by lia. done.
Qed.

(** [A] has at most 53 bits, [A * 2 ^ t] at least. *)
Lemma round_aux_fl s A t E :
  0 < A -> Z.log2 A <= 52 -> 52 <= Z.log2 A + t -> normal A (E + t) ->
  binary_round_aux 53 1024 s (A * 2 ^ t) E loc_Exact = fl s A (E + t).
Proof.
  intros HA HL Ht HN. unfold normal in HN. pose proof (Z.log2_nonneg A).
  replace (A * 2 ^ t) with (A * 2 ^ (52 - Z.log2 A) * 2 ^ (t + Z.log2 A - 52)).
  2: { rewrite <- Z.mul_assoc, <- Z.pow_add_r by lia. do 2 f_equal. lia. }
  rewrite round_aux_exact; [|apply Z.mul_pos_pos; [done|apply Z.pow_pos_nonneg; lia]|rewrite log2_shift; lia|lia|lia].
  unfold fl. rewrite (proj2 (Z.leb_le _ _)) by done. f_equal. lia.
Qed.

(** Any mantissa whose significant bits are those of [A]. *)
Lemma round_fl s A t E :
  0 < A -> Z.log2 A <= 52 -> 0 <= t -> normal A (E + t) ->
  binary_round 53 1024 s (Z.to_pos (A * 2 ^ t)) E = fl s A (E + t).
Proof.
  intros HA HL Ht HN. pose proof (Z.log2_nonneg A). unfold normal in HN.
  assert (0 < A * 2 ^ t) as HM by (apply Z.mul_pos_pos; [done|apply Z.pow_pos_nonneg; lia]).
  unfold binary_round. pose proof (fexp_normal (A * 2 ^ t) E HM) as F. rewrite log2_shift in F by lia.
  rewrite <- (Z2Pos.id _ HM) in F at 1. cbn [Zdigits2] in F. rewrite F by lia. clear F.
  set (e := Z.log2 A + t + E - 52). unfold shl_align. destruct (e - E) as [|p|p] eqn:Ee.
  1-2: rewrite Z2Pos.id by done; apply round_aux_fl; unfold normal; lia.
  pose proof (shl_align_fst (Z.to_pos (A * 2 ^ t)) E e ltac:(lia)) as Hs. unfold shl_align in Hs. rewrite Ee in Hs. cbn [fst] in Hs.
  rewrite Hs, Z2Pos.id, <- Z.mul_assoc, <- Z.pow_add_r by lia. rewrite round_aux_fl; unfold normal; try lia. f_equal. lia.
Qed.

(** ** The operations *)

Lemma log2_small M : 0 < M < 2 ^ 53 -> Z.log2 M <= 52.
Proof. intros H. pose proof (proj1 (Z.log2_lt_pow2 M 53 ltac:(lia))). lia. Qed.

Lemma of_Z_fl n : 0 < n < 2 ^ 53 -> of_Z F64 n = fl false n 0.
Proof.
  intros H. pose proof (log2_small n H). pose proof (Z.log2_nonneg n).
  pose proof (round_fl false n 0 0 ltac:(lia) ltac:(lia) ltac:(lia) ltac:(unfold normal; lia)) as R.
  rewrite Z.mul_1_r in R. destruct n as [|p|p]; try lia. exact R.
Qed.

Lemma fl_mantissa M : 0 < M < 2 ^ 53 -> Zpos (Z.to_pos (if Z.log2 M <=? 52 then M * 2 ^ (52 - Z.log2 M) else M / 2 ^ (Z.log2 M - 52))) = M * 2 ^ (52 - Z.log2 M).
Proof.
  intros H. rewrite Z2Pos.id by (apply mantissa_pos; lia). by rewrite (proj2 (Z.leb_le _ _)) by by apply log2_small.
Qed.

Lemma mul_fl s a b E E' :
  0 < a < 2 ^ 53 -> 0 < b < 2 ^ 53 -> a * b < 2 ^ 53 -> normal (a * b) (E + E') ->
  fmul F64 (fl s a E) (fl false b E') = fl s (a * b) (E + E').
Proof.
  intros Ha Hb Hab HN. pose proof (log2_small a Ha). pose proof (log2_small b Hb). pose proof (Z.log2_nonneg a). pose proof (Z.log2_nonneg b).
  pose proof (log2_small (a * b) ltac:(nia)). pose proof (Z.log2_mul_below a b ltac:(lia) ltac:(lia)).
  unfold fmul, fl at 1 2. cbn [SFmul prec emax]. rewrite Pos2Z.inj_mul, !fl_mantissa, xorb_false_r by done.
  replace (a * 2 ^ (52 - Z.log2 a) * (b * 2 ^ (52 - Z.log2 b))) with (a * b * 2 ^ (104 - Z.log2 a - Z.log2 b)).
  2: { replace (104 - Z.log2 a - Z.log2 b) with (52 - Z.log2 a + (52 - Z.log2 b)) by lia. rewrite Z.pow_add_r by lia. ring. }
  rewrite round_aux_fl; [f_equal; lia|nia|done|lia|]. unfold normal in *. lia.
Qed.

(** A difference is zero or exact. *)
Definition fl0 (M E : Z) : float := if M =? 0 then S754_zero false else if M <? 0 then fl true (- M) E else fl false M E.

Lemma sub_fl a b E :
  0 < a < 2 ^ 53 -> 0 < b < 2 ^ 53 -> (a <> b -> normal (Z.abs (a - b)) E) ->
  fsub F64 (fl false a E) (fl false b E) = fl0 (a - b) E.
Proof.
  intros Ha Hb HN. pose proof (log2_small a Ha). pose proof (log2_small b Hb).
  unfold fsub, fl at 1 2. cbn [SFsub prec emax cond_Zopp]. set (ez := Z.min _ _).
  rewrite !shl_align_fst, !fl_mantissa by (done || lia). rewrite <- !Z.mul_assoc, <- !Z.pow_add_r by lia.
  replace (52 - Z.log2 a + (Z.log2 a + E - 52 - ez)) with (E - ez) by lia. replace (52 - Z.log2 b + (Z.log2 b + E - 52 - ez)) with (E - ez) by lia.
  rewrite <- Z.mul_sub_distr_r. unfold fl0. assert (0 < 2 ^ (E - ez)) as H2 by (apply Z.pow_pos_nonneg; lia).
  destruct (Z.eqb_spec (a - b) 0) as [->|Hd]; [done|]. specialize (HN ltac:(lia)).
  assert (forall c s, 0 < c < 2 ^ 53 -> normal c E -> binary_round 53 1024 s (Z.to_pos (c * 2 ^ (E - ez))) ez = fl s c E) as R.
  { intros c s Hc Hn. rewrite round_fl; [f_equal; lia|lia|by apply log2_small|lia|]. by replace (ez + (E - ez)) with E by lia. }
  destruct (Z.ltb_spec (a - b) 0) as [Hl|Hl].
  - rewrite Z.abs_neq in HN by lia. rewrite <- (R (- (a - b)) true) by (lia || done).
    assert ((a - b) * 2 ^ (E - ez) < 0) by nia. destruct ((a - b) * 2 ^ (E - ez)) as [|p|p] eqn:Ep; try lia.
    by replace (- (a - b) * 2 ^ (E - ez)) with (Zpos p) by lia.
  - rewrite Z.abs_eq in HN by lia. rewrite <- (R (a - b) false) by (lia || done).
    assert (0 < (a - b) * 2 ^ (E - ez)) by nia. destruct ((a - b) * 2 ^ (E - ez)) as [|p|p] eqn:Ep; try lia. done.
Qed.

Lemma compare_fl a b E E' :
  0 < a < 2 ^ 53 -> 0 < b < 2 ^ 53 -> E <= E' -> SFcompare (fl false a E') (fl false b E) = Some (a * 2 ^ (E' - E) ?= b).
Proof.
  intros Ha Hb HE. pose proof (log2_small a Ha). pose proof (log2_small b Hb). pose proof (log2_shift a (E' - E) ltac:(lia) ltac:(lia)) as L.
  unfold fl. cbn [SFcompare].
  destruct (Z.compare_spec (Z.log2 a + E' - 52) (Z.log2 b + E - 52)) as [El|Hl|Hl]; f_equal.
  - etransitivity; [exact (f_equal2 Z.compare (fl_mantissa a Ha) (fl_mantissa b Hb))|].
    replace (52 - Z.log2 a) with (E' - E + (52 - Z.log2 b)) by lia. rewrite Z.pow_add_r, Z.mul_assoc by lia. symmetry.
    apply Zmult_compare_compat_r, Z.lt_gt, Z.pow_pos_nonneg; lia.
  - symmetry. apply Z.compare_lt_iff. apply Z.log2_lt_cancel. lia.
  - symmetry. apply Z.compare_gt_iff. apply Z.log2_lt_cancel. lia.
Qed.

Lemma compare_opp x y : SFcompare (SFopp x) (SFopp y) = SFcompare y x.
Proof.
  destruct x as [[]|[]| |[] m e], y as [[]|[]| |[] m' e']; try done; cbn [SFopp negb SFcompare]; f_equal; rewrite (Z.compare_antisym e' e);
    destruct (e' ?= e); try done; cbn [CompOpp]; change (Pos.compare_cont Eq ?u ?v) with (u ?= v)%positive; rewrite ?(Pos.compare_antisym m' m), ?CompOpp_involutive; done.
Qed.

(** The floor of [M / 2 ^ j]. *)
Lemma trunc_fl s M j : 0 < M < 2 ^ 53 -> 0 <= j -> trunc (fl s M (- j)) = Some (if s then - (M / 2 ^ j) else M / 2 ^ j).
Proof.
  intros HM Hj. pose proof (log2_small M HM). unfold trunc, fl. rewrite fl_mantissa by done. f_equal.
  assert ((if 0 <=? Z.log2 M + - j - 52 then M * 2 ^ (52 - Z.log2 M) * 2 ^ (Z.log2 M + - j - 52)
           else M * 2 ^ (52 - Z.log2 M) / 2 ^ (- (Z.log2 M + - j - 52))) = M / 2 ^ j) as ->; [|done].
  destruct (Z.leb_spec 0 (Z.log2 M + - j - 52)).
  - replace j with 0 by lia. replace (Z.log2 M) with 52 by lia. cbn. rewrite Z.div_1_r. lia.
  - replace (- (Z.log2 M + - j - 52)) with (j + (52 - Z.log2 M)) by lia. rewrite Z.pow_add_r by lia.
    apply Z.div_mul_cancel_r; apply Z.pow_nonzero; lia.
Qed.
