(* ===== verification/Hdmi.v ===== *)
(** * Video modes (firmware/src/hdmi.c, hdmi.h; rtl/crtc.sv; sys/sys_top.v)

    The timing calculation, the parameters of the two PLLs, and the writes
    that program the HDMI output and the CRT controller, together with the
    receivers at the other end of those writes. *)

From S2P Require Import Prelude Float.

Record VideoMode : Type := mkVideoMode {
  hact : Z;
  hfp : Z;
  hs : Z;
  hbp : Z;
  vact : Z;
  vfp : Z;
  vs : Z;
  vbp : Z;
  mhz : float
}.

Definition video_mode_pixels (m : VideoMode) : Z :=
  u32 ((hact m + hbp m + hfp m + hs m) * (vact m + vbp m + vfp m + vs m)).

(** ** The bus

    The writes to the registers of the HDMI port and of the CRT controller in
    order, and the values the reads of [crtc->pll_io] will return. *)
Inductive bus_write : Type :=
  | VioEn (v : Z)
  | VioData (v : Z)
  | Crtc (reg v : Z).

Record bus : Type := mkBus {
  writes : list bus_write;
  pll_io_reads : list Z
}.

Definition write (w : bus_write) : M bus unit :=
  modify (fun b => {| writes := writes b ++ [w]; pll_io_reads := pll_io_reads b |}).

Definition VIO_SET_MODE : Z := 1.
Definition VIO_SET_PLL : Z := 2.
Definition VIO_SET_OVERRIDE : Z := 3.
Definition VIO_SET_CFG : Z := 4.

Definition vio_enable : M bus unit := write (VioEn 0xffff).
Definition vio_disable : M bus unit := write (VioEn 0x0000).
Definition vio_w16 (d : Z) : M bus unit := write (VioData (u16 d)).
Definition vio_cmd (cmd data : Z) : M bus unit :=
  vio_enable;; write (VioData cmd);; write (VioData data);; vio_disable.
Definition vio_cmd_cont (cmd : Z) : M bus unit := vio_enable;; write (VioData cmd).
Definition vio_write_pll (addr value : Z) : M bus unit :=
  vio_cmd_cont VIO_SET_PLL;;
  vio_w16 addr;;
  vio_w16 (value &&& 0xffff);;
  vio_w16 (value >>> 16);;
  vio_disable.

(** ** PLL parameters *)

Definition getPLLdiv (div : Z) : Z :=
  if has div 1 then u32 (0x20000 ||| (((div / 2) + 1) <<< 8) ||| (div / 2))
  else u32 (((div / 2) <<< 8) ||| (div / 2)).

(** [while ((Fout*c) < 400) c++], the product in the format of [Fout]. *)
Fixpoint first_c (fuel : nat) (t : fmt) (Fout : float) (c : Z) : result Z :=
  match fuel with
  | O => Err Hang
  | S fuel => if flt (fmul t Fout (of_Z t c)) (of_Z t 400) then first_c fuel t Fout (u32 (c + 1)) else Ok c
  end.

(** The constants [0.05f] and [0.95f], compared with a [double]. *)
Definition K_LOW : float := convert F64 (const F32 5 100).
Definition K_HIGH : float := convert F64 (const F32 95 100).

(** The second loop of [findPLLpar]: [None] for [return 0]. *)
Fixpoint find_k (fuel : nat) (Fout : float) (c : Z) : result (option (Z * Z * float)) :=
  match fuel with
  | O => Err Hang
  | S fuel =>
      let fvco := fmul F64 Fout (of_Z F64 c) in
      let q := fdiv F64 fvco (of_Z F64 50) in
      m ← to_u32 q;
      let ko := fsub F64 q (of_Z F64 m) in
      let fvco := fmul F64 (fadd F64 ko (of_Z F64 m)) (of_Z F64 50) in
      if nonzero_f ko && (fle ko K_LOW || fle K_HIGH ko) then
        if flt (of_Z F64 1500) fvco then Ok None else find_k fuel Fout (u32 (c + 1))
      else Ok (Some (c, m, ko))
  end.

(** Enough for frequencies of a few hundred kHz and more. *)
Definition PLL_FUEL : nat := 2048.

Definition findPLLpar (Fout : float) : result (option (Z * Z * float)) :=
  c ← first_c PLL_FUEL F64 Fout 1;
  find_k PLL_FUEL Fout c.

(** The fallback that [setPLL] and [crt_set_mode] share; the product with
    [c] is made in the type of the frequency, [t]. *)
Definition pll_fallback (t : fmt) (Fout : float) : result (Z * Z * float) :=
  c ← first_c PLL_FUEL t Fout 1;
  let fvco := convert F64 (fmul t Fout (of_Z t c)) in
  let q := fdiv F64 fvco (of_Z F64 50) in
  m ← to_u32 q;
  let ko := fsub F64 q (of_Z F64 m) in
  if fle ko K_LOW then Ok (c, m, of_Z F64 0)
  else if fle K_HIGH ko then Ok (c, u32 (m + 1), of_Z F64 0)
  else Ok (c, m, ko).

(** [c], [m] and [k] for a frequency of format [t]. *)
Definition pll_params (t : fmt) (Fout : float) : result (Z * Z * Z) :=
  r ← findPLLpar (convert F64 Fout);
  '(c, m, ko) ← match r with Some p => Ok p | None => pll_fallback t Fout end;
  k ← (if nonzero_f ko then to_u32 (fmul F64 ko (of_Z F64 4294967296)) else Ok 1);
  Ok (c, m, k).

Definition setPLL (Fout : float) : M bus unit :=
  '(c, m, k) ← lift (pll_params F64 Fout);
  vio_write_pll 0 0;;
  vio_write_pll 4 (getPLLdiv m);;
  vio_write_pll 3 0x10000;;
  vio_write_pll 5 (getPLLdiv c);;
  vio_write_pll 9 2;;
  vio_write_pll 8 7;;
  vio_write_pll 7 k.

(** ** The CRT controller *)

(** The position of each field of [CRTC] in 16-bit words; [pll_data] takes
    two, the high half first. *)
Definition CRTC_ce_numer : Z := 0.
Definition CRTC_ce_denom : Z := 1.
Definition CRTC_hact : Z := 2.
Definition CRTC_hfp : Z := 3.
Definition CRTC_hs : Z := 4.
Definition CRTC_hbp : Z := 5.
Definition CRTC_vact : Z := 6.
Definition CRTC_vfp : Z := 7.
Definition CRTC_vs : Z := 8.
Definition CRTC_vbp : Z := 9.
Definition CRTC_arx : Z := 10.
Definition CRTC_ary : Z := 11.
Definition CRTC_pll_data : Z := 12.
Definition CRTC_pll_address : Z := 14.
Definition CRTC_pll_io : Z := 15.

(** [while (crtc->pll_io != 0) {}]: how many reads it takes is up to the
    reads the hardware answers. *)
Fixpoint skip_busy (reads : list Z) : result (list Z) :=
  match reads with
  | [] => Err Hang
  | r :: reads => if r =? 0 then Ok reads else skip_busy reads
  end.
Definition wait_pll_io : M bus unit :=
  fun b => match skip_busy (pll_io_reads b) with
           | Ok rs => Ok (tt, {| writes := writes b; pll_io_reads := rs |})
           | Err f => Err f
           end.

Definition crtc_write_pll (address data : Z) : M bus unit :=
  wait_pll_io;;
  write (Crtc CRTC_pll_data (u16 (data >>> 16)));;
  write (Crtc (CRTC_pll_data + 1) (u16 data));;
  write (Crtc CRTC_pll_address (u16 address));;
  write (Crtc CRTC_pll_io 0xffff).

Definition crt_set_mode (mode : VideoMode) (wide : bool) : M bus unit :=
  let mhz4 := fmul F32 (mhz mode) (of_Z F32 4) in
  '(c, m, k) ← lift (pll_params F32 mhz4);
  crtc_write_pll 0 0;;
  crtc_write_pll 4 (getPLLdiv m);;
  crtc_write_pll 3 0x10000;;
  crtc_write_pll 5 (getPLLdiv c);;
  crtc_write_pll 9 2;;
  crtc_write_pll 8 7;;
  crtc_write_pll 7 k;;
  crtc_write_pll 2 0;;
  write (Crtc CRTC_ce_numer 1);;
  write (Crtc CRTC_ce_denom 4);;
  write (Crtc CRTC_hact (hact mode));;
  write (Crtc CRTC_hfp (hfp mode));;
  write (Crtc CRTC_hs (hs mode));;
  write (Crtc CRTC_hbp (hbp mode));;
  write (Crtc CRTC_vact (vact mode));;
  write (Crtc CRTC_vfp (vfp mode));;
  write (Crtc CRTC_vs (vs mode));;
  write (Crtc CRTC_vbp (vbp mode));;
  write (Crtc CRTC_arx (if wide then 16 else 4));;
  write (Crtc CRTC_ary (if wide then 9 else 3)).

(** ** Timing *)

Definition CELL_GRAN_RND : Z := 4.

(** The loop over the five aspect ratios: [(arx, ary, vsync)]. *)
Definition aspect_vsync : list (Z * Z * Z) := [(4, 3, 4); (16, 9, 5); (16, 10, 6); (5, 4, 7); (15, 9, 7)].
Fixpoint vsync_loop (l : list (Z * Z * Z)) (w h : Z) : Z :=
  match l with
  | [] => 10
  | (arx, ary, vsync) :: l =>
      if Z.quot (h * arx) (ary * CELL_GRAN_RND) * CELL_GRAN_RND =? w then vsync else vsync_loop l w h
  end.
Definition determine_vsync (w h : Z) : Z := vsync_loop aspect_vsync w h.

(** The two halves of [calculate_cvt]: blanking, sync and porches of the
    line, back porch of the frame, and the pixel clock. *)
Record cvt_part : Type := mkCvt {
  h_sync : Z;
  h_back_porch : Z;
  h_front_porch : Z;
  v_back_porch : Z;
  pixel_freq : float
}.

Definition V_FRONT_PORCH : Z := 3.
Definition MIN_V_BPORCH : Z := 6.

Definition cvt_reduced (h_rnd v_lines v_sync : Z) (refresh_rate : float) : result cvt_part :=
  let f := of_Z F32 in
  let RB_MIN_V_BLANK := f 460 in
  let h_period_est := fdiv F32 (fsub F32 (fdiv F32 (f 1000000) refresh_rate) RB_MIN_V_BLANK) (f v_lines) in
  let h_blank := 160 in
  n ← to_int (fdiv F32 RB_MIN_V_BLANK h_period_est);
  let vbi_lines := n + 1 in
  let rb_min_vbi := 3 + v_sync + MIN_V_BPORCH in
  let act_vbi_lines := if vbi_lines <? rb_min_vbi then rb_min_vbi else vbi_lines in
  let total_v_lines := act_vbi_lines + v_lines in
  let total_pixels := h_blank + h_rnd in
  let pf := fdiv F32 (fmul F32 refresh_rate (f (total_v_lines * total_pixels))) (f 1000000) in
  Ok {| pixel_freq := pf; v_back_porch := act_vbi_lines - V_FRONT_PORCH - v_sync;
        h_sync := 32; h_back_porch := 80; h_front_porch := h_blank - 32 - 80 |}.

Definition cvt_normal (h_rnd v_lines v_sync : Z) (refresh_rate : float) : result cvt_part :=
  let f := of_Z F32 in
  let MIN_VSYNC_BP := f 550 in
  let h_period_est :=
    fmul F32 (fdiv F32 (fsub F32 (fdiv F32 (f 1) refresh_rate) (fdiv F32 MIN_VSYNC_BP (f 1000000)))
                       (f (v_lines + V_FRONT_PORCH))) (f 1000000) in
  n ← to_int (fdiv F32 MIN_VSYNC_BP h_period_est);
  let v_sync_bp := n + 1 in
  let v_sync_bp := if v_sync_bp <? v_sync + MIN_V_BPORCH then v_sync + MIN_V_BPORCH else v_sync_bp in
  let ideal_duty_cycle := fsub F32 (f 30) (fdiv F32 (fmul F32 (f 300) h_period_est) (f 1000)) in
  h_blank ← (if flt ideal_duty_cycle (f 20)
             then Ok (Z.quot (Z.quot h_rnd 4) (2 * CELL_GRAN_RND) * (2 * CELL_GRAN_RND))
             else b ← to_int (fdiv F32 (fdiv F32 (fmul F32 (f h_rnd) ideal_duty_cycle)
                                                 (fsub F32 (f 100) ideal_duty_cycle)) (f (2 * CELL_GRAN_RND)));
                  Ok (b * (2 * CELL_GRAN_RND)));
  let total_pixels := h_rnd + h_blank in
  s ← to_int (fdiv F32 (fmul F32 (const F32 8 100) (f total_pixels)) (f CELL_GRAN_RND));
  let h_sync := s * CELL_GRAN_RND in
  let hbp := Z.quot h_blank 2 in
  Ok {| pixel_freq := fdiv F32 (f total_pixels) h_period_est; v_back_porch := v_sync_bp - v_sync;
        h_sync := h_sync; h_back_porch := hbp; h_front_porch := h_blank - h_sync - hbp |}.

Definition calculate_cvt (h_pixels v_lines : Z) (refresh_rate : float) (reduced_blanking : bool)
    : result VideoMode :=
  let h_rnd := Z.quot h_pixels CELL_GRAN_RND * CELL_GRAN_RND in
  let v_sync := determine_vsync h_rnd v_lines in
  p ← (if reduced_blanking then cvt_reduced h_rnd v_lines v_sync refresh_rate
       else cvt_normal h_rnd v_lines v_sync refresh_rate);
  Ok {| hact := u16 h_rnd; hfp := u16 (h_front_porch p); hs := u16 (h_sync p); hbp := u16 (h_back_porch p);
        vact := u16 v_lines; vfp := u16 (V_FRONT_PORCH - 1); vs := u16 v_sync; vbp := u16 (v_back_porch p + 1);
        mhz := pixel_freq p |}.

Definition hdmi_find_mode (width height : Z) (hz : float) : result VideoMode :=
  let rb := 1920 * 1080 <? width * height in
  calculate_cvt width height hz rb.

(** The frequency [setPLL] is called with: the product with the refresh rate
    is made in [float]. *)
Definition hdmi_mhz (mode : VideoMode) (hz : float) : float :=
  fdiv F64 (convert F64 (fmul F32 (of_Z F32 (video_mode_pixels mode)) hz)) (of_Z F64 1000000).

Definition hdmi_set_mode (width height : Z) (hz : float) : M bus unit :=
  mode ← lift (hdmi_find_mode width height hz);
  vio_cmd VIO_SET_OVERRIDE 1;;
  vio_cmd VIO_SET_CFG 0;;
  vio_cmd_cont VIO_SET_MODE;;
  vio_w16 (hact mode);;
  vio_w16 (hfp mode);;
  vio_w16 (hs mode);;
  vio_w16 (hbp mode);;
  vio_w16 (vact mode);;
  vio_w16 (vfp mode);;
  vio_w16 (vs mode);;
  vio_w16 (vbp mode);;
  vio_w16 1;;
  vio_disable;;
  setPLL (hdmi_mhz mode hz);;
  vio_cmd VIO_SET_CFG 1.
