(* ===== verification/HdmiProps.v ===== *)
(** * Properties of the video modes

    The receivers of the writes: the command decoder of the HDMI port
    (sys/sys_top.v) and the register file of the CRT controller
    (rtl/crtc.sv), and what they hold after a mode is set. *)

From S2P Require Import Prelude Float Hdmi.

(** ** The HDMI port *)

Record vio_rx : Type := mkRx {
  en : bool;
  has_cmd : bool;
  cmd : Z;
  cnt : Z;
  WIDTH : Z; HFP : Z; HS : Z; HBP : Z;
  HEIGHT : Z; VFP : Z; VS : Z; VBP : Z;
  lowlat : Z;
  cfg_custom_p1 : Z;
  cfg_custom_p2 : Z;
  pll_writes : list (Z * Z);
  override : Z;
  cfg_set : Z
}.

(** The bits [n-1 .. 0] of a word, and [{d[15], d[11:0]}]. *)
Definition low_bits (n x : Z) : Z := x mod 2 ^ n.
Definition sync_bits (d : Z) : Z := (if Z.testbit d 15 then 4096 else 0) + low_bits 12 d.

Definition rx_enable (b : bool) (r : vio_rx) : vio_rx :=
  {| en := b; has_cmd := if b then has_cmd r else false; cmd := if b then cmd r else 0; cnt := cnt r;
     WIDTH := WIDTH r; HFP := HFP r; HS := HS r; HBP := HBP r; HEIGHT := HEIGHT r; VFP := VFP r; VS := VS r;
     VBP := VBP r; lowlat := lowlat r; cfg_custom_p1 := cfg_custom_p1 r; cfg_custom_p2 := cfg_custom_p2 r;
     pll_writes := pll_writes r; override := override r; cfg_set := cfg_set r |}.

Definition rx_command (d : Z) (r : vio_rx) : vio_rx :=
  {| en := en r; has_cmd := true; cmd := low_bits 8 d; cnt := 0;
     WIDTH := WIDTH r; HFP := HFP r; HS := HS r; HBP := HBP r; HEIGHT := HEIGHT r; VFP := VFP r; VS := VS r;
     VBP := VBP r; lowlat := lowlat r; cfg_custom_p1 := cfg_custom_p1 r; cfg_custom_p2 := cfg_custom_p2 r;
     pll_writes := pll_writes r; override := override r; cfg_set := cfg_set r |}.

(** The word number [cnt] after the command; the third word of a PLL write
    toggles [cfg_custom_t], which starts the write of the pair. *)
Definition rx_word (d : Z) (r : vio_rx) : vio_rx :=
  let mode i := (cmd r =? 1) && (cnt r =? i) in
  let pll i := (cmd r =? 2) && (cnt r =? i) in
  let p2 := if pll 1 then (cfg_custom_p2 r / 65536) * 65536 + d
            else if pll 2 then d * 65536 + low_bits 16 (cfg_custom_p2 r) else cfg_custom_p2 r in
  {| en := en r; has_cmd := true; cmd := cmd r; cnt := u8 (cnt r + 1);
     WIDTH := if mode 0 then low_bits 12 d else WIDTH r;
     HFP := if mode 1 then low_bits 12 d else HFP r;
     HS := if mode 2 then sync_bits d else HS r;
     HBP := if mode 3 then low_bits 12 d else HBP r;
     HEIGHT := if mode 4 then low_bits 12 d else HEIGHT r;
     VFP := if mode 5 then low_bits 12 d else VFP r;
     VS := if mode 6 then sync_bits d else VS r;
     VBP := if mode 7 then low_bits 12 d else VBP r;
     lowlat := if mode 8 then low_bits 1 d else lowlat r;
     cfg_custom_p1 := if pll 0 then low_bits 6 d else cfg_custom_p1 r;
     cfg_custom_p2 := p2;
     pll_writes := if pll 2 then pll_writes r ++ [(cfg_custom_p1 r, p2)] else pll_writes r;
     override := if cmd r =? 3 then low_bits 1 d else override r;
     cfg_set := if cmd r =? 4 then low_bits 1 d else cfg_set r |}.

Definition rx_step (r : vio_rx) (w : bus_write) : vio_rx :=
  match w with
  | VioEn v => rx_enable (Z.testbit v 0) r
  | VioData d => if negb (en r) then r else if has_cmd r then rx_word d r else rx_command d r
  | Crtc _ _ => r
  end.

Definition receive (ws : list bus_write) (r : vio_rx) : vio_rx := foldl rx_step r ws.

(** The receiver once a mode and its PLL parameters were sent. *)
Definition programmed (mode : VideoMode) (r : vio_rx) : Prop :=
  WIDTH r = hact mode /\ HFP r = hfp mode /\ HS r = hs mode /\ HBP r = hbp mode /\
  HEIGHT r = vact mode /\ VFP r = vfp mode /\ VS r = vs mode /\ VBP r = vbp mode /\
  lowlat r = 1 /\ override r = 1 /\ cfg_set r = 1 /\ en r = false /\ has_cmd r = false.

(** The writes of the PLL, in the order of [setPLL]. *)
Definition pll_program (c m k : Z) : list (Z * Z) :=
  [(0, 0); (4, getPLLdiv m); (3, 0x10000); (5, getPLLdiv c); (9, 2); (8, 7); (7, k)].

Lemma low_bits_small n x : 0 <= x < 2 ^ n -> low_bits n x = x.
Proof. apply Z.mod_small. Qed.

Lemma sync_bits_small x : 0 <= x < 4096 -> sync_bits x = x.
Proof.
  intros H. unfold sync_bits. rewrite low_bits_small by (cbn; lia).
  assert (Z.testbit x 15 = false) as ->; [|done].
  apply Z.testbit_false; [lia|]. by rewrite Z.div_small by (cbn; lia).
Qed.

(** Runs of writes: what [m] appends to the trace. *)
Definition sends (m : M bus unit) (ws : list bus_write) : Prop :=
  forall b, m b = Ok (tt, {| writes := writes b ++ ws; pll_io_reads := pll_io_reads b |}).

Lemma sends_write w : sends (write w) [w].
Proof. done. Qed.

Lemma sends_seq m k ws vs : sends m ws -> sends k vs -> sends (m;; k) (ws ++ vs).
Proof. intros Hm Hk b. unfold mbind, M_bind. rewrite Hm, Hk. cbn. by rewrite app_assoc. Qed.

Lemma receive_app ws vs r : receive (ws ++ vs) r = receive vs (receive ws r).
Proof. apply foldl_app. Qed.

(** The trace of a fixed sequence of writes. *)
Ltac trace :=
  let b := fresh "b" in intros b; unfold vio_write_pll, vio_cmd, vio_cmd_cont, vio_w16, vio_enable, vio_disable, write, modify, mbind, M_bind;
  cbn [writes pll_io_reads]; rewrite <- ?app_assoc; reflexivity.

Definition pll_trace (addr value : Z) : list bus_write :=
  [VioEn 0xffff; VioData VIO_SET_PLL; VioData (u16 addr); VioData (u16 (value &&& 0xffff));
   VioData (u16 (value >>> 16)); VioEn 0].

Lemma sends_pll addr value : sends (vio_write_pll addr value) (pll_trace addr value).
Proof. trace. Qed.

(** The receiver is between commands. *)
Definition rx_idle (r : vio_rx) : Prop := en r = false /\ has_cmd r = false.

(** [r] with another state of the decoder and of the PLL. *)
Definition rx_with (r : vio_rx) (e h : bool) (c n p1 p2 : Z) (l : list (Z * Z)) : vio_rx :=
  {| en := e; has_cmd := h; cmd := c; cnt := n; WIDTH := WIDTH r; HFP := HFP r; HS := HS r; HBP := HBP r;
     HEIGHT := HEIGHT r; VFP := VFP r; VS := VS r; VBP := VBP r; lowlat := lowlat r; cfg_custom_p1 := p1;
     cfg_custom_p2 := p2; pll_writes := l; override := override r; cfg_set := cfg_set r |}.

Lemma rx_pll_words r d n p1 p2 l :
  n = 0 \/ n = 1 \/ n = 2 ->
  rx_word d (rx_with r true true 2 n p1 p2 l) =
    rx_with r true true 2 (n + 1) (if n =? 0 then low_bits 6 d else p1)
      (if n =? 1 then (p2 / 65536) * 65536 + d else if n =? 2 then d * 65536 + low_bits 16 p2 else p2)
      (if n =? 2 then l ++ [(p1, d * 65536 + low_bits 16 p2)] else l).
Proof. by intros [-> | [-> | ->]]. Qed.

Lemma halves value : is_u32 value -> u16 (value >>> 16) * 65536 + u16 (value &&& 0xffff) = value.
Proof.
  intros H. unfold is_u32 in H. change 0xffff with (Z.ones 16). rewrite Z.land_ones, Z.shiftr_div_pow2 by lia.
  change (2 ^ 16) with 65536. pose proof (Z_div_mod_eq_full value 65536).
  rewrite !u16_small; [lia|unfold is_u16; apply Z.mod_pos_bound; lia|].
  unfold is_u16. split; [apply Z.div_pos; lia|]. apply Z.div_lt_upper_bound; lia.
Qed.

Lemma receive_pll addr value r :
  rx_idle r -> 0 <= addr < 64 -> is_u32 value ->
  receive (pll_trace addr value) r = rx_with r false false 0 3 addr value (pll_writes r ++ [(addr, value)]).
Proof.
  intros [He Hc] Ha Hv. pose proof (halves value Hv) as Hh. pose proof (u16_range (value &&& 0xffff)) as Hl.
  unfold is_u16 in Hl. set (lo := u16 (value &&& 0xffff)) in *. set (hi := u16 (value >>> 16)) in *.
  assert (receive (pll_trace addr value) r =
    rx_enable false (rx_word hi (rx_word lo (rx_word (u16 addr)
      (rx_with r true true 2 0 (cfg_custom_p1 r) (cfg_custom_p2 r) (pll_writes r)))))) as ->.
  { destruct r. cbn in He, Hc. rewrite He, Hc. reflexivity. }
  rewrite !rx_pll_words by lia. change (0 + 1 + 1) with 2. change (0 + 1) with 1. cbn [Z.eqb Pos.eqb].
  rewrite (u16_small addr), (low_bits_small 6 addr) by (unfold is_u16; cbn; lia).
  assert (low_bits 16 (cfg_custom_p2 r / 65536 * 65536 + lo) = lo) as E.
  { unfold low_bits. change (2 ^ 16) with 65536. rewrite Z.add_comm, Z.mod_add by lia. apply Z.mod_small. lia. }
  by rewrite E, Hh.
Qed.

Lemma rx_with_twice r e h c n p1 p2 l e' h' c' n' p1' p2' l' :
  rx_with (rx_with r e h c n p1 p2 l) e' h' c' n' p1' p2' l' = rx_with r e' h' c' n' p1' p2' l'.
Proof. reflexivity. Qed.

(** ** A whole mode *)

Definition mode_words (mode : VideoMode) : list bus_write :=
  [VioData (u16 (hact mode)); VioData (u16 (hfp mode)); VioData (u16 (hs mode)); VioData (u16 (hbp mode));
   VioData (u16 (vact mode)); VioData (u16 (vfp mode)); VioData (u16 (vs mode)); VioData (u16 (vbp mode));
   VioData (u16 1); VioEn 0].
Definition mode_trace (mode : VideoMode) : list bus_write := [VioEn 0xffff; VioData VIO_SET_MODE] ++ mode_words mode.
Definition cmd_trace (c d : Z) : list bus_write := [VioEn 0xffff; VioData c; VioData d; VioEn 0].

(** All fields fit the registers of the receiver. *)
Definition fits_12 (mode : VideoMode) : bool :=
  forallb (fun x => (0 <=? x) && (x <? 4096))
    [hact mode; hfp mode; hs mode; hbp mode; vact mode; vfp mode; vs mode; vbp mode].

(** [r] with the registers of a mode. *)
Definition rx_mode (r : vio_rx) (mode : VideoMode) (n : Z) : vio_rx :=
  {| en := false; has_cmd := false; cmd := 0; cnt := n; WIDTH := hact mode; HFP := hfp mode; HS := hs mode;
     HBP := hbp mode; HEIGHT := vact mode; VFP := vfp mode; VS := vs mode; VBP := vbp mode; lowlat := 1;
     cfg_custom_p1 := cfg_custom_p1 r; cfg_custom_p2 := cfg_custom_p2 r; pll_writes := pll_writes r;
     override := override r; cfg_set := cfg_set r |}.

Lemma receive_mode mode r :
  rx_idle r -> fits_12 mode = true -> receive (mode_trace mode) r = rx_mode r mode 9.
Proof.
  intros [He Hc] Hf. unfold mode_trace. rewrite receive_app.
  assert (receive [VioEn 0xffff; VioData VIO_SET_MODE] r =
    rx_with r true true 1 0 (cfg_custom_p1 r) (cfg_custom_p2 r) (pll_writes r)) as ->.
  { destruct r. cbn in He, Hc. rewrite He, Hc. reflexivity. }
  assert (receive (mode_words mode) (rx_with r true true 1 0 (cfg_custom_p1 r) (cfg_custom_p2 r) (pll_writes r)) =
    {| en := false; has_cmd := false; cmd := 0; cnt := 9; WIDTH := low_bits 12 (u16 (hact mode));
       HFP := low_bits 12 (u16 (hfp mode)); HS := sync_bits (u16 (hs mode)); HBP := low_bits 12 (u16 (hbp mode));
       HEIGHT := low_bits 12 (u16 (vact mode)); VFP := low_bits 12 (u16 (vfp mode));
       VS := sync_bits (u16 (vs mode)); VBP := low_bits 12 (u16 (vbp mode)); lowlat := 1;
       cfg_custom_p1 := cfg_custom_p1 r; cfg_custom_p2 := cfg_custom_p2 r; pll_writes := pll_writes r;
       override := override r; cfg_set := cfg_set r |}) as ->.
  { unfold mode_words. generalize (u16 (hact mode)), (u16 (hfp mode)), (u16 (hs mode)), (u16 (hbp mode)),
      (u16 (vact mode)), (u16 (vfp mode)), (u16 (vs mode)), (u16 (vbp mode)). intros. reflexivity. }
  unfold fits_12, forallb in Hf.
  rewrite !u16_small, !low_bits_small, !sync_bits_small by (unfold is_u16; change (2 ^ 12) with 4096; lia). done.
Qed.

Lemma getPLLdiv_u32 d : is_u32 (getPLLdiv d).
Proof. unfold getPLLdiv. destruct (has d 1); apply u32_range. Qed.

Lemma pll_params_k t f c m k : pll_params t f = Ok (c, m, k) -> is_u32 k.
Proof.
  unfold pll_params. intros H. apply bind_Ok in H as (r & _ & H). apply bind_Ok in H as ([[c' m'] ko] & _ & H).
  apply bind_Ok in H as (k' & Hk & [= <- <- <-]). destruct (nonzero_f ko); [|by injection Hk as <-].
  unfold to_u32 in Hk. destruct (trunc _) as [z|]; [|done]. destruct (_ && _) eqn:E; [|done].
  injection Hk as <-. unfold is_u32. lia.
Qed.

Lemma receive_pll_program c m k r :
  rx_idle r -> is_u32 k ->
  let ws := concat (map (fun '(a, v) => pll_trace a v) (pll_program c m k)) in
  receive ws r = rx_with r false false 0 3 7 k (pll_writes r ++ pll_program c m k).
Proof.
  intros Hr Hk ws. subst ws. unfold pll_program. cbn [map concat]. rewrite app_nil_r, !receive_app.
  pose proof (getPLLdiv_u32 m). pose proof (getPLLdiv_u32 c).
  rewrite (receive_pll 0 0) by (done || lia).
  rewrite (receive_pll 4), rx_with_twice by (done || lia). rewrite (receive_pll 3), rx_with_twice by (done || lia).
  rewrite (receive_pll 5), rx_with_twice by (done || lia). rewrite (receive_pll 9), rx_with_twice by (done || lia).
  rewrite (receive_pll 8), rx_with_twice by (done || lia). rewrite (receive_pll 7), rx_with_twice by (done || lia).
  cbn [pll_writes rx_with]. by rewrite <- !app_assoc.
Qed.

Lemma sends_setPLL f c m k :
  pll_params F64 f = Ok (c, m, k) ->
  sends (setPLL f) (concat (map (fun '(a, v) => pll_trace a v) (pll_program c m k))).
Proof.
  intros E. intros b. unfold setPLL. unfold mbind at 1, M_bind at 1, lift. rewrite E. cbv iota beta.
  revert b. unfold pll_program. cbn [map concat]. rewrite app_nil_r.
  repeat (apply sends_seq; [apply sends_pll|]). apply sends_pll.
Qed.

(** [r] with other configuration bits. *)
Definition rx_cfg (r : vio_rx) (o s : Z) : vio_rx :=
  {| en := false; has_cmd := false; cmd := 0; cnt := 1; WIDTH := WIDTH r; HFP := HFP r; HS := HS r; HBP := HBP r;
     HEIGHT := HEIGHT r; VFP := VFP r; VS := VS r; VBP := VBP r; lowlat := lowlat r;
     cfg_custom_p1 := cfg_custom_p1 r; cfg_custom_p2 := cfg_custom_p2 r; pll_writes := pll_writes r;
     override := o; cfg_set := s |}.

Lemma receive_override d r : rx_idle r -> receive (cmd_trace 3 d) r = rx_cfg r (low_bits 1 d) (cfg_set r).
Proof. intros [He Hc]. destruct r. cbn in He, Hc. rewrite He, Hc. reflexivity. Qed.

Lemma receive_cfg d r : rx_idle r -> receive (cmd_trace 4 d) r = rx_cfg r (override r) (low_bits 1 d).
Proof. intros [He Hc]. destruct r. cbn in He, Hc. rewrite He, Hc. reflexivity. Qed.

Lemma sends_mode {B} mode (k : M bus B) b :
  (vio_cmd_cont VIO_SET_MODE;; vio_w16 (hact mode);; vio_w16 (hfp mode);; vio_w16 (hs mode);; vio_w16 (hbp mode);;
   vio_w16 (vact mode);; vio_w16 (vfp mode);; vio_w16 (vs mode);; vio_w16 (vbp mode);; vio_w16 1;; vio_disable;; k) b =
  k {| writes := writes b ++ mode_trace mode; pll_io_reads := pll_io_reads b |}.
Proof.
  unfold vio_cmd_cont, vio_w16, vio_enable, vio_disable, write, modify, mbind, M_bind. cbn [writes pll_io_reads].
  by rewrite <- !app_assoc.
Qed.

(** The writes of [hdmi_set_mode]. *)
Definition hdmi_trace (mode : VideoMode) (c m k : Z) : list bus_write :=
  cmd_trace 3 1 ++ cmd_trace 4 0 ++ mode_trace mode ++
  concat (map (fun '(a, v) => pll_trace a v) (pll_program c m k)) ++ cmd_trace 4 1.

Lemma hdmi_set_mode_runs width height hz mode c m k b :
  hdmi_find_mode width height hz = Ok mode -> pll_params F64 (hdmi_mhz mode hz) = Ok (c, m, k) ->
  hdmi_set_mode width height hz b =
    Ok (tt, {| writes := writes b ++ hdmi_trace mode c m k; pll_io_reads := pll_io_reads b |}).
Proof.
  intros Em Ep. unfold hdmi_set_mode. unfold mbind at 1, M_bind at 1, lift. rewrite Em. cbv iota beta. revert b.
  apply (sends_seq _ _ (cmd_trace 3 1)); [trace|]. apply (sends_seq _ _ (cmd_trace 4 0)); [trace|].
  intros b'. rewrite sends_mode.
  rewrite (sends_seq _ _ (concat (map (fun '(a, v) => pll_trace a v) (pll_program c m k))) (cmd_trace 4 1));
    [|by apply sends_setPLL|trace].
  cbn [writes pll_io_reads]. by rewrite <- !app_assoc.
Qed.

Lemma hdmi_trace_received mode c m k r :
  fits_12 mode = true -> is_u32 k -> rx_idle r ->
  let r' := receive (hdmi_trace mode c m k) r in
  programmed mode r' /\ pll_writes r' = pll_writes r ++ pll_program c m k.
Proof.
  intros Hf Hk Hr. unfold hdmi_trace. cbv zeta. rewrite !receive_app, receive_override, receive_cfg, receive_mode by done.
  rewrite receive_pll_program by done. rewrite receive_cfg by done. split; [by split_and!|done].
Qed.

(** C16: What [hdmi_set_mode] sends is what the output receives.  Whenever the
    timing fits the registers and the PLL parameters exist, it returns, and
    the decoder at the other end, whatever it held before, holds the timing of
    the mode, low latency, the override and the final configuration bit, is
    ready for the next command, and has made exactly the seven PLL writes. *)
Theorem hdmi_mode_received (width height : Z) (hz : float) (mode : VideoMode) (c m k : Z) (b : bus) (r : vio_rx) :
  hdmi_find_mode width height hz = Ok mode -> fits_12 mode = true ->
  pll_params F64 (hdmi_mhz mode hz) = Ok (c, m, k) -> rx_idle r ->
  exists ws,
    hdmi_set_mode width height hz b = Ok (tt, {| writes := writes b ++ ws; pll_io_reads := pll_io_reads b |}) /\
    let r' := receive ws r in
    programmed mode r' /\ pll_writes r' = pll_writes r ++ pll_program c m k.
Proof.
  intros Em Hf Ep Hr. exists (hdmi_trace mode c m k). split; [by apply hdmi_set_mode_runs|].
  apply hdmi_trace_received; [done|by eapply pll_params_k|done].
Qed.

(** A receiver after reset, and the mode the menu starts with. *)
Definition rx0 : vio_rx :=
  {| en := false; has_cmd := false; cmd := 0; cnt := 0; WIDTH := 0; HFP := 0; HS := 0; HBP := 0; HEIGHT := 0;
     VFP := 0; VS := 0; VBP := 0; lowlat := 0; cfg_custom_p1 := 0; cfg_custom_p2 := 0; pll_writes := [];
     override := 0; cfg_set := 0 |}.
Definition bus0 : bus := {| writes := []; pll_io_reads := [] |}.
Definition no_mode : VideoMode :=
  {| hact := 0; hfp := 0; hs := 0; hbp := 0; vact := 0; vfp := 0; vs := 0; vbp := 0; mhz := of_Z F32 0 |}.
Definition mode_1080p60 : VideoMode :=
  Eval vm_compute in match hdmi_find_mode 1920 1080 (of_Z F32 60) with Ok m => m | Err _ => no_mode end.

Lemma hdmi_mode_received_witness :
  exists ws,
    hdmi_set_mode 1920 1080 (of_Z F32 60) bus0 = Ok (tt, {| writes := ws; pll_io_reads := [] |}) /\
    WIDTH (receive ws rx0) = 1920 /\ VBP (receive ws rx0) = 33 /\
    pll_writes (receive ws rx0) = [(0, 0); (4, 0x505); (3, 0x10000); (5, 0x20201); (9, 2); (8, 7); (7, 1659712802)].
Proof.
  destruct (hdmi_mode_received 1920 1080 (of_Z F32 60) mode_1080p60 3 10 1659712802 bus0 rx0)
    as (ws & E & (W & _ & _ & _ & _ & _ & _ & V & _) & P); [vm_compute; reflexivity..|split; reflexivity|].
  exists ws. split_and!; [exact E|exact W|exact V|exact P].
Defined.

(** A statement about the numbers below [n], by enumeration. *)
Lemma forall_below (n : nat) (P : Z -> bool) :
  forallb (fun i => P (Z.of_nat i)) (seq 0 n) = true -> forall d, 0 <= d < Z.of_nat n -> P d = true.
Proof.
  intros H d Hd. rewrite forallb_forall in H. specialize (H (Z.to_nat d)). rewrite Z2Nat.id in H by lia.
  apply H, in_seq. lia.
Qed.

(** The PLL divider words are invertible: bit 17 is the odd flag, the two
    low bytes are the high and low counts, and together they are the divider;
    the high count is one more just for odd dividers. *)
Theorem getPLLdiv_counts (d : Z) :
  0 <= d < 511 ->
  let w := getPLLdiv d in
  let hi := (w >>> 8) &&& 0xff in
  let lo := w &&& 0xff in
  hi + lo = d /\ hi - lo = (if Z.testbit w 17 then 1 else 0) /\ (Z.testbit w 17 = true <-> d mod 2 = 1).
Proof.
  intros Hd. pose proof (forall_below 511 (fun d =>
    let w := getPLLdiv d in
    let hi := (w >>> 8) &&& 0xff in
    let lo := w &&& 0xff in
    (hi + lo =? d) && (hi - lo =? (if Z.testbit w 17 then 1 else 0)) && eqb (Z.testbit w 17) (d mod 2 =? 1))) as H.
  specialize (H ltac:(vm_compute; reflexivity) d Hd). cbv zeta in H |- *.
  rewrite !andb_true_iff, !Z.eqb_eq, eqb_true_iff in H. destruct H as [[H1 H2] H3].
  split_and!; [done|done|]. rewrite H3. apply Z.eqb_eq.
Qed.

Lemma getPLLdiv_counts_witness :
  let w := getPLLdiv 43 in
  let hi := (w >>> 8) &&& 0xff in
  let lo := w &&& 0xff in
  hi + lo = 43 /\ hi - lo = (if Z.testbit w 17 then 1 else 0) /\ (Z.testbit w 17 = true <-> 43 mod 2 = 1).
Proof. apply (getPLLdiv_counts 43). lia. Defined.

(** ** The CRT controller *)

(** Its registers, and the PLL writes it starts: a write to [pll_io] sends
    [{ctrl[12], ctrl[13]}] to the address in the low bits of [ctrl[14]]. *)
Record crtc_rx : Type := mkCrtcRx {
  ctrl : Z -> Z;
  crtc_pll : list (Z * Z)
}.

Definition crtc_step (r : crtc_rx) (w : bus_write) : crtc_rx :=
  match w with
  | Crtc i v =>
      let c := fun j => if j =? i then v else ctrl r j in
      {| ctrl := c;
         crtc_pll := if i =? CRTC_pll_io then crtc_pll r ++ [(low_bits 6 (c 14), c 12 * 65536 + c 13)]
                     else crtc_pll r |}
  | _ => r
  end.

Definition crtc_receive (ws : list bus_write) (r : crtc_rx) : crtc_rx := foldl crtc_step r ws.

(** The reads of [pll_io] while eight writes are made: each is answered with
    busy for a while and then with zero. *)
Definition busy_reads (polls : list (list Z)) (rest : list Z) : list Z :=
  foldr (fun busy acc => busy ++ 0 :: acc) rest polls.

Lemma wait_pll_io_ok busy rest ws :
  Forall (fun x => x <> 0) busy ->
  wait_pll_io {| writes := ws; pll_io_reads := busy ++ 0 :: rest |} = Ok (tt, {| writes := ws; pll_io_reads := rest |}).
Proof.
  intros H. unfold wait_pll_io. cbn [pll_io_reads writes].
  assert (skip_busy (busy ++ 0 :: rest) = Ok rest) as ->; [|done].
  induction H as [|x busy Hx H IH]; cbn; [done|]. by rewrite (proj2 (Z.eqb_neq x 0) Hx).
Qed.

Definition crtc_pll_trace (a v : Z) : list bus_write :=
  [Crtc 12 (u16 (v >>> 16)); Crtc 13 (u16 v); Crtc 14 (u16 a); Crtc 15 0xffff].

Lemma crtc_write_pll_ok {B} a v busy polls rest ws (k : M bus B) :
  Forall (fun x => x <> 0) busy ->
  (crtc_write_pll a v;; k) {| writes := ws; pll_io_reads := busy_reads (busy :: polls) rest |} =
  k {| writes := ws ++ crtc_pll_trace a v; pll_io_reads := busy_reads polls rest |}.
Proof.
  intros H. unfold crtc_write_pll. cbn [busy_reads foldr]. unfold mbind at 1 2, M_bind at 1 2.
  rewrite (wait_pll_io_ok _ _ _ H). unfold write, modify, mbind, M_bind. cbn [writes pll_io_reads].
  by rewrite <- !app_assoc.
Qed.

Lemma crtc_pll_received a v r :
  0 <= a < 64 -> is_u32 v -> crtc_pll (crtc_receive (crtc_pll_trace a v) r) = crtc_pll r ++ [(a, v)].
Proof.
  intros Ha Hv. pose proof (halves v Hv) as Hh. change 0xffff with (Z.ones 16) in Hh.
  rewrite Z.land_ones in Hh by lia.
  assert (u16 (v mod 2 ^ 16) = u16 v) as E by (unfold u16; change (2 ^ 16) with 65536; by rewrite Z.mod_mod).
  rewrite E in Hh. change (crtc_pll (crtc_receive (crtc_pll_trace a v) r))
    with (crtc_pll r ++ [(low_bits 6 (u16 a), u16 (v >>> 16) * 65536 + u16 v)]).
  by rewrite Hh, u16_small, low_bits_small by (unfold is_u16; cbn; lia).
Qed.

Lemma crtc_receive_app ws vs r : crtc_receive (ws ++ vs) r = crtc_receive vs (crtc_receive ws r).
Proof. apply foldl_app. Qed.

Definition crt_timing (mode : VideoMode) (wide : bool) : list bus_write :=
  [Crtc 0 1; Crtc 1 4; Crtc 2 (hact mode); Crtc 3 (hfp mode); Crtc 4 (hs mode); Crtc 5 (hbp mode);
   Crtc 6 (vact mode); Crtc 7 (vfp mode); Crtc 8 (vs mode); Crtc 9 (vbp mode);
   Crtc 10 (if wide then 16 else 4); Crtc 11 (if wide then 9 else 3)].

(** The writes of the PLL of the CRT controller end with the reconfiguration. *)
Definition crt_program (c m k : Z) : list (Z * Z) := pll_program c m k ++ [(2, 0)].

Lemma crt_program_received l r :
  Forall (fun '(a, v) => 0 <= a < 64 /\ is_u32 v) l ->
  crtc_pll (crtc_receive (concat (map (fun '(a, v) => crtc_pll_trace a v) l)) r) = crtc_pll r ++ l.
Proof.
  intros H. revert r. induction H as [|[a v] l [Ha Hv] H IH]; intros r; cbn [map concat].
  - by rewrite app_nil_r.
  - rewrite crtc_receive_app, IH, crtc_pll_received by done. by rewrite <- app_assoc.
Qed.

Lemma timing_keeps_pll mode wide r : crtc_pll (crtc_receive (crt_timing mode wide) r) = crtc_pll r.
Proof. reflexivity. Qed.

(** The writes of [crt_set_mode]. *)
Definition crt_trace (mode : VideoMode) (wide : bool) (c m k : Z) : list bus_write :=
  concat (map (fun '(a, v) => crtc_pll_trace a v) (crt_program c m k)) ++ crt_timing mode wide.

(** The registers of the CRT controller the firmware writes to. *)
Definition crtc_regs_ok (w : bus_write) : Prop := match w with Crtc reg _ => 0 <= reg < 16 | _ => True end.

Lemma crt_trace_regs mode wide c m k : Forall crtc_regs_ok (crt_trace mode wide c m k).
Proof. unfold crt_trace, crt_program, pll_program, crt_timing, crtc_pll_trace. repeat constructor; cbn; lia. Qed.

Lemma hdmi_trace_regs mode c m k : Forall crtc_regs_ok (hdmi_trace mode c m k).
Proof. unfold hdmi_trace, cmd_trace, mode_trace, pll_trace, pll_program. cbn [map concat Datatypes.app]. repeat constructor. Qed.

Lemma crt_set_mode_runs mode wide c m k b polls rest :
  pll_params F32 (fmul F32 (mhz mode) (of_Z F32 4)) = Ok (c, m, k) ->
  length polls = 8%nat -> Forall (Forall (fun x => x <> 0)) polls -> pll_io_reads b = busy_reads polls rest ->
  crt_set_mode mode wide b = Ok (tt, {| writes := writes b ++ crt_trace mode wide c m k; pll_io_reads := rest |}).
Proof.
  intros Ep Hl Hz Hb. destruct b as [ws0 rs]. cbn [pll_io_reads writes] in *. subst rs.
  do 8 (destruct polls as [|?l polls]; [done|]). destruct polls; [|done]. rewrite !Forall_cons_iff in Hz.
  destruct Hz as (Z1 & Z2 & Z3 & Z4 & Z5 & Z6 & Z7 & Z8 & _).
  unfold crt_set_mode. unfold mbind at 1, M_bind at 1, lift. rewrite Ep. cbv iota beta.
  do 8 (rewrite crtc_write_pll_ok by done). unfold write, modify, mbind, M_bind. cbn [writes pll_io_reads busy_reads foldr].
  unfold crt_trace. rewrite <- !app_assoc. done.
Qed.

(** What the controller holds after them. *)
Definition crt_holds (mode : VideoMode) (wide : bool) (r : crtc_rx) : Prop :=
  map (ctrl r) [0; 1; 2; 3; 4; 5; 6; 7; 8; 9; 10; 11] =
    [1; 4; hact mode; hfp mode; hs mode; hbp mode; vact mode; vfp mode; vs mode; vbp mode;
     if wide then 16 else 4; if wide then 9 else 3].

Lemma crt_trace_received mode wide c m k r :
  is_u32 k ->
  let r' := crtc_receive (crt_trace mode wide c m k) r in
  crt_holds mode wide r' /\ crtc_pll r' = crtc_pll r ++ crt_program c m k.
Proof.
  intros Hk. unfold crt_trace. cbv zeta. rewrite crtc_receive_app. split; [reflexivity|].
  rewrite timing_keeps_pll. apply crt_program_received. pose proof (getPLLdiv_u32 m).
  pose proof (getPLLdiv_u32 c). unfold crt_program, pll_program. cbn [app].
  repeat (apply Forall_cons; [split; [lia|first [done | unfold is_u32; lia]]|]). by apply Forall_nil.
Qed.

(** The two receivers do not see each other's writes. *)
Lemma receive_crt_trace mode wide c m k r : receive (crt_trace mode wide c m k) r = r.
Proof. reflexivity. Qed.
Lemma crtc_receive_hdmi_trace mode c m k r : crtc_receive (hdmi_trace mode c m k) r = r.
Proof. reflexivity. Qed.

(** What [crt_set_mode] writes is what the CRT controller holds.  If the
    PLL parameters exist and each wait for the PLL ends after finitely many
    busy reads, it returns, the twelve registers hold the divider 1/4, the
    timing of the mode and the aspect ratio, and the PLL has been sent its
    seven parameters and the command to reconfigure, in this order. *)
Theorem crt_mode_received (mode : VideoMode) (wide : bool) (c m k : Z) (b : bus) (polls : list (list Z))
    (rest : list Z) (r : crtc_rx) :
  pll_params F32 (fmul F32 (mhz mode) (of_Z F32 4)) = Ok (c, m, k) ->
  length polls = 8%nat -> Forall (Forall (fun x => x <> 0)) polls -> pll_io_reads b = busy_reads polls rest ->
  exists ws,
    crt_set_mode mode wide b = Ok (tt, {| writes := writes b ++ ws; pll_io_reads := rest |}) /\
    let r' := crtc_receive ws r in
    map (ctrl r') [0; 1; 2; 3; 4; 5; 6; 7; 8; 9; 10; 11] =
      [1; 4; hact mode; hfp mode; hs mode; hbp mode; vact mode; vfp mode; vs mode; vbp mode;
       if wide then 16 else 4; if wide then 9 else 3] /\
    crtc_pll r' = crtc_pll r ++ crt_program c m k.
Proof.
  intros Ep Hl Hz Hb. exists (crt_trace mode wide c m k).
  split; [by apply (crt_set_mode_runs mode wide c m k b polls rest)|].
  apply crt_trace_received. by eapply pll_params_k.
Qed.

(** The mode of the reset, in MHz as [gfx_set_240p] computes it. *)
Definition mode_240p60 : VideoMode :=
  Eval vm_compute in
  let m := {| hact := 320; hfp := 8; hs := 32; hbp := 40; vact := 240; vfp := 3; vs := 4; vbp := 6; mhz := of_Z F32 0 |} in
  {| hact := 320; hfp := 8; hs := 32; hbp := 40; vact := 240; vfp := 3; vs := 4; vbp := 6;
     mhz := convert F32 (fdiv F64 (convert F64 (fmul F32 (of_Z F32 60) (of_Z F32 (video_mode_pixels m))))
                                  (of_Z F64 1000000)) |}.

Lemma crt_mode_received_witness :
  exists c m k ws,
    crt_set_mode mode_240p60 false {| writes := []; pll_io_reads := busy_reads ([65535] :: replicate 7 []) [] |} =
      Ok (tt, {| writes := [] ++ ws; pll_io_reads := [] |}) /\
    let r' := crtc_receive ws {| ctrl := fun _ => 0; crtc_pll := [] |} in
    map (ctrl r') [0; 1; 2; 3; 4; 5; 6; 7; 8; 9; 10; 11] = [1; 4; 320; 8; 32; 40; 240; 3; 4; 6; 4; 3] /\
    crtc_pll r' = [] ++ crt_program c m k.
Proof.
  assert (exists c m k, pll_params F32 (fmul F32 (mhz mode_240p60) (of_Z F32 4)) = Ok (c, m, k))
    as (c & m & k & E) by (vm_compute; eauto).
  exists c, m, k. apply (crt_mode_received mode_240p60 false c m k
    {| writes := []; pll_io_reads := busy_reads ([65535] :: replicate 7 []) [] |} ([65535] :: replicate 7 []) []
    {| ctrl := fun _ => 0; crtc_pll := [] |});
    [exact E|reflexivity|repeat constructor; discriminate|reflexivity].
Defined.
