(* ===== verification/Printf.v ===== *)
(** * Formatted output (firmware/src/printf/printf.c)

    The printf family as the firmware builds it: the Makefile turns off the
    floating-point specifiers and [long long], turns on the alias of the
    standard names, and leaves the NUL check inside specifiers and the [%n]
    specifier at their defaults.  [long], [int] and pointers are 32 bits wide.

    A format string is the list of its characters; its end is the NUL.
    Characters are written as their codes: 32 is a space, 35 #, 37 %, 42 *,
    43 +, 45 -, 46 ., 48 to 57 the digits, 65 A, 88 X, 97 a, and so on. *)

From S2P Require Import Prelude.

Definition PRINTF_INTEGER_BUFFER_SIZE : Z := 32.
Definition PRINTF_MAX_POSSIBLE_BUFFER_SIZE : Z := 2147483647.

Definition FLAGS_ZEROPAD : Z := 1 <<< 0.
Definition FLAGS_LEFT : Z := 1 <<< 1.
Definition FLAGS_PLUS : Z := 1 <<< 2.
Definition FLAGS_SPACE : Z := 1 <<< 3.
Definition FLAGS_HASH : Z := 1 <<< 4.
Definition FLAGS_UPPERCASE : Z := 1 <<< 5.
Definition FLAGS_CHAR : Z := 1 <<< 6.
Definition FLAGS_SHORT : Z := 1 <<< 7.
Definition FLAGS_LONG : Z := 1 <<< 9.
Definition FLAGS_LONG_LONG : Z := 1 <<< 10.
Definition FLAGS_PRECISION : Z := 1 <<< 11.
Definition FLAGS_POINTER : Z := 1 <<< 13.
Definition FLAGS_SIGNED : Z := 1 <<< 14.

Definition BASE_BINARY : Z := 2.
Definition BASE_OCTAL : Z := 8.
Definition BASE_DECIMAL : Z := 10.
Definition BASE_HEX : Z := 16.

(** [flags &= ~mask] *)
Definition clear_flags (flags mask : Z) : Z := Z.ldiff flags mask.

(** ** The output gadget

    [function] says whether the function pointer is set; [calls] are the
    characters it was called with, oldest first. *)
Record output_gadget_t : Type := mkGadget {
  function : bool;
  calls : list Z;
  buffer : option (list Z);
  pos : Z;
  max_chars : Z
}.

Definition with_pos (g : output_gadget_t) (p : Z) : output_gadget_t :=
  {| function := function g; calls := calls g; buffer := buffer g; pos := p; max_chars := max_chars g |}.
Definition with_calls (g : output_gadget_t) (cs : list Z) : output_gadget_t :=
  {| function := function g; calls := cs; buffer := buffer g; pos := pos g; max_chars := max_chars g |}.
Definition with_buffer (g : output_gadget_t) (b : option (list Z)) : output_gadget_t :=
  {| function := function g; calls := calls g; buffer := b; pos := pos g; max_chars := max_chars g |}.

Definition putchar_via_gadget (g : output_gadget_t) (c : Z) : result output_gadget_t :=
  let write_pos := pos g in
  let g := with_pos g (u32 (pos g + 1)) in
  if max_chars g <=? write_pos then Ok g
  else if function g then Ok (with_calls g (calls g ++ [c]))
  else match buffer g with
       | None => Err NullPointer
       | Some b => b ← aset b write_pos c; Ok (with_buffer g (Some b))
       end.

Definition append_termination_with_gadget (g : output_gadget_t) : result output_gadget_t :=
  if function g || (max_chars g =? 0) then Ok g
  else match buffer g with
       | None => Ok g
       | Some b =>
           let null_char_pos := if pos g <? max_chars g then pos g else max_chars g - 1 in
           b ← aset b null_char_pos 0; Ok (with_buffer g (Some b))
       end.

Definition discarding_gadget : output_gadget_t :=
  {| function := false; calls := []; buffer := None; pos := 0; max_chars := 0 |}.

Definition buffer_gadget (b : option (list Z)) (buffer_size : Z) : output_gadget_t :=
  let usable := if PRINTF_MAX_POSSIBLE_BUFFER_SIZE <? buffer_size
                then PRINTF_MAX_POSSIBLE_BUFFER_SIZE else buffer_size in
  match b with
  | None => discarding_gadget
  | Some b => {| function := false; calls := []; buffer := Some b; pos := 0; max_chars := usable |}
  end.

Definition function_gadget : output_gadget_t :=
  {| function := true; calls := []; buffer := None; pos := 0;
     max_chars := PRINTF_MAX_POSSIBLE_BUFFER_SIZE |}.

(** The characters go to [putchar_], which the firmware defines empty. *)
Definition extern_putchar_gadget : output_gadget_t := function_gadget.

(** ** Small helpers *)

Fixpoint strnlen_s_ (str : list Z) (maxsize : Z) : Z :=
  match str with
  | [] => 0
  | _ :: s => if maxsize =? 0 then 0 else 1 + strnlen_s_ s (maxsize - 1)
  end.

Definition is_digit_ (c : Z) : bool := (48 <=? c) && (c <=? 57).

(** The value read and the rest of the string. *)
Fixpoint atou_loop (i : Z) (str : list Z) : Z * list Z :=
  match str with
  | c :: s => if is_digit_ c then atou_loop (u32 (i * 10 + (c - 48))) s else (i, str)
  | [] => (i, str)
  end.
Definition atou_ (str : list Z) : Z * list Z := atou_loop 0 str.

(** [n] times the same character. *)
Fixpoint putn (n : nat) (c : Z) (g : output_gadget_t) : result output_gadget_t :=
  match n with
  | O => Ok g
  | S n => g ← putchar_via_gadget g c; putn n c g
  end.

Fixpoint put_all (cs : list Z) (g : output_gadget_t) : result output_gadget_t :=
  match cs with
  | [] => Ok g
  | c :: cs => g ← putchar_via_gadget g c; put_all cs g
  end.

(** [while (output->pos - start_pos < width)] of [out_rev_]. *)
Fixpoint left_pad (fuel : nat) (start_pos width : Z) (g : output_gadget_t) : result output_gadget_t :=
  match fuel with
  | O => Err Hang
  | S fuel =>
      if u32 (pos g - start_pos) <? width
      then g ← putchar_via_gadget g 32; left_pad fuel start_pos width g
      else Ok g
  end.

(** [buf] holds the [len] characters of the C buffer; [putn] is the loop
    [for (i = len; i < width; i++)]. *)
Definition out_rev_ (g : output_gadget_t) (buf : list Z) (width flags : Z) : result output_gadget_t :=
  let start_pos := pos g in
  g ← (if negb (has flags FLAGS_LEFT) && negb (has flags FLAGS_ZEROPAD)
       then putn (Z.to_nat (width - zlen buf)) 32 g else Ok g);
  g ← put_all (rev buf) g;
  if has flags FLAGS_LEFT then left_pad (S (Z.to_nat width)) start_pos width g else Ok g.

(** ** Integers *)

(** [buf[len++] = c] *)
Definition push (buf : list Z) (c : Z) : result (list Z) :=
  if zlen buf <? PRINTF_INTEGER_BUFFER_SIZE then Ok (buf ++ [c]) else Err OutOfBounds.

(** [if (len < PRINTF_INTEGER_BUFFER_SIZE) buf[len++] = c] *)
Definition push_if_room (buf : list Z) (c : Z) : result (list Z) :=
  if zlen buf <? PRINTF_INTEGER_BUFFER_SIZE then push buf c else Ok buf.

(** [while ((len < lim) && (len < PRINTF_INTEGER_BUFFER_SIZE)) buf[len++] = '0'] *)
Fixpoint pad_zeros (fuel : nat) (lim : Z) (buf : list Z) : result (list Z) :=
  match fuel with
  | O => Err Hang
  | S fuel =>
      if (zlen buf <? lim) && (zlen buf <? PRINTF_INTEGER_BUFFER_SIZE)
      then buf ← push buf 48; pad_zeros fuel lim buf
      else Ok buf
  end.

(** [len--] *)
Definition pop (buf : list Z) : list Z := take (length buf - 1) buf.

(** The padding digits given back before a prefix is written. *)
Definition take_back (buf : list Z) (unpadded_len base : Z) : list Z :=
  let buf := if unpadded_len <? zlen buf then pop buf else buf in
  if negb (zlen buf =? 0) && ((base =? BASE_HEX) || (base =? BASE_BINARY)) && (unpadded_len <? zlen buf)
  then pop buf else buf.

Definition print_integer_finalization (g : output_gadget_t) (buf : list Z) (negative : bool)
    (base precision width flags : Z) : result output_gadget_t :=
  let unpadded_len := zlen buf in
  let width :=
    if negb (has flags FLAGS_LEFT) && negb (width =? 0) && has flags FLAGS_ZEROPAD
       && (negative || has flags (FLAGS_PLUS ||| FLAGS_SPACE))
    then width - 1 else width in
  buf ← (if negb (has flags FLAGS_LEFT) && has flags FLAGS_ZEROPAD
         then pad_zeros 33 width buf else Ok buf);
  buf ← pad_zeros 33 precision buf;
  let flags := if (base =? BASE_OCTAL) && (unpadded_len <? zlen buf)
               then clear_flags flags FLAGS_HASH else flags in
  buf ← (if has flags (FLAGS_HASH ||| FLAGS_POINTER) then
           let buf :=
             if negb (has flags FLAGS_PRECISION) && negb (zlen buf =? 0)
                && ((zlen buf =? precision) || (zlen buf =? width))
             then take_back buf unpadded_len base else buf in
           buf ← (if (base =? BASE_HEX) && negb (has flags FLAGS_UPPERCASE) then push_if_room buf 120
                  else if (base =? BASE_HEX) && has flags FLAGS_UPPERCASE then push_if_room buf 88
                  else if base =? BASE_BINARY then push_if_room buf 98
                  else Ok buf);
           push_if_room buf 48
         else Ok buf);
  buf ← (if negative then push_if_room buf 45
         else if has flags FLAGS_PLUS then push_if_room buf 43
         else if has flags FLAGS_SPACE then push_if_room buf 32
         else Ok buf);
  out_rev_ g buf width flags.

Definition digit_char (digit flags : Z) : Z :=
  if digit <? 10 then i8 (48 + digit)
  else i8 ((if has flags FLAGS_UPPERCASE then 65 else 97) + digit - 10).

(** The [do ... while] of [print_integer]; the buffer bounds the iterations. *)
Fixpoint digits_loop (fuel : nat) (value base flags : Z) (buf : list Z) : result (list Z) :=
  match fuel with
  | O => Err Hang
  | S fuel =>
      buf ← push buf (digit_char (value mod base) flags);
      let value := value / base in
      if negb (value =? 0) && (zlen buf <? PRINTF_INTEGER_BUFFER_SIZE)
      then digits_loop fuel value base flags buf
      else Ok buf
  end.

Definition print_integer (g : output_gadget_t) (value : Z) (negative : bool)
    (base precision width flags : Z) : result output_gadget_t :=
  if value =? 0 then
    if negb (has flags FLAGS_PRECISION) then
      buf ← push [] 48;
      print_integer_finalization g buf negative base precision width (clear_flags flags FLAGS_HASH)
    else
      let flags := if base =? BASE_HEX then clear_flags flags FLAGS_HASH else flags in
      print_integer_finalization g [] negative base precision width flags
  else
    buf ← digits_loop 32 value base flags [];
    print_integer_finalization g buf negative base precision width flags.

(** ** Variable arguments

    The arguments a caller passes, in order: integers (promoted to 32 bits),
    strings (or a null pointer), other pointers, and the locations of [%n]. *)
Inductive vararg : Type :=
  | VInt (x : Z)
  | VStr (s : option (list Z))
  | VPtr (address : Z)
  | VOut (location : Z).

Definition va_int (args : list vararg) : result (Z * list vararg) :=
  match args with VInt x :: args => Ok (i32 x, args) | _ => Err BadVarArg end.
Definition va_uint (args : list vararg) : result (Z * list vararg) :=
  match args with VInt x :: args => Ok (u32 x, args) | _ => Err BadVarArg end.
Definition va_str (args : list vararg) : result (option (list Z) * list vararg) :=
  match args with VStr s :: args => Ok (s, args) | _ => Err BadVarArg end.
Definition va_ptr (args : list vararg) : result (Z * list vararg) :=
  match args with VPtr a :: args => Ok (u32 a, args) | _ => Err BadVarArg end.
Definition va_out (args : list vararg) : result (Z * list vararg) :=
  match args with VOut l :: args => Ok (l, args) | _ => Err BadVarArg end.

(** ** The format loop *)

(** The gadget, the arguments left, and the stores [%n] made. *)
Record ostate : Type := mkOstate {
  out : output_gadget_t;
  args : list vararg;
  writebacks : list (Z * Z)
}.

(** The state and the format left, or none when the function returned. *)
Definition outcome : Type := result (ostate * option (list Z)).

Definition hd0 (fmt : list Z) : Z := match fmt with [] => 0 | c :: _ => c end.

(** [format++] *)
Definition next (st : ostate) (fmt : list Z) : outcome :=
  match fmt with [] => Err OutOfBounds | _ :: fmt => Ok (st, Some fmt) end.

(** [ADVANCE_IN_FORMAT_STRING] *)
Definition advance_in_format_string (st : ostate) (fmt : list Z) (k : list Z -> outcome) : outcome :=
  match fmt with
  | [] => Err OutOfBounds
  | [_] => Ok (st, None)
  | _ :: fmt => k fmt
  end.

Definition flag_of_char (c : Z) : option Z :=
  if c =? 48 then Some FLAGS_ZEROPAD
  else if c =? 45 then Some FLAGS_LEFT
  else if c =? 43 then Some FLAGS_PLUS
  else if c =? 32 then Some FLAGS_SPACE
  else if c =? 35 then Some FLAGS_HASH
  else None.

Fixpoint parse_flags_loop (flags : Z) (fmt : list Z) : Z * list Z :=
  match fmt with
  | [] => (flags, fmt)
  | c :: rest =>
      match flag_of_char c with
      | Some f => parse_flags_loop (flags ||| f) rest
      | None => (flags, fmt)
      end
  end.
Definition parse_flags (fmt : list Z) : Z * list Z := parse_flags_loop 0 fmt.

Definition with_args (st : ostate) (a : list vararg) : ostate :=
  {| out := out st; args := a; writebacks := writebacks st |}.
Definition with_out (st : ostate) (g : output_gadget_t) : ostate :=
  {| out := g; args := args st; writebacks := writebacks st |}.

(** "evaluate width field": [k flags width format] *)
Definition width_field (flags : Z) (fmt : list Z) (st : ostate)
    (k : Z -> Z -> list Z -> ostate -> outcome) : outcome :=
  if is_digit_ (hd0 fmt) then
    let '(width, fmt) := atou_ fmt in k flags width fmt st
  else if hd0 fmt =? 42 then
    '(w, a) ← va_int (args st);
    let st := with_args st a in
    if w <? 0 then
      if w =? -2147483648 then Err SignedOverflow
      else advance_in_format_string st fmt (fun fmt => k (flags ||| FLAGS_LEFT) (- w) fmt st)
    else advance_in_format_string st fmt (fun fmt => k flags w fmt st)
  else k flags 0 fmt st.

(** "evaluate precision field": [k flags precision format] *)
Definition precision_field (flags : Z) (fmt : list Z) (st : ostate)
    (k : Z -> Z -> list Z -> ostate -> outcome) : outcome :=
  if hd0 fmt =? 46 then
    let flags := flags ||| FLAGS_PRECISION in
    advance_in_format_string st fmt (fun fmt =>
      if is_digit_ (hd0 fmt) then
        let '(precision, fmt) := atou_ fmt in k flags precision fmt st
      else if hd0 fmt =? 42 then
        '(p, a) ← va_int (args st);
        let st := with_args st a in
        let precision := if 0 <? p then p else 0 in
        advance_in_format_string st fmt (fun fmt => k flags precision fmt st)
      else k flags 0 fmt st)
  else k flags 0 fmt st.

(** "evaluate length field": [ptrdiff_t] and [size_t] are as wide as [long],
    [intmax_t] is wider. *)
Definition length_field (flags : Z) (fmt : list Z) (st : ostate)
    (k : Z -> list Z -> ostate -> outcome) : outcome :=
  let c := hd0 fmt in
  if c =? 108 then
    let flags := flags ||| FLAGS_LONG in
    advance_in_format_string st fmt (fun fmt =>
      if hd0 fmt =? 108 then
        advance_in_format_string st fmt (fun fmt => k (flags ||| FLAGS_LONG_LONG) fmt st)
      else k flags fmt st)
  else if c =? 104 then
    let flags := flags ||| FLAGS_SHORT in
    advance_in_format_string st fmt (fun fmt =>
      if hd0 fmt =? 104 then
        advance_in_format_string st fmt (fun fmt => k (flags ||| FLAGS_CHAR) fmt st)
      else k flags fmt st)
  else if c =? 116 then
    advance_in_format_string st fmt (fun fmt => k (flags ||| FLAGS_LONG) fmt st)
  else if c =? 106 then
    advance_in_format_string st fmt (fun fmt => k (flags ||| FLAGS_LONG_LONG) fmt st)
  else if c =? 122 then
    advance_in_format_string st fmt (fun fmt => k (flags ||| FLAGS_LONG) fmt st)
  else k flags fmt st.

(** [ABS_FOR_PRINTING]: the negation is made in the signed type. *)
Definition abs_for_printing (x : Z) : result Z :=
  if 0 <? x then Ok x
  else if x =? -2147483648 then Err SignedOverflow
  else Ok (- x).

(** The integer specifiers [d i u x X o b]. *)
Definition spec_integer (c flags width precision : Z) (fmt : list Z) (st : ostate) : outcome :=
  let flags := if (c =? 100) || (c =? 105) then flags ||| FLAGS_SIGNED else flags in
  let '(base, flags) :=
    if (c =? 120) || (c =? 88) then (BASE_HEX, flags)
    else if c =? 111 then (BASE_OCTAL, flags)
    else if c =? 98 then (BASE_BINARY, flags)
    else (BASE_DECIMAL, clear_flags flags FLAGS_HASH) in
  let flags := if c =? 88 then flags ||| FLAGS_UPPERCASE else flags in
  let flags := if has flags FLAGS_PRECISION then clear_flags flags FLAGS_ZEROPAD else flags in
  if has flags FLAGS_SIGNED then
    if has flags FLAGS_LONG_LONG then next st fmt
    else
      '(x, a) ← va_int (args st);
      let value :=
        if has flags FLAGS_LONG then x
        else if has flags FLAGS_CHAR then i8 x
        else if has flags FLAGS_SHORT then i16 x
        else x in
      v ← abs_for_printing value;
      g ← print_integer (out st) v (value <? 0) base precision width flags;
      next (with_out (with_args st a) g) fmt
  else
    let flags := clear_flags flags (FLAGS_PLUS ||| FLAGS_SPACE) in
    if has flags FLAGS_LONG_LONG then next st fmt
    else
      '(x, a) ← va_uint (args st);
      let value :=
        if has flags FLAGS_LONG then x
        else if has flags FLAGS_CHAR then u8 x
        else if has flags FLAGS_SHORT then u16 x
        else x in
      g ← print_integer (out st) value false base precision width flags;
      next (with_out (with_args st a) g) fmt.

(** [while (l++ < width)] prints [width - l] spaces. *)
Definition pad_spaces (l width : Z) (g : output_gadget_t) : result output_gadget_t :=
  putn (Z.to_nat (width - l)) 32 g.

Definition spec_char (flags width : Z) (fmt : list Z) (st : ostate) : outcome :=
  g ← (if negb (has flags FLAGS_LEFT) then pad_spaces 1 width (out st) else Ok (out st));
  '(c, a) ← va_int (args st);
  g ← putchar_via_gadget g (i8 c);
  g ← (if has flags FLAGS_LEFT then pad_spaces 1 width g else Ok g);
  next (with_out (with_args st a) g) fmt.

(** The string output loop; [precision] wraps when it is not used. *)
Fixpoint put_string (p : list Z) (flags precision : Z) (g : output_gadget_t) : result output_gadget_t :=
  match p with
  | [] => Ok g
  | c :: p =>
      if negb (has flags FLAGS_PRECISION) || negb (precision =? 0)
      then g ← putchar_via_gadget g c; put_string p flags (u32 (precision - 1)) g
      else Ok g
  end.

Definition spec_string (flags width precision : Z) (fmt : list Z) (st : ostate) : outcome :=
  '(p, a) ← va_str (args st);
  g ← match p with
      | None => out_rev_ (out st) [41; 108; 108; 117; 110; 40] width flags
      | Some p =>
          let l := strnlen_s_ p (if precision =? 0 then PRINTF_MAX_POSSIBLE_BUFFER_SIZE else precision) in
          let l := if has flags FLAGS_PRECISION then (if l <? precision then l else precision) else l in
          g ← (if negb (has flags FLAGS_LEFT) then pad_spaces l width (out st) else Ok (out st));
          g ← put_string p flags precision g;
          if has flags FLAGS_LEFT then pad_spaces l width g else Ok g
      end;
  next (with_out (with_args st a) g) fmt.

Definition spec_pointer (flags precision : Z) (fmt : list Z) (st : ostate) : outcome :=
  let width := 10 in
  let flags := flags ||| (FLAGS_ZEROPAD ||| FLAGS_POINTER) in
  '(value, a) ← va_ptr (args st);
  g ← (if value =? 0 then out_rev_ (out st) [41; 108; 105; 110; 40] width flags
       else print_integer (out st) value false BASE_HEX precision width flags);
  next (with_out (with_args st a) g) fmt.

Definition spec_writeback (flags : Z) (fmt : list Z) (st : ostate) : outcome :=
  '(l, a) ← va_out (args st);
  let p := pos (out st) in
  let value :=
    if has flags FLAGS_CHAR then i8 p
    else if has flags FLAGS_SHORT then i16 p
    else i32 p in
  next {| out := out st; args := a; writebacks := writebacks st ++ [(l, value)] |} fmt.

(** "evaluate specifier" *)
Definition specifier (flags width precision : Z) (fmt : list Z) (st : ostate) : outcome :=
  let c := hd0 fmt in
  if existsb (Z.eqb c) [100; 105; 117; 120; 88; 111; 98]
  then spec_integer c flags width precision fmt st
  else if c =? 99 then spec_char flags width fmt st
  else if c =? 115 then spec_string flags width precision fmt st
  else if c =? 112 then spec_pointer flags precision fmt st
  else if c =? 37 then g ← putchar_via_gadget (out st) 37; next (with_out st g) fmt
  else if c =? 110 then spec_writeback flags fmt st
  else g ← putchar_via_gadget (out st) c; next (with_out st g) fmt.

(** One specifier, from the character after the per cent sign. *)
Definition directive (fmt : list Z) (st : ostate) : outcome :=
  let '(flags, fmt) := parse_flags fmt in
  width_field flags fmt st (fun flags width fmt st =>
  precision_field flags fmt st (fun flags precision fmt st =>
  length_field flags fmt st (fun flags fmt st =>
  specifier flags width precision fmt st))).

Fixpoint format_string_loop (fuel : nat) (fmt : list Z) (st : ostate) : result ostate :=
  match fuel with
  | O => Err Hang
  | S fuel =>
      match fmt with
      | [] => Ok st
      | c :: rest =>
          if negb (c =? 37) then
            g ← putchar_via_gadget (out st) c;
            format_string_loop fuel rest (with_out st g)
          else
            '(st, more) ← advance_in_format_string st fmt (fun fmt => directive fmt st);
            match more with
            | None => Ok st
            | Some fmt => format_string_loop fuel fmt st
            end
      end
  end.

(** ** Entry points: the value returned, the gadget and the stores of [%n]. *)

Definition vsnprintf_impl (g : output_gadget_t) (fmt : list Z) (a : list vararg)
    : result (Z * output_gadget_t * list (Z * Z)) :=
  st ← format_string_loop (S (length fmt)) fmt {| out := g; args := a; writebacks := [] |};
  g ← append_termination_with_gadget (out st);
  Ok (i32 (pos g), g, writebacks st).

Definition vsnprintf_ (s : option (list Z)) (n : Z) (fmt : list Z) (a : list vararg) :=
  vsnprintf_impl (buffer_gadget s n) fmt a.

Definition vsprintf_ (s : option (list Z)) (fmt : list Z) (a : list vararg) :=
  vsnprintf_ s PRINTF_MAX_POSSIBLE_BUFFER_SIZE fmt a.

Definition vfctprintf (fmt : list Z) (a : list vararg) := vsnprintf_impl function_gadget fmt a.

Definition vprintf_ (fmt : list Z) (a : list vararg) := vsnprintf_impl extern_putchar_gadget fmt a.

(** [snprintf_] into an array: the value returned and the array after. *)
Definition snprintf_ (s : list Z) (n : Z) (fmt : list Z) (a : list vararg) : result (Z * list Z) :=
  '(ret, g, _) ← vsnprintf_ (Some s) n fmt a;
  match buffer g with Some b => Ok (ret, b) | None => Err NullPointer end.

(** The other variadic entries hand their arguments on. *)
Definition printf_ (fmt : list Z) (a : list vararg) := vprintf_ fmt a.
Definition sprintf_ (s : option (list Z)) (fmt : list Z) (a : list vararg) := vsprintf_ s fmt a.
Definition fctprintf (fmt : list Z) (a : list vararg) := vfctprintf fmt a.
