(* ===== verification/PrintfProps.v ===== *)
(** * What the formatted output functions promise

    The buffer a bounded print leaves against what the same call sends to an
    output function, and termination. *)

From S2P Require Import Prelude Printf.

(** ** Two results that agree *)

Definition sim {A B} (P : A -> B -> Prop) (m : result A) (n : result B) : Prop :=
  match m, n with
  | Ok a, Ok b => P a b
  | Err e, Err f => e = f
  | _, _ => False
  end.

Lemma sim_bind {A B C D} (P : A -> B -> Prop) (Q : C -> D -> Prop) m n h k :
  sim P m n -> (forall a b, P a b -> sim Q (h a) (k b)) -> sim Q (m ≫= h) (n ≫= k).
Proof. destruct m, n; cbn; auto; done. Qed.

Lemma sim_if {A B} (P : A -> B -> Prop) (b : bool) m n m' n' :
  sim P m n -> sim P m' n' -> sim P (if b then m else m') (if b then n else n').
Proof. by destruct b. Qed.

(** ** A buffer follows a function *)

Section follows.
Context (n : Z) (b0 : list Z).
Context (Hn : 0 <= n <= PRINTF_MAX_POSSIBLE_BUFFER_SIZE) (Hb : n <= zlen b0).

(** The first [n] characters of [cs] over the contents [b0]. *)
Definition overlay (cs : list Z) : list Z :=
  take (Z.to_nat n) cs ++ drop (length (take (Z.to_nat n) cs)) b0.

(** [g] sends to a function, [h] to a buffer of which it may use [n]
    characters, and both have been given [cs]. *)
Definition follows (g h : output_gadget_t) : Prop :=
  exists cs b,
    function g = true /\ max_chars g = PRINTF_MAX_POSSIBLE_BUFFER_SIZE /\
    function h = false /\ max_chars h = n /\ buffer h = Some b /\ length b = length b0 /\
    pos g = u32 (zlen cs) /\ pos h = pos g /\
    (zlen cs <= PRINTF_MAX_POSSIBLE_BUFFER_SIZE -> calls g = cs /\ b = overlay cs) /\
    (PRINTF_MAX_POSSIBLE_BUFFER_SIZE <= zlen cs -> PRINTF_MAX_POSSIBLE_BUFFER_SIZE <= zlen (calls g)).

Lemma length_overlay cs : length (overlay cs) = length b0.
Proof.
  unfold overlay. rewrite length_app, length_drop, length_take. unfold zlen in Hb. lia.
Qed.

Lemma overlay_snoc_in cs c :
  zlen cs < n -> overlay (cs ++ [c]) = <[Z.to_nat (zlen cs) := c]> (overlay cs).
Proof.
  unfold zlen. intros H. unfold overlay.
  rewrite !take_ge by (rewrite ?length_app; cbn; lia).
  rewrite Nat2Z.id, length_app, <- app_assoc. cbn [length app].
  rewrite insert_app_r_alt, Nat.sub_diag by lia.
  f_equal. rewrite (drop_S b0 (default 0 (b0 !! length cs)) (length cs)).
  - cbn. do 2 f_equal. lia.
  - destruct (lookup_lt_is_Some_2 b0 (length cs)) as [x Hx]; [unfold zlen in Hb; lia|]. by rewrite Hx.
Qed.

Lemma overlay_snoc_out cs c : n <= zlen cs -> overlay (cs ++ [c]) = overlay cs.
Proof. unfold zlen. intros H. unfold overlay. by rewrite take_app_le by lia. Qed.

Lemma follows_putchar g h c :
  follows g h -> sim follows (putchar_via_gadget g c) (putchar_via_gadget h c).
Proof.
  intros (cs & b & Fg & Mg & Fh & Mh & Bh & Lb & Pg & Ph & Hcs & Hmany).
  unfold putchar_via_gadget. cbn [with_pos max_chars function buffer calls pos].
  rewrite Ph, Fg, Fh, Mg, Mh, Bh.
  assert (u32 (pos g + 1) = u32 (zlen (cs ++ [c]))) as Pn.
  { rewrite Pg. unfold zlen. rewrite length_app. cbn. word_lia. }
  assert (zlen (cs ++ [c]) = zlen cs + 1) as Ln by (unfold zlen; rewrite length_app; cbn; lia).
  assert (zlen (calls g ++ [c]) = zlen (calls g) + 1) as Lc by (unfold zlen; rewrite length_app; cbn; lia).
  assert (0 <= pos g) by (rewrite Pg; apply u32_range).
  assert (zlen cs < PRINTF_MAX_POSSIBLE_BUFFER_SIZE -> pos g = zlen cs) as Hsmall.
  { unfold zlen, PRINTF_MAX_POSSIBLE_BUFFER_SIZE in *. word_lia. }
  destruct (Z.leb_spec PRINTF_MAX_POSSIBLE_BUFFER_SIZE (pos g)) as [L|L].
  - rewrite (proj2 (Z.leb_le n (pos g))) by lia. cbn.
    exists (cs ++ [c]), b. split_and!; try done; cbn; try congruence; rewrite Ln; intros; [lia|].
    apply Hmany. lia.
  - destruct (Z.leb_spec n (pos g)) as [L'|L']; cbn.
    + exists (cs ++ [c]), b. split_and!; try done; cbn; try congruence; rewrite Ln, ?Lc; intros Hle.
      * destruct (Hcs ltac:(lia)) as [-> ->].
        split; [done|]. symmetry. apply overlay_snoc_out. lia.
      * destruct (decide (zlen cs < PRINTF_MAX_POSSIBLE_BUFFER_SIZE)); [|lia].
        destruct (Hcs ltac:(lia)) as [-> _]. lia.
    + rewrite aset_in by (unfold zlen in *; lia). cbn.
      exists (cs ++ [c]), (<[Z.to_nat (pos g) := c]> b).
      split_and!; try done; cbn; try congruence; [by rewrite length_insert|..]; rewrite Ln, ?Lc; intros Hle.
      * destruct (Hcs ltac:(lia)) as [-> ->].
        split; [done|]. rewrite Hsmall by lia. symmetry. apply overlay_snoc_in. lia.
      * destruct (decide (zlen cs < PRINTF_MAX_POSSIBLE_BUFFER_SIZE)); [|lia].
        destruct (Hcs ltac:(lia)) as [-> _]. lia.
Qed.

Lemma follows_pos g h : follows g h -> pos h = pos g.
Proof. by intros (cs & b & Fg & Mg & Fh & Mh & Bh & Lb & Pg & Ph & Hcs & Hmany). Qed.

Create HintDb follows.
#[local] Hint Resolve follows_putchar : follows.

(** Walk two runs of the same code side by side. *)
Ltac side_by_side :=
  repeat first
    [ done
    | progress eauto with follows
    | eapply sim_bind; [|intros]
    | apply sim_if ].

Lemma follows_putn k c g h : follows g h -> sim follows (putn k c g) (putn k c h).
Proof. revert g h. induction k; cbn; intros; side_by_side. Qed.

Lemma follows_put_all cs g h : follows g h -> sim follows (put_all cs g) (put_all cs h).
Proof. revert g h. induction cs; cbn; intros; side_by_side. Qed.

Lemma follows_left_pad fuel s w g h :
  follows g h -> sim follows (left_pad fuel s w g) (left_pad fuel s w h).
Proof.
  revert g h. induction fuel as [|fuel IH]; cbn; intros g h H; [done|].
  rewrite (follows_pos g h H). side_by_side.
Qed.
#[local] Hint Resolve follows_putn follows_put_all follows_left_pad : follows.

Lemma follows_out_rev g h buf width flags :
  follows g h -> sim follows (out_rev_ g buf width flags) (out_rev_ h buf width flags).
Proof. intros H. unfold out_rev_. rewrite (follows_pos g h H). side_by_side. Qed.
#[local] Hint Resolve follows_out_rev : follows.

Lemma sim_same {A C D} (Q : C -> D -> Prop) (m : result A) h k :
  (forall a, sim Q (h a) (k a)) -> sim Q (m ≫= h) (m ≫= k).
Proof. destruct m; cbn; auto. Qed.

Lemma follows_finalization g h buf neg base prec width flags :
  follows g h ->
  sim follows (print_integer_finalization g buf neg base prec width flags)
              (print_integer_finalization h buf neg base prec width flags).
Proof. intros H. unfold print_integer_finalization. repeat (apply sim_same; intros ?). side_by_side. Qed.
#[local] Hint Resolve follows_finalization : follows.

Lemma follows_print_integer g h v neg base prec width flags :
  follows g h ->
  sim follows (print_integer g v neg base prec width flags) (print_integer h v neg base prec width flags).
Proof.
  intros H. unfold print_integer. apply sim_if; [apply sim_if; [|auto with follows]|];
    apply sim_same; auto with follows.
Qed.

Lemma follows_pad_spaces l w g h : follows g h -> sim follows (pad_spaces l w g) (pad_spaces l w h).
Proof. apply follows_putn. Qed.

Lemma follows_put_string p flags prec g h :
  follows g h -> sim follows (put_string p flags prec g) (put_string p flags prec h).
Proof. revert g h prec. induction p; cbn; intros; side_by_side. Qed.
#[local] Hint Resolve follows_print_integer follows_pad_spaces follows_put_string : follows.

(** The same for the state of the format loop. *)
Definition ofollows (s t : ostate) : Prop :=
  follows (out s) (out t) /\ args s = args t /\ writebacks s = writebacks t.

Definition outcome_follows (p q : ostate * option (list Z)) : Prop :=
  ofollows p.1 q.1 /\ p.2 = q.2.
Abbreviation osim := (sim outcome_follows).

Lemma ofollows_with_out s t g h : ofollows s t -> follows g h -> ofollows (with_out s g) (with_out t h).
Proof. by intros (H1 & H2 & H3) Hg. Qed.
Lemma ofollows_with_args s t a : ofollows s t -> ofollows (with_args s a) (with_args t a).
Proof. by intros (H1 & H2 & H3). Qed.
Lemma ofollows_out s t : ofollows s t -> follows (out s) (out t).
Proof. apply proj1. Qed.
#[local] Hint Resolve ofollows_with_out ofollows_with_args ofollows_out : follows.

Lemma next_follows s t fmt : ofollows s t -> osim (next s fmt) (next t fmt).
Proof. by destruct fmt. Qed.
#[local] Hint Resolve next_follows : follows.

Lemma advance_follows s t fmt h k :
  ofollows s t -> (forall f, osim (h f) (k f)) ->
  osim (advance_in_format_string s fmt h) (advance_in_format_string t fmt k).
Proof. intros H Hk. destruct fmt as [|c [|c' fmt]]; cbn; [done|done|]. apply Hk. Qed.

Lemma width_follows flags fmt s t h k :
  ofollows s t -> (forall fl w f u v, ofollows u v -> osim (h fl w f u) (k fl w f v)) ->
  osim (width_field flags fmt s h) (width_field flags fmt t k).
Proof.
  intros H Hk. unfold width_field. apply sim_if; [destruct (atou_ fmt); auto|]. apply sim_if; [|auto].
  pose proof (proj1 (proj2 H)) as <-. apply sim_same. intros [w a].
  repeat apply sim_if; try done; apply advance_follows; eauto with follows.
Qed.

Lemma precision_follows flags fmt s t h k :
  ofollows s t -> (forall fl w f u v, ofollows u v -> osim (h fl w f u) (k fl w f v)) ->
  osim (precision_field flags fmt s h) (precision_field flags fmt t k).
Proof.
  intros H Hk. unfold precision_field. apply sim_if; [|auto].
  apply advance_follows; [done|]. intros f. apply sim_if; [destruct (atou_ f); auto|].
  apply sim_if; [|auto]. pose proof (proj1 (proj2 H)) as <-. apply sim_same. intros [p a].
  apply advance_follows; eauto with follows.
Qed.

Lemma length_follows flags fmt s t h k :
  ofollows s t -> (forall fl f u v, ofollows u v -> osim (h fl f u) (k fl f v)) ->
  osim (length_field flags fmt s h) (length_field flags fmt t k).
Proof.
  intros H Hk. unfold length_field.
  repeat (apply sim_if; [try (apply advance_follows; [done|]; intros; try apply sim_if);
    auto; try (apply advance_follows; auto)|]); auto.
Qed.

Lemma integer_follows c flags width prec fmt s t :
  ofollows s t -> osim (spec_integer c flags width prec fmt s) (spec_integer c flags width prec fmt t).
Proof.
  intros H. pose proof H as (Ho & Ea & Ew). unfold spec_integer. rewrite Ea.
  destruct (if (c =? 120) || (c =? 88) then _ else _) as [base fl].
  repeat apply sim_if; auto with follows; apply sim_same; intros [x a]; try (apply sim_same; intros v);
    (eapply sim_bind; [auto with follows|intros; auto with follows]).
Qed.

Lemma char_follows flags width fmt s t :
  ofollows s t -> osim (spec_char flags width fmt s) (spec_char flags width fmt t).
Proof.
  intros H. pose proof H as (Ho & Ea & Ew). unfold spec_char. rewrite Ea.
  eapply sim_bind; [apply sim_if; auto with follows|]. intros g h Hg.
  apply sim_same. intros [c a]. eapply sim_bind; [auto with follows|]. intros g' h' Hg'.
  eapply sim_bind; [apply sim_if; [auto with follows|exact Hg']|]. auto with follows.
Qed.

Lemma string_follows flags width prec fmt s t :
  ofollows s t -> osim (spec_string flags width prec fmt s) (spec_string flags width prec fmt t).
Proof.
  intros H. pose proof H as (Ho & Ea & Ew). unfold spec_string. rewrite Ea.
  apply sim_same. intros [p a].
  eapply (sim_bind follows); [|auto with follows]. destruct p as [p|]; [|auto with follows].
  eapply sim_bind; [apply sim_if; auto with follows|]. intros g h Hg.
  eapply sim_bind; [auto with follows|]. intros g' h' Hg'. apply sim_if; auto with follows.
Qed.

Lemma pointer_follows flags prec fmt s t :
  ofollows s t -> osim (spec_pointer flags prec fmt s) (spec_pointer flags prec fmt t).
Proof.
  intros H. pose proof H as (Ho & Ea & Ew). unfold spec_pointer. rewrite Ea.
  apply sim_same. intros [v a]. eapply (sim_bind follows); [apply sim_if|]; auto with follows.
Qed.

Lemma writeback_follows flags fmt s t :
  ofollows s t -> osim (spec_writeback flags fmt s) (spec_writeback flags fmt t).
Proof.
  intros H. pose proof H as (Ho & Ea & Ew). unfold spec_writeback. rewrite Ea, Ew, (follows_pos _ _ Ho).
  apply sim_same. intros [l a]. by apply next_follows.
Qed.

Lemma specifier_follows flags width prec fmt s t :
  ofollows s t -> osim (specifier flags width prec fmt s) (specifier flags width prec fmt t).
Proof.
  intros H. unfold specifier.
  apply sim_if; [by apply integer_follows|]. apply sim_if; [by apply char_follows|].
  apply sim_if; [by apply string_follows|]. apply sim_if; [by apply pointer_follows|].
  apply sim_if; [eapply sim_bind; auto with follows|]. apply sim_if; [by apply writeback_follows|].
  eapply sim_bind; auto with follows.
Qed.

Lemma directive_follows fmt s t : ofollows s t -> osim (directive fmt s) (directive fmt t).
Proof.
  intros H. unfold directive. destruct (parse_flags fmt) as [fl f].
  apply width_follows; [done|]. intros. apply precision_follows; [done|]. intros.
  apply length_follows; [done|]. intros. by apply specifier_follows.
Qed.

Lemma loop_follows fuel fmt s t :
  ofollows s t -> sim ofollows (format_string_loop fuel fmt s) (format_string_loop fuel fmt t).
Proof.
  revert fmt s t. induction fuel as [|fuel IH]; intros fmt s t H; [done|]. cbn [format_string_loop].
  destruct fmt as [|c rest]; [done|]. apply sim_if.
  - eapply sim_bind; [auto with follows|]. intros g h Hg. apply IH. auto with follows.
  - eapply (sim_bind outcome_follows).
    + apply advance_follows; [done|]. intros f. by apply directive_follows.
    + intros [s' m] [t' m'] [H' E]. cbn in H', E. subst m'. destruct m; [by apply IH|done].
Qed.

Lemma follows_start :
  follows function_gadget (buffer_gadget (Some b0) n).
Proof.
  exists [], b0. unfold buffer_gadget. rewrite (proj2 (Z.ltb_ge _ _)) by lia.
  split_and!; try done. intros _. split; [done|]. unfold overlay. by rewrite take_nil.
Qed.

Lemma overlay_nul cs :
  0 < n ->
  <[Z.to_nat (if zlen cs <? n then zlen cs else n - 1) := 0]> (overlay cs) =
    take (Z.to_nat n - 1) cs ++ 0 :: drop (S (length (take (Z.to_nat n - 1) cs))) b0.
Proof.
  intros Hpos. pose proof (length_overlay cs) as HL. unfold zlen in *.
  rewrite insert_take_drop by (rewrite HL; destruct (Z.ltb_spec (Z.of_nat (length cs)) n); lia).
  unfold overlay. destruct (Z.ltb_spec (Z.of_nat (length cs)) n).
  - rewrite Nat2Z.id, !(take_ge cs) by lia. rewrite take_app_length, drop_app_ge, drop_drop by lia.
    do 3 f_equal. lia.
  - rewrite length_take. replace (Z.to_nat (n - 1)) with (Z.to_nat n - 1)%nat by lia.
    rewrite take_app_le by (rewrite length_take; lia). rewrite take_take, Nat.min_l by lia. f_equal. f_equal.
    rewrite drop_app_ge by (rewrite length_take; lia). rewrite drop_drop, !length_take. f_equal. lia.
Qed.
End follows.

Lemma snprintf_follows_fctprintf (fmt : list Z) (a : list vararg) (n : Z) (b0 : list Z) :
  0 < n <= PRINTF_MAX_POSSIBLE_BUFFER_SIZE -> n <= zlen b0 ->
  match vfctprintf fmt a with
  | Ok (ret, g, _) =>
      exists b, snprintf_ b0 n fmt a = Ok (ret, b) /\ length b = length b0 /\
        (zlen (calls g) < PRINTF_MAX_POSSIBLE_BUFFER_SIZE ->
           let kept := take (Z.to_nat n - 1) (calls g) in
           ret = zlen (calls g) /\ b = kept ++ 0 :: drop (S (length kept)) b0)
  | Err e => snprintf_ b0 n fmt a = Err e
  end.
Proof.
  intros Hn Hb. unfold vfctprintf, snprintf_, vsnprintf_, vsnprintf_impl.
  set (s0 := {| out := function_gadget; args := a; writebacks := [] |}).
  set (t0 := {| out := buffer_gadget (Some b0) n; args := a; writebacks := [] |}).
  assert (ofollows n b0 s0 t0) as H0 by (split; [apply follows_start; lia|done]).
  pose proof (loop_follows n b0 ltac:(lia) Hb (S (length fmt)) fmt s0 t0 H0) as H.
  destruct (format_string_loop _ _ s0) as [s|e], (format_string_loop _ _ t0) as [t|e'];
    cbn in H; try done; [|by cbn; subst].
  destruct H as ((cs & b & Fg & Mg & Fh & Mh & Bh & Lb & Pg & Ph & Hcs & Hmany) & _ & _).
  cbn. unfold append_termination_with_gadget. rewrite Fg, Fh, Mh, Bh. cbn [orb].
  rewrite (proj2 (Z.eqb_neq n 0)) by lia.
  assert (0 <= pos (out t)) by (rewrite Ph, Pg; apply u32_range).
  rewrite aset_in by (unfold zlen in *; destruct (Z.ltb_spec (pos (out t)) n); lia).
  cbn. eexists. split; [by rewrite Ph|]. split; [by rewrite length_insert|].
  intros Hlt. assert (zlen cs < PRINTF_MAX_POSSIBLE_BUFFER_SIZE) as Hc.
  { destruct (decide (PRINTF_MAX_POSSIBLE_BUFFER_SIZE <= zlen cs)) as [Hle|]; [|lia].
    specialize (Hmany Hle). lia. }
  destruct (Hcs ltac:(lia)) as [-> ->].
  assert (pos (out s) = zlen cs) as Ep.
  { rewrite Pg. apply u32_small. unfold is_u32, PRINTF_MAX_POSSIBLE_BUFFER_SIZE, zlen in *. lia. }
  split.
  - rewrite Ep. apply i32_small. unfold PRINTF_MAX_POSSIBLE_BUFFER_SIZE, zlen in *. lia.
  - rewrite Ep. apply overlay_nul; [|lia]. done.
Qed.

(** C11: [snprintf] is [fctprintf] cut to the buffer: for any format and
    arguments, if sending the output to a function produces [cs] and returns,
    then printing the same into a buffer with room for [n] characters returns
    the same count (so a count of [n] or more says it was cut), leaves there
    the first [n - 1] characters of [cs] and a NUL, and changes nothing after
    them; and if one of the two fails, the other fails in the same way. *)
Theorem snprintf_truncates (fmt : list Z) (a : list vararg) (n : Z) (b0 : list Z) :
  0 < n <= PRINTF_MAX_POSSIBLE_BUFFER_SIZE -> n <= zlen b0 ->
  match vfctprintf fmt a with
  | Ok (ret, g, _) =>
      exists b, snprintf_ b0 n fmt a = Ok (ret, b) /\ length b = length b0 /\
        (zlen (calls g) < PRINTF_MAX_POSSIBLE_BUFFER_SIZE ->
           let kept := take (Z.to_nat n - 1) (calls g) in
           ret = zlen (calls g) /\ b = kept ++ 0 :: drop (S (length kept)) b0)
  | Err e => snprintf_ b0 n fmt a = Err e
  end.
Proof. apply snprintf_follows_fctprintf. Qed.

Lemma snprintf_truncates_witness :
  exists b, snprintf_ (replicate 6 88) 4 (chars "%u%%") [VInt 1234] = Ok (5, b) /\ b = [49; 50; 51; 0; 88; 88].
Proof.
  pose proof (snprintf_truncates (chars "%u%%") [VInt 1234] 4 (replicate 6 88)) as H.
  assert (exists g w, vfctprintf (chars "%u%%") [VInt 1234] = Ok (5, g, w) /\ calls g = [49; 50; 51; 52; 37])
    as (g & w & E & Ec) by (vm_compute; eauto).
  rewrite E, Ec in H. destruct H as (b & H1 & _ & H2); [vm_compute; done | vm_compute; done |].
  exists b. split; [exact H1|]. apply H2. vm_compute. done.
Defined.

(** ** Termination *)

Definition no_hang {A} (m : result A) : Prop := m <> Err Hang.

Lemma no_hang_bind {A B} (m : result A) (k : A -> result B) :
  no_hang m -> (forall a, m = Ok a -> no_hang (k a)) -> no_hang (m ≫= k).
Proof. destruct m; cbn; auto. unfold no_hang. intros H _ [= ->]. done. Qed.

Lemma no_hang_if {A} (b : bool) (m m' : result A) : no_hang m -> no_hang m' -> no_hang (if b then m else m').
Proof. by destruct b. Qed.

Lemma putchar_no_hang g c :
  no_hang (putchar_via_gadget g c) /\
  forall g', putchar_via_gadget g c = Ok g' -> pos g' = u32 (pos g + 1).
Proof.
  unfold putchar_via_gadget. cbn.
  destruct (_ <=? _); [split; [done|by intros g' [= <-]]|].
  destruct (function g); [split; [done|by intros g' [= <-]]|].
  destruct (buffer g); [|done]. unfold aset. destruct (_ || _); cbn; [done|].
  split; [done|by intros g' [= <-]].
Qed.

Lemma putn_no_hang n c g : no_hang (putn n c g).
Proof.
  revert g. induction n; cbn; intros g; [done|].
  apply no_hang_bind; [apply putchar_no_hang|auto].
Qed.

Lemma put_all_no_hang cs g : no_hang (put_all cs g).
Proof.
  revert g. induction cs; cbn; intros g; [done|].
  apply no_hang_bind; [apply putchar_no_hang|auto].
Qed.

Lemma left_pad_no_hang fuel s w g :
  is_u32 w -> (Z.to_nat (w - u32 (pos g - s)) < fuel)%nat -> no_hang (left_pad fuel s w g).
Proof.
  intros Hw. revert g. induction fuel as [|fuel IH]; cbn; intros g Hf; [lia|].
  destruct (Z.ltb_spec (u32 (pos g - s)) w) as [H|H]; [|done].
  apply no_hang_bind; [apply putchar_no_hang|]. intros g' Hg'. apply IH.
  rewrite (proj2 (putchar_no_hang g 32) g' Hg').
  assert (u32 (u32 (pos g + 1) - s) = u32 (pos g - s) + 1) as ->; [|lia].
  clear - H Hw. word_lia.
Qed.

Lemma out_rev_no_hang g buf w flags : is_u32 w -> no_hang (out_rev_ g buf w flags).
Proof.
  intros Hw. unfold out_rev_. apply no_hang_bind.
  { destruct (_ && _); [apply putn_no_hang|done]. }
  intros g1 _. apply no_hang_bind; [apply put_all_no_hang|]. intros g2 _.
  destruct (has flags FLAGS_LEFT); [|done]. apply left_pad_no_hang; [done|].
  pose proof (u32_range (pos g2 - pos g)). unfold is_u32 in *. lia.
Qed.

Lemma pad_zeros_no_hang fuel lim buf :
  PRINTF_INTEGER_BUFFER_SIZE - zlen buf < Z.of_nat fuel -> (0 < fuel)%nat -> no_hang (pad_zeros fuel lim buf).
Proof.
  revert buf. induction fuel as [|fuel IH]; cbn; intros buf Hf H0; [lia|].
  destruct (Z.ltb_spec (zlen buf) lim); [|done].
  destruct (Z.ltb_spec (zlen buf) PRINTF_INTEGER_BUFFER_SIZE) as [Hb|]; [|done]. cbn.
  unfold push. rewrite (proj2 (Z.ltb_lt _ _) Hb). cbn. apply IH; unfold zlen in *; rewrite ?length_app; cbn; lia.
Qed.

Lemma digits_no_hang fuel v base flags buf :
  zlen buf = PRINTF_INTEGER_BUFFER_SIZE - Z.of_nat fuel -> (0 < fuel)%nat ->
  no_hang (digits_loop fuel v base flags buf).
Proof.
  revert v buf. induction fuel as [|fuel IH]; cbn; intros v buf Hf H0; [lia|].
  unfold push. destruct (Z.ltb_spec (zlen buf) PRINTF_INTEGER_BUFFER_SIZE); [|done]. cbn.
  destruct (_ && _) eqn:E; [|done]. apply andb_prop in E as [_ E]. apply Z.ltb_lt in E.
  unfold zlen in *. rewrite length_app in E. cbn in E.
  apply IH; [rewrite length_app; cbn|]; lia.
Qed.

Lemma push_if_room_no_hang buf c : no_hang (push_if_room buf c).
Proof. unfold push_if_room, push. destruct (_ <? _); done. Qed.

Lemma finalization_no_hang g buf neg base prec w flags :
  is_u32 w -> no_hang (print_integer_finalization g buf neg base prec w flags).
Proof.
  intros Hw. assert (0 <= zlen buf) by (unfold zlen; lia). unfold print_integer_finalization.
  set (w' := if _ && _ && _ && _ then w - 1 else w).
  assert (is_u32 w') as Hw'.
  { subst w'. destruct (negb (has flags FLAGS_LEFT)); cbn; [|done].
    destruct (Z.eqb_spec w 0); cbn; [done|]. destruct (_ && _); [|done]. unfold is_u32 in *. lia. }
  clearbody w'. apply no_hang_bind.
  { destruct (_ && _); [|done]. apply pad_zeros_no_hang; [unfold PRINTF_INTEGER_BUFFER_SIZE|]; lia. }
  intros b1 _. apply no_hang_bind.
  { apply pad_zeros_no_hang; [unfold PRINTF_INTEGER_BUFFER_SIZE, zlen|]; lia. }
  intros b2 _. apply no_hang_bind.
  { destruct (has _ (FLAGS_HASH ||| FLAGS_POINTER)); [|done]. apply no_hang_bind; [|auto using push_if_room_no_hang].
    repeat apply no_hang_if; auto using push_if_room_no_hang; done. }
  intros b3 _. apply no_hang_bind; [|intros; by apply out_rev_no_hang].
  repeat apply no_hang_if; auto using push_if_room_no_hang; done.
Qed.

Lemma print_integer_no_hang g v neg base prec w flags :
  is_u32 w -> no_hang (print_integer g v neg base prec w flags).
Proof.
  intros Hw. unfold print_integer. destruct (v =? 0).
  - destruct (negb _); [|by apply finalization_no_hang]. cbn. by apply finalization_no_hang.
  - apply no_hang_bind; [apply digits_no_hang; [done|lia]|]. intros. by apply finalization_no_hang.
Qed.

(** What a step of the format loop may do: it does not hang, and the format
    it leaves, if any, is shorter than [k]. *)
Definition shortens (k : nat) (m : outcome) : Prop :=
  no_hang m /\ forall st f, m = Ok (st, Some f) -> (length f < k)%nat.

Lemma shortens_bind {A} k (m : result A) (h : A -> outcome) :
  no_hang m -> (forall a, m = Ok a -> shortens k (h a)) -> shortens k (m ≫= h).
Proof. destruct m; cbn; auto. intros H _. split; [|done]. intros [= ->]. done. Qed.

Lemma next_shortens k st fmt : (length fmt <= k)%nat -> shortens k (next st fmt).
Proof. destruct fmt; cbn; intros H; [done|]. split; [done|]. intros ? ? [= _ <-]. lia. Qed.

Lemma advance_shortens k st fmt h :
  (forall f, (length f < length fmt)%nat -> shortens k (h f)) ->
  shortens k (advance_in_format_string st fmt h).
Proof. destruct fmt as [|c [|d f]]; cbn; intros H; [done|done|]. apply H. cbn. lia. Qed.

Lemma atou_shortens str : (length (atou_ str).2 <= length str)%nat /\ is_u32 (atou_ str).1.
Proof.
  assert (forall i, is_u32 i -> (length (atou_loop i str).2 <= length str)%nat /\ is_u32 (atou_loop i str).1) as H.
  { induction str as [|c s IH]; cbn; intros i Hi; [done|]. destruct (is_digit_ c); cbn; [|split; [lia|done]].
    destruct (IH (u32 (i * 10 + (c - 48)))) as [H1 H2]; [apply u32_range|]. split; [lia|done]. }
  by apply H.
Qed.

Lemma parse_flags_shortens fmt : (length (parse_flags fmt).2 <= length fmt)%nat.
Proof.
  unfold parse_flags. generalize 0. induction fmt as [|c s IH]; cbn; intros f; [done|].
  destruct (flag_of_char c); cbn; [|lia]. specialize (IH (f ||| z)). lia.
Qed.

Lemma va_int_inv a x r : va_int a = Ok (x, r) -> exists y, x = i32 y.
Proof. destruct a as [|[] ?]; try done. cbn. intros [= <- <-]. eauto. Qed.

Lemma va_no_hang a :
  no_hang (va_int a) /\ no_hang (va_uint a) /\ no_hang (va_str a) /\ no_hang (va_ptr a) /\ no_hang (va_out a).
Proof. by destruct a as [|[] ?]. Qed.

Lemma width_shortens n flags fmt st h :
  (forall flags w f st', (length f <= length fmt)%nat -> is_u32 w -> shortens n (h flags w f st')) ->
  shortens n (width_field flags fmt st h).
Proof.
  intros H. unfold width_field. pose proof (atou_shortens fmt) as [Ha Hw].
  destruct (is_digit_ _); [destruct (atou_ fmt); by apply H|].
  destruct (_ =? 42); [|by apply H]. apply shortens_bind; [apply va_no_hang|].
  intros [w a] Hv. apply va_int_inv in Hv as [y ->].
  destruct (Z.ltb_spec (i32 y) 0) as [Hn|Hn].
  - destruct (Z.eqb_spec (i32 y) (-2147483648)); [done|]. apply advance_shortens. intros f Hf.
    apply H; [lia|]. unfold is_u32. word_lia.
  - apply advance_shortens. intros f Hf. apply H; [lia|]. unfold is_u32. word_lia.
Qed.

Lemma precision_shortens n flags fmt st h :
  (forall flags p f st', (length f <= length fmt)%nat -> shortens n (h flags p f st')) ->
  shortens n (precision_field flags fmt st h).
Proof.
  intros H. unfold precision_field. destruct (_ =? 46); [|by apply H].
  apply advance_shortens. intros f Hf. pose proof (atou_shortens f) as [Ha _].
  destruct (is_digit_ _); [destruct (atou_ f); apply H; cbn in *; lia|].
  destruct (_ =? 42); [|apply H; lia]. apply shortens_bind; [apply va_no_hang|].
  intros [p a] _. apply advance_shortens. intros f' Hf'. apply H. lia.
Qed.

Lemma length_shortens n flags fmt st h :
  (forall flags f st', (length f <= length fmt)%nat -> shortens n (h flags f st')) ->
  shortens n (length_field flags fmt st h).
Proof.
  intros H. unfold length_field.
  repeat case_match; repeat (apply advance_shortens; intros); repeat case_match;
    repeat (apply advance_shortens; intros); apply H; lia.
Qed.

Lemma put_string_no_hang p flags prec g : no_hang (put_string p flags prec g).
Proof.
  revert prec g. induction p; cbn; intros prec g; [done|]. apply no_hang_if; [|done].
  apply no_hang_bind; [apply putchar_no_hang|auto].
Qed.

Lemma abs_no_hang x : no_hang (abs_for_printing x).
Proof. unfold abs_for_printing. by repeat apply no_hang_if. Qed.

Lemma spec_integer_shortens n c flags w p fmt st :
  (length fmt <= n)%nat -> is_u32 w -> shortens n (spec_integer c flags w p fmt st).
Proof.
  intros Hf Hw. unfold spec_integer. generalize (if (c =? 100) || (c =? 105) then flags ||| FLAGS_SIGNED else flags).
  intros f. destruct (if (c =? 120) || (c =? 88) then _ else _) as [base f'].
  set (f'' := if has _ FLAGS_PRECISION then _ else _). clearbody f''.
  destruct (has f'' FLAGS_SIGNED); (destruct (has _ FLAGS_LONG_LONG); [by apply next_shortens|]);
    (apply shortens_bind; [apply va_no_hang|]); intros [x a] _.
  - apply shortens_bind; [apply abs_no_hang|]. intros v _.
    apply shortens_bind; [by apply print_integer_no_hang|]. intros. by apply next_shortens.
  - apply shortens_bind; [by apply print_integer_no_hang|]. intros. by apply next_shortens.
Qed.

Lemma spec_string_shortens n flags w p fmt st :
  (length fmt <= n)%nat -> is_u32 w -> shortens n (spec_string flags w p fmt st).
Proof.
  intros Hf Hw. unfold spec_string. apply shortens_bind; [apply va_no_hang|]. intros [[s|] a] _.
  - apply shortens_bind; [|intros; by apply next_shortens].
    apply no_hang_bind; [apply no_hang_if; [apply putn_no_hang|done]|]. intros g1 _.
    apply no_hang_bind; [apply put_string_no_hang|]. intros g2 _. apply no_hang_if; [apply putn_no_hang|done].
  - apply shortens_bind; [by apply out_rev_no_hang|]. intros. by apply next_shortens.
Qed.

Lemma specifier_shortens n flags w p fmt st :
  (length fmt <= n)%nat -> is_u32 w -> shortens n (specifier flags w p fmt st).
Proof.
  intros Hf Hw. unfold specifier. destruct (existsb _ _); [by apply spec_integer_shortens|].
  destruct (_ =? 99).
  { unfold spec_char. apply shortens_bind; [apply no_hang_if; [apply putn_no_hang|done]|]. intros g1 _.
    apply shortens_bind; [apply va_no_hang|]. intros [c a] _. apply shortens_bind; [apply putchar_no_hang|].
    intros g2 _. apply shortens_bind; [apply no_hang_if; [apply putn_no_hang|done]|]. intros. by apply next_shortens. }
  destruct (_ =? 115); [by apply spec_string_shortens|].
  destruct (_ =? 112).
  { unfold spec_pointer. apply shortens_bind; [apply va_no_hang|]. intros [v a] _.
    apply shortens_bind; [|intros; by apply next_shortens].
    apply no_hang_if; [apply out_rev_no_hang|apply print_integer_no_hang]; unfold is_u32; lia. }
  destruct (_ =? 37); [apply shortens_bind; [apply putchar_no_hang|intros; by apply next_shortens]|].
  destruct (_ =? 110); [|apply shortens_bind; [apply putchar_no_hang|intros; by apply next_shortens]].
  apply shortens_bind; [apply va_no_hang|]. intros [l a] _. by apply next_shortens.
Qed.

Lemma directive_shortens n fmt st : (length fmt <= n)%nat -> shortens n (directive fmt st).
Proof.
  intros Hf. unfold directive. pose proof (parse_flags_shortens fmt) as Hp.
  destruct (parse_flags fmt) as [flags f]. cbn in Hp.
  apply width_shortens. intros fl w f1 st1 H1 Hw. apply precision_shortens. intros fl2 p f2 st2 H2.
  apply length_shortens. intros fl3 f3 st3 H3. apply specifier_shortens; [lia|done].
Qed.

Lemma format_string_loop_no_hang fuel fmt st :
  (length fmt < fuel)%nat -> no_hang (format_string_loop fuel fmt st).
Proof.
  revert fmt st. induction fuel as [|fuel IH]; intros fmt st Hf; [lia|]. cbn [format_string_loop].
  destruct fmt as [|c rest]; [done|]. cbn in Hf. apply no_hang_if.
  - apply no_hang_bind; [apply putchar_no_hang|]. intros g _. apply IH. lia.
  - assert (shortens (length rest) (advance_in_format_string st (c :: rest) (fun f => directive f st))) as [H1 H2].
    { apply advance_shortens. intros f Hlt. apply directive_shortens. cbn in Hlt. lia. }
    apply no_hang_bind; [done|]. intros [st' [f|]] E; [|done]. apply IH. apply H2 in E. lia.
Qed.

(** C34: Formatting terminates: for every gadget, format string and argument
    list [vsnprintf_impl] comes to an end; the bounds of its loops (the format
    itself, the 32 characters of the integer buffer, the field width) are
    enough for each of them, the left-justified padding included, whose
    counter is a difference of wrapping positions. *)
Theorem formatting_terminates (g : output_gadget_t) (fmt : list Z) (a : list vararg) :
  vsnprintf_impl g fmt a <> Err Hang.
Proof.
  apply no_hang_bind; [apply format_string_loop_no_hang; lia|]. intros st _. apply no_hang_bind; [|done].
  unfold append_termination_with_gadget. apply no_hang_if; [done|]. destruct (buffer _); [|done].
  unfold aset. by destruct (_ || _).
Qed.

(** ** Two limits of the conversions *)

(** A format that ends in the flags or the digits of a specifier is read past
    its end: the end is tested for on the other steps through a specifier,
    not after [parse_flags] and [atou_]. *)
Lemma specifier_reads_past_format :
  vfctprintf (chars "%-") [] = Err OutOfBounds /\ vfctprintf (chars "%5") [] = Err OutOfBounds /\
  exists r, vfctprintf (chars "%l") [] = Ok r.
Proof. split_and!; [reflexivity|reflexivity|eexists; vm_compute; reflexivity]. Qed.

(** Zero padding to 33 characters fills the buffer of a number and leaves no
    place for its minus sign. *)
Lemma zero_padding_drops_minus :
  vfctprintf (chars "%033d") [VInt (-5)] = vfctprintf (chars "%032d") [VInt 5].
Proof. vm_compute. reflexivity. Qed.
