(* ===== verification/Numerals.v ===== *)
(** * What the integer conversions print (firmware/src/printf/printf.c)

    The digits of a number as a reference definition, the equivalence of the
    conversion loops of [print_integer] with it, the field a width and the
    padding flags make of it, and the round trip through [atou_]. *)

From S2P Require Import Prelude Printf PrintfProps.

(** The digits of [v], least significant first; at least one, at most [n]. *)
Fixpoint lsb_digits (n : nat) (base v : Z) : list Z :=
  match n with
  | O => []
  | S n => (v mod base) :: (if v / base =? 0 then [] else lsb_digits n base (v / base))
  end.

(** The value of digits written most significant first, after [acc]. *)
Fixpoint horner (base acc : Z) (ds : list Z) : Z :=
  match ds with
  | [] => acc
  | d :: ds => horner base (acc * base + d) ds
  end.

(** The numeral of a 32-bit [v] as characters, most significant first. *)
Definition numeral (base flags v : Z) : list Z :=
  map (fun d => digit_char d flags) (rev (lsb_digits 32 base v)).

(** The field printed for the digits [cs]: a sign, the digits and the padding. *)
Definition field (negative : bool) (width flags : Z) (cs : list Z) : list Z :=
  let sign := if negative then [45] else [] in
  let missing := (Z.to_nat width - length sign - length cs)%nat in
  if has flags FLAGS_LEFT then sign ++ cs ++ replicate missing 32
  else if has flags FLAGS_ZEROPAD then sign ++ replicate missing 48 ++ cs
  else replicate missing 32 ++ sign ++ cs.

(** ** Digits *)

Lemma horner_app base acc ds es : horner base acc (ds ++ es) = horner base (horner base acc ds) es.
Proof. revert acc. induction ds; cbn; auto. Qed.

Lemma horner_zeros base n ds : horner base 0 (replicate n 0 ++ ds) = horner base 0 ds.
Proof. induction n as [|n IH]; [done|]. exact IH. Qed.

Lemma horner_scale base ds : forall acc, horner base acc ds = acc * base ^ Z.of_nat (length ds) + horner base 0 ds.
Proof.
  induction ds as [|d ds IH]; intros acc; cbn [horner length]; [cbn; lia|]. rewrite IH, (IH (0 * base + d)).
  rewrite Nat2Z.inj_succ, Z.pow_succ_r by lia. lia.
Qed.

Lemma lsb_digits_value n base v :
  2 <= base -> 0 <= v < 2 ^ Z.of_nat n -> (0 < n)%nat -> horner base 0 (rev (lsb_digits n base v)) = v.
Proof.
  intros Hb. revert v. induction n as [|n IH]; intros v Hv Hn; [lia|].
  cbn [lsb_digits rev]. rewrite horner_app. cbn. pose proof (Z_div_mod_eq_full v base) as E.
  destruct (Z.eqb_spec (v / base) 0) as [H|H]; [cbn; lia|].
  assert (0 <= v / base) by (apply Z.div_pos; lia).
  assert (v / base < 2 ^ Z.of_nat n).
  { apply Z.div_lt_upper_bound; [lia|]. rewrite Nat2Z.inj_succ, Z.pow_succ_r in Hv by lia. nia. }
  rewrite IH; [lia|lia|]. destruct n; [|lia]. cbn in *. lia.
Qed.

Lemma lsb_digits_range n base v : 2 <= base -> Forall (fun d => 0 <= d < base) (lsb_digits n base v).
Proof.
  intros Hb. revert v. induction n as [|n IH]; intros v; cbn; constructor.
  - apply Z.mod_pos_bound. lia.
  - destruct (_ =? 0); auto.
Qed.

Lemma lsb_digits_length n base v k :
  2 <= base -> 0 <= v < base ^ Z.of_nat k -> (0 < k)%nat -> (length (lsb_digits n base v) <= k)%nat.
Proof.
  intros Hb. revert v k. induction n as [|n IH]; intros v k Hv Hk; cbn; [lia|].
  destruct (Z.eqb_spec (v / base) 0) as [H|H]; cbn; [lia|].
  destruct k as [|k]; [lia|]. rewrite Nat2Z.inj_succ, Z.pow_succ_r in Hv by lia.
  assert (0 <= v / base < base ^ Z.of_nat k).
  { split; [apply Z.div_pos; lia|]. apply Z.div_lt_upper_bound; lia. }
  apply le_n_S, IH; [done|]. destruct k; [|lia]. cbn in *. lia.
Qed.

(** The first digit of a number with more than one digit is not zero. *)
Lemma lsb_digits_last n base v d ds :
  2 <= base -> 0 < v < 2 ^ Z.of_nat n -> rev (lsb_digits n base v) = d :: ds -> d <> 0.
Proof.
  intros Hb. revert v ds. induction n as [|n IH]; intros v ds Hv E; [done|].
  cbn [lsb_digits rev] in E. pose proof (Z_div_mod_eq_full v base).
  destruct (Z.eqb_spec (v / base) 0) as [H0|H0]; cbn in E; [injection E; lia|].
  assert (0 <= v / base) by (apply Z.div_pos; lia).
  assert (v / base < 2 ^ Z.of_nat n).
  { apply Z.div_lt_upper_bound; [lia|]. rewrite Nat2Z.inj_succ, Z.pow_succ_r in Hv by lia. nia. }
  destruct (rev (lsb_digits n base (v / base))) as [|e es] eqn:Er.
  - destruct n; [cbn in *; lia|]. cbn in Er. by destruct (rev _).
  - injection E as <- _. eapply IH; [|exact Er]. lia.
Qed.

(** ** Flags *)

Lemma has_lor x a b : has x (a ||| b) = has x a || has x b.
Proof.
  unfold has. rewrite Z.land_lor_distr_r.
  destruct (Z.eqb_spec (x &&& a) 0) as [->|Ha]; [done|]. cbn. apply negb_true_iff, Z.eqb_neq.
  intros H. apply Z.lor_eq_0_iff in H as [? _]. done.
Qed.

Lemma clear_flags_id x m : has x m = false -> clear_flags x m = x.
Proof.
  unfold has, clear_flags. intros H. apply negb_false_iff, Z.eqb_eq in H.
  apply Z.bits_inj'. intros n _. rewrite Z.ldiff_spec.
  assert (Z.testbit (x &&& m) n = false) as E by (rewrite H; apply Z.testbit_0_l).
  rewrite Z.land_spec in E. by destruct (Z.testbit x n), (Z.testbit m n).
Qed.

(** No prefix and no sign for positive numbers. *)
Definition plain (flags : Z) : bool :=
  negb (has flags (FLAGS_HASH ||| FLAGS_POINTER ||| (FLAGS_PLUS ||| FLAGS_SPACE))).

Lemma plain_flags flags : plain flags = true ->
  has flags FLAGS_HASH = false /\ has flags (FLAGS_HASH ||| FLAGS_POINTER) = false /\
  has flags FLAGS_PLUS = false /\ has flags FLAGS_SPACE = false /\ has flags (FLAGS_PLUS ||| FLAGS_SPACE) = false.
Proof.
  unfold plain. rewrite (has_lor _ (_ ||| _)), !has_lor. intros H.
  by destruct (has flags FLAGS_HASH), (has flags FLAGS_POINTER), (has flags FLAGS_PLUS), (has flags FLAGS_SPACE).
Qed.

(** ** The loops *)

Lemma put_all_app cs ds g : put_all (cs ++ ds) g = (g ← put_all cs g; put_all ds g).
Proof. revert g. induction cs; cbn; intros g; [done|]. destruct (putchar_via_gadget g a); cbn; auto. Qed.

Lemma putn_put_all n c g : putn n c g = put_all (replicate n c) g.
Proof. revert g. induction n; cbn; intros g; [done|]. destruct (putchar_via_gadget g c); cbn; auto. Qed.

Lemma put_all_pos cs g g' : put_all cs g = Ok g' -> u32 (pos g' - pos g) = u32 (zlen cs).
Proof.
  revert g. induction cs as [|c cs IH]; cbn; intros g H.
  - injection H as <-. by rewrite Z.sub_diag.
  - destruct (putchar_via_gadget g c) as [g1|] eqn:E; [|done]. apply IH in H.
    apply putchar_no_hang in E. rewrite E in H. unfold zlen in *. cbn [length]. word_lia.
Qed.

Lemma left_pad_put_all fuel s w g :
  is_u32 w -> (Z.to_nat (w - u32 (pos g - s)) < fuel)%nat ->
  left_pad fuel s w g = put_all (replicate (Z.to_nat (w - u32 (pos g - s))) 32) g.
Proof.
  intros Hw. revert g. induction fuel as [|fuel IH]; cbn; intros g Hf; [lia|].
  destruct (Z.ltb_spec (u32 (pos g - s)) w) as [H|H].
  - destruct (Z.to_nat (w - u32 (pos g - s))) as [|n] eqn:En; [lia|]. cbn.
    destruct (putchar_via_gadget g 32) as [g'|] eqn:E; [|done]. cbn. apply putchar_no_hang in E.
    assert (u32 (pos g' - s) = u32 (pos g - s) + 1) as Ep by (rewrite E; clear - H Hw; word_lia).
    rewrite IH by lia. do 2 f_equal. lia.
  - by replace (Z.to_nat (w - u32 (pos g - s))) with 0%nat by lia.
Qed.

Lemma pad_zeros_spec fuel lim buf :
  zlen buf <= 32 -> 32 - zlen buf < Z.of_nat fuel ->
  pad_zeros fuel lim buf = Ok (buf ++ replicate (Z.to_nat (Z.min lim 32 - zlen buf)) 48).
Proof.
  revert buf. induction fuel as [|fuel IH]; intros buf H1 H2; [lia|]. cbn.
  unfold push, PRINTF_INTEGER_BUFFER_SIZE in *. destruct (Z.ltb_spec (zlen buf) lim), (Z.ltb_spec (zlen buf) 32); cbn.
  2-4: replace (Z.to_nat _) with 0%nat by lia; cbn; by rewrite app_nil_r.
  assert (zlen (buf ++ [48]) = zlen buf + 1) as E by (unfold zlen; rewrite length_app; cbn; lia).
  rewrite IH by lia. rewrite E, <- app_assoc. do 2 f_equal.
  replace (Z.to_nat (Z.min lim 32 - zlen buf)) with (S (Z.to_nat (Z.min lim 32 - (zlen buf + 1)))) by lia. done.
Qed.

Lemma digits_loop_spec fuel v base flags buf :
  2 <= base -> 0 <= v < 2 ^ Z.of_nat fuel -> zlen buf = 32 - Z.of_nat fuel -> (0 < fuel)%nat ->
  digits_loop fuel v base flags buf =
    Ok (buf ++ map (fun d => digit_char d flags) (lsb_digits fuel base v)).
Proof.
  intros Hb. revert v buf. induction fuel as [|fuel IH]; intros v buf Hv Hl Hf; [lia|]. cbn.
  unfold push, PRINTF_INTEGER_BUFFER_SIZE. rewrite (proj2 (Z.ltb_lt (zlen buf) 32)) by lia. cbn.
  assert (0 <= v / base) by (apply Z.div_pos; lia).
  assert (v / base < 2 ^ Z.of_nat fuel).
  { apply Z.div_lt_upper_bound; [lia|]. rewrite Nat2Z.inj_succ, Z.pow_succ_r in Hv by lia. nia. }
  assert (zlen (buf ++ [digit_char (v mod base) flags]) = 32 - Z.of_nat fuel) as E
    by (unfold zlen in *; rewrite length_app; cbn; lia).
  destruct (Z.eqb_spec (v / base) 0) as [Hz|Hz]; cbn; [done|].
  assert (0 < fuel)%nat by (destruct fuel; [cbn in *; lia|lia]).
  rewrite (proj2 (Z.ltb_lt (zlen (buf ++ _)) 32)) by lia. rewrite IH by done. by rewrite <- app_assoc.
Qed.

(** ** The field *)

Lemma out_rev_put_all g buf w flags :
  is_u32 w -> zlen buf <= 32 ->
  out_rev_ g buf w flags =
    put_all (if has flags FLAGS_LEFT then rev buf ++ replicate (Z.to_nat (w - zlen buf)) 32
             else if has flags FLAGS_ZEROPAD then rev buf
             else replicate (Z.to_nat (w - zlen buf)) 32 ++ rev buf) g.
Proof.
  intros Hw Hl. unfold out_rev_. destruct (has flags FLAGS_LEFT); cbn [negb andb mbind result_bind].
  - rewrite put_all_app. destruct (put_all (rev buf) g) as [g'|] eqn:E; [|done]. apply put_all_pos in E. cbn [mbind result_bind].
    assert (u32 (pos g' - pos g) = zlen buf) as Ep.
    { rewrite E. unfold zlen in *. rewrite length_rev. apply u32_small. unfold is_u32. lia. }
    rewrite left_pad_put_all; rewrite ?Ep; [done|done|]. unfold zlen. lia.
  - destruct (has flags FLAGS_ZEROPAD); cbn; [by destruct (put_all (rev buf) g)|].
    rewrite put_all_app, putn_put_all. destruct (put_all (replicate _ 32) g) as [g'|]; [|done]. cbn.
    by destruct (put_all (rev buf) g').
Qed.

Lemma rev_replicate {A} n (x : A) : rev (replicate n x) = replicate n x.
Proof. induction n; [done|]. cbn. by rewrite IHn, <- replicate_cons_app. Qed.

(** The sign is written whenever there is room for it. *)
Lemma push_sign (negative : bool) (buf : list Z) flags :
  plain flags = true -> zlen buf + (if negative then 1 else 0) <= 32 ->
  (if negative then push_if_room buf 45
   else if has flags FLAGS_PLUS then push_if_room buf 43
   else if has flags FLAGS_SPACE then push_if_room buf 32
   else Ok buf) = Ok (buf ++ if negative then [45] else []).
Proof.
  intros Hf Hl. apply plain_flags in Hf as (_ & _ & -> & -> & _).
  destruct negative; [|by rewrite app_nil_r]. unfold push_if_room, push, PRINTF_INTEGER_BUFFER_SIZE.
  by rewrite (proj2 (Z.ltb_lt (zlen buf) 32)) by lia.
Qed.

Lemma finalization_field g buf (negative : bool) base w flags :
  plain flags = true -> is_u32 w -> (has flags FLAGS_ZEROPAD = true -> w <= 32) ->
  zlen buf + (if negative then 1 else 0) <= 32 ->
  print_integer_finalization g buf negative base 0 w flags = put_all (field negative w flags (rev buf)) g.
Proof.
  intros Hf Hw Hz Hl. pose proof (plain_flags _ Hf) as (F1 & F2 & _ & _ & F5).
  assert (0 <= zlen buf) as H0 by (unfold zlen; lia).
  unfold print_integer_finalization. rewrite F5, orb_false_r, (clear_flags_id _ _ F1).
  set (w' := if _ && _ && _ && _ then w - 1 else w).
  set (pad := if negb (has flags FLAGS_LEFT) && has flags FLAGS_ZEROPAD
              then replicate (Z.to_nat (Z.min w' 32 - zlen buf)) 48 else []).
  assert (zlen pad + zlen buf + (if negative then 1 else 0) <= 32) as Hp.
  { subst pad w'. unfold is_u32, zlen in *. destruct (has flags FLAGS_LEFT); cbn; [lia|].
    destruct (has flags FLAGS_ZEROPAD); cbn; [|lia]. specialize (Hz eq_refl). rewrite length_replicate.
    destruct (Z.eqb_spec w 0), negative; cbn; lia. }
  assert ((if negb (has flags FLAGS_LEFT) && has flags FLAGS_ZEROPAD then pad_zeros 33 w' buf else Ok buf)
          = Ok (buf ++ pad)) as ->.
  { subst pad. destruct (negb _ && has flags FLAGS_ZEROPAD); [|by rewrite app_nil_r]. apply pad_zeros_spec; destruct negative; lia. }
  assert (pad_zeros 33 0 (buf ++ pad) = Ok (buf ++ pad)) as E2.
  { rewrite pad_zeros_spec by (unfold zlen in *; rewrite length_app; destruct negative; lia).
    replace (Z.to_nat _) with 0%nat by (unfold zlen; lia). by rewrite app_nil_r. }
  cbn [mbind result_bind]. rewrite E2. cbn [mbind result_bind].
  replace (if (base =? BASE_OCTAL) && (zlen buf <? zlen (buf ++ pad)) then flags else flags) with flags
    by by destruct ((base =? BASE_OCTAL) && (zlen buf <? zlen (buf ++ pad))).
  rewrite F2. cbn [mbind result_bind]. rewrite (push_sign _ _ _ Hf)
    by (unfold zlen in *; rewrite length_app; destruct negative; lia).
  cbn [mbind result_bind]. rewrite out_rev_put_all.
  2: { subst w'. unfold is_u32 in *. destruct (Z.eqb_spec w 0); [by rewrite andb_false_r|].
       destruct (_ && _ && _ && _); lia. }
  2: { unfold zlen in *. rewrite !length_app. destruct negative; cbn; lia. }
  f_equal. subst pad w'. unfold field, zlen in *. rewrite !rev_app_distr, !length_app, length_rev.
  destruct (has flags FLAGS_LEFT); [|destruct (has flags FLAGS_ZEROPAD)]; cbn [negb andb rev length app].
  - replace (rev (if negative then [45] else [])) with (if negative then [45] else []) by by destruct negative.
    rewrite <- app_assoc. do 3 f_equal. lia.
  - rewrite rev_replicate. replace (rev (if negative then [45] else [])) with (if negative then [45] else [])
      by by destruct negative.
    do 3 f_equal. specialize (Hz eq_refl). unfold is_u32 in Hw. destruct (Z.eqb_spec w 0), negative; cbn; lia.
  - replace (rev (if negative then [45] else [])) with (if negative then [45] else []) by by destruct negative.
    do 2 f_equal. rewrite andb_false_r. cbn. lia.
Qed.

Lemma numeral_length base flags v k :
  2 <= base -> 0 <= v < base ^ Z.of_nat k -> (0 < k)%nat -> (0 < length (numeral base flags v) <= k)%nat.
Proof.
  intros Hb Hv Hk. unfold numeral. rewrite length_map, length_rev.
  split; [cbn; lia|]. by apply lsb_digits_length.
Qed.

Lemma numeral_length_32 base flags v : 2 <= base -> is_u32 v -> (0 < length (numeral base flags v) <= 32)%nat.
Proof.
  intros Hb Hv. apply numeral_length; [done| |lia]. unfold is_u32 in Hv.
  pose proof (Z.pow_le_mono_l 2 base (Z.of_nat 32) ltac:(lia)). cbn in *. lia.
Qed.

Lemma print_integer_field g v (negative : bool) base w flags :
  is_u32 v -> 2 <= base -> (negative = true -> 4 <= base) -> plain flags = true ->
  has flags FLAGS_PRECISION = false -> is_u32 w -> (has flags FLAGS_ZEROPAD = true -> w <= 32) ->
  print_integer g v negative base 0 w flags = put_all (field negative w flags (numeral base flags v)) g.
Proof.
  intros Hv Hb Hn Hf Hp Hw Hz. unfold print_integer. rewrite Hp. cbn [negb].
  destruct (Z.eqb_spec v 0) as [->|Hv0].
  - rewrite (clear_flags_id _ _ (proj1 (plain_flags _ Hf))). change (push [] 48) with (Ok [48]). cbn [mbind result_bind].
    rewrite finalization_field; [|done..|unfold zlen; destruct negative; cbn; lia]. unfold numeral. cbn.
    by rewrite Zmod_0_l.
  - rewrite digits_loop_spec; [|lia|unfold is_u32 in Hv; cbn; lia|done|lia]. cbn [mbind result_bind].
    rewrite finalization_field; [|done..|].
    + unfold numeral. by rewrite app_nil_l, map_rev.
    + unfold zlen. rewrite app_nil_l, length_map. destruct negative.
      * pose proof (lsb_digits_length 32 base v 16 Hb) as H. unfold is_u32 in Hv. specialize (Hn eq_refl).
        pose proof (Z.pow_le_mono_l 4 base (Z.of_nat 16) ltac:(lia)). cbn in H0. lia.
      * pose proof (numeral_length_32 base flags v Hb Hv) as H. unfold numeral in H.
        rewrite length_map, length_rev in H. lia.
Qed.

(** ** Reading the digits back *)

Lemma horner_ge i ds : Forall (fun d => 0 <= d < 10) ds -> 0 <= i -> i <= horner 10 i ds.
Proof.
  intros H. revert i. induction H as [|d ds Hd H IH]; cbn; intros i Hi; [lia|].
  specialize (IH (i * 10 + d)). lia.
Qed.

Lemma atou_digits i ds rest :
  Forall (fun d => 0 <= d < 10) ds -> 0 <= i -> horner 10 i ds < 2 ^ 32 ->
  atou_loop i (map (fun d => digit_char d 0) ds ++ rest) = atou_loop (horner 10 i ds) rest.
Proof.
  intros H. revert i. induction H as [|d ds Hd H IH]; intros i Hi Hlt; [done|]. cbn in *.
  assert (digit_char d 0 = 48 + d) as ->.
  { unfold digit_char. rewrite (proj2 (Z.ltb_lt d 10)) by lia. word_lia. }
  assert (is_digit_ (48 + d) = true) as -> by (unfold is_digit_; lia).
  pose proof (horner_ge (i * 10 + d) ds H ltac:(lia)).
  rewrite u32_small by (unfold is_u32; lia). replace (i * 10 + (48 + d - 48)) with (i * 10 + d) by lia.
  apply IH; [lia|done].
Qed.

Lemma atou_numeral v flags rest :
  is_u32 v -> is_digit_ (hd0 rest) = false ->
  atou_loop 0 (numeral BASE_DECIMAL flags v ++ rest) = (v, rest).
Proof.
  intros Hv Hr. unfold is_u32 in Hv.
  pose proof (lsb_digits_value 32 10 v ltac:(lia) ltac:(cbn; lia) ltac:(lia)) as E.
  pose proof (lsb_digits_range 32 10 v ltac:(lia)) as R. apply Forall_rev in R.
  unfold numeral, BASE_DECIMAL. rewrite (map_ext_in _ (fun d => digit_char d 0)).
  - rewrite atou_digits; [|done|lia|rewrite E; lia]. rewrite E. destruct rest as [|c r]; [done|].
    cbn in *. by rewrite Hr.
  - intros d Hd. rewrite Forall_forall in R. specialize (R _ Hd).
    unfold digit_char. by rewrite (proj2 (Z.ltb_lt d 10)) by lia.
Qed.

(** C12: What the integer conversions print.  For a 32-bit value in any of
    the bases, [print_integer] without prefix, precision and forced sign
    prints exactly the field: the sign, the digits and the padding to [width]
    that the flags ask for (spaces on the right, zeros after the sign, or
    spaces on the left).  The digits are those of the value: each is below the
    base, together they are worth the value, and the first is not zero unless
    the value is. *)
Theorem integer_conversion (g : output_gadget_t) (v : Z) (negative : bool) (base w flags : Z) :
  is_u32 v -> base ∈ [BASE_BINARY; BASE_OCTAL; BASE_DECIMAL; BASE_HEX] ->
  (negative = true -> base = BASE_DECIMAL) -> plain flags = true -> has flags FLAGS_PRECISION = false ->
  is_u32 w -> (has flags FLAGS_ZEROPAD = true -> w <= PRINTF_INTEGER_BUFFER_SIZE) ->
  exists ds,
    print_integer g v negative base 0 w flags =
      put_all (field negative w flags (map (fun d => digit_char d flags) ds)) g /\
    Forall (fun d => 0 <= d < base) ds /\ horner base 0 ds = v /\ (0 < v -> hd 0 ds <> 0).
Proof.
  intros Hv Hb Hn Hf Hp Hw Hz.
  assert (2 <= base /\ (negative = true -> 4 <= base)) as [Hb2 Hb4].
  { split; [set_unfold in Hb|intros ->; rewrite Hn by done]; unfold BASE_BINARY, BASE_OCTAL, BASE_DECIMAL, BASE_HEX in *;
      naive_solver lia. }
  unfold is_u32 in Hv. exists (rev (lsb_digits 32 base v)). split_and!.
  - by apply print_integer_field.
  - apply Forall_rev. by apply lsb_digits_range.
  - apply lsb_digits_value; [done|cbn; lia|lia].
  - intros Hv0. destruct (rev (lsb_digits 32 base v)) as [|d ds] eqn:E.
    + apply (f_equal length) in E. rewrite length_rev in E. by cbn in E.
    + eapply lsb_digits_last; [done| |exact E]. cbn. lia.
Qed.

Lemma integer_conversion_witness :
  exists ds,
    print_integer function_gadget 1234 true BASE_DECIMAL 0 8 FLAGS_ZEROPAD =
      put_all (field true 8 FLAGS_ZEROPAD (map (fun d => digit_char d FLAGS_ZEROPAD) ds)) function_gadget /\
    Forall (fun d => 0 <= d < BASE_DECIMAL) ds /\ horner BASE_DECIMAL 0 ds = 1234 /\ (0 < 1234 -> hd 0 ds <> 0).
Proof.
  apply (integer_conversion function_gadget 1234 true BASE_DECIMAL 8 FLAGS_ZEROPAD); try done.
  - set_solver.
Defined.

(** C37: A decimal number that [print_integer] prints is the number [atou_]
    reads back, whatever its zero padding and whatever follows it that is not
    a digit. *)
Theorem decimal_roundtrip (g : output_gadget_t) (v w : Z) (rest : list Z) :
  is_u32 v -> 0 <= w <= PRINTF_INTEGER_BUFFER_SIZE -> is_digit_ (hd0 rest) = false ->
  exists cs, print_integer g v false BASE_DECIMAL 0 w FLAGS_ZEROPAD = put_all cs g /\
    w <= zlen cs /\ atou_ (cs ++ rest) = (v, rest).
Proof.
  unfold PRINTF_INTEGER_BUFFER_SIZE. intros Hv Hw Hr.
  exists (field false w FLAGS_ZEROPAD (numeral BASE_DECIMAL FLAGS_ZEROPAD v)). split_and!.
  - apply print_integer_field; try done; unfold is_u32; lia.
  - unfold field, zlen. change (has FLAGS_ZEROPAD FLAGS_LEFT) with false.
    change (has FLAGS_ZEROPAD FLAGS_ZEROPAD) with true. cbv iota. rewrite !length_app, length_replicate.
    change (length []) with 0%nat. lia.
  - unfold field. change (has FLAGS_ZEROPAD FLAGS_LEFT) with false.
    change (has FLAGS_ZEROPAD FLAGS_ZEROPAD) with true. cbv iota. rewrite app_nil_l, <- app_assoc. unfold atou_.
    induction (Z.to_nat w - _ - _)%nat; [by apply atou_numeral|]. done.
Qed.

Lemma decimal_roundtrip_witness :
  exists cs, print_integer function_gadget 42 false BASE_DECIMAL 0 3 FLAGS_ZEROPAD = put_all cs function_gadget /\
    3 <= zlen cs /\ atou_ (cs ++ [46; 49]) = (42, [46; 49]).
Proof. apply (decimal_roundtrip function_gadget 42 3 [46; 49]); vm_compute; done. Defined.
