(* ===== verification/Formats.v ===== *)
(** * Running the firmware's format strings

    What [vfctprintf] sends for the conversions the firmware uses ([%u],
    [%0<n>u], [%d], [%s] and plain text), one lemma per conversion, so that
    the text of a format string is computed by rewriting, and what [snprintf]
    leaves in a buffer follows. *)

From S2P Require Import Prelude Printf PrintfProps Numerals.

(** The function gadget after [cs] was sent, and the loop's state there. *)
Definition sent (cs : list Z) : output_gadget_t :=
  {| function := true; calls := cs; buffer := None; pos := zlen cs; max_chars := PRINTF_MAX_POSSIBLE_BUFFER_SIZE |}.
Definition at_text (cs : list Z) (a : list vararg) : ostate := {| out := sent cs; args := a; writebacks := [] |}.

(** [fmt] with the arguments [a] makes the text [cs]. *)
Definition prints (fmt : list Z) (a : list vararg) (cs : list Z) : Prop :=
  format_string_loop (S (length fmt)) fmt (at_text [] a) = Ok (at_text cs []).

(** An array of [n] characters or more after [cs] was printed into it. *)
Definition printed (n : nat) (cs b0 : list Z) : list Z :=
  let kept := take (n - 1) cs in kept ++ 0 :: drop (S (length kept)) b0.

Lemma zlen_app {A} (l k : list A) : zlen (l ++ k) = zlen l + zlen k.
Proof. unfold zlen. rewrite length_app. lia. Qed.

Lemma zlen_cons {A} (x : A) l : zlen (x :: l) = zlen l + 1.
Proof. unfold zlen. cbn. lia. Qed.

Lemma zlen_nonneg {A} (l : list A) : 0 <= zlen l.
Proof. unfold zlen. lia. Qed.

Lemma put_all_sent ds cs :
  zlen (cs ++ ds) <= PRINTF_MAX_POSSIBLE_BUFFER_SIZE -> put_all ds (sent cs) = Ok (sent (cs ++ ds)).
Proof.
  revert cs. induction ds as [|d ds IH]; cbn; intros cs H; [by rewrite app_nil_r|].
  unfold putchar_via_gadget. cbn. pose proof (zlen_nonneg ds). pose proof (zlen_nonneg cs).
  assert (zlen (cs ++ d :: ds) = zlen cs + zlen ds + 1) as E by (unfold zlen; rewrite length_app; cbn; lia).
  unfold PRINTF_MAX_POSSIBLE_BUFFER_SIZE in *. rewrite (proj2 (Z.leb_gt _ _)) by lia. cbn.
  assert (cs ++ d :: ds = (cs ++ [d]) ++ ds) as E2 by by rewrite <- app_assoc.
  rewrite E2 in H |- *. rewrite <- (IH _ H). f_equal. unfold sent, with_calls, with_pos. cbn. f_equal.
  rewrite zlen_app. change (zlen [d]) with 1. rewrite E2 in E. apply u32_small. unfold is_u32. lia.
Qed.

Lemma putchar_sent c cs :
  zlen cs < PRINTF_MAX_POSSIBLE_BUFFER_SIZE -> putchar_via_gadget (sent cs) c = Ok (sent (cs ++ [c])).
Proof.
  intros H. pose proof (put_all_sent [c] cs) as E. cbn in E. rewrite zlen_app in E. cbn in E.
  destruct (putchar_via_gadget (sent cs) c); apply E; unfold zlen in *; cbn; lia.
Qed.

Lemma loop_char f c rest cs a :
  c <> 37 -> zlen cs < PRINTF_MAX_POSSIBLE_BUFFER_SIZE ->
  format_string_loop (S f) (c :: rest) (at_text cs a) = format_string_loop f rest (at_text (cs ++ [c]) a).
Proof.
  intros Hc H. cbn [format_string_loop]. rewrite (proj2 (Z.eqb_neq c 37) Hc). cbn [negb out at_text].
  by rewrite (putchar_sent c cs H).
Qed.

Lemma loop_text f p rest cs a :
  Forall (fun c => c <> 37) p -> zlen cs + zlen p <= PRINTF_MAX_POSSIBLE_BUFFER_SIZE ->
  format_string_loop (length p + f) (p ++ rest) (at_text cs a) = format_string_loop f rest (at_text (cs ++ p) a).
Proof.
  intros H. revert cs. induction H as [|c p Hc H IH]; intros cs Hl; [by rewrite app_nil_r|].
  assert (zlen (c :: p) = zlen p + 1) as E by (unfold zlen; cbn; lia). pose proof (zlen_nonneg p).
  cbn [length Nat.add app]. rewrite loop_char by (done || lia). rewrite IH.
  - by rewrite <- app_assoc.
  - rewrite zlen_app. change (zlen [c]) with 1. lia.
Qed.

(** The step of the loop at a directive that prints [ds]. *)
Lemma loop_directive f c rest rest' cs ds a a' :
  directive (c :: rest) (at_text cs a) = (g ← put_all ds (sent cs); next (with_out (at_text cs a') g) rest') ->
  rest' <> [] -> zlen (cs ++ ds) <= PRINTF_MAX_POSSIBLE_BUFFER_SIZE ->
  format_string_loop (S f) (37 :: c :: rest) (at_text cs a) =
    format_string_loop f (tail rest') (at_text (cs ++ ds) a').
Proof.
  intros E Hr H. cbn [format_string_loop]. change (negb (37 =? 37)) with false. cbv iota.
  cbn [advance_in_format_string]. rewrite E, (put_all_sent _ _ H). cbn. by destruct rest'.
Qed.

Lemma numeral_flags flags v : numeral BASE_DECIMAL flags v = numeral BASE_DECIMAL 0 v.
Proof.
  unfold numeral, BASE_DECIMAL. pose proof (lsb_digits_range 32 10 v ltac:(lia)) as R. apply Forall_rev in R.
  apply map_ext_in. intros d Hd. rewrite Forall_forall in R. specialize (R _ Hd).
  unfold digit_char. by rewrite (proj2 (Z.ltb_lt d 10)) by lia.
Qed.

Lemma numeral_u32 v : is_u32 v -> 0 < zlen (numeral BASE_DECIMAL 0 v) <= 10.
Proof.
  unfold zlen, BASE_DECIMAL, is_u32. intros H.
  pose proof (numeral_length 10 0 v 10 ltac:(lia) ltac:(change (10 ^ Z.of_nat 10) with 10000000000; lia) ltac:(lia)). lia.
Qed.

(** The decimal numeral of [v] with zeros in front up to [w] characters. *)
Definition zero_padded (w : nat) (v : Z) : list Z :=
  let cs := numeral BASE_DECIMAL 0 v in replicate (w - length cs) 48 ++ cs.

Lemma loop_u f rest cs x a :
  zlen cs + 10 <= PRINTF_MAX_POSSIBLE_BUFFER_SIZE ->
  format_string_loop (S f) (37 :: 117 :: rest) (at_text cs (VInt x :: a)) =
    format_string_loop f rest (at_text (cs ++ numeral BASE_DECIMAL 0 (u32 x)) a).
Proof.
  intros H. pose proof (numeral_u32 (u32 x) (u32_range x)).
  erewrite (loop_directive f 117 rest (117 :: rest)); [reflexivity| |done|rewrite zlen_app; lia].
  cbn -[print_integer put_all sent next]. by rewrite print_integer_field by first [done | apply u32_range].
Qed.

Lemma zero_padded_u32 w v : is_u32 v -> zlen (zero_padded w v) <= Z.max (Z.of_nat w) 10.
Proof.
  intros H. unfold zero_padded. pose proof (numeral_u32 v H). rewrite zlen_app.
  unfold zlen in *. rewrite length_replicate. lia.
Qed.

Lemma loop_0u f d rest cs x a :
  49 <= d <= 57 -> zlen cs + 10 <= PRINTF_MAX_POSSIBLE_BUFFER_SIZE ->
  format_string_loop (S f) (37 :: 48 :: d :: 117 :: rest) (at_text cs (VInt x :: a)) =
    format_string_loop f rest (at_text (cs ++ zero_padded (Z.to_nat (d - 48)) (u32 x)) a).
Proof.
  intros Hd H. pose proof (zero_padded_u32 (Z.to_nat (d - 48)) (u32 x) (u32_range x)).
  erewrite (loop_directive f 48 (d :: 117 :: rest) (117 :: rest)); [reflexivity| |done|rewrite zlen_app; lia].
  assert (d = 49 \/ d = 50 \/ d = 51 \/ d = 52 \/ d = 53 \/ d = 54 \/ d = 55 \/ d = 56 \/ d = 57) as Hc by lia.
  unfold zero_padded. rewrite <- (numeral_flags FLAGS_ZEROPAD). clear - Hc.
  destruct_or! Hc; subst d; cbn -[print_integer put_all sent next numeral];
    by rewrite print_integer_field by first [done | apply u32_range].
Qed.

(** [%d] of a number that is not negative. *)
Lemma loop_d f rest cs x a :
  0 <= x < 2147483648 -> zlen cs + 10 <= PRINTF_MAX_POSSIBLE_BUFFER_SIZE ->
  format_string_loop (S f) (37 :: 100 :: rest) (at_text cs (VInt x :: a)) =
    format_string_loop f rest (at_text (cs ++ numeral BASE_DECIMAL 0 x) a).
Proof.
  intros Hx H. pose proof (numeral_u32 x ltac:(unfold is_u32; lia)).
  erewrite (loop_directive f 100 rest (100 :: rest)); [reflexivity| |done|rewrite zlen_app; lia].
  rewrite <- (numeral_flags FLAGS_SIGNED).
  cbn -[print_integer put_all sent next i32 abs_for_printing Z.ltb].
  change (clear_flags (0 ||| FLAGS_SIGNED) FLAGS_HASH) with FLAGS_SIGNED.
  change (has FLAGS_SIGNED FLAGS_PRECISION) with false. cbv iota. change (has FLAGS_SIGNED FLAGS_SIGNED) with true.
  change (has FLAGS_SIGNED FLAGS_LONG_LONG) with false. change (has FLAGS_SIGNED FLAGS_LONG) with false.
  change (has FLAGS_SIGNED FLAGS_CHAR) with false. change (has FLAGS_SIGNED FLAGS_SHORT) with false. cbv iota.
  rewrite i32_small by lia. rewrite (proj2 (Z.ltb_ge x 0)) by lia.
  assert (abs_for_printing x = Ok x) as ->.
  { unfold abs_for_printing. destruct (Z.ltb_spec 0 x); [done|]. by replace x with 0 by lia. }
  cbn -[print_integer put_all sent next]. by rewrite print_integer_field by first [done | unfold is_u32; lia].
Qed.

Lemma put_string_put_all s flags p g :
  has flags FLAGS_PRECISION = false -> put_string s flags p g = put_all s g.
Proof.
  intros Hf. revert p g. induction s as [|c s IH]; intros p g; cbn; [done|]. rewrite Hf. cbn.
  destruct (putchar_via_gadget g c); cbn; auto.
Qed.

Lemma strnlen_nonneg s n : 0 <= strnlen_s_ s n.
Proof. revert n. induction s as [|c s IH]; cbn; intros n; [lia|]. destruct (n =? 0); [lia|]. specialize (IH (n - 1)). lia. Qed.

Lemma loop_s f rest cs s a :
  zlen (cs ++ s) <= PRINTF_MAX_POSSIBLE_BUFFER_SIZE ->
  format_string_loop (S f) (37 :: 115 :: rest) (at_text cs (VStr (Some s) :: a)) =
    format_string_loop f rest (at_text (cs ++ s) a).
Proof.
  intros H. erewrite (loop_directive f 115 rest (115 :: rest)); [reflexivity| |done|done].
  cbn -[put_string put_all sent next strnlen_s_ pad_spaces]. unfold pad_spaces.
  pose proof (strnlen_nonneg s PRINTF_MAX_POSSIBLE_BUFFER_SIZE).
  change (has 0 FLAGS_LEFT) with false. change (has 0 FLAGS_PRECISION) with false. cbn [negb].
  replace (Z.to_nat (0 - _)) with 0%nat by lia. cbn -[put_string put_all sent next].
  rewrite put_string_put_all by done. by destruct (put_all s (sent cs)).
Qed.

(** Text, a string and text. *)
Lemma prints_s p s q :
  Forall (fun c => c <> 37) p -> Forall (fun c => c <> 37) q ->
  zlen p + zlen s + zlen q <= PRINTF_MAX_POSSIBLE_BUFFER_SIZE ->
  prints (p ++ [37; 115] ++ q) [VStr (Some s)] (p ++ s ++ q).
Proof.
  intros Hp Hq Hl. pose proof (zlen_nonneg s). pose proof (zlen_nonneg q). unfold prints.
  replace (S (length (p ++ [37; 115] ++ q))) with (length p + S (length q + 2))%nat
    by (rewrite !length_app; cbn; lia).
  rewrite loop_text by (done || (change (zlen (@nil Z)) with 0; lia)). cbn [app].
  rewrite loop_s by (rewrite zlen_app; lia). rewrite <- (app_nil_r q) at 2.
  rewrite loop_text by (done || rewrite zlen_app; lia). cbn. by rewrite <- app_assoc.
Qed.

Lemma prints_text p :
  Forall (fun c => c <> 37) p -> zlen p <= PRINTF_MAX_POSSIBLE_BUFFER_SIZE -> prints p [] p.
Proof.
  intros Hp Hl. unfold prints. rewrite <- (app_nil_r p) at 2. replace (S (length p)) with (length p + 1)%nat by lia.
  by rewrite loop_text by (done || (change (zlen (@nil Z)) with 0; lia)).
Qed.

(** [snprintf] into an array leaves the text of the format, cut to the size. *)
Lemma snprintf_prints b0 n fmt a cs :
  prints fmt a cs -> 0 < n <= PRINTF_MAX_POSSIBLE_BUFFER_SIZE -> n <= zlen b0 ->
  zlen cs < PRINTF_MAX_POSSIBLE_BUFFER_SIZE ->
  snprintf_ b0 n fmt a = Ok (zlen cs, printed (Z.to_nat n) cs b0).
Proof.
  intros Hp Hn Hb Hc. pose proof (snprintf_follows_fctprintf fmt a n b0 Hn Hb) as H.
  unfold vfctprintf, vsnprintf_impl in H. change function_gadget with (sent []) in H.
  unfold prints, at_text in Hp. rewrite Hp in H. cbn -[snprintf_] in H.
  destruct H as (b & E & _ & H). destruct (H Hc) as [Hr ->]. by rewrite E, Hr.
Qed.

(** The string at the start of an array, as a function that is passed the
    array reads it: up to the NUL, which must be inside the array. *)
Fixpoint cstr (b : list Z) : result (list Z) :=
  match b with
  | [] => Err OutOfBounds
  | c :: b => if c =? 0 then Ok [] else s ← cstr b; Ok (c :: s)
  end.

Lemma cstr_app cs b : Forall (fun c => c <> 0) cs -> cstr (cs ++ 0 :: b) = Ok cs.
Proof.
  induction 1 as [|c cs Hc H IH]; cbn; [done|]. rewrite (proj2 (Z.eqb_neq c 0) Hc). by rewrite IH.
Qed.

Lemma cstr_printed n cs b0 :
  Forall (fun c => c <> 0) cs -> cstr (printed n cs b0) = Ok (take (n - 1) cs).
Proof. intros H. unfold printed. by apply cstr_app, Forall_take. Qed.

Lemma length_printed n cs b0 : (0 < n <= length b0)%nat -> length (printed n cs b0) = length b0.
Proof. intros H. unfold printed. rewrite length_app, length_take. cbn. rewrite length_drop. lia. Qed.

(** Digits are not the NUL. *)
Lemma numeral_nonzero v : Forall (fun c => c <> 0) (numeral BASE_DECIMAL 0 v).
Proof.
  unfold numeral, BASE_DECIMAL. pose proof (lsb_digits_range 32 10 v ltac:(lia)) as R. apply Forall_rev in R.
  apply Forall_map. revert R. apply Forall_impl. intros d Hd. unfold digit_char.
  rewrite (proj2 (Z.ltb_lt d 10)) by lia. word_lia.
Qed.

Lemma zero_padded_nonzero w v : Forall (fun c => c <> 0) (zero_padded w v).
Proof. apply Forall_app. split; [by apply Forall_replicate|apply numeral_nonzero]. Qed.

(** The text of a string constant has no NUL. *)
Ltac nonzero :=
  rewrite ?Forall_app; split_and?; auto using numeral_nonzero, zero_padded_nonzero;
  try (repeat constructor; discriminate).

(** The text so far is far from the limit of the gadget. *)
Ltac room :=
  unfold PRINTF_MAX_POSSIBLE_BUFFER_SIZE; rewrite ?zlen_app, ?zlen_cons; change (zlen (@nil Z)) with 0; lia.
