(* ===== verification/FloatPrintf.v ===== *)
(** * Formatted floating-point output (firmware/src/printf/printf.c)

    The conversions [%f], [%e] and [%g]: the firmware's Makefile leaves them
    out of the build, and they are modelled as they are configured by
    default, with both kinds of specifiers and four terms of the logarithm.
    [double] is binary64, [int] 32 bits wide. *)

From Stdlib Require Import SpecFloat.
From S2P Require Import Prelude Float Printf.

Definition PRINTF_DECIMAL_BUFFER_SIZE : Z := 32.
Definition PRINTF_DEFAULT_FLOAT_PRECISION : Z := 6.
Definition FLAGS_ADAPT_EXP : Z := 1 <<< 12.
Definition NUM_DECIMAL_DIGITS_IN_INT64_T : Z := 18.
Definition PRINTF_MAX_SUPPORTED_PRECISION : Z := NUM_DECIMAL_DIGITS_IN_INT64_T - 1.
Definition PRINTF_MAX_PRECOMPUTED_POWER_OF_10 : Z := NUM_DECIMAL_DIGITS_IN_INT64_T.

(** ** Numbers and their bits *)

(** A decimal literal [n / d], rounded once. *)
Definition literal (n d : positive) : float := SFdiv 53 1024 (S754_finite false n 0) (S754_finite false d 0).

Definition fneg (f : float) : float := SFopp f.
Definition dmul := fmul F64.
Definition ddiv := fdiv F64.
Definition dadd := fadd F64.
Definition dsub := fsub F64.
Definition dZ := of_Z F64.
Definition half_ : float := literal 1 2.

Definition DOUBLE_STORED_MANTISSA_BITS : Z := 52.
Definition DOUBLE_BASE_EXPONENT : Z := 1023.
Definition DOUBLE_EXPONENT_MASK : Z := 2047.
Definition DOUBLE_MAX_SUBNORMAL_EXPONENT_OF_10 : Z := -308.
Definition DOUBLE_MAX_SUBNORMAL_POWER_OF_10 : float := literal 1 (Z.to_pos (10 ^ 308)).
Definition DBL_MAX_10_EXP : Z := 308.
Definition DBL_MAX : float := S754_finite false 9007199254740991 971.
Definition PRINTF_FLOAT_NOTATION_THRESHOLD : float := dZ (10 ^ 9).

(** [get_bit_access(x).U]: sign, exponent and the stored bits of the mantissa. *)
Definition get_bit_access (x : float) : Z :=
  let sign (s : bool) := if s then 2 ^ 63 else 0 in
  match x with
  | S754_zero s => sign s
  | S754_infinity s => sign s + 2047 * 2 ^ 52
  | S754_nan => 2047 * 2 ^ 52 + 2 ^ 51
  | S754_finite s m e => sign s + (if Zpos m <? 2 ^ 52 then Zpos m else (e + 1075) * 2 ^ 52 + (Zpos m - 2 ^ 52))
  end.

(** The member [F] of the union once [U] is set. *)
Definition of_bits (u : Z) : float :=
  let s := Z.testbit u 63 in
  let e := (u >>> 52) &&& 2047 in
  let m := u mod 2 ^ 52 in
  if e =? 0 then if m =? 0 then S754_zero s else S754_finite s (Z.to_pos m) (-1074)
  else if e =? 2047 then if m =? 0 then S754_infinity s else S754_nan
  else S754_finite s (Z.to_pos (m + 2 ^ 52)) (e - 1075).

Definition get_sign_bit (x : float) : bool := negb (get_bit_access x >>> 63 =? 0).
Definition get_exp2 (u : Z) : Z := ((u >>> DOUBLE_STORED_MANTISSA_BITS) &&& DOUBLE_EXPONENT_MASK) - DOUBLE_BASE_EXPONENT.
Definition PRINTF_ABS (x : Z) : Z := if 0 <? x then x else - x.

(** [int_fast64_t]: conversion from [double], and the result of a sum. *)
Definition to_i64 (f : float) : result Z :=
  match trunc f with
  | Some z => if (- 2 ^ 63 <=? z) && (z <? 2 ^ 63) then Ok z else Err BadConversion
  | None => Err BadConversion
  end.
Definition incr64 (z : Z) : result Z := if z + 1 <? 2 ^ 63 then Ok (z + 1) else Err SignedOverflow.

Definition powers_of_10 : list float := map (fun i => dZ (10 ^ i)) (seqZ 0 18).

(** ** Breaking up a number *)

Record double_components : Type := mkComponents {
  integral : Z;
  fractional : Z;
  is_negative : bool
}.

Definition get_components (number : float) (precision : Z) : result double_components :=
  let is_negative := get_sign_bit number in
  let abs_number := if is_negative then fneg number else number in
  integral ← to_i64 abs_number;
  power ← aget powers_of_10 precision;
  let remainder := dmul (dsub abs_number (dZ integral)) power in
  fractional ← to_i64 remainder;
  let remainder := dsub remainder (dZ fractional) in
  '(integral, fractional) ←
    (if flt half_ remainder then
       fractional ← incr64 fractional;
       if fle power (dZ fractional) then integral ← incr64 integral; Ok (integral, 0)
       else Ok (integral, fractional)
     else if SFeqb remainder half_ && ((fractional =? 0) || Z.odd fractional)
          then fractional ← incr64 fractional; Ok (integral, fractional)
          else Ok (integral, fractional));
  integral ←
    (if precision =? 0 then
       let remainder := dsub abs_number (dZ integral) in
       if (negb (flt remainder half_) || flt half_ remainder) && Z.odd integral then incr64 integral else Ok integral
     else Ok integral);
  Ok {| integral := integral; fractional := fractional; is_negative := is_negative |}.

Record scaling_factor : Type := mkScaling { raw_factor : float; multiply : bool }.

Definition apply_scaling (num : float) (normalization : scaling_factor) : float :=
  if multiply normalization then dmul num (raw_factor normalization) else ddiv num (raw_factor normalization).

Definition unapply_scaling (normalized : float) (normalization : scaling_factor) : float :=
  if multiply normalization then ddiv normalized (raw_factor normalization)
  else dmul normalized (raw_factor normalization).

Definition update_normalization (sf : scaling_factor) (extra_multiplicative_factor : float) : scaling_factor :=
  if multiply sf then {| multiply := true; raw_factor := dmul (raw_factor sf) extra_multiplicative_factor |}
  else
    let factor_exp2 := get_exp2 (get_bit_access (raw_factor sf)) in
    let extra_factor_exp2 := get_exp2 (get_bit_access extra_multiplicative_factor) in
    if PRINTF_ABS extra_factor_exp2 <? PRINTF_ABS factor_exp2
    then {| multiply := false; raw_factor := ddiv (raw_factor sf) extra_multiplicative_factor |}
    else {| multiply := true; raw_factor := ddiv extra_multiplicative_factor (raw_factor sf) |}.

Definition get_normalized_components (negative : bool) (precision : Z) (non_normalized : float)
    (normalization : scaling_factor) (floored_exp10 : Z) : result double_components :=
  let scaled := apply_scaling non_normalized normalization in
  if DBL_MAX_10_EXP - 1 <=? - floored_exp10 + i32 precision
  then get_components (if negative then fneg scaled else scaled) precision
  else
    integral ← to_i64 scaled;
    let remainder := dsub non_normalized (unapply_scaling (dZ integral) normalization) in
    prec_power_of_10 ← aget powers_of_10 precision;
    let account_for_precision := update_normalization normalization prec_power_of_10 in
    let scaled_remainder := apply_scaling remainder account_for_precision in
    let rounding_threshold := half_ in
    fractional ← to_i64 scaled_remainder;
    let scaled_remainder := dsub scaled_remainder (dZ fractional) in
    fractional ← (if fle rounding_threshold scaled_remainder then incr64 fractional else Ok fractional);
    let fractional := if SFeqb scaled_remainder rounding_threshold then Z.ldiff fractional 1 else fractional in
    if fle prec_power_of_10 (dZ fractional)
    then integral ← incr64 integral; Ok {| integral := integral; fractional := 0; is_negative := negative |}
    else Ok {| integral := integral; fractional := fractional; is_negative := negative |}.

(** ** Printing the parts *)

(** [buf[len++] = c] and the loops that end when the buffer is full. *)
Definition dpush (buf : list Z) (c : Z) : result (list Z) :=
  if zlen buf <? PRINTF_DECIMAL_BUFFER_SIZE then Ok (buf ++ [c]) else Err OutOfBounds.
Definition room (buf : list Z) : bool := zlen buf <? PRINTF_DECIMAL_BUFFER_SIZE.

(** The fraction is signed, and rounding errors can make it negative
    ([get_normalized_components]): C's [%] and [/] truncate.

    [while(true)] over the trailing zeros: [count] and the fraction. *)
Fixpoint skip_zeros (fuel : nat) (count fractional : Z) : result (Z * Z) :=
  match fuel with
  | O => Err Hang
  | S fuel =>
      if negb (Z.rem fractional 10 =? 0) then Ok (count, fractional)
      else skip_zeros fuel (u32 (count - 1)) (Z.quot fractional 10)
  end.

(** [while (len < PRINTF_DECIMAL_BUFFER_SIZE)]: the digits of the fraction. *)
Fixpoint frac_digits (fuel : nat) (count fractional : Z) (buf : list Z) : result (Z * list Z) :=
  match fuel with
  | O => Err Hang
  | S fuel =>
      if room buf then
        let count := u32 (count - 1) in
        buf ← dpush buf (i8 (48 + Z.rem fractional 10));
        if Z.quot fractional 10 =? 0 then Ok (count, buf) else frac_digits fuel count (Z.quot fractional 10) buf
      else Ok (count, buf)
  end.

Fixpoint extra_zeros (fuel : nat) (count : Z) (buf : list Z) : result (list Z) :=
  match fuel with
  | O => Err Hang
  | S fuel =>
      if room buf && (0 <? count) then buf ← dpush buf 48; extra_zeros fuel (u32 (count - 1)) buf else Ok buf
  end.

(** The integral part. *)
Fixpoint int_digits (fuel : nat) (integral : Z) (buf : list Z) : result (list Z) :=
  match fuel with
  | O => Err Hang
  | S fuel =>
      if room buf then
        buf ← dpush buf (i8 (48 + Z.rem integral 10));
        if Z.quot integral 10 =? 0 then Ok buf else int_digits fuel (Z.quot integral 10) buf
      else Ok buf
  end.

(** [while ((len < width) && (len < PRINTF_DECIMAL_BUFFER_SIZE))] *)
Fixpoint width_zeros (fuel : nat) (width : Z) (buf : list Z) : result (list Z) :=
  match fuel with
  | O => Err Hang
  | S fuel => if (zlen buf <? width) && room buf then buf ← dpush buf 48; width_zeros fuel width buf else Ok buf
  end.

Definition print_fraction (number_ : double_components) (precision flags : Z) (buf : list Z) : result (list Z) :=
  if negb (precision =? 0) then
    '(count, fractional) ←
      (if has flags FLAGS_ADAPT_EXP && negb (has flags FLAGS_HASH) && (0 <? fractional number_)
       then skip_zeros 20 precision (fractional number_) else Ok (precision, fractional number_));
    if (0 <? fractional) || negb (has flags FLAGS_ADAPT_EXP) || has flags FLAGS_HASH then
      '(count, buf) ← frac_digits 33 count fractional buf;
      buf ← extra_zeros 33 count buf;
      if room buf then dpush buf 46 else Ok buf
    else Ok buf
  else if has flags FLAGS_HASH && room buf then dpush buf 46 else Ok buf.

Definition print_broken_up_decimal (number_ : double_components) (output : output_gadget_t)
    (precision width flags : Z) (buf : list Z) : result output_gadget_t :=
  buf ← print_fraction number_ precision flags buf;
  buf ← int_digits 33 (integral number_) buf;
  let pad := negb (has flags FLAGS_LEFT) && has flags FLAGS_ZEROPAD in
  let width := if pad && (negb (width =? 0) && (is_negative number_ || has flags (FLAGS_PLUS ||| FLAGS_SPACE)))
               then width - 1 else width in
  buf ← (if pad then width_zeros 33 width buf else Ok buf);
  buf ← (if room buf then
           if is_negative number_ then dpush buf 45
           else if has flags FLAGS_PLUS then dpush buf 43
           else if has flags FLAGS_SPACE then dpush buf 32
           else Ok buf
         else Ok buf);
  out_rev_ output buf width flags.

Definition print_decimal_number (output : output_gadget_t) (number : float) (precision width flags : Z) (buf : list Z)
    : result output_gadget_t :=
  value_ ← get_components number precision;
  print_broken_up_decimal value_ output precision width flags buf.

(** ** The exponent *)

Definition bastardized_floor (x : float) : result Z :=
  if fle (dZ 0) x then to_int x
  else n ← to_int x; Ok (if SFeqb (dZ n) x then n else n - 1).

Definition log10_of_positive (positive_number : float) : float :=
  let u := get_bit_access positive_number in
  let exp2 := get_exp2 u in
  let m := of_bits ((u mod 2 ^ 52) ||| (DOUBLE_BASE_EXPONENT <<< DOUBLE_STORED_MANTISSA_BITS)) in
  let z := dsub m (literal 3 2) in
  dadd (dadd (dsub (dadd (literal 1760912590556812420 (10 ^ 19))
                         (dmul z (literal 2895296546021678851 (10 ^ 19))))
                   (dmul (dmul z z) (literal 965098848673892950 (10 ^ 19))))
             (dmul (dmul (dmul z z) z) (literal 428932821632841311 (10 ^ 19))))
       (dmul (dZ exp2) (literal 30102999566398119521 (10 ^ 20))).

Definition pow10_of_int (floored_exp10 : Z) : result float :=
  if floored_exp10 =? DOUBLE_MAX_SUBNORMAL_EXPONENT_OF_10 then Ok DOUBLE_MAX_SUBNORMAL_POWER_OF_10
  else
    exp2 ← bastardized_floor (dadd (dmul (dZ floored_exp10) (literal 3321928094887362 (10 ^ 15))) half_);
    let z := dsub (dmul (dZ floored_exp10) (literal 2302585092994046 (10 ^ 15)))
                  (dmul (dZ exp2) (literal 6931471805599453 (10 ^ 16))) in
    let z2 := dmul z z in
    let p := of_bits ((((exp2 + DOUBLE_BASE_EXPONENT) mod 2 ^ 64) <<< DOUBLE_STORED_MANTISSA_BITS) mod 2 ^ 64) in
    let fraction := dadd (dsub (dZ 2) z)
                         (ddiv z2 (dadd (dZ 6) (ddiv z2 (dadd (dZ 10) (ddiv z2 (dZ 14)))))) in
    Ok (dmul p (dadd (dZ 1) (ddiv (dmul (dZ 2) z) fraction))).

(** "Determine the decimal exponent": the exponent and the normalization,
    which has no factor for zero, where it is not used. *)
Definition decimal_exponent (abs_number : float) : result (Z * scaling_factor) :=
  if SFeqb abs_number (dZ 0) then Ok (0, {| raw_factor := S754_nan; multiply := false |})
  else
    floored_exp10 ← bastardized_floor (log10_of_positive abs_number);
    p10 ← pow10_of_int floored_exp10;
    let '(floored_exp10, p10) :=
      if flt abs_number p10 then (floored_exp10 - 1, ddiv p10 (dZ 10)) else (floored_exp10, p10) in
    let covered := PRINTF_ABS floored_exp10 <? PRINTF_MAX_PRECOMPUTED_POWER_OF_10 in
    raw_factor ← (if covered then aget powers_of_10 (PRINTF_ABS floored_exp10) else Ok p10);
    Ok (floored_exp10, {| raw_factor := raw_factor; multiply := (floored_exp10 <? 0) && covered |}).

(** "Account for roll-over": the components, the exponent and the precision. *)
Definition exponent_rollover (fall_back : bool) (c : double_components) (floored_exp10 precision flags : Z)
    : result (double_components * Z * Z) :=
  if fall_back then
    if has flags FLAGS_ADAPT_EXP && (-1 <=? floored_exp10) then
      p ← aget powers_of_10 (floored_exp10 + 1);
      if SFeqb (dZ (integral c)) p then Ok (c, floored_exp10 + 1, u32 (precision - 1)) else Ok (c, floored_exp10, precision)
    else Ok (c, floored_exp10, precision)
  else if 10 <=? integral c
       then Ok ({| integral := 1; fractional := 0; is_negative := is_negative c |}, floored_exp10 + 1, precision)
       else Ok (c, floored_exp10, precision).

Definition print_exponential_number (output : output_gadget_t) (number : float) (precision width flags : Z) (buf : list Z)
    : result output_gadget_t :=
  let negative := get_sign_bit number in
  let abs_number := if negative then fneg number else number in
  '(floored_exp10, normalization) ← decimal_exponent abs_number;
  let adapt := has flags FLAGS_ADAPT_EXP in
  let required_significant_digits := if precision =? 0 then 1 else i32 precision in
  let fall_back := adapt && ((-4 <=? floored_exp10) && (floored_exp10 <? required_significant_digits)) in
  let precision_ := if fall_back then i32 precision - 1 - floored_exp10 else i32 precision - 1 in
  let precision := if adapt then (if 0 <? precision_ then u32 precision_ else 0) else precision in
  let flags := if adapt then flags ||| FLAGS_PRECISION else flags in
  components ← (if fall_back || (floored_exp10 =? 0)
                then get_components (if negative then fneg abs_number else abs_number) precision
                else get_normalized_components negative precision abs_number normalization floored_exp10);
  '(components, floored_exp10, precision) ← exponent_rollover fall_back components floored_exp10 precision flags;
  let exp10_part_width := if fall_back then 0 else if PRINTF_ABS floored_exp10 <? 100 then 4 else 5 in
  let decimal_part_width :=
    if has flags FLAGS_LEFT && negb (exp10_part_width =? 0) then 0
    else if exp10_part_width <? width then width - exp10_part_width else 0 in
  let printed_exponential_start_pos := pos output in
  output ← print_broken_up_decimal components output precision decimal_part_width flags buf;
  if negb fall_back then
    output ← putchar_via_gadget output (if has flags FLAGS_UPPERCASE then 69 else 101);
    magnitude ← abs_for_printing floored_exp10;
    output ← print_integer output magnitude (floored_exp10 <? 0) 10 0 (exp10_part_width - 1) (FLAGS_ZEROPAD ||| FLAGS_PLUS);
    if has flags FLAGS_LEFT then left_pad (S (Z.to_nat width)) printed_exponential_start_pos width output else Ok output
  else Ok output.

(** ** A value *)

(** [buf[len++] = '0'] while the precision is more than supported. *)
Fixpoint limit_precision (fuel : nat) (precision : Z) (buf : list Z) : result (Z * list Z) :=
  match fuel with
  | O => Err Hang
  | S fuel =>
      if room buf && (PRINTF_MAX_SUPPORTED_PRECISION <? precision)
      then buf ← dpush buf 48; limit_precision fuel (precision - 1) buf
      else Ok (precision, buf)
  end.

Definition print_floating_point (output : output_gadget_t) (value : float) (precision width flags : Z)
    (prefer_exponential : bool) : result output_gadget_t :=
  if negb (SFeqb value value) then out_rev_ output [110; 97; 110] width flags
  else if flt value (fneg DBL_MAX) then out_rev_ output [102; 110; 105; 45] width flags
  else if flt DBL_MAX value then
    out_rev_ output (if has flags FLAGS_PLUS then [102; 110; 105; 43] else [102; 110; 105]) width flags
  else if negb prefer_exponential
          && (flt PRINTF_FLOAT_NOTATION_THRESHOLD value || flt value (fneg PRINTF_FLOAT_NOTATION_THRESHOLD))
  then print_exponential_number output value precision width flags []
  else
    let precision := if has flags FLAGS_PRECISION then precision else PRINTF_DEFAULT_FLOAT_PRECISION in
    '(precision, buf) ← limit_precision 33 precision [];
    if prefer_exponential then print_exponential_number output value precision width flags buf
    else print_decimal_number output value precision width flags buf.

(** The cases [f F e E g G] of the format loop. *)
Definition spec_floating (c flags width precision : Z) (value : float) (output : output_gadget_t) : result output_gadget_t :=
  if (c =? 102) || (c =? 70) then
    print_floating_point output value precision width (if c =? 70 then flags ||| FLAGS_UPPERCASE else flags) false
  else
    let flags := if (c =? 103) || (c =? 71) then flags ||| FLAGS_ADAPT_EXP else flags in
    let flags := if (c =? 69) || (c =? 71) then flags ||| FLAGS_UPPERCASE else flags in
    print_floating_point output value precision width flags true.
