(* ===== verification/FloatPrintfProps.v ===== *)
(** * What the floating-point conversions print

    The text made of the two parts of a number, the parts of the numbers
    whose fraction is exact, and that [%f] prints these correctly rounded;
    the special values; and the defects of the routines. *)

From Stdlib Require Import SpecFloat.
From S2P Require Import Prelude Float FloatExact Printf PrintfProps Numerals Formats FloatPrintf.

(** ** The loops *)

Definition dchar (d : Z) : Z := i8 (48 + d).

Lemma zlen_snoc {A} (l : list A) x : zlen (l ++ [x]) = zlen l + 1.
Proof. apply zlen_app. Qed.

Lemma dpush_room buf c : zlen buf < 32 -> dpush buf c = Ok (buf ++ [c]).
Proof. intros H. unfold dpush, PRINTF_DECIMAL_BUFFER_SIZE. by rewrite (proj2 (Z.ltb_lt _ _)). Qed.

Lemma room_true buf : zlen buf < 32 -> room buf = true.
Proof. intros H. by apply Z.ltb_lt. Qed.

Lemma div10_bound n v : 0 <= v < 10 ^ Z.of_nat (S n) -> 0 <= v / 10 < 10 ^ Z.of_nat n.
Proof.
  rewrite Nat2Z.inj_succ, Z.pow_succ_r by lia. intros H. split; [apply Z.div_pos; lia|apply Z.div_lt_upper_bound; lia].
Qed.

Lemma lsb_zero n : lsb_digits (S n) 10 0 = [0].
Proof. done. Qed.

Lemma frac_digits_spec n : forall fuel count v buf,
  0 <= v < 10 ^ Z.of_nat n -> (0 < n)%nat -> (n <= fuel)%nat -> zlen buf + Z.of_nat n <= 32 -> Z.of_nat n <= count < 2 ^ 32 ->
  frac_digits fuel count v buf = Ok (count - zlen (lsb_digits n 10 v), buf ++ map dchar (lsb_digits n 10 v)).
Proof.
  induction n as [|n IH]; intros fuel count v buf Hv H0 Hf Hb Hc; [lia|]. destruct fuel as [|fuel]; [lia|].
  cbn [frac_digits lsb_digits]. rewrite Z.rem_mod_nonneg, Z.quot_div_nonneg, room_true, dpush_room by lia. cbn [mbind result_bind]. rewrite u32_small by (unfold is_u32; lia).
  destruct (Z.eqb_spec (v / 10) 0) as [E|E]; [done|]. pose proof (div10_bound n v Hv).
  destruct n as [|n]; [cbn in *; lia|]. rewrite IH; [|lia..|rewrite zlen_snoc; lia|lia]. rewrite <- app_assoc. do 2 f_equal. unfold zlen. cbn [length]. lia.
Qed.

Lemma int_digits_spec n : forall fuel v buf,
  0 <= v < 10 ^ Z.of_nat n -> (0 < n)%nat -> (n <= fuel)%nat -> zlen buf + Z.of_nat n <= 32 ->
  int_digits fuel v buf = Ok (buf ++ map dchar (lsb_digits n 10 v)).
Proof.
  induction n as [|n IH]; intros fuel v buf Hv H0 Hf Hb; [lia|]. destruct fuel as [|fuel]; [lia|].
  cbn [int_digits lsb_digits]. rewrite Z.rem_mod_nonneg, Z.quot_div_nonneg, room_true, dpush_room by lia. cbn [mbind result_bind].
  destruct (Z.eqb_spec (v / 10) 0) as [E|E]; [done|]. pose proof (div10_bound n v Hv).
  destruct n as [|n]; [cbn in *; lia|]. rewrite IH; [|lia..|rewrite zlen_snoc; lia]. by rewrite <- app_assoc.
Qed.

Lemma extra_zeros_spec n : forall fuel buf,
  (n < fuel)%nat -> zlen buf + Z.of_nat n <= 32 -> extra_zeros fuel (Z.of_nat n) buf = Ok (buf ++ replicate n 48).
Proof.
  induction n as [|n IH]; intros fuel buf Hf Hb; (destruct fuel as [|fuel]; [lia|]); cbn [extra_zeros].
  - rewrite andb_false_r. by rewrite app_nil_r.
  - rewrite room_true, dpush_room by lia. cbn [andb mbind result_bind]. rewrite (proj2 (Z.ltb_lt 0 _)) by lia.
    rewrite u32_small by (unfold is_u32, zlen in *; lia). replace (Z.of_nat (S n) - 1) with (Z.of_nat n) by lia.
    rewrite IH by (rewrite ?zlen_snoc; lia). by rewrite <- app_assoc.
Qed.

Lemma width_zeros_pad fuel w buf : width_zeros fuel w buf = pad_zeros fuel w buf.
Proof. revert buf. induction fuel as [|fuel IH]; intros buf; [done|]. cbn. destruct (_ && _); [|done]. unfold dpush, push. destruct (_ <? _); [apply IH|done]. Qed.

(** What follows the digits is what follows those of an integer. *)
Lemma tail_is_finalization g (negative : bool) (buf : list Z) w flags :
  plain flags = true ->
  (let pad := negb (has flags FLAGS_LEFT) && has flags FLAGS_ZEROPAD in
   let width := if pad && (negb (w =? 0) && (negative || has flags (FLAGS_PLUS ||| FLAGS_SPACE))) then w - 1 else w in
   buf ← (if pad then width_zeros 33 width buf else Ok buf);
   buf ← (if room buf then
            if negative then dpush buf 45
            else if has flags FLAGS_PLUS then dpush buf 43
            else if has flags FLAGS_SPACE then dpush buf 32
            else Ok buf
          else Ok buf);
   out_rev_ g buf width flags) = print_integer_finalization g buf negative 10 0 w flags.
Proof.
  intros Hf. destruct (plain_flags _ Hf) as (F1 & F2 & F3 & F4 & F5). unfold print_integer_finalization. cbv zeta. change (10 =? BASE_OCTAL) with false.
  cbn [andb]. rewrite F2, F3, F4, F5.
  assert (forall b, pad_zeros 33 0 b = Ok b) as P by (intros b; cbn; by rewrite (proj2 (Z.ltb_ge (zlen b) 0)) by (unfold zlen; lia)).
  rewrite width_zeros_pad.
  replace (negb (has flags FLAGS_LEFT) && has flags FLAGS_ZEROPAD && (negb (w =? 0) && (negative || false)))
    with (negb (has flags FLAGS_LEFT) && negb (w =? 0) && has flags FLAGS_ZEROPAD && (negative || false))
    by (destruct (has flags FLAGS_LEFT), (has flags FLAGS_ZEROPAD), (w =? 0), negative; done).
  set (width := if _ && _ && _ && _ then w - 1 else w).
  destruct (if negb (has flags FLAGS_LEFT) && has flags FLAGS_ZEROPAD then pad_zeros 33 width buf else Ok buf) as [b|]; [|done].
  cbn [mbind result_bind]. rewrite P. cbn [mbind result_bind]. destruct negative; [|by destruct (room b)].
  unfold push_if_room, room, dpush, push, PRINTF_DECIMAL_BUFFER_SIZE, PRINTF_INTEGER_BUFFER_SIZE. by destruct (zlen b <? 32).
Qed.

(** ** Digits *)

Lemma lsb_value10 n v : 0 <= v < 10 ^ Z.of_nat n -> (0 < n)%nat -> horner 10 0 (rev (lsb_digits n 10 v)) = v.
Proof.
  revert v. induction n as [|n IH]; intros v Hv Hn; [lia|]. cbn [lsb_digits rev]. rewrite horner_app. cbn [horner].
  pose proof (Z_div_mod_eq_full v 10). pose proof (div10_bound n v Hv).
  destruct (Z.eqb_spec (v / 10) 0) as [E|E]; [cbn [rev horner]; lia|]. rewrite IH; [lia|lia|]. destruct n; [cbn in *; lia|lia].
Qed.

(** [n] digits of [v], least significant first. *)
Definition fixed (n : nat) (v : Z) : list Z := lsb_digits n 10 v ++ replicate (n - length (lsb_digits n 10 v)) 0.

Lemma fixed_length n v : 0 <= v < 10 ^ Z.of_nat n -> (0 < n)%nat -> length (fixed n v) = n.
Proof. intros Hv Hn. unfold fixed. rewrite length_app, length_replicate. pose proof (lsb_digits_length n 10 v n ltac:(lia) Hv Hn). lia. Qed.

Lemma fixed_value n v : 0 <= v < 10 ^ Z.of_nat n -> (0 < n)%nat -> horner 10 0 (rev (fixed n v)) = v.
Proof. intros Hv Hn. unfold fixed. rewrite rev_app_distr, rev_replicate, horner_zeros. by apply lsb_value10. Qed.

Lemma fixed_range n v : Forall (fun d => 0 <= d < 10) (fixed n v).
Proof. apply Forall_app_2; [apply lsb_digits_range; lia|]. apply Forall_replicate. lia. Qed.

(** ** The text of the two parts *)

Definition decimal_digits (precision : nat) (c : double_components) : list Z * list Z :=
  (rev (lsb_digits 10 10 (integral c)), rev (fixed precision (fractional c))).

Definition decimal_text (ds : list Z * list Z) : list Z := map dchar ds.1 ++ 46 :: map dchar ds.2.

Lemma broken_up_text g c n w flags :
  (1 <= n <= 17)%nat -> 0 <= fractional c < 10 ^ Z.of_nat n -> 0 <= integral c < 10 ^ 10 ->
  plain flags = true -> has flags FLAGS_ADAPT_EXP = false -> is_u32 w -> (has flags FLAGS_ZEROPAD = true -> w <= 32) ->
  print_broken_up_decimal c g (Z.of_nat n) w flags [] = put_all (field (is_negative c) w flags (decimal_text (decimal_digits n c))) g.
Proof.
  intros Hn Hf Hi Hp Ha Hw Hz. pose proof (lsb_digits_length n 10 _ n ltac:(lia) Hf ltac:(lia)) as L1.
  pose proof (lsb_digits_length 10 10 _ 10 ltac:(lia) Hi ltac:(lia)) as L2.
  unfold print_broken_up_decimal, print_fraction. rewrite Ha, (proj2 (Z.eqb_neq (Z.of_nat n) 0)) by lia. cbn [negb andb mbind result_bind].
  rewrite orb_true_r. cbn [orb]. rewrite (frac_digits_spec n) by (unfold zlen; cbn; lia). cbn [mbind result_bind app].
  replace (Z.of_nat n - zlen (lsb_digits n 10 (fractional c))) with (Z.of_nat (n - length (lsb_digits n 10 (fractional c)))) by (unfold zlen; lia).
  rewrite extra_zeros_spec by (unfold zlen; rewrite ?length_map; lia). cbn [mbind result_bind].
  set (buf := map dchar (lsb_digits n 10 (fractional c)) ++ _).
  assert (buf = map dchar (fixed n (fractional c))) as -> by (unfold buf, fixed; by rewrite map_app, (fmap_replicate dchar)).
  assert (zlen (map dchar (fixed n (fractional c))) = Z.of_nat n) as L by (unfold zlen; rewrite length_map, fixed_length; lia).
  rewrite room_true, dpush_room by lia. cbn [mbind result_bind]. rewrite (int_digits_spec 10) by (rewrite ?zlen_snoc; cbn; lia || done).
  cbn [mbind result_bind]. rewrite tail_is_finalization by done. rewrite finalization_field; [|done..|].
  - unfold decimal_text, decimal_digits. cbn [fst snd]. by rewrite !rev_app_distr, <- !map_rev.
  - rewrite zlen_app, zlen_snoc, L. unfold zlen. rewrite length_map. destruct (is_negative c); lia.
Qed.

(** ** Numbers with an exact fraction *)

Lemma power_lookup p : 0 <= p < 18 -> aget powers_of_10 p = Ok (dZ (10 ^ p)).
Proof.
  intros Hp. unfold aget. rewrite (proj2 (Z.ltb_ge p 0)) by lia. unfold powers_of_10. rewrite list_lookup_fmap.
  rewrite (lookup_seqZ_lt 0 18 (Z.to_nat p)) by lia. cbn. do 3 f_equal. lia.
Qed.

Lemma half_fl : half_ = fl false 1 (-1).
Proof. reflexivity. Qed.

Lemma compare_swap x y : SFcompare y x = option_map CompOpp (SFcompare x y).
Proof.
  destruct x as [[]|[]| |[] m e], y as [[]|[]| |[] m' e']; try done; cbn [SFcompare option_map]; f_equal; rewrite (Z.compare_antisym e e');
    destruct (e ?= e'); try done; cbn [CompOpp]; change (Pos.compare_cont Eq ?u ?v) with (u ?= v)%positive; rewrite ?(Pos.compare_antisym m m'), ?CompOpp_involutive; done.
Qed.

Section exact.
Context (j : Z) (Hj : 0 <= j <= 1000).

Lemma normal_small M : 0 < M < 2 ^ 53 -> normal M (- j).
Proof. intros H. pose proof (log2_small M H). pose proof (Z.log2_nonneg M). unfold normal. lia. Qed.

Lemma sign_fl s M : 0 < M < 2 ^ 53 -> get_sign_bit (fl s M (- j)) = s.
Proof.
  intros HM. pose proof (log2_small M HM) as HL. pose proof (Z.log2_nonneg M). unfold get_sign_bit, get_bit_access, fl. rewrite fl_mantissa by done.
  pose proof (Z.log2_spec M ltac:(lia)) as [L1 L2]. rewrite Z.pow_succ_r in L2 by lia.
  assert (2 ^ 52 <= M * 2 ^ (52 - Z.log2 M) < 2 ^ 53) as HB.
  { replace (2 ^ 52) with (2 ^ Z.log2 M * 2 ^ (52 - Z.log2 M)) by (rewrite <- Z.pow_add_r by lia; f_equal; lia).
    replace (2 ^ 53) with (2 * 2 ^ Z.log2 M * 2 ^ (52 - Z.log2 M)) by (rewrite <- Z.mul_assoc, <- Z.pow_add_r by lia; change 2 with (2 ^ 1) at 1; rewrite <- Z.pow_add_r by lia; f_equal; lia).
    assert (0 < 2 ^ (52 - Z.log2 M)) by (apply Z.pow_pos_nonneg; lia). nia. }
  rewrite (proj2 (Z.ltb_ge _ _)) by lia. set (m := M * 2 ^ (52 - Z.log2 M)) in *. rewrite Z.shiftr_div_pow2 by lia.
  assert (0 <= (Z.log2 M + - j - 52 + 1075) * 2 ^ 52 + (m - 2 ^ 52) < 2 ^ 63) as HX by lia.
  set (x := _ + (m - 2 ^ 52)) in *. destruct s.
  - rewrite <- (Z.mul_1_l (2 ^ 63)) at 1. rewrite Z.div_add_l, Z.div_small by lia. done.
  - rewrite Z.add_0_l, Z.div_small by lia. done.
Qed.

Lemma fl0_pos M : 0 < M -> fl0 M (- j) = fl false M (- j).
Proof. intros. unfold fl0. by rewrite (proj2 (Z.eqb_neq M 0)), (proj2 (Z.ltb_ge M 0)) by lia. Qed.

Lemma trunc_fl0 M : 0 <= M < 2 ^ 53 -> to_i64 (fl0 M (- j)) = Ok (M / 2 ^ j).
Proof.
  intros HM. assert (0 < 2 ^ j) by (apply Z.pow_pos_nonneg; lia).
  assert (0 <= M / 2 ^ j < 2 ^ 53) by (split; [apply Z.div_pos; lia|apply Z.div_lt_upper_bound; nia]).
  unfold to_i64. destruct (Z.eqb_spec M 0) as [->|Hne]; [cbn [fl0 Z.eqb trunc]; by rewrite Z.div_0_l by lia|].
  rewrite fl0_pos, trunc_fl by lia. rewrite (proj2 (Z.leb_le _ _)), (proj2 (Z.ltb_lt _ _)) by lia. done.
Qed.

Lemma sub_floor M : 0 <= M < 2 ^ 53 -> dsub (fl0 M (- j)) (dZ (M / 2 ^ j)) = fl0 (M mod 2 ^ j) (- j).
Proof.
  intros HM. assert (0 < 2 ^ j) as H2 by (apply Z.pow_pos_nonneg; lia). pose proof (Z_div_mod_eq_full M (2 ^ j)) as E. pose proof (Z.mod_pos_bound M (2 ^ j) H2).
  destruct (Z.eqb_spec M 0) as [->|Hne]; [by rewrite Z.div_0_l, Z.mod_0_l by lia|]. rewrite fl0_pos by lia.
  assert (0 <= M / 2 ^ j) by (apply Z.div_pos; lia). destruct (Z.eqb_spec (M / 2 ^ j) 0) as [EI|HI].
  - rewrite EI. replace (M mod 2 ^ j) with M by lia. by rewrite fl0_pos by lia.
  - unfold dZ. rewrite of_Z_fl by nia. rewrite <- (fl_shift false (M / 2 ^ j) 0 j) by lia. change (0 - j) with (- j).
    unfold dsub. rewrite sub_fl; [f_equal; lia|lia|nia|]. intros Hd. apply normal_small. lia.
Qed.

Lemma mul_power r p : 0 <= r -> 0 <= p < 18 -> r * 10 ^ p < 2 ^ 53 -> dmul (fl0 r (- j)) (dZ (10 ^ p)) = fl0 (r * 10 ^ p) (- j).
Proof.
  intros Hr Hp Hb. assert (0 < 10 ^ p) as H10 by (apply Z.pow_pos_nonneg; lia). destruct (Z.eqb_spec r 0) as [->|H0].
  - assert (p = 0 \/ p = 1 \/ p = 2 \/ p = 3 \/ p = 4 \/ p = 5 \/ p = 6 \/ p = 7 \/ p = 8 \/ p = 9 \/ p = 10 \/ p = 11 \/
      p = 12 \/ p = 13 \/ p = 14 \/ p = 15 \/ p = 16 \/ p = 17) as HP by lia.
    repeat destruct HP as [->|HP]; [vm_compute; reflexivity..|]. subst p. vm_compute. reflexivity.
  - rewrite !fl0_pos by nia. unfold dZ, dmul. rewrite of_Z_fl by nia. rewrite mul_fl; rewrite ?Z.add_0_r; try nia; try done. apply normal_small. nia.
Qed.

Lemma half_less t : 0 <= t < 2 ^ 53 -> t < 2 ^ j -> flt half_ (fl0 t (- j)) = (2 ^ j <? 2 * t) /\ SFeqb (fl0 t (- j)) half_ = (2 * t =? 2 ^ j).
Proof.
  intros Ht Hl. destruct (Z.eqb_spec t 0) as [->|H0].
  { assert (0 < 2 ^ j) by (apply Z.pow_pos_nonneg; lia). rewrite (proj2 (Z.ltb_ge _ _)), (proj2 (Z.eqb_neq _ _)) by lia. done. }
  assert (1 <= j) as Hj1 by (destruct (Z.eqb_spec j 0) as [E|]; [rewrite E in Hl; cbn in Hl; lia|lia]).
  assert (2 ^ j = 2 * 2 ^ (j - 1)) as E2 by (rewrite <- Z.pow_succ_r by lia; f_equal; lia). rewrite E2, fl0_pos, half_fl by lia.
  pose proof (compare_fl 1 t (- j) (-1) ltac:(lia) ltac:(lia) ltac:(lia)) as C. replace (-1 - - j) with (j - 1) in C by lia. rewrite Z.mul_1_l in C.
  unfold flt, SFltb, SFeqb. rewrite (compare_swap (fl false 1 (-1))), C. cbn [option_map]. set (h := 2 ^ (j - 1)). clearbody h.
  destruct (Z.compare_spec h t); cbn [CompOpp]; split; symmetry; lia.
Qed.
End exact.

(** The parts of [k / 2 ^ j] with [p] digits after the point, in integers. *)
Definition exact_parts (s : bool) (k j p : Z) : double_components :=
  let N := (k mod 2 ^ j) * 10 ^ p in
  let q := N / 2 ^ j in
  let t := N mod 2 ^ j in
  if 2 ^ j <? 2 * t then
    if 10 ^ p <=? q + 1 then {| integral := k / 2 ^ j + 1; fractional := 0; is_negative := s |}
    else {| integral := k / 2 ^ j; fractional := q + 1; is_negative := s |}
  else if (2 * t =? 2 ^ j) && ((q =? 0) || Z.odd q)
       then {| integral := k / 2 ^ j; fractional := q + 1; is_negative := s |}
       else {| integral := k / 2 ^ j; fractional := q; is_negative := s |}.

Lemma incr64_small z : z < 2 ^ 62 -> incr64 z = Ok (z + 1).
Proof. intros H. unfold incr64. by rewrite (proj2 (Z.ltb_lt _ _)) by lia. Qed.

Lemma components_exact s k j p :
  0 <= j <= 1000 -> 0 < k < 2 ^ 53 -> 1 <= p < 18 -> (k mod 2 ^ j) * 10 ^ p < 2 ^ 53 ->
  get_components (fl s k (- j)) p = Ok (exact_parts s k j p).
Proof.
  intros Hj Hk Hp HN. assert (0 < 2 ^ j) as H2 by (apply Z.pow_pos_nonneg; lia). assert (0 < 10 ^ p) as H10 by (apply Z.pow_pos_nonneg; lia).
  pose proof (Z.mod_pos_bound k (2 ^ j) H2) as Hr. unfold get_components. rewrite sign_fl by done.
  assert ((if s then fneg (fl s k (- j)) else fl s k (- j)) = fl0 k (- j)) as -> by (rewrite fl0_pos by lia; by destruct s).
  rewrite trunc_fl0 by lia. cbn [mbind result_bind]. rewrite power_lookup by lia. cbn [mbind result_bind].
  rewrite sub_floor, mul_power by lia. unfold exact_parts. set (r := k mod 2 ^ j) in *. set (N := r * 10 ^ p) in *.
  assert (0 <= N < 2 ^ 53) as HN' by (unfold N in *; nia). rewrite trunc_fl0 by done. cbn [mbind result_bind]. rewrite sub_floor by done.
  set (q := N / 2 ^ j). set (t := N mod 2 ^ j). assert (0 <= t < 2 ^ j /\ t <= N) as [Ht HtN] by (unfold t; split; [by apply Z.mod_pos_bound|apply Z.mod_le; lia]).
  assert (0 <= q < 2 ^ 53) as Hq by (unfold q; split; [apply Z.div_pos; lia|apply Z.div_lt_upper_bound; nia]).
  assert (k / 2 ^ j < 2 ^ 53) by (apply Z.div_lt_upper_bound; nia).
  destruct (half_less j Hj t) as [-> ->]; [lia..|]. rewrite !incr64_small by lia. rewrite (proj2 (Z.eqb_neq p 0)) by lia. cbn [mbind result_bind].
  destruct (Z.ltb_spec (2 ^ j) (2 * t)) as [Hu|Hu].
  - assert (fle (dZ (10 ^ p)) (dZ (q + 1)) = (10 ^ p <=? q + 1)) as ->; [|by destruct (10 ^ p <=? q + 1)].
    assert (0 < r) as Hr0 by (destruct (Z.eqb_spec r 0) as [E0|]; [assert (N = 0) by (unfold N; rewrite E0; lia)|]; lia).
    pose proof (Z.mul_le_mono_nonneg_r 1 r (10 ^ p) ltac:(lia) ltac:(lia)). fold N in H0. pose proof (Z_div_mod_eq_full N (2 ^ j)) as EN. fold q t in EN. assert (q + 1 < 2 ^ 53) by nia.
    unfold fle, SFleb, dZ. rewrite !of_Z_fl, compare_fl by lia. rewrite Z.sub_diag, Z.mul_1_r.
    destruct (Z.compare_spec (10 ^ p) (q + 1)); symmetry; lia.
  - by destruct ((2 * t =? 2 ^ j) && ((q =? 0) || Z.odd q)).
Qed.

Lemma pow2_mod5 j : 0 <= j -> 2 ^ j mod 5 <> 0.
Proof.
  intros Hj. revert j Hj. apply natlike_ind; [done|]. intros j Hj IH. rewrite Z.pow_succ_r by done.
  generalize dependent (2 ^ j). intros x IH. word_lia.
Qed.

(** Half of a unit is never left by a fraction that rounds up to one. *)
Lemma tie_below r j p q : 0 <= j -> 1 <= p -> 2 * (r * 10 ^ p) = (2 * q + 1) * 2 ^ j -> q + 1 <> 10 ^ p.
Proof.
  intros Hj Hp E Hq. pose proof (pow2_mod5 j Hj) as H5. assert (10 ^ p = 10 * 10 ^ (p - 1)) as E10 by (rewrite <- Z.pow_succ_r by lia; f_equal; lia).
  generalize dependent (2 ^ j). intros x E H5. apply H5. replace q with (10 ^ p - 1) in E by lia. rewrite E10 in E.
  set (z := 10 ^ (p - 1)) in *. replace x with (5 * (4 * z * x - 4 * (r * z))) by nia. rewrite Z.mul_comm. apply Z.mod_mul. lia.
Qed.

Lemma exact_parts_spec s k j p :
  0 <= j -> 0 < k -> 1 <= p ->
  let c := exact_parts s k j p in
  0 <= fractional c < 10 ^ p /\ k / 2 ^ j <= integral c <= k / 2 ^ j + 1 /\ is_negative c = s /\
  2 * Z.abs ((integral c * 10 ^ p + fractional c) * 2 ^ j - k * 10 ^ p) <= 2 ^ j.
Proof.
  intros Hj Hk Hp. assert (0 < 2 ^ j) as H2 by (apply Z.pow_pos_nonneg; lia). assert (0 < 10 ^ p) as H10 by (apply Z.pow_pos_nonneg; lia).
  pose proof (Z.mod_pos_bound k (2 ^ j) H2) as Hr. pose proof (Z_div_mod_eq_full k (2 ^ j)) as Ek. unfold exact_parts. cbv zeta.
  set (r := k mod 2 ^ j) in *. pose proof (Z_div_mod_eq_full (r * 10 ^ p) (2 ^ j)) as EN. pose proof (Z.mod_pos_bound (r * 10 ^ p) (2 ^ j) H2) as Ht.
  set (q := r * 10 ^ p / 2 ^ j) in *. set (t := (r * 10 ^ p) mod 2 ^ j) in *. set (I := k / 2 ^ j) in *. pose proof (tie_below r j p q Hj Hp) as TB.
  clearbody r q t I. set (x := 2 ^ j) in *. set (y := 10 ^ p) in *. clearbody x y.
  assert (0 <= q < y) as Hq by nia. assert (k * y = I * y * x + q * x + t) as EK by nia.
  destruct (Z.ltb_spec x (2 * t)); [destruct (Z.leb_spec y (q + 1))|destruct (Z.eqb_spec (2 * t) x); cbn [andb]; [destruct ((q =? 0) || Z.odd q)|]];
    cbn [fractional integral is_negative]; split_and!; try done; try nia.
Qed.

(** ** [%f] *)

Lemma compare_value s k j a E :
  0 < k < 2 ^ 53 -> 0 < a < 2 ^ 53 -> - j <= E -> k <= a * 2 ^ (E + j) ->
  flt (fl false a E) (fl s k (- j)) = false /\ flt (fl s k (- j)) (fneg (fl false a E)) = false.
Proof.
  intros Hk Ha HE Hl. pose proof (compare_fl a k (- j) E Ha Hk HE) as C. replace (E - - j) with (E + j) in C by lia.
  assert (SFltb (fl false a E) (fl false k (- j)) = false) as F by (unfold SFltb; rewrite C; by destruct (Z.compare_spec (a * 2 ^ (E + j)) k); [| lia|]).
  destruct s; [|by split]. split; [done|]. unfold flt, fneg. change (fl true k (- j)) with (SFopp (fl false k (- j))). unfold SFltb. by rewrite compare_opp.
Qed.

Lemma equal_itself s k j : 0 < k < 2 ^ 53 -> SFeqb (fl s k (- j)) (fl s k (- j)) = true.
Proof.
  intros Hk. pose proof (compare_fl k k (- j) (- j) Hk Hk ltac:(lia)) as C. rewrite Z.sub_diag, Z.mul_1_r, Z.compare_refl in C.
  unfold SFeqb. destruct s; [change (fl true k (- j)) with (SFopp (fl false k (- j))); rewrite compare_opp|]; by rewrite C.
Qed.

Lemma limit_precision_small n p : (0 < n)%nat -> p <= 17 -> limit_precision n p [] = Ok (p, []).
Proof.
  intros Hn Hp. destruct n; [lia|]. cbn [limit_precision]. unfold PRINTF_MAX_SUPPORTED_PRECISION, NUM_DECIMAL_DIGITS_IN_INT64_T.
  by rewrite (proj2 (Z.ltb_ge _ _)), andb_false_r by lia.
Qed.

Lemma decimal_number_text s k j n w flags g :
  0 <= j <= 1000 -> 0 < k < 2 ^ 53 -> k <= 10 ^ 9 * 2 ^ j -> (1 <= n <= 17)%nat -> (k mod 2 ^ j) * 10 ^ Z.of_nat n < 2 ^ 53 ->
  plain flags = true -> has flags FLAGS_ADAPT_EXP = false -> is_u32 w -> (has flags FLAGS_ZEROPAD = true -> w <= 32) ->
  print_decimal_number g (fl s k (- j)) (Z.of_nat n) w flags [] =
    put_all (field s w flags (decimal_text (decimal_digits n (exact_parts s k j (Z.of_nat n))))) g.
Proof.
  intros Hj Hk Hm Hn HN Hp Ha Hw Hz. unfold print_decimal_number. rewrite components_exact by (done || lia). cbn [mbind result_bind].
  destruct (exact_parts_spec s k j (Z.of_nat n)) as (Hf & Hi & Hs & _); [lia..|].
  assert (0 <= k / 2 ^ j <= 10 ^ 9) by (split; [apply Z.div_pos; [lia|apply Z.pow_pos_nonneg; lia]|apply Z.div_le_upper_bound; [apply Z.pow_pos_nonneg|]; lia]).
  rewrite broken_up_text; try done; [by rewrite Hs|lia].
Qed.

(** C26: [%f] rounds correctly.  For every value [k / 2 ^ j] up to [10 ^ 9] in
    magnitude whose fraction times [10 ^ precision] has at most 53 bits,
    printing with 1 to 17 digits after the point gives the sign, the digits
    [hi] of the integral part, a point and exactly [precision] digits [lo],
    in the field of the width and the flags; the number [hi.lo] is within
    half a unit of its last digit of the value. *)
Theorem exact_value_printed (g : output_gadget_t) (s : bool) (k j : Z) (precision : nat) (w flags : Z) :
  0 <= j <= 1000 -> 0 < k < 2 ^ 53 -> k <= 10 ^ 9 * 2 ^ j -> (1 <= precision <= 17)%nat ->
  (k mod 2 ^ j) * 10 ^ Z.of_nat precision < 2 ^ 53 ->
  plain flags = true -> has flags FLAGS_ADAPT_EXP = false -> has flags FLAGS_PRECISION = true ->
  is_u32 w -> (has flags FLAGS_ZEROPAD = true -> w <= PRINTF_DECIMAL_BUFFER_SIZE) ->
  exists hi lo,
    print_floating_point g (fl s k (- j)) (Z.of_nat precision) w flags false =
      put_all (field s w flags (map dchar hi ++ 46 :: map dchar lo)) g /\
    Forall (fun d => 0 <= d < 10) (hi ++ lo) /\ length lo = precision /\
    2 * Z.abs (horner 10 0 (hi ++ lo) * 2 ^ j - k * 10 ^ Z.of_nat precision) <= 2 ^ j.
Proof.
  intros Hj Hk Hm Hn HN Hp Ha HP Hw Hz. set (c := exact_parts s k j (Z.of_nat precision)).
  destruct (exact_parts_spec s k j (Z.of_nat precision)) as (Hf & Hi & _ & Hr); [lia..|]. fold c in Hf, Hi, Hr.
  assert (0 < 2 ^ j) as H2 by (apply Z.pow_pos_nonneg; lia).
  assert (0 <= k / 2 ^ j <= 10 ^ 9) by (split; [apply Z.div_pos; lia|apply Z.div_le_upper_bound; lia]).
  exists (rev (lsb_digits 10 10 (integral c))), (rev (fixed precision (fractional c))). split_and!.
  - unfold print_floating_point. rewrite equal_itself by done. cbn [negb].
    change DBL_MAX with (fl false 9007199254740991 971). change PRINTF_FLOAT_NOTATION_THRESHOLD with (fl false (10 ^ 9) 0).
    destruct (compare_value s k j 9007199254740991 971) as [-> ->]; [lia..| |].
    { rewrite Z.pow_add_r by lia. assert (0 < 2 ^ 971) by (apply Z.pow_pos_nonneg; lia). nia. }
    destruct (compare_value s k j (10 ^ 9) 0) as [-> ->]; [lia..|done|]. rewrite HP, limit_precision_small by lia. cbn [negb andb orb mbind result_bind].
    by apply decimal_number_text.
  - apply Forall_app_2; apply Forall_rev; [apply lsb_digits_range; lia|apply fixed_range].
  - rewrite length_rev, fixed_length; [done|done|lia].
  - rewrite horner_app, horner_scale, fixed_value by (done || lia). rewrite lsb_value10 by (lia || (cbn; lia)).
    unfold zlen. rewrite length_rev, fixed_length by (done || lia). exact Hr.
Qed.

(** 99/8 with two digits: a tie, rounded up from the odd 37. *)
Lemma exact_value_printed_witness :
  exists hi lo,
    print_floating_point function_gadget (fl true 99 (-3)) 2 8 FLAGS_PRECISION false =
      put_all (field true 8 FLAGS_PRECISION (map dchar hi ++ 46 :: map dchar lo)) function_gadget /\
    Forall (fun d => 0 <= d < 10) (hi ++ lo) /\ length lo = 2%nat /\
    2 * Z.abs (horner 10 0 (hi ++ lo) * 2 ^ 3 - 99 * 10 ^ 2) <= 2 ^ 3.
Proof.
  apply (exact_value_printed function_gadget true 99 3 2 8 FLAGS_PRECISION); try lia; try reflexivity; [split; lia|].
  intros [=].
Defined.

(** ** The bits of a number *)

(** Sign, exponent and mantissa of a word. *)
Lemma of_bits_fields (s : bool) F M :
  0 <= F < 2048 -> 0 <= M < 2 ^ 52 ->
  of_bits ((if s then 2 ^ 63 else 0) + (F * 2 ^ 52 + M)) =
    if F =? 0 then if M =? 0 then S754_zero s else S754_finite s (Z.to_pos M) (-1074)
    else if F =? 2047 then if M =? 0 then S754_infinity s else S754_nan
    else S754_finite s (Z.to_pos (M + 2 ^ 52)) (F - 1075).
Proof.
  intros HF HM. unfold of_bits. set (u := _ + _).
  assert (u = (Z.b2z s * 2048 + F) * 2 ^ 52 + M) as Eu by (unfold u; destruct s; cbn; lia).
  assert (u mod 2 ^ 52 = M) as -> by (rewrite Eu, Z.add_comm, Z.mod_add, Z.mod_small; lia).
  assert (u / 2 ^ 52 = Z.b2z s * 2048 + F) as Ed by (rewrite Eu, Z.div_add_l, Z.div_small; lia).
  assert ((u >>> 52) &&& 2047 = F) as ->.
  { rewrite Z.shiftr_div_pow2, Ed by lia. change 2047 with (Z.ones 11). rewrite Z.land_ones by lia.
    change (2 ^ 11) with 2048. rewrite Z.add_comm, Z.mod_add, Z.mod_small; lia. }
  assert (Z.testbit u 63 = s) as ->; [|done].
  rewrite Z.testbit_eqb by lia. change (2 ^ 63) with (2 ^ 52 * 2048). rewrite <- Z.div_div, Ed by lia.
  rewrite Z.div_add_l, Z.div_small by lia. by destruct s.
Qed.

(** The union gives back the number it was set to. *)
Lemma bits_roundtrip x : valid_binary 53 1024 x = true -> of_bits (get_bit_access x) = x.
Proof.
  destruct x as [s|s| |s m e]; intros V; [by destruct s|by destruct s|reflexivity|]. cbn [valid_binary] in V.
  apply andb_true_iff in V as [C L]. apply Z.eqb_eq in C. apply Z.leb_le in L. unfold fexp, emin in C. rewrite digits2_log2 in C.
  pose proof (Z.log2_spec (Zpos m) ltac:(lia)) as [L1 L2]. cbn [get_bit_access]. destruct (Z.ltb_spec (Zpos m) (2 ^ 52)) as [Hm|Hm].
  - assert (Z.log2 (Zpos m) < 52) by (apply Z.log2_lt_pow2; lia).
    rewrite <- (Z.add_0_l (Zpos m)). change 0 with (0 * 2 ^ 52) at 2. rewrite of_bits_fields by lia. cbn. f_equal. lia.
  - assert (52 <= Z.log2 (Zpos m)) by (apply Z.log2_le_pow2; lia). assert (Zpos m < 2 ^ 53) by (replace (Z.log2 (Zpos m)) with 52 in L2 by lia; exact L2).
    rewrite of_bits_fields by lia. rewrite (proj2 (Z.eqb_neq _ 0)), (proj2 (Z.eqb_neq _ 2047)) by lia.
    f_equal; [|lia]. apply Pos2Z.inj. rewrite Z2Pos.id by lia. lia.
Qed.

(** ** Termination *)

Lemma to_i64_range f : no_hang (to_i64 f) /\ forall z, to_i64 f = Ok z -> z < 2 ^ 63.
Proof.
  unfold to_i64. destruct (trunc f) as [z|]; [|done]. destruct (- 2 ^ 63 <=? z); cbn [andb]; [|done].
  destruct (Z.ltb_spec z (2 ^ 63)); [|done]. split; [done|]. by intros ? [= <-].
Qed.

Lemma incr64_range z : no_hang (incr64 z) /\ forall z', incr64 z = Ok z' -> z' < 2 ^ 63.
Proof. unfold incr64. destruct (Z.ltb_spec (z + 1) (2 ^ 63)); [|done]. split; [done|]. by intros ? [= <-]. Qed.

Lemma aget_no_hang {A} (l : list A) i : no_hang (aget l i).
Proof. unfold aget. destruct (i <? 0); [done|]. by destruct (l !! _). Qed.

Lemma to_int_no_hang f : no_hang (to_int f).
Proof. unfold to_int. destruct (trunc f); [|done]. by destruct (_ && _). Qed.

Lemma floor_no_hang x : no_hang (bastardized_floor x).
Proof. unfold bastardized_floor. destruct (fle _ _); [apply to_int_no_hang|]. by apply no_hang_bind; [apply to_int_no_hang|]. Qed.

(** [post P m]: [m] does not hang, and what it returns has [P]. *)
Definition post {A} (P : A -> Prop) (m : result A) : Prop := no_hang m /\ forall a, m = Ok a -> P a.

Lemma post_ok {A} (P : A -> Prop) a : P a -> post P (Ok a).
Proof. intros H. split; [done|]. by intros ? [= <-]. Qed.

Lemma post_bind {A B} (P : A -> Prop) (Q : B -> Prop) (m : result A) (k : A -> result B) :
  post P m -> (forall a, P a -> post Q (k a)) -> post Q (m ≫= k).
Proof.
  intros [H1 H2] Hk. destruct m as [a|f]; cbn; [by apply Hk, H2|]. split; [|done]. intros [= ->]. by apply H1.
Qed.

Lemma post_if {A} (P : A -> Prop) (b : bool) m m' : post P m -> post P m' -> post P (if b then m else m').
Proof. by destruct b. Qed.

Lemma post_any {A} (m : result A) : no_hang m -> post (fun _ => True) m.
Proof. by intros H. Qed.

Lemma get_components_post v p : post (fun c => fractional c < 2 ^ 63) (get_components v p).
Proof.
  unfold get_components. apply (post_bind _ _ _ _ (to_i64_range _)). intros i _.
  apply (post_bind _ _ _ _ (post_any _ (aget_no_hang _ _))). intros power _. apply (post_bind _ _ _ _ (to_i64_range _)). intros f Hf.
  apply (post_bind (fun x => x.2 < 2 ^ 63)).
  - apply post_if; [apply (post_bind _ _ _ _ (incr64_range _)); intros f' Hf'; apply post_if; [|by apply post_ok]|apply post_if; [|by apply post_ok]].
    + apply (post_bind _ _ _ _ (incr64_range _)). intros i' _. by apply post_ok.
    + apply (post_bind _ _ _ _ (incr64_range _)). intros f' Hf'. by apply post_ok.
  - intros [i' f'] Hf'. apply (post_bind (fun _ => True)); [|intros i'' _; by apply post_ok].
    apply post_if; [apply post_if|]; try by apply post_ok. apply post_any, incr64_range.
Qed.

Lemma normalized_post n p v sf e : post (fun c => fractional c < 2 ^ 63) (get_normalized_components n p v sf e).
Proof.
  unfold get_normalized_components. apply post_if; [apply get_components_post|].
  apply (post_bind _ _ _ _ (to_i64_range _)). intros i _. apply (post_bind _ _ _ _ (post_any _ (aget_no_hang _ _))). intros power _.
  apply (post_bind _ _ _ _ (to_i64_range _)). intros f Hf. apply (post_bind (fun z => z < 2 ^ 63)); [apply post_if; [apply incr64_range|by apply post_ok]|].
  intros f' Hf'. set (f2 := if SFeqb _ _ then Z.ldiff f' 1 else f'). assert (f2 < 2 ^ 63) as H2.
  { unfold f2. destruct (SFeqb _ _); [|done]. change 1 with (Z.ones 1). rewrite Z.ldiff_ones_r, Z.shiftl_mul_pow2, Z.shiftr_div_pow2 by lia. word_lia. }
  clearbody f2. apply post_if; [|by apply post_ok]. apply (post_bind _ _ _ _ (incr64_range _)). intros i' _. by apply post_ok.
Qed.

Lemma decimal_exponent_no_hang v : no_hang (decimal_exponent v).
Proof.
  unfold decimal_exponent. destruct (SFeqb _ _); [done|]. apply no_hang_bind; [apply floor_no_hang|]. intros e _. apply no_hang_bind.
  - unfold pow10_of_int. destruct (_ =? _); [done|]. by apply no_hang_bind; [apply floor_no_hang|].
  - intros p _. destruct (if flt v p then (e - 1, ddiv p (dZ 10)) else (e, p)) as [e' p']. apply no_hang_bind; [apply no_hang_if; [apply aget_no_hang|done]|done].
Qed.

Lemma rollover_post b c e p flags : fractional c < 2 ^ 63 -> post (fun x => fractional x.1.1 < 2 ^ 63) (exponent_rollover b c e p flags).
Proof.
  intros H. unfold exponent_rollover. repeat apply post_if; try by apply post_ok.
  apply (post_bind _ _ _ _ (post_any _ (aget_no_hang _ _))). intros x _. apply post_if; by apply post_ok.
Qed.

Lemma skip_zeros_no_hang n : forall fuel count f, 0 < f < 10 ^ Z.of_nat n -> (n <= fuel)%nat -> (0 < n)%nat -> no_hang (skip_zeros fuel count f).
Proof.
  induction n as [|n IH]; intros fuel count f Hf Hn H0; [lia|]. destruct fuel as [|fuel]; [lia|]. cbn [skip_zeros]. rewrite Z.rem_mod_nonneg, Z.quot_div_nonneg by lia.
  destruct (Z.eqb_spec (f mod 10) 0) as [E|E]; cbn [negb]; [|done]. pose proof (div10_bound n f ltac:(lia)). pose proof (Z_div_mod_eq_full f 10).
  apply IH; [lia|lia|]. destruct n; [cbn in *; lia|lia].
Qed.

(** The loops that end at the end of the buffer. *)
Lemma buffer_loops_no_hang n : forall count f w buf, (0 < n)%nat -> 32 - zlen buf < Z.of_nat n ->
  no_hang (frac_digits n count f buf) /\ no_hang (extra_zeros n count buf) /\ no_hang (int_digits n f buf) /\
  no_hang (width_zeros n w buf) /\ no_hang (limit_precision n count buf).
Proof.
  induction n as [|n IH]; intros count f w buf H0 Hn; [lia|].
  cbn [frac_digits extra_zeros int_digits width_zeros limit_precision]. unfold dpush, room, PRINTF_DECIMAL_BUFFER_SIZE.
  destruct (Z.ltb_spec (zlen buf) 32) as [Hr|Hr]; [|rewrite andb_false_r; by split_and!]. cbn [andb mbind result_bind].
  assert (0 < n)%nat as H1 by (unfold zlen in *; lia). assert (forall x, 32 - zlen (buf ++ [x]) < Z.of_nat n) as H2 by (intros x; rewrite zlen_snoc; lia).
  split_and!; repeat apply no_hang_if; try done.
  - apply (IH _ _ 0); auto.
  - apply (IH _ 0 0); auto.
  - apply (IH 0 _ 0); auto.
  - apply (IH 0 0 _); auto.
  - apply (IH _ 0 0); auto.
Qed.

Lemma broken_up_no_hang c g p w flags buf :
  fractional c < 2 ^ 63 -> is_u32 w -> no_hang (print_broken_up_decimal c g p w flags buf).
Proof.
  intros Hc Hw. assert (forall b count f w', no_hang (frac_digits 33 count f b) /\ no_hang (extra_zeros 33 count b) /\ no_hang (int_digits 33 f b) /\
    no_hang (width_zeros 33 w' b) /\ no_hang (limit_precision 33 count b)) as L by (intros; apply buffer_loops_no_hang; unfold zlen; lia).
  assert (forall b x, no_hang (dpush b x)) as D by (intros b x; unfold dpush; by destruct (_ <? _)).
  unfold print_broken_up_decimal. apply no_hang_bind.
  - unfold print_fraction. repeat apply no_hang_if; try done; try apply D. apply no_hang_bind.
    + destruct (_ && _) eqn:E; [|done]. apply andb_prop in E as [_ E]. apply Z.ltb_lt in E. apply (skip_zeros_no_hang 19); [split; [done|cbn; lia]|lia|lia].
    + intros [count f] _. apply no_hang_if; [|done]. apply no_hang_bind; [apply (L _ _ _ 0)|]. intros [count' b] _.
      apply no_hang_bind; [apply (L _ _ 0 0)|]. intros b' _. apply no_hang_if; [apply D|done].
  - intros b _. apply no_hang_bind; [apply (L b 0 _ 0)|]. intros b1 _. set (pad := negb (has flags FLAGS_LEFT) && has flags FLAGS_ZEROPAD). set (w' := if pad && _ then w - 1 else w).
    assert (is_u32 w') as Hw' by (unfold w'; destruct (pad && _) eqn:E; [|done]; apply andb_prop in E as [_ E]; apply andb_prop in E as [E _];
      apply negb_true_iff, Z.eqb_neq in E; unfold is_u32 in *; lia).
    apply no_hang_bind; [apply no_hang_if; [apply (L b1 0 0)|done]|]. intros b2 _.
    apply no_hang_bind; [repeat apply no_hang_if; try done; apply D|]. intros b3 _. by apply out_rev_no_hang.
Qed.

Lemma part_width (b : bool) e w : 0 <= e -> is_u32 w -> is_u32 (if b then 0 else if e <? w then w - e else 0).
Proof. unfold is_u32. intros. destruct b; [lia|]. destruct (Z.ltb_spec e w); lia. Qed.

Lemma exponential_no_hang g v p w flags buf : is_u32 w -> no_hang (print_exponential_number g v p w flags buf).
Proof.
  intros Hw. unfold print_exponential_number. apply no_hang_bind; [apply decimal_exponent_no_hang|]. intros [e sf] _. cbv zeta.
  set (p' := if has flags FLAGS_ADAPT_EXP then _ else p). set (fb := _ && (_ && _)).
  match goal with |- no_hang (?m ≫= _) => assert (post (fun c => fractional c < 2 ^ 63) m) as [H1 H2] by (apply post_if; [apply get_components_post|apply normalized_post]) end.
  apply no_hang_bind; [exact H1|]. intros c Hc. apply H2 in Hc.
  match goal with |- no_hang (?m ≫= _) => assert (post (fun x => fractional x.1.1 < 2 ^ 63) m) as [H3 H4] by by apply rollover_post end.
  apply no_hang_bind; [exact H3|]. intros [[c' e'] p''] Hx. apply H4 in Hx. cbn [fst] in Hx. apply no_hang_bind.
  { apply broken_up_no_hang; [done|]. apply part_width; [clear; by destruct fb, (PRINTF_ABS e' <? 100)|done]. }
  intros g' _. destruct fb; [done|]. cbn [negb]. apply no_hang_bind; [apply putchar_no_hang|]. intros g2 _. apply no_hang_bind.
  { unfold abs_for_printing. destruct (0 <? e'); [done|]. by destruct (e' =? -2147483648). }
  intros m _. apply no_hang_bind; [apply print_integer_no_hang; clear; unfold is_u32; destruct (PRINTF_ABS e' <? 100); lia|]. intros g3 _.
  apply no_hang_if; [|done]. apply left_pad_no_hang; [done|]. pose proof (u32_range (pos g3 - pos g)). unfold is_u32 in *. lia.
Qed.

(** C35: The floating-point conversions end for every value, finite or not,
    every precision, width and flags: the bounds of the loops over the buffer
    and over the digits are never reached. *)
Theorem floating_terminates (c flags width precision : Z) (value : float) (g : output_gadget_t) :
  is_u32 width -> spec_floating c flags width precision value g <> Err Hang.
Proof.
  intros Hw. assert (forall f b, no_hang (print_floating_point g value precision width f b)) as K; [|unfold spec_floating; by destruct (_ || _); apply K].
  intros f b. unfold print_floating_point. repeat (apply no_hang_if; [by apply out_rev_no_hang|]).
  apply no_hang_if; [by apply exponential_no_hang|]. apply no_hang_bind; [apply (buffer_loops_no_hang 33 _ 0 0); unfold zlen; cbn; lia|].
  intros [p buf] _. apply no_hang_if; [by apply exponential_no_hang|]. unfold print_decimal_number.
  destruct (get_components_post value p) as [H1 H2]. apply no_hang_bind; [exact H1|]. intros x Hx. apply broken_up_no_hang; [by apply H2|done].
Qed.

Lemma floating_terminates_witness : spec_floating 103 0 12 0 (literal 123456789 1000) function_gadget <> Err Hang.
Proof. apply (floating_terminates 103 0 12 0 (literal 123456789 1000) function_gadget). split; lia. Defined.

(** ** Defects *)

(** The parts of a number whose fraction, times [10 ^ p], rounds to
    [10 ^ p - 1/2]: a tie, rounded up to [10 ^ p]. *)
Lemma tie_components v p i :
  let abs_number := if get_sign_bit v then fneg v else v in
  1 <= p <= 15 -> to_i64 abs_number = Ok i -> dmul (dsub abs_number (dZ i)) (dZ (10 ^ p)) = fl false (2 * 10 ^ p - 1) (-1) ->
  get_components v p = Ok {| integral := i; fractional := 10 ^ p; is_negative := get_sign_bit v |}.
Proof.
  intros abs_number Hp Ei Er. unfold get_components. fold abs_number. rewrite Ei. cbn [mbind result_bind]. rewrite power_lookup by lia.
  cbn [mbind result_bind]. rewrite Er. assert (1 < 10 ^ p) as H1 by (apply Z.pow_gt_1; lia).
  assert (10 ^ p <= 10 ^ 15) as H15 by (apply Z.pow_le_mono_r; lia). assert (10 ^ p mod 2 = 0) as H2.
  { replace p with (Z.succ (p - 1)) by lia. rewrite Z.pow_succ_r by lia. change 10 with (5 * 2) at 1. rewrite (Z.mul_comm 5), <- Z.mul_assoc, Z.mul_comm. apply Z.mod_mul. lia. }
  generalize dependent (10 ^ p). intros N _ H1 H15 H2. rewrite <- (fl0_pos 1) by lia. change (-1) with (Z.opp 1).
  rewrite trunc_fl0 by lia. cbn [mbind result_bind]. rewrite sub_floor by lia. change (2 ^ 1) with 2.
  replace ((2 * N - 1) / 2) with (N - 1) by word_lia. replace ((2 * N - 1) mod 2) with 1 by word_lia.
  destruct (half_less 1 ltac:(lia) 1 ltac:(lia) ltac:(lia)) as [-> ->]. change (2 ^ 1 <? 2 * 1) with false. change (2 * 1 =? 2 ^ 1) with true. cbn [andb].
  assert (Z.odd (N - 1) = true) as -> by (pose proof (Zmod_odd (N - 1)); destruct (Z.odd (N - 1)); [done|word_lia]).
  rewrite orb_true_r, (incr64_small (N - 1)) by lia. cbn [mbind result_bind]. rewrite (proj2 (Z.eqb_neq p 0)) by lia. cbn [mbind result_bind].
  by rewrite Z.sub_add.
Qed.

(** The digits of [10 ^ p] are one more than the precision: the count wraps,
    and zeros fill the buffer. *)
Lemma tie_fraction i s p flags :
  1 <= p <= 15 -> has flags FLAGS_ADAPT_EXP = false ->
  print_fraction {| integral := i; fractional := 10 ^ p; is_negative := s |} p flags [] =
    Ok (replicate (Z.to_nat p) 48 ++ 49 :: replicate (31 - Z.to_nat p) 48).
Proof.
  intros Hp Ha. unfold print_fraction. cbn [fractional]. rewrite Ha, (proj2 (Z.eqb_neq p 0)) by lia. cbn [negb andb mbind result_bind].
  rewrite orb_true_r. cbn [orb].
  assert (p = 1 \/ p = 2 \/ p = 3 \/ p = 4 \/ p = 5 \/ p = 6 \/ p = 7 \/ p = 8 \/ p = 9 \/ p = 10 \/ p = 11 \/ p = 12 \/ p = 13 \/ p = 14 \/ p = 15) as HP by lia.
  clear Ha. repeat destruct HP as [->|HP]; [vm_compute; reflexivity..|]. subst p. vm_compute. reflexivity.
Qed.

Lemma full_room buf : zlen buf = 32 -> room buf = false.
Proof. intros H. unfold room, PRINTF_DECIMAL_BUFFER_SIZE. by rewrite H. Qed.

(** A full buffer takes nothing more, not even a sign. *)
Lemma full_broken_up c g p w flags buf :
  print_fraction c p flags [] = Ok buf -> zlen buf = 32 -> 0 <= w <= 32 -> print_broken_up_decimal c g p w flags [] = put_all (rev buf) g.
Proof.
  intros E Hl Hw. unfold print_broken_up_decimal. rewrite E. cbn [mbind result_bind int_digits]. rewrite full_room by done. cbn [mbind result_bind].
  set (pad := negb (has flags FLAGS_LEFT) && has flags FLAGS_ZEROPAD). set (w' := if pad && _ then w - 1 else w).
  assert (0 <= w' <= 32) as Hw'.
  { unfold w'. destruct (Z.eqb_spec w 0); cbn [negb andb]; [rewrite andb_false_r; lia|]. destruct (pad && _); lia. }
  assert ((if pad then width_zeros 33 w' buf else Ok buf) = Ok buf) as ->.
  { destruct pad; [|done]. cbn [width_zeros]. by rewrite full_room, andb_false_r. }
  cbn [mbind result_bind]. rewrite full_room by done. cbn [mbind result_bind]. rewrite out_rev_put_all by (unfold is_u32; lia).
  replace (Z.to_nat (w' - zlen buf)) with 0%nat by lia. rewrite app_nil_r. by destruct (has flags FLAGS_LEFT), (has flags FLAGS_ZEROPAD).
Qed.

(** A value that [%f] prints in full passes the tests for the special values. *)
Lemma below_threshold v i :
  to_i64 (if get_sign_bit v then fneg v else v) = Ok i ->
  flt PRINTF_FLOAT_NOTATION_THRESHOLD v || flt v (fneg PRINTF_FLOAT_NOTATION_THRESHOLD) = false ->
  SFeqb v v = true /\ flt v (fneg DBL_MAX) = false /\ flt DBL_MAX v = false.
Proof.
  change PRINTF_FLOAT_NOTATION_THRESHOLD with (S754_finite false 8388608000000000 (-23)). unfold DBL_MAX.
  generalize 8388608000000000%positive 9007199254740991%positive. intros T D. destruct v as [s|s| |s m e].
  - by destruct s.
  - by destruct s.
  - done.
  - intros _ H. apply orb_false_iff in H as [H1 H2]. unfold SFeqb, flt, SFltb, fneg in *. cbn [SFopp SFcompare negb] in *.
    rewrite Z.compare_refl. change (Pos.compare_cont Eq m m) with (m ?= m)%positive. rewrite Pos.compare_refl. cbn [CompOpp].
    destruct s; (split; [done|split]); try done.
    + destruct (Z.compare_spec e 971), (Z.compare_spec e (-23)); try done; lia.
    + destruct (Z.compare_spec 971 e), (Z.compare_spec (-23) e); try done; lia.
Qed.

(** C36: A tie that rounds up to one is printed without a point.  For every
    value up to [10 ^ 9] in size and every precision [p] up to 15: when the
    fraction times [10 ^ p] is rounded to [10 ^ p - 1/2] by the
    multiplication, as for 0.95, 0.995 or 1.999995, [%.pf] prints neither the
    integral part nor the point nor the sign, but 32 digits: zeros, and the
    [10 ^ p] that was not carried into the integral part. *)
Theorem half_without_rollover (g : output_gadget_t) (value : float) (p i w flags : Z) :
  let abs_number := if get_sign_bit value then fneg value else value in
  1 <= p <= 15 -> to_i64 abs_number = Ok i -> dmul (dsub abs_number (dZ i)) (dZ (10 ^ p)) = fl false (2 * 10 ^ p - 1) (-1) ->
  flt PRINTF_FLOAT_NOTATION_THRESHOLD value || flt value (fneg PRINTF_FLOAT_NOTATION_THRESHOLD) = false ->
  has flags FLAGS_ADAPT_EXP = false -> has flags FLAGS_PRECISION = true -> 0 <= w <= 32 ->
  print_floating_point g value p w flags false = put_all (replicate (31 - Z.to_nat p) 48 ++ 49 :: replicate (Z.to_nat p) 48) g.
Proof.
  intros abs_number Hp Ei Er Ht Ha HP Hw. destruct (below_threshold value i Ei Ht) as (E1 & E2 & E3).
  unfold print_floating_point. rewrite E1, E2, E3, Ht, HP, limit_precision_small by lia. cbn [negb andb mbind result_bind].
  unfold print_decimal_number. rewrite (tie_components value p i) by done. cbn [mbind result_bind].
  erewrite full_broken_up; [|by apply tie_fraction| |done].
  - rewrite rev_app_distr. cbn [rev]. by rewrite !rev_replicate, <- app_assoc.
  - unfold zlen. rewrite length_app. cbn [length]. rewrite !length_replicate. lia.
Qed.

(** Minus 1.999995 with five digits. *)
Lemma half_without_rollover_witness :
  print_floating_point function_gadget (fneg (literal 1999995 (10 ^ 6))) 5 8 FLAGS_PRECISION false =
    put_all (replicate 26 48 ++ 49 :: replicate 5 48) function_gadget.
Proof.
  apply (half_without_rollover function_gadget (fneg (literal 1999995 (10 ^ 6))) 5 1 8 FLAGS_PRECISION); [lia|vm_compute; reflexivity..|lia].
Defined.

(** [%.15e] of 0.00008999999999999999: the quotient rounds up to 9, which
    leaves a negative remainder, and its digit is a slash. *)
Lemma negative_fraction :
  exists g, spec_floating 101 FLAGS_PRECISION 0 15 (literal 8999999999999999 (10 ^ 20)) function_gadget = Ok g /\
    calls g = [57; 46] ++ replicate 14 48 ++ [47; 101; 45; 48; 53].
Proof. eexists. vm_compute. split; reflexivity. Qed.

(** [%.20f] of [10 ^ 10]: the number goes to the exponential notation before
    the precision is limited, and the table of powers is read past its end. *)
Lemma precision_not_limited : print_floating_point function_gadget (dZ (10 ^ 10)) 20 0 FLAGS_PRECISION false = Err OutOfBounds.
Proof. vm_compute. reflexivity. Qed.

(** [%#.1g] of 9.6: the precision, already zero, is decremented when the
    number rolls over to 10. *)
Lemma precision_underflow :
  exists g, spec_floating 103 (FLAGS_PRECISION ||| FLAGS_HASH) 0 1 (literal 96 10) function_gadget = Ok g /\ calls g = replicate 32 48.
Proof. eexists. vm_compute. split; reflexivity. Qed.

(** The special values. *)
Lemma special_values g w flags prefer p :
  print_floating_point g S754_nan p w flags prefer = out_rev_ g (rev [110; 97; 110]) w flags /\
  print_floating_point g (S754_infinity true) p w flags prefer = out_rev_ g (rev [45; 105; 110; 102]) w flags /\
  print_floating_point g (S754_infinity false) p w flags prefer =
    out_rev_ g (rev ((if has flags FLAGS_PLUS then [43] else []) ++ [105; 110; 102])) w flags.
Proof. split_and!; [done..|]. cbn. by destruct (has flags FLAGS_PLUS). Qed.
