(* ===== verification/Util.v ===== *)
(** * Memory and strings (firmware/src/util.h)

    The routines that stand for the C library, over a byte-addressed memory:
    the list of its bytes, a pointer being a position in it. *)

From S2P Require Import Prelude Printf Formats.

(** A word access of the 68000: two bytes, the high one first, at an even
    address. *)
Definition store16 (m : list Z) (p v : Z) : result (list Z) :=
  if Z.odd p then Err AddressError
  else m ← aset m p (v / 256); aset m (p + 1) (v mod 256).
Definition load16 (m : list Z) (p : Z) : result Z :=
  if Z.odd p then Err AddressError
  else hi ← aget m p; lo ← aget m (p + 1); Ok (hi * 256 + lo).

(** The loops, [n] being what is left of [len]. *)
Fixpoint memsetb_loop (n : nat) (m : list Z) (p c : Z) : result (list Z) :=
  match n with
  | O => Ok m
  | S n => m ← aset m p c; memsetb_loop n m (p + 1) c
  end.
Definition memsetb (m : list Z) (ptr c len : Z) : result (list Z) :=
  memsetb_loop (Z.to_nat (u32 len)) m ptr (u8 c).

Fixpoint memsetw_loop (n : nat) (m : list Z) (p c : Z) : result (list Z) :=
  match n with
  | O => Ok m
  | S n => m ← store16 m p c; memsetw_loop n m (p + 2) c
  end.
Definition memsetw (m : list Z) (ptr c len : Z) : result (list Z) :=
  memsetw_loop (Z.to_nat (u32 len)) m ptr (u16 c).

Definition memset (m : list Z) (ptr c len : Z) : result (list Z) := memsetb m ptr c len.

Fixpoint memcpyb_loop (n : nat) (m : list Z) (p_a p_b : Z) : result (list Z) :=
  match n with
  | O => Ok m
  | S n => v ← aget m p_b; m ← aset m p_a v; memcpyb_loop n m (p_a + 1) (p_b + 1)
  end.
Definition memcpyb (m : list Z) (a b len : Z) : result (list Z) := memcpyb_loop (Z.to_nat (u32 len)) m a b.

Fixpoint memcpyw_loop (n : nat) (m : list Z) (p_a p_b : Z) : result (list Z) :=
  match n with
  | O => Ok m
  | S n => v ← load16 m p_b; m ← store16 m p_a v; memcpyw_loop n m (p_a + 2) (p_b + 2)
  end.
Definition memcpyw (m : list Z) (a b len : Z) : result (list Z) := memcpyw_loop (Z.to_nat (u32 len)) m a b.

Definition memcpy (m : list Z) (a b len : Z) : result (list Z) := memcpyb m a b len.

(** The pointer at the NUL; a scan leaves the memory after [length m] steps
    at the latest. *)
Fixpoint strlen_loop (fuel : nat) (m : list Z) (p : Z) : result Z :=
  match fuel with
  | O => Err Hang
  | S fuel => c ← aget m p; if c =? 0 then Ok p else strlen_loop fuel m (p + 1)
  end.
Definition strlen (m : list Z) (s : Z) : result Z :=
  p ← strlen_loop (S (length m)) m s;
  Ok (i32 (p - s)).

Fixpoint strcpy_loop (fuel : nat) (m : list Z) (d s : Z) : result (list Z) :=
  match fuel with
  | O => Err Hang
  | S fuel =>
      c ← aget m s;
      if c =? 0 then aset m d 0 else m ← aset m d c; strcpy_loop fuel m (d + 1) (s + 1)
  end.
Definition strcpy (m : list Z) (dst src : Z) : result (list Z) := strcpy_loop (S (length m)) m dst src.

(** ** Copying *)

(** Where the byte at [a + i] of a copy comes from: a copy to a higher
    address inside the source repeats the bytes before the overlap. *)
Definition source_of (a b i : Z) : Z := if a <=? b then b + i else b + i mod (a - b).

(** The memory with the [n] bytes from [a] given by [f]. *)
Definition patched (m m' : list Z) (a n : Z) (f : Z -> option Z) : Prop :=
  length m' = length m /\
  (forall i, 0 <= i < n -> m' !! Z.to_nat (a + i) = f i) /\
  (forall j, 0 <= j -> ~ (a <= j < a + n) -> m' !! Z.to_nat j = m !! Z.to_nat j).

Lemma aget_in {A} (l : list A) i : 0 <= i < zlen l -> exists x, aget l i = Ok x /\ l !! Z.to_nat i = Some x.
Proof.
  intros H. destruct (aget_is_Ok l i) as [x E]; [unfold zlen in H; lia|]. exists x. split; [done|].
  by apply aget_Ok_inv in E as [_ ?].
Qed.

Lemma mod_step i d : 0 < d ->
  ((i - 1) mod d = d - 1 /\ i mod d = 0) \/ ((i - 1) mod d < d - 1 /\ i mod d = (i - 1) mod d + 1).
Proof.
  intros Hd. pose proof (Z.mod_pos_bound (i - 1) d Hd). pose proof (Z_div_mod_eq_full (i - 1) d).
  destruct (decide ((i - 1) mod d = d - 1)).
  - left. split; [done|]. symmetry. apply (Z.mod_unique_pos i d ((i - 1) / d + 1)); lia.
  - right. split; [lia|]. symmetry. apply (Z.mod_unique_pos i d ((i - 1) / d)); lia.
Qed.

Lemma memcpyb_cells n m a b :
  0 <= a -> a + Z.of_nat n <= zlen m -> 0 <= b -> b + Z.of_nat n <= zlen m ->
  exists m', memcpyb_loop n m a b = Ok m' /\
    patched m m' a (Z.of_nat n) (fun i => m !! Z.to_nat (source_of a b i)).
Proof.
  revert m a b. induction n as [|n IH]; intros m a b Ha Hna Hb Hnb; cbn [memcpyb_loop].
  { exists m. split; [done|]. split_and!; [done|lia|done]. }
  destruct (aget_in m b) as (v & Ev & Lv); [lia|]. rewrite Ev. cbn [mbind result_bind].
  rewrite aset_in by (unfold zlen in *; lia). cbn [mbind result_bind]. set (m1 := <[Z.to_nat a := v]> m).
  assert (zlen m1 = zlen m) as L1 by (unfold zlen, m1; by rewrite length_insert).
  destruct (IH m1 (a + 1) (b + 1)) as (m' & E & H1 & H2 & H3); [lia..|]. exists m'. split; [done|]. split_and!.
  - rewrite H1. unfold m1. apply length_insert.
  - intros i Hi. destruct (decide (i = 0)) as [->|Hi0].
    + rewrite Z.add_0_r, H3 by lia. unfold m1. rewrite list_lookup_insert_eq by (unfold zlen in *; lia).
      unfold source_of. destruct (Z.leb_spec a b); [by rewrite Z.add_0_r|]. by rewrite Z.mod_0_l, Z.add_0_r by lia.
    + replace (a + i) with (a + 1 + (i - 1)) by lia. rewrite H2 by lia. unfold m1, source_of.
      destruct (Z.leb_spec (a + 1) (b + 1)), (Z.leb_spec a b); try lia.
      * rewrite list_lookup_insert_ne by lia. f_equal. lia.
      * replace (a + 1 - (b + 1)) with (a - b) by lia. pose proof (mod_step i (a - b)) as Hm.
        pose proof (Z.mod_pos_bound (i - 1) (a - b)). destruct Hm as [[E1 ->]|[E1 ->]]; [lia| |].
        { rewrite E1, Z.add_0_r. replace (b + 1 + (a - b - 1)) with a by lia.
          by rewrite list_lookup_insert_eq by (unfold zlen in *; lia). }
        rewrite list_lookup_insert_ne by lia. f_equal. lia.
  - intros j Hj Hout. rewrite H3 by lia. unfold m1. rewrite list_lookup_insert_ne by lia. done.
Qed.

(** [memcpy] copies the bytes it is asked to and no others, whatever the
    two ranges: each byte of the destination is the byte of the old source at
    the same offset, except that a copy upwards into its own source, which
    runs in ascending order, repeats the bytes before the overlap; in
    particular ranges that do not overlap are copied exactly. *)
Theorem memcpy_exact (m : list Z) (a b len : Z) :
  0 <= len < 2 ^ 32 -> 0 <= a -> a + len <= zlen m -> 0 <= b -> b + len <= zlen m ->
  exists m', memcpy m a b len = Ok m' /\
    patched m m' a len (fun i => m !! Z.to_nat (source_of a b i)) /\
    (a <= b \/ b + len <= a -> forall i, 0 <= i < len -> m' !! Z.to_nat (a + i) = m !! Z.to_nat (b + i)).
Proof.
  intros Hl Ha Hna Hb Hnb. unfold memcpy, memcpyb. rewrite u32_small by done.
  destruct (memcpyb_cells (Z.to_nat len) m a b) as (m' & E & H); [lia..|]. rewrite Z2Nat.id in H by lia.
  exists m'. split_and!; [done|done|]. intros Hd i Hi. destruct H as (_ & H & _). rewrite H by done. unfold source_of.
  destruct (Z.leb_spec a b); [done|]. by rewrite Z.mod_small by lia.
Qed.

Lemma memcpy_exact_witness :
  exists m', memcpy [1; 2; 3; 4; 5; 6; 7; 8] 2 0 6 = Ok m' /\
    patched [1; 2; 3; 4; 5; 6; 7; 8] m' 2 6 (fun i => [1; 2; 3; 4; 5; 6; 7; 8] !! Z.to_nat (source_of 2 0 i)) /\
    (2 <= 0 \/ 0 + 6 <= 2 ->
     forall i, 0 <= i < 6 -> m' !! Z.to_nat (2 + i) = [1; 2; 3; 4; 5; 6; 7; 8] !! Z.to_nat (0 + i)).
Proof. apply (memcpy_exact [1; 2; 3; 4; 5; 6; 7; 8] 2 0 6); done. Defined.

(** ** Words *)

Lemma aget_insert_ne {A} (l : list A) (i j : Z) x :
  0 <= i -> i <> j -> aget (<[Z.to_nat i := x]> l) j = aget l j.
Proof.
  intros Hi Hj. unfold aget. destruct (Z.ltb_spec j 0); [done|]. by rewrite list_lookup_insert_ne by lia.
Qed.

Lemma aget_fault {A} (l : list A) i f : aget l i = Err f -> f = OutOfBounds.
Proof. unfold aget. repeat case_match; intros; by simplify_eq. Qed.

Lemma aset_cases {A} (l : list A) i x :
  (0 <= i < zlen l /\ aset l i x = Ok (<[Z.to_nat i := x]> l)) \/ aset l i x = Err OutOfBounds.
Proof.
  destruct (decide (0 <= i < Z.of_nat (length l))); [left|right; by apply aset_out].
  split; [done|]. by apply aset_in.
Qed.

(** Moving a word is moving its two bytes. *)
Lemma move16 m a b :
  Forall is_u8 m -> Z.odd a = false -> Z.odd b = false ->
  (v ← load16 m b; store16 m a v) =
  (v ← aget m b; m ← aset m a v; v ← aget m (b + 1); aset m (a + 1) v).
Proof.
  intros Hm Ha Hb. unfold load16, store16. rewrite Ha, Hb.
  assert (a <> b + 1) as Hne by (intros ->; rewrite Z.odd_add, Hb in Ha; done).
  destruct (aget m b) as [hi|f] eqn:E1; [|done]. cbn [mbind result_bind].
  destruct (aset_cases m a hi) as [[Hin E2]|E2]; rewrite E2; cbn [mbind result_bind].
  - rewrite aget_insert_ne by lia. destruct (aget m (b + 1)) as [lo|f] eqn:E3; [|done]. cbn [mbind result_bind].
    assert (is_u8 lo) as Hlo.
    { apply aget_Ok_inv in E3 as [_ E3]. by apply (proj1 (Forall_lookup _ _) Hm) in E3. }
    unfold is_u8 in Hlo. rewrite Z.div_add_l, Z.div_small, Z.add_0_r, (Z.add_comm (hi * 256)), Z.mod_add, Z.mod_small by lia.
    by rewrite E2.
  - destruct (aget m (b + 1)) as [lo|f] eqn:E3; cbn [mbind result_bind].
    + destruct (aset_cases m a ((hi * 256 + lo) / 256)) as [[Hin _]|E4]; [|by rewrite E4].
      rewrite aset_in in E2 by done. done.
    + by rewrite (aget_fault _ _ _ E3).
Qed.

Lemma move16_bytes m a b m' :
  Forall is_u8 m -> (v ← aget m b; m ← aset m a v; v ← aget m (b + 1); aset m (a + 1) v) = Ok m' -> Forall is_u8 m'.
Proof.
  intros Hm H. res_inv.
  repeat match goal with
    | E : aget _ _ = Ok _ |- _ => apply aget_Ok_inv in E as [_ E]
    | E : aset ?l ?i ?x = Ok _ |- _ => destruct (aset_cases l i x) as [[_ E']|E']; rewrite E' in E; clear E'; simplify_eq
    end.
  assert (forall l (j : nat) x, Forall is_u8 l -> is_u8 x -> Forall is_u8 (<[j := x]> l)) as Hi
    by (intros; by apply Forall_insert).
  eapply Hi; [|by eapply Forall_lookup_1; [|eassumption]; eapply Hi; [|eapply Forall_lookup_1]].
  eapply Hi; [done|]. by eapply Forall_lookup_1.
Qed.

Lemma memcpyw_loop_bytes n m a b :
  Forall is_u8 m -> Z.odd a = false -> Z.odd b = false ->
  memcpyw_loop n m a b = memcpyb_loop (2 * n) m a b.
Proof.
  revert m a b. induction n as [|n IH]; intros m a b Hm Ha Hb; [done|].
  replace (2 * S n)%nat with (S (S (2 * n))) by lia. cbn [memcpyw_loop memcpyb_loop].
  rewrite <- bind_assoc, move16 by done.
  transitivity ((v ← aget m b; m ← aset m a v; v ← aget m (b + 1); aset m (a + 1) v) ≫=
                (fun m => memcpyb_loop (2 * n) m (a + 2) (b + 2))).
  - destruct (v ← aget m b; m ← aset m a v; v ← aget m (b + 1); aset m (a + 1) v) as [m'|] eqn:E; [|done].
    cbn [mbind result_bind]. apply IH; [by eapply move16_bytes|rewrite Z.odd_add; by rewrite ?Ha, ?Hb..].
  - replace (a + 1 + 1) with (a + 2) by lia. replace (b + 1 + 1) with (b + 2) by lia.
    destruct (aget m b) as [v|]; [|done]. cbn [mbind result_bind].
    destruct (aset m a v) as [m1|]; [|done]. cbn [mbind result_bind]. by destruct (aget m1 (b + 1)).
Qed.

(** [memcpyw] is [memcpyb] on twice the length: for even addresses the
    two do the same to the memory, faults and overlapping ranges included. *)
Theorem memcpyw_is_memcpyb (m : list Z) (a b len : Z) :
  Forall is_u8 m -> Z.odd a = false -> Z.odd b = false -> 0 <= len < 2 ^ 31 ->
  memcpyw m a b len = memcpyb m a b (2 * len).
Proof.
  intros Hm Ha Hb Hl. unfold memcpyw, memcpyb. rewrite !u32_small by (unfold is_u32; lia).
  rewrite memcpyw_loop_bytes by done. f_equal. lia.
Qed.

Lemma memcpyw_is_memcpyb_witness :
  memcpyw [1; 2; 3; 4; 5; 6] 2 0 2 = memcpyb [1; 2; 3; 4; 5; 6] 2 0 4.
Proof.
  apply (memcpyw_is_memcpyb [1; 2; 3; 4; 5; 6] 2 0 2); [repeat constructor; done|done|done|done].
Defined.

(** ** Filling *)

Lemma memsetb_cells n m p c :
  0 <= p -> p + Z.of_nat n <= zlen m ->
  memsetb_loop n m p c = Ok (take (Z.to_nat p) m ++ replicate n c ++ drop (Z.to_nat p + n) m).
Proof.
  revert m p. induction n as [|n IH]; intros m p Hp Hn; cbn [memsetb_loop].
  { rewrite Nat.add_0_r. cbn. by rewrite take_drop. }
  rewrite aset_in by (unfold zlen in Hn; lia). cbn [mbind result_bind].
  rewrite IH by (unfold zlen in *; rewrite ?length_insert; lia). f_equal.
  replace (Z.to_nat (p + 1)) with (S (Z.to_nat p)) by lia. rewrite drop_insert_lt by lia.
  rewrite take_S_r with (x := c) by (apply list_lookup_insert_eq; unfold zlen in Hn; lia).
  rewrite take_insert_ge by lia. rewrite <- app_assoc, Nat.add_succ_r. done.
Qed.

Lemma memset_spec m p c len :
  0 <= len < 2 ^ 32 -> 0 <= p -> p + len <= zlen m ->
  memset m p c len = Ok (take (Z.to_nat p) m ++ replicate (Z.to_nat len) (u8 c) ++ drop (Z.to_nat (p + len)) m).
Proof.
  intros Hl Hp Hn. unfold memset, memsetb. rewrite u32_small by done. rewrite memsetb_cells by lia.
  by rewrite Z2Nat.inj_add by lia.
Qed.

(** ** Strings *)

(** The string that starts at [s]. *)
Definition string_at (m : list Z) (s : Z) (str : list Z) : Prop :=
  0 <= s /\ Forall (fun c => c <> 0) str /\ exists rest, drop (Z.to_nat s) m = str ++ 0 :: rest.

Lemma string_at_cons m s c str :
  string_at m s (c :: str) -> aget m s = Ok c /\ c <> 0 /\ string_at m (s + 1) str.
Proof.
  intros (Hs & Hz & rest & E). apply Forall_cons_iff in Hz as [Hc Hz].
  assert (m !! Z.to_nat s = Some c) as El.
  { rewrite <- (Nat.add_0_r (Z.to_nat s)), <- lookup_drop, E. done. }
  split_and!; [by apply aget_lookup|done|]. split_and!; [lia|done|]. exists rest.
  replace (Z.to_nat (s + 1)) with (Z.to_nat s + 1)%nat by lia. by rewrite <- drop_drop, E.
Qed.

Lemma string_at_nil m s : string_at m s [] -> aget m s = Ok 0.
Proof.
  intros (Hs & _ & rest & E). apply aget_lookup; [done|].
  by rewrite <- (Nat.add_0_r (Z.to_nat s)), <- lookup_drop, E.
Qed.

Lemma string_at_fits m s str : string_at m s str -> s + zlen str < zlen m.
Proof.
  intros (Hs & _ & rest & E). apply (f_equal length) in E. rewrite length_drop, length_app in E. cbn in E.
  unfold zlen. lia.
Qed.

(** A store elsewhere leaves the string. *)
Lemma string_at_insert m s str d c :
  string_at m s str -> 0 <= d -> d < s \/ s + zlen str < d -> string_at (<[Z.to_nat d := c]> m) s str.
Proof.
  intros (Hs & Hz & rest & E) Hd H. split_and!; [done|done|]. destruct H as [H|H].
  - exists rest. by rewrite drop_insert_lt by lia.
  - unfold zlen in H. exists (<[(Z.to_nat d - Z.to_nat s - S (length str))%nat := c]> rest).
    rewrite drop_insert_ge, E by lia. rewrite insert_app_r_alt by lia. f_equal.
    by replace (Z.to_nat d - Z.to_nat s - length str)%nat
      with (S (Z.to_nat d - Z.to_nat s - S (length str))) by lia.
Qed.

(** So does any change elsewhere. *)
Lemma string_at_apart m m' d s str :
  string_at m s str -> d + zlen str < s \/ s + zlen str < d -> length m' = length m ->
  (forall j, 0 <= j -> ~ (d <= j <= d + zlen str) -> m' !! Z.to_nat j = m !! Z.to_nat j) -> string_at m' s str.
Proof.
  intros H Ho Hl Hout. pose proof (string_at_fits m s str H) as Hf. destruct H as (Hs & Hz & rest & E).
  split_and!; [done|done|]. set (n := S (length str)).
  exists (drop n (drop (Z.to_nat s) m')). rewrite <- (take_drop n (drop (Z.to_nat s) m')) at 1.
  replace (take n (drop (Z.to_nat s) m')) with (str ++ [0]); [by rewrite <- app_assoc|].
  transitivity (take n (drop (Z.to_nat s) m)).
  { rewrite E. change (0 :: rest) with ([0] ++ rest). rewrite app_assoc, take_app_length'; [done|].
    rewrite length_app. subst n. cbn. lia. }
  apply list_eq. intros i. destruct (decide (i < n)%nat).
  - rewrite !lookup_take_lt, !lookup_drop by lia. specialize (Hout (s + Z.of_nat i)).
    replace (Z.to_nat (s + Z.of_nat i)) with (Z.to_nat s + i)%nat in Hout by lia. rewrite Hout; unfold zlen in *; lia || done.
  - rewrite !lookup_take_ge by lia. done.
Qed.

Lemma strlen_loop_spec str fuel m s :
  string_at m s str -> (length str < fuel)%nat -> strlen_loop fuel m s = Ok (s + zlen str).
Proof.
  revert fuel s. induction str as [|c str IH]; intros [|fuel] s H Hf; cbn in Hf; try lia; cbn [strlen_loop].
  - rewrite (string_at_nil _ _ H). cbn. by rewrite Z.add_0_r.
  - apply string_at_cons in H as (-> & Hc & H). cbn [mbind result_bind]. rewrite (proj2 (Z.eqb_neq _ _) Hc).
    rewrite IH by (done || lia). f_equal. unfold zlen. cbn. lia.
Qed.

Lemma strlen_spec m s str : string_at m s str -> zlen str < 2 ^ 31 -> strlen m s = Ok (zlen str).
Proof.
  intros H Hl. unfold strlen. pose proof (string_at_fits m s str H). pose proof (zlen_nonneg str).
  pose proof H as [Hs _]. rewrite (strlen_loop_spec str) by (done || unfold zlen in *; lia). cbn.
  f_equal. unfold i32. rewrite Z.mod_small by lia. lia.
Qed.

Lemma strcpy_loop_spec str fuel m d s :
  string_at m s str -> (length str < fuel)%nat -> 0 <= d -> d + zlen str < zlen m ->
  d + zlen str < s \/ s + zlen str < d ->
  strcpy_loop fuel m d s =
    Ok (take (Z.to_nat d) m ++ (str ++ [0]) ++ drop (Z.to_nat d + S (length str)) m).
Proof.
  revert fuel m d s. induction str as [|c str IH]; intros [|fuel] m d s H Hf Hd Hn Ho; cbn in Hf; try lia;
    cbn [strcpy_loop].
  - rewrite (string_at_nil _ _ H). cbn in Hn |- *. rewrite aset_in by (unfold zlen in *; cbn in *; lia).
    f_equal. rewrite insert_take_drop by (unfold zlen in *; cbn in *; lia). by rewrite Nat.add_1_r.
  - assert (zlen (c :: str) = zlen str + 1) as E by (unfold zlen; cbn; lia). rewrite E in *. pose proof (zlen_nonneg str).
    pose proof (string_at_insert m s (c :: str) d c H Hd ltac:(lia)) as H1.
    apply string_at_cons in H as (-> & Hc & _). apply string_at_cons in H1 as (_ & _ & H1). cbn [mbind result_bind].
    rewrite (proj2 (Z.eqb_neq _ _) Hc). rewrite aset_in by (unfold zlen in *; lia). cbn [mbind result_bind].
    rewrite IH by (done || unfold zlen in *; rewrite ?length_insert; lia). f_equal.
    replace (Z.to_nat (d + 1)) with (S (Z.to_nat d)) by lia. rewrite drop_insert_lt by lia.
    rewrite take_S_r with (x := c) by (apply list_lookup_insert_eq; unfold zlen in *; lia).
    rewrite take_insert_ge, <- app_assoc by lia. cbn. by rewrite <- Nat.add_succ_r.
Qed.

Lemma strcpy_spec m d s str :
  string_at m s str -> 0 <= d -> d + zlen str < zlen m -> d + zlen str < s \/ s + zlen str < d ->
  strcpy m d s = Ok (take (Z.to_nat d) m ++ (str ++ [0]) ++ drop (Z.to_nat d + S (length str)) m).
Proof.
  intros H Hd Hn Ho. unfold strcpy. apply strcpy_loop_spec; try done.
  pose proof (string_at_fits m s str H) as Hf. destruct H as [Hs _]. unfold zlen in *. lia.
Qed.

(** [strcpy] and [strlen] on a string and a destination apart from it:
    the copy is the same string, its length is what [strlen] says of both,
    and no byte outside the destination changes. *)
Theorem strcpy_roundtrip (m : list Z) (d s : Z) (str : list Z) :
  string_at m s str -> 0 <= d -> d + zlen str < zlen m -> zlen str < 2 ^ 31 ->
  d + zlen str < s \/ s + zlen str < d ->
  exists m', strcpy m d s = Ok m' /\ string_at m' d str /\ string_at m' s str /\
    strlen m' d = Ok (zlen str) /\ strlen m' s = Ok (zlen str) /\ length m' = length m /\
    (forall j, 0 <= j -> ~ (d <= j <= d + zlen str) -> m' !! Z.to_nat j = m !! Z.to_nat j).
Proof.
  intros H Hd Hn Hl Ho. set (m' := take (Z.to_nat d) m ++ (str ++ [0]) ++ drop (Z.to_nat d + S (length str)) m).
  assert (length (take (Z.to_nat d) m) = Z.to_nat d) as Lt by (rewrite length_take; unfold zlen in *; lia).
  assert (string_at m' d str) as H1.
  { pose proof H as (Hs & Hz & _). split_and!; [done|done|]. exists (drop (Z.to_nat d + S (length str)) m).
    unfold m'. rewrite drop_app_length' by done. by rewrite <- app_assoc. }
  assert (forall j, 0 <= j -> ~ (d <= j <= d + zlen str) -> m' !! Z.to_nat j = m !! Z.to_nat j) as Hout.
  { intros j Hj Hx. unfold m', zlen in *. destruct (decide (j < d)).
    - rewrite lookup_app_l by lia. apply lookup_take_lt. lia.
    - rewrite !lookup_app_r by (rewrite ?length_app; cbn; lia). rewrite lookup_drop, length_app, Lt. cbn. f_equal. lia. }
  assert (length m' = length m) as Lm
    by (unfold m', zlen in *; rewrite !length_app, length_drop, Lt; cbn; lia).
  assert (string_at m' s str) as H2 by (by apply (string_at_apart m m' d)).
  exists m'. split_and!; [by apply strcpy_spec|done|done|by apply strlen_spec..|done|done].
Qed.

Lemma strcpy_roundtrip_witness :
  exists m', strcpy [9; 9; 9; 9; 65; 66; 0; 9] 0 4 = Ok m' /\ string_at m' 0 [65; 66] /\ string_at m' 4 [65; 66] /\
    strlen m' 0 = Ok 2 /\ strlen m' 4 = Ok 2 /\ length m' = 8%nat /\
    (forall j, 0 <= j -> ~ (0 <= j <= 0 + 2) -> m' !! Z.to_nat j = [9; 9; 9; 9; 65; 66; 0; 9] !! Z.to_nat j).
Proof.
  apply (strcpy_roundtrip [9; 9; 9; 9; 65; 66; 0; 9] 0 4 [65; 66]); [|done|done|done|by left].
  split_and!; [done|repeat constructor; done|]. by exists [9].
Defined.
