(* ===== verification/Init.v ===== *)
(** * Start-up and exception vectors (firmware/src/init.c, interrupts_default.c, mrlaggy.ld)

    The reset handler up to the call of [main], over the byte memory of
    Util.v, and the vector table with the handlers it names. *)

From S2P Require Import Prelude Printf Formats Util.

(** The symbols of the linker script that the code uses. *)
Record symbols : Type := mkSymbols {
  _etext : Z;
  _sdata : Z;
  _edata : Z;
  _sbss : Z;
  _ebss : Z
}.

(** [for (; data_ptr < &_edata;) *data_ptr++ = *init_values_ptr++] *)
Fixpoint copy_data (fuel : nat) (edata data_ptr init_values_ptr : Z) (m : list Z) : result (list Z) :=
  if data_ptr <? edata then
    match fuel with
    | O => Err Hang
    | S fuel =>
        v ← load16 m init_values_ptr;
        m ← store16 m data_ptr v;
        copy_data fuel edata (data_ptr + 2) (init_values_ptr + 2) m
    end
  else Ok m.

(** [for (bss_ptr = &_sbss; bss_ptr < &_ebss;) *bss_ptr++ = 0] *)
Fixpoint clear_bss (fuel : nat) (ebss bss_ptr : Z) (m : list Z) : result (list Z) :=
  if bss_ptr <? ebss then
    match fuel with
    | O => Err Hang
    | S fuel => m ← store16 m bss_ptr 0; clear_bss fuel ebss (bss_ptr + 2) m
    end
  else Ok m.

(** The memory [main] starts with; the fuel is a word per byte of memory. *)
Definition reset_handler (sym : symbols) (m : list Z) : result (list Z) :=
  let fuel := length m in
  m ← (if _etext sym =? _sdata sym then Ok m else copy_data fuel (_edata sym) (_sdata sym) (_etext sym) m);
  clear_bss fuel (_ebss sym) (_sbss sym) m.

(** ** Vectors *)

Inductive handler : Type :=
  | reset_handler_ | bus_error_handler | address_error_handler | illegal_instruction_handler
  | zero_divide_handler | chk_handler | trapv_handler | priv_violation_handler | trace_handler
  | trap_1010_handler | trap_1111_handler | uninitialized_handler | spurious_handler
  | level1_handler | level2_handler | level3_handler | level4_handler | level5_handler | level6_handler
  | level7_handler
  | trap0_handler | trap1_handler | trap2_handler | trap3_handler | trap4_handler | trap5_handler
  | trap6_handler | trap7_handler | trap8_handler | trap9_handler | trap10_handler | trap11_handler
  | trap12_handler | trap13_handler | trap14_handler | trap15_handler.

Inductive vector : Type :=
  | estack
  | code (h : handler)
  | NULL.

(** The initialiser; the elements after it are null. *)
Definition exception_vectors : list vector :=
  [estack; code reset_handler_; code bus_error_handler; code address_error_handler;
   code illegal_instruction_handler; code zero_divide_handler; code chk_handler; code trapv_handler;
   code priv_violation_handler; code trace_handler; code trap_1010_handler; code trap_1111_handler;
   NULL; NULL; NULL; code uninitialized_handler;
   NULL; NULL; NULL; NULL; NULL; NULL; NULL; NULL;
   code spurious_handler; code level1_handler; code level2_handler; code level3_handler; code level4_handler;
   code level5_handler; code level6_handler; code level7_handler;
   code trap0_handler; code trap1_handler; code trap2_handler; code trap3_handler; code trap4_handler;
   code trap5_handler; code trap6_handler; code trap7_handler; code trap8_handler; code trap9_handler;
   code trap10_handler; code trap11_handler; code trap12_handler; code trap13_handler; code trap14_handler;
   code trap15_handler; NULL] ++ replicate 207 NULL.

(** The bodies of interrupts_default.c: an endless loop or a return. *)
Inductive body : Type := Loops | Returns.
Definition default_handler (h : handler) : option body :=
  match h with
  | reset_handler_ => None
  | bus_error_handler | address_error_handler | illegal_instruction_handler => Some Loops
  | _ => Some Returns
  end.

(** The weak definitions that main.c replaces. *)
Definition strong (h : handler) : bool :=
  match h with level2_handler | level4_handler | level6_handler => true | _ => false end.

(** ** The exceptions of the 68000 and their vector numbers *)

Inductive exception : Type :=
  | Reset | BusError | AddressErr | IllegalInstruction | ZeroDivide | Chk | TrapV | PrivilegeViolation
  | Trace | LineA | LineF | Uninitialized | Spurious
  | Autovector (level : Z)
  | Trap (n : Z).

Definition vector_number (e : exception) : Z :=
  match e with
  | Reset => 1 | BusError => 2 | AddressErr => 3 | IllegalInstruction => 4 | ZeroDivide => 5 | Chk => 6
  | TrapV => 7 | PrivilegeViolation => 8 | Trace => 9 | LineA => 10 | LineF => 11 | Uninitialized => 15
  | Spurious => 24 | Autovector level => 24 + level | Trap n => 32 + n
  end.

Definition raised (e : exception) : Prop :=
  match e with Autovector level => 1 <= level <= 7 | Trap n => 0 <= n <= 15 | _ => True end.

Definition levels : list handler :=
  [level1_handler; level2_handler; level3_handler; level4_handler; level5_handler; level6_handler; level7_handler].
Definition traps : list handler :=
  [trap0_handler; trap1_handler; trap2_handler; trap3_handler; trap4_handler; trap5_handler; trap6_handler;
   trap7_handler; trap8_handler; trap9_handler; trap10_handler; trap11_handler; trap12_handler; trap13_handler;
   trap14_handler; trap15_handler].

Definition handler_for (e : exception) : option handler :=
  match e with
  | Reset => Some reset_handler_
  | BusError => Some bus_error_handler
  | AddressErr => Some address_error_handler
  | IllegalInstruction => Some illegal_instruction_handler
  | ZeroDivide => Some zero_divide_handler
  | Chk => Some chk_handler
  | TrapV => Some trapv_handler
  | PrivilegeViolation => Some priv_violation_handler
  | Trace => Some trace_handler
  | LineA => Some trap_1010_handler
  | LineF => Some trap_1111_handler
  | Uninitialized => Some uninitialized_handler
  | Spurious => Some spurious_handler
  | Autovector level => levels !! Z.to_nat (level - 1)
  | Trap n => traps !! Z.to_nat n
  end.

(** A number between two others is one of those between them. *)
Ltac enumerate n :=
  lazymatch goal with
  | H : ?lo <= n <= ?hi |- _ =>
      tryif (constr_eq lo hi) then (assert (n = lo) as -> by lia)
      else (destruct (decide (n = lo)) as [->|];
            [|let lo' := eval vm_compute in (lo + 1) in
              assert (lo' <= n <= hi) by lia; clear H; enumerate n])
  end.

(** The vector table has its 256 entries in the order of the processor's
    vector numbers: whatever exception is raised, its entry is the handler of
    that name, and only a bus error, an address error or an illegal
    instruction stop the program; every other one that main.c does not handle
    returns. *)
Theorem vectors_match (e : exception) :
  raised e ->
  length exception_vectors = 256%nat /\
  exists h, handler_for e = Some h /\ aget exception_vectors (vector_number e) = Ok (code h) /\
    (default_handler h = Some Loops <-> e = BusError \/ e = AddressErr \/ e = IllegalInstruction) /\
    (strong h = true <-> e = Autovector 2 \/ e = Autovector 4 \/ e = Autovector 6).
Proof.
  intros H. split; [done|].
  destruct e as [| | | | | | | | | | | | |level|n]; cbn [raised] in H; try enumerate level; try enumerate n;
    (eexists; split_and!; [reflexivity|reflexivity|split; intuition discriminate..]).
Qed.

Lemma vectors_match_witness :
  length exception_vectors = 256%nat /\
  exists h, handler_for (Autovector 6) = Some h /\
    aget exception_vectors (vector_number (Autovector 6)) = Ok (code h) /\
    (default_handler h = Some Loops <->
       Autovector 6 = BusError \/ Autovector 6 = AddressErr \/ Autovector 6 = IllegalInstruction) /\
    (strong h = true <-> Autovector 6 = Autovector 2 \/ Autovector 6 = Autovector 4 \/ Autovector 6 = Autovector 6).
Proof. apply (vectors_match (Autovector 6)). cbn. lia. Defined.

(** ** The memory [main] starts with *)

(** The layout of mrlaggy.ld: the image of the initialised data follows the
    text, the zero segment and then the data are in the RAM, all on words. *)
Definition layout (sym : symbols) (m : list Z) : Prop :=
  0 <= _etext sym /\ _etext sym + (_edata sym - _sdata sym) <= _sbss sym /\
  _sbss sym <= _ebss sym <= _sdata sym /\ _sdata sym <= _edata sym <= zlen m /\
  Z.odd (_etext sym) = false /\ Z.odd (_sbss sym) = false /\ Z.odd (_ebss sym) = false /\
  Z.odd (_sdata sym) = false /\ Z.odd (_edata sym) = false.

(** The loop over the data is [memcpyw], and the other one [memsetw]. *)
Lemma copy_data_memcpyw n fuel edata d i m :
  edata = d + 2 * Z.of_nat n -> (n <= fuel)%nat ->
  copy_data fuel edata d i m = memcpyw_loop n m d i.
Proof.
  revert fuel d i m. induction n as [|n IH]; intros fuel d i m E Hf.
  - destruct fuel; cbn; by rewrite (proj2 (Z.ltb_ge _ _)) by lia.
  - destruct fuel as [|fuel]; [lia|]. cbn. rewrite (proj2 (Z.ltb_lt _ _)) by lia.
    destruct (load16 m i) as [v|]; [|done]. cbn. destruct (store16 m d v); [|done]. cbn. apply IH; lia.
Qed.

Lemma clear_bss_memsetw n fuel ebss p m :
  ebss = p + 2 * Z.of_nat n -> (n <= fuel)%nat -> clear_bss fuel ebss p m = memsetw_loop n m p 0.
Proof.
  revert fuel p m. induction n as [|n IH]; intros fuel p m E Hf.
  - destruct fuel; cbn; by rewrite (proj2 (Z.ltb_ge _ _)) by lia.
  - destruct fuel as [|fuel]; [lia|]. cbn. rewrite (proj2 (Z.ltb_lt _ _)) by lia.
    destruct (store16 m p 0); [|done]. cbn. apply IH; lia.
Qed.

Lemma memsetw_zero n m p : Z.odd p = false -> memsetw_loop n m p 0 = memsetb_loop (2 * n) m p 0.
Proof.
  revert m p. induction n as [|n IH]; intros m p Hp; [done|]. replace (2 * S n)%nat with (S (S (2 * n))) by lia.
  cbn [memsetw_loop memsetb_loop]. unfold store16. rewrite Hp. change (0 / 256) with 0. change (0 mod 256) with 0.
  destruct (aset m p 0) as [m1|]; [|done]. cbn [mbind result_bind]. destruct (aset m1 (p + 1) 0) as [m2|]; [|done].
  cbn [mbind result_bind]. replace (p + 1 + 1) with (p + 2) by lia. apply IH. by rewrite Z.odd_add, Hp.
Qed.

Lemma even_gap a b : a <= b -> Z.odd a = false -> Z.odd b = false -> exists n, b = a + 2 * Z.of_nat n.
Proof.
  intros H Ha Hb. pose proof (Zodd_even_bool a) as Ea. pose proof (Zodd_even_bool b) as Eb. rewrite Ha in Ea. rewrite Hb in Eb.
  symmetry in Ea, Eb. apply negb_false_iff, Z.even_spec in Ea as [x ->]. apply negb_false_iff, Z.even_spec in Eb as [z ->].
  exists (Z.to_nat (z - x)). lia.
Qed.

Lemma patch_zero n m p :
  0 <= p -> p + Z.of_nat n <= zlen m ->
  patched m (take (Z.to_nat p) m ++ replicate n 0 ++ drop (Z.to_nat p + n) m) p (Z.of_nat n) (fun _ => Some 0).
Proof.
  intros Hp Hn. unfold zlen in Hn. assert (length (take (Z.to_nat p) m) = Z.to_nat p) as L by (rewrite length_take; lia).
  split_and!.
  - rewrite !length_app, L, length_replicate, length_drop. lia.
  - intros i Hi. rewrite lookup_app_r, lookup_app_l by (rewrite ?length_replicate; lia).
    apply lookup_replicate. split; [done|lia].
  - intros j Hj Ho. destruct (decide (j < p)).
    + rewrite lookup_app_l by lia. apply lookup_take_lt. lia.
    + rewrite !lookup_app_r by (rewrite ?length_replicate; lia). rewrite lookup_drop, length_replicate, L. f_equal. lia.
Qed.

(** C39: Start-up establishes what C assumes of static objects: with the
    layout of the linker script the reset handler reaches [main], and then
    the data segment holds its image from the ROM, the zero segment is zero
    and every other byte is as it was. *)
Theorem startup_memory (sym : symbols) (m : list Z) :
  Forall is_u8 m -> layout sym m ->
  exists m', reset_handler sym m = Ok m' /\ length m' = length m /\
    (forall i, 0 <= i < _edata sym - _sdata sym -> m' !! Z.to_nat (_sdata sym + i) = m !! Z.to_nat (_etext sym + i)) /\
    (forall a, _sbss sym <= a < _ebss sym -> m' !! Z.to_nat a = Some 0) /\
    (forall a, 0 <= a -> ~ (_sdata sym <= a < _edata sym) -> ~ (_sbss sym <= a < _ebss sym) ->
       m' !! Z.to_nat a = m !! Z.to_nat a).
Proof.
  intros Hm (H1 & H2 & H3 & H4 & O1 & O2 & O3 & O4 & O5). destruct sym as [et sd ed sb eb]. cbn in *.
  assert (exists nd, ed = sd + 2 * Z.of_nat nd) as [nd Hd] by (apply even_gap; [lia|done..]).
  assert (exists nb, eb = sb + 2 * Z.of_nat nb) as [nb Hb] by (apply even_gap; [lia|done..]).
  assert (exists m1, (if et =? sd then Ok m else copy_data (length m) ed sd et m) = Ok m1 /\ 
    patched m m1 sd (ed - sd) (fun i => m !! Z.to_nat (et + i))) as (m1 & E1 & P1 & P2 & P3).
  { destruct (Z.eqb_spec et sd) as [->|Hne]; [exists m; by split_and!|].
    rewrite (copy_data_memcpyw nd), memcpyw_loop_bytes by (done || unfold zlen in *; lia).
    destruct (memcpyb_cells (2 * nd) m sd et) as (m1 & E & P); [lia..|]. exists m1. split; [done|].
    replace (ed - sd) with (Z.of_nat (2 * nd)) by lia. destruct P as (P1 & P2 & P3). split_and!; [done| |done].
    intros i Hi. rewrite P2 by done. unfold source_of. rewrite (proj2 (Z.leb_gt _ _)), Z.mod_small by lia. done. }
  unfold reset_handler. cbn. rewrite E1. cbn. rewrite (clear_bss_memsetw nb), memsetw_zero by (done || unfold zlen in *; lia).
  rewrite memsetb_cells by (unfold zlen in *; lia). eexists. split; [done|].
  destruct (patch_zero (2 * nb) m1 sb) as (Q1 & Q2 & Q3); [lia|unfold zlen in *; lia|].
  split_and!.
  - by rewrite Q1.
  - intros i Hi. rewrite Q3 by lia. by apply P2.
  - intros a Ha. replace a with (sb + (a - sb)) by lia. apply Q2. lia.
  - intros a Ha N1 N2. rewrite Q3 by lia. apply P3; lia.
Qed.

Lemma startup_memory_witness :
  let sym := {| _etext := 2; _sdata := 8; _edata := 12; _sbss := 6; _ebss := 8 |} in
  let m := [1; 2; 3; 4; 5; 6; 7; 8; 9; 10; 11; 12] in
  exists m', reset_handler sym m = Ok m' /\ length m' = length m /\
    (forall i, 0 <= i < 12 - 8 -> m' !! Z.to_nat (8 + i) = m !! Z.to_nat (2 + i)) /\
    (forall a, 6 <= a < 8 -> m' !! Z.to_nat a = Some 0) /\
    (forall a, 0 <= a -> ~ (8 <= a < 12) -> ~ (6 <= a < 8) -> m' !! Z.to_nat a = m !! Z.to_nat a).
Proof.
  apply (startup_memory {| _etext := 2; _sdata := 8; _edata := 12; _sbss := 6; _ebss := 8 |}).
  - repeat constructor; done.
  - unfold layout. cbn. split_and!; done.
Defined.
