(* ===== verification/Gfx.v ===== *)
(** * Drawing (firmware/src/gfx.c, gfx.h)

    The context stack, the two pages of the tile map, and the drawing
    operations, as state passing over the globals of gfx.c, the tile map
    memory and the pad.  Menus are in Menu.v, the video mode in Video.v. *)

From S2P Require Import Prelude Input Blitter Printf Formats.

Definition ALIGN_NONE : Z := 0.
Definition ALIGN_LEFT : Z := 1 <<< 0.
Definition ALIGN_RIGHT : Z := 1 <<< 1.
Definition ALIGN_CENTER : Z := 1 <<< 2.
Definition ALIGN_TOP : Z := 1 <<< 3.
Definition ALIGN_MIDDLE : Z := 1 <<< 4.
Definition ALIGN_BOTTOM : Z := 1 <<< 5.

Definition TILE_MAX_W : Z := 128.
Definition CHR_HORIZ : Z := 18.
Definition CHR_VERT : Z := 124.
Definition CHR_TR : Z := 5.
Definition CHR_TL : Z := 17.
Definition CHR_BR : Z := 3.
Definition CHR_BL : Z := 26.
Definition CHR_TOP : Z := 13.
Definition CHR_BOT : Z := 14.
Definition CHR_LEFT : Z := 22.
Definition CHR_RIGHT : Z := 2.

Definition TEXT_INVERT : Z := 0x01.
Definition TEXT_DARK : Z := 0x00.
Definition TEXT_DARK_GRAY : Z := 0x02.
Definition TEXT_GRAY : Z := 0x04.
Definition TEXT_DARK_BLUE : Z := 0x08.
Definition TEXT_BLUE : Z := 0x0a.
Definition TEXT_RED : Z := 0x0e.
Definition TEXT_ORANGE : Z := 0x1a.

(** [MenuContext] *)
Record MenuContext : Type := mkMenuContext {
  index : Z;
  count : Z;
  tmp_option_idx : Z
}.
Definition INIT_MENU_CONTEXT : MenuContext := {| index := -1; count := -1; tmp_option_idx := -1 |}.

(** [Context]; the menu pointer is a position in the list of menus. *)
Record Context : Type := mkContext {
  pen : Z;
  sameline : bool;
  rx : Z;
  ry : Z;
  rw : Z;
  rh : Z;
  y : Z;
  prevx : Z;
  highlighted : Z;
  menuctx : option Z
}.

Definition context0 : Context :=
  {| pen := 0; sameline := false; rx := 0; ry := 0; rw := 0; rh := 0; y := 0; prevx := 0; highlighted := 0;
     menuctx := None |}.

Definition NUM_CTX : Z := 8.
Definition VRAM_BASE : Z := 0x900000.

(** The accesses of the code to the tile map: a word of its memory, a job of
    the blitter with these registers, its two offset registers. *)
Inductive access : Type := Stored (a x : Z) | Filled (r : Blitter) | Flipped (tc : Z * Z).

(** The globals of gfx.c: [tile_ctrl] are the offset registers of the tile
    map, [vram] and [page_vram] byte addresses, [ctx] the position in
    [contexts] the pointer has, [tiles] the memory of the tile map.  [log] is
    not in the code: the accesses so far, for the proofs. *)
Record gfx : Type := mkGfx {
  tile_ctrl : Z * Z;
  page_tile_ctrl : list (Z * Z);
  page_vram : list Z;
  vram : Z;
  page_front : Z;
  contexts : list Context;
  context_idx : Z;
  ctx : Z;
  tiles : vmem;
  menus : list MenuContext;
  inp : Input;
  log : list access
}.

(** The static initialisers, over any memory contents. *)
Definition gfx_init (m : vmem) : gfx :=
  {| tile_ctrl := (0, 0); page_tile_ctrl := [(0, 0); (0, 0)]; page_vram := [0; 0]; vram := VRAM_BASE;
     page_front := 0; contexts := replicate 8 context0; context_idx := 0; ctx := 0; tiles := m;
     menus := [INIT_MENU_CONTEXT]; inp := input_init; log := [] |}.

Definition with_contexts (g : gfx) (cs : list Context) : gfx :=
  {| tile_ctrl := tile_ctrl g; page_tile_ctrl := page_tile_ctrl g; page_vram := page_vram g; vram := vram g;
     page_front := page_front g; contexts := cs; context_idx := context_idx g; ctx := ctx g;
     tiles := tiles g; menus := menus g; inp := inp g; log := log g |}.
Definition with_stack (g : gfx) (cs : list Context) (i c : Z) : gfx :=
  {| tile_ctrl := tile_ctrl g; page_tile_ctrl := page_tile_ctrl g; page_vram := page_vram g; vram := vram g;
     page_front := page_front g; contexts := cs; context_idx := i; ctx := c;
     tiles := tiles g; menus := menus g; inp := inp g; log := log g |}.
Definition with_tiles (g : gfx) (xs : list access) (m : vmem) : gfx :=
  {| tile_ctrl := tile_ctrl g; page_tile_ctrl := page_tile_ctrl g; page_vram := page_vram g; vram := vram g;
     page_front := page_front g; contexts := contexts g; context_idx := context_idx g; ctx := ctx g;
     tiles := m; menus := menus g; inp := inp g; log := log g ++ xs |}.
Definition with_menus (g : gfx) (ms : list MenuContext) : gfx :=
  {| tile_ctrl := tile_ctrl g; page_tile_ctrl := page_tile_ctrl g; page_vram := page_vram g; vram := vram g;
     page_front := page_front g; contexts := contexts g; context_idx := context_idx g; ctx := ctx g;
     tiles := tiles g; menus := ms; inp := inp g; log := log g |}.
Definition with_input (g : gfx) (i : Input) : gfx :=
  {| tile_ctrl := tile_ctrl g; page_tile_ctrl := page_tile_ctrl g; page_vram := page_vram g; vram := vram g;
     page_front := page_front g; contexts := contexts g; context_idx := context_idx g; ctx := ctx g;
     tiles := tiles g; menus := menus g; inp := i; log := log g |}.
Definition with_page (g : gfx) (front v : Z) (tc : Z * Z) : gfx :=
  {| tile_ctrl := tc; page_tile_ctrl := page_tile_ctrl g; page_vram := page_vram g; vram := v;
     page_front := front; contexts := contexts g; context_idx := context_idx g; ctx := ctx g;
     tiles := tiles g; menus := menus g; inp := inp g; log := log g ++ [Flipped tc] |}.

(** ** The context stack *)

(** [*ctx] *)
Definition get_ctx : M gfx Context := fun g => lift (aget (contexts g) (ctx g)) g.
Definition set_ctx (c : Context) : M gfx unit :=
  fun g => match aset (contexts g) (ctx g) c with Ok cs => Ok (tt, with_contexts g cs) | Err f => Err f end.

Definition set_pen (p : Z) (c : Context) : Context :=
  {| pen := p; sameline := sameline c; rx := rx c; ry := ry c; rw := rw c; rh := rh c; y := y c;
     prevx := prevx c; highlighted := highlighted c; menuctx := menuctx c |}.
Definition set_rect (x' y' w h : Z) (c : Context) : Context :=
  {| pen := pen c; sameline := sameline c; rx := x'; ry := y'; rw := w; rh := h; y := y c;
     prevx := prevx c; highlighted := highlighted c; menuctx := menuctx c |}.
Definition set_line (same : bool) (y' px : Z) (c : Context) : Context :=
  {| pen := pen c; sameline := same; rx := rx c; ry := ry c; rw := rw c; rh := rh c; y := y';
     prevx := px; highlighted := highlighted c; menuctx := menuctx c |}.
Definition set_menuctx (m : option Z) (c : Context) : Context :=
  {| pen := pen c; sameline := sameline c; rx := rx c; ry := ry c; rw := rw c; rh := rh c; y := y c;
     prevx := prevx c; highlighted := highlighted c; menuctx := m |}.

(** The copy goes to [contexts[context_idx]] after the increment. *)
Definition gfx_push : M gfx unit :=
  i ← gets context_idx;
  if i <? NUM_CTX then
    c ← get_ctx;
    cs ← gets contexts;
    cs ← lift (aset cs (i + 1) c);
    modify (fun g => with_stack g cs (i + 1) (i + 1))
  else modify (fun g => with_stack g (contexts g) (i + 1) (ctx g)).

Definition gfx_pop : M gfx unit :=
  i ← gets context_idx;
  let i := if 0 <? i then i - 1 else i in
  modify (fun g => with_stack g (contexts g) i (if i <? NUM_CTX then i else ctx g)).

(** ** Pages *)

Definition gfx_pageflip : M gfx unit :=
  g ← gets id;
  let page_back := page_front g in
  let front := if page_front g =? 0 then 1 else 0 in
  tc ← lift (aget (page_tile_ctrl g) front);
  v ← lift (aget (page_vram g) page_back);
  modify (fun g => with_page g front v tc);;
  modify (fun g => with_stack g (contexts g) 0 (ctx g));;
  gfx_push.

(** ** Memory *)

(** [vram[i] = x]: the array has 16384 words from [VRAM_BASE]. *)
Definition vram_store (i x : Z) : M gfx unit :=
  g ← gets id;
  let a := (vram g - VRAM_BASE) / 2 + i in
  if (0 <=? a) && (a <? VRAM_WORDS) then modify (fun g => with_tiles g [Stored a (u16 x)] (vwrite a (u16 x) (tiles g)))
  else lift (Err OutOfBounds).

(** [blitter->submit = 1] with these registers. *)
Definition submit (r : Blitter) : M gfx unit :=
  g ← gets id;
  m ← lift (blit r (tiles g));
  modify (fun g => with_tiles g [Filled r] m).

(** [(((uint32_t)vram) >> 1) & 0xffff] *)
Definition base_addr (v : Z) : Z := (v >>> 1) &&& 0xffff.

Definition gfx_clear : M gfx unit :=
  c ← get_ctx;
  v ← gets vram;
  let ofs := u16 (ry c * TILE_MAX_W + rx c) in
  submit {| addr := u16 (base_addr v + ofs); value := 0x0020; span := u16 (rw c - 1);
            repeat := u16 (rh c - 1); skip := u16 (TILE_MAX_W - (rw c - 1)) |}.

Definition gfx_pen (color : Z) : M gfx unit :=
  c ← get_ctx;
  set_ctx (set_pen (u8 color) c).

(** The parameters are [uint16_t]: the arguments are converted. *)
Definition gfx_rect (x y' w h : Z) : M gfx unit :=
  let '(x, y', w, h) := (u16 x, u16 y', u16 w, u16 h) in
  c ← get_ctx;
  v ← gets vram;
  let ofs := u16 ((ry c + y') * TILE_MAX_W + x + rx c) in
  submit {| addr := u16 (base_addr v + ofs); value := u16 (pen c <<< 8 ||| 0x20); span := u16 (w - 1);
            repeat := u16 (h - 1); skip := u16 (TILE_MAX_W - (w - 1)) |}.

(** ** Frames, images, borders *)

Definition gfx_frame (x y' w h : Z) : M gfx unit :=
  let '(x, y', w, h) := (u16 x, u16 y', u16 w, u16 h) in
  c ← get_ctx;
  let color := u16 (pen c <<< 8) in
  let ofs := (ry c + y') * TILE_MAX_W + x + rx c in
  vram_store ofs (color ||| CHR_TL);;
  vram_store (ofs + w - 1) (color ||| CHR_TR);;
  for_from (Z.to_nat (w - 2)) 1 (fun i => vram_store (ofs + i) (color ||| CHR_HORIZ));;
  for_from (Z.to_nat (h - 2)) 1 (fun r =>
    let ofs := ofs + r * TILE_MAX_W in
    vram_store ofs (color ||| CHR_VERT);;
    vram_store (ofs + w - 1) (color ||| CHR_VERT));;
  let ofs := ofs + TILE_MAX_W + Z.of_nat (Z.to_nat (h - 2)) * TILE_MAX_W in
  vram_store ofs (color ||| CHR_BL);;
  vram_store (ofs + w - 1) (color ||| CHR_BR);;
  for_from (Z.to_nat (w - 2)) 1 (fun i => vram_store (ofs + i) (color ||| CHR_HORIZ)).

(** Both loops of [gfx_image] run to [h]; [tiledata] counts all of them. *)
Definition gfx_image (tile color x y' w h : Z) : M gfx unit :=
  let '(tile, color, x, y', w, h) := (u8 tile, u8 color, u16 x, u16 y', u16 w, u16 h) in
  let tiledata := u16 (color <<< 8 ||| tile) in
  c ← get_ctx;
  let ofs := (ry c + y') * TILE_MAX_W + x + rx c in
  for_from (Z.to_nat h) 0 (fun y2 =>
    for_from (Z.to_nat h) 0 (fun x2 =>
      vram_store (ofs + y2 * TILE_MAX_W + x2) (u16 (tiledata + y2 * h + x2)))).

Definition gfx_display_border : M gfx unit :=
  c ← get_ctx;
  let color := u16 (pen c <<< 8) in
  let y3 := rh c / 3 in
  let ofs := ry c * TILE_MAX_W + rx c + (rw c >>> 1) in
  vram_store ofs (color ||| CHR_TOP);;
  vram_store (ofs + 1) (color ||| CHR_TOP);;
  let ofs := ofs + TILE_MAX_W * (rh c - 1) in
  vram_store ofs (color ||| CHR_BOT);;
  vram_store (ofs + 1) (color ||| CHR_BOT);;
  let ofs := (ry c + (y3 - 1)) * TILE_MAX_W + rx c in
  vram_store ofs (color ||| CHR_LEFT);;
  vram_store (ofs + rw c - 1) (color ||| CHR_RIGHT);;
  let ofs := ofs + (y3 + 1) * TILE_MAX_W in
  vram_store ofs (color ||| CHR_LEFT);;
  vram_store (ofs + rw c - 1) (color ||| CHR_RIGHT).

(** ** Windows *)

(** The values stored through [x] and [y]. *)
Definition gfx_align_box (align xadj yadj w h : Z) (c : Context) : Z * Z :=
  let w := u16 w in
  let h := u16 h in
  (if has align ALIGN_CENTER then i16 (((rw c - w) >>> 1) + xadj)
   else if has align ALIGN_RIGHT then i16 ((rw c - w) - xadj)
   else i16 xadj,
   if has align ALIGN_MIDDLE then i16 (((rh c - h) >>> 1) + yadj)
   else if has align ALIGN_BOTTOM then i16 ((rh c - h) - yadj)
   else i16 yadj).

(** The box is stored through pointers to the [uint16_t] fields. *)
Definition gfx_begin_window (align x y' w h frame : Z) : M gfx unit :=
  gfx_push;;
  c ← get_ctx;
  let '(bx, by') := gfx_align_box align x y' w h c in
  set_ctx (set_rect (u16 bx) (u16 by') w h c);;
  if 0 <? frame then
    gfx_frame 0 0 w h;;
    c ← get_ctx;
    set_ctx (set_rect (u16 (rx c + frame)) (u16 (ry c + frame))
                      (u16 (rw c - (frame <<< 1))) (u16 (rh c - (frame <<< 1))) c)
  else mret tt.

Definition gfx_end_window : M gfx unit := gfx_pop.

(** ** Text *)

(** The loop over the characters; [ofs] is a [uint16_t]. *)
Fixpoint text_loop (str : list Z) (p ofs : Z) : M gfx unit :=
  match str with
  | [] => mret tt
  | ch :: str => vram_store ofs (u16 (p <<< 8 ||| ch));; text_loop str p (u16 (ofs + 1))
  end.

Definition gfx_text_aligned (align : Z) (str : list Z) : M gfx unit :=
  c ← get_ctx;
  let len := zlen str in
  let c := if sameline c then set_line false (if 0 <? y c then y c - 1 else 0) (prevx c) c
           else set_line false (y c) 0 c in
  let x := if has align ALIGN_LEFT then prevx c
           else if has align ALIGN_RIGHT then u16 (rw c - len)
           else if has align ALIGN_CENTER then u16 ((rw c - len) >>> 1)
           else 0 in
  let ofs := u16 ((ry c + y c) * TILE_MAX_W + x + rx c) in
  text_loop str (pen c) ofs;;
  set_ctx (set_line false (u16 (y c + 1)) (u16 (x + len)) c).

Definition gfx_text (str : list Z) : M gfx unit := gfx_text_aligned ALIGN_LEFT str.

(** [tmp] is the array on the stack, not initialised. *)
Definition gfx_textf_aligned (tmp : list Z) (align : Z) (fmt : list Z) (a : list vararg) : M gfx unit :=
  '(_, tmp) ← lift (snprintf_ tmp 40 fmt a);
  str ← lift (cstr tmp);
  gfx_text_aligned align str.

Definition gfx_sameline : M gfx unit :=
  c ← get_ctx;
  set_ctx (set_line true (y c) (prevx c) c).

Definition gfx_newline (n : Z) : M gfx unit :=
  c ← get_ctx;
  set_ctx (set_line (sameline c) (u16 (y c + n)) (prevx c) c).
