(* ===== verification/GfxProps.v ===== *)
(** * Properties of the drawing operations

    The array, index and pointer of gfx.c refine a stack of contexts; a blit
    fills exactly a rectangle and a text exactly its cells; and every
    operation keeps to the cells of the page it draws on. *)

From S2P Require Import Prelude Input Blitter Printf Formats Gfx.

(** ** The context stack *)

(** The array, the index and the pointer hold the stack [l ++ [c]]. *)
Definition stack (l : list Context) (c : Context) (g : gfx) : Prop :=
  length (contexts g) = 8%nat /\ context_idx g = zlen l /\ ctx g = zlen l /\
  take (S (length l)) (contexts g) = l ++ [c].

Lemma stack_lookup l c g : stack l c g -> contexts g !! length l = Some c.
Proof.
  intros (_ & _ & _ & H). rewrite <- (lookup_take_lt _ (S (length l))) by lia. rewrite H.
  by apply list_lookup_middle.
Qed.

Lemma stack_length l c g : stack l c g -> (length l < 8)%nat.
Proof. intros H. pose proof H as (L & _). apply stack_lookup, lookup_lt_Some in H. lia. Qed.

Lemma get_ctx_stack l c g : stack l c g -> get_ctx g = Ok (c, g).
Proof.
  intros H. pose proof H as (_ & _ & Hc & _). unfold get_ctx, lift. rewrite Hc.
  rewrite (aget_lookup _ _ c); [done|unfold zlen; lia|]. unfold zlen. rewrite Nat2Z.id. by apply stack_lookup.
Qed.

Lemma set_ctx_stack l c d g :
  stack l c g -> set_ctx d g = Ok (tt, with_contexts g (<[length l := d]> (contexts g))) /\
  stack l d (with_contexts g (<[length l := d]> (contexts g))).
Proof.
  intros H. pose proof (stack_length _ _ _ H). pose proof H as (L & Hi & Hc & Ht). unfold set_ctx. rewrite Hc.
  rewrite aset_in by (unfold zlen; lia). unfold zlen. rewrite Nat2Z.id. split; [done|].
  split_and!; cbn; [by rewrite length_insert|done|done|].
  rewrite take_insert_lt by lia. rewrite Ht. rewrite insert_app_r_alt by lia. by rewrite Nat.sub_diag.
Qed.

Lemma push_stack l c g :
  stack l c g -> (length l < 7)%nat ->
  exists cs, gfx_push g = Ok (tt, with_stack g cs (zlen l + 1) (zlen l + 1)) /\
    stack (l ++ [c]) c (with_stack g cs (zlen l + 1) (zlen l + 1)).
Proof.
  intros H Hl. pose proof H as (L & Hi & Hc & Ht). exists (<[S (length l) := c]> (contexts g)).
  unfold gfx_push, gets, mbind, M_bind, NUM_CTX. rewrite Hi.
  rewrite (proj2 (Z.ltb_lt (zlen l) 8)) by (unfold zlen; lia). rewrite (get_ctx_stack _ _ _ H).
  rewrite aset_in by (unfold zlen; lia). replace (Z.to_nat (zlen l + 1)) with (S (length l)) by (unfold zlen; lia).
  split; [done|]. split_and!; cbn; [by rewrite length_insert|unfold zlen; rewrite length_app; cbn; lia..|].
  rewrite length_app, Nat.add_comm. cbn.
  rewrite (take_S_r _ _ c) by (rewrite list_lookup_insert_eq by lia; done).
  by rewrite take_insert_ge, Ht by lia.
Qed.

Lemma pop_stack l c d g :
  stack (l ++ [c]) d g ->
  gfx_pop g = Ok (tt, with_stack g (contexts g) (zlen l) (zlen l)) /\
  stack l c (with_stack g (contexts g) (zlen l) (zlen l)).
Proof.
  intros H. pose proof (stack_length _ _ _ H) as HL. pose proof H as (L & Hi & Hc & Ht). rewrite length_app in *.
  unfold gfx_pop, gets, mbind, M_bind, NUM_CTX. rewrite Hi.
  assert (zlen (l ++ [c]) = zlen l + 1) as -> by apply zlen_app. cbn in HL.
  rewrite (proj2 (Z.ltb_lt 0 _)) by (unfold zlen; lia). replace (zlen l + 1 - 1) with (zlen l) by lia.
  rewrite (proj2 (Z.ltb_lt (zlen l) 8)) by (unfold zlen; lia). split; [done|].
  split_and!; cbn; try done.
  replace (take (S (length l)) (contexts g)) with (take (S (length l)) (take (S (length l + length [c])) (contexts g)))
    by (rewrite take_take; f_equal; cbn; lia).
  rewrite Ht, <- app_assoc. rewrite take_app_ge by lia. f_equal.
  by replace (S (length l) - length l)%nat with 1%nat by lia.
Qed.

(** ** What the memory operations draw *)

(** What the accesses do to the memory. *)
Definition access_run (x : access) (m : vmem) : result vmem :=
  match x with Stored a v => Ok (vwrite a v m) | Filled r => blit r m | Flipped _ => Ok m end.

Fixpoint access_runs (xs : list access) (m : vmem) : result vmem :=
  match xs with [] => Ok m | x :: xs => m ← access_run x m; access_runs xs m end.

(** The cells a job writes to. *)
Definition job_cells (r : Blitter) : list Z :=
  job_writes (addr r) (S (Z.to_nat (span r))) (S (Z.to_nat (repeat r))) (span r + skip r).

(** An access inside a page, with values of 16 bits. *)
Definition in_page (p a : Z) : Prop := p <= a < p + 8192.
Definition inside (p : Z) (x : access) : Prop :=
  match x with
  | Stored a v => in_page p a /\ is_u16 v
  | Filled r => (is_u16 (value r) /\ is_u16 (span r) /\ is_u16 (skip r) /\ is_u16 (repeat r) /\ is_u16 (addr r)) /\
      forall b, In b (job_cells r) -> in_page p (b mod VRAM_WORDS)
  | Flipped _ => False
  end.

(** The accesses between two states stay inside the page, and lead from the
    memory of the one to that of the other. *)
Definition draws_to (p : Z) (g g' : gfx) : Prop :=
  exists xs, log g' = log g ++ xs /\ Forall (inside p) xs /\ access_runs xs (tiles g) = Ok (tiles g').

Lemma access_runs_app xs ys m m' : access_runs xs m = Ok m' -> access_runs (xs ++ ys) m = access_runs ys m'.
Proof.
  revert m. induction xs as [|x xs IH]; intros m E; [by injection E as <-|]. cbn [access_runs Datatypes.app] in *.
  apply bind_Ok in E as (m1 & E1 & E2). rewrite E1. cbn [mbind result_bind]. by apply IH.
Qed.

Lemma draws_to_same p g g' : log g' = log g -> tiles g' = tiles g -> draws_to p g g'.
Proof. intros E1 E2. exists []. rewrite app_nil_r, E1, E2. by split_and!. Qed.

Lemma draws_to_trans p g1 g2 g3 : draws_to p g1 g2 -> draws_to p g2 g3 -> draws_to p g1 g3.
Proof.
  intros (xs & L1 & F1 & R1) (ys & L2 & F2 & R2). exists (xs ++ ys). split; [by rewrite L2, L1, app_assoc|].
  split; [by apply Forall_app_2|]. by rewrite (access_runs_app _ _ _ _ R1).
Qed.

Lemma draws_to_one p g x m : inside p x -> access_run x (tiles g) = Ok m -> draws_to p g (with_tiles g [x] m).
Proof. intros H E. exists [x]. split; [done|]. split; [by repeat constructor|]. cbn. by rewrite E. Qed.

(** The page the firmware draws on starts at the word [p]. *)
Definition page_at (p : Z) (g : gfx) : Prop := vram g = VRAM_BASE + 2 * p /\ (p = 0 \/ p = 8192).

Definition cell (p r c : Z) : Z := p + r * TILE_MAX_W + c.

Definition in_rect (p r c w h a : Z) : Prop :=
  exists i j, 0 <= i < h /\ 0 <= j < w /\ a = cell p (r + i) (c + j).

(** The same rectangle, decided by division. *)
Definition in_rectb (p r c w h a : Z) : bool :=
  let i := (a - p) / TILE_MAX_W - r in
  let j := (a - p) mod TILE_MAX_W - c in
  (0 <=? i) && (i <? h) && (0 <=? j) && (j <? w).

Lemma in_rectb_spec p r c w h a :
  0 <= c -> c + w <= TILE_MAX_W -> in_rectb p r c w h a = true <-> in_rect p r c w h a.
Proof.
  intros Hc Hw. unfold in_rectb, in_rect, cell, TILE_MAX_W in *. pose proof (Z_div_mod_eq_full (a - p) 128).
  pose proof (Z.mod_pos_bound (a - p) 128 ltac:(lia)). split.
  - intros Hb. exists ((a - p) / 128 - r), ((a - p) mod 128 - c). lia.
  - intros (i & j & Hi & Hj & ->). replace (p + (r + i) * 128 + (c + j) - p) with (c + j + (r + i) * 128) by lia.
    rewrite Z.div_add, Z.mod_add, Z.div_small, Z.mod_small by lia. lia.
Qed.

Lemma write_all_spec x cells m a :
  write_all x cells m a = if existsb (fun b => a =? b mod VRAM_WORDS) cells then x else m a.
Proof.
  revert m. induction cells as [|c cells IH]; intros m; [done|]. cbn. fold (write_all x cells (vwrite c x m)).
  rewrite IH. unfold vwrite. destruct (existsb _ cells); [by rewrite orb_true_r|].
  rewrite orb_false_r. done.
Qed.

Lemma elem_of_job_writes b a n k step :
  In b (job_writes a n k step) <->
  exists j i, 0 <= j < Z.of_nat k /\ 0 <= i < Z.of_nat n /\ b = u16 (a + j * step + i).
Proof.
  unfold job_writes, row_writes. rewrite in_concat. split.
  - intros (l & Hl & Hb). apply in_map_iff in Hl as (j & <- & Hj). apply in_map_iff in Hb as (i & <- & Hi).
    apply in_seq in Hj, Hi. exists (Z.of_nat j), (Z.of_nat i). split_and!; [lia..|done].
  - intros (j & i & Hj & Hi & ->). exists (row_writes (a + j * step) n). split.
    + apply in_map_iff. exists (Z.to_nat j). rewrite Z2Nat.id by lia. split; [done|]. apply in_seq. lia.
    + apply in_map_iff. exists (Z.to_nat i). rewrite Z2Nat.id by lia. split; [done|]. apply in_seq. lia.
Qed.

(** A job with the registers of a rectangle inside a page of 64 rows. *)
Lemma blit_rect p r c w h v m :
  (p = 0 \/ p = 8192) -> 0 <= r -> 0 <= c -> 1 <= w -> 1 <= h -> c + w <= TILE_MAX_W -> r + h <= 64 ->
  exists m', blit {| addr := u16 (cell p r c); value := v; span := u16 (w - 1); repeat := u16 (h - 1);
                     skip := u16 (TILE_MAX_W - (w - 1)) |} m = Ok m' /\
    forall a, m' a = if in_rectb p r c w h a then v else m a.
Proof.
  unfold TILE_MAX_W. intros Hp Hr Hc Hw Hh Hcw Hrh. unfold blit. cbn [repeat span skip addr value].
  rewrite !u16_small by (unfold is_u16, cell, TILE_MAX_W; lia).
  rewrite (proj2 (Z.eqb_neq (h - 1) 65535)) by lia. eexists. split; [done|]. intros a. rewrite write_all_spec.
  replace (w - 1 + (128 - (w - 1))) with 128 by lia.
  assert (existsb (fun b => a =? b mod VRAM_WORDS)
    (job_writes (cell p r c) (S (Z.to_nat (w - 1))) (S (Z.to_nat (h - 1))) 128) = in_rectb p r c w h a) as ->; [|done].
  apply eq_true_iff_eq. rewrite existsb_exists, in_rectb_spec by (unfold TILE_MAX_W; lia).
  unfold in_rect, cell, TILE_MAX_W, VRAM_WORDS. split.
  - intros (b & Hb & E). apply elem_of_job_writes in Hb as (j & i & Hj & Hi & ->). apply Z.eqb_eq in E.
    exists j, i. rewrite u16_small in E by (unfold is_u16, cell, TILE_MAX_W; lia).
    rewrite Z.mod_small in E by (unfold cell, TILE_MAX_W; lia). unfold cell, TILE_MAX_W in E. lia.
  - intros (j & i & Hj & Hi & ->). exists (p + (r + j) * 128 + (c + i)). split.
    + apply elem_of_job_writes. exists j, i. split_and!; [lia..|].
      rewrite u16_small by (unfold is_u16, cell, TILE_MAX_W; lia). unfold cell, TILE_MAX_W. lia.
    + apply Z.eqb_eq. rewrite Z.mod_small by lia. done.
Qed.

Lemma base_addr_page p g : page_at p g -> base_addr (vram g) = p.
Proof. intros [-> [-> | ->]]; reflexivity. Qed.

Lemma submit_rect p r c w h v g :
  (p = 0 \/ p = 8192) -> 0 <= r -> 0 <= c -> 1 <= w -> 1 <= h -> c + w <= TILE_MAX_W -> r + h <= 64 -> is_u16 v ->
  let j := {| addr := u16 (cell p r c); value := v; span := u16 (w - 1); repeat := u16 (h - 1);
              skip := u16 (TILE_MAX_W - (w - 1)) |} in
  exists m', submit j g = Ok (tt, with_tiles g [Filled j] m') /\ draws_to p g (with_tiles g [Filled j] m') /\
    forall a, m' a = if in_rectb p r c w h a then v else tiles g a.
Proof.
  intros Hp Hr Hc Hw Hh Hcw Hrh Hv j. destruct (blit_rect p r c w h v (tiles g)) as (m' & E & Hm); [done..|]. fold j in E.
  exists m'. split; [|split; [|done]]; [unfold submit, gets, mbind, M_bind, lift; cbn [id]; by rewrite E|].
  apply draws_to_one; [|done]. split; [split_and!; try done; apply u16_range|]. unfold TILE_MAX_W in *.
  intros b (row & col & H1 & H2 & ->)%elem_of_job_writes. cbn [j addr span skip repeat] in *. unfold cell, TILE_MAX_W in *.
  rewrite (u16_small (w - 1)), (u16_small (h - 1)), (u16_small (128 - _)), (u16_small (p + _ + _)) in * by (unfold is_u16; lia).
  replace (w - 1 + (128 - (w - 1))) with 128 by lia. rewrite u16_small by (unfold is_u16; lia).
  unfold VRAM_WORDS. rewrite Z.mod_small by lia. unfold in_page. lia.
Qed.

(** A rectangle relative to the window of a context. *)
Definition fits (c : Context) (x y' w h : Z) : Prop :=
  0 <= rx c /\ 0 <= ry c /\ 0 <= x /\ 0 <= y' /\ 1 <= w /\ 1 <= h /\
  rx c + x + w <= TILE_MAX_W /\ ry c + y' + h <= 64.

Lemma rect_spec l c g p x y' w h :
  stack l c g -> page_at p g -> fits c x y' w h ->
  exists j m', gfx_rect x y' w h g = Ok (tt, with_tiles g [Filled j] m') /\ draws_to p g (with_tiles g [Filled j] m') /\
    forall a, m' a = if in_rectb p (ry c + y') (rx c + x) w h a then u16 (pen c <<< 8 ||| 0x20) else tiles g a.
Proof.
  intros Hs Hp Hf. unfold fits, TILE_MAX_W in Hf. pose proof Hp as [_ Hp01].
  destruct (submit_rect p (ry c + y') (rx c + x) w h (u16 (pen c <<< 8 ||| 0x20)) g) as (m' & E & Hd & Hm);
    [done|unfold TILE_MAX_W; lia..|apply u16_range|].
  eexists _, m'. split; [|split; [exact Hd|exact Hm]]. rewrite <- E. unfold gfx_rect. rewrite (u16_small x), (u16_small y'), (u16_small w), (u16_small h) by (unfold is_u16; lia).
  unfold mbind at 1, M_bind at 1. rewrite (get_ctx_stack _ _ _ Hs). unfold gets, mbind, M_bind.
  rewrite (base_addr_page p g Hp). f_equal. f_equal. unfold cell, TILE_MAX_W. word_lia.
Qed.

Lemma clear_spec l c g p :
  stack l c g -> page_at p g -> fits c 0 0 (rw c) (rh c) ->
  exists j m', gfx_clear g = Ok (tt, with_tiles g [Filled j] m') /\ draws_to p g (with_tiles g [Filled j] m') /\
    forall a, m' a = if in_rectb p (ry c) (rx c) (rw c) (rh c) a then 0x0020 else tiles g a.
Proof.
  intros Hs Hp Hf. unfold fits, TILE_MAX_W in Hf. pose proof Hp as [_ Hp01].
  destruct (submit_rect p (ry c) (rx c) (rw c) (rh c) 0x0020 g) as (m' & E & Hd & Hm);
    [done|unfold is_u16, TILE_MAX_W; lia..|].
  eexists _, m'. split; [|split; [exact Hd|exact Hm]]. rewrite <- E. unfold gfx_clear. unfold mbind at 1, M_bind at 1.
  rewrite (get_ctx_stack _ _ _ Hs). unfold gets, mbind, M_bind.
  rewrite (base_addr_page p g Hp). f_equal. f_equal. unfold cell, TILE_MAX_W. word_lia.
Qed.

Lemma store_spec p r c x g :
  page_at p g -> 0 <= r < 64 -> 0 <= c < TILE_MAX_W ->
  exists m', let g' := with_tiles g [Stored (cell p r c) (u16 x)] m' in
    vram_store (r * TILE_MAX_W + c) x g = Ok (tt, g') /\ draws_to p g g' /\
    forall a, m' a = if a =? cell p r c then u16 x else tiles g a.
Proof.
  intros [Hv Hp] Hr Hc. unfold TILE_MAX_W in *. exists (vwrite (cell p r c) (u16 x) (tiles g)). split; [|split].
  - unfold vram_store, gets, mbind, M_bind. cbn [id]. rewrite Hv.
    replace ((VRAM_BASE + 2 * p - VRAM_BASE) / 2) with p by (rewrite Z.add_comm, Z.add_simpl_r, Z.mul_comm, Z.div_mul; lia).
    replace (p + (r * 128 + c)) with (cell p r c) by (unfold cell, TILE_MAX_W; lia).
    rewrite (proj2 (Z.leb_le 0 _)), (proj2 (Z.ltb_lt _ VRAM_WORDS)) by (unfold cell, TILE_MAX_W, VRAM_WORDS; lia).
    done.
  - apply draws_to_one; [|done]. split; [unfold in_page, cell, TILE_MAX_W; lia|apply u16_range].
  - intros a. unfold vwrite. rewrite Z.mod_small by (unfold cell, TILE_MAX_W, VRAM_WORDS; lia). done.
Qed.

Lemma page_with_tiles p g xs m : page_at p (with_tiles g xs m) <-> page_at p g.
Proof. done. Qed.

(** A row of a rectangle is an interval of addresses. *)
Lemma in_row p r c w a :
  0 <= c -> c + w <= TILE_MAX_W -> in_rectb p r c w 1 a = (cell p r c <=? a) && (a <? cell p r c + w).
Proof.
  intros Hc Hw. apply eq_true_iff_eq. rewrite in_rectb_spec by done. unfold in_rect, cell, TILE_MAX_W in *.
  rewrite andb_true_iff, Z.leb_le, Z.ltb_lt. split.
  - intros (i & j & Hi & Hj & ->). lia.
  - intros H. exists 0, (a - (p + r * 128 + c)). lia.
Qed.

(** The cell [a] after [str] was written from [(r, c)] on. *)
Definition drawn_text (str : list Z) (pn p r c : Z) (m : vmem) (a : Z) : Z :=
  if in_rectb p r c (zlen str) 1 a
  then u16 (pn <<< 8 ||| nth (Z.to_nat (a - cell p r c)) str 0) else m a.

Lemma text_loop_spec str pn p r c g :
  page_at p g -> 0 <= r < 64 -> 0 <= c -> c + zlen str <= TILE_MAX_W ->
  exists xs m', text_loop str pn (u16 (r * TILE_MAX_W + c)) g = Ok (tt, with_tiles g xs m') /\ draws_to p g (with_tiles g xs m') /\
    forall a, m' a = drawn_text str pn p r c (tiles g) a.
Proof.
  intros Hp Hr. unfold drawn_text. revert c g Hp. induction str as [|ch str IH]; intros c g Hp Hc Hl.
  - exists [], (tiles g). assert (with_tiles g [] (tiles g) = g) as -> by (destruct g; unfold with_tiles; cbn; by rewrite app_nil_r).
    split; [done|]. split; [by apply draws_to_same|]. intros a. rewrite in_row by done.
    change (zlen (@nil Z)) with 0. rewrite Z.add_0_r.
    destruct (Z.leb_spec (cell p r c) a), (Z.ltb_spec a (cell p r c)); cbn [andb]; done || lia.
  - assert (zlen (ch :: str) = zlen str + 1) as EL by (unfold zlen; cbn; lia). pose proof (zlen_nonneg str).
    rewrite EL in *. unfold TILE_MAX_W in Hl.
    destruct (store_spec p r c (u16 (pn <<< 8 ||| ch)) g) as (m1 & E1 & D1 & H1); [done|lia|unfold TILE_MAX_W; lia|].
    set (g1 := with_tiles g _ m1) in *.
    destruct (IH (c + 1) g1) as (xs & m2 & E2 & D2 & H2); [done|lia|unfold TILE_MAX_W; lia|].
    exists ([Stored (cell p r c) (u16 (u16 (pn <<< 8 ||| ch)))] ++ xs), m2.
    assert (with_tiles g1 xs m2 = with_tiles g ([Stored (cell p r c) (u16 (u16 (pn <<< 8 ||| ch)))] ++ xs) m2) as Eg
      by (unfold g1, with_tiles; cbn; by rewrite <- app_assoc).
    rewrite <- Eg. split; [|split; [by eapply draws_to_trans|]].
    + cbn [text_loop]. unfold mbind, M_bind.
      rewrite (u16_small (r * TILE_MAX_W + c)) by (unfold is_u16, TILE_MAX_W; lia). rewrite E1.
      replace (u16 (r * TILE_MAX_W + c + 1)) with (u16 (r * TILE_MAX_W + (c + 1))) by (f_equal; lia). by rewrite E2.
    + intros a. rewrite H2. change (tiles g1) with m1. rewrite H1, !in_row, u16_idemp by (unfold TILE_MAX_W; lia).
      replace (cell p r (c + 1)) with (cell p r c + 1) by (unfold cell; lia).
      destruct (Z.eqb_spec a (cell p r c)) as [->|Ha].
      * rewrite Z.sub_diag. rewrite (proj2 (Z.leb_gt _ _)) by lia. cbn [andb]. rewrite Z.leb_refl.
        by rewrite (proj2 (Z.ltb_lt _ _)) by lia.
      * destruct (Z.leb_spec (cell p r c + 1) a), (Z.leb_spec (cell p r c) a); cbn [andb]; try lia; try done.
        replace (cell p r c + (zlen str + 1)) with (cell p r c + 1 + zlen str) by lia.
        replace (Z.to_nat (a - cell p r c)) with (S (Z.to_nat (a - (cell p r c + 1)))) by lia. done.
Qed.

(** ** Text *)

(** Where [gfx_text_aligned] puts a text of [len] characters. *)
Definition text_row (c : Context) : Z := if sameline c then Z.max 0 (y c - 1) else y c.
Definition text_col (align len : Z) (c : Context) : Z :=
  if has align ALIGN_LEFT then (if sameline c then prevx c else 0)
  else if has align ALIGN_RIGHT then rw c - len
  else if has align ALIGN_CENTER then (rw c - len) >>> 1
  else 0.

(** The globals that drawing in a window does not change. *)
Definition same_env (g g' : gfx) : Prop :=
  tile_ctrl g' = tile_ctrl g /\ page_tile_ctrl g' = page_tile_ctrl g /\ page_vram g' = page_vram g /\
  vram g' = vram g /\ page_front g' = page_front g /\ inp g' = inp g.

(** ** The accesses between two states

    [access_ok]: addresses in range and values of 16 bits.  [ofs_after]: the
    offset registers after the accesses.  [traced]: the log between two
    states accounts for the change of the memory and the offsets. *)
Definition access_ok (x : access) : Prop :=
  match x with
  | Stored a v => 0 <= a < VRAM_WORDS /\ is_u16 v
  | Filled r => is_u16 (value r) /\ is_u16 (span r) /\ is_u16 (skip r) /\ is_u16 (repeat r) /\ is_u16 (addr r)
  | Flipped tc => is_u16 tc.1 /\ is_u16 tc.2
  end.

Definition ofs_after (xs : list access) (tc : Z * Z) : Z * Z :=
  foldl (fun tc x => match x with Flipped tc' => tc' | _ => tc end) tc xs.

Definition traced (g g' : gfx) : Prop :=
  exists xs, log g' = log g ++ xs /\ Forall access_ok xs /\ access_runs xs (tiles g) = Ok (tiles g') /\
    ofs_after xs (tile_ctrl g) = tile_ctrl g'.

Lemma traced_same g g' : log g' = log g -> tiles g' = tiles g -> tile_ctrl g' = tile_ctrl g -> traced g g'.
Proof. intros E1 E2 E3. exists []. rewrite app_nil_r, E1, E2, E3. by split_and!. Qed.

Lemma traced_trans g1 g2 g3 : traced g1 g2 -> traced g2 g3 -> traced g1 g3.
Proof.
  intros (xs & L1 & F1 & R1 & O1) (ys & L2 & F2 & R2 & O2). exists (xs ++ ys). split; [by rewrite L2, L1, app_assoc|].
  split; [by apply Forall_app_2|]. split; [by rewrite (access_runs_app _ _ _ _ R1)|]. unfold ofs_after in *. by rewrite foldl_app, O1.
Qed.

Lemma inside_ok p x : (p = 0 \/ p = 8192) -> inside p x -> access_ok x.
Proof.
  intros Hp. destruct x as [a v|r|]; cbn [inside access_ok]; [|by intros [H _]|done].
  intros [Ha Hv]. split; [|done]. unfold in_page, VRAM_WORDS in *. lia.
Qed.

Lemma inside_ofs p xs tc : Forall (inside p) xs -> ofs_after xs tc = tc.
Proof. induction 1 as [|x xs Hx _ IH]; [done|]. cbn. by destruct x. Qed.

Lemma draws_traced p g g' : page_at p g -> same_env g g' -> draws_to p g g' -> traced g g'.
Proof.
  intros [_ Hp] (E & _) (xs & L & F & R). exists xs. split; [done|]. split; [|by rewrite (inside_ofs p), E].
  revert F. apply List.Forall_impl. intros x. by apply inside_ok.
Qed.

Lemma flip_traced g g' : tiles g' = tiles g -> log g' = log g ++ [Flipped (tile_ctrl g')] ->
  is_u16 (tile_ctrl g').1 -> is_u16 (tile_ctrl g').2 -> traced g g'.
Proof.
  intros E L H1 H2. exists [Flipped (tile_ctrl g')]. split; [done|]. split; [apply Forall_cons_2; [done|apply Forall_nil_2]|].
  cbn. by rewrite E.
Qed.

(** The cell of a character. *)
Lemma drawn_text_cell str pn p r c m i ch :
  0 <= c -> c + zlen str <= TILE_MAX_W -> str !! i = Some ch ->
  drawn_text str pn p r c m (cell p r (c + Z.of_nat i)) = u16 (pn <<< 8 ||| ch).
Proof.
  intros H1 H2 Hi. unfold drawn_text. pose proof (lookup_lt_Some _ _ _ Hi) as Hlt. rewrite in_row by done. unfold cell.
  rewrite (proj2 (Z.leb_le _ _)), (proj2 (Z.ltb_lt _ _)) by (unfold zlen; lia). replace (Z.to_nat _) with i by lia. cbn [andb].
  by rewrite (nth_lookup_Some _ _ _ _ Hi).
Qed.

Definition text_fits (align : Z) (str : list Z) (c : Context) : Prop :=
  let x := text_col align (zlen str) c in
  0 <= y c < 64 /\ 0 <= rx c /\ 0 <= ry c /\ 0 <= x /\ rx c + x + zlen str <= TILE_MAX_W /\ ry c + text_row c < 64.

Lemma text_spec l c g p align str :
  stack l c g -> page_at p g -> text_fits align str c ->
  let x := text_col align (zlen str) c in
  exists g', gfx_text_aligned align str g = Ok (tt, g') /\ same_env g g' /\ menus g' = menus g /\ draws_to p g g' /\
    stack l (set_line false (text_row c + 1) (x + zlen str) c) g' /\
    forall a, tiles g' a = drawn_text str (pen c) p (ry c + text_row c) (rx c + x) (tiles g) a.
Proof.
  intros Hs Hp (Hy & Hx & Hry & H0 & Hw & Hr) x. fold x in H0, Hw. pose proof (zlen_nonneg str).
  unfold TILE_MAX_W in Hw. assert (0 <= text_row c < 64) as Hrow by (unfold text_row in *; destruct (sameline c); lia).
  destruct (text_loop_spec str (pen c) p (ry c + text_row c) (rx c + x) g) as (xs & m & E & Hd & Hm);
    [done|lia|lia|unfold TILE_MAX_W; lia|].
  set (d := set_line false (text_row c + 1) (x + zlen str) c).
  assert (stack l c (with_tiles g xs m)) as Hs' by done.
  destruct (set_ctx_stack l c d _ Hs') as [Ed Hd'].
  exists (with_contexts (with_tiles g xs m) (<[length l := d]> (contexts g))).
  split; [|split_and!; [by split_and!|done|exact Hd|exact Hd'|done]].
  unfold gfx_text_aligned. unfold mbind at 1, M_bind at 1. rewrite (get_ctx_stack _ _ _ Hs).
  set (c1 := if sameline c then _ else _).
  assert (prevx c1 = (if sameline c then prevx c else 0) /\ y c1 = text_row c /\ pen c1 = pen c /\ rx c1 = rx c /\
    ry c1 = ry c /\ rw c1 = rw c) as (P1 & P2 & P3 & P4 & P5 & P6).
  { subst c1. unfold text_row. destruct (sameline c); cbn; split_and!; try done. destruct (Z.ltb_spec 0 (y c)); lia. }
  rewrite P1, P2, P3, P4, P5, P6.
  assert ((if has align ALIGN_LEFT then if sameline c then prevx c else 0
    else if has align ALIGN_RIGHT then u16 (rw c - zlen str)
    else if has align ALIGN_CENTER then u16 ((rw c - zlen str) >>> 1) else 0) = x) as ->.
  { subst x. unfold text_col in *. repeat (destruct (has align _); [try done; apply u16_small; unfold is_u16; lia|]). done. }
  unfold mbind, M_bind. replace ((ry c + text_row c) * TILE_MAX_W + x + rx c)
    with ((ry c + text_row c) * TILE_MAX_W + (rx c + x)) by lia.
  rewrite E. rewrite !u16_small by (unfold is_u16; lia).
  replace (set_line false (text_row c + 1) (x + zlen str) c1) with d; [done|].
  subst d c1. by destruct (sameline c).
Qed.

(** ** Drawing keeps to its page

    [canvas ms l c]: the stack is [l] with [c] on top, the menus are [ms], the
    rest is as in the state [g0] the frame began with, and outside the page
    that is drawn on the memory is as it was there. *)
Section canvas.
Context (g0 : gfx) (p : Z) (Hpage : page_at p g0).

Definition canvas (ms : list MenuContext) (l : list Context) (c : Context) (g : gfx) : Prop :=
  stack l c g /\ menus g = ms /\ same_env g0 g /\ draws_to p g0 g /\ forall a, ~ in_page p a -> tiles g a = tiles g0 a.

Lemma canvas_page ms l c g : canvas ms l c g -> page_at p g.
Proof. intros (_ & _ & (_ & _ & _ & Hv & _) & _). unfold page_at. by rewrite Hv. Qed.

(** Writes that stay on the page keep the canvas. *)
Lemma canvas_tiles ms l c g xs m :
  canvas ms l c g -> draws_to p g (with_tiles g xs m) -> (forall a, ~ in_page p a -> m a = tiles g a) -> canvas ms l c (with_tiles g xs m).
Proof.
  intros (Hs & Hm & He & Hd & Ht) H1 H. split_and!; try done; [by eapply draws_to_trans|]. intros a Ha. cbn. by rewrite H, Ht.
Qed.

(** What leaves the log and the tiles alone keeps the drawing. *)
Lemma draws_to_keep g g' : draws_to p g0 g -> log g' = log g -> tiles g' = tiles g -> draws_to p g0 g'.
Proof. intros H E1 E2. eapply draws_to_trans; [exact H|by apply draws_to_same]. Qed.

Lemma rect_in_page r c w h a :
  0 <= r -> 0 <= c -> c + w <= TILE_MAX_W -> r + h <= 64 -> ~ in_page p a -> in_rectb p r c w h a = false.
Proof.
  intros Hr Hc Hw Hh Ha. apply not_true_iff_false. rewrite in_rectb_spec by done.
  intros (i & j & Hi & Hj & ->). apply Ha. unfold in_page, cell, TILE_MAX_W in *. lia.
Qed.

Lemma canvas_set ms l c d : hoare (canvas ms l c) (set_ctx d) (fun _ => canvas ms l d).
Proof.
  intros g (Hs & Hm & He & Hd & Ht). destruct (set_ctx_stack l c d g Hs) as [E Hd']. eexists _, _. split; [exact E|].
  split_and!; done.
Qed.

Lemma canvas_get ms l c (Q : Context -> gfx -> Prop) :
  (forall g, canvas ms l c g -> Q c g) -> hoare (canvas ms l c) get_ctx Q.
Proof. intros H g Hg. exists c, g. split; [apply (get_ctx_stack l c), Hg|auto]. Qed.

(** [c ← get_ctx; k c] on a canvas. *)
Lemma canvas_with {B} ms l c (k : Context -> M gfx B) Q :
  hoare (canvas ms l c) (k c) Q -> hoare (canvas ms l c) (get_ctx ≫= k) Q.
Proof.
  intros H g Hg. destruct (H g Hg) as (b & g' & E & HQ). exists b, g'. split; [|done].
  unfold mbind, M_bind. by rewrite (get_ctx_stack l c g) by apply Hg.
Qed.

Lemma canvas_update ms l c (f : Context -> Context) :
  hoare (canvas ms l c) (c ← get_ctx; set_ctx (f c)) (fun _ => canvas ms l (f c)).
Proof. apply canvas_with. apply canvas_set. Qed.

Lemma canvas_pen ms l c k : hoare (canvas ms l c) (gfx_pen k) (fun _ => canvas ms l (set_pen (u8 k) c)).
Proof. apply (canvas_update ms l c (set_pen (u8 k))). Qed.

Lemma canvas_newline ms l c n :
  hoare (canvas ms l c) (gfx_newline n) (fun _ => canvas ms l (set_line (sameline c) (u16 (y c + n)) (prevx c) c)).
Proof. apply (canvas_update ms l c (fun c => set_line (sameline c) (u16 (y c + n)) (prevx c) c)). Qed.

Lemma canvas_push ms l c : (length l < 7)%nat -> hoare (canvas ms l c) gfx_push (fun _ => canvas ms (l ++ [c]) c).
Proof.
  intros Hl g (Hs & Hm & He & Hd & Ht). destruct (push_stack l c g Hs Hl) as (cs & E & Hs').
  eexists _, _. split; [exact E|]. split_and!; done.
Qed.

Lemma canvas_pop ms l c d : hoare (canvas ms (l ++ [c]) d) gfx_pop (fun _ => canvas ms l c).
Proof.
  intros g (Hs & Hm & He & Hd & Ht). destruct (pop_stack l c d g Hs) as [E Hs'].
  eexists _, _. split; [exact E|]. split_and!; done.
Qed.

Lemma canvas_rect ms l c x y' w h :
  fits c x y' w h -> hoare (canvas ms l c) (gfx_rect x y' w h) (fun _ => canvas ms l c).
Proof.
  intros Hf g Hg. destruct (rect_spec l c g p x y' w h) as (j & m & E & Hd & Hm); [apply Hg|by eapply canvas_page|done|].
  eexists tt, _. split; [exact E|]. apply canvas_tiles; [done|done|]. intros a Ha.
  rewrite Hm, rect_in_page; [done| | | | |done]; destruct Hf; lia.
Qed.

Lemma canvas_clear ms l c :
  fits c 0 0 (rw c) (rh c) -> hoare (canvas ms l c) gfx_clear (fun _ => canvas ms l c).
Proof.
  intros Hf g Hg. destruct (clear_spec l c g p) as (j & m & E & Hd & Hm); [apply Hg|by eapply canvas_page|done|].
  eexists tt, _. split; [exact E|]. apply canvas_tiles; [done|done|]. intros a Ha.
  rewrite Hm, rect_in_page; [done| | | | |done]; destruct Hf; lia.
Qed.

(** [ofs] is the cell [(r, k)] of the page. *)
Lemma canvas_store ms l c ofs r k x :
  ofs = r * TILE_MAX_W + k -> 0 <= r < 64 -> 0 <= k < TILE_MAX_W ->
  hoare (canvas ms l c) (vram_store ofs x) (fun _ => canvas ms l c).
Proof.
  intros -> Hr Hk g Hg. destruct (store_spec p r k x g) as (m & E & Hd & Hm); [by eapply canvas_page|done|done|].
  eexists tt, _. split; [exact E|]. apply canvas_tiles; [done|done|]. intros a Ha. rewrite Hm.
  destruct (Z.eqb_spec a (cell p r k)) as [->|]; [|done]. destruct Ha. unfold in_page, cell, TILE_MAX_W in *. lia.
Qed.

Lemma canvas_text ms l c align str :
  text_fits align str c ->
  hoare (canvas ms l c) (gfx_text_aligned align str)
    (fun _ => canvas ms l (set_line false (text_row c + 1) (text_col align (zlen str) c + zlen str) c)).
Proof.
  intros Hf g Hg. destruct (text_spec l c g p align str) as (g' & E & He & Hm & Hd & Hs & Ht);
    [apply Hg|by eapply canvas_page|done|].
  exists tt, g'. split; [done|]. destruct Hg as (Hs0 & Hm0 & He0 & Hd0 & Ht0).
  split_and!; [done|congruence|unfold same_env in *; intuition congruence|by eapply draws_to_trans|].
  intros a Ha. rewrite Ht. unfold drawn_text. rewrite rect_in_page; [by apply Ht0| | | | |done];
    destruct Hf as (? & ? & ? & ? & ? & ?); unfold text_row in *; destruct (sameline c); lia.
Qed.

(** One statement after another on the same canvas. *)
Lemma canvas_seq {B} ms l c (m : M gfx unit) (k : M gfx B) Q :
  hoare (canvas ms l c) m (fun _ => canvas ms l c) -> hoare (canvas ms l c) k Q ->
  hoare (canvas ms l c) (m;; k) Q.
Proof. intros Hm Hk. by apply hoare_bind with (R := fun _ => canvas ms l c). Qed.

Lemma canvas_for ms l c n lo body :
  (forall i, lo <= i < lo + Z.of_nat n -> hoare (canvas ms l c) (body i) (fun _ => canvas ms l c)) ->
  hoare (canvas ms l c) (for_from n lo body) (fun _ => canvas ms l c).
Proof. apply (hoare_for (fun _ => canvas ms l c)). Qed.

(** Split a sequence of stores into its stores. *)
Ltac stores :=
  repeat first [ apply canvas_seq | apply canvas_for; intros ? ? | cbv zeta ].

Lemma canvas_frame ms l c x y' w h :
  fits c x y' w h -> 2 <= w -> 2 <= h ->
  hoare (canvas ms l c) (gfx_frame x y' w h) (fun _ => canvas ms l c).
Proof.
  unfold fits. intros Hf Hw Hh. unfold gfx_frame.
  assert (x + w <= TILE_MAX_W /\ y' + h <= 64) by lia. unfold TILE_MAX_W in H.
  rewrite (u16_small x), (u16_small y'), (u16_small w), (u16_small h) by (unfold is_u16; lia).
  apply canvas_with. stores.
  - apply (canvas_store ms l c _ (ry c + y') (rx c + x)); unfold TILE_MAX_W in *; lia.
  - apply (canvas_store ms l c _ (ry c + y') (rx c + x + w - 1)); unfold TILE_MAX_W in *; lia.
  - apply (canvas_store ms l c _ (ry c + y') (rx c + x + i)); unfold TILE_MAX_W in *; lia.
  - apply (canvas_store ms l c _ (ry c + y' + i) (rx c + x)); unfold TILE_MAX_W in *; lia.
  - apply (canvas_store ms l c _ (ry c + y' + i) (rx c + x + w - 1)); unfold TILE_MAX_W in *; lia.
  - apply (canvas_store ms l c _ (ry c + y' + h - 1) (rx c + x)); unfold TILE_MAX_W in *; lia.
  - apply (canvas_store ms l c _ (ry c + y' + h - 1) (rx c + x + w - 1)); unfold TILE_MAX_W in *; lia.
  - apply (canvas_store ms l c _ (ry c + y' + h - 1) (rx c + x + i)); unfold TILE_MAX_W in *; lia.
Qed.

(** The image is drawn as a square of [h] tiles. *)
Lemma canvas_image ms l c tile color x y' w h :
  fits c x y' h h -> hoare (canvas ms l c) (gfx_image tile color x y' w h) (fun _ => canvas ms l c).
Proof.
  unfold fits. intros Hf. unfold gfx_image. assert (x + h <= TILE_MAX_W) by lia. unfold TILE_MAX_W in H.
  rewrite (u16_small x), (u16_small y'), (u16_small h) by (unfold is_u16; lia).
  apply canvas_with. stores. apply (canvas_store ms l c _ (ry c + y' + i) (rx c + x + i0)); unfold TILE_MAX_W in *; lia.
Qed.

Lemma canvas_border ms l c :
  fits c 0 0 (rw c) (rh c) -> 3 <= rh c -> 3 <= rw c ->
  hoare (canvas ms l c) gfx_display_border (fun _ => canvas ms l c).
Proof.
  unfold fits. intros Hf Hh Hw. unfold gfx_display_border. apply canvas_with.
  rewrite Z.shiftr_div_pow2 by lia. change (2 ^ 1) with 2.
  pose proof (Z_div_mod_eq_full (rh c) 3). pose proof (Z.mod_pos_bound (rh c) 3 ltac:(lia)).
  pose proof (Z_div_mod_eq_full (rw c) 2). pose proof (Z.mod_pos_bound (rw c) 2 ltac:(lia)).
  set (t := rh c / 3) in *. set (m := rw c / 2) in *. stores.
  - apply (canvas_store ms l c _ (ry c) (rx c + m)); unfold TILE_MAX_W in *; lia.
  - apply (canvas_store ms l c _ (ry c) (rx c + m + 1)); unfold TILE_MAX_W in *; lia.
  - apply (canvas_store ms l c _ (ry c + rh c - 1) (rx c + m)); unfold TILE_MAX_W in *; lia.
  - apply (canvas_store ms l c _ (ry c + rh c - 1) (rx c + m + 1)); unfold TILE_MAX_W in *; lia.
  - apply (canvas_store ms l c _ (ry c + t - 1) (rx c)); unfold TILE_MAX_W in *; lia.
  - apply (canvas_store ms l c _ (ry c + t - 1) (rx c + rw c - 1)); unfold TILE_MAX_W in *; lia.
  - apply (canvas_store ms l c _ (ry c + 2 * t) (rx c)); unfold TILE_MAX_W in *; lia.
  - apply (canvas_store ms l c _ (ry c + 2 * t) (rx c + rw c - 1)); unfold TILE_MAX_W in *; lia.
Qed.

(** The context a window is entered with. *)
Definition window (align x y' w h frame : Z) (c : Context) : Context :=
  let '(bx, by') := gfx_align_box align x y' w h c in
  if 0 <? frame
  then set_rect (u16 (u16 bx + frame)) (u16 (u16 by' + frame)) (u16 (w - (frame <<< 1))) (u16 (h - (frame <<< 1))) c
  else set_rect (u16 bx) (u16 by') w h c.

Lemma canvas_begin_window ms l c align x y' w h frame :
  (length l < 7)%nat ->
  (0 < frame -> let '(bx, by') := gfx_align_box align x y' w h c in
                2 <= w /\ 2 <= h /\ fits (set_rect (u16 bx) (u16 by') w h c) 0 0 w h) ->
  hoare (canvas ms l c) (gfx_begin_window align x y' w h frame)
    (fun _ => canvas ms (l ++ [c]) (window align x y' w h frame c)).
Proof.
  intros Hl Hf. unfold gfx_begin_window, window. apply hoare_bind with (R := fun _ => canvas ms (l ++ [c]) c); [by apply canvas_push|]. intros _.
  apply canvas_with. destruct (gfx_align_box align x y' w h c) as [bx by'].
  set (c1 := set_rect (u16 bx) (u16 by') w h c) in *.
  apply hoare_bind with (R := fun _ => canvas ms (l ++ [c]) c1); [apply canvas_set|]. intros _.
  destruct (Z.ltb_spec 0 frame) as [H0|H0]; [|by apply hoare_ret].
  destruct (Hf H0) as (Hw & Hh & Hfit). apply canvas_seq; [by apply canvas_frame|].
  apply canvas_with. apply canvas_set.
Qed.

Lemma canvas_textf ms l c tmp align fmt a cs :
  length tmp = 40%nat -> prints fmt a cs -> zlen cs < PRINTF_MAX_POSSIBLE_BUFFER_SIZE ->
  Forall (fun ch => ch <> 0) cs -> text_fits align (take 39 cs) c ->
  let str := take 39 cs in
  hoare (canvas ms l c) (gfx_textf_aligned tmp align fmt a)
    (fun _ => canvas ms l (set_line false (text_row c + 1) (text_col align (zlen str) c + zlen str) c)).
Proof.
  intros Ht Hp Hc Hz Hf str. unfold gfx_textf_aligned.
  rewrite (snprintf_prints _ _ _ _ _ Hp) by (unfold PRINTF_MAX_POSSIBLE_BUFFER_SIZE, zlen in *; lia || done).
  cbn -[printed gfx_text_aligned canvas]. 
  intros g Hg. destruct (canvas_text ms l c align str Hf g Hg) as (u & g' & E & H').
  exists u, g'. split; [|done]. unfold mbind, M_bind, lift.
  rewrite cstr_printed by done. exact E.
Qed.
End canvas.

(** ** The operations as claims *)

(** A drawing state: one context over a page of the given size. *)
Definition demo_gfx : gfx :=
  let c := set_rect 0 0 40 30 (set_pen 0x04 context0) in
  with_page (with_stack (gfx_init (fun _ => 0)) [c; c; context0; context0; context0; context0; context0; context0] 1 1)
    0 (VRAM_BASE + 2 * 8192) (0, 0).
Definition demo_ctx : Context := set_rect 0 0 40 30 (set_pen 0x04 context0).

Lemma demo_stack : stack [demo_ctx] demo_ctx demo_gfx.
Proof. done. Qed.
Lemma demo_page : page_at 8192 demo_gfx.
Proof. split; [done|by right]. Qed.

(** C28: [gfx_rect] fills exactly its rectangle.  On either page, for a
    rectangle of at least one cell that lies inside the 128 by 64 cells of the
    page when moved to the window of the context, it returns, every cell of
    the rectangle holds a space in the pen's colour, and no other word of the
    tile map and no other global has changed. *)
Theorem rect_fills (l : list Context) (c : Context) (g : gfx) (p x y' w h : Z) :
  stack l c g -> page_at p g -> fits c x y' w h ->
  exists j m', gfx_rect x y' w h g = Ok (tt, with_tiles g [Filled j] m') /\
    (forall i j, 0 <= i < h -> 0 <= j < w -> m' (cell p (ry c + y' + i) (rx c + x + j)) = u16 (pen c <<< 8 ||| 0x20)) /\
    (forall a, ~ in_rect p (ry c + y') (rx c + x) w h a -> m' a = tiles g a).
Proof.
  intros Hs Hp Hf. destruct (rect_spec l c g p x y' w h Hs Hp Hf) as (job & m' & E & _ & Hm).
  assert (0 <= rx c + x /\ rx c + x + w <= TILE_MAX_W) as [H1 H2] by (unfold fits in Hf; lia).
  exists job, m'. split_and!; [done| |].
  - intros i j Hi Hj. rewrite Hm. rewrite (proj2 (in_rectb_spec _ _ _ _ _ _ H1 H2)); [done|]. by exists i, j.
  - intros a Ha. rewrite Hm. destruct (in_rectb _ _ _ _ _ a) eqn:E'; [|done]. by apply in_rectb_spec in E'.
Qed.

Lemma rect_fills_witness :
  exists j m', gfx_rect 3 2 4 5 demo_gfx = Ok (tt, with_tiles demo_gfx [Filled j] m') /\
    (forall i j, 0 <= i < 5 -> 0 <= j < 4 -> m' (cell 8192 (2 + i) (3 + j)) = 0x0420) /\
    (forall a, ~ in_rect 8192 2 3 4 5 a -> m' a = 0).
Proof.
  apply (rect_fills [demo_ctx] demo_ctx demo_gfx 8192 3 2 4 5); [apply demo_stack|apply demo_page|].
  unfold fits, TILE_MAX_W. cbn. lia.
Defined.

(** C27: [gfx_text_aligned] writes exactly its text.  Where the text fits, the
    cells from the aligned column of the current row on hold its characters in
    the pen's colour, every other word is unchanged, and the context moves to
    the next row and remembers the column after the text; [ALIGN_LEFT] starts
    at the window's edge, or after the last text on the same line,
    [ALIGN_RIGHT] ends at the right edge and [ALIGN_CENTER] in the middle. *)
Theorem text_draws (l : list Context) (c : Context) (g : gfx) (p align : Z) (str : list Z) :
  stack l c g -> page_at p g -> text_fits align str c ->
  let x := text_col align (zlen str) c in
  let r := ry c + text_row c in
  exists g', gfx_text_aligned align str g = Ok (tt, g') /\ same_env g g' /\
    stack l (set_line false (text_row c + 1) (x + zlen str) c) g' /\
    (forall i ch, str !! i = Some ch -> tiles g' (cell p r (rx c + x + Z.of_nat i)) = u16 (pen c <<< 8 ||| ch)) /\
    (forall a, ~ in_rect p r (rx c + x) (zlen str) 1 a -> tiles g' a = tiles g a).
Proof.
  intros Hs Hp Hf x r. destruct (text_spec l c g p align str Hs Hp Hf) as (g' & E & He & Hm & _ & Hs' & Ht).
  assert (0 <= rx c + x /\ rx c + x + zlen str <= TILE_MAX_W) as [H1 H2] by (unfold text_fits in Hf; fold x in Hf; lia).
  exists g'. split_and!; [done|done|done| |].
  - intros i ch Hi. rewrite Ht. by apply drawn_text_cell.
  - intros a Ha. rewrite Ht. unfold drawn_text. fold x r. destruct (in_rectb _ _ _ _ _ a) eqn:E'; [|done].
    by apply in_rectb_spec in E'.
Qed.

Lemma text_draws_witness :
  exists g', gfx_text_aligned ALIGN_RIGHT [72; 105] demo_gfx = Ok (tt, g') /\ same_env demo_gfx g' /\
    stack [demo_ctx] (set_line false 1 40 demo_ctx) g' /\
    (forall i ch, [72; 105] !! i = Some ch -> tiles g' (cell 8192 0 (38 + Z.of_nat i)) = u16 (4 <<< 8 ||| ch)) /\
    (forall a, ~ in_rect 8192 0 38 2 1 a -> tiles g' a = 0).
Proof.
  apply (text_draws [demo_ctx] demo_ctx demo_gfx 8192 ALIGN_RIGHT [72; 105]); [apply demo_stack|apply demo_page|].
  split_and!; vm_compute; done.
Defined.

(** *** The stack *)

(** The operations on the stack, and what they do to a list of contexts with
    the current one last; [None] when the eight contexts are not enough or
    none would be left. *)
Inductive stack_op : Type := OpPush | OpPop | OpSet (c : Context).

Definition stack_exec (o : stack_op) : M gfx unit :=
  match o with OpPush => gfx_push | OpPop => gfx_pop | OpSet c => set_ctx c end.

Fixpoint stack_run (os : list stack_op) : M gfx unit :=
  match os with [] => mret tt | o :: os => stack_exec o;; stack_run os end.

Definition stack_spec (o : stack_op) (s : list Context) : option (list Context) :=
  match o, reverse s with
  | OpPush, c :: _ => if (length s <? 8)%nat then Some (s ++ [c]) else None
  | OpPop, _ :: ((_ :: _) as r) => Some (reverse r)
  | OpSet d, _ :: r => Some (reverse r ++ [d])
  | _, _ => None
  end.

Definition stack_specs (os : list stack_op) (s : list Context) : option (list Context) :=
  foldl (fun s o => s ≫= stack_spec o) (Some s) os.

Definition holds (s : list Context) (g : gfx) : Prop := exists l c, s = l ++ [c] /\ stack l c g.

Lemma stack_exec_spec o s s' g :
  holds s g -> stack_spec o s = Some s' -> exists g', stack_exec o g = Ok (tt, g') /\ holds s' g' /\ tiles g' = tiles g.
Proof.
  intros (l & c & -> & Hs) E. unfold stack_spec in E. rewrite reverse_snoc in E. destruct o; cbv beta iota in E.
  - destruct (Nat.ltb_spec (length (l ++ [c])) 8) as [Hl|]; [|done]. injection E as <-. rewrite length_app in Hl.
    cbn in Hl. destruct (push_stack l c g Hs ltac:(lia)) as (cs & E & Hs'). eexists. split; [exact E|].
    split; [|done]. by exists (l ++ [c]), c.
  - destruct (reverse l) as [|d r] eqn:Er; [done|]. injection E as <-. apply (f_equal reverse) in Er.
    rewrite reverse_involutive, reverse_cons in Er. subst l. destruct (pop_stack _ _ _ _ Hs) as [E Hs'].
    eexists. split; [exact E|]. split; [|done]. exists (reverse r), d. split; [apply reverse_cons|done].
  - injection E as <-. rewrite reverse_involutive. destruct (set_ctx_stack l c c0 g Hs) as [E Hs'].
    eexists. split; [exact E|]. split; [|done]. by exists l, c0.
Qed.

Lemma stack_specs_none os : foldl (fun s o => s ≫= stack_spec o) None os = None.
Proof. by induction os. Qed.

(** C29: The array of eight contexts with its index and pointer is a stack:
    whatever sequence of [gfx_push], [gfx_pop] and changes of the current
    context the list of contexts allows, the code returns, and array, index
    and pointer hold the resulting list; in particular the context of an
    enclosing window comes back unchanged at the end of an inner one. *)
Theorem contexts_are_a_stack (os : list stack_op) (s s' : list Context) (g : gfx) :
  holds s g -> stack_specs os s = Some s' ->
  exists g', stack_run os g = Ok (tt, g') /\ holds s' g' /\ tiles g' = tiles g.
Proof.
  revert s g. induction os as [|o os IH]; intros s g Hs E; cbn in E.
  - injection E as <-. by exists g.
  - destruct (stack_spec o s) as [s1|] eqn:E1; [|by rewrite stack_specs_none in E].
    destruct (stack_exec_spec o s s1 g Hs E1) as (g1 & X1 & H1 & T1).
    destruct (IH s1 g1 H1 E) as (g2 & X2 & H2 & T2). exists g2. rewrite <- T1. split; [|done].
    cbn. unfold mbind, M_bind. by rewrite X1.
Qed.

Lemma contexts_are_a_stack_witness :
  exists g', stack_run [OpPush; OpSet context0; OpPush; OpPop; OpPop] demo_gfx = Ok (tt, g') /\
    holds [demo_ctx; demo_ctx] g' /\ tiles g' = tiles demo_gfx.
Proof.
  apply (contexts_are_a_stack [OpPush; OpSet context0; OpPush; OpPop; OpPop] [demo_ctx; demo_ctx]);
    [by exists [demo_ctx], demo_ctx; split; [|apply demo_stack]|reflexivity].
Defined.

(** The guard of [gfx_push] is one too high: eight pushes from reset
    write a ninth context past the end of the array. *)
Theorem push_out_of_bounds (m : vmem) :
  stack_run (replicate 7 OpPush) (gfx_init m) <> Err OutOfBounds /\
  stack_run (replicate 8 OpPush) (gfx_init m) = Err OutOfBounds.
Proof. split; [discriminate|reflexivity]. Qed.

(** [gfx_image] draws the same whatever its width. *)
Lemma image_ignores_width tile color x y' w w' h :
  gfx_image tile color x y' w h = gfx_image tile color x y' w' h.
Proof. reflexivity. Qed.
