(* ===== verification/Video.v ===== *)
(** * The 240p mode and the pages (firmware/src/gfx.c; rtl/tilemap.sv)

    [gfx_set_240p] programs the CRT controller and lays out the two pages of
    the tile map.  With it, what the tile map fetches while a picture is
    shown: only cells of the front page. *)

From S2P Require Import Prelude Input Blitter Float Hdmi HdmiProps Printf Formats Gfx GfxProps.

(** The globals of gfx.c and the bus. *)
Definition video : Type := gfx * bus.

Definition on_gfx {A} (m : M gfx A) : M video A :=
  fun '(g, b) => match m g with Ok (a, g') => Ok (a, (g', b)) | Err f => Err f end.
Definition on_bus {A} (m : M bus A) : M video A :=
  fun '(g, b) => match m b with Ok (a, b') => Ok (a, (g, b')) | Err f => Err f end.

Definition with_pages (g : gfx) (tc : list (Z * Z)) (pv : list Z) : gfx :=
  {| tile_ctrl := tile_ctrl g; page_tile_ctrl := tc; page_vram := pv; vram := vram g;
     page_front := page_front g; contexts := contexts g; context_idx := context_idx g; ctx := ctx g;
     tiles := tiles g; menus := menus g; inp := inp g; log := log g |}.

(** The timing of the two modes, and their size in tiles. *)
Definition mode_240p (wide : bool) (f : float) : VideoMode :=
  if wide
  then {| hact := 384; hfp := 16; hs := 32; hbp := 48; vact := 216; vfp := 3; vs := 5; vbp := 6; mhz := f |}
  else {| hact := 320; hfp := 8; hs := 32; hbp := 40; vact := 240; vfp := 3; vs := 4; vbp := 6; mhz := f |}.
Definition screen_w (wide : bool) : Z := if wide then 48 else 40.
Definition screen_h (wide : bool) : Z := if wide then 27 else 30.

(** [(hz * pixels) / 1000000.0], stored in a [float]. *)
Definition mhz_240p (hz : float) (wide : bool) : float :=
  let pixels := video_mode_pixels (mode_240p wide (of_Z F32 0)) in
  convert F32 (fdiv F64 (convert F64 (fmul F32 hz (of_Z F32 pixels))) (of_Z F64 1000000)).

Definition gfx_set_240p (hz : float) (wide : bool) : M video unit :=
  on_gfx (
    cs ← gets contexts;
    c ← lift (aget cs 0);
    cs ← lift (aset cs 0 (set_rect 0 0 (screen_w wide) (screen_h wide) c));
    modify (fun g => with_contexts g cs));;
  let mode := mode_240p wide (mhz_240p hz wide) in
  on_bus (crt_set_mode mode wide);;
  on_gfx (
    let hofs := u16 (- (hs mode + hfp mode - 9)) in
    modify (fun g => with_pages g [(hofs, u16 (- vbp mode)); (hofs, u16 (64 * 8 - vbp mode))]
                                  [VRAM_BASE; VRAM_BASE + 2 * (TILE_MAX_W * 64)]);;
    gfx_pageflip).

(** ** The tile map

    The address the tile map fetches at a position of the beam: twelve-bit
    sums, seven bits of tile row and of tile column. *)
Definition fetch_addr (tc : Z * Z) (hcnt vcnt : Z) : Z :=
  let H := (hcnt + tc.1) mod 4096 in
  let V := (vcnt + tc.2) mod 4096 in
  ((V / 8) mod 128) * 128 + (H / 8) mod 128.

(** The lines of the picture: [vblank] is low. *)
Definition active_line (mode : VideoMode) (vcnt : Z) : Prop := vbp mode <= vcnt < vact mode + vbp mode.

(** The pages are laid out for this mode and the registers show the front
    one while the other is drawn on. *)
Definition pages_set (wide : bool) (g : gfx) : Prop :=
  let mode := mode_240p wide (of_Z F32 0) in
  let hofs := u16 (- (hs mode + hfp mode - 9)) in
  page_tile_ctrl g = [(hofs, u16 (- vbp mode)); (hofs, u16 (64 * 8 - vbp mode))] /\
  page_vram g = [VRAM_BASE; VRAM_BASE + 2 * (TILE_MAX_W * 64)] /\
  (page_front g = 0 \/ page_front g = 1).

Definition front_page (g : gfx) : Z := if page_front g =? 0 then 0 else 8192.
Definition back_page (g : gfx) : Z := if page_front g =? 0 then 8192 else 0.

Definition flipped (wide : bool) (g : gfx) : Prop :=
  pages_set wide g /\ page_at (back_page g) g /\
  nth_error (page_tile_ctrl g) (Z.to_nat (page_front g)) = Some (tile_ctrl g).

(** Everything fetched on an active line is on the front page, in the rows of
    the screen. *)
Lemma fetch_front wide g hcnt vcnt :
  flipped wide g -> 0 <= hcnt -> active_line (mode_240p wide (of_Z F32 0)) vcnt ->
  exists r c, 0 <= r < screen_h wide /\ 0 <= c < TILE_MAX_W /\
    fetch_addr (tile_ctrl g) hcnt vcnt = cell (front_page g) r c.
Proof.
  intros ((Hc & _ & Hf) & _ & Ht) Hh Hv. rewrite Hc in Ht. unfold active_line in Hv. unfold fetch_addr, cell, TILE_MAX_W.
  exists ((vcnt - 6) / 8), (((hcnt + (tile_ctrl g).1) mod 4096 / 8) mod 128).
  assert (0 <= ((hcnt + (tile_ctrl g).1) mod 4096 / 8) mod 128 < 128) as Hcol by (apply Z.mod_pos_bound; lia).
  assert (6 <= vcnt < 6 + 8 * screen_h wide) as Hv' by (destruct wide; cbn in *; lia).
  assert (0 <= (vcnt - 6) / 8 < screen_h wide) as Hr.
  { split; [apply Z.div_pos; lia|apply Z.div_lt_upper_bound; lia]. }
  assert (screen_h wide <= 30) by (destruct wide; cbn; lia).
  split; [done|]. split; [done|]. unfold front_page.
  assert ((tile_ctrl g).2 = if page_front g =? 0 then 65530 else 506) as ->.
  { destruct Hf as [E|E]; rewrite E in Ht |- *; destruct wide; injection Ht as <-; done. }
  destruct Hf as [-> | ->]; cbn [Z.eqb].
  - replace (vcnt + 65530) with (vcnt - 6 + 16 * 4096) by lia. rewrite Z.mod_add, (Z.mod_small (vcnt - 6)) by lia.
    rewrite (Z.mod_small ((vcnt - 6) / 8)) by lia. lia.
  - replace (vcnt + 506) with (vcnt - 6 + 64 * 8) by lia. rewrite (Z.mod_small (vcnt - 6 + 64 * 8)) by lia.
    rewrite Z.div_add by lia. rewrite (Z.mod_small ((vcnt - 6) / 8 + 64)) by lia. lia.
Qed.

(** The offsets of a page are words. *)
Lemma flipped_u16 wide g : flipped wide g -> is_u16 (tile_ctrl g).1 /\ is_u16 (tile_ctrl g).2.
Proof.
  intros ((Hc & _ & Hf) & _ & Ht). rewrite Hc in Ht. destruct Hf as [E|E]; rewrite E in Ht; injection Ht as <-; split; apply u16_range.
Qed.

(** ** Flipping *)

Lemma pageflip_spec wide l c c0 g :
  stack l c g -> (l ++ [c]) !! 0%nat = Some c0 -> pages_set wide g ->
  exists g', gfx_pageflip g = Ok (tt, g') /\ stack [c0] c g' /\ flipped wide g' /\
    page_front g' = 1 - page_front g /\ tiles g' = tiles g /\ menus g' = menus g /\ inp g' = inp g /\
    log g' = log g ++ [Flipped (tile_ctrl g')].
Proof.
  intros Hs H0 (Hc & Hv & Hf). pose proof (stack_length _ _ _ Hs) as HL. pose proof Hs as (L & Hi & Hx & Ht).
  assert (contexts g !! 0%nat = Some c0) as E0.
  { rewrite <- H0, <- Ht. by rewrite lookup_take_lt by lia. }
  set (front := if page_front g =? 0 then 1 else 0).
  assert (exists tc v, aget (page_tile_ctrl g) front = Ok tc /\ aget (page_vram g) (page_front g) = Ok v /\
    nth_error (page_tile_ctrl g) (Z.to_nat front) = Some tc /\
    v = VRAM_BASE + 2 * (if front =? 0 then 8192 else 0)) as (tc & v & E1 & E2 & E3 & E4).
  { rewrite Hc, Hv. unfold front. destruct Hf as [-> | ->]; cbn; eauto 10. }
  set (g1 := with_stack (with_page g front v tc) (contexts g) 0 (ctx g)).
  assert (get_ctx g1 = Ok (c, g1)) as Eg.
  { unfold get_ctx, lift. cbn. pose proof (get_ctx_stack l c g Hs) as E. unfold get_ctx, lift in E.
    destruct (aget (contexts g) (ctx g)); [|done]. by injection E as ->. }
  exists (with_stack g1 (<[1%nat := c]> (contexts g)) 1 1). split; [|split].
  - unfold gfx_pageflip, mbind, M_bind, gets, lift, modify. cbn [id]. fold front. rewrite E1, E2.
    change (with_stack (with_page g front v tc) (contexts (with_page g front v tc)) 0 (ctx (with_page g front v tc)))
      with g1.
    unfold gfx_push, mbind, M_bind, gets, lift, modify. change (context_idx g1 <? NUM_CTX) with true. cbv iota.
    cbv beta. rewrite Eg. change (contexts g1) with (contexts g). rewrite aset_in by (change (context_idx g1) with 0; lia). done.
  - split_and!; cbn; [by rewrite length_insert|done|done|].
    destruct (contexts g) as [|d0 [|d1 cs]]; [done|cbn in L; lia|]. cbn in E0 |- *. by injection E0 as ->.
  - assert (front = 1 - page_front g /\ (front = 0 \/ front = 1)) as [F1 F2]
      by (unfold front; destruct Hf as [-> | ->]; cbn; auto).
    split_and!; [|done|done|done|done|done]. split_and!; [by split_and!| |done].
    split; [cbn; rewrite E4; unfold back_page; done|]. unfold back_page. cbn. destruct F2 as [-> | ->]; cbn; auto.
Qed.

(** The first context gets the size of the screen. *)
Lemma resize_spec wide l c c0 g :
  stack l c g -> (l ++ [c]) !! 0%nat = Some c0 ->
  let c0' := set_rect 0 0 (screen_w wide) (screen_h wide) c0 in
  let g1 := with_contexts g (<[0%nat := c0']> (contexts g)) in
  (cs ← gets contexts; c ← lift (aget cs 0); cs ← lift (aset cs 0 (set_rect 0 0 (screen_w wide) (screen_h wide) c));
   modify (fun g => with_contexts g cs)) g = Ok (tt, g1) /\
  exists l' c', stack l' c' g1 /\ l' ++ [c'] = <[0%nat := c0']> (l ++ [c]) /\ (l <> [] -> c' = c).
Proof.
  intros Hs H0 c0' g1. pose proof (stack_length _ _ _ Hs) as HL. pose proof Hs as (L & Hi & Hx & Ht).
  assert (contexts g !! 0%nat = Some c0) as E0 by (rewrite <- H0, <- Ht; by rewrite lookup_take_lt by lia).
  split.
  - unfold gets, lift, modify, mbind, M_bind. rewrite (aget_lookup _ 0 c0) by done. by rewrite aset_in by lia.
  - assert (take (S (length l)) (<[0%nat := c0']> (contexts g)) = <[0%nat := c0']> (l ++ [c])) as Et
      by (rewrite <- Ht; apply take_insert_lt; lia).
    destruct l as [|d l].
    + exists [], c0'. split_and!; [|done|done]. split_and!; cbn; [by rewrite length_insert|done|done|exact Et].
    + exists (c0' :: l), c. split_and!; [|done|done].
      split_and!; cbn; [by rewrite length_insert|done|done|exact Et].
Qed.

(** From a stack with [c] on top and [c0] at the bottom, and with answers from
    the PLL, [gfx_set_240p] ends with the resized first context below a copy
    of the current one, on flipped pages. *)
Lemma set_240p_spec hz wide l c c0 g b polls rest cm :
  stack l c g -> (l ++ [c]) !! 0%nat = Some c0 ->
  pll_params F32 (fmul F32 (mhz_240p hz wide) (of_Z F32 4)) = Ok cm ->
  length polls = 8%nat -> Forall (Forall (fun x => x <> 0)) polls -> pll_io_reads b = busy_reads polls rest ->
  (page_front g = 0 \/ page_front g = 1) ->
  exists g' b' c', gfx_set_240p hz wide (g, b) = Ok (tt, (g', b')) /\ pll_io_reads b' = rest /\
    writes b' = writes b ++ crt_trace (mode_240p wide (mhz_240p hz wide)) wide cm.1.1 cm.1.2 cm.2 /\
    let c0' := set_rect 0 0 (screen_w wide) (screen_h wide) c0 in
    stack [c0'] c' g' /\ (l <> [] -> c' = c) /\ (l = [] -> c' = c0') /\ flipped wide g' /\
    tiles g' = tiles g /\ menus g' = menus g /\ inp g' = inp g /\ traced g g'.
Proof.
  intros Hs H0 Hp Hl Hz Hb Hf. destruct cm as [[cc m] k]. set (c0' := set_rect 0 0 (screen_w wide) (screen_h wide) c0).
  destruct (resize_spec wide l c c0 g Hs H0) as (E1 & l' & c' & Hs' & El & Hc). fold c0' in E1, Hs', El.
  set (g1 := with_contexts g _) in *.
  set (mode := mode_240p wide (mhz_240p hz wide)).
  assert (mhz mode = mhz_240p hz wide) as Em by (unfold mode; by destruct wide).
  pose proof (crt_set_mode_runs mode wide cc m k b polls rest) as Eb. rewrite Em in Eb.
  specialize (Eb Hp Hl Hz Hb). set (b' := mkBus _ _) in Eb.
  set (g2 := with_pages g1 [(u16 (- (hs mode + hfp mode - 9)), u16 (- vbp mode));
    (u16 (- (hs mode + hfp mode - 9)), u16 (64 * 8 - vbp mode))] [VRAM_BASE; VRAM_BASE + 2 * (TILE_MAX_W * 64)]).
  assert ((l' ++ [c']) !! 0%nat = Some c0') as H0'.
  { rewrite El. apply list_lookup_insert_eq. rewrite length_app. cbn. lia. }
  assert (pages_set wide g2) as Hpg by (split_and!; [by destruct wide|done|done]).
  destruct (pageflip_spec wide l' c' c0' g2 Hs' H0' Hpg) as (g' & E2 & Hs2 & Hfl & _ & T & Hm & Hin & Hlog).
  destruct (flipped_u16 _ _ Hfl) as [U1 U2].
  exists g', b', c'. split; [|split_and!; try done].
  - unfold gfx_set_240p, mbind at 1, M_bind at 1, on_gfx at 1. rewrite E1. unfold mbind, M_bind, on_bus, on_gfx.
    fold mode. rewrite Eb. unfold modify. cbv beta iota zeta. fold g2. by rewrite E2.
  - split_and!; try done; [|by apply (flip_traced g)]. intros ->. cbn in El. destruct l'; [|by destruct l']. by injection El.
Qed.
