(* ===== verification/Modes.v ===== *)
(** * The modes of the configuration menu (firmware/src/main.c)

    The resolutions and refresh rates that can be chosen, with an exhaustive
    check of what the timing and PLL calculations of hdmi.c give for them. *)

From S2P Require Import Prelude Float Hdmi HdmiProps Printf Numerals Formats Video.

(** ** Tables *)

Record HDMIResolution : Type := mkRes { width : Z; height : Z; wide : bool }.

Definition hdmi_resolutions : list HDMIResolution :=
  [mkRes 640 480 false; mkRes 800 600 false; mkRes 1280 720 true; mkRes 1024 768 false; mkRes 1366 768 false;
   mkRes 1280 960 false; mkRes 1708 960 true; mkRes 1920 1080 true; mkRes 1600 1200 false; mkRes 1792 1344 false;
   mkRes 1920 1440 false; mkRes 2048 1536 false].

Definition hdmi_refresh_rates : list Z :=
  [24; 30; 50; 51; 52; 53; 54; 55; 56; 57; 58; 59; 60; 61; 62; 63; 64; 65; 72].

(** The conversions work on their static buffer, which is passed along. *)
Definition resolution_to_string (i : Z) (tmp : list Z) : result (list Z * list Z) :=
  r ← aget hdmi_resolutions i;
  '(_, tmp) ← snprintf_ tmp 32 (chars "%ux%u") [VInt (width r); VInt (height r)];
  s ← cstr tmp;
  Ok (s, tmp).

Definition refresh_to_string (i : Z) (tmp : list Z) : result (list Z * list Z) :=
  hz ← aget hdmi_refresh_rates i;
  '(_, tmp) ← snprintf_ tmp 10 (chars "%dhz") [VInt hz];
  s ← cstr tmp;
  Ok (s, tmp).

(** ** Accuracy

    The output of a PLL with the counters [c], [m] and the fraction [k] is
    [50 * (m + k / 2^32) / c] MHz; at [pix] pixels a frame the refresh rate
    is within [limit] microhertz of [hz]. *)
Definition accurate (pix hz c m k limit : Z) : bool :=
  Z.abs (50000000 * (m * 2 ^ 32 + k) - hz * pix * 2 ^ 32 * c) * 1000000 <=? limit * (pix * 2 ^ 32 * c).

(** The counters fit their fields and the oscillator runs between 400 and
    1600 MHz. *)
Definition legal_pll (c m k : Z) : bool :=
  (0 <? c) && (c <? 256) && (0 <? m) && (m <? 256) && (0 <? k) && (k <? 2 ^ 32) &&
  (400 * 2 ^ 32 <=? 50 * (m * 2 ^ 32 + k)) && (50 * (m * 2 ^ 32 + k) <=? 1600 * 2 ^ 32).

Definition hdmi_check (limit : Z) (r : HDMIResolution) (hz : Z) : bool :=
  match hdmi_find_mode (width r) (height r) (of_Z F32 hz) with
  | Ok mode =>
      match pll_params F64 (hdmi_mhz mode (of_Z F32 hz)) with
      | Ok (c, m, k) =>
          fits_12 mode && (hact mode =? 4 * (width r / 4)) && (vact mode =? height r) && legal_pll c m k &&
          accurate (video_mode_pixels mode) hz c m k limit
      | Err _ => false
      end
  | Err _ => false
  end.

Definition crt_check (limit : Z) (wide : bool) (hz : Z) : bool :=
  match pll_params F32 (fmul F32 (mhz_240p (of_Z F32 hz) wide) (of_Z F32 4)) with
  | Ok (c, m, k) =>
      legal_pll c m k && accurate (4 * video_mode_pixels (mode_240p wide (of_Z F32 0))) hz c m k limit
  | Err _ => false
  end.

(** All menu modes are within 4 microhertz, but one. *)
Definition hdmi_limit (i j : Z) : Z := if (i =? 5) && (j =? 11) then 78870 else 4.

Definition checked_at {A} (P : A -> bool) (o : option A) : bool := match o with Some x => P x | None => false end.

Lemma hdmi_all_checked :
  forallb (fun i => forallb (fun j =>
    checked_at (fun r => checked_at (hdmi_check (hdmi_limit (Z.of_nat i) (Z.of_nat j)) r) (hdmi_refresh_rates !! j))
      (hdmi_resolutions !! i)) (seq 0 19)) (seq 0 12) = true.
Proof. vm_compute. reflexivity. Qed.

Lemma crt_all_checked :
  forallb (fun j => checked_at (fun hz => crt_check 3 true hz && crt_check 3 false hz) (hdmi_refresh_rates !! j)) (seq 0 19)
  = true.
Proof. vm_compute. reflexivity. Qed.

Lemma forallb_seq n (P : nat -> bool) i : forallb P (seq 0 n) = true -> (i < n)%nat -> P i = true.
Proof. intros H Hi. rewrite forallb_forall in H. apply H, in_seq. lia. Qed.

Lemma aget_checked {A} (l : list A) i P :
  0 <= i -> checked_at P (l !! Z.to_nat i) = true -> exists x, aget l i = Ok x /\ P x = true.
Proof.
  intros Hi H. destruct (l !! Z.to_nat i) as [x|] eqn:E; [|done]. exists x. split; [by apply aget_lookup|done].
Qed.

Lemma hdmi_checked i j :
  0 <= i < 12 -> 0 <= j < 19 ->
  exists r hz, aget hdmi_resolutions i = Ok r /\ aget hdmi_refresh_rates j = Ok hz /\
    hdmi_check (hdmi_limit i j) r hz = true.
Proof.
  intros Hi Hj. pose proof (forallb_seq _ _ (Z.to_nat i) hdmi_all_checked ltac:(lia)) as H. cbv beta in H.
  apply (forallb_seq _ _ (Z.to_nat j)) in H; [|lia]. cbv beta in H. rewrite !Z2Nat.id in H by lia.
  apply aget_checked in H as (r & Er & H); [|lia]. cbv beta in H. apply aget_checked in H as (hz & Eh & H); [|lia]. eauto.
Qed.

Lemma crt_checked j wide :
  0 <= j < 19 -> exists hz, aget hdmi_refresh_rates j = Ok hz /\ crt_check 3 wide hz = true.
Proof.
  intros Hj. pose proof (forallb_seq _ _ (Z.to_nat j) crt_all_checked ltac:(lia)) as H. cbv beta in H.
  apply aget_checked in H as (hz & Eh & H); [|lia]. exists hz. split; [done|]. apply andb_prop in H as [H1 H2]. by destruct wide.
Qed.

Lemma legal_pll_spec c m k :
  legal_pll c m k = true ->
  0 < c < 256 /\ 0 < m < 256 /\ 400 * 2 ^ 32 <= 50 * (m * 2 ^ 32 + k) <= 1600 * 2 ^ 32.
Proof. unfold legal_pll. intros. lia. Qed.

Lemma hdmi_check_spec limit r hz :
  hdmi_check limit r hz = true ->
  exists mode c m k, hdmi_find_mode (width r) (height r) (of_Z F32 hz) = Ok mode /\
    pll_params F64 (hdmi_mhz mode (of_Z F32 hz)) = Ok (c, m, k) /\ fits_12 mode = true /\
    hact mode = 4 * (width r / 4) /\ vact mode = height r /\ legal_pll c m k = true /\
    accurate (video_mode_pixels mode) hz c m k limit = true.
Proof.
  unfold hdmi_check. destruct (hdmi_find_mode _ _ _) as [mode|]; [|done].
  destruct (pll_params _ _) as [[[c m] k]|] eqn:E; [|done]. intros H.
  rewrite !andb_true_iff, !Z.eqb_eq in H. destruct H as [[[[H1 H2] H3] H4] H5]. exists mode, c, m, k. by split_and!.
Qed.

(** C9: Every mode of the menu can be set, and is what it says.  For each of
    the 12 resolutions and 19 refresh rates the timing calculation and the
    search for PLL parameters succeed; the timing fits the registers and has
    the chosen height and the chosen width rounded down to a multiple of four
    (which only 1366 is not); the PLL parameters are legal; and the refresh
    rate they give is within 4 microhertz of the chosen one, except at
    1280x960, 59 Hz, where it is within 79 millihertz. *)
Theorem hdmi_modes_accurate (i j : Z) :
  0 <= i < zlen hdmi_resolutions -> 0 <= j < zlen hdmi_refresh_rates ->
  exists r hz mode c m k,
    aget hdmi_resolutions i = Ok r /\ aget hdmi_refresh_rates j = Ok hz /\
    hdmi_find_mode (width r) (height r) (of_Z F32 hz) = Ok mode /\
    fits_12 mode = true /\ hact mode = 4 * (width r / 4) /\ vact mode = height r /\
    pll_params F64 (hdmi_mhz mode (of_Z F32 hz)) = Ok (c, m, k) /\
    0 < c < 256 /\ 0 < m < 256 /\ 400 * 2 ^ 32 <= 50 * (m * 2 ^ 32 + k) <= 1600 * 2 ^ 32 /\
    accurate (video_mode_pixels mode) hz c m k (if (i =? 5) && (j =? 11) then 78870 else 4) = true.
Proof.
  intros Hi Hj. destruct (hdmi_checked i j Hi Hj) as (r & hz & Er & Eh & H).
  apply hdmi_check_spec in H as (mode & c & m & k & H1 & H2 & H3 & H4 & H5 & H6 & H7).
  apply legal_pll_spec in H6 as (L1 & L2 & L3). exists r, hz, mode, c, m, k. split_and!; done || lia.
Qed.

Lemma hdmi_modes_accurate_witness :
  exists r hz mode c m k,
    aget hdmi_resolutions 7 = Ok r /\ aget hdmi_refresh_rates 12 = Ok hz /\
    hdmi_find_mode (width r) (height r) (of_Z F32 hz) = Ok mode /\
    fits_12 mode = true /\ hact mode = 4 * (width r / 4) /\ vact mode = height r /\
    pll_params F64 (hdmi_mhz mode (of_Z F32 hz)) = Ok (c, m, k) /\
    0 < c < 256 /\ 0 < m < 256 /\ 400 * 2 ^ 32 <= 50 * (m * 2 ^ 32 + k) <= 1600 * 2 ^ 32 /\
    accurate (video_mode_pixels mode) hz c m k 4 = true.
Proof. apply (hdmi_modes_accurate 7 12); vm_compute; split; congruence. Defined.

(** C17: The 240p picture follows every refresh rate of the menu, in both
    aspect ratios: the PLL parameters exist and are legal, and with the
    divider of four the frame rate is within 3 microhertz of the chosen one. *)
Theorem crt_modes_accurate (j : Z) (wide : bool) :
  0 <= j < zlen hdmi_refresh_rates ->
  exists hz c m k,
    aget hdmi_refresh_rates j = Ok hz /\
    pll_params F32 (fmul F32 (mhz_240p (of_Z F32 hz) wide) (of_Z F32 4)) = Ok (c, m, k) /\
    0 < c < 256 /\ 0 < m < 256 /\ 400 * 2 ^ 32 <= 50 * (m * 2 ^ 32 + k) <= 1600 * 2 ^ 32 /\
    accurate (4 * video_mode_pixels (mode_240p wide (of_Z F32 0))) hz c m k 3 = true.
Proof.
  intros Hj. destruct (crt_checked j wide Hj) as (hz & Eh & H). unfold crt_check in H.
  destruct (pll_params _ _) as [[[c m] k]|] eqn:E; [|done]. apply andb_prop in H as [H1 H2].
  apply legal_pll_spec in H1 as (L1 & L2 & L3). exists hz, c, m, k. split_and!; done || lia.
Qed.

Lemma crt_modes_accurate_witness :
  exists hz c m k,
    aget hdmi_refresh_rates 12 = Ok hz /\
    pll_params F32 (fmul F32 (mhz_240p (of_Z F32 hz) true) (of_Z F32 4)) = Ok (c, m, k) /\
    0 < c < 256 /\ 0 < m < 256 /\ 400 * 2 ^ 32 <= 50 * (m * 2 ^ 32 + k) <= 1600 * 2 ^ 32 /\
    accurate (4 * video_mode_pixels (mode_240p true (of_Z F32 0))) hz c m k 3 = true.
Proof. apply (crt_modes_accurate 12 true). vm_compute. split; congruence. Defined.
