(* ===== verification/Menu.v ===== *)
(** * Menus (firmware/src/gfx.c)

    [gfx_begin_menu], the items, and their use of the pad: the selection moves
    with up and down over the items drawn in the last frame, and the options
    of the selected item with left and right. *)

From S2P Require Import Prelude Input Blitter Printf Formats Gfx GfxProps.

(** [*menuctx] *)
Definition get_menu (m : Z) : M gfx MenuContext := fun g => lift (aget (menus g) m) g.
Definition set_menu (m : Z) (mc : MenuContext) : M gfx unit :=
  fun g => match aset (menus g) m mc with Ok ms => Ok (tt, with_menus g ms) | Err f => Err f end.

(** The effect of the pad on the menu at the start of a frame. *)
Definition menu_move (pressed : Z) (mc : MenuContext) : MenuContext :=
  let mc := if has pressed INPUT_UP
            then {| index := index mc - 1; count := count mc; tmp_option_idx := -1 |} else mc in
  let mc := if has pressed INPUT_DOWN
            then {| index := index mc + 1; count := count mc; tmp_option_idx := -1 |} else mc in
  let i := if count mc <=? index mc then 0 else index mc in
  let i := if i <? 0 then count mc - 1 else i in
  {| index := i; count := 0; tmp_option_idx := tmp_option_idx mc |}.

(** [menuctx] is the pointer. *)
Definition gfx_begin_menu (name : list Z) (w h : Z) (menu : Z) : M gfx unit :=
  gfx_pen TEXT_BLUE;;
  gfx_begin_window (ALIGN_CENTER ||| ALIGN_MIDDLE) 0 0 w h 1;;
  c ← get_ctx;
  set_ctx (set_menuctx (Some menu) c);;
  pressed ← gets (fun g => input_pressed (inp g));
  mc ← get_menu menu;
  set_menu menu (menu_move pressed mc);;
  gfx_pen TEXT_DARK_GRAY;;
  gfx_text_aligned ALIGN_CENTER name.

Definition gfx_end_menu : M gfx unit := gfx_end_window.

(** The new option of the selected item. *)
Definition option_move (pressed num_options i : Z) : Z :=
  let i := if has pressed INPUT_RIGHT then i + 1 else i in
  let i := if has pressed INPUT_LEFT then i - 1 else i in
  let i := if i <? 0 then num_options - 1 else i in
  if num_options <=? i then 0 else i.

(** [*p++ = c] into [txt[40]] *)
Definition txt_push (txt : list Z) (c : Z) : result (list Z) :=
  if zlen txt <? 40 then Ok (txt ++ [c]) else Err OutOfBounds.
Fixpoint txt_copy (txt : list Z) (cs : list Z) : result (list Z) :=
  match cs with
  | [] => Ok txt
  | c :: cs => txt ← txt_push txt c; txt_copy txt cs
  end.

(** The line of an item: label and value at the two ends of [width] cells,
    between the arrows.  The text without its NUL. *)
Definition item_line (width : Z) (label value_str : list Z) : result (list Z) :=
  let space_len := width - (2 + zlen label + zlen value_str) in
  let space_len := if space_len <? 0 then 0 else space_len in
  txt ← txt_push [] 126;
  txt ← txt_copy txt label;
  txt ← txt_copy txt (replicate (Z.to_nat space_len) 0x20);
  txt ← txt_copy txt value_str;
  txt ← txt_push txt 127;
  txt0 ← txt_push txt 0;
  Ok txt.

(** [option_index] is passed and returned by value; the result also says
    whether it changed.  [item_to_string] may use the state (its static
    buffer), which is threaded through. *)
Definition gfx_menuitem_select_func {S} (label : list Z) (num_options : Z)
    (item_to_string : Z -> S -> result (list Z * S)) (option_index : Z) (st : S)
    : M gfx (bool * Z * S) :=
  c ← get_ctx;
  match menuctx c with
  | None => mret (false, option_index, st)
  | Some menu =>
      mc ← get_menu menu;
      let selected := count mc =? index mc in
      pressed ← gets (fun g => input_pressed (inp g));
      let i := if selected then option_move pressed num_options option_index else option_index in
      '(value_str, st) ← lift (item_to_string i st);
      txt ← lift (item_line (rw c) label value_str);
      gfx_newline 1;;
      gfx_pen (if selected then TEXT_GRAY ||| TEXT_INVERT else TEXT_GRAY);;
      gfx_text txt;;
      mc ← get_menu menu;
      set_menu menu {| index := index mc; count := count mc + 1; tmp_option_idx := tmp_option_idx mc |};;
      mret (negb (i =? option_index), i, st)
  end.

(** The options of [gfx_menuitem_select] are an array of strings. *)
Definition menuitem_to_string_simple (options : list (list Z)) (i : Z) (st : unit) : result (list Z * unit) :=
  s ← aget options i; Ok (s, st).

Definition gfx_menuitem_select (label : list Z) (options : list (list Z)) (num_options option_index : Z)
    : M gfx (bool * Z) :=
  '(changed, i, _) ← gfx_menuitem_select_func label num_options (menuitem_to_string_simple options) option_index tt;
  mret (changed, i).

Definition gfx_menuitem_button (label : list Z) : M gfx bool :=
  c ← get_ctx;
  match menuctx c with
  | None => mret false
  | Some menu =>
      mc ← get_menu menu;
      let selected := count mc =? index mc in
      pressed ← gets (fun g => input_pressed (inp g));
      gfx_newline 1;;
      gfx_pen (if selected then TEXT_GRAY ||| TEXT_INVERT else TEXT_GRAY);;
      gfx_text_aligned ALIGN_CENTER label;;
      mc ← get_menu menu;
      set_menu menu {| index := index mc; count := count mc + 1; tmp_option_idx := tmp_option_idx mc |};;
      mret (selected && has pressed INPUT_OK)
  end.

(** ** Moving the selection *)

Definition step_of (pressed plus minus : Z) : Z :=
  (if has pressed plus then 1 else 0) - (if has pressed minus then 1 else 0).

(** Decide every comparison of the goal, innermost first. *)
Ltac compare_all :=
  repeat match goal with
    | |- context [?a <=? ?b] =>
        lazymatch constr:((a, b)) with context [if _ then _ else _] => fail | _ => destruct (Z.leb_spec a b) end
    | |- context [?a <? ?b] =>
        lazymatch constr:((a, b)) with context [if _ then _ else _] => fail | _ => destruct (Z.ltb_spec a b) end
    end.

Lemma wrap_once n i : 0 < n -> -1 <= i <= n -> (if i <? 0 then n - 1 else if n <=? i then 0 else i) = i mod n.
Proof.
  intros Hn Hi. destruct (Z.ltb_spec i 0).
  - replace i with (-1) by lia. rewrite <- (Z.mod_add (-1) 1 n) by lia. rewrite Z.mod_small; lia.
  - destruct (Z.leb_spec n i); [|rewrite Z.mod_small; lia]. replace i with n by lia. by rewrite Z.mod_same by lia.
Qed.

Lemma option_move_mod pressed n i :
  0 < n -> 0 <= i < n -> option_move pressed n i = (i + step_of pressed INPUT_RIGHT INPUT_LEFT) mod n.
Proof.
  intros Hn Hi. unfold option_move, step_of. rewrite <- wrap_once by (repeat case_match; lia).
  destruct (has pressed INPUT_RIGHT), (has pressed INPUT_LEFT);
    compare_all; lia.
Qed.

(** Left and right step through the options of the selected item in a
    circle: for an option in range the new one is in range, one further for
    right, one back for left, and the same for both or neither. *)
Theorem option_move_cycles (pressed n i : Z) :
  0 < n -> 0 <= i < n ->
  let i' := option_move pressed n i in
  0 <= i' < n /\ i' = (i + step_of pressed INPUT_RIGHT INPUT_LEFT) mod n /\
  (step_of pressed INPUT_RIGHT INPUT_LEFT = 0 -> i' = i).
Proof.
  intros Hn Hi i'. subst i'. rewrite option_move_mod by done. split; [by apply Z.mod_pos_bound|split; [done|]].
  intros ->. rewrite Z.add_0_r. by apply Z.mod_small.
Qed.

Lemma option_move_cycles_witness :
  let i' := option_move INPUT_LEFT 12 0 in
  0 <= i' < 12 /\ i' = (0 + step_of INPUT_LEFT INPUT_RIGHT INPUT_LEFT) mod 12 /\
  (step_of INPUT_LEFT INPUT_RIGHT INPUT_LEFT = 0 -> i' = 0).
Proof. apply (option_move_cycles INPUT_LEFT 12 0); lia. Defined.

Lemma menu_move_mod pressed mc :
  0 < count mc -> 0 <= index mc < count mc ->
  index (menu_move pressed mc) = (index mc + step_of pressed INPUT_DOWN INPUT_UP) mod count mc.
Proof.
  intros Hn Hi. unfold menu_move, step_of. rewrite <- wrap_once by (repeat case_match; lia).
  destruct (has pressed INPUT_UP), (has pressed INPUT_DOWN); cbn [index count];
    compare_all; lia.
Qed.

Lemma menu_move_range pressed mc :
  0 < count mc -> let mc' := menu_move pressed mc in 0 <= index mc' < count mc /\ count mc' = 0.
Proof.
  intros Hn. unfold menu_move. destruct (has pressed INPUT_UP), (has pressed INPUT_DOWN); cbn [index count];
    compare_all; lia.
Qed.

(** The selection is always one of the items of the last frame: whatever
    the index was (the number of items changes with the options), after
    [gfx_begin_menu] it is in range and the count starts again from zero; and
    within the range up and down move it in a circle. *)
Theorem menu_move_cycles (pressed : Z) (mc : MenuContext) :
  0 < count mc ->
  let mc' := menu_move pressed mc in
  0 <= index mc' < count mc /\ count mc' = 0 /\
  (0 <= index mc < count mc -> index mc' = (index mc + step_of pressed INPUT_DOWN INPUT_UP) mod count mc).
Proof.
  intros Hn mc'. destruct (menu_move_range pressed mc Hn) as [H1 H2]. split; [done|split; [done|]].
  intros Hi. by apply menu_move_mod.
Qed.

Lemma menu_move_cycles_witness :
  let mc' := menu_move INPUT_UP {| index := 0; count := 5; tmp_option_idx := -1 |} in
  0 <= index mc' < 5 /\ count mc' = 0 /\
  (0 <= 0 < 5 -> index mc' = (0 + step_of INPUT_UP INPUT_DOWN INPUT_UP) mod 5).
Proof. apply (menu_move_cycles INPUT_UP {| index := 0; count := 5; tmp_option_idx := -1 |}). cbn. lia. Defined.

(** ** The line of an item *)

Lemma txt_copy_spec txt cs :
  zlen txt <= 40 ->
  txt_copy txt cs = if zlen txt + zlen cs <=? 40 then Ok (txt ++ cs) else Err OutOfBounds.
Proof.
  revert txt. induction cs as [|c cs IH]; intros txt H; cbn [txt_copy].
  { change (zlen (@nil Z)) with 0. rewrite (proj2 (Z.leb_le _ _)) by lia. by rewrite app_nil_r. }
  assert (zlen (c :: cs) = zlen cs + 1) as E by (unfold zlen; cbn; lia). pose proof (zlen_nonneg cs).
  rewrite E. unfold txt_push. destruct (Z.ltb_spec (zlen txt) 40); cbn.
  - rewrite IH by (rewrite zlen_app; change (zlen [c]) with 1; lia). rewrite zlen_app, <- app_assoc.
    change (zlen [c]) with 1. by replace (zlen txt + 1 + zlen cs) with (zlen txt + (zlen cs + 1)) by lia.
  - by rewrite (proj2 (Z.leb_gt _ _)) by lia.
Qed.

Lemma txt_copy_app txt cs ds : txt_copy txt (cs ++ ds) = (txt ← txt_copy txt cs; txt_copy txt ds).
Proof. revert txt. induction cs as [|c cs IH]; intros txt; cbn; [done|]. destruct (txt_push txt c); cbn; auto. Qed.

Lemma txt_push_copy txt c : txt_push txt c = txt_copy txt [c].
Proof. cbn. by destruct (txt_push txt c). Qed.

(** What an item's line says. *)
Definition item_text (width : Z) (label v : list Z) : list Z :=
  [126] ++ label ++ replicate (Z.to_nat (width - (2 + zlen label + zlen v))) 0x20 ++ v ++ [127].

Lemma item_text_length width label v : zlen (item_text width label v) = Z.max width (2 + zlen label + zlen v).
Proof. unfold item_text, zlen. rewrite !length_app, length_replicate. cbn. lia. Qed.

Lemma item_line_copy width label v :
  item_line width label v = (txt ← txt_copy [] (item_text width label v); txt0 ← txt_push txt 0; Ok txt).
Proof.
  assert (forall n : Z, Z.to_nat (if n <? 0 then 0 else n) = Z.to_nat n) as En
    by (intros n; destruct (Z.ltb_spec n 0); lia).
  unfold item_line, item_text. rewrite En. generalize (replicate (Z.to_nat (width - (2 + zlen label + zlen v))) 0x20).
  intros sp. rewrite txt_copy_app. change (txt_push [] 126) with (Ok [126]).
  change (txt_copy [] [126]) with (Ok [126]). cbn [mbind result_bind]. rewrite txt_copy_app.
  destruct (txt_copy [126] label) as [t1|]; [|done]. cbn [mbind result_bind]. rewrite txt_copy_app.
  destruct (txt_copy t1 sp) as [t2|]; [|done]. cbn [mbind result_bind]. rewrite txt_copy_app.
  destruct (txt_copy t2 v) as [t3|]; [|done]. cbn [mbind result_bind]. by rewrite (txt_push_copy t3).
Qed.

Lemma item_line_spec width label v :
  item_line width label v =
    if zlen (item_text width label v) <? 40 then Ok (item_text width label v) else Err OutOfBounds.
Proof.
  rewrite item_line_copy. generalize (item_text width label v). intros t. pose proof (zlen_nonneg t).
  rewrite txt_copy_spec by done. change (zlen (@nil Z)) with 0. rewrite Z.add_0_l.
  destruct (Z.leb_spec (zlen t) 40); cbn; [|by rewrite (proj2 (Z.ltb_ge _ _)) by lia].
  unfold txt_push. by destruct (zlen t <? 40).
Qed.

(** The line of a menu item is the label, spaces and the value between
    the two arrows, exactly as wide as the window when it fits there, and the
    40 characters of the buffer are enough just when window and text are
    shorter than that; otherwise the copy runs past the end of the buffer. *)
Theorem item_line_layout (width : Z) (label v : list Z) :
  let needed := 2 + zlen label + zlen v in
  (Z.max width needed < 40 ->
     item_line width label v = Ok ([126] ++ label ++ replicate (Z.to_nat (width - needed)) 0x20 ++ v ++ [127]) /\
     zlen ([126] ++ label ++ replicate (Z.to_nat (width - needed)) 0x20 ++ v ++ [127]) = Z.max width needed) /\
  (40 <= Z.max width needed -> item_line width label v = Err OutOfBounds).
Proof.
  intros needed. pose proof (item_text_length width label v) as E. fold needed in E. split; intros H.
  - split; [|exact E]. rewrite item_line_spec, (proj2 (Z.ltb_lt _ _)) by lia. done.
  - rewrite item_line_spec, (proj2 (Z.ltb_ge _ _)) by lia. done.
Qed.

(** ** Menus keep to their page *)

Section canvas.
Context (g0 : gfx) (p : Z) (Hpage : page_at p g0).
Abbreviation canvas := (canvas g0 p).

Lemma canvas_with_menu {B} ms l c m mc (k : MenuContext -> M gfx B) Q :
  aget ms m = Ok mc -> hoare (canvas ms l c) (k mc) Q -> hoare (canvas ms l c) (get_menu m ≫= k) Q.
Proof.
  intros E H g Hg. destruct (H g Hg) as (b & g' & E' & HQ). exists b, g'. split; [|done].
  unfold mbind, M_bind, get_menu. pose proof Hg as (_ & Hm & _). by rewrite Hm, E.
Qed.

Lemma canvas_set_menu ms l c m mc :
  0 <= m < zlen ms -> hoare (canvas ms l c) (set_menu m mc) (fun _ => canvas (<[Z.to_nat m := mc]> ms) l c).
Proof.
  intros Hm g (Hs & Em & He & Hd & Ht). exists tt, (with_menus g (<[Z.to_nat m := mc]> (menus g))). split.
  - unfold set_menu. rewrite aset_in by (rewrite Em; unfold zlen in Hm; lia). done.
  - split_and!; cbn; [done|by rewrite Em|done|done|done].
Qed.

Lemma canvas_with_pressed {B} ms l c (k : Z -> M gfx B) Q :
  hoare (canvas ms l c) (k (input_pressed (inp g0))) Q ->
  hoare (canvas ms l c) (gets (fun g => input_pressed (inp g)) ≫= k) Q.
Proof.
  intros H g Hg. destruct (H g Hg) as (b & g' & E' & HQ). exists b, g'. split; [|done].
  unfold mbind, M_bind, gets. pose proof Hg as (_ & _ & (_ & _ & _ & _ & _ & Hi) & _). by rewrite Hi.
Qed.
End canvas.
