(* ===== verification/Canvas.v ===== *)
(** * Layout of the screens

    The drawing operations as seen by the code that lays out a screen: of a
    context only its shape matters (the window, the menu and the current
    line), not the pen.  Each operation has a rule over shapes whose side
    conditions are closed for a concrete screen. *)

From S2P Require Import Prelude Input Blitter Printf Formats Gfx GfxProps Menu.

Record shape : Type := mkShape {
  s_x : Z;
  s_y : Z;
  s_w : Z;
  s_h : Z;
  s_menu : option Z;
  s_line : Z
}.

Definition has_shape (s : shape) (c : Context) : Prop :=
  sameline c = false /\ rx c = s_x s /\ ry c = s_y s /\ rw c = s_w s /\ rh c = s_h s /\
  menuctx c = s_menu s /\ y c = s_line s.

Definition with_line (s : shape) (n : Z) : shape :=
  {| s_x := s_x s; s_y := s_y s; s_w := s_w s; s_h := s_h s; s_menu := s_menu s; s_line := n |}.
Definition with_menu (s : shape) (m : option Z) : shape :=
  {| s_x := s_x s; s_y := s_y s; s_w := s_w s; s_h := s_h s; s_menu := m; s_line := s_line s |}.

(** A rectangle, and a text, inside the cells of the page. *)
Definition box_fits (s : shape) (x y' w h : Z) : bool :=
  (0 <=? s_x s) && (0 <=? s_y s) && (0 <=? x) && (0 <=? y') && (1 <=? w) && (1 <=? h) &&
  (s_x s + x + w <=? TILE_MAX_W) && (s_y s + y' + h <=? 64).

Definition shape_col (align len : Z) (s : shape) : Z :=
  if has align ALIGN_LEFT then 0
  else if has align ALIGN_RIGHT then s_w s - len
  else if has align ALIGN_CENTER then (s_w s - len) >>> 1
  else 0.

Definition line_fits (align len : Z) (s : shape) : bool :=
  let x := shape_col align len s in
  (0 <=? s_line s) && (0 <=? s_x s) && (0 <=? s_y s) && (0 <=? x) && (s_x s + x + len <=? TILE_MAX_W) &&
  (s_y s + s_line s <? 64).

(** The shape of a window opened in [s]. *)
Definition shape_window (align x y' w h frame : Z) (s : shape) : shape :=
  let bx := if has align ALIGN_CENTER then ((s_w s - w) >>> 1) + x
            else if has align ALIGN_RIGHT then (s_w s - w) - x else x in
  let by' := if has align ALIGN_MIDDLE then ((s_h s - h) >>> 1) + y'
             else if has align ALIGN_BOTTOM then (s_h s - h) - y' else y' in
  if 0 <? frame
  then {| s_x := bx + frame; s_y := by' + frame; s_w := w - 2 * frame; s_h := h - 2 * frame;
          s_menu := s_menu s; s_line := s_line s |}
  else {| s_x := bx; s_y := by'; s_w := w; s_h := h; s_menu := s_menu s; s_line := s_line s |}.

(** A window whose corner is on the page and whose frame, if any, fits. *)
Definition window_fits (align x y' w h frame : Z) (s : shape) : bool :=
  let s0 := shape_window align x y' w h 0 s in
  (0 <=? s_x s0) && (s_x s0 <? 1000) && (0 <=? s_y s0) && (s_y s0 <? 1000) && (0 <=? frame) && (frame <? 100) &&
  ((frame =? 0) || (box_fits s0 0 0 w h && (2 * frame <=? w) && (2 * frame <=? h) && (2 <=? w) && (2 <=? h))).

Section page.
Context (g0 : gfx) (p : Z) (Hpage : page_at p g0).

(** The stack has these shapes, on a canvas. *)
Definition on_page (ms : list MenuContext) (ls : list shape) (s : shape) (g : gfx) : Prop :=
  exists l c, Forall2 has_shape ls l /\ has_shape s c /\ canvas g0 p ms l c g.

(** A rule of the canvas as a rule over shapes. *)
Lemma on_page_intro {A} ms ls s (m : M gfx A) (Q : A -> gfx -> Prop) :
  (forall l c, Forall2 has_shape ls l -> has_shape s c -> hoare (canvas g0 p ms l c) m Q) ->
  hoare (on_page ms ls s) m Q.
Proof. intros H g (l & c & Hl & Hc & Hg). by apply (H l c). Qed.

Lemma page_rule {A} ms ls s (m : M gfx A) ms' (f : list Context -> Context -> list Context * Context) ls' s' :
  (forall l c, Forall2 has_shape ls l -> has_shape s c ->
     hoare (canvas g0 p ms l c) m (fun _ => canvas g0 p ms' (f l c).1 (f l c).2) /\
     Forall2 has_shape ls' (f l c).1 /\ has_shape s' (f l c).2) ->
  hoare (on_page ms ls s) m (fun _ => on_page ms' ls' s').
Proof.
  intros H. apply on_page_intro. intros l c Hl Hc. destruct (H l c Hl Hc) as (H1 & H2 & H3).
  eapply hoare_conseq; [exact H1|done|]. intros a g Hg. cbn. by exists (f l c).1, (f l c).2.
Qed.

Lemma page_seq {B} ms ls s ms' ls' s' (m : M gfx unit) (k : M gfx B) Q :
  hoare (on_page ms ls s) m (fun _ => on_page ms' ls' s') -> hoare (on_page ms' ls' s') k Q ->
  hoare (on_page ms ls s) (m;; k) Q.
Proof. intros Hm Hk. by apply hoare_bind with (R := fun _ => on_page ms' ls' s'). Qed.

Lemma page_pen ms ls s k : hoare (on_page ms ls s) (gfx_pen k) (fun _ => on_page ms ls s).
Proof.
  apply page_rule with (f := fun l c => (l, set_pen (u8 k) c)). intros l c Hl Hc.
  split_and!; [by apply canvas_pen|done|done].
Qed.

Lemma page_newline ms ls s n :
  0 <= s_line s + n < 65536 ->
  hoare (on_page ms ls s) (gfx_newline n) (fun _ => on_page ms ls (with_line s (s_line s + n))).
Proof.
  intros Hn. apply page_rule with (f := fun l c => (l, set_line (sameline c) (u16 (y c + n)) (prevx c) c)).
  intros l c Hl Hc. split_and!; [by apply canvas_newline|done|].
  destruct Hc as (H1 & H2 & H3 & H4 & H5 & H6 & H7). split_and!; cbn; try done. rewrite H7. by apply u16_small.
Qed.

Lemma box_fits_ok s c x y' w h : has_shape s c -> box_fits s x y' w h = true -> fits c x y' w h.
Proof. intros (_ & H2 & H3 & _) H. unfold box_fits in H. unfold fits. lia. Qed.

Lemma page_clear ms ls s :
  box_fits s 0 0 (s_w s) (s_h s) = true -> hoare (on_page ms ls s) gfx_clear (fun _ => on_page ms ls s).
Proof.
  intros H. apply page_rule with (f := fun l c => (l, c)). intros l c Hl Hc. split_and!; [|done|done].
  cbn [fst snd]. apply canvas_clear; [done|]. pose proof Hc as (_ & _ & _ & -> & -> & _). by apply (box_fits_ok s).
Qed.

Lemma page_rect ms ls s x y' w h :
  box_fits s x y' w h = true -> hoare (on_page ms ls s) (gfx_rect x y' w h) (fun _ => on_page ms ls s).
Proof.
  intros H. apply page_rule with (f := fun l c => (l, c)). intros l c Hl Hc. split_and!; [|done|done].
  apply canvas_rect; [done|]. by apply (box_fits_ok s).
Qed.

Lemma page_image ms ls s tile color x y' w h :
  box_fits s x y' h h = true ->
  hoare (on_page ms ls s) (gfx_image tile color x y' w h) (fun _ => on_page ms ls s).
Proof.
  intros H. apply page_rule with (f := fun l c => (l, c)). intros l c Hl Hc. split_and!; [|done|done].
  apply canvas_image; [done|]. by apply (box_fits_ok s).
Qed.

Lemma page_border ms ls s :
  box_fits s 0 0 (s_w s) (s_h s) = true -> 3 <= s_h s -> 3 <= s_w s ->
  hoare (on_page ms ls s) gfx_display_border (fun _ => on_page ms ls s).
Proof.
  intros H Hh Hw. apply page_rule with (f := fun l c => (l, c)). intros l c Hl Hc. split_and!; [|done|done].
  pose proof Hc as (_ & _ & _ & E4 & E5 & _). cbn [fst snd]. apply canvas_border; [done|rewrite E4, E5; by apply (box_fits_ok s)|lia..].
Qed.

Lemma shape_text_ok align str s c :
  has_shape s c -> line_fits align (zlen str) s = true ->
  text_fits align str c /\ text_row c = s_line s /\ text_col align (zlen str) c = shape_col align (zlen str) s.
Proof.
  intros (H1 & H2 & H3 & H4 & H5 & H6 & H7) H. unfold line_fits in H.
  assert (text_col align (zlen str) c = shape_col align (zlen str) s) as E
    by (unfold text_col, shape_col; by rewrite H1, H4).
  unfold text_fits. rewrite E. unfold text_row. rewrite H1, H2, H3, H7. split_and!; try done; lia.
Qed.

Lemma page_text ms ls s align str :
  line_fits align (zlen str) s = true ->
  hoare (on_page ms ls s) (gfx_text_aligned align str) (fun _ => on_page ms ls (with_line s (s_line s + 1))).
Proof.
  intros H. apply page_rule with (f := fun l c =>
    (l, set_line false (text_row c + 1) (text_col align (zlen str) c + zlen str) c)).
  intros l c Hl Hc. destruct (shape_text_ok align str s c Hc H) as (H1 & H2 & H3). split_and!; [by apply canvas_text|done|].
  destruct Hc as (C1 & C2 & C3 & C4 & C5 & C6 & C7). split_and!; cbn; try done. lia.
Qed.

Lemma page_textf ms ls s tmp align fmt a cs :
  length tmp = 40%nat -> prints fmt a cs -> zlen cs < PRINTF_MAX_POSSIBLE_BUFFER_SIZE ->
  Forall (fun ch => ch <> 0) cs -> line_fits align (zlen (take 39 cs)) s = true ->
  hoare (on_page ms ls s) (gfx_textf_aligned tmp align fmt a) (fun _ => on_page ms ls (with_line s (s_line s + 1))).
Proof.
  intros Ht Hp Hl Hz H. set (str := take 39 cs) in *. apply page_rule with (f := fun l c =>
    (l, set_line false (text_row c + 1) (text_col align (zlen str) c + zlen str) c)).
  intros l c Hls Hc. destruct (shape_text_ok align str s c Hc H) as (H1 & H2 & H3).
  split_and!; [by apply (canvas_textf _ _ Hpage ms l c tmp align fmt a cs)|done|].
  destruct Hc as (C1 & C2 & C3 & C4 & C5 & C6 & C7). split_and!; cbn; try done. lia.
Qed.

Lemma shape_window_ok align x y' w h frame s c :
  has_shape s c -> window_fits align x y' w h frame s = true -> 0 <= w < 32768 -> 0 <= h < 32768 ->
  has_shape (shape_window align x y' w h frame s) (window align x y' w h frame c) /\
  (0 < frame -> let '(bx, by') := gfx_align_box align x y' w h c in
                2 <= w /\ 2 <= h /\ fits (set_rect (u16 bx) (u16 by') w h c) 0 0 w h).
Proof.
  intros (H1 & H2 & H3 & H4 & H5 & H6 & H7) H Hw Hh. unfold window_fits in H.
  set (s0 := shape_window align x y' w h 0 s) in H.
  assert (gfx_align_box align x y' w h c = (s_x s0, s_y s0)) as Eb.
  { unfold gfx_align_box. rewrite (u16_small w), (u16_small h) by (unfold is_u16; lia). subst s0. unfold shape_window in *. cbn -[Z.shiftr] in *. rewrite H4, H5.
    f_equal; repeat case_match; apply i16_small; lia. }
  unfold window. rewrite Eb. rewrite !(u16_small (s_x s0)), !(u16_small (s_y s0)) by (unfold is_u16; lia).
  assert (s_w s0 = w /\ s_h s0 = h) as [Ew Eh] by done.
  split.
  - unfold shape_window. fold s0. destruct (Z.ltb_spec 0 frame) as [Hf|Hf]; [|by split_and!].
    rewrite (proj2 (Z.eqb_neq frame 0)) in H by lia. cbn [orb] in H.
    rewrite !Z.shiftl_mul_pow2 by lia. change (2 ^ 1) with 2.
    split_and!; cbn [set_rect sameline rx ry rw rh menuctx y s_x s_y s_w s_h s_menu s_line]; try done.
    all: rewrite u16_small by (unfold is_u16; lia); subst s0; cbn; lia.
  - intros Hf. rewrite (proj2 (Z.eqb_neq frame 0)) in H by lia. cbn [orb] in H.
    unfold box_fits in H. unfold fits, TILE_MAX_W in *. cbn [set_rect rx ry]. lia.
Qed.

Lemma page_begin_window ms ls s align x y' w h frame :
  (length ls < 7)%nat -> window_fits align x y' w h frame s = true -> 0 <= w < 32768 -> 0 <= h < 32768 ->
  hoare (on_page ms ls s) (gfx_begin_window align x y' w h frame)
    (fun _ => on_page ms (ls ++ [s]) (shape_window align x y' w h frame s)).
Proof.
  intros Hl H Hw Hh. apply page_rule with (f := fun l c => (l ++ [c], window align x y' w h frame c)).
  intros l c Hls Hc. destruct (shape_window_ok align x y' w h frame s c Hc H Hw Hh) as [H1 H2].
  pose proof (Forall2_length Hls). split_and!; [apply canvas_begin_window; [done|lia|done]| |done].
  cbn. apply Forall2_app; [done|]. by constructor.
Qed.

Lemma page_end_window ms ls s t : hoare (on_page ms (ls ++ [s]) t) gfx_end_window (fun _ => on_page ms ls s).
Proof.
  apply on_page_intro. intros l c Hl Hc. apply Forall2_app_inv_l in Hl as (l1 & l2 & H1 & H2 & ->).
  apply Forall2_cons_inv_l in H2 as (d & l3 & Hd & H3 & ->). apply Forall2_nil_inv_l in H3 as ->.
  eapply hoare_conseq; [apply canvas_pop|done|]. intros a g Hg. by exists l1, d.
Qed.

(** ** Menus *)

Lemma page_with_ctx {B} ms ls s (k : Context -> M gfx B) Q :
  (forall c, has_shape s c -> hoare (on_page ms ls s) (k c) Q) -> hoare (on_page ms ls s) (get_ctx ≫= k) Q.
Proof.
  intros H g (l & c & Hl & Hc & Hg). destruct (H c Hc g) as (b & g' & E & HQ); [by exists l, c|].
  exists b, g'. split; [|done]. unfold mbind, M_bind. by rewrite (get_ctx_stack l c g) by apply Hg.
Qed.

Lemma page_with_menu {B} ms ls s m mc (k : MenuContext -> M gfx B) Q :
  aget ms m = Ok mc -> hoare (on_page ms ls s) (k mc) Q -> hoare (on_page ms ls s) (get_menu m ≫= k) Q.
Proof.
  intros E H g Hg. destruct (H g Hg) as (b & g' & E' & HQ). exists b, g'. split; [|done].
  destruct Hg as (l & c & _ & _ & (_ & Hm & _)). unfold mbind, M_bind, get_menu. by rewrite Hm, E.
Qed.

Lemma page_with_pressed {B} ms ls s (k : Z -> M gfx B) Q :
  hoare (on_page ms ls s) (k (input_pressed (inp g0))) Q ->
  hoare (on_page ms ls s) (gets (fun g => input_pressed (inp g)) ≫= k) Q.
Proof.
  intros H. apply on_page_intro. intros l c Hl Hc. apply canvas_with_pressed.
  intros g Hg. apply H. by exists l, c.
Qed.

Lemma page_set_menu ms ls s m mc :
  0 <= m < zlen ms -> hoare (on_page ms ls s) (set_menu m mc) (fun _ => on_page (<[Z.to_nat m := mc]> ms) ls s).
Proof.
  intros Hm. apply page_rule with (f := fun l c => (l, c)). intros l c Hl Hc.
  split_and!; [by apply canvas_set_menu|done|done].
Qed.

Lemma page_lift {A B} ms ls s (r : result A) (a : A) (k : A -> M gfx B) Q :
  r = Ok a -> hoare (on_page ms ls s) (k a) Q -> hoare (on_page ms ls s) (lift r ≫= k) Q.
Proof. intros -> H g Hg. destruct (H g Hg) as (b & g' & E & HQ). by exists b, g'. Qed.

Definition counted (mc : MenuContext) : MenuContext :=
  {| index := index mc; count := count mc + 1; tmp_option_idx := tmp_option_idx mc |}.

Lemma aget_range {A} (l : list A) i x : aget l i = Ok x -> 0 <= i < zlen l.
Proof. intros H. apply aget_Ok_inv in H as [Hi Hl]. apply lookup_lt_Some in Hl. unfold zlen. lia. Qed.

(** The text of an item and the count. *)
Lemma page_item {B} ms ls s m mc align color txt (k : M gfx B) Q :
  aget ms m = Ok mc -> 0 <= s_line s < 100 -> line_fits align (zlen txt) (with_line s (s_line s + 1)) = true ->
  hoare (on_page (<[Z.to_nat m := counted mc]> ms) ls (with_line s (s_line s + 2))) k Q ->
  hoare (on_page ms ls s)
    (gfx_newline 1;; gfx_pen color;; gfx_text_aligned align txt;; mc ← get_menu m; set_menu m (counted mc);; k) Q.
Proof.
  intros Em Hl Ht Hk. eapply page_seq; [apply page_newline; lia|].
  eapply page_seq; [apply page_pen|]. eapply page_seq; [by apply page_text|].
  eapply page_with_menu; [done|]. eapply page_seq; [apply page_set_menu; by eapply aget_range|].
  replace (with_line _ _) with (with_line s (s_line s + 2)); [done|]. unfold with_line. cbn. f_equal. lia.
Qed.

Lemma page_select {St} ms ls s m mc label n (item : Z -> St -> result (list Z * St)) opt st (I : St -> Prop) :
  s_menu s = Some m -> aget ms m = Ok mc -> 0 <= opt < n -> I st ->
  (forall i, 0 <= i < n -> exists v st', item i st = Ok (v, st') /\ I st' /\ zlen label + zlen v + 2 <= s_w s) ->
  s_w s < 40 -> 0 <= s_line s < 100 -> line_fits ALIGN_LEFT (s_w s) (with_line s (s_line s + 1)) = true ->
  let i := if count mc =? index mc then option_move (input_pressed (inp g0)) n opt else opt in
  0 <= i < n /\
  hoare (on_page ms ls s) (gfx_menuitem_select_func label n item opt st)
    (fun r g => r.1 = (negb (i =? opt), i) /\ I r.2 /\
       on_page (<[Z.to_nat m := counted mc]> ms) ls (with_line s (s_line s + 2)) g).
Proof.
  intros Hm Em Ho Hst Hitem Hw Hl Ht i.
  assert (0 <= i < n) as Hi.
  { subst i. destruct (_ =? _); [|done]. rewrite option_move_mod by lia. apply Z.mod_pos_bound. lia. }
  split; [done|]. destruct (Hitem i Hi) as (v & st' & Ev & HI & Hlen).
  unfold gfx_menuitem_select_func. apply page_with_ctx. intros c Hc.
  pose proof Hc as (_ & _ & _ & Hrw & _ & Hmc & _). rewrite Hmc, Hm, Hrw.
  eapply page_with_menu; [done|]. apply page_with_pressed. fold i.
  eapply page_lift; [exact Ev|]. cbv beta iota.
  assert (zlen (item_text (s_w s) label v) = s_w s) as EL by (rewrite item_text_length; lia).
  eapply page_lift; [rewrite item_line_spec, EL, (proj2 (Z.ltb_lt _ _)) by lia; done|].
  apply (page_item ms ls s m mc ALIGN_LEFT); [done|done|by rewrite EL|]. apply hoare_ret. done.
Qed.

Lemma page_button ms ls s m mc label :
  s_menu s = Some m -> aget ms m = Ok mc -> 0 <= s_line s < 100 ->
  line_fits ALIGN_CENTER (zlen label) (with_line s (s_line s + 1)) = true ->
  hoare (on_page ms ls s) (gfx_menuitem_button label)
    (fun r g => r = (count mc =? index mc) && has (input_pressed (inp g0)) INPUT_OK /\
       on_page (<[Z.to_nat m := counted mc]> ms) ls (with_line s (s_line s + 2)) g).
Proof.
  intros Hm Em Hl Ht. unfold gfx_menuitem_button. apply page_with_ctx. intros c Hc.
  pose proof Hc as (_ & _ & _ & _ & _ & Hmc & _). rewrite Hmc, Hm.
  eapply page_with_menu; [done|]. apply page_with_pressed.
  apply (page_item ms ls s m mc ALIGN_CENTER); [done..|]. by apply hoare_ret.
Qed.

Lemma page_set_menuctx {B} ms ls s x (k : M gfx B) Q :
  hoare (on_page ms ls (with_menu s x)) k Q ->
  hoare (on_page ms ls s) (c ← get_ctx; set_ctx (set_menuctx x c);; k) Q.
Proof.
  intros Hk. apply on_page_intro. intros l c Hl Hc. apply canvas_with.
  apply hoare_bind with (R := fun _ => canvas g0 p ms l (set_menuctx x c)); [apply canvas_set|]. intros _ g Hg.
  apply Hk. exists l, (set_menuctx x c). split_and!; [done| |done].
  destruct Hc as (C1 & C2 & C3 & C4 & C5 & C6 & C7). by split_and!.
Qed.

Lemma page_begin_menu ms ls s m mc name w h :
  (length ls < 7)%nat -> aget ms m = Ok mc -> 0 <= w < 32768 -> 0 <= h < 32768 ->
  window_fits (ALIGN_CENTER ||| ALIGN_MIDDLE) 0 0 w h 1 s = true ->
  let s1 := with_menu (shape_window (ALIGN_CENTER ||| ALIGN_MIDDLE) 0 0 w h 1 s) (Some m) in
  line_fits ALIGN_CENTER (zlen name) s1 = true ->
  hoare (on_page ms ls s) (gfx_begin_menu name w h m)
    (fun _ => on_page (<[Z.to_nat m := menu_move (input_pressed (inp g0)) mc]> ms) (ls ++ [s])
                (with_line s1 (s_line s + 1))).
Proof.
  intros Hls Em Hw Hh Hwin s1 Ht. unfold gfx_begin_menu. eapply page_seq; [apply page_pen|].
  eapply page_seq; [by apply page_begin_window|].
  apply page_set_menuctx, page_with_pressed. eapply page_with_menu; [done|].
  eapply page_seq; [apply page_set_menu; by eapply aget_range|]. eapply page_seq; [apply page_pen|].
  change (s_line s) with (s_line s1). by apply page_text.
Qed.
End page.
