(* ===== verification/Status.v ===== *)
(** * The status lines (firmware/src/main.c)

    [ticks_to_ms_str], the statistics of [update_sample_status] and the switch
    at the end of [do_sampling] that fills the four lines of the status
    window.  The arrays on the stack are arguments, since the code does not
    initialise them. *)

From S2P Require Import Prelude Clock Sampling Printf PrintfProps Numerals Formats Gfx.

Definition STATUS_W : Z := 16.
Definition STATUS_H : Z := 4.

(** Four arrays of [STATUS_W + 1] characters and four colours. *)
Record StatusInfo : Type := mkStatusInfo {
  lines : list (list Z);
  colors : list Z
}.

Definition ticks_to_ms_str (ticks : Z) (str : list Z) (len : Z) : result (Z * list Z) :=
  let '(ms, us) := clock_ticks_to_ms_us ticks in
  snprintf_ str len (chars "%u.%03u") [VInt ms; VInt us].

(** [snprintf(status.lines[i], STATUS_W, fmt, ...)] *)
Definition print_line (i : Z) (fmt : list Z) (a : list vararg) (st : StatusInfo) : result StatusInfo :=
  l ← aget (lines st) i;
  '(_, l) ← snprintf_ l STATUS_W fmt a;
  ls ← aset (lines st) i l;
  Ok {| lines := ls; colors := colors st |}.

Definition set_color (i c : Z) (st : StatusInfo) : result StatusInfo :=
  cs ← aset (colors st) i c;
  Ok {| lines := lines st; colors := cs |}.

(** Minimum, maximum and total of the history. *)
Record stats : Type := mkStats { min_ticks : Z; max_ticks : Z; total_ticks : Z }.

(** The loop over [samples[i]], [n] times from [i]. *)
Fixpoint history_loop (n : nat) (i : Z) (smp : list Z) (s : stats) : result stats :=
  match n with
  | O => Ok s
  | S n =>
      ticks ← aget smp i;
      history_loop n (i + 1) smp
        {| total_ticks := u32 (total_ticks s + ticks);
           max_ticks := if max_ticks s <? ticks then ticks else max_ticks s;
           min_ticks := if ticks <? min_ticks s then ticks else min_ticks s |}
  end.

Definition history_len (idx : Z) : Z := if idx <? HISTORY_SIZE then idx else HISTORY_SIZE.

(** The colours of the four lines. *)
Definition gray_lines (st : StatusInfo) : result StatusInfo :=
  st ← set_color 0 TEXT_GRAY st;
  st ← set_color 1 TEXT_GRAY st;
  st ← set_color 2 TEXT_GRAY st;
  set_color 3 TEXT_GRAY st.

(** The part of [update_sample_status] after the statistics. *)
Definition show_stats (latest mean_ticks : Z) (s : stats) (ms_str1 ms_str2 : list Z) (st : StatusInfo)
    : result StatusInfo :=
  st ← gray_lines st;
  '(_, ms_str1) ← ticks_to_ms_str latest ms_str1 16;
  '(_, ms_str2) ← ticks_to_ms_str mean_ticks ms_str2 16;
  s1 ← cstr ms_str1;
  st ← print_line 0 (chars "Cur: %s ms") [VStr (Some s1)] st;
  s2 ← cstr ms_str2;
  st ← print_line 1 (chars "Avg: %s ms") [VStr (Some s2)] st;
  '(_, ms_str1) ← ticks_to_ms_str (min_ticks s) ms_str1 16;
  '(_, ms_str2) ← ticks_to_ms_str (max_ticks s) ms_str2 16;
  s1 ← cstr ms_str1;
  st ← print_line 2 (chars "Min: %s ms") [VStr (Some s1)] st;
  s2 ← cstr ms_str2;
  print_line 3 (chars "Max: %s ms") [VStr (Some s2)] st.

Definition update_sample_status (smp : list Z) (latest idx : Z) (ms_str1 ms_str2 : list Z) (st : StatusInfo)
    : result StatusInfo :=
  let len := history_len idx in
  s ← history_loop (Z.to_nat len) 0 smp {| min_ticks := 0xffffffff; max_ticks := 0; total_ticks := 0 |};
  mean_ticks ← (if len =? 0 then Err DivideByZero else Ok (total_ticks s / len));
  show_stats latest mean_ticks s ms_str1 ms_str2 st.

(** The [switch (sample_status)] at the end of [do_sampling]: the status
    window and the new value of [sample_status]. *)
Definition sample_status_switch (sstatus : Z) (smp : list Z) (latest idx : Z) (ms_str1 ms_str2 : list Z)
    (st : StatusInfo) : result (StatusInfo * Z) :=
  st ← (if sstatus =? MISSING_SAMPLE then
          st ← set_color 0 TEXT_ORANGE st;
          print_line 0 (chars "CUR: NO SAMPLE") [] st
        else if sstatus =? NEW_SAMPLE then update_sample_status smp latest idx ms_str1 ms_str2 st
        else Ok st);
  Ok (st, NO_SAMPLE).

(** ** The text of a time *)

(** Milliseconds, a point and three digits of microseconds. *)
Definition ms_text (ticks : Z) : list Z :=
  numeral BASE_DECIMAL 0 (ticks / CLOCK_REF_KHZ) ++ [46] ++ zero_padded 3 ((ticks / CLOCK_REF_MHZ) mod 1000).

Lemma zero_padded_exact w v :
  0 <= v < 10 ^ Z.of_nat w -> (0 < w)%nat -> length (zero_padded w v) = w.
Proof.
  intros Hv Hw. unfold zero_padded. rewrite length_app, length_replicate.
  pose proof (numeral_length BASE_DECIMAL 0 v w) as H. unfold BASE_DECIMAL in *. lia.
Qed.

Lemma us_range ticks : 0 <= (ticks / CLOCK_REF_MHZ) mod 1000 < 1000.
Proof. apply Z.mod_pos_bound. lia. Qed.

Lemma ms_range ticks : is_u32 ticks -> 0 <= ticks / CLOCK_REF_KHZ < 429497.
Proof.
  unfold is_u32, CLOCK_REF_KHZ. intros H. split; [apply Z.div_pos; lia|]. apply Z.div_lt_upper_bound; lia.
Qed.

Lemma ms_text_length ticks : is_u32 ticks ->
  zlen (ms_text ticks) = zlen (numeral BASE_DECIMAL 0 (ticks / CLOCK_REF_KHZ)) + 4 /\ zlen (ms_text ticks) <= 10.
Proof.
  intros H. unfold ms_text, zlen. pose proof (us_range ticks). pose proof (ms_range ticks H).
  rewrite !length_app, zero_padded_exact by (cbn; lia). cbn [length].
  pose proof (numeral_length BASE_DECIMAL 0 (ticks / CLOCK_REF_KHZ) 6 ltac:(done)
    ltac:(change (BASE_DECIMAL ^ Z.of_nat 6) with 1000000; lia) ltac:(lia)). lia.
Qed.

Lemma ms_text_nonzero ticks : Forall (fun c => c <> 0) (ms_text ticks).
Proof. unfold ms_text. nonzero. Qed.

Lemma prints_ms ticks :
  is_u32 ticks ->
  prints (chars "%u.%03u") [VInt (ticks / CLOCK_REF_KHZ); VInt ((ticks / CLOCK_REF_MHZ) mod 1000)] (ms_text ticks).
Proof.
  intros H. pose proof (us_range ticks). pose proof (ms_range ticks H).
  assert (zlen (numeral BASE_DECIMAL 0 (ticks / CLOCK_REF_KHZ)) <= 10) by (apply numeral_u32; unfold is_u32; lia).
  unfold prints. change (chars "%u.%03u") with [37; 117; 46; 37; 48; 51; 117]. cbn [length].
  rewrite loop_u, app_nil_l by done. rewrite u32_small by (unfold is_u32; lia).
  rewrite loop_char by (unfold PRINTF_MAX_POSSIBLE_BUFFER_SIZE; lia).
  rewrite loop_0u by (rewrite ?zlen_app; unfold PRINTF_MAX_POSSIBLE_BUFFER_SIZE; change (zlen [46]) with 1; lia).
  rewrite u32_small by (unfold is_u32; lia). unfold ms_text. by rewrite app_assoc.
Qed.

Lemma ticks_to_ms_str_spec ticks str :
  is_u32 ticks -> length str = 16%nat ->
  exists str', ticks_to_ms_str ticks str 16 = Ok (zlen (ms_text ticks), str') /\
    length str' = 16%nat /\ cstr str' = Ok (ms_text ticks).
Proof.
  intros H Hl. destruct (ms_text_length ticks H) as [_ Hm]. exists (printed 16 (ms_text ticks) str). split_and!.
  - unfold ticks_to_ms_str, clock_ticks_to_ms_us.
    rewrite (snprintf_prints _ _ _ _ _ (prints_ms _ H)); unfold PRINTF_MAX_POSSIBLE_BUFFER_SIZE, zlen in *; [done|lia..].
  - rewrite length_printed; lia.
  - rewrite cstr_printed by apply ms_text_nonzero. f_equal. apply take_ge. unfold zlen in Hm. lia.
Qed.

(** ** Statistics *)

Definition sum (h : list Z) : Z := foldr Z.add 0 h.

Definition stats_step (s : stats) (ticks : Z) : stats :=
  {| total_ticks := u32 (total_ticks s + ticks);
     max_ticks := if max_ticks s <? ticks then ticks else max_ticks s;
     min_ticks := if ticks <? min_ticks s then ticks else min_ticks s |}.

Lemma history_loop_fold h pre post s :
  history_loop (length h) (zlen pre) (pre ++ h ++ post) s = Ok (foldl stats_step s h).
Proof.
  revert pre s. induction h as [|t h IH]; intros pre s; [done|]. cbn [history_loop length foldl].
  rewrite (aget_lookup _ _ t); [|apply zlen_nonneg|unfold zlen; rewrite Nat2Z.id; by apply list_lookup_middle].
  cbn [mbind result_bind]. replace (zlen pre + 1) with (zlen (pre ++ [t])) by (rewrite zlen_app; done).
  rewrite <- (IH (pre ++ [t])). by rewrite <- app_assoc.
Qed.

(** What the loop keeps: the total, and bounds that are entries of the history. *)
Lemma stats_fold h s :
  Forall (fun t => 0 <= t) h -> 0 <= total_ticks s -> total_ticks s + sum h < 2 ^ 32 ->
  let s' := foldl stats_step s h in
  total_ticks s' = total_ticks s + sum h /\
  (max_ticks s' = max_ticks s \/ max_ticks s' ∈ h) /\ max_ticks s <= max_ticks s' /\
  (min_ticks s' = min_ticks s \/ min_ticks s' ∈ h) /\ min_ticks s' <= min_ticks s /\
  Forall (fun t => min_ticks s' <= t <= max_ticks s') h.
Proof.
  intros H. revert s. induction H as [|t h Ht H IH]; intros s H0 Hs; cbn [foldl sum foldr] in *.
  { split_and!; auto; lia. }
  fold (sum h) in *. assert (0 <= sum h) by (clear - H; unfold sum; induction H; cbn; lia).
  assert (total_ticks (stats_step s t) = total_ticks s + t) as E by (cbn; apply u32_small; unfold is_u32; lia).
  destruct (IH (stats_step s t)) as (I1 & I2 & I3 & I4 & I5 & I6); [lia|lia|].
  set (s' := foldl _ _ _) in *. cbn [max_ticks min_ticks stats_step] in I2, I3, I4, I5.
  assert (t <= max_ticks s' /\ max_ticks s <= max_ticks s') by (destruct (Z.ltb_spec (max_ticks s) t); lia).
  assert (min_ticks s' <= t /\ min_ticks s' <= min_ticks s) by (destruct (Z.ltb_spec t (min_ticks s)); lia).
  split_and!; try lia.
  - rewrite elem_of_cons. destruct (max_ticks s <? t), I2; auto.
  - rewrite elem_of_cons. destruct (t <? min_ticks s), I4; auto.
  - constructor; [lia|done].
Qed.

Lemma sum_bounds h a b : Forall (fun t => a <= t <= b) h -> a * zlen h <= sum h <= b * zlen h.
Proof.
  induction 1 as [|t h Ht H IH]; [unfold sum, zlen; cbn; lia|].
  replace (zlen (t :: h)) with (zlen h + 1) by (unfold zlen; cbn; lia). change (sum (t :: h)) with (t + sum h). lia.
Qed.

Lemma mean_bounds h a b :
  h <> [] -> Forall (fun t => a <= t <= b) h -> a <= sum h / zlen h <= b.
Proof.
  intros Hh H. apply sum_bounds in H. assert (0 < zlen h) by (destruct h; unfold zlen; cbn; [done|lia]).
  split; [apply Z.div_le_lower_bound; lia|]. apply Z.div_le_upper_bound; lia.
Qed.

(** A history of samples below a second. *)
Lemma stats_of_history h :
  h <> [] -> (length h <= 16)%nat -> Forall (fun t => 0 <= t < CLOCK_REF_HZ) h ->
  let s' := foldl stats_step {| min_ticks := 0xffffffff; max_ticks := 0; total_ticks := 0 |} h in
  total_ticks s' = sum h /\ min_ticks s' ∈ h /\ max_ticks s' ∈ h /\
  Forall (fun t => min_ticks s' <= t <= max_ticks s') h.
Proof.
  intros Hne Hl H. set (s := mkStats _ _ _). unfold CLOCK_REF_HZ in H.
  pose proof (sum_bounds h 0 10000000) as Hs. unfold zlen in Hs.
  destruct (stats_fold h s) as (I1 & I2 & I3 & I4 & I5 & I6).
  { eapply Forall_impl; [|exact H]. intros; cbn in *; lia. }
  { done. }
  { assert (Forall (fun t => 0 <= t <= 10000000) h) as H' by (eapply Forall_impl; [|exact H]; cbn; lia).
    specialize (Hs H'). cbn. lia. }
  change (total_ticks s) with 0 in I1. change (max_ticks s) with 0 in I2, I3.
  change (min_ticks s) with 0xffffffff in I4, I5.
  set (s' := foldl stats_step s h) in *. destruct h as [|t h]; [done|].
  pose proof (Forall_inv H) as Ht. cbn in Ht. pose proof (Forall_inv I6) as Ht'. cbv beta in Ht'. clearbody s'.
  split_and!; [lia| | |done].
  - destruct I4 as [E|?]; [|done]. lia.
  - destruct I2 as [E|?]; [|done]. replace (max_ticks s') with t by lia. left.
Qed.

(** ** The lines *)

Definition wf_status (st : StatusInfo) : Prop :=
  length (lines st) = 4%nat /\ Forall (fun l => length l = 17%nat) (lines st) /\ length (colors st) = 4%nat.

Definition reads (l s : list Z) : Prop := cstr l = Ok s.

Lemma print_line_spec (i : nat) fmt a cs st :
  wf_status st -> (i < 4)%nat -> prints fmt a cs -> Forall (fun c => c <> 0) cs -> zlen cs < 1000 ->
  exists l, print_line (Z.of_nat i) fmt a st = Ok {| lines := <[i := l]> (lines st); colors := colors st |} /\
    length l = 17%nat /\ reads l (take 15 cs).
Proof.
  intros (H4 & H17 & _) Hi Hp Hz Hc.
  destruct (lookup_lt_is_Some_2 (lines st) i) as [l El]; [lia|].
  pose proof (Forall_lookup_1 _ _ _ _ H17 El) as Hl. cbn in Hl.
  exists (printed 16 cs l). unfold print_line. rewrite (aget_lookup _ _ l); [|lia|by rewrite Nat2Z.id].
  cbn [mbind result_bind]. rewrite (snprintf_prints _ _ _ _ cs Hp);
    [|unfold STATUS_W, PRINTF_MAX_POSSIBLE_BUFFER_SIZE, zlen in *; lia..].
  cbn [mbind result_bind]. rewrite aset_in by lia. rewrite Nat2Z.id. split_and!; [done|rewrite length_printed; lia|].
  unfold reads. by rewrite cstr_printed by done.
Qed.

Lemma wf_set_line st i l : wf_status st -> length l = 17%nat ->
  wf_status {| lines := <[i := l]> (lines st); colors := colors st |}.
Proof. intros (H1 & H2 & H3) Hl. split_and!; cbn; [by rewrite length_insert|by apply Forall_insert|done]. Qed.

(** A status line: four letters and a colon, a space, the time and its unit. *)
Definition line_text (label : string) (ticks : Z) : list Z := chars label ++ ms_text ticks ++ chars " ms".

Lemma ms_text_short t : 0 <= t < CLOCK_REF_HZ -> is_u32 t /\ zlen (ms_text t) <= 7.
Proof.
  intros H. assert (is_u32 t) as Hu by (unfold is_u32, CLOCK_REF_HZ in *; lia). split; [done|].
  destruct (ms_text_length t Hu) as [-> _]. unfold zlen, CLOCK_REF_HZ, CLOCK_REF_KHZ in *.
  pose proof (numeral_length BASE_DECIMAL 0 (t / 10000) 3 ltac:(done)) as Hl.
  assert (0 <= t / 10000 < 1000) by (split; [apply Z.div_pos|apply Z.div_lt_upper_bound]; lia).
  change (BASE_DECIMAL ^ Z.of_nat 3) with 1000 in Hl. lia.
Qed.

Definition labels : list string := ["Cur: "; "Avg: "; "Min: "; "Max: "]%string.

Lemma prints_line label t :
  label ∈ labels -> is_u32 t ->
  prints (chars (label ++ "%s ms")) [VStr (Some (ms_text t))] (line_text label t) /\
  zlen (line_text label t) = 8 + zlen (ms_text t) /\ Forall (fun c => c <> 0) (line_text label t).
Proof.
  intros Hl Ht. destruct (ms_text_length t Ht) as [_ H7].
  assert (zlen (chars label) = 5 /\ chars (label ++ "%s ms") = chars label ++ [37; 115] ++ chars " ms" /\
    Forall (fun c => c <> 37) (chars label) /\ Forall (fun c => c <> 0) (chars label)) as (L1 & L2 & L3 & L4).
  { unfold labels in Hl. set_unfold in Hl.
    destruct_or! Hl; subst label; split_and!; done || (repeat constructor; discriminate). }
  split_and!.
  - rewrite L2. apply prints_s; [done|repeat constructor; discriminate|].
    change (zlen (chars " ms")) with 3. unfold PRINTF_MAX_POSSIBLE_BUFFER_SIZE. lia.
  - unfold line_text. rewrite !zlen_app. change (zlen (chars " ms")) with 3. lia.
  - unfold line_text. rewrite !Forall_app. split_and!; [done|apply ms_text_nonzero|repeat constructor; discriminate].
Qed.

Lemma line_step (i : nat) label fmt t st :
  fmt = (label ++ "%s ms")%string ->
  wf_status st -> (i < 4)%nat -> label ∈ labels -> is_u32 t ->
  exists l, print_line (Z.of_nat i) (chars fmt) [VStr (Some (ms_text t))] st =
      Ok {| lines := <[i := l]> (lines st); colors := colors st |} /\
    length l = 17%nat /\ reads l (take 15 (line_text label t)).
Proof.
  intros -> Hw Hi Hl Ht. destruct (prints_line label t Hl Ht) as (H1 & H2 & H3).
  destruct (ms_text_length t Ht) as [_ H4]. apply print_line_spec; done || lia.
Qed.

(** The lines of times below a second fit. *)
Lemma line_text_short label t :
  label ∈ labels -> 0 <= t < CLOCK_REF_HZ -> take 15 (line_text label t) = line_text label t.
Proof.
  intros Hl Ht. destruct (ms_text_short t Ht) as [Hu H7]. destruct (prints_line label t Hl Hu) as (_ & H & _).
  apply take_ge. unfold zlen in *. lia.
Qed.

Lemma gray_lines_spec st : wf_status st ->
  gray_lines st = Ok {| lines := lines st; colors := replicate 4 TEXT_GRAY |}.
Proof.
  intros (_ & _ & H). destruct st as [ls cs]. cbn in H. by destruct cs as [|? [|? [|? [|? [|? ?]]]]].
Qed.

Lemma history_stats smp idx :
  length smp = 16%nat -> 0 < idx ->
  let h := take (Z.to_nat idx) smp in
  h <> [] /\ zlen h = history_len idx /\ (length h <= 16)%nat /\
  forall s, history_loop (Z.to_nat (history_len idx)) 0 smp s = Ok (foldl stats_step s h).
Proof.
  intros Hl Hi h. assert (zlen h = history_len idx) as E.
  { unfold h, zlen, history_len, HISTORY_SIZE. rewrite length_take. destruct (Z.ltb_spec idx 16); lia. }
  assert (length h <= 16)%nat as H16 by (unfold h; rewrite length_take; lia).
  assert (0 < length h)%nat as H0 by (unfold h; rewrite length_take; lia).
  split_and!; [intros E0; rewrite E0 in H0; cbn in H0; lia|done|done|]. intros s. rewrite <- E. unfold zlen. rewrite Nat2Z.id.
  pose proof (history_loop_fold h [] (drop (Z.to_nat idx) smp) s) as H. cbn [app] in H.
  unfold h in H at 2. by rewrite take_drop in H.
Qed.

(** The four lines of a status record, written in order. *)
Lemma show_stats_spec latest mean s ms_str1 ms_str2 st :
  wf_status st -> length ms_str1 = 16%nat -> length ms_str2 = 16%nat ->
  is_u32 latest -> is_u32 mean -> is_u32 (min_ticks s) -> is_u32 (max_ticks s) ->
  exists st', show_stats latest mean s ms_str1 ms_str2 st = Ok st' /\ wf_status st' /\
    Forall2 reads (lines st') (map (take 15) [line_text "Cur: " latest; line_text "Avg: " mean;
      line_text "Min: " (min_ticks s); line_text "Max: " (max_ticks s)]) /\
    colors st' = replicate 4 TEXT_GRAY.
Proof.
  intros Hw L1 L2 U1 U2 U3 U4.
  unfold show_stats. rewrite (gray_lines_spec st Hw). cbn [mbind result_bind].
  set (st0 := mkStatusInfo _ _). assert (wf_status st0) as W0 by (destruct Hw as (?&?&?); split_and!; done).
  destruct (ticks_to_ms_str_spec _ _ U1 L1) as (b1 & -> & L1' & C1). cbn [mbind result_bind].
  destruct (ticks_to_ms_str_spec _ _ U2 L2) as (b2 & -> & L2' & C2). cbn [mbind result_bind].
  rewrite C1, C2. cbn [mbind result_bind].
  destruct (line_step 0 "Cur: " "Cur: %s ms" latest st0) as (l0 & E0 & N0 & Q0); [done|done|lia|set_solver|done|].
  change (print_line 0) with (print_line (Z.of_nat 0)). rewrite E0. cbn [mbind result_bind].
  apply (wf_set_line _ 0 _ W0) in N0 as W1. set (st1 := mkStatusInfo _ _) in W1 |- *.
  destruct (line_step 1 "Avg: " "Avg: %s ms" mean st1) as (l1 & E1 & N1 & Q1); [done|done|lia|set_solver|done|].
  change (print_line 1) with (print_line (Z.of_nat 1)). rewrite E1. cbn [mbind result_bind].
  apply (wf_set_line _ 1 _ W1) in N1 as W2. set (st2 := mkStatusInfo _ _) in W2 |- *.
  destruct (ticks_to_ms_str_spec _ _ U3 L1') as (b3 & -> & _ & C3). cbn [mbind result_bind].
  destruct (ticks_to_ms_str_spec _ _ U4 L2') as (b4 & -> & _ & C4). cbn [mbind result_bind].
  rewrite C3, C4. cbn [mbind result_bind].
  destruct (line_step 2 "Min: " "Min: %s ms" (min_ticks s) st2) as (l2 & E2 & N2 & Q2); [done|done|lia|set_solver|done|].
  change (print_line 2) with (print_line (Z.of_nat 2)). rewrite E2. cbn [mbind result_bind].
  apply (wf_set_line _ 2 _ W2) in N2 as W3. set (st3 := mkStatusInfo _ _) in W3 |- *.
  destruct (line_step 3 "Max: " "Max: %s ms" (max_ticks s) st3) as (l3 & E3 & N3 & Q3); [done|done|lia|set_solver|done|].
  change (print_line 3) with (print_line (Z.of_nat 3)). rewrite E3.
  apply (wf_set_line _ 3 _ W3) in N3 as W4. eexists. split_and!; [done|done| |done].
  destruct Hw as (H4 & _). unfold st3, st2, st1, st0. cbn [lines].
  destruct (lines st) as [|? [|? [|? [|? [|? ?]]]]]; try done. cbn. by repeat constructor.
Qed.

Lemma update_sample_status_spec smp latest idx ms_str1 ms_str2 st :
  wf_status st -> length smp = 16%nat -> length ms_str1 = 16%nat -> length ms_str2 = 16%nat -> 0 < idx ->
  let h := take (Z.to_nat idx) smp in
  Forall (fun t => 0 <= t < CLOCK_REF_HZ) h -> 0 <= latest < CLOCK_REF_HZ ->
  exists st' mn mx,
    update_sample_status smp latest idx ms_str1 ms_str2 st = Ok st' /\ wf_status st' /\
    Forall2 reads (lines st')
      [line_text "Cur: " latest; line_text "Avg: " (sum h / zlen h); line_text "Min: " mn; line_text "Max: " mx] /\
    colors st' = replicate 4 TEXT_GRAY /\
    mn ∈ h /\ mx ∈ h /\ Forall (fun t => mn <= t <= mx) h /\ mn <= sum h / zlen h <= mx.
Proof.
  intros Hw Hs H1 H2 Hi h Hh Hlt.
  destruct (history_stats smp idx Hs Hi) as (Hne & Hl & H16 & Hloop). fold h in Hne, Hl, H16, Hloop.
  destruct (stats_of_history h Hne H16 Hh) as (S1 & S2 & S3 & S4).
  set (s := foldl stats_step _ h) in *.
  pose proof (mean_bounds h _ _ Hne S4) as Hmean.
  assert (0 <= min_ticks s < CLOCK_REF_HZ) as Rmin by (rewrite Forall_forall in Hh; by apply Hh, list_elem_of_In).
  assert (0 <= max_ticks s < CLOCK_REF_HZ) as Rmax by (rewrite Forall_forall in Hh; by apply Hh, list_elem_of_In).
  assert (0 <= sum h / zlen h < CLOCK_REF_HZ) as Rmean by lia.
  unfold update_sample_status. rewrite Hloop, <- Hl. fold s. cbn [mbind result_bind].
  assert (0 < zlen h) as Hpos by (rewrite Hl; unfold history_len, HISTORY_SIZE; destruct (idx <? 16); lia).
  rewrite (proj2 (Z.eqb_neq (zlen h) 0)) by lia. rewrite S1. cbn [mbind result_bind].
  destruct (show_stats_spec latest (sum h / zlen h) s ms_str1 ms_str2 st) as (st' & E & W & F & C);
    [done|done|done|by apply ms_text_short..|].
  cbn [map] in F. rewrite !line_text_short in F by (done || set_solver).
  exists st', (min_ticks s), (max_ticks s). split_and!; done || lia.
Qed.

(** C13: The status window after a new sample.  If the samples of the history
    and the latest one are below a second, [update_sample_status] returns, and
    the four lines read the latest sample, the mean, the minimum and the
    maximum of the history in milliseconds, complete (none is cut), in gray.
    The history is the last sixteen samples or all of them; the minimum and
    the maximum are entries of it that bound all the others, and the mean, the
    integer quotient of the sum, lies between them: the 32-bit total does not
    overflow. *)
Theorem status_after_sample (smp : list Z) (latest idx : Z) (ms_str1 ms_str2 : list Z) (st : StatusInfo) :
  wf_status st -> length smp = 16%nat -> length ms_str1 = 16%nat -> length ms_str2 = 16%nat -> 0 < idx ->
  let h := take (Z.to_nat idx) smp in
  Forall (fun t => 0 <= t < CLOCK_REF_HZ) h -> 0 <= latest < CLOCK_REF_HZ ->
  exists st' mn mx,
    update_sample_status smp latest idx ms_str1 ms_str2 st = Ok st' /\ wf_status st' /\
    Forall2 reads (lines st')
      [line_text "Cur: " latest; line_text "Avg: " (sum h / zlen h); line_text "Min: " mn; line_text "Max: " mx] /\
    colors st' = replicate 4 TEXT_GRAY /\
    mn ∈ h /\ mx ∈ h /\ Forall (fun t => mn <= t <= mx) h /\ mn <= sum h / zlen h <= mx.
Proof. apply update_sample_status_spec. Qed.

(** A status window as it is at reset. *)
Definition blank_status : StatusInfo := {| lines := replicate 4 (replicate 17 0); colors := replicate 4 0 |}.

Lemma blank_status_wf : wf_status blank_status.
Proof. split_and!; [done| |done]. by repeat constructor. Qed.

Lemma status_after_sample_witness :
  exists st' mn mx,
    update_sample_status [123456; 98765; 100001; 0; 0; 0; 0; 0; 0; 0; 0; 0; 0; 0; 0; 0] 100001 3
      (replicate 16 1) (replicate 16 2) blank_status = Ok st' /\ wf_status st' /\
    Forall2 reads (lines st')
      [line_text "Cur: " 100001; line_text "Avg: " 107407; line_text "Min: " mn; line_text "Max: " mx] /\
    colors st' = replicate 4 TEXT_GRAY /\
    mn ∈ [123456; 98765; 100001] /\ mx ∈ [123456; 98765; 100001] /\
    Forall (fun t => mn <= t <= mx) [123456; 98765; 100001] /\ mn <= 107407 <= mx.
Proof.
  apply (status_after_sample [123456; 98765; 100001; 0; 0; 0; 0; 0; 0; 0; 0; 0; 0; 0; 0; 0] 100001 3
    (replicate 16 1) (replicate 16 2) blank_status); try done; [apply blank_status_wf|].
  cbn. unfold CLOCK_REF_HZ. repeat (constructor; [lia|]). constructor.
Defined.

Lemma atou_zero_padded w v rest :
  is_u32 v -> is_digit_ (hd0 rest) = false -> atou_ (zero_padded w v ++ rest) = (v, rest).
Proof.
  intros Hv Hr. unfold atou_, zero_padded. rewrite <- app_assoc.
  induction (w - _)%nat; [by apply atou_numeral|done].
Qed.

(** C38: [ticks_to_ms_str] writes a text that reads back as the time: for any
    32-bit count its 16 characters are enough (at most ten are used), and the
    number before the point and the three digits after it are the milliseconds
    and microseconds, together the count in whole microseconds. *)
Theorem ms_str_roundtrip (ticks : Z) (str : list Z) :
  is_u32 ticks -> length str = 16%nat ->
  exists str' s frac ms us,
    ticks_to_ms_str ticks str 16 = Ok (zlen s, str') /\ length str' = 16%nat /\ cstr str' = Ok s /\
    zlen s <= 10 /\ atou_ s = (ms, 46 :: frac) /\ atou_ frac = (us, []) /\ length frac = 3%nat /\
    ms * 1000 + us = ticks / CLOCK_REF_MHZ.
Proof.
  intros H Hl. destruct (ticks_to_ms_str_spec ticks str H Hl) as (str' & E & L & C).
  pose proof (us_range ticks). pose proof (ms_range ticks H).
  exists str', (ms_text ticks), (zero_padded 3 ((ticks / CLOCK_REF_MHZ) mod 1000)),
    (ticks / CLOCK_REF_KHZ), ((ticks / CLOCK_REF_MHZ) mod 1000).
  split_and!; [done..|by apply ms_text_length| | | |].
  - unfold ms_text, atou_. apply atou_numeral; [unfold is_u32; lia|done].
  - rewrite <- (app_nil_r (zero_padded _ _)). apply atou_zero_padded; [unfold is_u32; lia|done].
  - apply zero_padded_exact; cbn; lia.
  - unfold CLOCK_REF_KHZ, CLOCK_REF_MHZ. change 10000 with (10 * 1000). rewrite <- (Z.div_div ticks 10 1000) by lia.
    pose proof (Z_div_mod_eq_full (ticks / 10) 1000). lia.
Qed.

Lemma ms_str_roundtrip_witness :
  exists str' s frac ms us,
    ticks_to_ms_str 4294967295 (replicate 16 7) 16 = Ok (zlen s, str') /\ length str' = 16%nat /\ cstr str' = Ok s /\
    zlen s <= 10 /\ atou_ s = (ms, 46 :: frac) /\ atou_ frac = (us, []) /\ length frac = 3%nat /\
    ms * 1000 + us = 4294967295 / CLOCK_REF_MHZ.
Proof. apply (ms_str_roundtrip 4294967295 (replicate 16 7)); done. Defined.

Lemma missing_sample_spec smp latest idx ms_str1 ms_str2 st :
  wf_status st ->
  exists l, length l = 17%nat /\ reads l (chars "CUR: NO SAMPLE") /\
    sample_status_switch MISSING_SAMPLE smp latest idx ms_str1 ms_str2 st =
      Ok ({| lines := <[0%nat := l]> (lines st); colors := <[0%nat := TEXT_ORANGE]> (colors st) |}, NO_SAMPLE).
Proof.
  intros (W1 & W2 & W3). unfold sample_status_switch, set_color. change (MISSING_SAMPLE =? MISSING_SAMPLE) with true.
  cbv iota. rewrite aset_in by lia. cbn [mbind result_bind].
  destruct (print_line_spec 0 (chars "CUR: NO SAMPLE") [] (chars "CUR: NO SAMPLE")
    {| lines := lines st; colors := <[0%nat := TEXT_ORANGE]> (colors st) |}) as (l & E & Hl & Hr).
  { split_and!; cbn; [done|done|by rewrite length_insert]. }
  { lia. }
  { apply prints_text; [repeat constructor; discriminate|done]. }
  { repeat constructor; discriminate. }
  { done. }
  exists l. split_and!; [done|done|]. change (Z.to_nat 0) with 0%nat. change 0 with (Z.of_nat 0) at 1. by rewrite E.
Qed.

(** The end of [do_sampling] on the other branches: a missing sample
    replaces the first line by the message, in orange, and leaves the rest of
    the window; without news nothing changes; and whenever the switch returns,
    [sample_status] is [NO_SAMPLE], so an outcome is shown once. *)
Theorem status_without_sample (sstatus : Z) (smp : list Z) (latest idx : Z) (ms_str1 ms_str2 : list Z)
    (st : StatusInfo) :
  wf_status st ->
  let r := sample_status_switch sstatus smp latest idx ms_str1 ms_str2 st in
  (sstatus = MISSING_SAMPLE ->
     exists l, reads l (chars "CUR: NO SAMPLE") /\
       r = Ok ({| lines := <[0%nat := l]> (lines st); colors := <[0%nat := TEXT_ORANGE]> (colors st) |}, NO_SAMPLE)) /\
  (sstatus <> MISSING_SAMPLE -> sstatus <> NEW_SAMPLE -> r = Ok (st, NO_SAMPLE)) /\
  (forall st' s, r = Ok (st', s) -> s = NO_SAMPLE).
Proof.
  intros Hw r. subst r. split_and!.
  - intros ->. destruct (missing_sample_spec smp latest idx ms_str1 ms_str2 st Hw) as (l & _ & Hr & E). by exists l.
  - intros H1 H2. unfold sample_status_switch. rewrite (proj2 (Z.eqb_neq _ _) H1), (proj2 (Z.eqb_neq _ _) H2). done.
  - intros st' s H. unfold sample_status_switch in H. by destruct (if sstatus =? MISSING_SAMPLE then _ else _); cbn in H; simplify_eq.
Qed.

Lemma status_without_sample_witness :
  sample_status_switch NO_SAMPLE [] 0 0 [] [] blank_status = Ok (blank_status, NO_SAMPLE).
Proof. apply (status_without_sample NO_SAMPLE [] 0 0 [] [] blank_status); [apply blank_status_wf|done..]. Defined.

(** ** Any outcome

    A window whose lines can be printed. *)
Definition status_ok (st : StatusInfo) : Prop :=
  wf_status st /\ Forall (fun l => is_Ok (cstr l)) (lines st).

Lemma stats_u32 h s :
  Forall is_u32 h -> is_u32 (min_ticks s) -> is_u32 (max_ticks s) -> is_u32 (total_ticks s) ->
  let s' := foldl stats_step s h in is_u32 (min_ticks s') /\ is_u32 (max_ticks s') /\ is_u32 (total_ticks s').
Proof.
  intros H. revert s. induction H as [|t h Ht H IH]; intros s H1 H2 H3; cbn [foldl]; [done|].
  apply IH; cbn; [by destruct (_ <? _)..|apply u32_range].
Qed.

Lemma update_sample_status_total smp latest idx ms_str1 ms_str2 st :
  wf_status st -> length smp = 16%nat -> length ms_str1 = 16%nat -> length ms_str2 = 16%nat -> 0 < idx ->
  Forall is_u32 smp -> is_u32 latest ->
  exists st', update_sample_status smp latest idx ms_str1 ms_str2 st = Ok st' /\ status_ok st'.
Proof.
  intros Hw Hs H1 H2 Hi Hu Hlt. destruct (history_stats smp idx Hs Hi) as (Hne & Hl & H16 & Hloop).
  set (h := take (Z.to_nat idx) smp) in *. set (s0 := {| min_ticks := 0xffffffff; max_ticks := 0; total_ticks := 0 |}).
  destruct (stats_u32 h s0) as (U1 & U2 & U3); [by apply Forall_take|done..|].
  unfold update_sample_status. fold s0. rewrite Hloop. cbn [mbind result_bind]. set (s := foldl stats_step s0 h) in *.
  assert (0 < history_len idx) as Hpos by (unfold history_len, HISTORY_SIZE; destruct (idx <? 16); lia).
  rewrite (proj2 (Z.eqb_neq (history_len idx) 0)) by lia. cbn [mbind result_bind].
  assert (is_u32 (total_ticks s / history_len idx)) as U4.
  { unfold is_u32 in *. split; [apply Z.div_pos; lia|]. apply Z.div_lt_upper_bound; [lia|]. nia. }
  destruct (show_stats_spec latest (total_ticks s / history_len idx) s ms_str1 ms_str2 st) as (st' & E & W & F & C); try done.
  exists st'. split; [done|]. split; [done|]. clear -F. induction F as [|l t ls ts Hr F IH]; constructor; [by eexists|done].
Qed.

Lemma switch_total sstatus smp latest idx ms_str1 ms_str2 st :
  status_ok st -> length ms_str1 = 16%nat -> length ms_str2 = 16%nat ->
  (sstatus = NEW_SAMPLE -> length smp = 16%nat /\ 0 < idx /\ Forall is_u32 smp /\ is_u32 latest) ->
  exists st', sample_status_switch sstatus smp latest idx ms_str1 ms_str2 st = Ok (st', NO_SAMPLE) /\ status_ok st'.
Proof.
  intros [Hw Hr] L1 L2 Hn. destruct (decide (sstatus = MISSING_SAMPLE)) as [->|H1].
  { destruct (missing_sample_spec smp latest idx ms_str1 ms_str2 st Hw) as (l & Hl & Hl2 & E). eexists. split; [exact E|].
    split; [|apply Forall_insert; [done|by eexists]].
    apply (wf_set_line _ 0 _ Hw) in Hl as (W1 & W2 & W3). split_and!; [done|done|]. cbn. by rewrite length_insert. }
  unfold sample_status_switch. rewrite (proj2 (Z.eqb_neq _ _) H1). destruct (Z.eqb_spec sstatus NEW_SAMPLE) as [->|H2].
  - destruct (Hn eq_refl) as (L & Hi & Hu & Hlt).
    destruct (update_sample_status_total smp latest idx ms_str1 ms_str2 st) as (st' & E & Hok); try done.
    exists st'. by rewrite E.
  - by exists st.
Qed.
