(* ===== verification/Main.v ===== *)
(** * The main program (firmware/src/main.c)

    The screens, the configuration menu and the main loop, one iteration
    being one frame.  The sampling state machine and the interrupt handlers,
    which run interleaved with it, are in Sampling.v; a frame here takes what
    they left (the outcome of the last sample and the history) as input,
    together with what it reads from the hardware and the contents of the
    arrays it does not initialise. *)

From S2P Require Import Prelude Clock Input Blitter Float Hdmi Printf Formats Util Gfx Video Modes Menu Status.

Definition RGB (r g b : Z) : Z := ((r &&& 0xf8) <<< 7) ||| ((g &&& 0xf8) <<< 2) ||| ((b &&& 0xf8) >>> 3).

Definition INT2_CTRL (x : Z) : Z := (x &&& 0xf) <<< 0.
Definition INT4_CTRL (x : Z) : Z := (x &&& 0xf) <<< 4.
Definition INT6_CTRL (x : Z) : Z := (x &&& 0xf) <<< 8.
Definition INT_SRC_VBLANK : Z := 1.
Definition INT_SRC_HDMI_VBLANK : Z := 2.
Definition INT_SRC_USERIO : Z := 3.
Definition INT_INVERT : Z := 0x8.

Definition FIRMWARE_VERSION : string := "1.3".
Definition BAR_W : Z := 11.
Definition BAR_H : Z := 4.

(** [rand32]: the value returned, which is also the new state. *)
Definition rand32 (rand_state : Z) : Z :=
  let x := rand_state in
  let x := x ^^^ u32 (x <<< 13) in
  let x := x ^^^ (x >>> 17) in
  x ^^^ u32 (x <<< 5).

(** ** State *)

(** The static variables of [draw_menu] and of the two conversions. *)
Record menu_statics : Type := mkStatics {
  mode_idx : Z;
  refresh_idx : Z;
  aspect_idx : Z;
  applied_mode_idx : Z;
  applied_refresh_idx : Z;
  applied_aspect_idx : Z;
  resolution_tmp : list Z;
  refresh_tmp : list Z
}.

Inductive MainMode : Type := MODE_NO_SENSOR | MODE_SAMPLING | MODE_MENU.

(** The globals of main.c that the loop works on, and its locals. *)
Record app : Type := mkApp {
  screen : gfx;
  hw : bus;
  status : StatusInfo;
  statics : menu_statics;
  test_position : Z;
  video_mode_desc : list Z;
  int_ctrl : Z;
  rand_state : Z;
  mode : MainMode;
  new_mode : bool
}.

(** What a frame reads: the pad, the user port, the sampling state after the
    switch of [do_sampling], the version register, and the arrays on the
    stack as they are found. *)
Record frame_env : Type := mkEnv {
  port : Z;
  user_io : Z;
  e_status : Z;
  e_samples : list Z;
  e_latest : Z;
  e_idx : Z;
  core_version : Z;
  ms_str1 : list Z;
  ms_str2 : list Z;
  tmp_mode : list Z;
  tmp_version : list Z
}.

Definition with_screen (a : app) (g : gfx) (b : bus) : app :=
  {| screen := g; hw := b; status := status a; statics := statics a; test_position := test_position a;
     video_mode_desc := video_mode_desc a; int_ctrl := int_ctrl a; rand_state := rand_state a;
     mode := mode a; new_mode := new_mode a |}.
Definition with_status (a : app) (s : StatusInfo) : app :=
  {| screen := screen a; hw := hw a; status := s; statics := statics a; test_position := test_position a;
     video_mode_desc := video_mode_desc a; int_ctrl := int_ctrl a; rand_state := rand_state a;
     mode := mode a; new_mode := new_mode a |}.
Definition with_statics (a : app) (s : menu_statics) : app :=
  {| screen := screen a; hw := hw a; status := status a; statics := s; test_position := test_position a;
     video_mode_desc := video_mode_desc a; int_ctrl := int_ctrl a; rand_state := rand_state a;
     mode := mode a; new_mode := new_mode a |}.
Definition with_position (a : app) (p : Z) : app :=
  {| screen := screen a; hw := hw a; status := status a; statics := statics a; test_position := p;
     video_mode_desc := video_mode_desc a; int_ctrl := int_ctrl a; rand_state := rand_state a;
     mode := mode a; new_mode := new_mode a |}.
Definition with_desc (a : app) (d : list Z) : app :=
  {| screen := screen a; hw := hw a; status := status a; statics := statics a; test_position := test_position a;
     video_mode_desc := d; int_ctrl := int_ctrl a; rand_state := rand_state a;
     mode := mode a; new_mode := new_mode a |}.
Definition with_int_ctrl (a : app) (i : Z) : app :=
  {| screen := screen a; hw := hw a; status := status a; statics := statics a; test_position := test_position a;
     video_mode_desc := video_mode_desc a; int_ctrl := i; rand_state := rand_state a;
     mode := mode a; new_mode := new_mode a |}.
Definition with_rand (a : app) (r : Z) : app :=
  {| screen := screen a; hw := hw a; status := status a; statics := statics a; test_position := test_position a;
     video_mode_desc := video_mode_desc a; int_ctrl := int_ctrl a; rand_state := r;
     mode := mode a; new_mode := new_mode a |}.
Definition with_mode (a : app) (m : MainMode) (n : bool) : app :=
  {| screen := screen a; hw := hw a; status := status a; statics := statics a; test_position := test_position a;
     video_mode_desc := video_mode_desc a; int_ctrl := int_ctrl a; rand_state := rand_state a;
     mode := m; new_mode := n |}.

(** Drawing, and setting a video mode, as operations on the whole state. *)
Definition ui {A} (m : M gfx A) : M app A :=
  fun a => match m (screen a) with Ok (x, g) => Ok (x, with_screen a g (hw a)) | Err f => Err f end.
Definition vid {A} (m : M video A) : M app A :=
  fun a => match m (screen a, hw a) with Ok (x, (g, b)) => Ok (x, with_screen a g b) | Err f => Err f end.

(** ** Screens *)

Definition align_test (test_position : Z) : Z := if test_position =? 0 then ALIGN_LEFT else ALIGN_RIGHT.
Definition align_info (test_position : Z) : Z := if test_position =? 0 then ALIGN_RIGHT else ALIGN_LEFT.

Definition draw_status (st : StatusInfo) (tp : Z) : M gfx unit :=
  gfx_begin_window (ALIGN_MIDDLE ||| align_info tp) 2 (-2) 24 STATUS_H 0;;
  for_from (Z.to_nat STATUS_H) 0 (fun i =>
    color ← lift (aget (colors st) i);
    gfx_pen color;;
    line ← lift (aget (lines st) i);
    str ← lift (cstr line);
    gfx_text str);;
  gfx_end_window.

(** A bar of the test pattern: [gfx_align_box] and [gfx_rect]. *)
Definition draw_bar (align : Z) : M gfx unit :=
  c ← get_ctx;
  let '(rx, ry) := gfx_align_box align 0 0 BAR_W BAR_H c in
  gfx_rect rx ry BAR_W BAR_H.

(** The drawing of [do_sampling], after the switch over the state; [rnd] is
    what [rand32] returned. *)
Definition draw_sampling (rnd tp : Z) (desc : list Z) (st : StatusInfo) (tmp : list Z) : M gfx unit :=
  gfx_clear;;
  gfx_pen TEXT_DARK_GRAY;;
  gfx_display_border;;
  gfx_pen 0x80;;
  draw_bar (align_test tp ||| ALIGN_TOP);;
  draw_bar (align_test tp ||| ALIGN_MIDDLE);;
  draw_bar (align_test tp ||| ALIGN_BOTTOM);;
  c ← get_ctx;
  let '(rx, ry) := gfx_align_box (align_info tp ||| ALIGN_TOP) 2 2 4 4 c in
  (if rnd &&& 0xff33 =? 0 then gfx_image (0x80 + 16) 0x40 rx ry 4 4 else gfx_image 0x80 0x40 rx ry 4 4);;
  gfx_begin_window (ALIGN_BOTTOM ||| align_info tp) 2 5 24 2 0;;
  gfx_pen TEXT_BLUE;;
  str ← lift (cstr desc);
  gfx_textf_aligned tmp ALIGN_LEFT (chars "Mode: %s") [VStr (Some str)];;
  gfx_pen TEXT_DARK_BLUE;;
  gfx_text (chars "Press START for menu.");;
  gfx_end_window;;
  draw_status st tp.

Definition draw_no_sensor : M gfx unit :=
  gfx_clear;;
  gfx_pen TEXT_RED;;
  gfx_begin_window (ALIGN_CENTER ||| ALIGN_MIDDLE) 0 0 34 6 1;;
  gfx_text_aligned ALIGN_CENTER (chars "No sensor detected!");;
  gfx_newline 1;;
  gfx_pen TEXT_ORANGE;;
  gfx_text_aligned ALIGN_LEFT (chars "Connect your MiSTer Laggy sensor");;
  gfx_text_aligned ALIGN_LEFT (chars "to the User Port.");;
  gfx_end_window.

Definition draw_version (core_version tp : Z) (tmp : list Z) : M gfx unit :=
  gfx_pen TEXT_DARK;;
  gfx_begin_window (ALIGN_BOTTOM ||| align_info tp) 2 2 24 1 0;;
  gfx_textf_aligned tmp ALIGN_LEFT (chars "MiSTer Laggy %s/%06u") [VStr (Some (chars FIRMWARE_VERSION)); VInt core_version];;
  gfx_end_window.

(** ** The menu *)

Definition with_choice (s : menu_statics) (m r a : Z) : menu_statics :=
  {| mode_idx := m; refresh_idx := r; aspect_idx := a; applied_mode_idx := applied_mode_idx s;
     applied_refresh_idx := applied_refresh_idx s; applied_aspect_idx := applied_aspect_idx s;
     resolution_tmp := resolution_tmp s; refresh_tmp := refresh_tmp s |}.
Definition with_tmps (s : menu_statics) (t1 t2 : list Z) : menu_statics :=
  {| mode_idx := mode_idx s; refresh_idx := refresh_idx s; aspect_idx := aspect_idx s;
     applied_mode_idx := applied_mode_idx s; applied_refresh_idx := applied_refresh_idx s;
     applied_aspect_idx := applied_aspect_idx s; resolution_tmp := t1; refresh_tmp := t2 |}.
Definition with_applied (s : menu_statics) : menu_statics :=
  {| mode_idx := mode_idx s; refresh_idx := refresh_idx s; aspect_idx := aspect_idx s;
     applied_mode_idx := mode_idx s; applied_refresh_idx := refresh_idx s; applied_aspect_idx := aspect_idx s;
     resolution_tmp := resolution_tmp s; refresh_tmp := refresh_tmp s |}.

(** [if (reset)]: back to what was applied, or to the defaults. *)
Definition reset_choice (s : menu_statics) : menu_statics :=
  if 0 <=? applied_mode_idx s
  then with_choice s (applied_mode_idx s) (applied_refresh_idx s) (applied_aspect_idx s)
  else with_choice s 7 12 0.

Definition changed (s : menu_statics) : bool :=
  negb (mode_idx s =? applied_mode_idx s) || negb (refresh_idx s =? applied_refresh_idx s) ||
  negb (aspect_idx s =? applied_aspect_idx s).

Definition INT_CTRL_HDMI : Z :=
  INT2_CTRL INT_SRC_VBLANK ||| INT4_CTRL (INT_SRC_HDMI_VBLANK ||| INT_INVERT) ||| INT6_CTRL INT_SRC_USERIO.

(** The body of [if (gfx_menuitem_button("Apply Video Changes"))]. *)
Definition apply_changes : M app unit :=
  s ← gets statics;
  res ← lift (aget hdmi_resolutions (mode_idx s));
  hz ← lift (aget hdmi_refresh_rates (refresh_idx s));
  let wide := wide res && (aspect_idx s =? 1) in
  modify (fun a => with_int_ctrl a INT_CTRL_HDMI);;
  vid (gfx_set_240p (of_Z F32 hz) wide);;
  vid (on_bus (hdmi_set_mode (width res) (height res) (of_Z F32 hz)));;
  modify (fun a => with_statics a (with_applied (statics a)));;
  s ← gets statics;
  '(r, t1) ← lift (resolution_to_string (mode_idx s) (resolution_tmp s));
  '(h, t2) ← lift (refresh_to_string (refresh_idx s) (refresh_tmp s));
  modify (fun a => with_statics a (with_tmps (statics a) t1 t2));;
  desc ← gets video_mode_desc;
  '(_, desc) ← lift (snprintf_ desc 32 (chars "%s @ %s") [VStr (Some r); VStr (Some h)]);
  modify (fun a => with_desc a desc).

(** The three choices and the button; the number of items depends on the
    resolution and on whether something changed. *)
Definition menu_resolution : M app unit :=
  s ← gets statics;
  '(_, i, t) ← ui (gfx_menuitem_select_func (chars "Resolution") (zlen hdmi_resolutions) resolution_to_string
                     (mode_idx s) (resolution_tmp s));
  modify (fun a => with_statics a (with_tmps (with_choice s i (refresh_idx s) (aspect_idx s)) t (refresh_tmp s))).

Definition menu_refresh : M app unit :=
  s ← gets statics;
  '(_, i, t) ← ui (gfx_menuitem_select_func (chars "Refresh Rate") (zlen hdmi_refresh_rates) refresh_to_string
                     (refresh_idx s) (refresh_tmp s));
  modify (fun a => with_statics a (with_tmps (with_choice s (mode_idx s) i (aspect_idx s)) (resolution_tmp s) t)).

Definition menu_aspect : M app unit :=
  s ← gets statics;
  res ← lift (aget hdmi_resolutions (mode_idx s));
  if wide res then
    '(_, i) ← ui (gfx_menuitem_select (chars "Aspect Ratio") [chars "4:3"; chars "16:9"] 2 (aspect_idx s));
    modify (fun a => with_statics a (with_choice s (mode_idx s) (refresh_idx s) i))
  else ui (gfx_newline 2).

(** Whether the changes were applied, which closes the menu. *)
Definition menu_apply : M app bool :=
  s ← gets statics;
  if changed s then
    pressed ← ui (gfx_menuitem_button (chars "Apply Video Changes"));
    if pressed : bool then apply_changes;; mret true else mret false
  else mret false.

Definition menu_position : M app unit :=
  tp ← gets test_position;
  '(_, i) ← ui (gfx_menuitem_select (chars "Test Position") [chars "Left"; chars "Right"] 2 tp);
  modify (fun a => with_position a i).

(** The menu stays open. *)
Definition draw_menu (reset : bool) : M app bool :=
  (if reset then modify (fun a => with_statics a (reset_choice (statics a))) else mret tt);;
  ui gfx_clear;;
  ui (gfx_begin_menu (chars "CONFIG") 28 18 0);;
  menu_resolution;;
  menu_refresh;;
  menu_aspect;;
  ui (gfx_newline 1);;
  close_menu ← menu_apply;
  ui (gfx_newline 2);;
  menu_position;;
  ui gfx_end_menu;;
  pressed ← gets (fun a => input_pressed (inp (screen a)));
  mret (negb (close_menu || has pressed (INPUT_MENU ||| INPUT_BACK))).

(** ** The main loop *)

(** [do_sampling] after the switch over the state. *)
Definition do_sampling_draw (e : frame_env) : M app unit :=
  modify (fun a => with_rand a (rand32 (rand_state a)));;
  a ← gets id;
  ui (draw_sampling (rand_state a) (test_position a) (video_mode_desc a) (status a) (tmp_mode e));;
  '(st, _) ← lift (sample_status_switch (e_status e) (e_samples e) (e_latest e) (e_idx e)
                     (ms_str1 e) (ms_str2 e) (status a));
  modify (fun a => with_status a st).

Definition frame_sampling (e : frame_env) : M app unit :=
  modify (fun a => with_mode a (mode a) false);;
  do_sampling_draw e;;
  pressed ← gets (fun a => input_pressed (inp (screen a)));
  (if has pressed INPUT_MENU then modify (fun a => with_mode a MODE_MENU true) else mret tt);;
  (if has (user_io e) 0x0001 then modify (fun a => with_mode a MODE_NO_SENSOR true) else mret tt).

Definition frame_menu : M app unit :=
  reset ← gets new_mode;
  open ← draw_menu reset;
  if open : bool then modify (fun a => with_mode a (mode a) false)
  else modify (fun a => with_mode a MODE_SAMPLING true).

Definition frame_no_sensor (e : frame_env) : M app unit :=
  (if has (user_io e) 0x0001 then mret tt else modify (fun a => with_mode a MODE_SAMPLING true));;
  ui draw_no_sensor.

(** One iteration of the loop of [main], after [wait_vblank]. *)
Definition frame (e : frame_env) : M app unit :=
  ui gfx_pageflip;;
  ui (modify (fun g => with_input g (input_poll (port e) (inp g))));;
  m ← gets mode;
  match m with
  | MODE_SAMPLING => frame_sampling e
  | MODE_MENU => frame_menu
  | MODE_NO_SENSOR => frame_no_sensor e
  end;;
  tp ← gets test_position;
  ui (draw_version (core_version e) tp (tmp_version e)).

(** ** Start *)

Definition base_palette : list Z :=
  [RGB 0x3f 0x28 0x32; RGB 0x68 0x60 0x5c; RGB 0xb0 0xb0 0xb8; RGB 0xfc 0xfc 0xfc;
   RGB 0x1c 0x38 0xac; RGB 0x70 0x70 0xfc; RGB 0xa8 0x28 0x14; RGB 0xfc 0x48 0x48;
   RGB 0x20 0x88 0x00; RGB 0x70 0xf8 0x28; RGB 0xb8 0x2c 0xd0; RGB 0xfc 0x74 0xec;
   RGB 0xac 0x58 0x1c; RGB 0xf8 0xa8 0x50; RGB 0x3c 0xd4 0xe4; RGB 0xf8 0xec 0x20].

(** [palette_ram[i] = x] *)
Definition set_entry (i x : Z) : M (list Z) unit :=
  fun pal => match aset pal i x with Ok pal => Ok (tt, pal) | Err f => Err f end.

Definition set_palette : M (list Z) unit :=
  for_from 16 0 (fun i =>
    set_entry ((i <<< 1) + 0) (RGB 0 0 0);;
    c ← lift (aget base_palette i);
    set_entry ((i <<< 1) + 1) c);;
  set_entry 0x20 (RGB 0 0 0);;
  set_entry 0x21 (RGB 0xff 0xff 0xff);;
  set_entry 0x40 (RGB 0 0 0);;
  set_entry 0x41 (RGB 8 8 8);;
  set_entry 0x42 (RGB 187 187 187);;
  set_entry 0x43 (RGB 232 126 182);;
  set_entry 0x44 (RGB 240 148 191);;
  set_entry 0x45 (RGB 247 246 246);;
  set_entry 0x46 (RGB 255 255 255);;
  set_entry 0x47 (RGB 52 52 72);;
  set_entry 0x80 (RGB 0 0 0).

Definition INT_CTRL_START : Z :=
  INT2_CTRL INT_SRC_VBLANK ||| INT4_CTRL (INT_SRC_VBLANK ||| INT_INVERT) ||| INT6_CTRL INT_SRC_USERIO.

(** The bytes of [status]: the four lines, then the colours. *)
Definition status_size : Z := STATUS_H * (STATUS_W + 1) + STATUS_H.
Definition status_of_bytes (m : list Z) : StatusInfo :=
  let line i := map i8 (take 17 (drop (17 * i) m)) in
  {| lines := [line 0%nat; line 1%nat; line 2%nat; line 3%nat]; colors := take 4 (drop 68 m) |}.

(** The static objects as start-up leaves them. *)
Definition statics_init : menu_statics :=
  {| mode_idx := 0; refresh_idx := 0; aspect_idx := 0; applied_mode_idx := -1; applied_refresh_idx := -1;
     applied_aspect_idx := -1; resolution_tmp := replicate 32 0; refresh_tmp := replicate 10 0 |}.
Definition app_init (mem : vmem) (b : bus) (ctrl : Z) : app :=
  {| screen := gfx_init mem; hw := b; status := status_of_bytes (replicate 72 0); statics := statics_init;
     test_position := 0; video_mode_desc := replicate 32 0; int_ctrl := ctrl; rand_state := 0xdeadbeef;
     mode := MODE_SAMPLING; new_mode := true |}.

(** [main] up to its loop, with the palette and the user port; the string is
    copied from the literal, placed after the array. *)
Definition main_start (s : app * list Z * Z) : result (app * list Z * Z) :=
  let '(a, pal, _) := s in
  d ← strcpy (video_mode_desc a ++ chars "MiSTer Default" ++ [0]) 0 32;
  let a := with_desc a (take 32 d) in
  '(_, pal) ← set_palette pal;
  let user_io := 0xffff in
  let a := with_int_ctrl a INT_CTRL_START in
  bytes ← memset (concat (lines (status a)) ++ colors (status a)) 0 0 status_size;
  let a := with_status a (status_of_bytes bytes) in
  '(_, a) ← vid (gfx_set_240p (of_Z F32 60) false) a;
  Ok (with_mode a MODE_SAMPLING true, pal, user_io).

(** The frames of a run. *)
Fixpoint run (es : list frame_env) : M app unit :=
  match es with
  | [] => mret tt
  | e :: es => frame e;; run es
  end.
