(* ===== verification/Screens.v ===== *)
(** * The screens of the main program

    Each screen of main.c returns, keeps to the page it is drawn on and leaves
    the context stack as it found it, in both sizes of the picture and both
    positions of the test. *)

From S2P Require Import Prelude Clock Input Blitter Float Hdmi Printf Numerals Formats.
From S2P Require Import Gfx GfxProps Video Modes Menu Canvas Status Main.

(** The whole screen. *)
Definition base (wide : bool) : shape := mkShape 0 0 (screen_w wide) (screen_h wide) None 0.

Lemma cstr_nonzero l s : cstr l = Ok s -> Forall (fun c => c <> 0) s /\ (length s < length l)%nat.
Proof.
  revert s. induction l as [|c l IH]; intros s E; cbn in E; [done|]. destruct (Z.eqb_spec c 0).
  - injection E as <-. split; [constructor|cbn; lia].
  - apply bind_Ok in E as (s' & E & [= <-]). destruct (IH s' E) as [H1 H2]. split; [by constructor|cbn; lia].
Qed.

(** Split over the two sizes and the two positions of the test, after which a
    layout is closed by computation. *)
Ltac positions tp :=
  match goal with H : 0 <= tp < 2 |- _ => assert (tp = 0 \/ tp = 1) as [->| ->] by lia end.

Section page.
Context (g0 : gfx) (p : Z) (Hpage : page_at p g0).
Context (ms : list MenuContext) (ls : list shape) (Hls : (length ls < 6)%nat).
Context (wide : bool) (tp : Z) (Htp : 0 <= tp < 2).

Abbreviation on := (on_page g0 p ms).
Abbreviation keeps_page m := (hoare (on ls (base wide)) m (fun _ => on ls (base wide))).

Lemma line_fits_mono l n s : l <= n -> line_fits ALIGN_LEFT n s = true -> line_fits ALIGN_LEFT l s = true.
Proof.
  intros Hl H. unfold line_fits, shape_col in *. change (has ALIGN_LEFT ALIGN_LEFT) with true in *. cbv iota in *. lia.
Qed.

Lemma page_text_short ls' s str n :
  zlen str <= n -> line_fits ALIGN_LEFT n s = true ->
  hoare (on ls' s) (gfx_text str) (fun _ => on ls' (with_line s (s_line s + 1))).
Proof. intros Hl H. apply page_text; [done|]. by apply (line_fits_mono _ n). Qed.

Lemma draw_status_page st : status_ok st -> keeps_page (draw_status st tp).
Proof.
  intros ((W1 & W2 & W3) & Hr). unfold draw_status.
  set (w := shape_window (ALIGN_MIDDLE ||| align_info tp) 2 (-2) 24 STATUS_H 0 (base wide)).
  eapply page_seq.
  { apply page_begin_window; [done|lia|positions tp; by destruct wide|done..]. }
  fold w. eapply hoare_bind with (R := fun _ => on (ls ++ [base wide]) (with_line w 4)); [|intros _; apply page_end_window].
  change w with (with_line w 0) at 1.
  apply (hoare_for (fun i => on (ls ++ [base wide]) (with_line w i)) 4 0). intros i Hi. cbn in Hi.
  destruct (aget_is_Ok (colors st) i) as [col Ec]; [lia|]. destruct (aget_is_Ok (lines st) i) as [line El]; [lia|].
  pose proof El as El'. apply aget_Ok_inv in El' as [_ El'].
  pose proof (Forall_lookup_1 _ _ _ _ W2 El') as L. destruct (Forall_lookup_1 _ _ _ _ Hr El') as [str Es].
  destruct (cstr_nonzero _ _ Es) as [_ Hs]. cbn in L.
  eapply page_lift; [exact Ec|]. eapply page_seq; [apply page_pen|]. eapply page_lift; [exact El|].
  eapply page_lift; [exact Es|]. change (with_line w (i + 1)) with (with_line (with_line w i) (s_line (with_line w i) + 1)).
  apply (page_text_short _ _ _ 16); [unfold zlen; lia|]. unfold w. 
  assert (i = 0 \/ i = 1 \/ i = 2 \/ i = 3) as [->|[->|[->| ->]]] by lia; positions tp; by destruct wide.
Qed.

(** The box of a context of this shape. *)
Definition shape_box (align x y' w h : Z) (s : shape) : Z * Z :=
  gfx_align_box align x y' w h (set_rect (s_x s) (s_y s) (s_w s) (s_h s) context0).

Lemma page_box {B} ls' s align x y' w h (k : Z * Z -> M gfx B) Q :
  hoare (on ls' s) (k (shape_box align x y' w h s)) Q ->
  hoare (on ls' s) (c ← get_ctx; k (gfx_align_box align x y' w h c)) Q.
Proof.
  intros H. apply page_with_ctx. intros c (_ & _ & _ & Hw & Hh & _). unfold shape_box, gfx_align_box in *. cbn [rw rh set_rect] in H.
  by rewrite Hw, Hh.
Qed.

Lemma draw_bar_page align :
  (let '(x, y') := shape_box align 0 0 BAR_W BAR_H (base wide) in box_fits (base wide) x y' BAR_W BAR_H) = true ->
  keeps_page (draw_bar align).
Proof.
  intros H. unfold draw_bar.
  apply (page_box _ _ align 0 0 BAR_W BAR_H (fun b => let '(x, y') := b in gfx_rect x y' BAR_W BAR_H)).
  destruct (shape_box _ _ _ _ _ _) as [x y']. by apply page_rect.
Qed.

Lemma prints_mode str :
  zlen str <= 31 -> prints (chars "Mode: %s") [VStr (Some str)] (chars "Mode: " ++ str).
Proof.
  intros H. rewrite <- (app_nil_r str) at 2. apply (prints_s (chars "Mode: ") str []); [repeat constructor; discriminate|done|].
  change (zlen (chars "Mode: ")) with 6. change (zlen (@nil Z)) with 0. unfold PRINTF_MAX_POSSIBLE_BUFFER_SIZE. lia.
Qed.

(** The image is drawn inside the screen, the two lines below it. *)
Lemma draw_sampling_page rnd desc str st tmp :
  status_ok st -> length tmp = 40%nat -> cstr desc = Ok str -> zlen str <= 31 ->
  keeps_page (draw_sampling rnd tp desc st tmp).
Proof.
  intros Hst Ht Hd Hl. unfold draw_sampling. destruct (cstr_nonzero _ _ Hd) as [Hz _].
  eapply page_seq; [apply page_clear; [done|by destruct wide]|]. eapply page_seq; [apply page_pen|].
  eapply page_seq; [apply page_border; [done|by destruct wide..]|]. eapply page_seq; [apply page_pen|].
  do 3 (eapply page_seq; [apply draw_bar_page; positions tp; by destruct wide|]).
  apply (page_box _ _ (align_info tp ||| ALIGN_TOP) 2 2 4 4 (fun b => let '(rx, ry) := b in _)).
  destruct (shape_box _ _ _ _ _ _) as [x y'] eqn:Eb.
  assert (box_fits (base wide) x y' 4 4 = true) as Hbox by (positions tp; destruct wide; injection Eb as <- <-; done).
  eapply page_seq; [destruct (_ =? 0); by apply page_image|].
  eapply page_seq; [apply page_begin_window; [done|lia|positions tp; by destruct wide|done..]|].
  eapply page_seq; [apply page_pen|]. eapply page_lift; [exact Hd|].
  assert (zlen (take 39 (chars "Mode: " ++ str)) <= 37) as H37.
  { rewrite take_ge; [rewrite zlen_app; change (zlen (chars "Mode: ")) with 6; lia|].
    rewrite length_app. unfold zlen in Hl. cbn. lia. }
  eapply page_seq.
  { apply (page_textf _ _ Hpage _ _ _ tmp ALIGN_LEFT (chars "Mode: %s") [VStr (Some str)] (chars "Mode: " ++ str)); [done| | | |].
    - by apply prints_mode.
    - rewrite zlen_app. change (zlen (chars "Mode: ")) with 6. unfold PRINTF_MAX_POSSIBLE_BUFFER_SIZE. lia.
    - apply Forall_app. split; [repeat constructor; discriminate|done].
    - apply (line_fits_mono _ 37); [done|positions tp; by destruct wide]. }
  eapply page_seq; [apply page_pen|]. eapply page_seq; [apply page_text; [done|positions tp; by destruct wide]|].
  eapply page_seq; [apply page_end_window|]. by apply draw_status_page.
Qed.

Lemma draw_no_sensor_page : keeps_page draw_no_sensor.
Proof.
  unfold draw_no_sensor. eapply page_seq; [apply page_clear; [done|by destruct wide]|]. eapply page_seq; [apply page_pen|].
  eapply page_seq; [apply page_begin_window; [done|lia|by destruct wide|done..]|].
  eapply page_seq; [apply page_text; [done|by destruct wide]|]. eapply page_seq; [apply page_newline; by destruct wide|].
  eapply page_seq; [apply page_pen|]. eapply page_seq; [apply page_text; [done|by destruct wide]|].
  eapply page_seq; [apply page_text; [done|by destruct wide]|]. apply page_end_window.
Qed.

(** The text of the version line. *)
Definition version_text (core_version : Z) : list Z := chars "MiSTer Laggy 1.3/" ++ zero_padded 6 core_version.

Lemma prints_version v :
  is_u32 v ->
  prints (chars "MiSTer Laggy %s/%06u") [VStr (Some (chars FIRMWARE_VERSION)); VInt v] (version_text v).
Proof.
  intros Hv. pose proof (zero_padded_u32 6 v Hv). unfold prints.
  change (chars "MiSTer Laggy %s/%06u") with (chars "MiSTer Laggy " ++ [37; 115; 47; 37; 48; 54; 117]).
  change (S (length _)) with (length (chars "MiSTer Laggy ") + 8)%nat.
  rewrite loop_text by (done || (repeat constructor; discriminate)). cbn [Datatypes.app].
  rewrite (loop_s 7) by done. rewrite (loop_char 6) by done.
  rewrite (loop_0u 5) by (done || (rewrite ?u32_small by done; unfold PRINTF_MAX_POSSIBLE_BUFFER_SIZE; rewrite ?zlen_app; cbn; lia)).
  rewrite u32_small by done. done.
Qed.

Lemma draw_version_page v tmp : is_u32 v -> length tmp = 40%nat -> keeps_page (draw_version v tp tmp).
Proof.
  intros Hv Ht. pose proof (zero_padded_u32 6 v Hv) as Hz. unfold draw_version.
  assert (zlen (version_text v) <= 27) as Hl
    by (unfold version_text; rewrite zlen_app; change (zlen (chars "MiSTer Laggy 1.3/")) with 17; lia).
  eapply page_seq; [apply page_pen|].
  eapply page_seq; [apply page_begin_window; [done|lia|positions tp; by destruct wide|done..]|].
  eapply page_seq; [|apply page_end_window].
  apply (page_textf _ _ Hpage _ _ _ tmp ALIGN_LEFT _ _ (version_text v)); [done|by apply prints_version| | |].
  - unfold PRINTF_MAX_POSSIBLE_BUFFER_SIZE. lia.
  - unfold version_text. nonzero.
  - apply (line_fits_mono _ 27); [|positions tp; by destruct wide].
    rewrite take_ge by (unfold zlen in Hl; lia). done.
Qed.
End page.
