(* ===== verification/Debug.v ===== *)
(** * The debug overlay (firmware/src/debug.c, debug.h)

    Compiled when [ML_DEBUG] is set, which the Makefile does not do: the
    times of a frame, taken at markers in the handlers and the main loop, and
    the line that shows them. *)

From S2P Require Import Prelude Clock Input Blitter Float Hdmi Printf PrintfProps Numerals Formats.
From S2P Require Import Gfx GfxProps Video Menu Canvas Status Main Screens.

(** [debug_stats], written by [DEBUG_FRAME_MARKER]. *)
Record DebugStats : Type := mkDebugStats {
  m_vblank_start : Z;
  m_vblank_end : Z;
  m_sample_start : Z;
  m_frontend_end : Z;
  m_frame_total : Z
}.

Inductive marker : Type := MVblankStart | MVblankEnd | MSampleStart | MFrontendEnd.

(** [debug_stats.name = clock_get_ticks()], the ticks read being [t]. *)
Definition DEBUG_FRAME_MARKER (name : marker) (t : Z) (d : DebugStats) : DebugStats :=
  match name with
  | MVblankStart => mkDebugStats t (m_vblank_end d) (m_sample_start d) (m_frontend_end d) (m_frame_total d)
  | MVblankEnd => mkDebugStats (m_vblank_start d) t (m_sample_start d) (m_frontend_end d) (m_frame_total d)
  | MSampleStart => mkDebugStats (m_vblank_start d) (m_vblank_end d) t (m_frontend_end d) (m_frame_total d)
  | MFrontendEnd => mkDebugStats (m_vblank_start d) (m_vblank_end d) (m_sample_start d) t (m_frame_total d)
  end.

(** The static variables of debug.c. *)
Record debug_times : Type := mkDebugTimes {
  vblank_start : Z;
  vblank_end : Z;
  frame_total : Z;
  frontend_end : Z;
  sample_start : Z
}.

Definition debug_end_frame (d : DebugStats) (s : debug_times) : debug_times :=
  let frame_total := u32 (m_vblank_start d - vblank_start s) in
  let vblank_start := m_vblank_start d in
  {| frame_total := frame_total;
     vblank_start := vblank_start;
     frontend_end := u32 (m_frontend_end d - vblank_start);
     vblank_end := u32 (m_vblank_end d - vblank_start);
     sample_start := if m_vblank_start d <? m_sample_start d then u32 (m_sample_start d - m_vblank_start d) else sample_start s |}.

Definition debug_draw (s : debug_times) (tmp : list Z) : M gfx unit :=
  gfx_begin_window (ALIGN_TOP ||| ALIGN_RIGHT) 2 1 24 2 0;;
  gfx_pen TEXT_DARK;;
  gfx_textf_aligned tmp ALIGN_LEFT (chars "%5u %5u %5u %5u")
    [VInt (CLOCK_TICKS_TO_US (sample_start s)); VInt (CLOCK_TICKS_TO_US (vblank_end s));
     VInt (CLOCK_TICKS_TO_US (frontend_end s)); VInt (CLOCK_TICKS_TO_US (frame_total s))];;
  gfx_end_window.

(** ** The times *)

(** The times of a frame are the differences of the clock, also over its
    wrap; the start of a sample is not taken over when the clock wraps between
    the frame and the sample. *)
Lemma end_frame_times d s v e f :
  is_u32 v -> is_u32 (vblank_start s) ->
  m_vblank_start d = u32 (vblank_start s + v) -> m_vblank_end d = u32 (m_vblank_start d + e) -> m_frontend_end d = u32 (m_vblank_start d + f) ->
  is_u32 e -> is_u32 f ->
  let s' := debug_end_frame d s in
  frame_total s' = v /\ vblank_end s' = e /\ frontend_end s' = f.
Proof.
  intros Hv Hs Ev Ee Ef He Hf. cbn. rewrite Ee, Ef, Ev. unfold is_u32 in *. clear - Hv Hs He Hf. split_and!; word_lia.
Qed.

Lemma sample_start_stale d s :
  m_vblank_start d = 4294967290 -> m_sample_start d = 10 -> sample_start (debug_end_frame d s) = sample_start s.
Proof. intros E1 E2. cbn. by rewrite E1, E2. Qed.

(** ** The line *)

(** A number with spaces in front up to [w] characters. *)
Definition space_padded (w : nat) (v : Z) : list Z :=
  let cs := numeral BASE_DECIMAL 0 v in replicate (w - length cs) 32 ++ cs.

Lemma space_padded_length w v k : 0 <= v < 10 ^ Z.of_nat k -> (0 < k)%nat -> zlen (space_padded w v) <= Z.max (Z.of_nat w) (Z.of_nat k).
Proof.
  intros Hv Hk. unfold space_padded. pose proof (numeral_length BASE_DECIMAL 0 v k ltac:(done) Hv Hk).
  unfold zlen. rewrite length_app, length_replicate. lia.
Qed.

Lemma loop_5u f rest cs x a :
  zlen cs + 10 <= PRINTF_MAX_POSSIBLE_BUFFER_SIZE ->
  format_string_loop (S f) (37 :: 53 :: 117 :: rest) (at_text cs (VInt x :: a)) =
    format_string_loop f rest (at_text (cs ++ space_padded 5 (u32 x)) a).
Proof.
  intros H. pose proof (u32_range x) as Hx. unfold is_u32 in Hx.
  pose proof (space_padded_length 5 (u32 x) 10 ltac:(change (10 ^ Z.of_nat 10) with 10000000000; lia) ltac:(lia)).
  erewrite (loop_directive f 53 (117 :: rest) (117 :: rest)); [reflexivity| |done|rewrite zlen_app; lia].
  cbn -[print_integer put_all sent next]. by rewrite print_integer_field by first [done | apply u32_range].
Qed.

Definition debug_text (s : debug_times) : list Z :=
  let us t := space_padded 5 (CLOCK_TICKS_TO_US t) in
  us (sample_start s) ++ [32] ++ us (vblank_end s) ++ [32] ++ us (frontend_end s) ++ [32] ++ us (frame_total s).

Definition times_ok (s : debug_times) : Prop :=
  is_u32 (sample_start s) /\ is_u32 (vblank_end s) /\ is_u32 (frontend_end s) /\ is_u32 (frame_total s).

Lemma us_small t : is_u32 t -> u32 (CLOCK_TICKS_TO_US t) = CLOCK_TICKS_TO_US t /\ zlen (space_padded 5 (CLOCK_TICKS_TO_US t)) <= 9.
Proof.
  intros Ht. unfold is_u32 in Ht. assert (0 <= CLOCK_TICKS_TO_US t < 10 ^ 9) as H.
  { unfold CLOCK_TICKS_TO_US. change CLOCK_REF_MHZ with 10. split; [apply Z.div_pos; lia|apply Z.div_lt_upper_bound; lia]. }
  split; [apply u32_small; unfold is_u32; lia|]. apply (space_padded_length 5 _ 9); [done|lia].
Qed.

Lemma prints_debug s :
  times_ok s ->
  prints (chars "%5u %5u %5u %5u")
    [VInt (CLOCK_TICKS_TO_US (sample_start s)); VInt (CLOCK_TICKS_TO_US (vblank_end s));
     VInt (CLOCK_TICKS_TO_US (frontend_end s)); VInt (CLOCK_TICKS_TO_US (frame_total s))] (debug_text s).
Proof.
  intros (H1 & H2 & H3 & H4). destruct (us_small _ H1) as [E1 L1], (us_small _ H2) as [E2 L2], (us_small _ H3) as [E3 L3], (us_small _ H4) as [E4 L4].
  unfold prints. change (chars "%5u %5u %5u %5u") with [37; 53; 117; 32; 37; 53; 117; 32; 37; 53; 117; 32; 37; 53; 117].
  assert (PRINTF_MAX_POSSIBLE_BUFFER_SIZE = 2147483647) as B by done. change (zlen (@nil Z)) with 0.
  cbn [length]. change (at_text [] ?a) with (at_text ([] ++ []) a).
  rewrite loop_5u, E1 by (rewrite ?zlen_app; change (zlen (@nil Z)) with 0; lia).
  rewrite loop_char by (done || rewrite ?zlen_app; change (zlen (@nil Z)) with 0; lia).
  rewrite loop_5u, E2 by (rewrite ?zlen_app; change (zlen [_]) with 1; change (zlen (@nil Z)) with 0; lia).
  rewrite loop_char by (done || rewrite ?zlen_app; change (zlen [_]) with 1; change (zlen (@nil Z)) with 0; lia).
  rewrite loop_5u, E3 by (rewrite ?zlen_app; change (zlen [_]) with 1; change (zlen (@nil Z)) with 0; lia).
  rewrite loop_char by (done || rewrite ?zlen_app; change (zlen [_]) with 1; change (zlen (@nil Z)) with 0; lia).
  rewrite loop_5u, E4 by (rewrite ?zlen_app; change (zlen [_]) with 1; change (zlen (@nil Z)) with 0; lia).
  unfold debug_text. cbn [Datatypes.app]. rewrite <- !app_assoc. done.
Qed.

Lemma space_padded_nonzero w v : Forall (fun c => c <> 0) (space_padded w v).
Proof. apply Forall_app_2; [by apply Forall_replicate|apply numeral_nonzero]. Qed.

(** The overlay returns, writes its line on the page it is drawn on and
    leaves the context stack as it found it, in both sizes of the picture. *)
Lemma debug_draw_page g0 p (Hpage : page_at p g0) ms ls wide s tmp :
  (length ls < 6)%nat -> times_ok s -> length tmp = 40%nat ->
  hoare (on_page g0 p ms ls (base wide)) (debug_draw s tmp) (fun _ => on_page g0 p ms ls (base wide)).
Proof.
  intros Hls Hs Ht. destruct (id Hs) as (H1 & H2 & H3 & H4).
  pose proof (us_small _ H1) as [_ L1]. pose proof (us_small _ H2) as [_ L2]. pose proof (us_small _ H3) as [_ L3]. pose proof (us_small _ H4) as [_ L4].
  assert (zlen (debug_text s) <= 39) as Hl.
  { unfold debug_text. rewrite !zlen_app. change (zlen [32]) with 1. lia. }
  unfold debug_draw. eapply page_seq; [apply page_begin_window; [done|lia|by destruct wide|done..]|]. eapply page_seq; [apply page_pen|].
  eapply page_seq; [|apply page_end_window].
  apply (page_textf _ _ Hpage _ _ _ tmp ALIGN_LEFT _ _ (debug_text s)); [done|by apply prints_debug| | |].
  - unfold PRINTF_MAX_POSSIBLE_BUFFER_SIZE. lia.
  - unfold debug_text. rewrite !Forall_app. split_and!; first [apply space_padded_nonzero|by constructor].
  - apply (line_fits_mono ls Hls _ 39); [|by destruct wide]. rewrite take_ge by (unfold zlen in Hl; lia). done.
Qed.
