(* ===== verification/Config.v ===== *)
(** * The configuration menu (firmware/src/main.c, draw_menu)

    An abstract specification of the menu, in terms of the choice shown, the
    choice applied and the selected item, and the refinement: [draw_menu]
    does one step of it, whatever the buttons. *)

From S2P Require Import Prelude Clock Input Blitter Float Hdmi HdmiProps Printf Numerals Formats.
From S2P Require Import Gfx GfxProps Video Modes Menu Canvas Status Main Screens.

(** ** The strings of the items *)

Definition res_text (r : HDMIResolution) : list Z :=
  numeral BASE_DECIMAL 0 (width r) ++ [120] ++ numeral BASE_DECIMAL 0 (height r).
Definition hz_text (hz : Z) : list Z := numeral BASE_DECIMAL 0 hz ++ chars "hz".

Lemma texts_short :
  forallb (fun r => (0 <=? width r) && (width r <? 65536) && (0 <=? height r) && (height r <? 65536) &&
                    (zlen (res_text r) <=? 9)) hdmi_resolutions &&
  forallb (fun hz => (0 <=? hz) && (hz <? 65536) && (zlen (hz_text hz) <=? 4)) hdmi_refresh_rates = true.
Proof. vm_compute. reflexivity. Qed.

Lemma resolution_short i r :
  aget hdmi_resolutions i = Ok r -> is_u16 (width r) /\ is_u16 (height r) /\ zlen (res_text r) <= 9.
Proof.
  intros E. apply aget_Ok_inv in E as [_ E]. apply list_elem_of_lookup_2, list_elem_of_In in E.
  pose proof texts_short as H. apply andb_prop in H as [H _]. rewrite forallb_forall in H. specialize (H r E).
  unfold is_u16. lia.
Qed.

Lemma refresh_short j hz : aget hdmi_refresh_rates j = Ok hz -> is_u16 hz /\ zlen (hz_text hz) <= 4.
Proof.
  intros E. apply aget_Ok_inv in E as [_ E]. apply list_elem_of_lookup_2, list_elem_of_In in E.
  pose proof texts_short as H. apply andb_prop in H as [_ H]. rewrite forallb_forall in H. specialize (H hz E).
  unfold is_u16. lia.
Qed.

Lemma resolution_to_string_spec i r tmp :
  aget hdmi_resolutions i = Ok r -> length tmp = 32%nat ->
  exists tmp', resolution_to_string i tmp = Ok (res_text r, tmp') /\ length tmp' = 32%nat.
Proof.
  intros E Hl. destruct (resolution_short i r E) as (Hw & Hh & H9). exists (printed 32 (res_text r) tmp).
  assert (prints (chars "%ux%u") [VInt (width r); VInt (height r)] (res_text r)) as Hp.
  { assert (is_u32 (width r)) as Uw by (unfold is_u16, is_u32 in *; lia).
    assert (is_u32 (height r)) as Uh by (unfold is_u16, is_u32 in *; lia).
    pose proof (numeral_u32 _ Uw). pose proof (numeral_u32 _ Uh). unfold prints.
    change (chars "%ux%u") with [37; 117; 120; 37; 117]. cbn [length].
    rewrite loop_u by done. rewrite u32_small, app_nil_l by done.
    rewrite loop_char by (done || room).
    rewrite loop_u by room.
    rewrite u32_small by done. unfold res_text. by rewrite <- app_assoc. }
  split; [|rewrite length_printed; lia]. unfold resolution_to_string. rewrite E. cbn [mbind result_bind].
  rewrite (snprintf_prints tmp 32 _ _ _ Hp) by (unfold zlen, PRINTF_MAX_POSSIBLE_BUFFER_SIZE in *; lia).
  cbn [mbind result_bind]. change (Z.to_nat 32) with 32%nat. rewrite cstr_printed by (unfold res_text; nonzero).
  rewrite take_ge by (unfold zlen in *; lia). done.
Qed.

Lemma refresh_to_string_spec j hz tmp :
  aget hdmi_refresh_rates j = Ok hz -> length tmp = 10%nat ->
  exists tmp', refresh_to_string j tmp = Ok (hz_text hz, tmp') /\ length tmp' = 10%nat.
Proof.
  intros E Hl. destruct (refresh_short j hz E) as (Hh & H4). exists (printed 10 (hz_text hz) tmp).
  assert (prints (chars "%dhz") [VInt hz] (hz_text hz)) as Hp.
  { assert (is_u32 hz) as Uh by (unfold is_u16, is_u32 in *; lia). pose proof (numeral_u32 _ Uh). unfold prints.
    change (chars "%dhz") with [37; 100; 104; 122]. cbn [length].
    rewrite loop_d by (unfold is_u16 in *; done || lia). rewrite app_nil_l.
    rewrite !loop_char by (done || room).
    unfold hz_text. by rewrite <- app_assoc. }
  split; [|rewrite length_printed; lia]. unfold refresh_to_string. rewrite E. cbn [mbind result_bind].
  rewrite (snprintf_prints tmp 10 _ _ _ Hp) by (unfold zlen, PRINTF_MAX_POSSIBLE_BUFFER_SIZE in *; lia).
  cbn [mbind result_bind]. change (Z.to_nat 10) with 10%nat. rewrite cstr_printed by (unfold hz_text; nonzero).
  rewrite take_ge by (unfold zlen in *; lia). done.
Qed.

(** The description of a mode. *)
Definition mode_text (r : HDMIResolution) (hz : Z) : list Z := res_text r ++ chars " @ " ++ hz_text hz.

Lemma prints_mode_text r hz :
  zlen (res_text r) <= 9 -> zlen (hz_text hz) <= 4 ->
  prints (chars "%s @ %s") [VStr (Some (res_text r)); VStr (Some (hz_text hz))] (mode_text r hz).
Proof.
  intros H9 H4. unfold prints. change (chars "%s @ %s") with [37; 115; 32; 64; 32; 37; 115]. cbn [length].
  rewrite loop_s by room. rewrite app_nil_l.
  rewrite !loop_char by (done || room).
  rewrite loop_s by room.
  unfold mode_text. by rewrite <- !app_assoc.
Qed.

(** ** Specification

    What the user sees of the menu: the choice shown (resolution, refresh
    rate, aspect), the choice applied if any, the position of the test, and
    the selected item among those of the last frame. *)
Record settings : Type := mkSettings {
  chosen : Z * Z * Z;
  applied : option (Z * Z * Z);
  position : Z;
  selection : Z;
  items : Z
}.

(** The item number [item] is an option of [n] values, now [i]. *)
Definition item_option (sel pressed item n i : Z) : Z := if item =? sel then option_move pressed n i else i.

Definition is_wide (i : Z) : bool := match aget hdmi_resolutions i with Ok r => wide r | Err _ => false end.

(** One frame of the menu: the new settings, and whether the choice was
    applied.  There is an aspect item only for wide resolutions, and a button
    only when the choice differs from what is applied. *)
Definition menu_spec (reset : bool) (pressed : Z) (st : settings) : settings * bool :=
  let '(m, r, a) := if reset then match applied st with Some c => c | None => (7, 12, 0) end else chosen st in
  let sel := index (menu_move pressed {| index := selection st; count := items st; tmp_option_idx := -1 |}) in
  let m := item_option sel pressed 0 12 m in
  let r := item_option sel pressed 1 19 r in
  let a := if is_wide m then item_option sel pressed 2 2 a else a in
  let n := if is_wide m then 3 else 2 in
  let button := negb (bool_decide (applied st = Some (m, r, a))) in
  let apply := button && (n =? sel) && has pressed INPUT_OK in
  let n := if button then n + 1 else n in
  ({| chosen := (m, r, a); applied := if apply then Some (m, r, a) else applied st;
      position := item_option sel pressed n 2 (position st); selection := sel; items := n + 1 |}, apply).

(** The settings of a state of the program. *)
Definition statics_chosen (s : menu_statics) : Z * Z * Z := (mode_idx s, refresh_idx s, aspect_idx s).
Definition statics_applied (s : menu_statics) : option (Z * Z * Z) :=
  if applied_mode_idx s <? 0 then None
  else Some (applied_mode_idx s, applied_refresh_idx s, applied_aspect_idx s).

Definition settings_of (a : app) : settings :=
  let mc := match menus (screen a) with mc :: _ => mc | [] => INIT_MENU_CONTEXT end in
  {| chosen := statics_chosen (statics a); applied := statics_applied (statics a); position := test_position a;
     selection := index mc; items := count mc |}.

(** ** Invariant *)

Definition in_tables (c : Z * Z * Z) : Prop := 0 <= c.1.1 < 12 /\ 0 <= c.1.2 < 19 /\ 0 <= c.2 < 2.

Definition statics_ok (s : menu_statics) : Prop :=
  in_tables (statics_chosen s) /\ (forall c, statics_applied s = Some c -> in_tables c) /\
  length (resolution_tmp s) = 32%nat /\ length (refresh_tmp s) = 10%nat.

Lemma reset_choice_spec s :
  statics_ok s ->
  statics_ok (reset_choice s) /\ statics_applied (reset_choice s) = statics_applied s /\
  statics_chosen (reset_choice s) = match statics_applied s with Some c => c | None => (7, 12, 0) end.
Proof.
  intros (H1 & H2 & H3 & H4). unfold reset_choice, statics_ok, statics_applied in *.
  destruct (Z.leb_spec 0 (applied_mode_idx s)) as [H|H].
  - rewrite (proj2 (Z.ltb_ge _ _)) in * by lia. cbn. rewrite (proj2 (Z.ltb_ge _ _)) by lia. split_and!; eauto.
  - rewrite (proj2 (Z.ltb_lt _ _)) in * by lia. cbn. rewrite (proj2 (Z.ltb_lt _ _)) by lia. by split_and!.
Qed.

Lemma changed_spec s :
  statics_ok s -> changed s = negb (bool_decide (statics_applied s = Some (statics_chosen s))).
Proof.
  intros ((H1 & _) & _). unfold changed, statics_applied, statics_chosen in *. cbn in H1.
  destruct (Z.ltb_spec (applied_mode_idx s) 0) as [H|H].
  - rewrite bool_decide_eq_false_2 by done. by rewrite (proj2 (Z.eqb_neq (mode_idx s) (applied_mode_idx s))) by lia.
  - case_bool_decide as E; [injection E as -> -> ->; by rewrite !Z.eqb_refl|].
    destruct (Z.eqb_spec (mode_idx s) (applied_mode_idx s)) as [E1|]; [|done].
    destruct (Z.eqb_spec (refresh_idx s) (applied_refresh_idx s)) as [E2|]; [|done].
    destruct (Z.eqb_spec (aspect_idx s) (applied_aspect_idx s)) as [E3|]; [|done]. by rewrite E1, E2, E3 in E.
Qed.

(** ** The items *)

Section menu.
Context (g0 : gfx) (p : Z) (Hpage : page_at p g0) (a0 : app).
Context (ls : list shape) (Hls : (length ls < 6)%nat) (wide0 : bool).
Abbreviation pressed := (input_pressed (inp g0)).

(** The program in the menu: the state is [a0] but for what is on the page,
    the static variables [s] and the position [tp]. *)
Definition menu_state (s : menu_statics) (tp : Z) (g : gfx) : app :=
  with_screen (with_statics (with_position a0 tp) s) g (hw a0).
Definition at_menu (ms : list MenuContext) (ls : list shape) (sh : shape) (s : menu_statics) (tp : Z) (a : app) : Prop :=
  on_page g0 p ms ls sh (screen a) /\ a = menu_state s tp (screen a).

(** The window of the menu, at a line. *)
Definition menu_shape (n : Z) : shape :=
  with_line (with_menu (shape_window (ALIGN_CENTER ||| ALIGN_MIDDLE) 0 0 28 18 1 (base wide0)) (Some 0)) n.

Lemma menu_ui {A} ms l sh s tp (m : M gfx A) (Q : A -> gfx -> Prop) :
  hoare (on_page g0 p ms l sh) m Q ->
  hoare (at_menu ms l sh s tp) (ui m) (fun x a => Q x (screen a) /\ a = menu_state s tp (screen a)).
Proof.
  intros H a [Hp Ea]. destruct (H _ Hp) as (x & g' & E & HQ). exists x, (menu_state s tp g').
  split; [|done]. unfold ui. rewrite E. by rewrite Ea.
Qed.

Lemma menu_step {B} ms l sh s tp ms' l' sh' (m : M gfx unit) (k : M app B) Q :
  hoare (on_page g0 p ms l sh) m (fun _ => on_page g0 p ms' l' sh') -> hoare (at_menu ms' l' sh' s tp) k Q ->
  hoare (at_menu ms l sh s tp) (ui m;; k) Q.
Proof. intros Hm Hk. eapply hoare_bind; [by apply menu_ui|]. intros u. exact Hk. Qed.

Lemma menu_statics_get {B} ms l sh s tp (k : menu_statics -> M app B) Q :
  hoare (at_menu ms l sh s tp) (k s) Q -> hoare (at_menu ms l sh s tp) (gets statics ≫= k) Q.
Proof.
  intros H a Ha. destruct (H a Ha) as (b & a' & E & HQ). exists b, a'. split; [|done].
  unfold mbind, M_bind, gets. destruct Ha as [_ Ea]. rewrite Ea at 1. exact E.
Qed.

Lemma menu_set_statics ms l sh s tp s' :
  hoare (at_menu ms l sh s tp) (modify (fun a => with_statics a s')) (fun _ => at_menu ms l sh s' tp).
Proof. apply hoare_modify. intros a [Hp Ea]. split; [done|]. rewrite Ea. done. Qed.

Lemma menu_line_fits n align len :
  0 <= n <= 14 -> align = ALIGN_LEFT /\ len <= 26 \/ align = ALIGN_CENTER /\ 0 <= len <= 26 ->
  line_fits align len (menu_shape n) = true.
Proof.
  intros Hn Ha. assert (s_x (menu_shape n) = if wide0 then 11 else 7) as Ex by (unfold menu_shape; by destruct wide0).
  assert (s_y (menu_shape n) = if wide0 then 5 else 7) as Ey by (unfold menu_shape; by destruct wide0).
  assert (0 <= shape_col align len (menu_shape n) <= 26 - len \/ shape_col align len (menu_shape n) = 0) as Hc.
  { destruct Ha as [[-> H]|[-> H]]; [by right|left]. change (shape_col _ _ _) with ((26 - len) >>> 1).
    rewrite Z.shiftr_div_pow2 by lia. split; [apply Z.div_pos; lia|]. apply Z.div_le_upper_bound; lia. }
  unfold line_fits, TILE_MAX_W. rewrite Ex, Ey. change (s_line (menu_shape n)) with n. destruct wide0; lia.
Qed.

(** An option of the menu, from line [n]. *)
Lemma menu_select {St} mc n label num (item : Z -> St -> result (list Z * St)) opt st (I : St -> Prop) s tp :
  0 <= n <= 13 -> 0 <= opt < num -> I st ->
  (forall i, 0 <= i < num -> exists v st', item i st = Ok (v, st') /\ I st' /\ zlen label + zlen v <= 24) ->
  let i := item_option (index mc) pressed (count mc) num opt in
  0 <= i < num /\
  hoare (at_menu [mc] ls (menu_shape n) s tp) (ui (gfx_menuitem_select_func label num item opt st))
    (fun r a => r.1 = (negb (i =? opt), i) /\ I r.2 /\ at_menu [counted mc] ls (menu_shape (n + 2)) s tp a).
Proof.
  intros Hn Ho Hst Hitem. cbv zeta. unfold item_option.
  destruct (page_select g0 p Hpage [mc] ls (menu_shape n) 0 mc label num item opt st I) as [H1 H2]; try done.
  - intros i Hi. destruct (Hitem i Hi) as (v & st' & E & HI & Hl). exists v, st'. split_and!; [done|done|].
    change (s_w (menu_shape n)) with 26. lia.
  - cbn. lia.
  - by apply (menu_line_fits (n + 1) ALIGN_LEFT 26); [lia|left].
  - split; [done|]. eapply hoare_conseq; [apply menu_ui, H2|done|].
    intros r a ((E & HI & Hp) & Ea). split_and!; [done|done|]. split; done.
Qed.

(** The statics with another choice. *)
Definition chose (s : menu_statics) (c : Z * Z * Z) (s' : menu_statics) : Prop :=
  statics_ok s' /\ statics_applied s' = statics_applied s /\ statics_chosen s' = c.

Abbreviation picked mc item num opt := (item_option (index mc) pressed item num opt).

Lemma menu_resolution_rule mc n s tp :
  0 <= n <= 13 -> statics_ok s ->
  hoare (at_menu [mc] ls (menu_shape n) s tp) menu_resolution
    (fun _ a => exists s', at_menu [counted mc] ls (menu_shape (n + 2)) s' tp a /\
       chose s (picked mc (count mc) 12 (mode_idx s), refresh_idx s, aspect_idx s) s').
Proof.
  intros Hn Hs. pose proof Hs as ((M1 & M2 & M3) & Ha & L1 & L2). apply menu_statics_get.
  destruct (menu_select mc n (chars "Resolution") 12 resolution_to_string (mode_idx s) (resolution_tmp s)
    (fun t => length t = 32%nat) s tp) as [Hi H]; try done.
  { intros i Hi. destruct (aget_is_Ok hdmi_resolutions i) as [r Er]; [cbn; lia|].
    destruct (resolution_to_string_spec i r _ Er L1) as (t & Et & Lt). destruct (resolution_short i r Er) as (_ & _ & H9).
    exists (res_text r), t. split_and!; [done|done|]. change (zlen (chars "Resolution")) with 10. lia. }
  eapply hoare_bind; [exact H|]. intros [[b i] t]. intros a (Ei & Lt & Hp). injection Ei as _ ->.
  destruct (menu_set_statics _ _ _ _ _ (with_tmps (with_choice s (picked mc (count mc) 12 (mode_idx s))
    (refresh_idx s) (aspect_idx s)) t (refresh_tmp s)) a Hp) as (x & a' & E & Hp').
  exists x, a'. split; [exact E|]. eexists. split; [exact Hp'|]. by split_and!.
Qed.

Lemma menu_refresh_rule mc n s tp :
  0 <= n <= 13 -> statics_ok s ->
  hoare (at_menu [mc] ls (menu_shape n) s tp) menu_refresh
    (fun _ a => exists s', at_menu [counted mc] ls (menu_shape (n + 2)) s' tp a /\
       chose s (mode_idx s, picked mc (count mc) 19 (refresh_idx s), aspect_idx s) s').
Proof.
  intros Hn Hs. pose proof Hs as ((M1 & M2 & M3) & Ha & L1 & L2). apply menu_statics_get.
  destruct (menu_select mc n (chars "Refresh Rate") 19 refresh_to_string (refresh_idx s) (refresh_tmp s)
    (fun t => length t = 10%nat) s tp) as [Hi H]; try done.
  { intros i Hi. destruct (aget_is_Ok hdmi_refresh_rates i) as [r Er]; [cbn; lia|].
    destruct (refresh_to_string_spec i r _ Er L2) as (t & Et & Lt). destruct (refresh_short i r Er) as (_ & H4).
    exists (hz_text r), t. split_and!; [done|done|]. change (zlen (chars "Refresh Rate")) with 12. lia. }
  eapply hoare_bind; [exact H|]. intros [[b i] t]. intros a (Ei & Lt & Hp). injection Ei as _ ->.
  destruct (menu_set_statics _ _ _ _ _ (with_tmps (with_choice s (mode_idx s) (picked mc (count mc) 19 (refresh_idx s))
    (aspect_idx s)) (resolution_tmp s) t) a Hp) as (x & a' & E & Hp').
  exists x, a'. split; [exact E|]. eexists. split; [exact Hp'|]. by split_and!.
Qed.

(** An option of two strings. *)
Lemma menu_select_two mc n label o0 o1 opt s tp :
  0 <= n <= 13 -> 0 <= opt < 2 -> zlen label + zlen o0 <= 24 -> zlen label + zlen o1 <= 24 ->
  let i := picked mc (count mc) 2 opt in
  0 <= i < 2 /\
  hoare (at_menu [mc] ls (menu_shape n) s tp) (ui (gfx_menuitem_select label [o0; o1] 2 opt))
    (fun r a => r.2 = i /\ at_menu [counted mc] ls (menu_shape (n + 2)) s tp a).
Proof.
  intros Hn Ho H0 H1 i.
  destruct (menu_select mc n label 2 (menuitem_to_string_simple [o0; o1]) opt tt (fun _ => True) s tp) as [Hi H]; try done.
  { intros j Hj. assert (j = 0 \/ j = 1) as [->| ->] by lia; [exists o0, tt|exists o1, tt]; by split_and!. }
  split; [done|]. intros a Ha. destruct (H a Ha) as ([[b j] u] & a' & E & Ej & _ & Hp). exists (b, j), a'.
  injection Ej as _ ->. split; [|done]. unfold ui, gfx_menuitem_select, mbind, M_bind in *.
  destruct (gfx_menuitem_select_func _ _ _ _ _ _) as [[[[b' j'] u'] g']|]; [|done]. by injection E as -> -> -> <-.
Qed.

Lemma menu_aspect_rule mc n s tp :
  0 <= n <= 13 -> statics_ok s ->
  hoare (at_menu [mc] ls (menu_shape n) s tp) menu_aspect
    (fun _ a => exists s', at_menu [if is_wide (mode_idx s) then counted mc else mc] ls (menu_shape (n + 2)) s' tp a /\
       chose s (mode_idx s, refresh_idx s,
                if is_wide (mode_idx s) then picked mc (count mc) 2 (aspect_idx s) else aspect_idx s) s').
Proof.
  intros Hn Hs. pose proof Hs as ((M1 & M2 & M3) & Ha & L1 & L2). apply menu_statics_get.
  destruct (aget_is_Ok hdmi_resolutions (mode_idx s)) as [r Er]; [cbn in *; lia|]. unfold is_wide. rewrite Er.
  intros a Hat. unfold mbind at 1, M_bind at 1, lift at 1. destruct (wide r).
  - destruct (menu_select_two mc n (chars "Aspect Ratio") (chars "4:3") (chars "16:9") (aspect_idx s) s tp) as [Hi H]; try done.
    destruct (H a Hat) as ([b j] & a1 & E & Ej & Hp). cbn in Ej. subst j.
    destruct (menu_set_statics _ _ _ _ _ (with_choice s (mode_idx s) (refresh_idx s)
      (picked mc (count mc) 2 (aspect_idx s))) a1 Hp) as (x & a' & E' & Hp').
    exists x, a'. split; [unfold mbind, M_bind; by rewrite E|]. eexists. split; [exact Hp'|]. by split_and!.
  - destruct (menu_ui [mc] ls (menu_shape n) s tp (gfx_newline 2) _ (page_newline g0 p [mc] ls (menu_shape n) 2 ltac:(cbn; lia)) a Hat)
      as (x & a' & E & Hp). exists x, a'. split; [exact E|]. exists s. split; [exact Hp|]. by split_and!.
Qed.

Lemma menu_position_rule mc n s tp :
  0 <= n <= 13 -> 0 <= tp < 2 ->
  hoare (at_menu [mc] ls (menu_shape n) s tp) menu_position
    (fun _ => at_menu [counted mc] ls (menu_shape (n + 2)) s (picked mc (count mc) 2 tp)).
Proof.
  intros Hn Ht a Ha. unfold menu_position, mbind at 1, M_bind at 1, gets.
  assert (test_position a = tp) as -> by (destruct Ha as [_ ->]; done).
  destruct (menu_select_two mc n (chars "Test Position") (chars "Left") (chars "Right") tp s tp) as [Hi H]; try done.
  destruct (H a Ha) as ([b j] & a' & E & Ej & Hp). cbn in Ej. subst j. unfold mbind, M_bind. rewrite E.
  eexists _, _. split; [done|]. destruct Hp as [Hp Ea]. split; [done|]. rewrite Ea. done.
Qed.

Lemma menu_button_rule mc n label s tp :
  0 <= n <= 13 -> zlen label <= 26 ->
  hoare (at_menu [mc] ls (menu_shape n) s tp) (ui (gfx_menuitem_button label))
    (fun r a => r = (count mc =? index mc) && has pressed INPUT_OK /\ at_menu [counted mc] ls (menu_shape (n + 2)) s tp a).
Proof.
  intros Hn Hl. eapply hoare_conseq; [apply menu_ui|done|].
  - apply (page_button g0 p Hpage [mc] ls (menu_shape n) 0 mc label); [done|done|cbn; lia|].
    apply (menu_line_fits (n + 1) ALIGN_CENTER (zlen label)); [lia|]. right. split; [done|]. pose proof (zlen_nonneg label). lia.
  - intros r a ((-> & Hp) & Ea). split; [done|]. by split.
Qed.

(** The menu up to the button, in a screen of its own. *)
Definition after_items (mc : MenuContext) (c : Z * Z * Z) : Z * Z * Z :=
  let m := picked mc 0 12 c.1.1 in
  (m, picked mc 1 19 c.1.2, if is_wide m then picked mc 2 2 c.2 else c.2).
Definition item_count (m : Z) : Z := if is_wide m then 3 else 2.

Lemma seq_exists {A B X} (P : app -> Prop) (m : M app A) (k : M app B) (R : X -> app -> Prop) (C : X -> Prop) Q :
  hoare P m (fun _ a => exists x, R x a /\ C x) -> (forall x, C x -> hoare (R x) k Q) -> hoare P (m;; k) Q.
Proof. intros Hm Hk. eapply hoare_bind; [exact Hm|]. intros _ a (x & HR & HC). by apply (Hk x HC). Qed.

Lemma chose_trans s1 c1 s2 c2 s3 : chose s1 c1 s2 -> chose s2 c2 s3 -> chose s1 c2 s3.
Proof. intros (_ & E1 & _) (H & E2 & E3). split_and!; [done|congruence|done]. Qed.
End menu.

(** ** Applying a choice *)

(** The picture of a choice is wide. *)
Definition choice_wide (c : Z * Z * Z) : bool := is_wide c.1.1 && (c.2 =? 1).

(** What it takes to set a choice: the table entries, the timing and the
    parameters of the two PLLs. *)
Record mode_set (c : Z * Z * Z) (r : HDMIResolution) (hz : Z) (mode : VideoMode) (hp cp : Z * Z * Z) : Prop := mkModeSet {
  ms_res : aget hdmi_resolutions c.1.1 = Ok r;
  ms_hz : aget hdmi_refresh_rates c.1.2 = Ok hz;
  ms_mode : hdmi_find_mode (width r) (height r) (of_Z F32 hz) = Ok mode;
  ms_fits : fits_12 mode = true;
  ms_hdmi : pll_params F64 (hdmi_mhz mode (of_Z F32 hz)) = Ok hp;
  ms_crt : pll_params F32 (fmul F32 (mhz_240p (of_Z F32 hz) (choice_wide c)) (of_Z F32 4)) = Ok cp
}.

Lemma mode_set_exists c : in_tables c -> exists r hz mode hp cp, mode_set c r hz mode hp cp.
Proof.
  intros (H1 & H2 & H3). destruct (hdmi_checked c.1.1 c.1.2 H1 H2) as (r & hz & Er & Eh & H).
  apply hdmi_check_spec in H as (mode & hc & hm & hk & E1 & E2 & E3 & _).
  destruct (crt_checked c.1.2 (choice_wide c) H2) as (hz' & Eh' & H). rewrite Eh in Eh'. injection Eh' as <-.
  unfold crt_check in H. destruct (pll_params F32 _) as [cp|] eqn:E4; [|done].
  exists r, hz, mode, (hc, hm, hk), cp. by constructor.
Qed.

(** The 240p timing of a choice. *)
Definition crt_mode (hz : Z) (w : bool) : VideoMode := mode_240p w (mhz_240p (of_Z F32 hz) w).

(** The writes that set it. *)
Definition choice_trace (c : Z * Z * Z) (hz : Z) (mode : VideoMode) (hp cp : Z * Z * Z) : list bus_write :=
  crt_trace (crt_mode hz (choice_wide c)) (choice_wide c) cp.1.1 cp.1.2 cp.2 ++ hdmi_trace mode hp.1.1 hp.1.2 hp.2.

Section hardware.
Context (r0 : vio_rx) (q0 : crtc_rx).

(** The two receivers, from their state at power on. *)
Definition output (b : bus) : vio_rx := receive (writes b) r0.
Definition controller (b : bus) : crtc_rx := crtc_receive (writes b) q0.

Definition ends_with {A} (l suffix : list A) : Prop := exists pre, l = pre ++ suffix.

(** The controller makes the 240p picture of this refresh rate and shape. *)
Definition crt_shows (hz : Z) (w : bool) (b : bus) : Prop :=
  exists cp, pll_params F32 (fmul F32 (mhz_240p (of_Z F32 hz) w) (of_Z F32 4)) = Ok cp /\
    crt_holds (crt_mode hz w) w (controller b) /\ ends_with (crtc_pll (controller b)) (crt_program cp.1.1 cp.1.2 cp.2).

(** The hardware is set to the choice; before any, the output is untouched. *)
Definition hardware_shows (o : option (Z * Z * Z)) (b : bus) : Prop :=
  Forall crtc_regs_ok (writes b) /\
  match o with
  | None => output b = r0 /\ crt_shows 60 false b
  | Some c => exists r hz mode hp cp, mode_set c r hz mode hp cp /\ crt_shows hz (choice_wide c) b /\
      programmed mode (output b) /\ ends_with (pll_writes (output b)) (pll_program hp.1.1 hp.1.2 hp.2)
  end.

Lemma hardware_idle o b : rx_idle r0 -> hardware_shows o b -> rx_idle (output b).
Proof.
  intros Hr [_ H]. revert H. destruct o as [c|]; cbn; [|by intros [-> _]]. intros (r & hz & mode & hp & cp & _ & _ & H & _).
  by destruct H as (_ & _ & _ & _ & _ & _ & _ & _ & _ & _ & _ & He & Hc).
Qed.

Lemma params_k t f x : pll_params t f = Ok x -> is_u32 x.2.
Proof. destruct x as [[c m] k]. apply pll_params_k. Qed.

Lemma crt_trace_shows hz w b b' cp :
  pll_params F32 (fmul F32 (mhz_240p (of_Z F32 hz) w) (of_Z F32 4)) = Ok cp ->
  writes b' = writes b ++ crt_trace (crt_mode hz w) w cp.1.1 cp.1.2 cp.2 -> crt_shows hz w b' /\ output b' = output b.
Proof.
  intros Ep Ew. destruct (crt_trace_received (crt_mode hz w) w cp.1.1 cp.1.2 cp.2 (controller b)) as [H1 H2];
    [by eapply params_k|]. unfold crt_shows, output, controller in *. rewrite Ew, crtc_receive_app, receive_app. split; [|done].
  exists cp. split_and!; [done|done|]. rewrite H2. by eexists.
Qed.

Lemma choice_trace_shows c r hz mode hp cp b b' :
  mode_set c r hz mode hp cp -> rx_idle (output b) -> Forall crtc_regs_ok (writes b) -> writes b' = writes b ++ choice_trace c hz mode hp cp ->
  hardware_shows (Some c) b'.
Proof.
  intros Hm Hi Hg Ew. split.
  { rewrite Ew. apply Forall_app_2; [done|]. apply Forall_app_2; [apply crt_trace_regs|apply hdmi_trace_regs]. }
  exists r, hz, mode, hp, cp. split; [done|]. destruct Hm as [_ _ _ Hf Hh Hc].
  set (b1 := {| writes := writes b ++ crt_trace (crt_mode hz (choice_wide c)) (choice_wide c) cp.1.1 cp.1.2 cp.2;
                pll_io_reads := [] |}).
  destruct (crt_trace_shows hz (choice_wide c) b b1 cp Hc eq_refl) as [H1 H2].
  assert (writes b' = writes b1 ++ hdmi_trace mode hp.1.1 hp.1.2 hp.2) as Ew' by (rewrite Ew; apply app_assoc).
  destruct (hdmi_trace_received mode hp.1.1 hp.1.2 hp.2 (output b1)) as [H3 H4]; [done|by eapply params_k|by rewrite H2|].
  unfold crt_shows, output, controller in *. rewrite Ew', crtc_receive_app, receive_app, crtc_receive_hdmi_trace.
  split_and!; [done|done|]. rewrite H4. by eexists.
Qed.
End hardware.

(** The PLL of the controller will answer [n] waits. *)
Definition pll_answers (n : nat) (b : bus) : Prop :=
  exists polls rest, length polls = n /\ Forall (Forall (fun x => x <> 0)) polls /\ pll_io_reads b = busy_reads polls rest.

Lemma busy_reads_app p1 p2 rest : busy_reads (p1 ++ p2) rest = busy_reads p1 (busy_reads p2 rest).
Proof. apply foldr_app. Qed.

Lemma pll_answers_split n k b :
  pll_answers (n + k) b ->
  exists polls rest, length polls = n /\ Forall (Forall (fun x => x <> 0)) polls /\ pll_io_reads b = busy_reads polls rest /\
    forall b', pll_io_reads b' = rest -> pll_answers k b'.
Proof.
  intros (polls & rest & Hl & Hz & E). exists (take n polls), (busy_reads (drop n polls) rest).
  rewrite <- busy_reads_app, take_drop. split_and!; [rewrite length_take; lia|by apply Forall_take|done|].
  intros b' E'. exists (drop n polls), rest. split_and!; [rewrite length_drop; lia|by apply Forall_drop|done].
Qed.

(** The state after a choice was applied. *)
Definition applied_state (a : app) (g : gfx) (b : bus) (t1 t2 d : list Z) : app :=
  {| screen := g; hw := b; status := status a; statics := with_tmps (with_applied (statics a)) t1 t2;
     test_position := test_position a; video_mode_desc := d; int_ctrl := INT_CTRL_HDMI; rand_state := rand_state a;
     mode := mode a; new_mode := new_mode a |}.

Lemma apply_changes_spec a l c c0 r hz md hp cp n :
  let ch := statics_chosen (statics a) in
  statics_ok (statics a) -> mode_set ch r hz md hp cp ->
  stack l c (screen a) -> (l ++ [c]) !! 0%nat = Some c0 -> l <> [] ->
  (page_front (screen a) = 0 \/ page_front (screen a) = 1) -> pll_answers (8 + n) (hw a) ->
  length (video_mode_desc a) = 32%nat ->
  exists g b t1 t2 d, apply_changes a = Ok (tt, applied_state a g b t1 t2 d) /\
    length t1 = 32%nat /\ length t2 = 10%nat /\ length d = 32%nat /\ cstr d = Ok (mode_text r hz) /\
    stack [set_rect 0 0 (screen_w (choice_wide ch)) (screen_h (choice_wide ch)) c0] c g /\
    flipped (choice_wide ch) g /\ menus g = menus (screen a) /\ inp g = inp (screen a) /\
    writes b = writes (hw a) ++ choice_trace ch hz md hp cp /\ pll_answers n b /\ traced (screen a) g.
Proof.
  intros ch (_ & _ & L1 & L2) [Er Eh Em Hf Ehp Ecp] Hs H0 Hl Hpf Hb Ld.
  change ch.1.1 with (mode_idx (statics a)) in Er. change ch.1.2 with (refresh_idx (statics a)) in Eh.
  assert (wide r && (aspect_idx (statics a) =? 1) = choice_wide ch) as Ew
    by (unfold choice_wide, is_wide; change ch.1.1 with (mode_idx (statics a)); by rewrite Er).
  destruct (pll_answers_split 8 n (hw a) Hb) as (polls & rest & Lp & Hz & Eb & Hrest).
  destruct (set_240p_spec (of_Z F32 hz) (choice_wide ch) l c c0 (screen a) (hw a) polls rest cp)
    as (g & b1 & c' & E1 & Er1 & Ew1 & Hst & Hc & _ & Hfl & _ & Hmn & Hin & Htr); try done.
  pose proof (hdmi_set_mode_runs _ _ _ md hp.1.1 hp.1.2 hp.2 b1 Em ltac:(by destruct hp as [[??]?])) as E2.
  set (b2 := mkBus _ _) in E2.
  destruct (resolution_to_string_spec _ r _ Er L1) as (t1 & E3 & Lt1).
  destruct (refresh_to_string_spec _ hz _ Eh L2) as (t2 & E4 & Lt2).
  destruct (resolution_short _ _ Er) as (_ & _ & S1). destruct (refresh_short _ _ Eh) as (_ & S2).
  pose proof (prints_mode_text r hz S1 S2) as Hp.
  assert (zlen (mode_text r hz) <= 16) as S3 by (unfold mode_text; rewrite !zlen_app; change (zlen (chars " @ ")) with 3; lia).
  pose proof (snprintf_prints (video_mode_desc a) 32 _ _ _ Hp ltac:(unfold PRINTF_MAX_POSSIBLE_BUFFER_SIZE; lia)
    ltac:(unfold zlen; lia) ltac:(unfold PRINTF_MAX_POSSIBLE_BUFFER_SIZE; lia)) as E5.
  exists g, b2, t1, t2, (printed 32 (mode_text r hz) (video_mode_desc a)). split_and!; try done.
  - unfold apply_changes, mbind, M_bind, gets, lift at 1 2, modify, vid, on_bus. rewrite Er, Eh, Ew.
    cbn [screen hw with_int_ctrl]. rewrite E1. cbv beta iota. cbn [screen hw with_int_ctrl with_screen]. rewrite E2.
    cbv beta iota. cbn [statics with_screen with_statics with_applied mode_idx refresh_idx resolution_tmp refresh_tmp with_int_ctrl].
    rewrite E3, E4. unfold lift. cbn [video_mode_desc with_screen with_statics with_int_ctrl]. rewrite E5. done.
  - rewrite length_printed; lia.
  - rewrite cstr_printed by (unfold mode_text, res_text, hz_text; nonzero). f_equal. apply take_ge. unfold zlen in S3. lia.
  - by rewrite (Hc Hl) in Hst.
  - cbn. rewrite Ew1. unfold choice_trace, crt_mode. by rewrite <- app_assoc.
  - apply Hrest. done.
Qed.

(** ** The whole menu *)

Section whole.
Context (g0 : gfx) (p : Z) (Hpage : page_at p g0) (a0 : app) (w : bool).
Abbreviation pressed := (input_pressed (inp g0)).

Lemma menu_items_rule {B} mc0 s tp (k : M app B) Q :
  statics_ok s ->
  let mc := menu_move pressed mc0 in
  let c := after_items g0 mc (statics_chosen s) in
  (forall s', chose s c s' ->
     hoare (at_menu g0 p a0 [{| index := index mc; count := item_count c.1.1; tmp_option_idx := tmp_option_idx mc |}]
              [base w; base w] (menu_shape w 8) s' tp) k Q) ->
  hoare (at_menu g0 p a0 [mc0] [base w] (base w) s tp)
    (ui gfx_clear;; ui (gfx_begin_menu (chars "CONFIG") 28 18 0);; menu_resolution;; menu_refresh;; menu_aspect;;
     ui (gfx_newline 1);; k) Q.
Proof.
  intros Hs mc c Hk. assert (count mc = 0) as Hc0 by done. assert (length [base w; base w] < 6)%nat as Hls by (cbn; lia).
  eapply menu_step; [apply page_clear; [done|by destruct w]|].
  eapply menu_step; [apply (page_begin_menu g0 p Hpage [mc0] [base w] (base w) 0 mc0); [cbn; lia|done|done|done|by destruct w..]|].
  change (at_menu g0 p a0 (<[Z.to_nat 0:=_]> [mc0]) _ (with_line _ _) s tp)
    with (at_menu g0 p a0 [mc] [base w; base w] (menu_shape w 1) s tp).
  eapply seq_exists; [by apply (menu_resolution_rule g0 p Hpage a0 [base w; base w] Hls w mc 1)|]. intros s1 C1.
  rewrite Hc0 in C1. pose proof C1 as (O1 & _ & E1). injection E1 as M1 R1 A1.
  eapply seq_exists; [by apply (menu_refresh_rule g0 p Hpage a0 [base w; base w] Hls w (counted mc) 3)|]. intros s2 C2.
  change (count (counted mc)) with (count mc + 1) in C2. rewrite Hc0, M1, R1, A1 in C2.
  pose proof C2 as (O2 & _ & E2). injection E2 as M2 R2 A2.
  eapply seq_exists; [by apply (menu_aspect_rule g0 p Hpage a0 [base w; base w] Hls w (counted (counted mc)) 5)|]. intros s3 C3.
  change (count (counted (counted mc))) with (count mc + 1 + 1) in C3. rewrite Hc0, M2, R2, A2 in C3.
  eapply menu_step; [apply page_newline; done|].
  assert (chose s c s3) as C by (eapply chose_trans; [|exact C3]; by eapply chose_trans).
  specialize (Hk s3 C). rewrite M2. unfold item_count in Hk. change c.1.1 with (item_option (index mc) pressed 0 12 (mode_idx s)) in Hk.
  unfold counted. cbn [count index tmp_option_idx]. rewrite Hc0.
  destruct (is_wide _); exact Hk.
Qed.
End whole.

(** The menu after the button, which may have moved it to another page. *)
Lemma menu_tail_rule g0 p a0 w ls sb mc n s tp (close : bool) :
  page_at p g0 -> (length (ls ++ [sb]) < 6)%nat -> 0 <= n <= 11 -> 0 <= tp < 2 ->
  let pr := input_pressed (inp g0) in
  hoare (at_menu g0 p a0 [mc] (ls ++ [sb]) (menu_shape w n) s tp)
    (ui (gfx_newline 2);; menu_position;; ui gfx_end_menu;;
     pressed ← gets (fun a => input_pressed (inp (screen a)));
     mret (negb (close || has pressed (INPUT_MENU ||| INPUT_BACK))))
    (fun r a => r = negb (close || has pr (INPUT_MENU ||| INPUT_BACK)) /\
       at_menu g0 p a0 [counted mc] ls sb s (item_option (index mc) pr (count mc) 2 tp) a).
Proof.
  intros Hp Hl Hn Ht pr. eapply menu_step; [apply page_newline; cbn; lia|].
  change (with_line (menu_shape w n) (s_line (menu_shape w n) + 2)) with (menu_shape w (n + 2)).
  eapply hoare_bind; [apply (menu_position_rule g0 p Hp a0 (ls ++ [sb]) Hl w mc (n + 2)); [lia|done]|]. intros u. cbv beta.
  eapply menu_step; [apply page_end_window|]. intros a Ha. eexists _, a. split; [reflexivity|]. split; [|exact Ha].
  destruct Ha as [(l & c & _ & _ & (_ & _ & (_ & _ & _ & _ & _ & Hi) & _)) _]. by rewrite Hi.
Qed.

(** A screen at the start of a frame. *)
Definition ready (w : bool) (mc : MenuContext) (g : gfx) : Prop :=
  flipped w g /\ on_page g (back_page g) [mc] [base w] (base w) g.

(** What a frame of the menu leaves. *)
Definition kept (a a' : app) : Prop :=
  status a' = status a /\ rand_state a' = rand_state a /\ mode a' = mode a /\ new_mode a' = new_mode a /\
  inp (screen a') = inp (screen a).

Definition menu_result (w : bool) (n : nat) (a a' : app) (apply : bool) : Prop :=
  exists mc,
  if apply then
    exists r hz md hp cp g,
      mode_set (statics_chosen (statics a')) r hz md hp cp /\
      length (video_mode_desc a') = 32%nat /\ cstr (video_mode_desc a') = Ok (mode_text r hz) /\
      int_ctrl a' = INT_CTRL_HDMI /\
      writes (hw a') = writes (hw a) ++ choice_trace (statics_chosen (statics a')) hz md hp cp /\ pll_answers n (hw a') /\
      flipped (choice_wide (statics_chosen (statics a'))) g /\ traced (screen a) g /\
      on_page g (back_page g) [mc] [] (base (choice_wide (statics_chosen (statics a')))) (screen a')
  else
    hw a' = hw a /\ video_mode_desc a' = video_mode_desc a /\ int_ctrl a' = int_ctrl a /\
    on_page (screen a) (back_page (screen a)) [mc] [base w] (base w) (screen a').

Lemma ready_page w mc g : ready w mc g -> page_at (back_page g) g /\ menus g = [mc].
Proof. intros [(_ & H & _) (l & c & _ & _ & _ & Hm & _)]. done. Qed.

Lemma menu_move_index pr mc :
  index (menu_move pr {| index := index mc; count := count mc; tmp_option_idx := -1 |}) = index (menu_move pr mc).
Proof. unfold menu_move. by destruct (has pr INPUT_UP), (has pr INPUT_DOWN). Qed.

(** The specification in terms of the items. *)
Lemma menu_spec_items a reset mc0 c1 :
  menus (screen a) = [mc0] ->
  c1 = (if reset : bool then match statics_applied (statics a) with Some c => c | None => (7, 12, 0) end
        else statics_chosen (statics a)) ->
  let pr := input_pressed (inp (screen a)) in
  let mc := menu_move pr mc0 in
  let c := after_items (screen a) mc c1 in
  let button := negb (bool_decide (statics_applied (statics a) = Some c)) in
  let apply := button && (item_count c.1.1 =? index mc) && has pr INPUT_OK in
  let n := if button then item_count c.1.1 + 1 else item_count c.1.1 in
  menu_spec reset pr (settings_of a) =
    ({| chosen := c; applied := if apply then Some c else statics_applied (statics a);
        position := item_option (index mc) pr n 2 (test_position a); selection := index mc; items := n + 1 |}, apply).
Proof.
  intros Hm E1. cbv zeta. unfold menu_spec, settings_of. rewrite Hm. cbn [chosen applied position selection items].
  rewrite <- E1, menu_move_index. destruct c1 as [[m r] x]. reflexivity.
Qed.

(** The end of a frame of the menu, as settings. *)
Lemma settings_at g0 p a0 mc ls sh s tp a :
  at_menu g0 p a0 [mc] ls sh s tp a ->
  settings_of a = {| chosen := statics_chosen s; applied := statics_applied s; position := tp; selection := index mc;
                     items := count mc |}.
Proof. intros [(l & c & _ & _ & (_ & Hm & _)) Ea]. unfold settings_of. rewrite Hm. rewrite Ea. reflexivity. Qed.

Lemma item_option_range sel pr item n i : 0 <= i < n -> 0 <= item_option sel pr item n i < n.
Proof.
  intros Hi. unfold item_option. destruct (item =? sel); [|done]. rewrite option_move_mod by lia. apply Z.mod_pos_bound. lia.
Qed.

Lemma at_menu_start a mc0 w :
  ready w mc0 (screen a) ->
  at_menu (screen a) (back_page (screen a)) a [mc0] [base w] (base w) (statics a) (test_position a) a.
Proof. intros [_ H]. split; [done|]. by destruct a. Qed.

(** What [at_menu] says of the rest of the state. *)
Lemma at_menu_kept g0 p a0 ms ls sh s tp a :
  inp g0 = inp (screen a0) -> at_menu g0 p a0 ms ls sh s tp a ->
  kept a0 a /\ hw a = hw a0 /\ video_mode_desc a = video_mode_desc a0 /\ int_ctrl a = int_ctrl a0 /\
  statics a = s /\ test_position a = tp /\ on_page g0 p ms ls sh (screen a).
Proof.
  intros Hi [Hp Ea]. pose proof Hp as (l & c & _ & _ & (_ & _ & (_ & _ & _ & _ & _ & Hin) & _)).
  split_and!; [|by rewrite Ea..|done]. split_and!; [by rewrite Ea..|congruence].
Qed.

(** The state right after a choice was applied: the old menu, over a new
    screen. *)
Definition apply_result (n : nat) (a1 a2 : app) (mc : MenuContext) (w : bool) : Prop :=
  let c := statics_chosen (statics a1) in
  exists r hz md hp cp, mode_set c r hz md hp cp /\
    statics_ok (statics a2) /\ statics_chosen (statics a2) = c /\ statics_applied (statics a2) = Some c /\
    length (video_mode_desc a2) = 32%nat /\ cstr (video_mode_desc a2) = Ok (mode_text r hz) /\
    int_ctrl a2 = INT_CTRL_HDMI /\ writes (hw a2) = writes (hw a1) ++ choice_trace c hz md hp cp /\
    pll_answers n (hw a2) /\ kept a1 a2 /\ test_position a2 = test_position a1 /\ flipped (choice_wide c) (screen a2) /\
    traced (screen a1) (screen a2) /\
    on_page (screen a2) (back_page (screen a2)) [mc] [base (choice_wide c)] (menu_shape w 10) (screen a2).

Lemma page_traced g0 p ms ls sh g : page_at p g0 -> on_page g0 p ms ls sh g -> traced g0 g.
Proof. intros Hp (l & c & _ & _ & (_ & _ & He & Hd & _)). by apply (draws_traced p). Qed.

Lemma has_shape_resized s c w h :
  has_shape s c -> s_x s = 0 -> s_y s = 0 ->
  has_shape {| s_x := 0; s_y := 0; s_w := w; s_h := h; s_menu := s_menu s; s_line := s_line s |} (set_rect 0 0 w h c).
Proof. intros (H1 & H2 & H3 & H4 & H5 & H6 & H7) _ _. by split_and!. Qed.

Lemma apply_at_menu g0 p a0 mc w s tp n a1 :
  at_menu g0 p a0 [mc] [base w; base w] (menu_shape w 10) s tp a1 ->
  statics_ok s -> (page_front g0 = 0 \/ page_front g0 = 1) -> pll_answers (8 + n) (hw a1) ->
  length (video_mode_desc a1) = 32%nat ->
  exists a2, apply_changes a1 = Ok (tt, a2) /\ apply_result n a1 a2 mc w.
Proof.
  intros Hat Hs Hpf Hb Ld. assert (statics a1 = s) as Es by (destruct Hat as [_ ->]; done).
  destruct Hat as [(l & c & Hl & Hc & (Hst & Hmn & Henv & _)) _].
  apply Forall2_cons_inv_l in Hl as (c0 & l' & H0 & Hl & ->).
  pose proof Hs as (Htab & _). rewrite <- Es in Hs, Htab.
  destruct (mode_set_exists _ Htab) as (r & hz & md & hp & cp & Hms).
  destruct (apply_changes_spec a1 (c0 :: l') c c0 r hz md hp cp n) as
    (g & b & t1 & t2 & d & E & L1 & L2 & L3 & Ed & Hst' & Hfl & Hm & Hi & Ew & Hb' & Htr); try done.
  { destruct Henv as (_ & _ & _ & _ & -> & _). done. }
  exists (applied_state a1 g b t1 t2 d). split; [done|]. exists r, hz, md, hp, cp.
  destruct Hs as (Hs1 & Hs2 & Hs3 & Hs4).
  assert (statics_applied (statics (applied_state a1 g b t1 t2 d)) = Some (statics_chosen (statics a1))) as Hap.
  { unfold statics_applied. cbn. destruct Htab as (Hm0 & _). cbn in Hm0. by rewrite (proj2 (Z.ltb_ge _ _)) by lia. }
  split_and!; try done.
  { split_and!; [done| |done|done]. intros ch Ech. rewrite Hap in Ech. by injection Ech as <-. }
  exists [set_rect 0 0 (screen_w (choice_wide (statics_chosen (statics a1)))) (screen_h (choice_wide (statics_chosen (statics a1)))) c0], c.
  split_and!; [|done|]. { apply Forall2_cons; [|constructor]. by apply (has_shape_resized (base w)). }
  split_and!; [done|cbn; by rewrite Hm|by split_and!|by apply draws_to_same|done].
Qed.

Lemma menu_apply_spec g0 p a0 mc w s tp n a1 :
  page_at p g0 ->
  at_menu g0 p a0 [mc] [base w; base w] (menu_shape w 8) s tp a1 ->
  statics_ok s -> (page_front g0 = 0 \/ page_front g0 = 1) -> pll_answers (8 + n) (hw a0) ->
  length (video_mode_desc a0) = 32%nat ->
  let button := changed s in
  let apply := button && ((count mc =? index mc) && has (input_pressed (inp g0)) INPUT_OK) in
  exists a2, menu_apply a1 = Ok (apply, a2) /\
    if apply then exists a1', at_menu g0 p a0 [counted mc] [base w; base w] (menu_shape w 10) s tp a1' /\
                    apply_result n a1' a2 (counted mc) w
    else at_menu g0 p a0 [if button then counted mc else mc] [base w; base w] (menu_shape w (if button then 10 else 8)) s tp a2.
Proof.
  intros Hp Hat Hs Hpf Hb Ld button apply. assert (statics a1 = s) as Es by (destruct Hat as [_ ->]; done).
  unfold menu_apply, mbind at 1, M_bind at 1, gets. rewrite Es. fold button. destruct button; [|by exists a1].
  destruct (menu_button_rule g0 p Hp a0 [base w; base w] ltac:(cbn; lia) w mc 8 (chars "Apply Video Changes") s tp
    ltac:(lia) ltac:(done) a1 Hat) as (x & a1' & E & -> & Hat').
  unfold mbind at 1, M_bind at 1. rewrite E. unfold apply. cbn [andb]. destruct (_ && _); [|by exists a1'].
  assert (hw a1' = hw a0) as Ehw by (destruct Hat' as [_ ->]; done).
  assert (video_mode_desc a1' = video_mode_desc a0) as Edesc by (destruct Hat' as [_ ->]; done).
  destruct (apply_at_menu g0 p a0 (counted mc) w s tp n a1') as (a2 & E2 & H2); [done|done|done|by rewrite Ehw|by rewrite Edesc|].
  exists a2. split; [|by exists a1']. unfold mbind, M_bind. by rewrite E2.
Qed.

(** The frame of the menu with a choice applied, from the state after it. *)
Lemma draw_menu_applied g0 p a0 mc w s tp n a1 a2 :
  page_at p g0 -> screen a0 = g0 ->
  at_menu g0 p a0 [mc] [base w; base w] (menu_shape w 10) s tp a1 -> apply_result n a1 a2 mc w -> 0 <= tp < 2 ->
  let pr := input_pressed (inp g0) in
  exists a3, 
    (ui (gfx_newline 2);; menu_position;; ui gfx_end_menu;;
     pressed ← gets (fun a => input_pressed (inp (screen a)));
     mret (negb (true || has pressed (INPUT_MENU ||| INPUT_BACK)))) a2 = Ok (false, a3) /\
    settings_of a3 = {| chosen := statics_chosen s; applied := Some (statics_chosen s);
                        position := item_option (index mc) pr (count mc) 2 tp; selection := index mc;
                        items := count mc + 1 |} /\
    statics_ok (statics a3) /\ kept a0 a3 /\ menu_result w n a0 a3 true.
Proof.
  intros Hp E0 Hat (r & hz & md & hp & cp & Hms & Hs & Ech & Eap & Ld & Ed & Eint & Ew & Hb & Hk & Etp & Hfl & Htr & Hpg) Ht pr.
  assert (inp g0 = inp (screen a0)) as Hi by (by rewrite E0).
  destruct (at_menu_kept _ _ _ _ _ _ _ _ _ Hi Hat) as (K1 & Ehw & _ & _ & Es & Et & Hpg1).
  apply (page_traced _ _ _ _ _ _ Hp) in Hpg1. rewrite <- E0 in Hpg1 at 1. pose proof (traced_trans _ _ _ Hpg1 Htr). rewrite Es in *. rewrite Et in Etp.
  set (c := statics_chosen s) in *. set (w' := choice_wide c) in *.
  assert (inp (screen a2) = inp g0) as Hi2 by (destruct Hk as (_ & _ & _ & _ & ->), K1 as (_ & _ & _ & _ & ->); done).
  assert (page_at (back_page (screen a2)) (screen a2)) as Hp2 by (by destruct Hfl as (_ & ? & _)).
  assert (at_menu (screen a2) (back_page (screen a2)) a2 [mc] ([] ++ [base w']) (menu_shape w 10) (statics a2) tp a2) as Hat2.
  { split; [exact Hpg|]. rewrite <- Etp. by destruct a2. }
  destruct (menu_tail_rule _ _ a2 w [] (base w') mc 10 (statics a2) tp true Hp2 ltac:(cbn; lia) ltac:(lia) Ht a2 Hat2)
    as (x & a3 & E & -> & Hat3). cbn [orb negb] in E. exists a3. split; [exact E|]. rewrite Hi2 in Hat3. fold pr in Hat3.
  destruct (at_menu_kept _ _ _ _ _ _ _ _ _ eq_refl Hat3) as (K3 & Ehw3 & Ed3 & Ei3 & Es3 & Et3 & Hpg3).
  split_and!.
  - rewrite (settings_at _ _ _ _ _ _ _ _ _ Hat3). by rewrite Ech, Eap.
  - by rewrite Es3.
  - destruct K1 as (X1 & X2 & X3 & X4 & X5), Hk as (Y1 & Y2 & Y3 & Y4 & Y5), K3 as (Z1 & Z2 & Z3 & Z4 & Z5).
    split_and!; congruence.
  - exists (counted mc), r, hz, md, hp, cp, (screen a2). rewrite Es3, Ech, Ehw3, Ed3, Ei3. fold c w'.
    rewrite Ehw in Ew. by split_and!.
Qed.

Lemma draw_menu_spec a mc0 w n reset :
  ready w mc0 (screen a) -> statics_ok (statics a) -> 0 <= test_position a < 2 ->
  length (video_mode_desc a) = 32%nat -> pll_answers (8 + n) (hw a) ->
  let pr := input_pressed (inp (screen a)) in
  let '(st, apply) := menu_spec reset pr (settings_of a) in
  exists a', draw_menu reset a = Ok (negb (apply || has pr (INPUT_MENU ||| INPUT_BACK)), a') /\
    settings_of a' = st /\ statics_ok (statics a') /\ kept a a' /\ menu_result w n a a' apply.
Proof.
  intros Hr Hs Ht Ld Hb pr. destruct (ready_page _ _ _ Hr) as [Hp Hmn]. pose proof Hr as [((_ & _ & Hpf) & _) _].
  set (g0 := screen a) in *. set (p := back_page g0) in *. set (tp := test_position a) in *.
  set (c1 := if reset then match statics_applied (statics a) with Some c => c | None => (7, 12, 0) end
             else statics_chosen (statics a)).
  pose proof (menu_spec_items a reset mc0 c1 Hmn eq_refl) as Espec. cbv zeta in Espec. fold g0 pr tp in Espec.
  rewrite Espec. clear Espec. set (mc := menu_move pr mc0).
  set (s1 := if reset then reset_choice (statics a) else statics a).
  assert (chose (statics a) c1 s1) as (O1 & A1 & E1).
  { unfold s1, c1. destruct reset; [|by split_and!]. destruct (reset_choice_spec _ Hs) as (? & ? & ?). by split_and!. }
  unfold draw_menu.
  apply (hoare_at (at_menu g0 p a [mc0] [base w] (base w) (statics a) tp)); [by apply at_menu_start|].
  apply hoare_bind with (R := fun _ => at_menu g0 p a [mc0] [base w] (base w) s1 tp).
  { unfold s1. destruct reset; [|by apply hoare_ret]. apply hoare_modify. intros a1 [Hpg Ea]. split; [done|]. by rewrite Ea. }
  intros u. apply (menu_items_rule g0 p Hp a w mc0 s1 tp _ _ O1). cbv zeta. fold pr mc. rewrite E1.
  set (c := after_items g0 mc c1). set (mcA := mkMenuContext _ _ _). intros s2 (O2 & A2 & E2).
  assert (changed s2 = negb (bool_decide (statics_applied (statics a) = Some c))) as Ech
    by (rewrite changed_spec, A2, A1, E2 by done; done).
  intros a2 Hat2. destruct (menu_apply_spec g0 p a mcA w s2 tp n a2 Hp Hat2 O2 Hpf Hb Ld) as (a3 & E3 & H3).
  fold pr in E3, H3. rewrite Ech in E3, H3. change (count mcA) with (item_count c.1.1) in E3, H3.
  change (index mcA) with (index mc) in E3, H3. rewrite andb_assoc in E3, H3. unfold mbind at 1, M_bind at 1. rewrite E3.
  set (button := negb _) in *. destruct (button && _ && _) eqn:Eapply.
  - destruct H3 as (a3' & Hat3 & H3).
    destruct (draw_menu_applied g0 p a (counted mcA) w s2 tp n a3' a3 Hp eq_refl Hat3 H3 Ht) as (a4 & E4 & S4 & O4 & K4 & R4).
    exists false, a4. split; [exact E4|]. split_and!; [done| |done|done|done]. rewrite S4, E2.
    rewrite !andb_true_iff in Eapply. destruct Eapply as [[-> _] _]. done.
  - destruct (menu_tail_rule g0 p a w [base w] (base w) (if button then counted mcA else mcA) (if button then 10 else 8) s2 tp false
      Hp ltac:(cbn; lia) ltac:(by destruct button) Ht a3 H3) as (x & a4 & E4 & -> & Hat4).
    destruct (at_menu_kept _ _ _ _ _ _ _ _ _ eq_refl Hat4) as (K4 & Ehw & Ed & Ei & Es & Et & Hpg).
    eexists _, a4. split; [exact E4|]. split_and!; [done| |by rewrite Es|done|].
    + rewrite (settings_at _ _ _ _ _ _ _ _ _ Hat4), E2, A2, A1. fold pr. by destruct button.
    + eexists. by split_and!.
Qed.
