(* ===== verification/Firmware.v ===== *)
(** * The whole program (firmware/src/main.c, main)

    The invariant of the main loop, kept by every frame whatever the buttons,
    the sensor and the samples, and what follows from it: the program never
    stops, what is on the screen is never drawn on, and the hardware, the
    interrupts and the description all agree with the mode applied. *)

From S2P Require Import Prelude Clock Sampling Input Blitter Float Hdmi HdmiProps Printf Numerals Formats.
From S2P Require Import Util Gfx GfxProps Video Modes Menu Canvas Status Main Screens Config.

(** ** Invariant *)

Definition applied_wide (o : option (Z * Z * Z)) : bool := match o with None => false | Some c => choice_wide c end.

(** The pages, the menu and the stack between two frames. *)
Definition screen_ok (w : bool) (g : gfx) : Prop :=
  pages_set w g /\ exists mc l c, menus g = [mc] /\ stack l c g /\ Forall (has_shape (base w)) (l ++ [c]).

(** The text of the description. *)
Definition describes (o : option (Z * Z * Z)) (d : list Z) : Prop :=
  length d = 32%nat /\
  match o with
  | None => cstr d = Ok (chars "MiSTer Default")
  | Some c => exists r hz, aget hdmi_resolutions c.1.1 = Ok r /\ aget hdmi_refresh_rates c.1.2 = Ok hz /\
                cstr d = Ok (mode_text r hz)
  end.

Definition interrupts_for (o : option (Z * Z * Z)) : Z := match o with None => INT_CTRL_START | Some _ => INT_CTRL_HDMI end.

Definition app_ok (r0 : vio_rx) (q0 : crtc_rx) (a : app) : Prop :=
  let o := statics_applied (statics a) in
  screen_ok (applied_wide o) (screen a) /\ status_ok (status a) /\ statics_ok (statics a) /\
  0 <= test_position a < 2 /\ describes o (video_mode_desc a) /\ int_ctrl a = interrupts_for o /\
  hardware_shows r0 q0 o (hw a).

(** What a frame may read: arrays of their sizes, and if there is a new sample
    a history that has one. *)
Definition env_ok (e : frame_env) : Prop :=
  length (ms_str1 e) = 16%nat /\ length (ms_str2 e) = 16%nat /\ length (tmp_mode e) = 40%nat /\
  length (tmp_version e) = 40%nat /\ is_u32 (core_version e) /\
  (e_status e = NEW_SAMPLE ->
     length (e_samples e) = 16%nat /\ 0 < e_idx e /\ Forall is_u32 (e_samples e) /\ is_u32 (e_latest e)).

(** ** The start of a frame *)

Definition polled (e : frame_env) (a : app) : Input := input_poll (port e) (inp (screen a)).
Definition buttons (e : frame_env) (a : app) : Z := input_pressed (polled e a).

Lemma same_env_refl g : same_env g g.
Proof. by split_and!. Qed.

Lemma ready_intro w g c c0 mc :
  flipped w g -> stack [c0] c g -> menus g = [mc] -> has_shape (base w) c0 -> has_shape (base w) c -> ready w mc g.
Proof.
  intros Hf Hs Hm H0 Hc. split; [done|]. exists [c0], c. split_and!; [apply Forall2_cons; [done|constructor]|done|].
  split_and!; [done|done|apply same_env_refl|by apply draws_to_same|done].
Qed.

Lemma frame_start w g i :
  screen_ok w g ->
  exists g1 mc, gfx_pageflip g = Ok (tt, g1) /\ ready w mc (with_input g1 i) /\ menus g = [mc] /\
    page_front g1 = 1 - page_front g /\ tiles g1 = tiles g /\ inp g1 = inp g /\ log g1 = log g ++ [Flipped (tile_ctrl g1)].
Proof.
  intros (Hp & mc & l & c & Hm & Hs & Hsh).
  destruct (lookup_lt_is_Some_2 (l ++ [c]) 0) as [c0 H0]; [rewrite length_app; cbn; lia|].
  destruct (pageflip_spec w l c c0 g Hs H0 Hp) as (g1 & E & Hs1 & Hf & F & T & M1 & I1 & L1).
  pose proof (Forall_lookup_1 _ _ _ _ Hsh H0) as S0. apply Forall_app in Hsh as [_ Sc]. apply Forall_inv in Sc.
  exists g1, mc. split_and!; try done. by apply (ready_intro w _ c c0); [| |cbn; rewrite M1|..].
Qed.

(** The end: whatever was drawn, the screen is in order. *)
Lemma page_screen_ok w g0 p mc ls g :
  pages_set w g0 -> on_page g0 p [mc] ls (base w) g -> Forall (eq (base w)) ls -> screen_ok w g.
Proof.
  intros (P1 & P2 & P3) (l & c & Hl & Hc & (Hs & Hm & (E1 & E2 & E3 & E4 & E5 & E6) & _)) Hb.
  split. { unfold pages_set. by rewrite E2, E3, E5. }
  exists mc, l, c. split_and!; [done|done|]. apply Forall_app. split; [|apply Forall_cons; [done|constructor]]. clear -Hl Hb.
  induction Hl as [|s d ls l Hsd Hl IH]; [constructor|]. apply Forall_cons_iff in Hb as [<- Hb].
  apply Forall_cons; [done|by apply IH].
Qed.

Lemma version_spec e tp g0 p mc ls w g :
  page_at p g0 -> env_ok e -> (length ls < 6)%nat -> 0 <= tp < 2 -> on_page g0 p [mc] ls (base w) g ->
  exists g', draw_version (core_version e) tp (tmp_version e) g = Ok (tt, g') /\ on_page g0 p [mc] ls (base w) g'.
Proof.
  intros Hp (_ & _ & _ & L & Hv & _) Hls Ht Hg.
  destruct (draw_version_page g0 p Hp [mc] ls Hls w tp Ht (core_version e) (tmp_version e) Hv L g Hg) as ([] & g' & E & H).
  by exists g'.
Qed.

(** The state of the screen left alone outside the page being drawn. *)
Definition untouched (g0 : gfx) (g : gfx) : Prop :=
  same_env g0 g /\ draws_to (back_page g0) g0 g /\ forall x, ~ in_page (back_page g0) x -> tiles g x = tiles g0 x.

Lemma on_page_untouched g0 ms ls s g : on_page g0 (back_page g0) ms ls s g -> untouched g0 g.
Proof. intros (l & c & _ & _ & (_ & _ & He & Hd & Ht)). done. Qed.

(** ** The three modes *)

(** The mode after a frame: [close] says that the menu asks to be closed. *)
Definition mode_spec (m : MainMode) (new menu no_sensor close : bool) : MainMode * bool :=
  match m with
  | MODE_SAMPLING =>
      if no_sensor then (MODE_NO_SENSOR, true) else if menu then (MODE_MENU, true) else (MODE_SAMPLING, false)
  | MODE_MENU => if close then (MODE_SAMPLING, true) else (MODE_MENU, false)
  | MODE_NO_SENSOR => if no_sensor then (MODE_NO_SENSOR, new) else (MODE_SAMPLING, true)
  end.

Definition no_sensor (e : frame_env) : bool := has (user_io e) 0x0001.

(** A state with another screen, status, random state and mode. *)
Definition after_frame (a : app) (g : gfx) (st : StatusInfo) (rnd : Z) (m : MainMode * bool) : app :=
  {| screen := g; hw := hw a; status := st; statics := statics a; test_position := test_position a;
     video_mode_desc := video_mode_desc a; int_ctrl := int_ctrl a; rand_state := rnd; mode := m.1; new_mode := m.2 |}.

Lemma sampling_body w mc e a str :
  ready w mc (screen a) -> env_ok e -> status_ok (status a) -> 0 <= test_position a < 2 ->
  cstr (video_mode_desc a) = Ok str -> zlen str <= 31 -> mode a = MODE_SAMPLING ->
  exists g st, 
    frame_sampling e a = Ok (tt, after_frame a g st (rand32 (rand_state a))
      (mode_spec MODE_SAMPLING false (has (input_pressed (inp (screen a))) INPUT_MENU) (no_sensor e) false)) /\
    on_page (screen a) (back_page (screen a)) [mc] [base w] (base w) g /\ status_ok st /\
    sample_status_switch (e_status e) (e_samples e) (e_latest e) (e_idx e) (ms_str1 e) (ms_str2 e) (status a) =
      Ok (st, NO_SAMPLE).
Proof.
  intros Hr (L1 & L2 & L3 & _ & _ & Hn) Hst Ht Ed Hd Hm. destruct (ready_page _ _ _ Hr) as [Hp Hmn].
  destruct (draw_sampling_page (screen a) _ Hp [mc] [base w] ltac:(cbn; lia) w (test_position a) Ht
    (rand32 (rand_state a)) (video_mode_desc a) str (status a) (tmp_mode e) Hst L3 Ed Hd (screen a) (proj2 Hr))
    as ([] & g & Eg & Hg).
  destruct (switch_total (e_status e) (e_samples e) (e_latest e) (e_idx e) (ms_str1 e) (ms_str2 e) (status a)) as (st & Es & Hs');
    [done..|].
  exists g, st. split_and!; [|done..].
  assert (inp g = inp (screen a)) as Hi by (destruct (on_page_untouched _ _ _ _ _ Hg) as [(_ & _ & _ & _ & _ & ?) _]; done).
  unfold frame_sampling, do_sampling_draw, ui, mbind, M_bind, gets, modify, lift.
  cbn [screen with_mode with_rand id rand_state test_position video_mode_desc status]. rewrite Eg.
  cbv beta iota. rewrite Es. cbv beta iota. cbn [screen with_status with_screen]. rewrite Hi, Hm. unfold no_sensor, mode_spec.
  by destruct (has (input_pressed _) INPUT_MENU), (has (user_io e) 1).
Qed.

Lemma no_sensor_body w mc e a :
  ready w mc (screen a) -> mode a = MODE_NO_SENSOR ->
  exists g, frame_no_sensor e a = Ok (tt, after_frame a g (status a) (rand_state a)
      (mode_spec MODE_NO_SENSOR (new_mode a) false (no_sensor e) false)) /\
    on_page (screen a) (back_page (screen a)) [mc] [base w] (base w) g.
Proof.
  intros Hr Hm. destruct (ready_page _ _ _ Hr) as [Hp Hmn].
  destruct (draw_no_sensor_page (screen a) _ Hp [mc] [base w] ltac:(cbn; lia) w (screen a) (proj2 Hr)) as ([] & g & Eg & Hg).
  exists g. split; [|done]. unfold frame_no_sensor, ui, mbind, M_bind, modify, no_sensor.
  destruct a; cbn in *; subst. destruct (has (user_io e) 1); cbn; by rewrite Eg.
Qed.

Lemma pll_answers_weaken n k b : pll_answers (n + k) b -> pll_answers n b.
Proof.
  intros (polls & rest & Hl & Hz & E). exists (take n polls), (busy_reads (drop n polls) rest).
  rewrite <- busy_reads_app, take_drop. split_and!; [rewrite length_take; lia|by apply Forall_take|done].
Qed.

(** ** One frame *)

(** The settings after a frame, and whether a choice was applied. *)
Definition settings_spec (m : MainMode) (reset : bool) (pr : Z) (st : settings) : settings * bool :=
  match m with MODE_MENU => menu_spec reset pr st | _ => (st, false) end.

(** Between the flip and the end of the frame the front page is left alone. *)
Definition untorn (w : bool) (a a' : app) : Prop :=
  exists g1, flipped w g1 /\ page_front g1 = 1 - page_front (screen a) /\ tiles g1 = tiles (screen a) /\
    log g1 = log (screen a) ++ [Flipped (tile_ctrl g1)] /\
    untouched g1 (screen a').

Definition frame_effect (e : frame_env) (a a' : app) : Prop :=
  let pr := buttons e a in
  let step := settings_spec (mode a) (new_mode a) pr (settings_of a) in
  inp (screen a') = polled e a /\ settings_of a' = step.1 /\
  (mode a', new_mode a') =
    mode_spec (mode a) (new_mode a) (has pr INPUT_MENU) (no_sensor e) (step.2 || has pr (INPUT_MENU ||| INPUT_BACK)) /\
  (step.2 = false -> hw a' = hw a /\ untorn (applied_wide (statics_applied (statics a))) a a') /\
  (mode a = MODE_SAMPLING ->
     sample_status_switch (e_status e) (e_samples e) (e_latest e) (e_idx e) (ms_str1 e) (ms_str2 e) (status a) =
       Ok (status a', NO_SAMPLE)) /\
  (mode a <> MODE_SAMPLING -> status a' = status a) /\
  traced (screen a) (screen a').

(** The body of a frame: [a1] is the state after the flip and the poll, and
    [g0], [p] the page that is drawn on at the end. *)
Definition body_effect (r0 : vio_rx) (q0 : crtc_rx) (n : nat) (e : frame_env) (a1 a2 : app) : Prop :=
  let pr := input_pressed (inp (screen a1)) in
  let step := settings_spec (mode a1) (new_mode a1) pr (settings_of a1) in
  let o := statics_applied (statics a2) in
  exists g0 mc ls,
  flipped (applied_wide o) g0 /\ on_page g0 (back_page g0) [mc] ls (base (applied_wide o)) (screen a2) /\
  (length ls < 6)%nat /\ Forall (eq (base (applied_wide o))) ls /\ inp (screen a2) = inp (screen a1) /\
  status_ok (status a2) /\ statics_ok (statics a2) /\ 0 <= test_position a2 < 2 /\ describes o (video_mode_desc a2) /\
  int_ctrl a2 = interrupts_for o /\ hardware_shows r0 q0 o (hw a2) /\ pll_answers (8 * n) (hw a2) /\
  settings_of a2 = step.1 /\
  (mode a2, new_mode a2) =
    mode_spec (mode a1) (new_mode a1) (has pr INPUT_MENU) (no_sensor e) (step.2 || has pr (INPUT_MENU ||| INPUT_BACK)) /\
  traced (screen a1) g0 /\ (step.2 = false -> hw a2 = hw a1 /\ g0 = screen a1) /\
  (mode a1 = MODE_SAMPLING ->
     sample_status_switch (e_status e) (e_samples e) (e_latest e) (e_idx e) (ms_str1 e) (ms_str2 e) (status a1) =
       Ok (status a2, NO_SAMPLE)) /\
  (mode a1 <> MODE_SAMPLING -> status a2 = status a1).

Definition body_code (m : MainMode) (e : frame_env) : M app unit :=
  match m with
  | MODE_SAMPLING => frame_sampling e
  | MODE_MENU => frame_menu
  | MODE_NO_SENSOR => frame_no_sensor e
  end.

Lemma describes_short o d : describes o d -> exists str, cstr d = Ok str /\ zlen str <= 31.
Proof.
  intros [L H]. assert (exists str, cstr d = Ok str) as [str E] by (destruct o; naive_solver).
  exists str. split; [done|]. apply cstr_nonzero in E as [_ E]. unfold zlen. lia.
Qed.

Lemma settings_on_page g0 p mc ls s g a a' :
  on_page g0 p [mc] ls s g -> menus (screen a) = [mc] -> screen a' = g -> statics a' = statics a ->
  test_position a' = test_position a -> settings_of a' = settings_of a.
Proof.
  intros (l & c & _ & _ & (_ & Hm & _)) Hm' Eg Es Et. unfold settings_of. by rewrite Eg, Es, Et, Hm, Hm'.
Qed.

Lemma all_base w : Forall (eq (base w)) [base w].
Proof. apply Forall_cons; [done|constructor]. Qed.

(** Facts of the specification of the menu. *)
Lemma menu_spec_applied reset pr st :
  let '(st', apply) := menu_spec reset pr st in applied st' = if apply then Some (chosen st') else applied st.
Proof.
  unfold menu_spec. destruct (if reset then _ else _) as [[m r] x]. cbn. by destruct (_ && _).
Qed.

Lemma menu_spec_position reset pr st st' apply :
  menu_spec reset pr st = (st', apply) -> 0 <= position st < 2 -> 0 <= position st' < 2.
Proof.
  unfold menu_spec. destruct (if reset then _ else _) as [[m r] x]. intros [= <- _] H. by apply item_option_range.
Qed.

Section body.
Context (r0 : vio_rx) (q0 : crtc_rx) (Hr0 : rx_idle r0) (n : nat) (e : frame_env) (He : env_ok e) (a : app) (mc : MenuContext).
Abbreviation o := (statics_applied (statics a)).
Context (Hr : ready (applied_wide o) mc (screen a)) (Hst : status_ok (status a)) (Hs : statics_ok (statics a))
  (Ht : 0 <= test_position a < 2) (Hd : describes o (video_mode_desc a)) (Hi : int_ctrl a = interrupts_for o)
  (Hh : hardware_shows r0 q0 o (hw a)) (Hb : pll_answers (8 * S n) (hw a)).

Lemma body_sampling : mode a = MODE_SAMPLING -> exists a2, frame_sampling e a = Ok (tt, a2) /\ body_effect r0 q0 n e a a2.
Proof.
  intros Hm. destruct (describes_short _ _ Hd) as (str & Ed & Ld). destruct (ready_page _ _ _ Hr) as [Hp Hmn].
  destruct (sampling_body (applied_wide o) mc e a str) as (g & st & E & Hg & Hst' & Esw); try done.
  eexists. split; [exact E|]. exists (screen a), mc, [base (applied_wide o)].
  replace (8 * S n)%nat with (8 * n + 8)%nat in Hb by lia. apply pll_answers_weaken in Hb. rewrite Hm.
  split_and!; try done; [by apply Hr|cbn; lia|exact (all_base _)| |by apply Ht|by apply Ht| | |by apply traced_same].
  - by destruct (on_page_untouched _ _ _ _ _ Hg) as [(_ & _ & _ & _ & _ & ?) _].
  - by eapply (settings_on_page _ _ mc _ _ g a).
  - cbn. by destruct (no_sensor e), (has _ _).
Qed.

Lemma body_no_sensor : mode a = MODE_NO_SENSOR -> exists a2, frame_no_sensor e a = Ok (tt, a2) /\ body_effect r0 q0 n e a a2.
Proof.
  intros Hm. destruct (ready_page _ _ _ Hr) as [Hp Hmn].
  destruct (no_sensor_body (applied_wide o) mc e a) as (g & E & Hg); try done.
  eexists. split; [exact E|]. exists (screen a), mc, [base (applied_wide o)].
  replace (8 * S n)%nat with (8 * n + 8)%nat in Hb by lia. apply pll_answers_weaken in Hb. rewrite Hm.
  split_and!; try done; [by apply Hr|cbn; lia|exact (all_base _)| |by apply Ht|by apply Ht| | |by apply traced_same].
  - by destruct (on_page_untouched _ _ _ _ _ Hg) as [(_ & _ & _ & _ & _ & ?) _].
  - by eapply (settings_on_page _ _ mc _ _ g a).
  - cbn. by destruct (no_sensor e).
Qed.

(** The menu closes with another mode, or stays. *)
Lemma frame_menu_eq x a1 :
  draw_menu (new_mode a) a = Ok (negb x, a1) -> kept a a1 -> mode a = MODE_MENU ->
  exists a2, frame_menu a = Ok (tt, a2) /\ screen a2 = screen a1 /\ hw a2 = hw a1 /\ status a2 = status a /\
    statics a2 = statics a1 /\ test_position a2 = test_position a1 /\ video_mode_desc a2 = video_mode_desc a1 /\
    int_ctrl a2 = int_ctrl a1 /\
    (mode a2, new_mode a2) = mode_spec MODE_MENU (new_mode a) (has (input_pressed (inp (screen a))) INPUT_MENU) (no_sensor e) x.
Proof.
  intros E (K1 & K2 & K3 & K4 & K5) Hm. unfold frame_menu, mbind, M_bind, gets. rewrite E.
  destruct x; (eexists; split; [reflexivity|]); cbn; rewrite ?K1, ?K3, ?Hm; by split_and!.
Qed.

Lemma body_menu : mode a = MODE_MENU -> exists a2, frame_menu a = Ok (tt, a2) /\ body_effect r0 q0 n e a a2.
Proof.
  intros Hm. replace (8 * S n)%nat with (8 + 8 * n)%nat in Hb by lia.
  pose proof (draw_menu_spec a mc (applied_wide o) (8 * n) (new_mode a) Hr Hs Ht (proj1 Hd) Hb) as H. cbv zeta in H.
  unfold body_effect. rewrite Hm. cbn [settings_spec].
  destruct (menu_spec _ _ _) as [st apply] eqn:Esp. cbn [fst snd].
  destruct H as (a1 & E & Est & Hs1 & K & Hres).
  destruct (frame_menu_eq _ a1 E K Hm) as (a2 & E2 & F1 & F2 & F3 & F4 & F5 & F6 & F7 & F8).
  assert (settings_of a2 = st) as Est2 by (rewrite <- Est; unfold settings_of; by rewrite F1, F4, F5).
  assert (0 <= test_position a2 < 2) as Ht2.
  { rewrite F5. change (test_position a1) with (position (settings_of a1)). rewrite Est. by eapply menu_spec_position. }
  exists a2. split; [exact E2|]. rewrite F1, F2, F3, F4, F6, F7.
  assert (statics_applied (statics a1) = if apply then Some (statics_chosen (statics a1)) else o) as Eo.
  { change (statics_applied (statics a1)) with (applied (settings_of a1)).
    change (statics_chosen (statics a1)) with (chosen (settings_of a1)). rewrite Est.
    pose proof (menu_spec_applied (new_mode a) (input_pressed (inp (screen a))) (settings_of a)) as Hap. by rewrite Esp in Hap. }
  rewrite Eo. destruct Hres as [mc' Hres]. destruct apply.
  - destruct Hres as (r & hz & md & hp & cp & g & Hms & Ld & Ed & Ei & Ew & Hb' & Hfl & Htr & Hpg).
    exists g, mc', []. split_and!; try done; [cbn; lia|by destruct K as (_ & _ & _ & _ & ?)|lia|lia| |].
    + destruct Hms as [Er Eh _ _ _ _]. split; [done|]. by exists r, hz.
    + eapply choice_trace_shows; [exact Hms|by apply (hardware_idle r0 q0 o)|apply Hh|exact Ew].
  - destruct Hres as (Eh & Ed & Ei & Hpg). rewrite Eh, Ed, Ei.
    exists (screen a), mc', [base (applied_wide o)]. rewrite Nat.add_comm in Hb. apply pll_answers_weaken in Hb.
    split_and!; try done; [by apply Hr|cbn; lia|exact (all_base _)|by destruct K as (_ & _ & _ & _ & ?)|lia|lia|by apply traced_same].
Qed.
End body.

Lemma body_spec r0 q0 n e a mc :
  let o := statics_applied (statics a) in
  rx_idle r0 -> env_ok e -> ready (applied_wide o) mc (screen a) -> status_ok (status a) -> statics_ok (statics a) ->
  0 <= test_position a < 2 -> describes o (video_mode_desc a) -> int_ctrl a = interrupts_for o ->
  hardware_shows r0 q0 o (hw a) -> pll_answers (8 * S n) (hw a) ->
  exists a2, body_code (mode a) e a = Ok (tt, a2) /\ body_effect r0 q0 n e a a2.
Proof.
  intros o Hr0 He Hr Hst Hs Ht Hd Hi Hh Hb. destruct (mode a) eqn:Hm; cbn [body_code].
  - by eapply body_no_sensor.
  - by eapply body_sampling.
  - by eapply body_menu.
Qed.

Lemma frame_body e a g1 a2 g3 :
  let a1 := with_screen a (with_input g1 (polled e a)) (hw a) in
  gfx_pageflip (screen a) = Ok (tt, g1) -> inp g1 = inp (screen a) ->
  body_code (mode a) e a1 = Ok (tt, a2) ->
  draw_version (core_version e) (test_position a2) (tmp_version e) (screen a2) = Ok (tt, g3) ->
  frame e a = Ok (tt, with_screen a2 g3 (hw a2)).
Proof.
  intros a1 E1 Ei E2 E3. unfold frame, mbind at 1, M_bind at 1. unfold ui at 1. rewrite E1.
  unfold mbind at 1, M_bind at 1. unfold ui at 1, modify at 1. cbn [screen with_screen hw].
  unfold mbind at 1, M_bind at 1, gets at 1. cbn [mode with_screen].
  assert (with_screen (with_screen a g1 (hw a)) (with_input g1 (input_poll (port e) (inp g1))) (hw a) = a1) as ->
    by (unfold a1, polled; by rewrite Ei).
  unfold body_code in E2. unfold mbind at 1, M_bind at 1. rewrite E2.
  unfold mbind, M_bind, gets, ui. by rewrite E3.
Qed.

(** Every frame returns, keeps the invariant, and does what it should. *)
Lemma frame_spec r0 q0 n e a :
  rx_idle r0 -> app_ok r0 q0 a -> env_ok e -> pll_answers (8 * S n) (hw a) ->
  exists a', frame e a = Ok (tt, a') /\ app_ok r0 q0 a' /\ pll_answers (8 * n) (hw a') /\ frame_effect e a a'.
Proof.
  intros Hr0 (Hscr & Hst & Hs & Ht & Hd & Hi & Hh) He Hb. set (o := statics_applied (statics a)) in *.
  destruct (frame_start _ _ (polled e a) Hscr) as (g1 & mc & E1 & Hr & Hmn & Hpf & Htl & Hin & Hlog).
  set (a1 := with_screen a (with_input g1 (polled e a)) (hw a)).
  destruct (body_spec r0 q0 n e a1 mc) as (a2 & E2 & B); try done.
  destruct B as (g0 & mc' & ls & Hfl & Hpg & Hls & Hall & Hin2 & Hst2 & Hs2 & Ht2 & Hd2 & Hi2 & Hh2 & Hb2 & Est & Em & Htr & Hun & Hsw & Hsw2).
  assert (page_at (back_page g0) g0) as Hp0 by (by destruct Hfl as (_ & ? & _)).
  destruct (version_spec e (test_position a2) g0 _ mc' ls _ _ Hp0 He Hls Ht2 Hpg) as (g3 & E3 & Hpg3).
  exists (with_screen a2 g3 (hw a2)). pose proof (on_page_untouched _ _ _ _ _ Hpg3) as Hu.
  assert (inp g3 = inp (screen a2)) as Hi3.
  { destruct Hu as [(_ & _ & _ & _ & _ & U) _]. apply on_page_untouched in Hpg as [(_ & _ & _ & _ & _ & V) _]. congruence. }
  assert (settings_of a1 = settings_of a) as Es1
    by (unfold settings_of; cbn; destruct Hr as [_ (l & c & _ & _ & (_ & Hm1 & _))]; cbn in Hm1; by rewrite Hm1, Hmn).
  assert (settings_of (with_screen a2 g3 (hw a2)) = settings_of a2) as Es3.
  { destruct Hpg as (l & c & _ & _ & (_ & Hm2 & _)), Hpg3 as (l3 & c3 & _ & _ & (_ & Hm3 & _)).
    unfold settings_of. cbn. by rewrite Hm2, Hm3. }
  split; [by eapply frame_body|]. split; [|split; [done|]].
  - split_and!; try done; [|by apply Ht2..]. eapply page_screen_ok; [by apply Hfl|exact Hpg3|done].
  - unfold frame_effect. change (input_pressed (inp (screen a1))) with (buttons e a) in *.
    change (mode a1) with (mode a) in *. change (new_mode a1) with (new_mode a) in *. rewrite Es1 in *.
    split; [cbn; by rewrite Hi3, Hin2|]. split; [by rewrite Es3|]. split; [done|].
    split; [|split; [done|split; [done|]]].
    + intros Hf. destruct (Hun Hf) as [Eh ->]. split; [done|]. exists (with_input g1 (polled e a)).
      split_and!; try done. by apply Hr.
    + destruct Hr as [Hfl1 _]. destruct (flipped_u16 _ _ Hfl1). eapply traced_trans; [by apply (flip_traced (screen a) (screen a1))|].
      apply (traced_trans _ _ _ Htr). eapply page_traced; [exact Hp0|exact Hpg3].
Qed.

Lemma run_spec r0 q0 es n a :
  rx_idle r0 -> app_ok r0 q0 a -> Forall env_ok es -> pll_answers (8 * (length es + n)) (hw a) ->
  exists a', run es a = Ok (tt, a') /\ app_ok r0 q0 a' /\ pll_answers (8 * n) (hw a').
Proof.
  intros Hr0 Ha Hes. revert a Ha. induction Hes as [|e es He Hes IH]; intros a Ha Hb; [by exists a|].
  destruct (frame_spec r0 q0 (length es + n) e a Hr0 Ha He Hb) as (a1 & E & Ha1 & Hb1 & _).
  destruct (IH a1 Ha1 Hb1) as (a' & E' & Ha'). exists a'. split; [|done]. cbn [run]. unfold mbind, M_bind. by rewrite E.
Qed.

(** ** The start *)

Definition palette_sized (n : nat) (pal : list Z) : Prop := length pal = n.

Lemma set_entry_sized n i x :
  0 <= i < Z.of_nat n -> hoare (palette_sized n) (set_entry i x) (fun _ => palette_sized n).
Proof.
  intros Hi pal Hl. unfold palette_sized in *. exists tt, (<[Z.to_nat i := x]> pal). unfold set_entry.
  rewrite aset_in by lia. split; [done|]. by rewrite length_insert.
Qed.

Lemma set_palette_sized n :
  (128 < n)%nat -> hoare (palette_sized n) set_palette (fun _ => palette_sized n).
Proof.
  intros Hn. unfold set_palette. apply hoare_bind with (R := fun _ => palette_sized n).
  - apply (hoare_for (fun _ => palette_sized n) 16 0). intros i Hi. cbn in Hi.
    assert (0 <= i <<< 1 <= 30) by (rewrite Z.shiftl_mul_pow2 by lia; lia).
    apply hoare_bind with (R := fun _ => palette_sized n); [apply set_entry_sized; lia|]. intros _.
    destruct (aget_is_Ok base_palette i) as [c Ec]; [cbn; lia|]. intros pal Hp. unfold mbind, M_bind, lift. rewrite Ec.
    apply set_entry_sized; [lia|done].
  - intros _. do 10 (apply hoare_bind with (R := fun _ => palette_sized n); [apply set_entry_sized; lia|intros _]).
    apply set_entry_sized. lia.
Qed.

Lemma start_crt : exists cp, pll_params F32 (fmul F32 (mhz_240p (of_Z F32 60) false) (of_Z F32 4)) = Ok cp.
Proof. eexists. vm_compute. reflexivity. Qed.

Lemma start_status : status_ok (status_of_bytes (replicate 72 0)).
Proof.
  split; [split; [reflexivity|split; [|reflexivity]]|].
  - repeat (apply Forall_cons; [reflexivity|]). constructor.
  - repeat (apply Forall_cons; [by exists []|]). constructor.
Qed.

Lemma start_statics : statics_ok statics_init.
Proof. split; [by split_and!|]. split; [done|]. by split. Qed.

Lemma main_start_spec r0 q0 mem b ctrl pal io n :
  writes b = [] -> pll_answers (8 + n) b -> (128 < length pal)%nat ->
  exists a pal', main_start (app_init mem b ctrl, pal, io) = Ok (a, pal', 0xffff) /\ app_ok r0 q0 a /\
    pll_answers n (hw a) /\ mode a = MODE_SAMPLING /\ length pal' = length pal /\ traced (gfx_init mem) (screen a).
Proof.
  intros Hw Hb Hl. destruct (set_palette_sized (length pal) Hl pal eq_refl) as ([] & pal' & Epal & Lpal).
  destruct (pll_answers_split 8 n b Hb) as (polls & rest & Lp & Hz & Eb & Hrest). destruct start_crt as [cp Ecp].
  assert (stack [] context0 (gfx_init mem)) as Hs by by split_and!.
  destruct (set_240p_spec (of_Z F32 60) false [] context0 context0 (gfx_init mem) b polls rest cp)
    as (g & b1 & c' & E1 & Er1 & Ew1 & Hst & _ & Hc & Hfl & _ & Hmn & Hin & Htr);
    [exact Hs|reflexivity|exact Ecp|exact Lp|exact Hz|exact Eb|by left|].
  rewrite (Hc eq_refl) in Hst.
  set (d := chars "MiSTer Default" ++ replicate 18 0). set (st := status_of_bytes (replicate 72 0)).
  exists {| screen := g; hw := b1; status := st; statics := statics_init; test_position := 0; video_mode_desc := d;
            int_ctrl := INT_CTRL_START; rand_state := 0xdeadbeef; mode := MODE_SAMPLING; new_mode := true |}, pal'.
  split; [|split; [|split; [by apply Hrest|by split_and!]]].
  - unfold main_start. change (strcpy _ 0 32) with (Ok (d ++ chars "MiSTer Default" ++ [0])). cbn [mbind result_bind].
    rewrite Epal. cbn [mbind result_bind]. change (memset _ 0 0 status_size) with (@Ok (list Z) (replicate 72 0)).
    cbn [mbind result_bind]. unfold vid. cbn [screen hw with_status with_int_ctrl with_desc app_init]. by rewrite E1.
  - destruct (crt_trace_shows r0 q0 60 false b b1 cp Ecp Ew1) as [H1 H2]. clear Ecp E1 Epal.
    assert (screen_ok false g) as Hscr.
    { split; [by apply Hfl|]. eexists _, _, _. split_and!; [exact Hmn|exact Hst|]. apply Forall_cons; [by split_and!|].
      apply Forall_cons; [by split_and!|constructor]. }
    split; [exact Hscr|]. split; [exact start_status|]. split; [exact start_statics|].
    split; [done|]. split; [by split|]. split; [done|]. split; [change (Forall crtc_regs_ok (writes b1)); rewrite Ew1, Hw; apply crt_trace_regs|]. split; [|exact H1].
    change (output r0 b1 = r0). rewrite H2. unfold output. by rewrite Hw.
Qed.

(** ** The program *)

(** From power on the program never stops: [main] gets through its start
    and every frame of its loop, over any sequence of buttons, sensor states
    and samples, with no fault and no endless loop (as long as the PLL answers
    the writes of a mode change).  And after every frame the picture, the
    description, the interrupt sources and the registers of the two video
    outputs all agree with the mode applied last. *)
Theorem firmware_runs (mem : vmem) (b : bus) (ctrl io : Z) (pal : list Z) (r0 : vio_rx) (q0 : crtc_rx)
    (es : list frame_env) :
  rx_idle r0 -> writes b = [] -> (128 < length pal)%nat -> pll_answers (8 * S (length es)) b -> Forall env_ok es ->
  exists a pal' a',
    main_start (app_init mem b ctrl, pal, io) = Ok (a, pal', 0xffff) /\ run es a = Ok (tt, a') /\
    let o := statics_applied (statics a') in
    screen_ok (applied_wide o) (screen a') /\ describes o (video_mode_desc a') /\ int_ctrl a' = interrupts_for o /\
    hardware_shows r0 q0 o (hw a').
Proof.
  intros Hr Hw Hl Hb Hes. replace (8 * S (length es))%nat with (8 + 8 * (length es + 0))%nat in Hb by lia.
  destruct (main_start_spec r0 q0 mem b ctrl pal io _ Hw Hb Hl) as (a & pal' & E & Ha & Hb1 & _).
  destruct (run_spec r0 q0 es 0 a Hr Ha Hes Hb1) as (a' & E' & (H1 & _ & _ & _ & H2 & H3 & H4) & _).
  exists a, pal', a'. by split_and!.
Qed.

(** A frame with these buttons, the sensor connected and no news. *)
Definition demo_env (buttons : Z) : frame_env :=
  {| port := buttons; user_io := 0; e_status := NO_SAMPLE; e_samples := []; e_latest := 0; e_idx := 0;
     core_version := 241113; ms_str1 := replicate 16 7; ms_str2 := replicate 16 7; tmp_mode := replicate 40 7;
     tmp_version := replicate 40 7 |}.

Lemma demo_env_ok x : env_ok (demo_env x).
Proof. split_and!; done. Qed.

(** Open the menu, go up twice to the button. *)
Definition demo_frames : list frame_env := map demo_env [INPUT_MENU; 0; INPUT_UP; 0; INPUT_UP; 0].
Definition demo_bus : bus := {| writes := []; pll_io_reads := busy_reads (replicate 80 []) [] |}.
Definition demo_crtc : crtc_rx := {| ctrl := fun _ => 0; crtc_pll := [] |}.
Definition demo_start : app * list Z * Z := (app_init (fun _ => 0) demo_bus 0, replicate 256 0, 0).

Lemma demo_frames_ok : Forall env_ok demo_frames.
Proof. repeat (apply Forall_cons; [apply demo_env_ok|]). constructor. Qed.

Lemma demo_answers n : (n <= 80)%nat -> pll_answers n demo_bus.
Proof.
  intros H. apply (pll_answers_weaken n (80 - n)). exists (replicate 80 []), []. split_and!; [rewrite length_replicate; lia| |done].
  apply Forall_replicate. constructor.
Qed.

Lemma firmware_runs_witness :
  exists a pal' a',
    main_start demo_start = Ok (a, pal', 0xffff) /\ run demo_frames a = Ok (tt, a') /\
    let o := statics_applied (statics a') in
    screen_ok (applied_wide o) (screen a') /\ describes o (video_mode_desc a') /\ int_ctrl a' = interrupts_for o /\
    hardware_shows rx0 demo_crtc o (hw a').
Proof.
  apply (firmware_runs (fun _ => 0) demo_bus 0 0 (replicate 256 0) rx0 demo_crtc demo_frames);
    [by split|done|cbn; lia|apply demo_answers; cbn; lia|apply demo_frames_ok].
Defined.

(** C5: A frame refines the specification of the user interface.  From any
    state the program can be in between two frames, whatever the buttons, the
    frame returns and what the user sees changes exactly as [settings_spec]
    and [mode_spec] say: the menu moves its selection and its options in a
    circle, shows the aspect item and the button just when they apply, and
    opens and closes; and losing the sensor ends the measurement. *)
Theorem frame_refines (r0 : vio_rx) (q0 : crtc_rx) (e : frame_env) (a : app) :
  rx_idle r0 -> app_ok r0 q0 a -> env_ok e -> pll_answers 8 (hw a) ->
  let pr := buttons e a in
  let '(st, apply) := settings_spec (mode a) (new_mode a) pr (settings_of a) in
  exists a', frame e a = Ok (tt, a') /\ app_ok r0 q0 a' /\ settings_of a' = st /\
    (mode a', new_mode a') =
      mode_spec (mode a) (new_mode a) (has pr INPUT_MENU) (no_sensor e) (apply || has pr (INPUT_MENU ||| INPUT_BACK)).
Proof.
  intros Hr Ha He Hb. cbv zeta. destruct (frame_spec r0 q0 0 e a Hr Ha He Hb) as (a' & E & Ha' & _ & (_ & Est & Em & _)).
  destruct (settings_spec _ _ _ _) as [st apply]. by exists a'.
Qed.

(** The states after the demonstration frames. *)
Lemma demo_reaches es :
  Forall env_ok es -> (length es < 9)%nat ->
  exists a pal' a', main_start demo_start = Ok (a, pal', 0xffff) /\ run es a = Ok (tt, a') /\
    app_ok rx0 demo_crtc a' /\ pll_answers 8 (hw a').
Proof.
  intros Hes Hl. destruct (main_start_spec rx0 demo_crtc (fun _ => 0) demo_bus 0 (replicate 256 0) 0 72) as
    (a & pal' & E & Ha & Hb & _); [done|apply demo_answers; lia|cbn; lia|].
  replace 72%nat with (8 * (length es + 1) + (64 - 8 * length es))%nat in Hb by lia. apply pll_answers_weaken in Hb.
  destruct (run_spec rx0 demo_crtc es 1 a) as (a' & E' & Ha' & Hb'); [by split|exact Ha|exact Hes|exact Hb|].
  exists a, pal', a'. split; [exact E|]. split; [exact E'|]. exact (conj Ha' Hb').
Qed.

Lemma frame_refines_witness :
  exists a pal' a1, main_start demo_start = Ok (a, pal', 0xffff) /\ run demo_frames a = Ok (tt, a1) /\
    let pr := buttons (demo_env INPUT_OK) a1 in
    let '(st, apply) := settings_spec (mode a1) (new_mode a1) pr (settings_of a1) in
    exists a', frame (demo_env INPUT_OK) a1 = Ok (tt, a') /\ app_ok rx0 demo_crtc a' /\ settings_of a' = st /\
      (mode a', new_mode a') =
        mode_spec (mode a1) (new_mode a1) (has pr INPUT_MENU) (no_sensor (demo_env INPUT_OK))
          (apply || has pr (INPUT_MENU ||| INPUT_BACK)).
Proof.
  destruct (demo_reaches demo_frames demo_frames_ok ltac:(cbn; lia)) as (a & pal' & a1 & E & E1 & Ha & Hb).
  exists a, pal', a1. split; [exact E|]. split; [exact E1|].
  apply (frame_refines rx0 demo_crtc (demo_env INPUT_OK) a1); [by split|exact Ha|apply demo_env_ok|exact Hb].
Defined.

(** C8: Applying a choice in the menu sets that mode.  In the frame in which
    the button is pressed the registers of the HDMI output come to hold the
    timing of the chosen resolution and refresh rate, the CRT controller the
    240p timing at that rate in the chosen shape, both PLLs their parameters;
    the samples are timed from the HDMI frame from then on; the description
    names the mode; and the program is back in the measurement. *)
Theorem choice_applied (r0 : vio_rx) (q0 : crtc_rx) (e : frame_env) (a : app) (st : settings) :
  rx_idle r0 -> app_ok r0 q0 a -> env_ok e -> pll_answers 8 (hw a) -> mode a = MODE_MENU ->
  menu_spec (new_mode a) (buttons e a) (settings_of a) = (st, true) ->
  exists a' r hz md hp cp,
    frame e a = Ok (tt, a') /\ mode_set (chosen st) r hz md hp cp /\
    programmed md (output r0 (hw a')) /\
    ends_with (pll_writes (output r0 (hw a'))) (pll_program hp.1.1 hp.1.2 hp.2) /\
    crt_shows q0 hz (choice_wide (chosen st)) (hw a') /\
    int_ctrl a' = INT_CTRL_HDMI /\ cstr (video_mode_desc a') = Ok (mode_text r hz) /\ mode a' = MODE_SAMPLING.
Proof.
  intros Hr Ha He Hb Hm Hspec. destruct (frame_spec r0 q0 0 e a Hr Ha He Hb) as (a' & E & Ha' & _ & (_ & Est & Em & _)).
  rewrite Hm in Est, Em. cbn [settings_spec] in Est, Em. rewrite Hspec in Est, Em. cbn in Est, Em. injection Em as Em _.
  assert (statics_applied (statics a') = Some (chosen st)) as Eo.
  { change (statics_applied (statics a')) with (applied (settings_of a')). rewrite Est.
    pose proof (menu_spec_applied (new_mode a) (buttons e a) (settings_of a)) as Hap. by rewrite Hspec in Hap. }
  destruct Ha' as (_ & _ & _ & _ & Hd & Hi & Hh). rewrite Eo in Hd, Hi, Hh.
  destruct Hh as (_ & r & hz & md & hp & cp & Hms & Hc & Hp & Hpll). destruct Hd as (_ & r' & hz' & Er & Eh & Ed).
  pose proof (ms_res _ _ _ _ _ _ Hms) as Er'. pose proof (ms_hz _ _ _ _ _ _ Hms) as Eh'.
  rewrite Er in Er'. rewrite Eh in Eh'. injection Er' as ->. injection Eh' as ->. exists a', r, hz, md, hp, cp. by split_and!.
Qed.

(** After the demonstration frames the button is selected. *)
Definition demo_outcome (es : list frame_env) (e : frame_env) : option (bool * (settings * bool)) :=
  match main_start demo_start with
  | Ok (a, _, _) =>
      match run es a with
      | Ok (_, a1) => Some (match mode a1 with MODE_MENU => true | _ => false end,
                            menu_spec (new_mode a1) (buttons e a1) (settings_of a1))
      | Err _ => None
      end
  | Err _ => None
  end.

Lemma demo_outcome_spec es e a pal' x a1 r :
  main_start demo_start = Ok (a, pal', x) -> run es a = Ok (tt, a1) -> demo_outcome es e = Some (true, r) ->
  mode a1 = MODE_MENU /\ menu_spec (new_mode a1) (buttons e a1) (settings_of a1) = r.
Proof. intros E1 E2. unfold demo_outcome. rewrite E1, E2. clear E1 E2. destruct (mode a1); intros [= <-]; done. Qed.

Lemma choice_applied_witness :
  exists a pal' a1 a' r hz md hp cp,
    main_start demo_start = Ok (a, pal', 0xffff) /\ run demo_frames a = Ok (tt, a1) /\
    frame (demo_env INPUT_OK) a1 = Ok (tt, a') /\ mode_set (7, 12, 0) r hz md hp cp /\
    programmed md (output rx0 (hw a')) /\
    ends_with (pll_writes (output rx0 (hw a'))) (pll_program hp.1.1 hp.1.2 hp.2) /\
    crt_shows demo_crtc hz false (hw a') /\
    int_ctrl a' = INT_CTRL_HDMI /\ cstr (video_mode_desc a') = Ok (mode_text r hz) /\ mode a' = MODE_SAMPLING.
Proof.
  destruct (demo_reaches demo_frames demo_frames_ok ltac:(cbn; lia)) as (a & pal' & a1 & E & E1 & Ha & Hb).
  set (st := {| chosen := (7, 12, 0); applied := Some (7, 12, 0); position := 0; selection := 3; items := 5 |}).
  destruct (demo_outcome_spec demo_frames (demo_env INPUT_OK) a pal' _ a1 (st, true) E E1) as [Hm Hspec];
    [vm_compute; reflexivity|].
  destruct (choice_applied rx0 demo_crtc (demo_env INPUT_OK) a1 st) as (a' & r & hz & md & hp & cp & H);
    [by split|exact Ha|apply demo_env_ok|exact Hb|exact Hm|exact Hspec|].
  exists a, pal', a1, a', r, hz, md, hp, cp. split; [exact E|]. split; [exact E1|]. exact H.
Defined.

(** No tearing.  In a frame that does not set a mode, everything is drawn
    on the page that is not shown: the registers of the tile map point to the
    other page than in the last frame, and whatever the tile map fetches on a
    line of the picture, at any position of the beam, is as it was when the
    frame began. *)
Theorem no_tearing (r0 : vio_rx) (q0 : crtc_rx) (e : frame_env) (a a' : app) (hcnt vcnt : Z) :
  rx_idle r0 -> app_ok r0 q0 a -> env_ok e -> pll_answers 8 (hw a) ->
  (settings_spec (mode a) (new_mode a) (buttons e a) (settings_of a)).2 = false -> frame e a = Ok (tt, a') ->
  let mode := mode_240p (applied_wide (statics_applied (statics a))) (of_Z F32 0) in
  0 <= hcnt -> active_line mode vcnt ->
  let cell := fetch_addr (tile_ctrl (screen a')) hcnt vcnt in
  page_front (screen a') = 1 - page_front (screen a) /\ in_page (front_page (screen a')) cell /\
  tiles (screen a') cell = tiles (screen a) cell.
Proof.
  intros Hr Ha He Hb Hno E md Hh Hv. destruct (frame_spec r0 q0 0 e a Hr Ha He Hb) as (x & E' & _ & _ & (_ & _ & _ & Hu & _)).
  rewrite E in E'. injection E' as <-. destruct (Hu Hno) as [_ (g1 & Hf & Hpf & Ht & _ & (He1 & _ & Hun))].
  destruct He1 as (E1 & _ & _ & _ & E5 & _). cbv zeta. unfold front_page. rewrite E1, E5.
  destruct (fetch_front _ g1 hcnt vcnt Hf Hh Hv) as (r & c & Hrr & Hc & ->).
  assert (screen_h (applied_wide (statics_applied (statics a))) <= 30) by (destruct (applied_wide _); cbn; lia).
  assert (in_page (front_page g1) (cell (front_page g1) r c)) as Hin by (unfold in_page, cell, TILE_MAX_W in *; lia).
  split; [done|]. split; [done|]. rewrite Hun, Ht; [done|]. destruct Hf as ((_ & _ & F) & _).
  clear -Hin F. generalize dependent (cell (front_page g1) r c). intros x. unfold in_page, front_page, back_page.
  destruct F as [-> | ->]; cbn; lia.
Qed.

Lemma no_tearing_witness :
  exists a pal' a1 a', main_start demo_start = Ok (a, pal', 0xffff) /\ run demo_frames a = Ok (tt, a1) /\
    frame (demo_env 0) a1 = Ok (tt, a') /\
    let cell := fetch_addr (tile_ctrl (screen a')) 100 50 in
    page_front (screen a') = 1 - page_front (screen a1) /\ in_page (front_page (screen a')) cell /\
    tiles (screen a') cell = tiles (screen a1) cell.
Proof.
  destruct (demo_reaches demo_frames demo_frames_ok ltac:(cbn; lia)) as (a & pal' & a1 & E & E1 & Ha & Hb).
  set (st := {| chosen := (7, 12, 0); applied := None; position := 0; selection := 3; items := 5 |}).
  destruct (demo_outcome_spec demo_frames (demo_env 0) a pal' _ a1 (st, false) E E1) as [Hm Hspec];
    [vm_compute; reflexivity|].
  destruct (frame_spec rx0 demo_crtc 0 (demo_env 0) a1) as (a' & E' & _); [by split|exact Ha|apply demo_env_ok|exact Hb|].
  exists a, pal', a1, a'. split; [exact E|]. split; [exact E1|]. split; [exact E'|].
  apply (no_tearing rx0 demo_crtc (demo_env 0) a1 a' 100 50);
    [by split|exact Ha|apply demo_env_ok|exact Hb|rewrite Hm; cbn [settings_spec]; by rewrite Hspec|exact E'|done|].
  destruct (applied_wide _); cbn; split; done.
Defined.
