(* ===== verification/System.v ===== *)
(** * The program and its interrupts (firmware/src/main.c)

    The interleaved machine of Sampling.v and the frames of Main.v put
    together.  A frame of the main loop runs on the machine, interrupted at
    any access to a shared object; what it draws, which touches none, is done
    in one step at its last access: the reset of [sample_status] in the
    sampling mode, the end of [wait_vblank] in the others.  The outcome and
    the history a frame shows are those the machine holds at that moment. *)

From S2P Require Import Prelude Clock Interrupts Sampling SamplingProps History Input Blitter Float Hdmi HdmiProps.
From S2P Require Import Printf Numerals Formats Util Gfx GfxProps Video Modes Menu Canvas Status Main Screens Config Firmware.

(** ** The machine *)

(** What a frame reads, the sampling state being that of the machine. *)
Definition env_of (e : frame_env) (w : world) : frame_env :=
  {| port := port e; user_io := user_io e; e_status := mem w sample_status; e_samples := ring_in w;
     e_latest := mem w latest_sample; e_idx := mem w sample_idx; core_version := core_version e;
     ms_str1 := ms_str1 e; ms_str2 := ms_str2 e; tmp_mode := tmp_mode e; tmp_version := tmp_version e |}.

(** The sizes of the arrays, and the version register. *)
Definition inputs_ok (e : frame_env) : Prop :=
  length (ms_str1 e) = 16%nat /\ length (ms_str2 e) = 16%nat /\ length (tmp_mode e) = 40%nat /\
  length (tmp_version e) = 40%nat /\ is_u32 (core_version e).

Definition frame_of_mode (m : MainMode) : prog op unit :=
  match m with MODE_SAMPLING => sampling_frame | _ => other_frame end.

Definition draws (m : MainMode) (c : config (W := world) (Op := op)) : bool :=
  match main_store c, m with
  | Some (sample_status, x), MODE_SAMPLING => x =? NO_SAMPLE
  | Some (vblank_count, _), (MODE_MENU | MODE_NO_SENSOR) => true
  | _, _ => false
  end.

(** The state: the machine, the globals of the drawing side, and how many
    frames were drawn. *)
Record sys : Type := Sys { scfg : config (W := world) (Op := op); sapp : app; drawn : nat }.

Abbreviation msched1 := (sched1 exec advance vblank_seen handlers frames).

(** Time passes, an interrupt arrives, or a handler runs. *)
Definition from_outside (ch : choice) (c : config (W := world) (Op := op)) : Prop :=
  match ch with CTime _ | CIrq _ => True | CRun => cstack c <> [] | CWake _ => False end.

Inductive sys_step : sys -> sys -> Prop :=
  | sys_interrupt ch c c' a n :
      from_outside ch c -> msched1 ch c = Some c' -> sys_step (Sys c a n) (Sys c' a n)
  | sys_wake w a n :
      vblank_seen w = true ->
      sys_step (Sys (Config None [] w) a n) (Sys (Config (Some (frame_of_mode (mode a))) [] w) a n)
  | sys_main c c' a n :
      cstack c = [] -> draws (mode a) c = false -> msched1 CRun c = Some c' -> sys_step (Sys c a n) (Sys c' a n)
  | sys_draw e c c' a a' n :
      draws (mode a) c = true -> msched1 CRun c = Some c' -> inputs_ok e ->
      Main.frame (env_of e (cworld c)) a = Ok (tt, a') -> sys_step (Sys c a n) (Sys c' a' (S n)).

Definition sys_start (a : app) : sys := Sys (Config None [] world0) a 0.

(** ** It is the machine of the measurement *)

Lemma frame_of_mode_in m : frame_of_mode m ∈ frames.
Proof. unfold frames. destruct m; set_solver. Qed.

Lemma sys_step_machine s s' : sys_step s s' -> mstep (scfg s) (scfg s').
Proof.
  destruct 1; cbn; try by eapply sched1_step. constructor; [done|apply frame_of_mode_in].
Qed.

Lemma sys_reachable a s : rtc sys_step (sys_start a) s -> mreachable world0 (scfg s).
Proof.
  revert s. apply (rtc_ind_r (fun s => mreachable world0 (scfg s))); [constructor|].
  intros s s' _ Hs IH. eapply rtc_r; [exact IH|by apply sys_step_machine].
Qed.

Lemma draws_outcome m c : mreachable world0 c -> draws m c = true -> History.outcome (cworld c).
Proof.
  intros Hr Hd. unfold draws in Hd. destruct (main_store c) as [[v x]|] eqn:E; [|done].
  apply (reachable_outcome c v x Hr E). destruct v; try done; [by left|]. right. split; [done|].
  destruct m; try done. by apply Z.eqb_eq.
Qed.

Definition few (w : world) : Prop := zlen (recorded w) < 2 ^ 32.

Lemma env_of_ok e w : inputs_ok e -> History.outcome w -> few w -> env_ok (env_of e w).
Proof.
  intros (H1 & H2 & H3 & H4 & H5) [(Hi & Hr & Hu) Hn] Hf. split_and!; try done; [by apply H5..|].
  cbn. intros Hs. destruct (Hn Hs) as [h Eh]. assert (0 < zlen (recorded w)) as H0.
  { rewrite Eh. unfold zlen. rewrite length_app. cbn. lia. }
  rewrite Hi, Hr, ring_of_length. unfold few, zlen in *. split_and!; [done|rewrite u32_small; unfold is_u32; lia| |].
  - by apply ring_of_Forall.
  - rewrite Eh in Hu. by apply Forall_app in Hu as [_ [Hu _]%Forall_cons_1].
Qed.

Section invariant.
Context (r0 : vio_rx) (q0 : crtc_rx) (Hr0 : rx_idle r0) (N : nat) (a0 : app).
Context (Ha0 : app_ok r0 q0 a0) (Hb0 : pll_answers (8 * S N) (hw a0)).

Definition sys_ok (s : sys) : Prop :=
  (drawn s <= N)%nat -> few (cworld (scfg s)) ->
  app_ok r0 q0 (sapp s) /\ pll_answers (8 * S (N - drawn s)) (hw (sapp s)).

Lemma sys_ok_reachable s : rtc sys_step (sys_start a0) s -> sys_ok s.
Proof.
  revert s. apply rtc_ind_r; [unfold sys_ok; cbn; by rewrite Nat.sub_0_r|].
  intros s s' Hr Hs IH Hd Hf.
  assert (few (cworld (scfg s))) as Hf0.
  { apply sys_step_machine, recorded_mono, prefix_length in Hs. unfold few, zlen in *. lia. }
  pose proof (sys_reachable _ _ Hr) as Hm. destruct Hs as [ch c c' a n _ _|w a n _|c c' a n _ _ _|e c c' a a' n D _ He E];
    cbn [scfg sapp drawn] in *; try by apply IH.
  destruct IH as [Ha Hb]; [cbn; lia|done|]. cbn [scfg sapp drawn] in Ha, Hb.
  replace (N - n)%nat with (S (N - S n)) in Hb by lia.
  destruct (frame_spec r0 q0 (S (N - S n)) (env_of e (cworld c)) a Hr0 Ha) as (x & Ex & Hx & Hbx & _);
    [by apply env_of_ok; [|eapply draws_outcome|]|exact Hb|]. rewrite E in Ex. injection Ex as <-. done.
Qed.

(** Where a frame is drawn it returns, with the effects of [frame_effect]. *)
Lemma draw_returns s e :
  rtc sys_step (sys_start a0) s -> (drawn s <= N)%nat -> few (cworld (scfg s)) ->
  draws (mode (sapp s)) (scfg s) = true -> inputs_ok e ->
  let e' := env_of e (cworld (scfg s)) in
  exists a', Main.frame e' (sapp s) = Ok (tt, a') /\ app_ok r0 q0 a' /\ frame_effect e' (sapp s) a'.
Proof.
  intros Hr Hd Hf D He e'. destruct (sys_ok_reachable s Hr Hd Hf) as [Ha Hb].
  destruct (frame_spec r0 q0 (N - drawn s) e' (sapp s) Hr0 Ha) as (a' & E & Ha' & _ & Hfx); [|done|by exists a'].
  apply env_of_ok; [done| |done]. by eapply draws_outcome; [eapply sys_reachable|].
Qed.
End invariant.

(** C3: the whole program, interrupted at any moment, never stops.  From power
    on [main] gets through its start; then, in every interleaving of its loop
    with the interrupts, whatever the pad, the user port and the version
    register read, every frame that is drawn returns, with no fault and no
    endless loop, and the picture, the description, the interrupt sources and
    the registers of the two video outputs agree with the mode applied last.
    (The PLL answers the writes of [N] mode changes, and fewer than 2^32
    samples were recorded: fifty years.) *)
Theorem system_runs (m : vmem) (b : bus) (ctrl io : Z) (pal : list Z) (r0 : vio_rx) (q0 : crtc_rx) (N : nat) :
  rx_idle r0 -> writes b = [] -> (128 < length pal)%nat -> pll_answers (8 * S (S N)) b ->
  exists a0 pal',
    main_start (app_init m b ctrl, pal, io) = Ok (a0, pal', 0xffff) /\
    forall s, rtc sys_step (sys_start a0) s -> (drawn s <= N)%nat -> few (cworld (scfg s)) ->
      let a := sapp s in
      let o := statics_applied (statics a) in
      (screen_ok (applied_wide o) (screen a) /\ describes o (video_mode_desc a) /\ int_ctrl a = interrupts_for o /\
       hardware_shows r0 q0 o (hw a)) /\
      (draws (mode a) (scfg s) = true -> forall e, inputs_ok e ->
         exists a', Main.frame (env_of e (cworld (scfg s))) a = Ok (tt, a')).
Proof.
  intros Hr Hw Hl Hb. replace (8 * S (S N))%nat with (8 + 8 * S N)%nat in Hb by lia.
  destruct (main_start_spec r0 q0 m b ctrl pal io _ Hw Hb Hl) as (a0 & pal' & E & Ha & Hb1 & _).
  exists a0, pal'. split; [exact E|]. intros s Hs Hd Hf. cbv zeta. split.
  - by destruct (sys_ok_reachable r0 q0 Hr N a0 Ha Hb1 s Hs Hd Hf) as [(H1 & _ & _ & _ & H2 & H3 & H4) _].
  - intros D e He. destruct (draw_returns r0 q0 Hr N a0 Ha Hb1 s e Hs Hd Hf D He) as (a' & E' & _). by exists a'.
Qed.

Lemma sum_perm h h' : h ≡ₚ h' -> sum h = sum h'.
Proof. unfold sum. induction 1; cbn; lia. Qed.

(** C4: what is measured is shown.  In every interleaving, when a frame ends
    with a new sample, [d] is the last one recorded, and the frame leaves a
    status window whose lines read [d] and the mean, the minimum and the
    maximum of the last sixteen samples recorded, or of all of them (if they
    are below a second). *)
Theorem sample_shown (r0 : vio_rx) (q0 : crtc_rx) (N : nat) (a0 : app) (s : sys) (e : frame_env) :
  rx_idle r0 -> app_ok r0 q0 a0 -> pll_answers (8 * S N) (hw a0) ->
  rtc sys_step (sys_start a0) s -> (drawn s <= N)%nat -> few (cworld (scfg s)) ->
  mode (sapp s) = MODE_SAMPLING -> draws MODE_SAMPLING (scfg s) = true -> inputs_ok e ->
  let w := cworld (scfg s) in
  let r := recent (recorded w) in
  mem w sample_status = NEW_SAMPLE -> Forall (fun t => 0 <= t < CLOCK_REF_HZ) r ->
  exists a' h d mn mx,
    Main.frame (env_of e w) (sapp s) = Ok (tt, a') /\ recorded w = h ++ [d] /\
    Forall2 reads (lines (status a'))
      [line_text "Cur: " d; line_text "Avg: " (sum r / zlen r); line_text "Min: " mn; line_text "Max: " mx] /\
    mn ∈ r /\ mx ∈ r /\ Forall (fun t => mn <= t <= mx) r.
Proof.
  intros Hr Ha Hb Hs Hd Hf Hm D He w r Hn Hh. rewrite <- Hm in D.
  destruct (draw_returns r0 q0 Hr N a0 Ha Hb s e Hs Hd Hf D He) as (a' & E & (_ & [Hok _] & _) & Hfx).
  pose proof (draws_outcome _ _ (sys_reachable _ _ Hs) D) as [(Hi & Hri & Hu) Hl]. fold w in Hi, Hri, Hu, Hl, E, Hfx.
  destruct (Hl Hn) as [h Eh]. destruct Hfx as (_ & _ & _ & _ & Hsw & _). specialize (Hsw Hm).
  destruct (sys_ok_reachable r0 q0 Hr N a0 Ha Hb s Hs Hd Hf) as [(_ & [Hw _] & _) _].
  assert (Z.to_nat (mem w sample_idx) = length (recorded w)) as Ei.
  { rewrite Hi. unfold few, zlen in *. fold w in Hf. rewrite u32_small by (unfold is_u32; lia). lia. }
  assert (0 < mem w sample_idx) as Hpos by (rewrite Eh, length_app in Ei; cbn in Ei; lia).
  pose proof (ring_perm (recorded w)) as P. fold r in P. rewrite <- Hri, <- Ei in P.
  destruct He as (L1 & L2 & _). destruct (recent_last h (mem w latest_sample)) as [h' Er]. rewrite <- Eh in Er. fold r in Er.
  destruct (update_sample_status_spec (ring_in w) (mem w latest_sample) (mem w sample_idx) (ms_str1 e) (ms_str2 e)
    (status (sapp s))) as (st & mn & mx & Es & _ & F & _ & M1 & M2 & M3 & _); try done.
  { by rewrite P. }
  { rewrite Er in Hh. by apply Forall_app in Hh as [_ [Hh _]%Forall_cons_1]. }
  unfold sample_status_switch in Hsw. cbn [env_of e_status e_samples e_latest e_idx ms_str1 ms_str2] in Hsw. rewrite Hn in Hsw.
  change (NEW_SAMPLE =? MISSING_SAMPLE) with false in Hsw. change (NEW_SAMPLE =? NEW_SAMPLE) with true in Hsw. cbv iota in Hsw.
  rewrite Es in Hsw. cbn [mbind result_bind] in Hsw. injection Hsw as Est. rewrite Est in F. exists a', h, (mem w latest_sample), mn, mx.
  rewrite (sum_perm _ _ P) in F. unfold zlen in F. rewrite (Permutation_length P) in F. rewrite P in M1, M2, M3. done.
Qed.

(** ** A concrete run *)

(** The machine driven by choices, every frame with the same inputs. *)
Definition sys_choose (e : frame_env) (ch : choice) (s : sys) : option sys :=
  let '(Sys c a n) := s in
  match ch with
  | CWake _ =>
      match c with
      | Config None [] w => if vblank_seen w then Some (Sys (Config (Some (frame_of_mode (mode a))) [] w) a n) else None
      | _ => None
      end
  | CRun =>
      c' ← msched1 CRun c;
      match cstack c with
      | [] => if draws (mode a) c
              then match Main.frame (env_of e (cworld c)) a with Ok (_, a') => Some (Sys c' a' (S n)) | Err _ => None end
              else Some (Sys c' a n)
      | _ => Some (Sys c' a n)
      end
  | _ => c' ← msched1 ch c; Some (Sys c' a n)
  end.

Fixpoint sys_run (e : frame_env) (chs : list choice) (s : sys) : option sys :=
  match chs with
  | [] => Some s
  | ch :: chs => s' ← sys_choose e ch s; sys_run e chs s'
  end.

Lemma sys_choose_step e ch s s' : inputs_ok e -> sys_choose e ch s = Some s' -> sys_step s s'.
Proof.
  intros He. destruct s as [c a n]. unfold sys_choose. destruct ch as [d|i| |i].
  - intros (c' & H & [= <-])%bind_Some. by apply (sys_interrupt (CTime d)).
  - intros (c' & H & [= <-])%bind_Some. by apply (sys_interrupt (CIrq i)).
  - intros (c' & H & E)%bind_Some. destruct (cstack c) eqn:Ec; [|injection E as <-; apply (sys_interrupt CRun); [cbn; by rewrite Ec|done]].
    destruct (draws (mode a) c) eqn:D; [|injection E as <-; by eapply sys_main].
    destruct (Main.frame _ a) as [[[] a']|] eqn:Ef; [|done]. injection E as <-. by eapply sys_draw.
  - destruct c as [[|] [|] w]; try done. destruct (vblank_seen w) eqn:Hw; [|done]. intros [= <-]. by constructor.
Qed.

Lemma sys_run_steps e chs s s' : inputs_ok e -> sys_run e chs s = Some s' -> rtc sys_step s s'.
Proof.
  intros He. revert s. induction chs as [|ch chs IH]; intros s; cbn; [intros [= <-]; constructor|].
  intros (s1 & H1 & H2)%bind_Some. eapply rtc_l; [by eapply sys_choose_step|by apply IH].
Qed.

(** The sample of [demo_schedule], to the end of its last frame. *)
Definition demo_view' (s : sys) : bool * MainMode * Z * list Z * nat :=
  (draws (mode (sapp s)) (scfg s), mode (sapp s), mem (cworld (scfg s)) sample_status, recorded (cworld (scfg s)), drawn s).
Definition demo_system : option (bool * MainMode * Z * list Z * nat) :=
  match main_start demo_start with
  | Ok (a, _, _) => demo_view' <$> sys_run (demo_env 0) (demo_schedule ++ runs 6) (sys_start a)
  | Err _ => None
  end.

Lemma demo_system_spec : demo_system = Some (true, MODE_SAMPLING, NEW_SAMPLE, [165432], 3%nat).
Proof. vm_compute. reflexivity. Qed.

Lemma demo_system_reaches a pal x v :
  main_start demo_start = Ok (a, pal, x) -> demo_system = Some v ->
  exists s, rtc sys_step (sys_start a) s /\ demo_view' s = v.
Proof.
  intros E. unfold demo_system. rewrite E. clear E. intros (s & Hs & ->)%fmap_Some. exists s. split; [|done].
  eapply sys_run_steps; [|exact Hs]. split_and!; done.
Qed.

Lemma demo_inputs_ok : inputs_ok (demo_env 0).
Proof. split_and!; done. Qed.

Lemma system_runs_witness :
  exists a pal' s a',
    main_start demo_start = Ok (a, pal', 0xffff) /\ rtc sys_step (sys_start a) s /\ drawn s = 3%nat /\
    Main.frame (env_of (demo_env 0) (cworld (scfg s))) (sapp s) = Ok (tt, a').
Proof.
  destruct (system_runs (fun _ => 0) demo_bus 0 0 (replicate 256 0) rx0 demo_crtc 8) as (a & pal' & E & H);
    [by split|done|cbn; lia|apply demo_answers; cbn; lia|].
  destruct (demo_system_reaches a pal' _ _ E demo_system_spec) as (s & Hs & Ev). injection Ev as D M S R N.
  destruct (H s Hs) as [_ F]; [rewrite N; lia|unfold few; by rewrite R|].
  destruct (F D (demo_env 0) demo_inputs_ok) as [a' Ef].
  exists a, pal', s, a'. split; [exact E|]. split; [exact Hs|]. split; [exact N|exact Ef].
Defined.

Lemma sample_shown_witness :
  exists a pal' s a' mn mx,
    main_start demo_start = Ok (a, pal', 0xffff) /\ rtc sys_step (sys_start a) s /\
    Main.frame (env_of (demo_env 0) (cworld (scfg s))) (sapp s) = Ok (tt, a') /\
    Forall2 reads (lines (status a'))
      [line_text "Cur: " 165432; line_text "Avg: " 165432; line_text "Min: " mn; line_text "Max: " mx] /\
    mn = 165432 /\ mx = 165432.
Proof.
  destruct (main_start_spec rx0 demo_crtc (fun _ => 0) demo_bus 0 (replicate 256 0) 0 72) as (a1 & pal' & E & Ha & Hb & _);
    [done|apply demo_answers; lia|cbn; lia|]. destruct (demo_system_reaches a1 pal' _ _ E demo_system_spec) as (s & Hs & Ev). injection Ev as D M S R N.
  destruct (sample_shown rx0 demo_crtc 8 a1 s (demo_env 0)) as (a' & h & d & mn & mx & Ef & Er & F & M1 & M2 & _).
  { split; reflexivity. }
  { exact Ha. }
  { exact Hb. }
  { exact Hs. }
  { rewrite N. lia. }
  { unfold few. rewrite R. reflexivity. }
  { exact M. }
  { rewrite M in D. exact D. }
  { exact demo_inputs_ok. }
  { exact S. }
  { rewrite R. apply Forall_cons; [split; [discriminate|reflexivity]|constructor]. }
  rewrite R in Er, F, M1, M2. exists a1, pal', s, a', mn, mx. split; [exact E|]. split; [exact Hs|]. split; [exact Ef|].
  apply (app_inj_2 [] h [165432] [d]) in Er as [_ Er]; [|reflexivity].
  injection Er as <-. apply list_elem_of_singleton in M1, M2. split; [exact F|]. split; [exact M1|exact M2].
Defined.
