(* ===== verification/Crtc.v ===== *)
(** * The CRT controller (rtl/crtc.sv, rtl/jtframe_frac_cen.v)

    The controller as a clocked machine: the fractional divider that enables
    the pixels, the register file, the registers derived from it, and the
    counters of the beam.  What the rest of the library says about the
    registers ([HdmiProps.crtc_rx]) is refined by it, and a frame takes as
    many clocks as the timing of the mode says. *)

From S2P Require Import Prelude Float Hdmi HdmiProps.

(** ** The divider (rtl/jtframe_frac_cen.v, [W] = 2, [cen_in] = 1) *)

Record frac : Type := mkFrac {
  cencnt : Z;
  half : bool;
  edgecnt : Z;
  cen : Z;
  cenb : Z
}.

Definition u11 (x : Z) : Z := x mod 2048.

Definition frac_clock (n m : Z) (f : frac) : frac :=
  let next := u11 (cencnt f + n) in
  let next2 := u11 (next - m) in
  let absmax := u11 (m + n) in
  let over := m <=? next in
  let halfway := (m / 2 <=? next) && negb (half f) in
  let next_edgecnt := (edgecnt f + 1) mod 4 in
  let toggle := next_edgecnt &&& Z.lxor (edgecnt f) 3 in
  let halved := negb (absmax <=? cencnt f) && halfway in
  {| cencnt := if over then next2 else next;
     half := if over then false else if halved then true else half f;
     edgecnt := if over then next_edgecnt else edgecnt f;
     cen := if over then 2 * (toggle mod 2) + 1 else 0;
     cenb := if halved then 1 else 0 |}.

Definition frac_clocks (n m : Z) (k : nat) (f : frac) : frac := Nat.iter k (frac_clock n m) f.

(** ** The controller *)

Record crtc_hw : Type := mkCrtcHw {
  creg : Z -> Z;
  hb_start : Z;
  vb_start : Z;
  hs_start : Z;
  vs_start : Z;
  hs_end : Z;
  vs_end : Z;
  pll_io_req_prev : bool;
  pll_write : bool;
  ce : frac
}.

(** The inputs of a clock. *)
Record crtc_in : Type := mkCrtcIn {
  c_reset : bool;
  c_wr0 : bool;
  c_wr1 : bool;
  c_address : Z;
  c_din : Z
}.

Definition PLL_IO_REG : Z := 15.
Definition HCNT_REG : Z := 16.
Definition VCNT_REG : Z := 17.

Definition u12 (x : Z) : Z := x mod 4096.

Definition cfield (i : Z) (s : crtc_hw) : Z := u12 (creg s i).
Definition hcnt (s : crtc_hw) : Z := cfield HCNT_REG s.
Definition vcnt (s : crtc_hw) : Z := cfield VCNT_REG s.
Definition ce_pixel (s : crtc_hw) : bool := Z.odd (cen (ce s)).

Definition hblank (s : crtc_hw) : bool := (hb_start s <=? hcnt s) || (hcnt s <? cfield 5 s).
Definition hsync (s : crtc_hw) : bool := (hs_start s <=? hcnt s) && (hcnt s <? hs_end s).
Definition vblank (s : crtc_hw) : bool := (vb_start s <=? vcnt s) || (vcnt s <? cfield 9 s).
Definition vsync (s : crtc_hw) : bool := (vs_start s <=? vcnt s) && (vcnt s <? vs_end s).
Definition pll_addr (s : crtc_hw) : Z := creg s 14 mod 64.
Definition pll_value (s : crtc_hw) : Z := creg s 12 * 65536 + creg s 13.

(** A byte-enabled write. *)
Definition word_write (wr0 wr1 : bool) (din old : Z) : Z :=
  256 * ((if wr1 then din else old) / 256) + (if wr0 then din else old) mod 256.

(** The comparison with [hs_end - 1] is made in 32 bits. *)
Definition last_line_pixel (s : crtc_hw) : bool := u32 (hs_end s - 1) <=? hcnt s.
Definition last_frame_line (s : crtc_hw) : bool := u32 (vs_end s - 1) <=? vcnt s.

(** The assignments to an entry of [ctrl], the later ones over the earlier. *)
Definition creg_clock (i : crtc_in) (s : crtc_hw) (j : Z) : Z :=
  let c := creg s j in
  let c := if c_reset i && ((j =? HCNT_REG) || (j =? VCNT_REG)) then 0 else c in
  let c := if (c_wr0 i || c_wr1 i) && (j =? c_address i) then word_write (c_wr0 i) (c_wr1 i) (c_din i) c else c in
  if ce_pixel s then
    if last_line_pixel s then
      if j =? HCNT_REG then 0
      else if j =? VCNT_REG then (if last_frame_line s then 0 else vcnt s + 1)
      else c
    else if j =? HCNT_REG then hcnt s + 1 else c
  else c.

Definition crtc_clock (i : crtc_in) (s : crtc_hw) : crtc_hw :=
  let pll_io_req := c_wr0 i && (c_address i =? PLL_IO_REG) in
  {| creg := creg_clock i s;
     hb_start := u12 (cfield 2 s + cfield 5 s);
     vb_start := u12 (cfield 6 s + cfield 9 s);
     hs_start := u12 (hb_start s + cfield 3 s);
     vs_start := u12 (vb_start s + cfield 7 s);
     hs_end := u12 (hs_start s + cfield 4 s);
     vs_end := u12 (vs_start s + cfield 8 s);
     pll_io_req_prev := pll_io_req;
     pll_write := pll_io_req && negb (pll_io_req_prev s);
     ce := frac_clock (creg s 0 mod 1024) (creg s 1 mod 1024) (ce s) |}.

(** ** Pixels *)

(** The accumulator of the divider is a remainder. *)
Lemma frac_clock_spec n m f :
  0 < n <= m -> m < 1024 -> 0 <= cencnt f < m ->
  cencnt (frac_clock n m f) = (cencnt f + n) mod m /\
  Z.odd (cen (frac_clock n m f)) = (m <=? cencnt f + n).
Proof.
  intros Hn Hm Hc. unfold frac_clock. cbn [cencnt cen]. unfold u11. rewrite (Z.mod_small (cencnt f + n)) by lia.
  destruct (Z.leb_spec m (cencnt f + n)).
  - rewrite Z.mod_small by lia. split.
    + rewrite <- (Z.mod_small (cencnt f + n - m) m) by lia. rewrite <- (Z_mod_plus_full (cencnt f + n - m) 1 m). f_equal. lia.
    + by rewrite Z.odd_add, Z.odd_mul.
  - by rewrite Z.mod_small by lia.
Qed.

(** How many of [k] clocks enable a pixel. *)
Fixpoint enables (n m : Z) (k : nat) (f : frac) : Z :=
  match k with
  | O => 0
  | S k => Z.b2z (Z.odd (cen (frac_clock n m f))) + enables n m k (frac_clock n m f)
  end.

Lemma frac_count n m k f :
  0 < n <= m -> m < 1024 -> 0 <= cencnt f < m ->
  let f' := frac_clocks n m k f in
  cencnt f + Z.of_nat k * n = m * enables n m k f + cencnt f' /\ 0 <= cencnt f' < m.
Proof.
  intros Hn Hm. unfold frac_clocks. revert f. induction k as [|k IH]; intros f Hc; cbv zeta; [cbn; lia|].
  destruct (frac_clock_spec n m f Hn Hm Hc) as [E1 E2]. rewrite Nat.iter_succ_r.
  destruct (IH (frac_clock n m f)) as [E B]; [rewrite E1; apply Z.mod_pos_bound; lia|]. split; [|done].
  cbn [enables]. rewrite E2. rewrite E1 in E. destruct (Z.leb_spec m (cencnt f + n)); cbn [Z.b2z].
  - replace ((cencnt f + n) mod m) with (cencnt f + n - m) in E; [lia|]. 
    apply (Z.mod_unique_pos _ _ 1); lia.
  - rewrite Z.mod_small in E by lia. lia.
Qed.

(** ** The beam *)

Definition htotal (md : VideoMode) : Z := hbp md + hact md + hfp md + hs md.
Definition vtotal (md : VideoMode) : Z := vbp md + vact md + vfp md + vs md.

(** A timing the counters can count. *)
Record countable (md : VideoMode) : Prop := {
  n_h : 0 <= hbp md /\ 0 <= hact md /\ 0 <= hfp md /\ 0 <= hs md;
  n_v : 0 <= vbp md /\ 0 <= vact md /\ 0 <= vfp md /\ 0 <= vs md;
  n_htotal : 0 < htotal md < 4096;
  n_vtotal : 0 < vtotal md < 4096
}.

(** The registers of [crt_set_mode] ([HdmiProps.crt_holds] without the aspect). *)
Definition crtc_set (md : VideoMode) (s : crtc_hw) : Prop :=
  map (creg s) [0; 1; 2; 3; 4; 5; 6; 7; 8; 9] =
    [1; 4; hact md; hfp md; hs md; hbp md; vact md; vfp md; vs md; vbp md].

(** No write, no reset. *)
Definition crtc_idle : crtc_in := {| c_reset := false; c_wr0 := false; c_wr1 := false; c_address := 0; c_din := 0 |}.
Abbreviation crtc_tick := (crtc_clock crtc_idle).

(** The derived registers follow, three clocks later. *)
Record settled (md : VideoMode) (s : crtc_hw) : Prop := {
  t_set : crtc_set md s;
  t_hb : hb_start s = hbp md + hact md;
  t_vb : vb_start s = vbp md + vact md;
  t_hs : hs_start s = hbp md + hact md + hfp md;
  t_vs : vs_start s = vbp md + vact md + vfp md;
  t_he : hs_end s = htotal md;
  t_ve : vs_end s = vtotal md
}.

Lemma crtc_set_keeps md s : crtc_set md s -> crtc_set md (crtc_tick s).
Proof.
  unfold crtc_set. intros H. rewrite <- H. cbn [map crtc_clock creg]. unfold creg_clock. cbn.
  destruct (ce_pixel s), (last_line_pixel s); reflexivity.
Qed.

Section timing.
Context (md : VideoMode) (Hmd : countable md).

Lemma crtc_fields s :
  crtc_set md s ->
  cfield 2 s = hact md /\ cfield 3 s = hfp md /\ cfield 4 s = hs md /\ cfield 5 s = hbp md /\
  cfield 6 s = vact md /\ cfield 7 s = vfp md /\ cfield 8 s = vs md /\ cfield 9 s = vbp md.
Proof.
  intros H. injection H as _ _ E2 E3 E4 E5 E6 E7 E8 E9. unfold cfield. rewrite E2, E3, E4, E5, E6, E7, E8, E9.
  destruct Hmd as [Hh Hv Ht Hu]. unfold htotal, vtotal, u12 in *. rewrite !Z.mod_small by lia. done.
Qed.

(** Whatever the derived registers were. *)
Lemma crtc_settles s : crtc_set md s -> settled md (Nat.iter 3 crtc_tick s).
Proof.
  intros H0. pose proof (crtc_set_keeps _ _ H0) as H1. pose proof (crtc_set_keeps _ _ H1) as H2.
  pose proof (crtc_set_keeps _ _ H2) as H3.
  destruct (crtc_fields _ H0) as (A2 & A3 & A4 & A5 & A6 & A7 & A8 & A9), (crtc_fields _ H1) as (B2 & B3 & B4 & B5 & B6 & B7 & B8 & B9),
    (crtc_fields _ H2) as (C2 & C3 & C4 & C5 & C6 & C7 & C8 & C9).
  destruct Hmd as [Hh Hv Ht Hu]. unfold htotal, vtotal in *.
  assert (forall s, hb_start (crtc_tick s) = u12 (cfield 2 s + cfield 5 s) /\ vb_start (crtc_tick s) = u12 (cfield 6 s + cfield 9 s) /\
    hs_start (crtc_tick s) = u12 (hb_start s + cfield 3 s) /\ vs_start (crtc_tick s) = u12 (vb_start s + cfield 7 s) /\
    hs_end (crtc_tick s) = u12 (hs_start s + cfield 4 s) /\ vs_end (crtc_tick s) = u12 (vs_start s + cfield 8 s)) as T by done.
  change (Nat.iter 3 crtc_tick s) with (crtc_tick (crtc_tick (crtc_tick s))).
  destruct (T s) as (a1 & a2 & _), (T (crtc_tick s)) as (b1 & b2 & b3 & b4 & _), (T (crtc_tick (crtc_tick s))) as (c1 & c2 & c3 & c4 & c5 & c6).
  unfold u12 in *.
  rewrite A2, A5, Z.mod_small in a1 by lia. rewrite A6, A9, Z.mod_small in a2 by lia.
  rewrite B2, B5, Z.mod_small in b1 by lia. rewrite B6, B9, Z.mod_small in b2 by lia.
  rewrite a1, B3, Z.mod_small in b3 by lia. rewrite a2, B7, Z.mod_small in b4 by lia.
  rewrite C2, C5, Z.mod_small in c1 by lia. rewrite C6, C9, Z.mod_small in c2 by lia.
  rewrite b1, C3, Z.mod_small in c3 by lia. rewrite b2, C7, Z.mod_small in c4 by lia.
  rewrite b3, C4, Z.mod_small in c5 by lia. rewrite b4, C8, Z.mod_small in c6 by lia.
  split; [done|..]; unfold htotal, vtotal; lia.
Qed.

Lemma settled_tick s : settled md s -> settled md (crtc_tick s).
Proof.
  intros [H Hb Vb Hs Vs He Ve]. destruct (crtc_fields _ H) as (A2 & A3 & A4 & A5 & A6 & A7 & A8 & A9).
  destruct Hmd as [Hh Hv Ht Hu]. unfold htotal, vtotal in *.
  split; [by apply crtc_set_keeps|cbn..]; rewrite ?Hb, ?Vb, ?Hs, ?Vs, ?A2, ?A3, ?A4, ?A5, ?A6, ?A7, ?A8, ?A9; unfold u12;
    rewrite Z.mod_small by lia; unfold htotal, vtotal; lia.
Qed.

(** The next position of the beam. *)
Definition beam_next (p : Z * Z) : Z * Z :=
  if htotal md - 1 <=? p.1 then (0, if vtotal md - 1 <=? p.2 then 0 else p.2 + 1) else (p.1 + 1, p.2).

Definition beam (s : crtc_hw) : Z * Z := (hcnt s, vcnt s).
Definition on_beam (p : Z * Z) : Prop := 0 <= p.1 < htotal md /\ 0 <= p.2 < vtotal md.

Lemma beam_u12 s : 0 <= hcnt s < 4096 /\ 0 <= vcnt s < 4096.
Proof. unfold hcnt, vcnt, cfield, u12. split; apply Z.mod_pos_bound; lia. Qed.

(** Also from a position outside the frame, as after a change of mode. *)
Lemma tick_beam s : settled md s -> beam (crtc_tick s) = if ce_pixel s then beam_next (beam s) else beam s.
Proof.
  intros [H _ _ _ _ He Ve]. pose proof (beam_u12 s) as [Bh Bv]. destruct Hmd as [_ _ Ht Hu].
  unfold beam, beam_next, hcnt, vcnt, cfield in *. cbn [fst snd] in *.
  cbn [crtc_clock creg]. unfold creg_clock. cbn [c_reset crtc_idle c_wr0 c_wr1 orb andb]. unfold last_line_pixel, last_frame_line.
  change (HCNT_REG =? HCNT_REG) with true. change (VCNT_REG =? HCNT_REG) with false. change (VCNT_REG =? VCNT_REG) with true.
  rewrite He, Ve. unfold hcnt, vcnt, cfield. set (h := u12 (creg s HCNT_REG)) in *. set (v := u12 (creg s VCNT_REG)) in *.
  destruct (ce_pixel s); [|done]. rewrite !u32_small by (unfold is_u32; lia).
  destruct (Z.leb_spec (htotal md - 1) h).
  - destruct (Z.leb_spec (vtotal md - 1) v); [done|]. unfold u12 at 2. by rewrite Z.mod_small by lia.
  - unfold u12 at 1. by rewrite Z.mod_small by lia.
Qed.

Lemma beam_next_on p : on_beam p -> on_beam (beam_next p).
Proof.
  unfold on_beam, beam_next. destruct p as [h v]. cbn. destruct Hmd as [_ _ Ht Hu].
  destruct (Z.leb_spec (htotal md - 1) h), (Z.leb_spec (vtotal md - 1) v); cbn; lia.
Qed.

(** The position as a number, counted through lines and frames. *)
Definition pos (p : Z * Z) : Z := p.2 * htotal md + p.1.
Definition frame_pixels : Z := htotal md * vtotal md.

Lemma pos_range p : on_beam p -> 0 <= pos p < frame_pixels.
Proof. unfold on_beam, pos, frame_pixels. destruct Hmd as [_ _ Ht Hu]. intros [H1 H2]. nia. Qed.

Lemma pos_inj p q : on_beam p -> on_beam q -> pos p = pos q -> p = q.
Proof.
  destruct p as [h v], q as [h' v']. unfold on_beam, pos. cbn. intros [H1 H2] [H3 H4] E. 
  assert (v = v') as -> by nia. f_equal. lia.
Qed.

Lemma pos_next p : on_beam p -> pos (beam_next p) = (pos p + 1) mod frame_pixels.
Proof.
  intros Hp. pose proof (pos_range p Hp) as Hr. unfold on_beam, beam_next, pos, frame_pixels in *. destruct p as [h v]. cbn in *.
  destruct Hmd as [_ _ Ht Hu]. destruct Hp as [H1 H2].
  destruct (Z.leb_spec (htotal md - 1) h) as [E|E]; cbn; [destruct (Z.leb_spec (vtotal md - 1) v) as [E'|E']; cbn|].
  - replace (v * htotal md + h + 1) with (htotal md * vtotal md) by nia. by rewrite Z.mod_same by nia.
  - rewrite Z.mod_small by nia. lia.
  - rewrite Z.mod_small by nia. lia.
Qed.

(** ** A pixel is four clocks *)

(** The next clock moves the beam. *)
Definition boundary (s : crtc_hw) : Prop := cencnt (ce s) = 0 /\ ce_pixel s = true.

Definition crtc_pixel (s : crtc_hw) : crtc_hw := Nat.iter 4 crtc_tick s.

Lemma tick_ce s :
  crtc_set md s -> 0 <= cencnt (ce s) < 4 ->
  cencnt (ce (crtc_tick s)) = (cencnt (ce s) + 1) mod 4 /\ ce_pixel (crtc_tick s) = (4 <=? cencnt (ce s) + 1).
Proof.
  intros H Hc. injection H as E0 E1 _. unfold ce_pixel. cbn [crtc_clock ce]. rewrite E0, E1. by apply frac_clock_spec.
Qed.

(** One clock at phase [c] of the pixel. *)
Lemma tick_phase c b s :
  settled md s -> cencnt (ce s) = c -> ce_pixel s = b -> 0 <= c < 4 ->
  settled md (crtc_tick s) /\ beam (crtc_tick s) = (if b then beam_next (beam s) else beam s) /\
  cencnt (ce (crtc_tick s)) = (c + 1) mod 4 /\ ce_pixel (crtc_tick s) = (4 <=? c + 1).
Proof.
  intros S <- <- Hc. destruct (tick_ce s (t_set _ _ S) Hc) as [C E]. split_and!; [by apply settled_tick|by apply tick_beam|done..].
Qed.

(** A whole pixel, the beam anywhere. *)
Lemma pixel_clocks s :
  settled md s -> boundary s ->
  boundary (crtc_pixel s) /\
  forall j, (1 <= j <= 4)%nat -> settled md (Nat.iter j crtc_tick s) /\ beam (Nat.iter j crtc_tick s) = beam_next (beam s).
Proof.
  intros S0 [C0 E0]. unfold crtc_pixel. cbn [Nat.iter nat_rect].
  destruct (tick_phase 0 true s S0 C0 E0 ltac:(lia)) as (S1 & M1 & C1 & E1). set (s1 := crtc_tick s) in *.
  destruct (tick_phase 1 false s1 S1 C1 E1 ltac:(lia)) as (S2 & M2 & C2 & E2). set (s2 := crtc_tick s1) in *.
  destruct (tick_phase 2 false s2 S2 C2 E2 ltac:(lia)) as (S3 & M3 & C3 & E3). set (s3 := crtc_tick s2) in *.
  destruct (tick_phase 3 false s3 S3 C3 E3 ltac:(lia)) as (S4 & M4 & C4 & E4). set (s4 := crtc_tick s3) in *.
  split; [exact (conj C4 E4)|].
  intros j Hj. assert (j = 1 \/ j = 2 \/ j = 3 \/ j = 4)%nat as [->|[->|[->| ->]]] by lia; cbn [Nat.iter nat_rect];
    fold s1; fold s2; fold s3; fold s4; split; [done|congruence|done|congruence|done|congruence|done|congruence].
Qed.

Record pixel_ok (s : crtc_hw) : Prop := { p_settled : settled md s; p_boundary : boundary s; p_beam : on_beam (beam s) }.

Lemma pixel_step s : pixel_ok s -> pixel_ok (crtc_pixel s) /\ beam (crtc_pixel s) = beam_next (beam s).
Proof.
  intros [S B P]. destruct (pixel_clocks s S B) as [B' H]. destruct (H 4%nat) as [S' M]; [lia|].
  split; [|exact M]. split; [exact S'|done|]. unfold crtc_pixel. rewrite M. by apply beam_next_on.
Qed.

Lemma pixels_pos n s :
  pixel_ok s ->
  pixel_ok (Nat.iter n crtc_pixel s) /\ pos (beam (Nat.iter n crtc_pixel s)) = (pos (beam s) + Z.of_nat n) mod frame_pixels.
Proof.
  intros Hs. induction n as [|n [IH E]].
  - split; [done|]. cbn. rewrite Z.add_0_r, Z.mod_small; [done|]. apply pos_range, Hs.
  - change (Nat.iter (S n) crtc_pixel s) with (crtc_pixel (Nat.iter n crtc_pixel s)). destruct (pixel_step _ IH) as [H1 H2].
    split; [done|]. rewrite H2, pos_next, E by apply IH. rewrite Zplus_mod_idemp_l. f_equal. lia.
Qed.

(** ** Frames *)

(** The blanking as a function of the position. *)
Definition blank_at (p : Z) : bool := (htotal md * (vbp md + vact md) <=? p) || (p <? htotal md * vbp md).

Lemma vblank_pos s : settled md s -> on_beam (beam s) -> vblank s = blank_at (pos (beam s)).
Proof.
  intros [H _ Vb _ _ _ _] [Bh Bv]. destruct (crtc_fields _ H) as (_ & _ & _ & _ & _ & _ & _ & E9). unfold vblank, blank_at, pos.
  rewrite Vb, E9. unfold beam in *. cbn [fst snd] in *. destruct Hmd as [_ _ Ht _]. f_equal; apply eq_true_iff_eq; rewrite ?Z.leb_le, ?Z.ltb_lt; nia.
Qed.

(** How often a signal rises in [k] clocks. *)
Fixpoint rises (f : crtc_hw -> bool) (k : nat) (s : crtc_hw) : Z :=
  match k with
  | O => 0
  | S k => Z.b2z (negb (f s) && f (crtc_tick s)) + rises f k (crtc_tick s)
  end.

Lemma rises_add f j k s : rises f (j + k) s = rises f j s + rises f k (Nat.iter j crtc_tick s).
Proof.
  revert s. induction j as [|j IH]; intros s; [done|]. cbn [Nat.add rises]. rewrite IH, Nat.iter_succ_r. lia.
Qed.

Lemma pixel_rises s :
  pixel_ok s -> rises vblank 4 s = Z.b2z (negb (blank_at (pos (beam s))) && blank_at (pos (beam (crtc_pixel s)))).
Proof.
  intros [S B P]. destruct (pixel_clocks s S B) as [_ H]. pose proof (beam_next_on _ P) as P'.
  assert (forall j, (1 <= j <= 4)%nat -> vblank (Nat.iter j crtc_tick s) = blank_at (pos (beam_next (beam s)))) as V.
  { intros j Hj. destruct (H j Hj) as [Sj Mj]. by rewrite vblank_pos, Mj; [|done|rewrite Mj]. }
  unfold crtc_pixel. rewrite (proj2 (H 4%nat ltac:(lia))), <- (vblank_pos s S P).
  pose proof (V 1%nat ltac:(lia)) as V1. pose proof (V 2%nat ltac:(lia)) as V2. pose proof (V 3%nat ltac:(lia)) as V3.
  pose proof (V 4%nat ltac:(lia)) as V4. cbn [Nat.iter nat_rect] in V1, V2, V3, V4. cbn [rises]. rewrite V1, V2, V3, V4.
  destruct (blank_at _); cbn; lia.
Qed.

(** Among the positions from [a] on, how many of [n] are [b]. *)
Fixpoint hits (b a : Z) (n : nat) : Z :=
  match n with O => 0 | S n => Z.b2z (a mod frame_pixels =? b) + hits b (a + 1) n end.

Lemma hits_count b a n :
  0 <= b < frame_pixels -> hits b a n = (a + Z.of_nat n - 1 - b) / frame_pixels - (a - 1 - b) / frame_pixels.
Proof.
  intros Hb. revert a. induction n as [|n IH]; intros a; cbn [hits]; [rewrite Z.add_0_r; lia|]. rewrite IH.
  replace (a + 1 + Z.of_nat n - 1 - b) with (a + Z.of_nat (S n) - 1 - b) by lia. replace (a + 1 - 1 - b) with (a - b) by lia.
  assert (Z.b2z (a mod frame_pixels =? b) = (a - b) / frame_pixels - (a - 1 - b) / frame_pixels); [|lia].
  pose proof (Z_div_mod_eq_full a frame_pixels) as E. pose proof (Z.mod_pos_bound a frame_pixels ltac:(lia)) as R.
  set (q := a / frame_pixels) in *. set (r := a mod frame_pixels) in *.
  assert ((a - b) / frame_pixels = if b <=? r then q else q - 1) as ->.
  { symmetry. destruct (Z.leb_spec b r); [apply (Z.div_unique_pos _ _ _ (r - b))|apply (Z.div_unique_pos _ _ _ (r - b + frame_pixels))]; lia. }
  assert ((a - 1 - b) / frame_pixels = if b <=? r - 1 then q else q - 1) as ->.
  { symmetry. destruct (Z.leb_spec b (r - 1)); [apply (Z.div_unique_pos _ _ _ (r - 1 - b))|apply (Z.div_unique_pos _ _ _ (r - 1 - b + frame_pixels))]; lia. }
  destruct (Z.eqb_spec r b), (Z.leb_spec b r), (Z.leb_spec b (r - 1)); cbn; lia.
Qed.

Lemma hits_mod b a a' n : a mod frame_pixels = a' mod frame_pixels -> hits b a n = hits b a' n.
Proof.
  revert a a'. induction n as [|n IH]; intros a a' E; [done|]. cbn [hits]. rewrite E, (IH (a + 1) (a' + 1)); [done|].
  by rewrite <- (Zplus_mod_idemp_l a), E, Zplus_mod_idemp_l.
Qed.

Context (Hact : 0 < vact md) (Hblank : 0 < vfp md + vs md).

Lemma blank_rises p :
  0 <= p < frame_pixels ->
  negb (blank_at p) && blank_at ((p + 1) mod frame_pixels) = ((p + 1) mod frame_pixels =? htotal md * (vbp md + vact md)).
Proof.
  intros Hp. destruct Hmd as [_ Hv Ht Hu]. unfold blank_at.
  assert (htotal md * (vbp md + vact md) < frame_pixels) as HB by (unfold frame_pixels, vtotal in *; nia).
  assert (htotal md * vbp md < htotal md * (vbp md + vact md)) as HA by nia.
  assert (0 <= htotal md * vbp md) as H0 by nia.
  set (A := htotal md * vbp md) in *. set (B := htotal md * (vbp md + vact md)) in *.
  assert ((p + 1) mod frame_pixels = if p + 1 =? frame_pixels then 0 else p + 1) as ->.
  { destruct (Z.eqb_spec (p + 1) frame_pixels) as [->|]; [by rewrite Z.mod_same by lia|by rewrite Z.mod_small by lia]. }
  destruct (Z.eqb_spec (p + 1) frame_pixels);
    repeat match goal with |- context [?x <=? ?y] => destruct (Z.leb_spec x y) | |- context [?x <? ?y] => destruct (Z.ltb_spec x y)
                         | |- context [?x =? ?y] => destruct (Z.eqb_spec x y) end; cbn; try done; lia.
Qed.

Lemma frame_rises n s :
  pixel_ok s -> rises vblank (4 * n) s = hits (htotal md * (vbp md + vact md)) (pos (beam s) + 1) n.
Proof.
  revert s. induction n as [|n IH]; intros s Hs; [done|]. replace (4 * S n)%nat with (4 + 4 * n)%nat by lia.
  rewrite rises_add, pixel_rises by done. change (Nat.iter 4 crtc_tick s) with (crtc_pixel s).
  destruct (pixel_step s Hs) as [Hs' M]. pose proof (pos_range _ (p_beam _ Hs)) as R.
  rewrite IH by done. rewrite M, pos_next, blank_rises by (done || apply Hs). cbn [hits]. f_equal.
  apply hits_mod. by rewrite Zplus_mod_idemp_l.
Qed.

(** ** Recovery *)

Lemma recover_h n s :
  settled md s -> boundary s -> htotal md - 1 - hcnt s <= Z.of_nat n ->
  exists k, (k <= S n)%nat /\ pixel_ok (Nat.iter k crtc_pixel s).
Proof.
  revert s. induction n as [|n IH]; intros s S B Hh; destruct (pixel_clocks s S B) as [B' H]; destruct (H 4%nat) as [S' M]; try lia;
    change (Nat.iter 4 crtc_tick s) with (crtc_pixel s) in S', M;
    destruct (Z.leb_spec (htotal md - 1) (hcnt s)) as [Hl|Hl]; try lia.
  1-2: exists 1%nat; split; [lia|]; change (Nat.iter 1 crtc_pixel s) with (crtc_pixel s); split; [done|done|]; rewrite M;
    pose proof (beam_u12 s); destruct Hmd as [_ _ Ht Hu]; unfold on_beam, beam_next, beam; cbn [fst snd];
    rewrite (proj2 (Z.leb_le _ _) Hl); destruct (Z.leb_spec (vtotal md - 1) (vcnt s)); cbn; lia.
  destruct (IH (crtc_pixel s) S' B') as (k & Hk & Hp).
  { change (hcnt (crtc_pixel s)) with (beam (crtc_pixel s)).1. rewrite M. unfold beam_next, beam. cbn [fst snd].
    rewrite (proj2 (Z.leb_gt _ _) Hl). cbn. lia. }
  exists (Datatypes.S k). split; [lia|]. by rewrite Nat.iter_succ_r.
Qed.

Lemma recover_phase n s :
  settled md s -> 0 <= cencnt (ce s) < 4 -> 4 - cencnt (ce s) <= Z.of_nat n ->
  exists k, (k <= n)%nat /\ settled md (Nat.iter k crtc_tick s) /\ boundary (Nat.iter k crtc_tick s).
Proof.
  revert s. induction n as [|n IH]; intros s S Hc Hn; [lia|].
  destruct (tick_phase _ _ s S eq_refl eq_refl Hc) as (S' & _ & C & E). destruct (Z.leb_spec 4 (cencnt (ce s) + 1)) as [Hl|Hl].
  - exists 1%nat. split; [lia|]. split; [done|]. split; [|done]. change (Nat.iter 1 crtc_tick s) with (crtc_tick s).
    rewrite C. replace (cencnt (ce s)) with 3 by lia. done.
  - destruct (IH (crtc_tick s) S') as (k & Hk & H); rewrite ?C, ?Z.mod_small by lia; try lia.
    exists (Datatypes.S k). split; [lia|]. by rewrite Nat.iter_succ_r.
Qed.

Lemma iter_pixels k s : Nat.iter k crtc_pixel s = Nat.iter (4 * k) crtc_tick s.
Proof.
  induction k as [|k IH]; [done|]. replace (4 * S k)%nat with (4 + 4 * k)%nat by lia. rewrite Nat.iter_add, <- IH. done.
Qed.

(** The accumulator may hold anything, as it does when the limit was zero
    until a moment ago: the restart of the divider is overridden by the
    subtraction, which brings it down by three a clock. *)
Lemma recover_divider n s :
  crtc_set md s -> 0 <= cencnt (ce s) < 2048 -> cencnt (ce s) < 4 + 3 * Z.of_nat n ->
  exists k, (k <= n)%nat /\ crtc_set md (Nat.iter k crtc_tick s) /\ 0 <= cencnt (ce (Nat.iter k crtc_tick s)) < 4.
Proof.
  revert s. induction n as [|n IH]; intros s H Hc Hn; [exists 0%nat; split; [lia|]; split; [done|cbn; lia]|].
  destruct (Z.ltb_spec (cencnt (ce s)) 4) as [Hl|Hl]; [exists 0%nat; split; [lia|]; split; [done|cbn; lia]|].
  assert (cencnt (ce (crtc_tick s)) = 0 \/ cencnt (ce (crtc_tick s)) = cencnt (ce s) - 3) as E.
  { pose proof H as F. injection F as E0 E1 _. cbn [crtc_clock ce frac_clock cencnt]. rewrite E0, E1. unfold u11.
    change (1 mod 1024) with 1. change (4 mod 1024) with 4. destruct (Z.eqb_spec (cencnt (ce s)) 2047) as [->|Hne]; [by left|right].
    rewrite (Z.mod_small (cencnt (ce s) + 1)) by lia. rewrite (proj2 (Z.leb_le _ _)), Z.mod_small by lia. lia. }
  destruct (IH (crtc_tick s)) as (k & Hk & P); [by apply crtc_set_keeps|lia|lia|].
  exists (S k). split; [lia|]. by rewrite Nat.iter_succ_r.
Qed.

Lemma phase_recovers s :
  crtc_set md s -> 0 <= cencnt (ce s) < 4 ->
  exists k, Z.of_nat k <= 7 + 4 * htotal md /\ pixel_ok (Nat.iter k crtc_tick s).
Proof.
  intros H Hc. pose proof (crtc_settles s H) as S3.
  assert (0 <= cencnt (ce (Nat.iter 3 crtc_tick s)) < 4) as C3.
  { pose proof (crtc_set_keeps _ _ H) as H1. pose proof (crtc_set_keeps _ _ H1) as H2.
    destruct (tick_ce s H Hc) as [E1 _]. assert (0 <= cencnt (ce (crtc_tick s)) < 4) as C1 by (rewrite E1; apply Z.mod_pos_bound; lia).
    destruct (tick_ce _ H1 C1) as [E2 _]. assert (0 <= cencnt (ce (crtc_tick (crtc_tick s))) < 4) as C2 by (rewrite E2; apply Z.mod_pos_bound; lia).
    destruct (tick_ce _ H2 C2) as [E3 _]. cbn [Nat.iter nat_rect]. rewrite E3. apply Z.mod_pos_bound. lia. }
  destruct (recover_phase 4 _ S3 C3 ltac:(lia)) as (k1 & K1 & S4 & B4). destruct Hmd as [_ _ Ht _].
  destruct (recover_h (Z.to_nat (htotal md - 1)) _ S4 B4) as (k2 & K2 & P); [pose proof (beam_u12 (Nat.iter k1 crtc_tick (Nat.iter 3 crtc_tick s))); lia|].
  exists (4 * k2 + (k1 + 3))%nat. split; [lia|]. rewrite !Nat.iter_add, <- iter_pixels. done.
Qed.

Lemma crtc_recovers s :
  crtc_set md s -> 0 <= cencnt (ce s) < 2048 ->
  exists k, Z.of_nat k <= 689 + 4 * htotal md /\ pixel_ok (Nat.iter k crtc_tick s).
Proof.
  intros H0 Hc0. destruct (recover_divider 682 s H0 Hc0 ltac:(lia)) as (k0 & K0 & H & Hc).
  destruct (phase_recovers _ H Hc) as (k & K & P). exists (k + k0)%nat. split; [lia|]. by rewrite Nat.iter_add.
Qed.
End timing.

Lemma pixels_of md : countable md -> video_mode_pixels md = frame_pixels md.
Proof.
  intros [_ _ Ht Hu]. unfold video_mode_pixels, frame_pixels. rewrite u32_small; unfold is_u32, htotal, vtotal in *; nia.
Qed.

Lemma frame_rises_once md s :
  countable md -> 0 < vact md -> 0 < vfp md + vs md -> pixel_ok md s ->
  rises vblank (Z.to_nat (4 * video_mode_pixels md)) s = 1.
Proof.
  intros Hmd Ha Hb P. pose proof (pos_range md Hmd _ (p_beam _ _ P)).
  replace (Z.to_nat _) with (4 * Z.to_nat (frame_pixels md))%nat by (rewrite pixels_of by done; lia).
  rewrite (frame_rises md Hmd Ha Hb _ s P), hits_count.
  - rewrite Z2Nat.id by lia. set (b := htotal md * _).
    replace (pos md (beam s) + 1 + frame_pixels md - 1 - b) with (pos md (beam s) + 1 - 1 - b + 1 * frame_pixels md) by lia.
    rewrite Z.div_add by lia. lia.
  - destruct Hmd as [_ Hv Ht Hu]. unfold frame_pixels, vtotal in *. nia.
Qed.

(** From a pixel on, frame after frame. *)
Lemma pixel_frames (md : VideoMode) (s : crtc_hw) (n : nat) :
  countable md -> 0 < vact md -> 0 < vfp md + vs md -> pixel_ok md s ->
  let frame := Z.to_nat (4 * video_mode_pixels md) in
  let s' := Nat.iter (n * frame) crtc_tick s in beam s' = beam s /\ rises vblank frame s' = 1.
Proof.
  intros Hmd Ha Hb P frame s'.
  assert (0 < frame_pixels md) as Hf by (destruct Hmd as [_ _ Ht Hu]; unfold frame_pixels; nia).
  assert (frame = 4 * Z.to_nat (frame_pixels md))%nat as Ef by (unfold frame; rewrite pixels_of by done; lia).
  assert (s' = Nat.iter (n * Z.to_nat (frame_pixels md)) crtc_pixel s) as Es.
  { unfold s'. rewrite iter_pixels. f_equal. lia. }
  destruct (pixels_pos md Hmd (n * Z.to_nat (frame_pixels md)) s P) as [P' E]. rewrite <- Es in P', E.
  pose proof (pos_range md Hmd _ (p_beam _ _ P)) as R. split.
  - apply (pos_inj md _ _ (p_beam _ _ P') (p_beam _ _ P)). rewrite E. replace (Z.of_nat _) with (Z.of_nat n * frame_pixels md) by lia.
    rewrite Z_mod_plus_full, Z.mod_small by done. done.
  - by apply frame_rises_once.
Qed.

(** The controller shows the mode it is set to.  Whatever state the
    counters are in when the registers hold the timing of a mode, after one
    line and a few clocks the beam scans the frame, line by line: it returns
    to its position after exactly four clocks for each pixel of the mode, and
    in that time the vertical blanking rises exactly once. *)
Theorem crtc_frames (md : VideoMode) (s : crtc_hw) :
  countable md -> 0 < vact md -> 0 < vfp md + vs md -> crtc_set md s -> 0 <= cencnt (ce s) < 2048 ->
  let frame := Z.to_nat (4 * video_mode_pixels md) in
  exists k, Z.of_nat k <= 689 + 4 * htotal md /\
    forall n, let s' := Nat.iter (n * frame + k) crtc_tick s in
      beam s' = beam (Nat.iter k crtc_tick s) /\ rises vblank frame s' = 1.
Proof.
  intros Hmd Ha Hb H Hc frame. destruct (crtc_recovers md Hmd s H Hc) as (k & Hk & P). exists k. split; [done|]. intros n s'.
  unfold s'. rewrite Nat.iter_add. by apply pixel_frames.
Qed.

(** The 4:3 mode from reset. *)
Definition crt_240p : VideoMode :=
  {| hact := 320; hfp := 8; hs := 32; hbp := 40; vact := 240; vfp := 3; vs := 4; vbp := 6; mhz := of_Z F32 0 |}.
Definition demo_crtc_hw : crtc_hw :=
  {| creg := fun i => nth (Z.to_nat i) [1; 4; 320; 8; 32; 40; 240; 3; 4; 6] 0;
     hb_start := 0; vb_start := 0; hs_start := 0; vs_start := 0; hs_end := 0; vs_end := 0;
     pll_io_req_prev := false; pll_write := false;
     ce := {| cencnt := 0; half := false; edgecnt := 0; cen := 0; cenb := 0 |} |}.

Lemma crtc_frames_witness :
  exists k, Z.of_nat k <= 689 + 4 * 400 /\
    let frame := Z.to_nat (4 * video_mode_pixels crt_240p) in
    forall n, let s' := Nat.iter (n * frame + k) crtc_tick demo_crtc_hw in
      beam s' = beam (Nat.iter k crtc_tick demo_crtc_hw) /\ rises vblank frame s' = 1.
Proof.
  apply (crtc_frames crt_240p demo_crtc_hw); [|done..].
  split; vm_compute; split_and!; discriminate || reflexivity.
Defined.

Lemma crt_240p_countable : countable crt_240p.
Proof. split; vm_compute; split_and!; discriminate || reflexivity. Qed.

(** The first pixel after reset. *)
Definition demo_crtc_pixel : crtc_hw := Nat.iter 4 crtc_tick demo_crtc_hw.

Lemma demo_pixel_ok : pixel_ok crt_240p demo_crtc_pixel.
Proof. split; [split; vm_compute; reflexivity|split; vm_compute; reflexivity|vm_compute; split_and!; discriminate || reflexivity]. Qed.
