(* ===== verification/IntCtrl.v ===== *)
(** * The interrupt controller (rtl/system.sv)

    Three inputs, each one of the picture's vertical blanking, the HDMI
    output's or the light sensor, as it is or inverted, by the register
    [int_ctrl]; a rising edge is remembered until the processor acknowledges
    it.  The processor is not part of the sources: when it acknowledges is an
    input of the model. *)

From S2P Require Import Prelude Float Hdmi Modes Main Crtc.

(** ** The registers and a clock *)

(** The signals: [VBlank], [hdmi_vblank] and [user_in[1]]. *)
Record sources : Type := mkSources {
  src_vblank : bool;
  src_hdmi_vblank : bool;
  src_user : bool
}.

Record irq_hw : Type := mkIrq {
  irq_level : Z;
  irq_flagged : Z -> bool;
  intp_prev : Z -> bool
}.

Definition irq_reset : irq_hw := {| irq_level := 0; irq_flagged := fun _ => false; intp_prev := fun _ => false |}.

(** [intp0_src], [intp1_src], [intp2_src] and [intp]. *)
Definition intp_src (ctrl : Z) (x : sources) (i : Z) : bool :=
  let sel := (ctrl >>> (4 * i)) &&& 7 in
  if sel =? 1 then src_vblank x else if sel =? 2 then src_hdmi_vblank x else if sel =? 3 then src_user x else false.

Definition intp (ctrl : Z) (x : sources) (i : Z) : bool :=
  if Z.testbit ctrl (4 * i + 3) then negb (intp_src ctrl x i) else intp_src ctrl x i.

(** [ack]: the processor is in an acknowledge cycle ([cpu_fc] is 7). *)
Definition irq_clock (ctrl : Z) (x : sources) (ack : bool) (h : irq_hw) : irq_hw :=
  let flagged := irq_flagged h in
  {| irq_level :=
       if ack then 0
       else if irq_level h =? 0 then
         if flagged 2 then 3 else if flagged 1 then 2 else if flagged 0 then 1 else 0
       else irq_level h;
     irq_flagged := fun i =>
       if intp ctrl x i && negb (intp_prev h i) then true
       else if ack && negb (irq_level h =? 0) && (i =? irq_level h - 1) then false
       else flagged i;
     intp_prev := intp ctrl x |}.

(** The level the processor sees: [IPL2n], [IPL1n] are the bits of
    [irq_level], [IPL0n] is one. *)
Definition ipl (h : irq_hw) : Z := 2 * irq_level h.

(** ** What a clock does to an input *)

(** The clock finds a rising edge on input [i]. *)
Definition edge (ctrl : Z) (x : sources) (h : irq_hw) (i : Z) : bool := intp ctrl x i && negb (intp_prev h i).

(** The acknowledge of this clock is for input [i]. *)
Definition served (ack : bool) (h : irq_hw) (i : Z) : bool := ack && (irq_level h =? i + 1).

(** The level offered is that of a remembered edge. *)
Definition irq_inv (h : irq_hw) : Prop :=
  0 <= irq_level h <= 3 /\ (irq_level h <> 0 -> irq_flagged h (irq_level h - 1) = true).

Lemma irq_inv_clock ctrl x ack h : irq_inv h -> irq_inv (irq_clock ctrl x ack h).
Proof.
  intros [Hr Hf]. unfold irq_clock, irq_inv. cbn. destruct ack; cbn; [lia|]. destruct (Z.eqb_spec (irq_level h) 0) as [E|E].
  - destruct (irq_flagged h 2) eqn:F2; [|destruct (irq_flagged h 1) eqn:F1; [|destruct (irq_flagged h 0) eqn:F0]]; cbn;
      rewrite ?F2, ?F1, ?F0; (split; [lia|]); intros; try done; by destruct (_ && _).
  - split; [done|]. intros _. rewrite Hf by done. by destruct (_ && _).
Qed.

(** A history of inputs: the register, the signals and the acknowledges. *)
Definition history : Type := list (Z * sources * bool).

Fixpoint irq_run (ins : history) (h : irq_hw) : irq_hw :=
  match ins with
  | [] => h
  | (ctrl, x, ack) :: ins => irq_run ins (irq_clock ctrl x ack h)
  end.

Fixpoint edges (i : Z) (ins : history) (h : irq_hw) : Z :=
  match ins with
  | [] => 0
  | (ctrl, x, ack) :: ins => Z.b2z (edge ctrl x h i) + edges i ins (irq_clock ctrl x ack h)
  end.

Fixpoint serves (i : Z) (ins : history) (h : irq_hw) : Z :=
  match ins with
  | [] => 0
  | (ctrl, x, ack) :: ins => Z.b2z (served ack h i) + serves i ins (irq_clock ctrl x ack h)
  end.

Definition pending (h : irq_hw) (i : Z) : Z := Z.b2z (irq_flagged h i).

Lemma pending_clock ctrl x ack h i :
  irq_inv h -> 0 <= i ->
  pending (irq_clock ctrl x ack h) i = if edge ctrl x h i then 1 else pending h i - Z.b2z (served ack h i).
Proof.
  intros [Hr Hf] Hi. unfold pending, irq_clock, edge, served. cbn. destruct (_ && negb _); [done|].
  destruct ack; cbn; [|by rewrite Z.sub_0_r]. destruct (Z.eqb_spec (irq_level h) (i + 1)) as [E|E].
  - rewrite E in *. replace (i + 1 - 1) with i in * by lia. rewrite Z.eqb_refl, Hf by lia.
    by rewrite (proj2 (Z.eqb_neq (i + 1) 0)) by lia.
  - replace (i =? irq_level h - 1) with false by (symmetry; apply Z.eqb_neq; lia). rewrite andb_false_r. cbn. lia.
Qed.

Lemma edges_nonneg i ins h : 0 <= edges i ins h.
Proof. revert h. induction ins as [|[[ctrl x] ack] ins IH]; intros h; cbn; [lia|]. specialize (IH (irq_clock ctrl x ack h)). destruct (edge _ _ _ _); cbn; lia. Qed.

Lemma serves_nonneg i ins h : 0 <= serves i ins h.
Proof. revert h. induction ins as [|[[ctrl x] ack] ins IH]; intros h; cbn; [lia|]. specialize (IH (irq_clock ctrl x ack h)). destruct (served _ _ _); cbn; lia. Qed.

Lemma irq_count (ins : history) (h : irq_hw) (i : Z) :
  irq_inv h -> 0 <= i < 3 ->
  let h' := irq_run ins h in
  irq_inv h' /\
  serves i ins h + pending h' i <= edges i ins h + pending h i /\
  (0 < edges i ins h + pending h i -> 0 < serves i ins h + pending h' i).
Proof.
  intros Hh Hi. revert h Hh. induction ins as [|[[ctrl x] ack] ins IH]; intros h Hh; cbv zeta; [cbn; split_and!; [done|lia|lia]|].
  cbn [irq_run serves edges]. destruct (IH (irq_clock ctrl x ack h) (irq_inv_clock _ _ _ _ Hh)) as (I & L & P).
  split; [done|]. pose proof (pending_clock ctrl x ack h i Hh ltac:(lia)) as E.
  pose proof (edges_nonneg i ins (irq_clock ctrl x ack h)). pose proof (serves_nonneg i ins (irq_clock ctrl x ack h)).
  assert (served ack h i = true -> pending h i = 1) as Hs.
  { unfold served. intros [_ El%Z.eqb_eq]%andb_prop. destruct Hh as [_ Hf]. unfold pending. rewrite El in Hf.
    replace (i + 1 - 1) with i in Hf by lia. by rewrite Hf by lia. }
  assert (0 <= pending h i <= 1) by (unfold pending; destruct (irq_flagged h i); cbn; lia).
  assert (0 <= pending (irq_run ins (irq_clock ctrl x ack h)) i) by (unfold pending; destruct (irq_flagged _ _); cbn; lia).
  rewrite E in L, P. destruct (edge ctrl x h i), (served ack h i) eqn:Sv; cbn [Z.b2z] in *; try (specialize (Hs eq_refl)); lia.
Qed.

(** C18: An interrupt is an edge.  Over any history of the inputs and of the
    acknowledges, from any state the controller can be in, the processor is
    never interrupted more often at a level than its input rose (an edge
    pending at the start counted); and an edge is never lost: if there was one,
    it was served or is pending at the end (edges that come while one is
    pending become one interrupt). *)
Theorem irq_per_edge (ins : history) (h : irq_hw) (i : Z) :
  irq_inv h -> 0 <= i < 3 ->
  let h' := irq_run ins h in
  irq_inv h' /\
  serves i ins h + pending h' i <= edges i ins h + pending h i /\
  (0 < edges i ins h + pending h i -> 0 < serves i ins h + pending h' i).
Proof. apply irq_count. Qed.

(** ** Reset, for the witnesses *)

Lemma irq_reset_inv : irq_inv irq_reset.
Proof. by split. Qed.

(** The sensor rises, then the frame, then the processor acknowledges twice. *)
Definition demo_signals (v h u : bool) : sources := {| src_vblank := v; src_hdmi_vblank := h; src_user := u |}.
Definition demo_history : history :=
  [(INT_CTRL_START, demo_signals true false false, false); (INT_CTRL_START, demo_signals false false true, false);
   (INT_CTRL_START, demo_signals false false true, true); (INT_CTRL_START, demo_signals false false true, false);
   (INT_CTRL_START, demo_signals false false true, false); (INT_CTRL_START, demo_signals false false true, true)].

Lemma irq_per_edge_witness :
  serves 2 demo_history irq_reset = 1 /\ edges 2 demo_history irq_reset = 1 /\
  pending (irq_run demo_history irq_reset) 2 <= 0.
Proof.
  destruct (irq_per_edge demo_history irq_reset 2 irq_reset_inv ltac:(lia)) as (_ & H & _).
  assert (serves 2 demo_history irq_reset = 1) as E1 by (vm_compute; reflexivity).
  assert (edges 2 demo_history irq_reset = 1) as E2 by (vm_compute; reflexivity).
  assert (pending irq_reset 2 = 0) as E3 by reflexivity. split_and!; [done|done|lia].
Defined.

(** ** Priority *)

Definition all_serves (ins : history) (h : irq_hw) : Z := serves 0 ins h + serves 1 ins h + serves 2 ins h.

(** With level 6 or none on offer, a pending sensor edge is served next. *)
Lemma sensor_next ins h :
  irq_inv h -> irq_flagged h 2 = true -> irq_level h = 0 \/ irq_level h = 3 -> 0 < all_serves ins h -> 0 < serves 2 ins h.
Proof.
  unfold all_serves. revert h. induction ins as [|[[ctrl x] ack] ins IH]; intros h Hi Hf Hl Hs; [cbn in Hs; lia|].
  cbn [serves] in *. unfold served in *.
  destruct (decide (irq_level h = 3 /\ ack = true)) as [[E ->]|Hn].
  { pose proof (serves_nonneg 2 ins (irq_clock ctrl x true h)). rewrite (proj2 (Z.eqb_eq (irq_level h) (2 + 1))) by lia. cbn [andb Z.b2z]. lia. }
  assert (forall i, 0 <= i < 3 -> ack && (irq_level h =? i + 1) = false) as Hs0.
  { intros i Hj. destruct ack; [|done]. cbn. apply Z.eqb_neq. destruct Hl; [lia|]. by destruct Hn. }
  rewrite !Hs0 in * by lia. apply (IH (irq_clock ctrl x ack h)); [by apply irq_inv_clock|..|exact Hs]; unfold irq_clock; cbn; rewrite Hf.
  - destruct (_ && negb (intp_prev _ _)); [done|]. specialize (Hs0 2 ltac:(lia)). destruct ack; [|done]. cbn in *.
    destruct Hl as [Hl|Hl]; rewrite Hl; [done|by destruct Hn].
  - destruct ack; [by left|]. destruct Hl as [->| ->]; by right.
Qed.

(** C19: The sensor goes first.  When a sensor edge is remembered, at most one
    interrupt of another level, already on offer, is served before it. *)
Theorem sensor_first (ins : history) (h : irq_hw) :
  irq_inv h -> irq_flagged h 2 = true -> 2 <= all_serves ins h -> 0 < serves 2 ins h.
Proof.
  unfold all_serves. revert h. induction ins as [|[[ctrl x] ack] ins IH]; intros h Hi Hf Hs; [cbn in Hs; lia|].
  destruct (decide (irq_level h = 0 \/ irq_level h = 3)) as [Hl|Hl].
  { apply sensor_next; [done|done|done|unfold all_serves; lia]. }
  cbn [serves] in *. unfold served in *.
  assert (irq_flagged (irq_clock ctrl x ack h) 2 = true) as Hf'.
  { unfold irq_clock. cbn [irq_flagged]. rewrite Hf. replace (2 =? irq_level h - 1) with false by (symmetry; apply Z.eqb_neq; lia).
    rewrite andb_false_r. destruct (intp ctrl x 2 && _); reflexivity. }
  destruct ack; cbn [andb] in *.
  - pose proof (sensor_next ins (irq_clock ctrl x true h) (irq_inv_clock _ _ _ _ Hi) Hf' ltac:(by left)) as H. unfold all_serves in H.
    destruct (Z.eqb_spec (irq_level h) (0 + 1)), (Z.eqb_spec (irq_level h) (1 + 1)), (Z.eqb_spec (irq_level h) (2 + 1)); cbn [Z.b2z] in *; lia.
  - cbn [Z.b2z] in *. rewrite Z.add_0_l in *. apply IH; [by apply irq_inv_clock|done|lia].
Qed.

Lemma sensor_first_witness :
  let h := irq_run (take 2 demo_history) irq_reset in 0 < serves 2 (drop 2 demo_history) h.
Proof.
  apply (sensor_first (drop 2 demo_history) (irq_run (take 2 demo_history) irq_reset));
    [split; vm_compute; [split; discriminate|reflexivity]|vm_compute; reflexivity|vm_compute; discriminate].
Defined.

(** ** The sources of the firmware *)

Lemma start_sources x :
  intp INT_CTRL_START x 0 = src_vblank x /\ intp INT_CTRL_START x 1 = negb (src_vblank x) /\ intp INT_CTRL_START x 2 = src_user x.
Proof. done. Qed.

Lemma hdmi_sources x :
  intp INT_CTRL_HDMI x 0 = src_vblank x /\ intp INT_CTRL_HDMI x 1 = negb (src_hdmi_vblank x) /\ intp INT_CTRL_HDMI x 2 = src_user x.
Proof. done. Qed.

(** The controller beside the CRT controller: what the other signals and the
    processor do is arbitrary. *)
Fixpoint beside_crtc (ctrl : Z) (others : list (bool * bool * bool)) (s : crtc_hw) : history :=
  match others with
  | [] => []
  | (hv, u, ack) :: others =>
      let s := crtc_tick s in (ctrl, demo_signals (vblank s) hv u, ack) :: beside_crtc ctrl others s
  end.

Lemma beside_edges ctrl others s h :
  (forall x, intp ctrl x 0 = src_vblank x) -> intp_prev h 0 = vblank s ->
  edges 0 (beside_crtc ctrl others s) h = rises vblank (length others) s.
Proof.
  intros Hc. revert s h. induction others as [|[[hv u] ack] others IH]; intros s h Hp; [done|].
  cbn [beside_crtc edges rises length]. rewrite IH by (cbn; by rewrite Hc). unfold edge. rewrite Hc, Hp. cbn. by rewrite andb_comm.
Qed.

(** C20: One vertical blanking interrupt a frame.  With the sources the
    firmware selects, at the start or with an HDMI mode, the CRT controller
    scanning a mode gives the interrupt controller exactly one edge on the
    input of level 2 in the clocks of a frame, whatever the other inputs and
    the processor do; so the frame counter of the firmware, which counts the
    interrupts served, cannot run ahead, and falls behind only while one is
    pending. *)
Theorem vblank_interrupts (md : VideoMode) (s : crtc_hw) (h : irq_hw) (ctrl : Z) (others : list (bool * bool * bool)) :
  countable md -> 0 < vact md -> 0 < vfp md + vs md -> pixel_ok md s -> irq_inv h -> intp_prev h 0 = vblank s ->
  ctrl = INT_CTRL_START \/ ctrl = INT_CTRL_HDMI -> length others = Z.to_nat (4 * video_mode_pixels md) ->
  let ins := beside_crtc ctrl others s in
  edges 0 ins h = 1 /\ serves 0 ins h + pending (irq_run ins h) 0 <= 1 + pending h 0 /\
  0 < serves 0 ins h + pending (irq_run ins h) 0.
Proof.
  intros Hmd Ha Hb P Hi Hp Hc Hl ins. assert (edges 0 ins h = 1) as E.
  { unfold ins. rewrite beside_edges, Hl; [by apply frame_rises_once| |done]. intros x. by destruct Hc as [->| ->]. }
  destruct (irq_count ins h 0 Hi ltac:(lia)) as (_ & H1 & H2). rewrite E in *.
  assert (0 <= pending h 0) by (unfold pending; destruct (irq_flagged h 0); cbn; lia). split_and!; [done|lia|apply H2; lia].
Qed.

Lemma vblank_interrupts_witness :
  let h := {| irq_level := 0; irq_flagged := fun _ => false; intp_prev := fun _ => vblank demo_crtc_pixel |} in
  let ins := beside_crtc INT_CTRL_START (replicate (Z.to_nat (4 * video_mode_pixels crt_240p)) (false, false, false)) demo_crtc_pixel in
  edges 0 ins h = 1 /\ serves 0 ins h + pending (irq_run ins h) 0 <= 1 + pending h 0 /\
  0 < serves 0 ins h + pending (irq_run ins h) 0.
Proof.
  intros h. apply (vblank_interrupts crt_240p demo_crtc_pixel h INT_CTRL_START);
    [apply crt_240p_countable|done|done|apply demo_pixel_ok|by split|done|by left|apply length_replicate].
Defined.
