(* ===== verification/Tilemap.v ===== *)
(** * The tile map (rtl/tilemap.sv, rtl/dpramv.sv)

    The pixel pipeline: the fetch of a tile at the position of the beam, of a
    line of its pattern from the graphics ROM, and the shift register that
    puts out its eight pixels, as a clocked machine; and beside the CRT
    controller, the picture on the screen as a function of the tile memory. *)

From S2P Require Import Prelude Input Blitter Float Hdmi HdmiProps Printf Formats Gfx GfxProps Video Crtc.

(** ** Memory blocks

    The graphics ROM and the palette are memory blocks of the device
    (altsyncram).  The ROM is read through a port clocked with an address. *)
Class MemBlock (B : Type) : Type := {
  block_clock : Z -> B -> B;
  block_q : B -> Z
}.

(** The port with its address held for [n] clocks: the output of the ROM is
    registered, and takes two. *)
Class BlockReads (B : Type) `{MemBlock B} (n : nat) (contents : Z -> Z) : Prop :=
  block_reads : forall a r, block_q (Nat.iter n (block_clock a) r) = contents a.

(** The palette has a port the processor writes, in two bytes, beside the one
    that is read; [pal_mem] are its contents.  What is read in the clock of a
    write to the same entry is not specified. *)
Record pal_in : Type := mkPalIn { w_wr0 : bool; w_wr1 : bool; w_address : Z; w_data : Z }.

Definition pal_write (i : pal_in) (m : Z -> Z) : Z -> Z := fun j =>
  if j =? w_address i then word_write (w_wr0 i) (w_wr1 i) (w_data i) (m j) else m j.

Definition pal_hit (i : pal_in) (a : Z) : bool := (w_wr0 i || w_wr1 i) && (w_address i =? a).

Class PalBlock (B : Type) : Type := {
  pal_step : pal_in -> Z -> B -> B;
  pal_q : B -> Z;
  pal_mem : B -> Z -> Z
}.

Class PalReads (B : Type) `{PalBlock B} : Prop := {
  pal_mem_step i a p j : pal_mem (pal_step i a p) j = pal_write i (pal_mem p) j;
  pal_q_step i a p : pal_hit i a = false -> pal_q (pal_step i a p) = pal_mem p a
}.

(** ** A clock *)

Section tilemap.
Context {ROM PAL : Type} {HR : MemBlock ROM} {HP : PalBlock PAL}.

Record tilemap : Type := mkTilemap {
  t_hofs : Z;
  t_vofs : Z;
  tileref_q : Z;
  tileref : Z;
  rom : ROM;
  shiftout : Z;
  color : Z;
  color_out : Z;
  stage : Z;
  vcnt_prev : Z
}.

(** The register port: [cs_reg], [wr], the low bit of [address] and [din]. *)
Record tm_in : Type := mkTmIn {
  m_cs_reg : bool;
  m_wr0 : bool;
  m_wr1 : bool;
  m_vert : bool;
  m_din : Z
}.

(** [m]: the tile memory at this clock (port B of the two byte-wide RAMs). *)
Definition tm_clock (i : tm_in) (m : vmem) (ce : bool) (h v : Z) (t : tilemap) : tilemap :=
  let H := u12 (h + t_hofs t) in
  let V := u12 (v + t_vofs t) in
  let sel vert := m_cs_reg i && Bool.eqb (m_vert i) vert in
  {| t_hofs := if sel false then word_write (m_wr0 i) (m_wr1 i) (m_din i) (t_hofs t) else t_hofs t;
     t_vofs := if sel true then word_write (m_wr0 i) (m_wr1 i) (m_din i) (t_vofs t) else t_vofs t;
     tileref_q := m (((V / 8) mod 128) * 128 + (H / 8) mod 128);
     tileref := if ce && (H mod 8 =? 0) then tileref_q t else tileref t;
     rom := block_clock ((tileref t mod 256) * 8 + V mod 8) (rom t);
     shiftout := if ce then if H mod 8 =? 7 then block_q (rom t) else u32 (shiftout t * 16) else shiftout t;
     color := if ce && (H mod 8 =? 7) then u8 (tileref t / 256) else color t;
     color_out := if ce then u8 (shiftout t / 2 ^ 28 + color t) else color_out t;
     stage := if ce then if vcnt_prev t =? v then (stage t + 1) mod 8 else 0 else stage t;
     vcnt_prev := if ce then v else vcnt_prev t |}.

(** ** Beside the CRT controller

    The color goes to the palette, whose word is the color on the screen. *)
Definition tm_idle : tm_in := {| m_cs_reg := false; m_wr0 := false; m_wr1 := false; m_vert := false; m_din := 0 |}.

Record picture : Type := mkPicture { pic_crtc : crtc_hw; pic_tiles : tilemap; pic_pal : PAL }.

(** A clock, with the tile memory and the write port of the palette. *)
Definition pic_clock (x : vmem * pal_in) (p : picture) : picture :=
  let s := pic_crtc p in
  {| pic_crtc := crtc_tick s;
     pic_tiles := tm_clock tm_idle x.1 (ce_pixel s) (hcnt s) (vcnt s) (pic_tiles p);
     pic_pal := pal_step x.2 (color_out (pic_tiles p)) (pic_pal p) |}.

(** Five bits of each color, the upper three of them again below. *)
Definition rgb (w : Z) : Z * Z * Z :=
  let five i := (w / 2 ^ i) mod 32 in
  (five 10 * 8 + five 10 / 4, five 5 * 8 + five 5 / 4, five 0 * 8 + five 0 / 4).

(** A run of clocks. *)
Definition pic_run (xs : list (vmem * pal_in)) (p : picture) : picture := foldl (fun p x => pic_clock x p) p xs.

Context {gfx_rom : Z -> Z} {Hrom : BlockReads ROM 2 gfx_rom} {Hpal : PalReads PAL}.

(** The palette after some clocks. *)
Lemma palette_run xs : forall p j, pal_mem (pic_pal (pic_run xs p)) j = foldl (fun m x => pal_write x.2 m) (pal_mem (pic_pal p)) xs j.
Proof.
  assert (forall xs m m' j, m j = m' j -> foldl (fun m (x : vmem * pal_in) => pal_write x.2 m) m xs j = foldl (fun m x => pal_write x.2 m) m' xs j) as K.
  { clear. induction xs as [|x xs IH]; intros m m' j E; [done|]. cbn [foldl]. apply IH. unfold pal_write. by rewrite E. }
  induction xs as [|x xs IH]; intros p j; [done|]. cbn [pic_run foldl]. etransitivity; [apply IH|]. apply K. apply pal_mem_step.
Qed.

(** What a pixel of four clocks does to the pipeline: [H] is the column before
    the beam moves, [a] and [w] the tile fetched after it, and the line of the
    pattern. *)
Definition tile_addr (t : tilemap) (b : Z * Z) : Z := fetch_addr (t_hofs t, t_vofs t) b.1 b.2.

Lemma pixel_pipeline md s t c x1 x2 x3 x4 :
  countable md -> settled md s -> boundary s ->
  let H := u12 (hcnt s + t_hofs t) in
  let b := beam_next md (beam s) in
  exists t' c', pic_run [x1; x2; x3; x4] (mkPicture s t c) = mkPicture (crtc_pixel s) t' c' /\
    color_out (pic_tiles (pic_run [x1; x2; x3] (mkPicture s t c))) = color_out t' /\
    t_hofs t' = t_hofs t /\ t_vofs t' = t_vofs t /\ tileref_q t' = x4.1 (tile_addr t b) /\
    block_q (rom t') = gfx_rom ((tileref t' mod 256) * 8 + u12 (b.2 + t_vofs t) mod 8) /\
    tileref t' = (if H mod 8 =? 0 then tileref_q t else tileref t) /\
    color t' = (if H mod 8 =? 7 then u8 (tileref t / 256) else color t) /\
    shiftout t' = (if H mod 8 =? 7 then block_q (rom t) else u32 (shiftout t * 16)) /\
    color_out t' = u8 (shiftout t / 2 ^ 28 + color t).
Proof.
  intros Hmd S0 [C0 E0] H b. subst b.
  destruct (tick_phase md Hmd 0 true s S0 C0 E0 ltac:(lia)) as (S1 & M1 & C1 & E1).
  destruct (tick_phase md Hmd 1 false _ S1 C1 E1 ltac:(lia)) as (S2 & M2 & C2 & E2).
  destruct (tick_phase md Hmd 2 false _ S2 C2 E2 ltac:(lia)) as (S3 & M3 & C3 & E3).
  rewrite M2 in M3. rewrite M1 in M2, M3. destruct (beam_next md (beam s)) as [h' v'].
  injection M1 as H1 V1. injection M2 as H2 V2. injection M3 as H3 V3.
  eexists _, _. split.
  { unfold pic_run, pic_clock. cbn [foldl pic_crtc pic_tiles pic_pal]. rewrite E0, E1, E2, E3, H1, H2, H3, V1, V2, V3. reflexivity. }
  split; [by unfold pic_run, pic_clock; cbn [foldl pic_crtc pic_tiles pic_pal]; cbn; rewrite E0, E1, E2|].
  cbn. fold H. split_and!; try done. exact (block_reads (n := 2) _ _).
Qed.

(** ** A line of the picture

    Line [v]; [ref] is the tile of each column, [ho] and [vo] the offsets. *)
Section line.
Context (rom_width : forall a, 0 <= gfx_rom a < 2 ^ 32).
Context (md : VideoMode) (Hmd : countable md) (v ho vo : Z) (ref : Z -> Z).

(** The pipeline is nine pixels long: the column of the tile map at [h]. *)
Definition column (h : Z) : Z := h - (hbp md - 9).

Context (Hho : (ho + (hbp md - 9)) mod 4096 = 0) (Hbp : 9 < hbp md).

(** The pattern of column [q] on this line, and the color of a pixel. *)
Definition pattern (q : Z) : Z := gfx_rom ((ref q mod 256) * 8 + u12 (v + vo) mod 8).
Definition pixel (x : Z) : Z := u8 ((pattern (x / 8) / 16 ^ (7 - x mod 8)) mod 16 + u8 (ref (x / 8) / 256)).

(** The tile memory holds the tiles of the line. *)
Definition holds_line (m : vmem) : Prop :=
  forall h, hbp md - 9 <= h < htotal md -> m (fetch_addr (ho, vo) h v) = ref (column h / 8).

Record piped (x : Z) (t : tilemap) : Prop := {
  d_hofs : t_hofs t = ho;
  d_vofs : t_vofs t = vo;
  d_next : tileref_q t = ref (x / 8);
  d_tile : 1 <= x -> tileref t = ref ((x - 1) / 8);
  d_rom : block_q (rom t) = gfx_rom ((tileref t mod 256) * 8 + u12 (v + vo) mod 8);
  d_color : 8 <= x -> color t = u8 (ref (x / 8 - 1) / 256);
  d_shift : 8 <= x -> shiftout t = u32 (pattern (x / 8 - 1) * 16 ^ (x mod 8));
  d_out : 9 <= x -> color_out t = pixel (x - 9)
}.

Lemma shift_top w r : 0 <= w < 2 ^ 32 -> 0 <= r <= 7 -> u32 (w * 16 ^ r) / 2 ^ 28 = (w / 16 ^ (7 - r)) mod 16.
Proof.
  intros Hw Hr. unfold u32. assert (16 ^ r * 16 ^ (7 - r) = 2 ^ 28) as E by (rewrite <- Z.pow_add_r by lia; by replace (r + (7 - r)) with 7 by lia).
  assert (0 < 16 ^ r /\ 0 < 16 ^ (7 - r)) as [P Q] by (split; apply Z.pow_pos_nonneg; lia).
  change 4294967296 with (2 ^ 28 * 16). rewrite Z.rem_mul_r, (Z.mul_comm (2 ^ 28)), Z.div_add, (Z.div_small (_ mod _)) by (try apply Z.mod_pos_bound; lia).
  rewrite Z.add_0_l. f_equal. rewrite <- E, (Z.mul_comm (16 ^ r)), Z.div_mul_cancel_r by lia. done.
Qed.

Lemma next_column x : 0 <= x ->
  (x mod 8 = 7 /\ (x + 1) / 8 = x / 8 + 1 /\ (x + 1) mod 8 = 0) \/
  (x mod 8 < 7 /\ (x + 1) / 8 = x / 8 /\ (x + 1) mod 8 = x mod 8 + 1).
Proof. intros Hx. word_lia. Qed.

Lemma column_u12 h : hbp md - 9 <= h < htotal md -> u12 (h + ho) = column h.
Proof.
  intros Hh. destruct Hmd as [_ _ Ht _]. unfold u12, column.
  replace (h + ho) with (h - (hbp md - 9) + (ho + (hbp md - 9))) by lia.
  rewrite <- Z.add_mod_idemp_r, Hho, Z.add_0_r, Z.mod_small by lia. done.
Qed.

(** The four clocks of a pixel take the pipeline from one column to the next. *)
Lemma piped_step s t c h x1 x2 x3 x4 :
  pixel_ok md s -> beam s = (h, v) -> hbp md - 9 <= h -> h + 1 < htotal md -> piped (column h) t -> holds_line x4.1 ->
  exists t' c', pic_run [x1; x2; x3; x4] (mkPicture s t c) = mkPicture (crtc_pixel s) t' c' /\
    color_out (pic_tiles (pic_run [x1; x2; x3] (mkPicture s t c))) = color_out t' /\ piped (column (h + 1)) t'.
Proof.
  intros [S B P] Eb Hh Hh' [D1 D2 D3 D4 D5 D6 D7 D8] Hm.
  destruct (pixel_pipeline md s t c x1 x2 x3 x4 Hmd S B) as (t' & c' & E & TC & T1 & T2 & T3 & T4 & T5 & T6 & T7 & T8).
  exists t', c'. split; [exact E|]. split; [exact TC|]. rewrite Eb in T3, T4. unfold beam_next in T3, T4. cbn [fst snd] in T3, T4.
  rewrite (proj2 (Z.leb_gt _ _)) in T3, T4 by lia. injection Eb as Eh Ev. rewrite Eh, D1, column_u12 in T5, T6, T7 by lia.
  unfold tile_addr in T3. cbn [fst snd] in T3, T4. rewrite D1, D2, Hm in T3 by lia. rewrite D2 in T4.
  replace (column (h + 1)) with (column h + 1) in * by (unfold column; lia).
  assert (0 <= column h) as Hx by (unfold column; lia). set (x := column h) in *. clearbody x.
  split; [congruence|congruence|done| |by rewrite T4|..].
  - intros _. replace (x + 1 - 1) with x by lia. rewrite T5. destruct (Z.eqb_spec (x mod 8) 0) as [E0|E0]; [done|].
    rewrite D4 by (clear -Hx E0; word_lia). f_equal. clear -E0. word_lia.
  - intros H8. rewrite T6. destruct (Z.eqb_spec (x mod 8) 7) as [E7|E7], (next_column x Hx) as [(Hr & -> & _)|(Hr & -> & _)]; try lia.
    + rewrite D4 by lia. do 3 f_equal. clear -E7. word_lia.
    + apply D6. clear -H8 E7. word_lia.
  - intros H8. rewrite T7. destruct (Z.eqb_spec (x mod 8) 7) as [E7|E7], (next_column x Hx) as [(Hr & -> & ->)|(Hr & -> & ->)]; try lia.
    + rewrite D5, D4 by lia. unfold pattern, u32. rewrite Z.pow_0_r, Z.mul_1_r, (Z.mod_small (gfx_rom _)) by exact (rom_width _). do 5 f_equal. clear -E7. word_lia.
    + rewrite D7 by (clear -H8 E7; word_lia). unfold u32. rewrite Z.mul_mod_idemp_l, Z.pow_add_r by (try apply Z.mod_pos_bound; lia).
      f_equal. lia.
  - intros H9. rewrite T8, D7, D6, shift_top by (try apply rom_width; try (clear; word_lia); lia). unfold pixel.
    replace ((x + 1 - 9) / 8) with (x / 8 - 1) by (clear; word_lia). by replace ((x + 1 - 9) mod 8) with (x mod 8) by (clear; word_lia).
Qed.

(** From the start of the line, whatever the pipeline held. *)
Definition piping (h : Z) (t : tilemap) : Prop := t_hofs t = ho /\ t_vofs t = vo /\ (hbp md - 9 <= h -> piped (column h) t).

Lemma piping_step s t c h x1 x2 x3 x4 :
  pixel_ok md s -> beam s = (h, v) -> 0 <= h -> h + 1 < htotal md -> piping h t -> holds_line x4.1 ->
  exists t' c', pic_run [x1; x2; x3; x4] (mkPicture s t c) = mkPicture (crtc_pixel s) t' c' /\
    color_out (pic_tiles (pic_run [x1; x2; x3] (mkPicture s t c))) = color_out t' /\ piping (h + 1) t'.
Proof.
  intros P Eb Hh Hh' (D1 & D2 & D) Hm. destruct (Z.le_gt_cases (hbp md - 9) h) as [Hl|Hl].
  { destruct (piped_step s t c h x1 x2 x3 x4 P Eb Hl Hh' (D Hl) Hm) as (t' & c' & E & C & T). exists t', c'. split; [exact E|].
    split; [exact C|]. split; [by apply d_hofs in T|]. split; [by apply d_vofs in T|done]. }
  destruct P as [S B _]. destruct (pixel_pipeline md s t c x1 x2 x3 x4 Hmd S B) as (t' & c' & E & C & T1 & T2 & T3 & T4 & _).
  exists t', c'. split; [exact E|]. split; [exact C|]. split; [congruence|]. split; [congruence|]. intros Hl'.
  assert (h + 1 = hbp md - 9) as Eh by lia. unfold column. rewrite Eh, Z.sub_diag.
  rewrite Eb in T3, T4. unfold beam_next in T3, T4. cbn [fst snd] in T3, T4. rewrite (proj2 (Z.leb_gt _ _)) in T3, T4 by lia.
  unfold tile_addr in T3. cbn [fst snd] in T3, T4. rewrite D1, D2, Hm in T3 by lia. rewrite D2 in T4.
  split; [congruence|congruence| |lia|exact T4|lia..]. rewrite T3. unfold column. by rewrite Eh, Z.sub_diag.
Qed.

Lemma piping_run n : forall xs s t c h,
  length xs = (4 * n)%nat -> Forall (fun x => holds_line x.1) xs -> pixel_ok md s -> beam s = (h, v) -> 0 <= h -> h + Z.of_nat n < htotal md ->
  piping h t -> (0 < n)%nat ->
  let p := pic_run xs (mkPicture s t c) in
  pixel_ok md (pic_crtc p) /\ beam (pic_crtc p) = (h + Z.of_nat n, v) /\
  color_out (pic_tiles (pic_run (removelast xs) (mkPicture s t c))) = color_out (pic_tiles p) /\ piping (h + Z.of_nat n) (pic_tiles p).
Proof.
  induction n as [|n IH]; intros xs s t c h Hl Hm P Eb Hh Hn T H0; [lia|].
  destruct xs as [|x1 [|x2 [|x3 [|x4 xs]]]]; cbn in Hl; try lia.
  rewrite !Forall_cons_iff in Hm. destruct Hm as (_ & _ & _ & H4 & Hm).
  destruct (piping_step s t c h x1 x2 x3 x4 P Eb Hh ltac:(lia) T H4) as (t' & c' & E & C & T').
  destruct (pixel_step md Hmd s P) as [P' Eb']. rewrite Eb in Eb'. unfold beam_next in Eb'. cbn [fst snd] in Eb'.
  rewrite (proj2 (Z.leb_gt _ _)) in Eb' by lia. replace (h + Z.of_nat (S n)) with (h + 1 + Z.of_nat n) by lia.
  destruct xs as [|x xs].
  { destruct n as [|n]; [|cbn in Hl; lia]. rewrite E, Z.add_0_r. cbn [pic_crtc pic_tiles]. done. }
  destruct n as [|n]; [cbn in Hl; lia|]. change (removelast (x1 :: x2 :: x3 :: x4 :: x :: xs)) with ([x1; x2; x3; x4] ++ removelast (x :: xs)).
  change (x1 :: x2 :: x3 :: x4 :: x :: xs) with ([x1; x2; x3; x4] ++ x :: xs). unfold pic_run. rewrite !foldl_app.
  fold (pic_run [x1; x2; x3; x4] (mkPicture s t c)). rewrite E. apply (IH (x :: xs)); try done; lia.
Qed.
End line.
End tilemap.

(** ** The screen *)

Lemma countable_240p wide f : countable (mode_240p wide f).
Proof. destruct wide; split; vm_compute; split_and!; discriminate || reflexivity. Qed.

(** The offsets of the shown page put its first pixel where the blanking ends. *)
Lemma fetch_cell wide f g y :
  let md := mode_240p wide f in
  flipped wide g -> 0 <= y < vact md ->
  ((tile_ctrl g).1 + (hbp md - 9)) mod 4096 = 0 /\ u12 (vbp md + y + (tile_ctrl g).2) mod 8 = y mod 8 /\
  forall h, hbp md - 9 <= h < htotal md ->
    fetch_addr (tile_ctrl g) h (vbp md + y) = cell (front_page g) (y / 8) (column md h / 8).
Proof.
  intros md ((Hc & _ & Hf) & _ & Ht) Hy. rewrite Hc in Ht.
  assert (tile_ctrl g = (65536 - (hbp md - 9), if page_front g =? 0 then 65536 - vbp md else 512 - vbp md)) as E.
  { destruct Hf as [E|E]; rewrite E in Ht |- *; destruct wide; injection Ht as <-; reflexivity. }
  rewrite E. cbn [fst snd]. unfold fetch_addr, cell, TILE_MAX_W, column, u12, front_page. cbn [fst snd].
  assert (0 <= y < 240 /\ 0 <= hbp md - 9 < 1024 /\ htotal md < 1024) as (Hy' & Hb & Ht') by (unfold md, htotal in *; destruct wide; cbn in *; lia).
  clearbody md. clear -Hy' Hb Ht' Hf. split; [word_lia|].
  destruct Hf as [-> | ->]; cbn [Z.eqb]; (split; [word_lia|]); intros h Hh.
  - replace (vbp md + y + (65536 - vbp md)) with (y + 16 * 4096) by lia. rewrite Z.mod_add, (Z.mod_small y) by lia.
    replace (h + (65536 - (hbp md - 9))) with (h - (hbp md - 9) + 16 * 4096) by lia. rewrite Z.mod_add, (Z.mod_small (h - _)) by lia.
    rewrite (Z.mod_small (y / 8)), (Z.mod_small (_ / 8)) by word_lia. lia.
  - replace (vbp md + y + (512 - vbp md)) with (y + 64 * 8) by lia. rewrite (Z.mod_small (y + _)) by lia.
    replace (h + (65536 - (hbp md - 9))) with (h - (hbp md - 9) + 16 * 4096) by lia. rewrite Z.mod_add, (Z.mod_small (h - _)) by lia.
    rewrite Z.div_add, (Z.mod_small (y / 8 + 64)), (Z.mod_small (_ / 8)) by word_lia. lia.
Qed.

(** The picture a page of tiles stands for: the low byte of a tile is its
    pattern, the high byte added to the pixel is the entry of the palette. *)
Definition tile_pixel (gfx_rom : Z -> Z) (m : vmem) (p x y : Z) : Z :=
  let tile := m (cell p (y / 8) (x / 8)) in
  u8 ((gfx_rom ((tile mod 256) * 8 + y mod 8) / 16 ^ (7 - x mod 8)) mod 16 + u8 (tile / 256)).

(** The screen shows the page the firmware has drawn.  With the registers
    as [gfx_pageflip] leaves them, the beam at the start of a line of the
    picture and any contents of the pipeline, and the front page not written
    to: [4 * (hbp + x)] clocks later the beam is at the [x]-th visible pixel
    of the line, blanking is off, and the output is the color of pixel
    [(x, y)] of the page that the palette holds before the last clock, unless
    this entry is written in it. *)
Theorem picture_shown {ROM PAL : Type} {HR : MemBlock ROM} {HP : PalBlock PAL} (gfx_rom : Z -> Z)
    (Hrom : BlockReads ROM 2 gfx_rom) (Hpal : PalReads PAL)
    (wide : bool) (f : float) (g : gfx) (p : picture (ROM := ROM) (PAL := PAL)) (xs : list (vmem * pal_in)) (x y : Z) :
  let md := mode_240p wide f in
  (forall a, 0 <= gfx_rom a < 2 ^ 32) -> flipped wide g -> (t_hofs (pic_tiles p), t_vofs (pic_tiles p)) = tile_ctrl g ->
  0 <= x < hact md -> 0 <= y < vact md -> pixel_ok md (pic_crtc p) -> beam (pic_crtc p) = (0, vbp md + y) ->
  length xs = Z.to_nat (4 * (hbp md + x)) -> Forall (fun x => forall a, in_page (front_page g) a -> x.1 a = tiles g a) xs ->
  let p' := pic_run xs p in
  let entry := tile_pixel gfx_rom (tiles g) (front_page g) x y in
  beam (pic_crtc p') = (hbp md + x, vbp md + y) /\ hblank (pic_crtc p') = false /\ vblank (pic_crtc p') = false /\
  color_out (pic_tiles p') = entry /\
  forall xs0 z, xs = xs0 ++ [z] -> pal_hit z.2 entry = false -> pal_q (pic_pal p') = pal_mem (pic_pal (pic_run xs0 p)) entry.
Proof.
  intros md Hw Hg Ho Hx Hy P Eb Hl Hm p'. destruct p as [s t c]. cbn [pic_crtc pic_tiles] in *.
  destruct (fetch_cell wide f g y Hg Hy) as (E1 & E2 & E3). fold md in E1, E2, E3. rewrite <- Ho in E1, E2, E3. cbn [fst snd] in E1, E2.
  set (ref q := tiles g (cell (front_page g) (y / 8) q)).
  assert (9 < hbp md /\ hbp md + hact md < htotal md /\ htotal md < 1024 /\ vact md <= 240) as (Hb & Ht & Ht' & Hv)
    by (unfold md, htotal; destruct wide; cbn; lia).
  destruct (piping_run (gfx_rom := gfx_rom) Hw md (countable_240p _ _) (vbp md + y) (t_hofs t) (t_vofs t) ref E1 Hb (Z.to_nat (hbp md + x)) xs s t c 0)
    as (P' & Eb' & Ep & (_ & _ & T)); try done; try lia.
  { revert Hm. apply List.Forall_impl. intros z Hin h Hh. rewrite E3 by done. apply Hin. unfold in_page, cell, column, TILE_MAX_W. word_lia. }
  { repeat split; lia. }
  fold p' in P', Eb', Ep, T. rewrite Z2Nat.id, Z.add_0_l in Eb', T by lia. split; [done|].
  injection Eb' as Eh Ev. destruct (crtc_fields md (countable_240p _ _) _ (t_set _ _ (p_settled _ _ P'))) as (_ & _ & _ & F5 & _ & _ & _ & F9).
  pose proof (p_settled _ _ P') as S. unfold hblank, vblank. rewrite (t_hb _ _ S), (t_vb _ _ S), Eh, Ev, F5, F9.
  split; [lia|]. split; [lia|]. destruct (T ltac:(lia)) as [_ _ _ _ _ _ _ Hout]. specialize (Hout ltac:(unfold column; lia)).
  assert (color_out (pic_tiles p') = tile_pixel gfx_rom (tiles g) (front_page g) x y) as Ec.
  { rewrite Hout. unfold pixel, pattern, tile_pixel. rewrite E2. by replace (column md (hbp md + x) - 9) with x by (unfold column; lia). }
  split; [exact Ec|]. intros xs0 z -> Hz. rewrite removelast_last in Ep. rewrite Ec in Ep. unfold p', pic_run. rewrite foldl_app.
  cbn [foldl pic_clock pic_pal]. fold (pic_run xs0 (mkPicture s t c)). rewrite Ep. by apply pal_q_step.
Qed.

(** The letter on line 2, column 3 of a 4:3 screen: the fifth line of its
    pattern, on the first page. *)
#[local] Instance demo_rom : MemBlock (Z * Z) := { block_clock a r := (a, r.1 mod 7 * 0x1234567); block_q := snd }.
#[local] Instance demo_pal : PalBlock ((Z -> Z) * Z) := { pal_step i a p := (pal_write i p.1, p.1 a); pal_q := snd; pal_mem := fst }.
#[local] Instance demo_pal_reads : PalReads ((Z -> Z) * Z).
Proof. by split. Qed.

Definition demo_colors : (Z -> Z) * Z := (fun a => 32767 - a * 5, 0).

(** No write to the palette. *)
Definition pal_idle : pal_in := {| w_wr0 := false; w_wr1 := false; w_address := 0; w_data := 0 |}.

Definition demo_line : crtc_hw :=
  {| creg := fun i => nth (Z.to_nat i) [1; 4; 320; 8; 32; 40; 240; 3; 4; 6; 0; 0; 0; 0; 0; 0; 0; 26] 0;
     hb_start := 360; vb_start := 246; hs_start := 368; vs_start := 249; hs_end := 400; vs_end := 253;
     pll_io_req_prev := false; pll_write := false;
     ce := {| cencnt := 0; half := false; edgecnt := 0; cen := 1; cenb := 0 |} |}.

Definition demo_gfx : gfx :=
  {| tile_ctrl := (65505, 65530); page_tile_ctrl := [(65505, 65530); (65505, 506)];
     page_vram := [VRAM_BASE; VRAM_BASE + 2 * (TILE_MAX_W * 64)]; vram := VRAM_BASE + 2 * 8192; page_front := 0;
     contexts := replicate 8 context0; context_idx := 0; ctx := 0; tiles := fun a => if a =? 259 then 0x341 else 0x20;
     menus := [INIT_MENU_CONTEXT]; inp := input_init; log := [] |}.

Definition demo_picture : picture (ROM := Z * Z) (PAL := (Z -> Z) * Z) :=
  {| pic_crtc := demo_line; pic_pal := demo_colors;
     pic_tiles := {| t_hofs := 65505; t_vofs := 65530; tileref_q := 1; tileref := 2; rom := (3, 4); shiftout := 5; color := 6;
                     color_out := 7; stage := 0; vcnt_prev := 0 |} |}.

Lemma picture_shown_witness :
  let p' := pic_run (replicate 271 (tiles demo_gfx, pal_idle) ++ [(tiles demo_gfx, pal_idle)]) demo_picture in
  beam (pic_crtc p') = (68, 26) /\ hblank (pic_crtc p') = false /\ vblank (pic_crtc p') = false /\
  pal_q (pic_pal p') = 32767 - tile_pixel (fun a => a mod 7 * 0x1234567) (tiles demo_gfx) 0 28 20 * 5.
Proof.
  destruct (picture_shown (HR := demo_rom) (HP := demo_pal) (fun a => a mod 7 * 0x1234567) (fun a r => eq_refl) demo_pal_reads
           false (of_Z F32 0) demo_gfx demo_picture (replicate 271 (tiles demo_gfx, pal_idle) ++ [(tiles demo_gfx, pal_idle)]) 28 20) as (H1 & H2 & H3 & _ & H5);
    cbn [mode_240p hact vact vbp hbp]; try lia; try reflexivity.
  - intros a. pose proof (Z.mod_pos_bound a 7). lia.
  - repeat split; cbn; auto.
  - split; [split; vm_compute; reflexivity|split; vm_compute; reflexivity|vm_compute; split_and!; discriminate || reflexivity].
  - apply Forall_app_2; [apply Forall_replicate|apply Forall_cons_2]; first [reflexivity|apply Forall_nil_2].
  - split; [exact H1|]. split; [exact H2|]. split; [exact H3|]. rewrite (H5 (replicate 271 (tiles demo_gfx, pal_idle)) (tiles demo_gfx, pal_idle) eq_refl eq_refl).
    rewrite palette_run. vm_compute. reflexivity.
Defined.
