(* ===== verification/SysBus.v ===== *)
(** * The processor bus (rtl/system.sv, sys/sys_top.v)

    The decoding of addresses, the registers of the system and the
    acknowledgement of a bus cycle, as clocked machines; and the refinement
    between the writes of the firmware ([Hdmi.bus_write]) and the bus cycles
    that carry them to the decoder of the HDMI port and the CRT controller. *)

From S2P Require Import Prelude Clock Float Hdmi HdmiProps Crtc Tilemap.

(** ** A clock of the bus *)

(** [b_rw] is high for a read; [b_lds] and [b_uds] are high where the strobe
    is asserted. *)
Record cpu_bus : Type := mkCpuBus {
  b_addr : Z;
  b_rw : bool;
  b_lds : bool;
  b_uds : bool;
  b_dout : Z
}.

(** The select of a region: [cpu_addr[23:16]]. *)
Definition sel (r : Z) (b : cpu_bus) : bool := (b_addr b / 65536) mod 256 =? r.
Definition ram_sel := sel 0x10.
Definition ticks_sel := sel 0x20.
Definition user_sel := sel 0x30.
Definition pad_sel := sel 0x40.
Definition hps_valid_sel := sel 0x51.
Definition crtc_sel := sel 0x80.
Definition tilemap_ram_sel := sel 0x90.
Definition tilemap_reg_sel := sel 0x91.
Definition tilemap_sel (b : cpu_bus) : bool := tilemap_ram_sel b || tilemap_reg_sel b.
Definition pal_sel := sel 0x92.
Definition blitter_sel := sel 0x93.
Definition vio_sel := sel 0x60.
Definition int_sel := sel 0x70.
Definition ver_sel := sel 0xf0.

(** What the devices put out, and the word the processor reads. *)
Record outputs : Type := mkOutputs {
  ram_dout : Z; crtc_dout : Z; tilemap_dout : Z; pal_dout : Z; o_ticks_latch : Z; user_in : Z; gamepad : Z;
  vio_dout : Z; o_int_ctrl : Z; blitter_dout : Z; BDI : Z; rom_dout : Z
}.

Definition cpu_din (o : outputs) (b : cpu_bus) : Z :=
  let a1 := Z.testbit (b_addr b) 1 in
  if ram_sel b then ram_dout o
  else if crtc_sel b then crtc_dout o
  else if tilemap_sel b then tilemap_dout o
  else if pal_sel b then pal_dout o
  else if ticks_sel b && a1 then u16 (o_ticks_latch o)
  else if ticks_sel b && negb a1 then o_ticks_latch o / 65536
  else if user_sel b then user_in o mod 128
  else if pad_sel b then u16 (gamepad o)
  else if vio_sel b then vio_dout o
  else if int_sel b then o_int_ctrl o
  else if blitter_sel b then blitter_dout o
  else if ver_sel b && a1 then u16 (BDI o)
  else if ver_sel b && negb a1 then BDI o / 65536
  else rom_dout o.

(** ** The registers of the system *)

Record sys_regs : Type := mkSysRegs {
  ticks2 : Z;
  ticks_latch : Z;
  user_out : Z;
  hps_valid : bool;
  int_ctrl : Z;
  vio_en : bool;
  new_vmode : bool;
  prev_strobe : bool;
  vio_strobe : bool;
  vio_din : Z
}.

Definition sys_clock (reset : bool) (ticks : Z) (b : cpu_bus) (s : sys_regs) : sys_regs :=
  let wr := negb (b_rw b) in
  let vio := vio_sel b && wr && (b_lds b && b_uds b) in
  let enable := vio && (u16 (b_addr b) =? 0x8000) in
  let data := vio && (u16 (b_addr b) =? 0x0000) in
  if reset then
    {| ticks2 := ticks2 s; ticks_latch := ticks_latch s; user_out := user_out s; hps_valid := false; int_ctrl := 0;
       vio_en := false; new_vmode := new_vmode s; prev_strobe := false; vio_strobe := false; vio_din := vio_din s |}
  else
    {| ticks2 := ticks;
       ticks_latch := if ticks_sel b && wr then ticks2 s else ticks_latch s;
       user_out := if user_sel b && wr && b_lds b then b_dout b mod 128 else user_out s;
       hps_valid := if hps_valid_sel b && wr && b_lds b then Z.odd (b_dout b) else hps_valid s;
       int_ctrl := word_write (int_sel b && wr && b_lds b) (int_sel b && wr && b_uds b) (b_dout b) (int_ctrl s);
       vio_en := if enable then Z.odd (b_dout b) else vio_en s;
       new_vmode := if enable then negb (new_vmode s) else new_vmode s;
       prev_strobe := data;
       vio_strobe := data && negb (prev_strobe s);
       vio_din := if data then b_dout b else vio_din s |}.

(** ** Acknowledging a cycle *)

(** [cpu_dtack_n], [cpu_vpa_n] and the strobes of the last clock. *)
Record ack : Type := mkAck { dtack_n : bool; vpa_n : bool; prev_ds_n : bool }.

(** [as_n]: no address; [iack]: the function code of an interrupt acknowledge. *)
Definition ack_clock (reset as_n iack : bool) (b : cpu_bus) (s : ack) : ack :=
  let ds_n := negb (b_lds b) && negb (b_uds b) in
  if reset then {| dtack_n := true; vpa_n := true; prev_ds_n := prev_ds_n s |}
  else if as_n || (ds_n && negb (prev_ds_n s)) then {| dtack_n := true; vpa_n := true; prev_ds_n := ds_n |}
  else if iack then {| dtack_n := dtack_n s; vpa_n := false; prev_ds_n := ds_n |}
  else {| dtack_n := false; vpa_n := vpa_n s; prev_ds_n := ds_n |}.

(** The pin of the processor. *)
Definition DTACKn (blit_active : bool) (s : ack) : bool := dtack_n s || blit_active.

(** ** The palette *)

(** Both halves of a word; the write enables take the strobes as they are on
    the pins, high while they are not asserted. *)
Definition pal_port (b : cpu_bus) : pal_in :=
  let wr lane := pal_sel b && negb (b_rw b) && negb lane in
  {| w_wr0 := wr (b_lds b); w_wr1 := wr (b_uds b); w_address := (b_addr b / 2) mod 256; w_data := b_dout b |}.

Definition pal_clock (b : cpu_bus) (pal : Z -> Z) : Z -> Z := pal_write (pal_port b) pal.

(** ** The two receivers on the bus *)

Definition crtc_port (b : cpu_bus) : crtc_in :=
  let wr lane := crtc_sel b && negb (b_rw b) && lane in
  {| c_reset := false; c_wr0 := wr (b_lds b); c_wr1 := wr (b_uds b); c_address := (b_addr b / 2) mod 32; c_din := b_dout b |}.

(** A clock of the decoder of the HDMI port. *)
Definition rx_clock (enable strobe : bool) (d : Z) (r : vio_rx) : vio_rx :=
  let r := rx_enable enable r in
  if enable && strobe then if has_cmd r then rx_word d r else rx_command d r else r.

(** [queued]: what [pll_write] has put in the queue of the PLL. *)
Record board : Type := mkBoard {
  sys : sys_regs;
  hdmi : vio_rx;
  crtc : crtc_hw;
  queued : list (Z * Z)
}.

(** The inputs of a clock: the tick counter and the bus. *)
Definition board_clock (i : Z * cpu_bus) (x : board) : board :=
  {| sys := sys_clock false i.1 i.2 (sys x);
     hdmi := rx_clock (vio_en (sys x)) (vio_strobe (sys x)) (vio_din (sys x)) (hdmi x);
     crtc := crtc_clock (crtc_port i.2) (crtc x);
     queued := if pll_write (crtc x) then queued x ++ [(pll_addr (crtc x), pll_value (crtc x))] else queued x |}.

Definition board_run (bs : list (Z * cpu_bus)) (x : board) : board := foldl (fun x i => board_clock i x) x bs.

Lemma board_run_app bs bs' x : board_run (bs ++ bs') x = board_run bs' (board_run bs x).
Proof. apply foldl_app. Qed.

(** ** Bus cycles *)

(** The clocks of a write in which the strobes are asserted. *)
Definition bus_of (w : bus_write) : cpu_bus :=
  let word a d := {| b_addr := a; b_rw := false; b_lds := true; b_uds := true; b_dout := d |} in
  match w with
  | VioEn v => word 0x608000 v
  | VioData v => word 0x600000 v
  | Crtc reg v => word (0x800000 + 2 * reg) v
  end.

(** Any other clock: a read, a clock without strobes, a write elsewhere. *)
Definition quietb (b : cpu_bus) : bool :=
  b_rw b || (negb (b_lds b) && negb (b_uds b)) || (negb (vio_sel b) && negb (crtc_sel b)).

(** The writes [ws], each held for some clocks and followed by quiet ones. *)
Inductive cycles : list bus_write -> list (Z * cpu_bus) -> Prop :=
  | cycles_nil : cycles [] []
  | cycles_quiet ws q bs : quietb q.2 = true -> cycles ws bs -> cycles ws (q :: bs)
  | cycles_write w ws ts q bs :
      ts <> [] -> quietb q.2 = true -> cycles ws bs -> cycles (w :: ws) (map (fun t => (t, bus_of w)) ts ++ q :: bs).

Definition is_data (w : bus_write) : bool := match w with VioData _ => true | _ => false end.
Definition is_pll (w : bus_write) : bool := match w with Crtc reg _ => reg =? PLL_IO_REG | _ => false end.

(** The decoder and the queue after the next clock. *)
Definition next_rx (x : board) : vio_rx := rx_clock (vio_en (sys x)) (vio_strobe (sys x)) (vio_din (sys x)) (hdmi x).
Definition next_queued (x : board) : list (Z * Z) :=
  if pll_write (crtc x) then queued x ++ [(pll_addr (crtc x), pll_value (crtc x))] else queued x.

(** The board one clock before it has received: [data] and [pll] tell that the
    strobe of a data word or a PLL request was seen in the last clock. *)
Record nearly (data pll : bool) (r : vio_rx) (q : crtc_rx) (x : board) : Prop := {
  n_rx : next_rx x = r;
  n_en : vio_en (sys x) = en r;
  n_idle : en r = false -> has_cmd r = false /\ cmd r = 0;
  n_prev : prev_strobe (sys x) = data;
  n_regs : forall j, 0 <= j < 16 -> creg (crtc x) j = ctrl q j;
  n_req : pll_io_req_prev (crtc x) = pll;
  n_queued : next_queued x = crtc_pll q
}.

(** The board in step with the receivers of the writes. *)
Definition in_step (r : vio_rx) (q : crtc_rx) (x : board) : Prop :=
  nearly false false r q x /\ hdmi x = r /\ queued x = crtc_pll q.

(** ** Reads *)

Definition read_at (a : Z) : cpu_bus := {| b_addr := a; b_rw := true; b_lds := true; b_uds := true; b_dout := 0 |}.

(** The two words of the tick clock, in the order of the processor. *)
Lemma ticks_read o :
  is_u32 (o_ticks_latch o) ->
  cpu_din o (read_at 0x200000) * 65536 + cpu_din o (read_at 0x200002) = o_ticks_latch o.
Proof.
  intros H. change (cpu_din o (read_at 0x200000)) with (o_ticks_latch o / 65536).
  change (cpu_din o (read_at 0x200002)) with (u16 (o_ticks_latch o)). unfold is_u32 in H. word_lia.
Qed.

(** Where the pointers of the firmware read: the RAM of the linker script, the
    user port, the pad, the HDMI port, the registers of the CRT controller,
    the tiles and their registers, the palette and the blitter; the ROM below. *)
Lemma reads_decoded o :
  (forall a, 0x100000 <= a < 0x110000 -> cpu_din o (read_at a) = ram_dout o) /\
  cpu_din o (read_at 0x300000) = user_in o mod 128 /\ cpu_din o (read_at 0x400000) = u16 (gamepad o) /\
  cpu_din o (read_at 0x600000) = vio_dout o /\ cpu_din o (read_at 0x700000) = o_int_ctrl o /\
  (forall i, 0 <= i < 16 -> cpu_din o (read_at (0x800000 + 2 * i)) = crtc_dout o) /\
  (forall i, 0 <= i < 65536 -> cpu_din o (read_at (0x900000 + 2 * i)) = tilemap_dout o) /\
  (forall i, 0 <= i < 256 -> cpu_din o (read_at (0x920000 + 2 * i)) = pal_dout o) /\
  (forall i, 0 <= i < 8 -> cpu_din o (read_at (0x930000 + 2 * i)) = blitter_dout o) /\
  (forall a, 0 <= a < 0x100000 -> cpu_din o (read_at a) = rom_dout o).
Proof.
  assert (forall a r, 65536 * r <= a < 65536 * r + 65536 -> 0 <= r < 256 -> (b_addr (read_at a) / 65536) mod 256 = r) as D by (cbn; intros; word_lia).
  split_and!; try reflexivity; intros a Ha; unfold cpu_din, ram_sel, crtc_sel, tilemap_sel, tilemap_ram_sel, tilemap_reg_sel, pal_sel,
    ticks_sel, user_sel, pad_sel, vio_sel, int_sel, blitter_sel, ver_sel, sel.
  - by rewrite (D _ 0x10) by lia.
  - by rewrite (D _ 0x80) by lia.
  - destruct (Z.ltb_spec a 32768); [by rewrite (D _ 0x90) by lia|by rewrite (D _ 0x91) by lia].
  - by rewrite (D _ 0x92) by lia.
  - by rewrite (D _ 0x93) by lia.
  - rewrite (D a (a / 65536)) by word_lia. assert (0 <= a / 65536 < 16) as R by word_lia. generalize dependent (a / 65536). intros r R.
    rewrite !(proj2 (Z.eqb_neq r _)) by lia. done.
Qed.

(** The word of the ROM: the ROM holds 64 KiB, the linker script gives it 256
    (mrlaggy.ld), and addresses beyond the first 64 KiB read it again. *)
Definition rom_word (b : cpu_bus) : Z := (b_addr b / 2) mod 32768.

Lemma rom_again a : rom_word (read_at (a + 0x10000)) = rom_word (read_at a).
Proof. unfold rom_word. cbn [read_at b_addr]. word_lia. Qed.

(** ** A cycle is acknowledged *)

Definition ack_run (iack : bool) (bs : list cpu_bus) (s : ack) : ack := foldl (fun s b => ack_clock false false iack b s) s bs.

(** No strobe is asserted, and strobes that stay asserted once they are. *)
Definition ds_n (b : cpu_bus) : bool := negb (b_lds b) && negb (b_uds b).
Fixpoint strobes_held (prev : bool) (bs : list cpu_bus) : bool :=
  match bs with [] => true | b :: bs => (prev || negb (ds_n b)) && strobes_held (ds_n b) bs end.

(** After a clock without an address, the clocks of a cycle up to the end of
    its strobes: a memory cycle is answered with DTACK and an interrupt
    acknowledge with VPA, never both, from the first clock on. *)
Lemma cycle_acked iack b0 s bs :
  bs <> [] -> strobes_held (ds_n b0) bs = true ->
  let s' := ack_run iack bs (ack_clock false true iack b0 s) in dtack_n s' = iack /\ vpa_n s' = negb iack.
Proof.
  intros Hne Hb. set (s0 := ack_clock _ _ _ _ _).
  assert ((iack = true -> dtack_n s0 = true) /\ (iack = false -> vpa_n s0 = true) /\ prev_ds_n s0 = ds_n b0) as (H1 & H2 & H3) by done.
  rewrite <- H3 in Hb. clear H3. clearbody s0. clear b0 s. revert s0 Hne Hb H1 H2. induction bs as [|b bs IH]; intros s Hne Hb H1 H2; [done|]. cbn [strobes_held] in Hb.
  apply andb_true_iff in Hb as [Hp Hb]. cbn [ack_run foldl]. set (s' := ack_clock false false iack b s).
  assert (dtack_n s' = iack /\ vpa_n s' = negb iack /\ prev_ds_n s' = ds_n b) as (E1 & E2 & E3).
  { subst s'. unfold ack_clock. fold (ds_n b). cbn [orb]. destruct (ds_n b), (prev_ds_n s), iack; try done; cbn in *; auto. }
  clearbody s'. destruct bs as [|b' bs]; [done|]. rewrite <- E3 in Hb. apply (IH s' ltac:(done) Hb); intros ->; done.
Qed.

(** ** Writes to the palette *)

(** A byte write reaches the half whose strobe is not asserted. *)
Lemma palette_byte_write d pal i :
  0 <= i < 256 ->
  pal_clock {| b_addr := 0x920000 + 2 * i; b_rw := false; b_lds := true; b_uds := false; b_dout := d |} pal i =
    256 * (d / 256) + pal i mod 256.
Proof.
  intros Hi. unfold pal_clock, pal_write, pal_port, pal_sel, sel. cbn [w_wr0 w_wr1 w_address w_data b_addr b_rw b_lds b_uds b_dout].
  replace ((0x920000 + 2 * i) / 2 mod 256) with i by word_lia. replace ((0x920000 + 2 * i) / 65536) with 0x92 by word_lia.
  rewrite Z.eqb_refl. done.
Qed.

Lemma word_write_both d old : word_write true true d old = d.
Proof. unfold word_write. word_lia. Qed.

Lemma word_write_none d old : word_write false false d old = old.
Proof. unfold word_write. word_lia. Qed.

(** A word is written in the clocks around the strobes. *)
Lemma palette_word_write d pal i :
  0 <= i < 256 ->
  let b s := {| b_addr := 0x920000 + 2 * i; b_rw := false; b_lds := s; b_uds := s; b_dout := d |} in
  pal_clock (b true) pal i = pal i /\ pal_clock (b false) pal i = d.
Proof.
  intros Hi b. unfold pal_clock, pal_write, pal_port, pal_sel, sel, b. cbn [w_wr0 w_wr1 w_address w_data b_addr b_rw b_lds b_uds b_dout].
  replace ((0x920000 + 2 * i) / 2 mod 256) with i by word_lia. replace ((0x920000 + 2 * i) / 65536) with 0x92 by word_lia.
  rewrite Z.eqb_refl. split; [apply word_write_none|apply word_write_both].
Qed.

(** ** The refinement *)

Lemma rx_clock_idle r d : (en r = false -> has_cmd r = false /\ cmd r = 0) -> rx_clock (en r) false d r = r.
Proof.
  intros H. unfold rx_clock, rx_enable. rewrite andb_false_r. destruct r as [[] h c]; cbn in *; [done|].
  by destruct H as [-> ->].
Qed.

Lemma rx_step_idle r w : (en r = false -> has_cmd r = false /\ cmd r = 0) -> let r' := rx_step r w in en r' = false -> has_cmd r' = false /\ cmd r' = 0.
Proof.
  intros H. destruct w as [v|d|reg v]; cbn; [by intros ->| |done].
  destruct (en r) eqn:E; cbn; [|by rewrite E]. destruct (has_cmd r); cbn; by rewrite E.
Qed.

(** The signals of the port in a clock. *)
Lemma quiet_signals b :
  quietb b = true ->
  vio_sel b && negb (b_rw b) && (b_lds b && b_uds b) = false /\ c_wr0 (crtc_port b) = false /\ c_wr1 (crtc_port b) = false.
Proof.
  unfold quietb. cbn [crtc_port c_wr0 c_wr1]. destruct (b_rw b), (b_lds b), (b_uds b), (vio_sel b), (crtc_sel b); cbn; intros; try done.
Qed.

Lemma crtc_regs_clock i s j :
  c_reset i = false -> 0 <= j < 16 ->
  creg (crtc_clock i s) j =
    if (c_wr0 i || c_wr1 i) && (j =? c_address i) then word_write (c_wr0 i) (c_wr1 i) (c_din i) (creg s j) else creg s j.
Proof.
  intros Hr Hj. cbn [crtc_clock creg]. unfold creg_clock, HCNT_REG, VCNT_REG. rewrite Hr, (proj2 (Z.eqb_neq j 16)), (proj2 (Z.eqb_neq j 17)) by lia.
  cbn [andb]. by destruct (ce_pixel s), (last_line_pixel s).
Qed.

Lemma nearly_next d p r q x i : nearly d p r q x -> hdmi (board_clock i x) = r /\ queued (board_clock i x) = crtc_pll q.
Proof. intros N. split; [apply (n_rx _ _ _ _ _ N)|apply (n_queued _ _ _ _ _ N)]. Qed.

Lemma quiet_clock d p r q x i : quietb i.2 = true -> nearly d p r q x -> in_step r q (board_clock i x).
Proof.
  intros Q N. destruct (quiet_signals _ Q) as (V & W0 & W1), (nearly_next _ _ _ _ _ i N) as [Er Eq]. destruct N as [Nr Ne Ni Np Ng Nq Nu].
  split; [|done]. unfold board_clock, sys_clock in *. rewrite V. cbn [andb]. split; cbn [sys hdmi crtc queued vio_en prev_strobe] in *; try done.
  - unfold next_rx. cbn [sys hdmi vio_en vio_strobe vio_din]. rewrite Er, Ne. by apply rx_clock_idle.
  - intros j Hj. rewrite crtc_regs_clock, W0, W1 by done. by apply Ng.
  - cbn [crtc crtc_clock pll_io_req_prev]. by rewrite W0.
  - unfold next_queued. cbn [crtc crtc_clock pll_write queued]. rewrite W0. exact Nu.
Qed.

Lemma write_signals w :
  crtc_regs_ok w ->
  let b := bus_of w in
  let vio := vio_sel b && negb (b_rw b) && (b_lds b && b_uds b) in
  vio && (u16 (b_addr b) =? 0x8000) = match w with VioEn _ => true | _ => false end /\
  vio && (u16 (b_addr b) =? 0x0000) = is_data w /\
  crtc_port b = match w with
                | Crtc reg v => {| c_reset := false; c_wr0 := true; c_wr1 := true; c_address := reg; c_din := v |}
                | _ => crtc_port b
                end /\
  c_wr0 (crtc_port b) = c_wr1 (crtc_port b) /\ c_wr0 (crtc_port b) = match w with Crtc _ _ => true | _ => false end.
Proof.
  destruct w as [v|v|reg v]; intros Hw; [done..|]. cbn in Hw. unfold crtc_port, crtc_sel, vio_sel, sel. cbn [bus_of b_addr b_rw b_lds b_uds b_dout].
  replace ((0x800000 + 2 * reg) / 65536) with 0x80 by word_lia.
  replace ((0x800000 + 2 * reg) / 2 mod 32) with reg by word_lia. done.
Qed.

(** A clock of the write [w], its first one or a later one. *)
Lemma write_clock d p r q r' q' w x t :
  crtc_regs_ok w -> nearly d p r q x ->
  en r' = (match w with VioEn v => Z.odd v | _ => en r end) -> (en r' = false -> has_cmd r' = false /\ cmd r' = 0) ->
  rx_clock (en r') (is_data w && negb d) (b_dout (bus_of w)) r = r' ->
  (forall j, ctrl q' j = match w with Crtc reg v => if j =? reg then v else ctrl q j | _ => ctrl q j end) ->
  crtc_pll q' = (if is_pll w && negb p then crtc_pll q ++ [(low_bits 6 (ctrl q' 14), ctrl q' 12 * 65536 + ctrl q' 13)] else crtc_pll q) ->
  nearly (is_data w) (is_pll w) r' q' (board_clock (t, bus_of w) x).
Proof.
  intros Hw N He Hi Hr Hg Hp. destruct (nearly_next _ _ _ _ _ (t, bus_of w) N) as [Er Eq]. destruct N as [Nr Ne Ni Np Ng Nq Nu].
  destruct (write_signals w Hw) as (V1 & V2 & C & C1 & C0).
  assert (forall j, 0 <= j < 16 -> creg (crtc (board_clock (t, bus_of w) x)) j = ctrl q' j) as G.
  { intros j Hj. cbn [crtc board_clock snd]. rewrite crtc_regs_clock, <- C1, C0, Ng, Hg by done.
    destruct w as [v|v|reg v]; [done..|]. rewrite C. cbn [c_address c_din andb orb]. destruct (j =? reg); [apply word_write_both|done]. }
  assert (c_wr0 (crtc_port (bus_of w)) && (c_address (crtc_port (bus_of w)) =? PLL_IO_REG) = is_pll w) as P.
  { rewrite C0. destruct w; [done..|]. by rewrite C. }
  split; [| |exact Hi| |exact G| |].
  - unfold next_rx. rewrite Er. unfold board_clock, sys_clock. cbn [sys fst snd vio_en vio_strobe vio_din]. rewrite V1, V2, Np, Ne.
    rewrite He in Hr. destruct w; cbn [is_data andb bus_of b_dout] in *; unfold rx_clock in *; rewrite ?andb_false_r in *; exact Hr.
  - unfold board_clock, sys_clock. cbn [sys fst snd vio_en]. rewrite V1, He. by destruct w.
  - unfold board_clock, sys_clock. cbn [sys fst snd prev_strobe]. exact V2.
  - cbn [board_clock crtc crtc_clock pll_io_req_prev snd]. exact P.
  - unfold next_queued. rewrite Eq, Hp, <- !G by lia. cbn [board_clock crtc snd]. unfold crtc_clock at 1. cbn [pll_write].
    rewrite P, Nq. by destruct (is_pll w && negb p).
Qed.

Lemma rx_step_en r w : en (rx_step r w) = match w with VioEn v => Z.odd v | _ => en r end.
Proof.
  destruct w; cbn; [done| |done]. destruct (en r) eqn:E; cbn; [|done]. destruct (has_cmd r); cbn; by rewrite E.
Qed.

Lemma rx_first r w :
  (en r = false -> has_cmd r = false /\ cmd r = 0) -> rx_clock (en (rx_step r w)) (is_data w) (b_dout (bus_of w)) r = rx_step r w.
Proof.
  intros Hi. rewrite rx_step_en. destruct w as [v|v|reg v]; cbn [is_data bus_of b_dout rx_step].
  - unfold rx_clock. rewrite andb_false_r. done.
  - destruct (en r) eqn:E; cbn [negb].
    + unfold rx_clock. cbn [andb]. assert (rx_enable true r = r) as -> by (unfold rx_enable; destruct r; cbn in E; by rewrite E). done.
    + transitivity (rx_clock (en r) false v r); [by rewrite E|]. apply rx_clock_idle. by rewrite E.
  - by apply rx_clock_idle.
Qed.

Lemma write_first r q w x t : crtc_regs_ok w -> nearly false false r q x ->
  nearly (is_data w) (is_pll w) (rx_step r w) (crtc_step q w) (board_clock (t, bus_of w) x).
Proof.
  intros Hw N. apply (write_clock false false r q); [done|done|apply rx_step_en|apply rx_step_idle, (n_idle _ _ _ _ _ N)| | |].
  - rewrite andb_true_r. apply rx_first, (n_idle _ _ _ _ _ N).
  - by destruct w.
  - destruct w; try done. cbn. rewrite andb_true_r. by destruct (_ =? _).
Qed.

Lemma write_again r q w x t : crtc_regs_ok w ->
  nearly (is_data w) (is_pll w) (rx_step r w) (crtc_step q w) x ->
  nearly (is_data w) (is_pll w) (rx_step r w) (crtc_step q w) (board_clock (t, bus_of w) x).
Proof.
  intros Hw N. pose proof (n_idle _ _ _ _ _ N) as Hi.
  eapply write_clock; [exact Hw|exact N| |exact Hi| | |].
  - rewrite !rx_step_en. by destruct w.
  - rewrite andb_negb_r. by apply rx_clock_idle.
  - intros j. destruct w; try done. cbn. by destruct (_ =? _).
  - by rewrite andb_negb_r.
Qed.

Lemma cycles_step ws bs :
  cycles ws bs -> Forall crtc_regs_ok ws ->
  forall r q x, in_step r q x -> in_step (receive ws r) (crtc_receive ws q) (board_run bs x).
Proof.
  induction 1 as [|ws i bs Hi _ IH|w ws ts i bs Hts Hi _ IH]; intros Hw r q x S; [done| |].
  - apply IH, (quiet_clock false false); [done|done|apply S].
  - apply Forall_cons_iff in Hw as [Hw Hws]. rewrite board_run_app. cbn [board_run foldl receive crtc_receive].
    apply IH; [done|]. apply (quiet_clock (is_data w) (is_pll w)); [done|]. destruct ts as [|t ts]; [done|].
    cbn [map board_run foldl]. pose proof (write_first r q w x t Hw (proj1 S)) as N. clear Hts S.
    revert N. generalize (board_clock (t, bus_of w) x). clear x t. induction ts as [|t ts IHt]; intros x N; [done|].
    cbn [map foldl]. by apply IHt, write_again.
Qed.

(** C7: The bus carries the writes of the firmware to the hardware.  Whatever
    the number of clocks a write is held, and whatever quiet clocks are
    between two writes, the decoder of the HDMI port sees every word exactly
    once and in order, the registers of the CRT controller hold what was
    written, and each request to the PLL is queued exactly once: the hardware
    refines the receivers [rx_step] and [crtc_step]. *)
Theorem writes_delivered (ws : list bus_write) (bs : list (Z * cpu_bus)) (r : vio_rx) (q : crtc_rx) (x : board) :
  cycles ws bs -> Forall crtc_regs_ok ws -> in_step r q x ->
  let x' := board_run bs x in
  hdmi x' = receive ws r /\ (forall j, 0 <= j < 16 -> creg (crtc x') j = ctrl (crtc_receive ws q) j) /\
  queued x' = crtc_pll (crtc_receive ws q) /\ in_step (receive ws r) (crtc_receive ws q) x'.
Proof.
  intros Hc Hw S. pose proof (cycles_step ws bs Hc Hw r q x S) as S'. cbv zeta. destruct (id S') as (N & E1 & E2).
  split; [exact E1|]. split; [exact (n_regs _ _ _ _ _ N)|]. done.
Qed.

(** A command of two words, its writes held for one, two and three clocks. *)
Definition demo_board : board :=
  {| sys := {| ticks2 := 0; ticks_latch := 0; user_out := 0; hps_valid := false; int_ctrl := 0; vio_en := false;
               new_vmode := false; prev_strobe := false; vio_strobe := false; vio_din := 0 |};
     hdmi := {| en := false; has_cmd := false; cmd := 0; cnt := 0; WIDTH := 0; HFP := 0; HS := 0; HBP := 0;
                HEIGHT := 0; VFP := 0; VS := 0; VBP := 0; lowlat := 0; cfg_custom_p1 := 0; cfg_custom_p2 := 0;
                pll_writes := []; override := 0; cfg_set := 0 |};
     crtc := demo_crtc_hw;
     queued := [] |}.

Lemma demo_in_step : in_step (hdmi demo_board) {| ctrl := creg demo_crtc_hw; crtc_pll := [] |} demo_board.
Proof. split; [|done]. by split. Qed.

Definition quiet_bus : cpu_bus := {| b_addr := 0x100000; b_rw := true; b_lds := true; b_uds := true; b_dout := 0 |}.

Lemma writes_delivered_witness :
  let ws := [VioEn 0xffff; VioData 3; VioData 1; Crtc 2 384] in
  let bs := [(0, bus_of (VioEn 0xffff)); (1, quiet_bus); (2, bus_of (VioData 3)); (2, bus_of (VioData 3)); (3, quiet_bus);
             (4, bus_of (VioData 1)); (5, bus_of (VioData 1)); (6, bus_of (VioData 1)); (7, quiet_bus); (8, quiet_bus);
             (9, bus_of (Crtc 2 384)); (9, quiet_bus)] in
  let x' := board_run bs demo_board in
  hdmi x' = receive ws (hdmi demo_board) /\ override (hdmi x') = 1 /\ creg (crtc x') 2 = 384.
Proof.
  intros ws bs x'. assert (cycles ws bs) as Hc.
  { apply (cycles_write (VioEn 0xffff) _ [0] (1, quiet_bus)); [done|done|].
    apply (cycles_write (VioData 3) _ [2; 2] (3, quiet_bus)); [done|done|].
    apply (cycles_write (VioData 1) _ [4; 5; 6] (7, quiet_bus)); [done|done|]. apply cycles_quiet; [done|].
    apply (cycles_write (Crtc 2 384) _ [9] (9, quiet_bus)); [done|done|]. apply cycles_nil. }
  assert (Forall crtc_regs_ok ws) as Hw by (repeat constructor; lia).
  destruct (writes_delivered ws bs _ _ _ Hc Hw demo_in_step) as (E1 & E2 & _). fold x' in E1, E2.
  split; [exact E1|]. rewrite E1, (E2 2) by lia. split; vm_compute; reflexivity.
Defined.

(** ** From the firmware to the frames of the CRT *)

Lemma cencnt_u11 i s : 0 <= cencnt (ce (crtc_clock i s)) < 2048.
Proof. cbn [crtc_clock ce frac_clock cencnt]. unfold u11. destruct (_ <=? _); apply Z.mod_pos_bound; lia. Qed.

Lemma run_cencnt bs : forall x, bs <> [] -> 0 <= cencnt (ce (crtc (board_run bs x))) < 2048.
Proof.
  induction bs as [|i bs IH]; intros x H; [done|]. cbn [board_run foldl]. destruct bs as [|j bs]; [apply cencnt_u11|].
  by apply (IH (board_clock i x)).
Qed.

Lemma cycles_nonempty w ws bs : cycles (w :: ws) bs -> bs <> [].
Proof. inversion 1; [done|]. by intros [_ [=]]%app_eq_nil. Qed.

(** The mode the firmware chooses is the mode that is scanned.
    [crt_set_mode] returns; when the bus has carried its writes to the
    hardware, in whatever clocks, the parameters and the reconfiguration are
    queued for the PLL, the HDMI port has seen nothing, and after a line and
    some clocks the beam returns to its position after exactly four clocks
    for each pixel of the mode, forever, the vertical blanking rising once in
    that time.  The state of the counters before does not matter. *)
Theorem mode_scanned (mode : VideoMode) (wide : bool) (c m k : Z) (b : bus) (polls : list (list Z)) (rest : list Z)
    (r : vio_rx) (q : crtc_rx) (x : board) :
  pll_params F32 (fmul F32 (mhz mode) (of_Z F32 4)) = Ok (c, m, k) ->
  length polls = 8%nat -> Forall (Forall (fun x => x <> 0)) polls -> pll_io_reads b = busy_reads polls rest ->
  countable mode -> 0 < vact mode -> 0 < vfp mode + vs mode -> in_step r q x ->
  exists ws, crt_set_mode mode wide b = Ok (tt, {| writes := writes b ++ ws; pll_io_reads := rest |}) /\
    forall bs, cycles ws bs ->
      let x' := board_run bs x in
      let frame := Z.to_nat (4 * video_mode_pixels mode) in
      queued x' = queued x ++ crt_program c m k /\ hdmi x' = hdmi x /\
      exists d, Z.of_nat d <= 689 + 4 * htotal mode /\
        forall n, let s := Nat.iter (n * frame + d) crtc_tick (crtc x') in
          beam s = beam (Nat.iter d crtc_tick (crtc x')) /\ rises vblank frame s = 1.
Proof.
  intros Ep Hl Hz Hb Hm Ha Hv S. exists (crt_trace mode wide c m k). split; [by apply (crt_set_mode_runs mode wide c m k b polls rest)|].
  intros bs Hc x' frame. destruct (cycles_step _ bs Hc (crt_trace_regs mode wide c m k) r q x S) as (N & E1 & E2). fold x' in N, E1, E2.
  destruct (crt_trace_received mode wide c m k q ltac:(by eapply pll_params_k)) as [G P]. destruct S as (_ & S1 & S2).
  split; [rewrite E2, P; congruence|]. split; [rewrite E1, receive_crt_trace; congruence|].
  apply crtc_frames; [done..| |apply run_cencnt].
  - unfold crtc_set. cbn [map]. rewrite !(n_regs _ _ _ _ _ N) by lia. exact (f_equal (take 10) G).
  - exact (cycles_nonempty _ _ _ Hc).
Qed.

Lemma mode_scanned_witness :
  exists c m k ws,
    crt_set_mode mode_240p60 false {| writes := []; pll_io_reads := busy_reads ([65535] :: replicate 7 []) [] |} =
      Ok (tt, {| writes := [] ++ ws; pll_io_reads := [] |}) /\
    forall bs, cycles ws bs ->
      let x' := board_run bs demo_board in
      let frame := Z.to_nat (4 * video_mode_pixels mode_240p60) in
      queued x' = [] ++ crt_program c m k /\ hdmi x' = hdmi demo_board /\
      exists d, Z.of_nat d <= 689 + 4 * 400 /\
        forall n, let s := Nat.iter (n * frame + d) crtc_tick (crtc x') in
          beam s = beam (Nat.iter d crtc_tick (crtc x')) /\ rises vblank frame s = 1.
Proof.
  assert (exists c m k, pll_params F32 (fmul F32 (mhz mode_240p60) (of_Z F32 4)) = Ok (c, m, k))
    as (c & m & k & E) by (vm_compute; eauto).
  exists c, m, k. apply (mode_scanned mode_240p60 false c m k
    {| writes := []; pll_io_reads := busy_reads ([65535] :: replicate 7 []) [] |} ([65535] :: replicate 7 []) []
    (hdmi demo_board) {| ctrl := creg demo_crtc_hw; crtc_pll := [] |} demo_board); [exact E|reflexivity|repeat constructor; discriminate|reflexivity| |reflexivity|reflexivity|exact demo_in_step].
  clear. split; vm_compute; split_and!; discriminate || reflexivity.
Defined.
