(* ===== verification/PllQueue.v ===== *)
(** * The queue of the PLL (MiSTerLaggy.sv, sys/pll_cfg/altera_pll_reconfig_core.v)

    The requests of the CRT controller cross to the clock of the PLL in a
    queue, and a small reader passes them on to the reconfiguration port: the
    reader over any queue with the read port of a show-ahead FIFO, and the
    side of the port that makes it wait, as one clocked machine. *)

From S2P Require Import Prelude Printf Float Hdmi HdmiProps.

(** A request: address and value. *)
Definition entry : Type := Z * Z.

(** ** The read side of the queue

    rtl/pll_fifo.v instantiates it with [lpm_showahead] and
    [underflow_checking] on: the oldest word is at the output, a request
    removes it at the clock and is ignored when there is none.  [visible] are
    the words that have arrived at the read side. *)
Class ReadFifo (F : Type) : Type := {
  visible : F -> list entry;
  rdempty : F -> bool;
  fifo_q : F -> entry;
  rdclock : bool -> list entry -> F -> F
}.

Class ShowAhead (F : Type) `{ReadFifo F} : Prop := {
  rdempty_spec f : rdempty f = match visible f with [] => true | _ => false end;
  fifo_q_spec f e es : visible f = e :: es -> fifo_q f = e;
  rdclock_spec req new f : visible (rdclock req new f) = (if req then tl (visible f) else visible f) ++ new
}.

(** ** The reconfiguration port

    Its state machine, its mode and its wait request; [mgmt_read] is tied to
    zero, so [status_read] never comes.  The signals of its other parts (it
    resets itself for some hundred clocks) and of the PLL are inputs of a
    clock. *)
Definition MODE_REG : Z := 0.
Definition START_REG : Z := 2.

Inductive pll_state : Type := IDLE | WAIT_ON_LOCK | LOCKED.

Record pll_core : Type := mkCore { slave_mode : bool; current_state : pll_state }.

Record pll_signals : Type := mkSignals {
  reset : bool;
  locked : bool;
  dps_done : bool;
  dprio_init_done : bool;
  dprio_write_done : bool;
  usr_valid_changes : bool;
  read_waitrequest : bool
}.

Definition wait_on_lock (c : pll_core) : bool := match current_state c with WAIT_ON_LOCK => true | _ => false end.

Definition slave_waitrequest (g : pll_signals) (c : pll_core) : bool :=
  if negb (slave_mode c) then
    if locked g then wait_on_lock c && negb (dprio_write_done g) || negb (dps_done g) || reset g || negb (dprio_init_done g) else true
  else false.

Definition mgmt_waitrequest (g : pll_signals) (c : pll_core) : bool := slave_waitrequest g c || read_waitrequest g.

Definition pll_core_clock (g : pll_signals) (write : bool) (e : entry) (c : pll_core) : pll_core :=
  let taken := write && negb (slave_waitrequest g c) in
  if reset g then {| slave_mode := false; current_state := IDLE |}
  else
  {| slave_mode := if taken && (e.1 =? MODE_REG) then Z.odd e.2 else slave_mode c;
     current_state :=
       match current_state c with
       | IDLE => if taken && (e.1 =? START_REG) && usr_valid_changes g then WAIT_ON_LOCK else IDLE
       | WAIT_ON_LOCK =>
           if locked g && dps_done g && dprio_write_done g then if negb (slave_mode c) then IDLE else LOCKED else WAIT_ON_LOCK
       | LOCKED => LOCKED
       end |}.

(** ** The reader *)

Record reader : Type := mkReader {
  cfg_write : bool;
  cfg_address : Z;
  cfg_data : Z;
  rdack : bool
}.

Section reader.
Context {F : Type} {HF : ReadFifo F}.

Definition reader_clock (cfg_waitrequest : bool) (f : F) (s : reader) : reader :=
  if negb cfg_waitrequest && negb (rdempty f)
  then {| cfg_write := true; cfg_address := (fifo_q f).1; cfg_data := (fifo_q f).2; rdack := true |}
  else {| cfg_write := false; cfg_address := cfg_address s; cfg_data := cfg_data s; rdack := false |}.

(** [accepted]: the writes the port has taken; [ready]: it made no wait in the
    last clock; [asked]: the requests that have arrived. *)
Record pll_port : Type := mkPllPort {
  rd : reader;
  fifo : F;
  core : pll_core;
  accepted : list entry;
  ready : bool;
  asked : list entry
}.

Definition cfg (s : pll_port) : entry := (cfg_address (rd s), cfg_data (rd s)).

(** A clock: the signals, and the requests that arrive. *)
Definition port_clock (i : pll_signals * list entry) (s : pll_port) : pll_port :=
  let cfg_waitrequest := mgmt_waitrequest i.1 (core s) in
  {| rd := reader_clock cfg_waitrequest (fifo s) (rd s);
     fifo := rdclock (rdack (rd s)) i.2 (fifo s);
     core := pll_core_clock i.1 (cfg_write (rd s)) (cfg s) (core s);
     accepted := if cfg_write (rd s) && negb (slave_waitrequest i.1 (core s)) then accepted s ++ [cfg s] else accepted s;
     ready := negb cfg_waitrequest;
     asked := asked s ++ i.2 |}.

Definition port_run (l : list (pll_signals * list entry)) (s : pll_port) : pll_port := foldl (fun s i => port_clock i s) s l.

(** The clocks of a run in which the port does not make the reader wait. *)
Fixpoint ready_clocks (l : list (pll_signals * list entry)) (s : pll_port) : nat :=
  match l with
  | [] => 0
  | i :: l => (if mgmt_waitrequest i.1 (core s) then 0 else 1) + ready_clocks l (port_clock i s)
  end.

(** Nothing is under way. *)
Definition port_idle (s : pll_port) : Prop := visible (fifo s) = [] /\ cfg_write (rd s) = false /\ rdack (rd s) = false.

(** ** What the reader relies on *)

Definition is_start (e : entry) : Prop := e.1 = START_REG.

(** A reconfiguration is the last of some requests. *)
Definition starts_last (l : list entry) : Prop := forall l1 e l2, l = l1 ++ e :: l2 -> is_start e -> l2 = [].

(** The port is left in its waiting mode. *)
Definition request_ok (e : entry) : Prop := e.1 = MODE_REG -> Z.odd e.2 = false.

(** A reconfiguration is under way, or about to be. *)
Definition starting (s : pll_port) : Prop :=
  current_state (core s) <> IDLE \/ (cfg_write (rd s) = true /\ is_start (cfg s)) \/ Exists is_start (visible (fifo s)).

(** Initialised, locked and at rest. *)
Definition up (g : pll_signals) : bool := locked g && dps_done g && negb (reset g) && dprio_init_done g && negb (read_waitrequest g).

(** The port may be unready for any time from power on, and behave in any way
    during a reconfiguration; but once it is ready it stays so until the next:
    an initialised PLL that is locked keeps its lock.  Requests may arrive at
    any time and in any number, except while a reconfiguration is under way or
    in the queue. *)
Definition orderly (s : pll_port) (i : pll_signals * list entry) : Prop :=
  (ready s = true -> current_state (core s) = IDLE ->
   up i.1 = true) /\
  (starting s -> i.2 = []) /\ starts_last i.2 /\ Forall request_ok i.2.

Inductive port_reaches (s0 : pll_port) : pll_port -> Prop :=
  | port_start : port_reaches s0 s0
  | port_step s i : port_reaches s0 s -> orderly s i -> port_reaches s0 (port_clock i s).

Fixpoint orderly_run (l : list (pll_signals * list entry)) (s : pll_port) : Prop :=
  match l with [] => True | i :: l => orderly s i /\ orderly_run l (port_clock i s) end.

(** Every request once or twice in a row, in order. *)
Inductive served : list entry -> list entry -> Prop :=
  | served_nil : served [] []
  | served_once es l e : served es l -> served (es ++ [e]) (l ++ [e])
  | served_twice es l e : served es l -> served (es ++ [e]) ((l ++ [e]) ++ [e]).

(** ** The way of a request

    The first of a burst is written twice, while it is at the head of the
    queue and once more when it has left it; those behind it once. *)
Inductive way (s : pll_port) : list entry -> Prop :=
  | resting es : cfg_write (rd s) = false -> rdack (rd s) = false -> asked s = es ++ visible (fifo s) -> served es (accepted s) ->
      (current_state (core s) = WAIT_ON_LOCK -> visible (fifo s) = []) -> way s (visible (fifo s))
  | first e rest es : rd s = mkReader true e.1 e.2 true -> visible (fifo s) = e :: rest -> asked s = es ++ e :: rest -> served es (accepted s) ->
      current_state (core s) = IDLE -> ready s = true -> way s (e :: rest)
  | again e es l : rd s = mkReader true e.1 e.2 true -> asked s = es ++ e :: visible (fifo s) -> served es l -> accepted s = l ++ [e] ->
      (current_state (core s) = IDLE /\ ready s = true) \/ (current_state (core s) = WAIT_ON_LOCK /\ visible (fifo s) = []) ->
      way s (e :: visible (fifo s))
  | next e es : rd s = mkReader true e.1 e.2 true -> asked s = es ++ e :: visible (fifo s) -> served es (accepted s) ->
      current_state (core s) = IDLE -> ready s = true -> way s (e :: visible (fifo s)).

(** The invariant: [l] are the requests under way. *)
Record underway (s : pll_port) : Prop := {
  u_mode : slave_mode (core s) = false;
  u_state : current_state (core s) <> LOCKED;
  u_way : exists l, way s l /\ starts_last l /\ Forall request_ok l
}.

Context {HS : ShowAhead F}.

Lemma starts_last_suffix l1 l2 : starts_last (l1 ++ l2) -> starts_last l2.
Proof. intros H k1 e k2 -> He. apply (H (l1 ++ k1) e); [by rewrite <- app_assoc|done]. Qed.

Lemma starts_last_app l new : starts_last l -> starts_last new -> (Exists is_start l -> new = []) -> starts_last (l ++ new).
Proof.
  intros H1 H2 H3 k1 e k2 E He. apply app_eq_app in E as (k & [[-> E]|[-> E]]).
  - destruct k as [|f k]; cbn in E; [by apply (H2 [] e k2)|]. injection E as <- ->.
    rewrite (H1 k1 e k eq_refl He). apply H3, Exists_app. right. by constructor.
  - by apply (H2 k e k2).
Qed.

(** A clock in which the reader passes nothing on. *)
Lemma free_port g c : slave_mode c = false -> current_state c = IDLE ->
  up g = true -> slave_waitrequest g c = false /\ mgmt_waitrequest g c = false.
Proof.
  intros Hm Hs H. unfold up in H. unfold mgmt_waitrequest, slave_waitrequest, wait_on_lock. rewrite Hm, Hs.
  destruct (locked g), (dps_done g), (reset g), (dprio_init_done g), (read_waitrequest g); done.
Qed.

Lemma core_mode g w e c : slave_mode c = false -> (w = true -> request_ok e) -> slave_mode (pll_core_clock g w e c) = false.
Proof.
  intros Hm He. unfold pll_core_clock. destruct (reset g); [done|]. cbn [slave_mode]. destruct (_ && _) eqn:E; [|done]. apply andb_true_iff in E as [E1 E]. apply andb_true_iff in E1 as [E1 _]. apply Z.eqb_eq in E. by apply He.
Qed.

Lemma core_not_locked g w e c : slave_mode c = false -> current_state c <> LOCKED -> current_state (pll_core_clock g w e c) <> LOCKED.
Proof. intros Hm Hs. unfold pll_core_clock. destruct (reset g); [done|]. cbn. rewrite Hm. destruct (current_state c); [| |done]; by case_match. Qed.

(** Only a reconfiguration makes an idle port busy. *)
Lemma core_idle g w e c : current_state c = IDLE -> ~ (w = true /\ is_start e) -> current_state (pll_core_clock g w e c) = IDLE.
Proof.
  intros Hs He. unfold pll_core_clock. destruct (reset g); [done|]. cbn. rewrite Hs. destruct (w && _ && _ && _) eqn:E; [|done]. destruct He.
  apply andb_true_iff in E as [E _]. apply andb_true_iff in E as [E1 E2]. apply andb_true_iff in E1 as [E1 _]. split; [done|by apply Z.eqb_eq].
Qed.

Lemma way_starting s l : way s l -> Exists is_start l -> starting s.
Proof.
  assert (forall e, rd s = mkReader true e.1 e.2 true -> Exists is_start (e :: visible (fifo s)) -> starting s) as K.
  { intros e R [H|H]%Exists_cons; right; [left|by right]. rewrite R. split; [done|]. unfold cfg. by rewrite R. }
  destruct 1 as [es W R A S L|e rest es R V A S C Hr|e es l' R A S Ac C|e es R A S C Hr]; intros H; [by right; right| |by eapply K..].
  right; right. by rewrite V.
Qed.

Lemma cfg_of s e : rd s = mkReader true e.1 e.2 true -> cfg s = e.
Proof. unfold cfg. intros ->. by destruct e. Qed.

Lemma way_request s l : way s l -> Forall request_ok l -> cfg_write (rd s) = true -> request_ok (cfg s).
Proof.
  destruct 1 as [es W R A S L|e rest es R V A S C Hr|e es l' R A S Ac C|e es R A S C Hr]; intros H Hw; [congruence|..];
    rewrite (cfg_of s e R); by apply Forall_cons_iff in H as [? _].
Qed.

(** The write of a clock is taken when the port is ready. *)
Lemma taken_clock s g new e :
  rd s = mkReader true e.1 e.2 true -> slave_waitrequest g (core s) = false -> accepted (port_clock (g, new) s) = accepted s ++ [e].
Proof. intros R W. cbn [port_clock accepted fst]. by rewrite W, R, (cfg_of s e R). Qed.

(** Passing on the head of the queue, or nothing. *)
Lemma reader_takes w f s e es : visible f = e :: es -> w = false -> reader_clock w f s = mkReader true e.1 e.2 true.
Proof. intros V ->. unfold reader_clock. by rewrite rdempty_spec, V, (fifo_q_spec _ _ _ V). Qed.

Lemma reader_rests w f s : w = true \/ visible f = [] -> cfg_write (reader_clock w f s) = false /\ rdack (reader_clock w f s) = false.
Proof. unfold reader_clock. rewrite rdempty_spec. intros [->|V]; [done|]. by rewrite V, andb_false_r. Qed.

Lemma visible_clock s i : visible (fifo (port_clock i s)) = (if rdack (rd s) then tl (visible (fifo s)) else visible (fifo s)) ++ i.2.
Proof. apply rdclock_spec. Qed.

(** From rest. *)
Lemma resting_clock s i es :
  orderly s i -> cfg_write (rd s) = false -> rdack (rd s) = false -> asked s = es ++ visible (fifo s) -> served es (accepted s) ->
  current_state (core s) <> LOCKED -> (current_state (core s) = WAIT_ON_LOCK -> visible (fifo s) = []) ->
  way (port_clock i s) (visible (fifo s) ++ i.2).
Proof.
  intros (_ & Hn & _) W R A S NL L. destruct i as [g new]. cbn [snd] in *.
  assert (visible (fifo (port_clock (g, new) s)) = visible (fifo s) ++ new) as V' by (by rewrite visible_clock, R).
  assert (asked (port_clock (g, new) s) = es ++ visible (fifo s) ++ new) as A' by (cbn; by rewrite A, <- app_assoc).
  assert (accepted (port_clock (g, new) s) = accepted s) as C' by (cbn; by rewrite W).
  destruct (mgmt_waitrequest g (core s)) eqn:E; [|destruct (visible (fifo s)) as [|e rest] eqn:V].
  1,2: rewrite <- V'; destruct (reader_rests (mgmt_waitrequest g (core s)) (fifo s) (rd s)) as [W' R']; [first [by left|by right]|];
    apply (resting _ es); [done|done|by rewrite V'|by rewrite C'|]; intros Hl; rewrite V';
    assert (current_state (core s) = WAIT_ON_LOCK) as Hw by
      (cbn [port_clock core fst] in Hl; unfold pll_core_clock in Hl; rewrite W in Hl; destruct (reset g); [done|]; cbn [andb current_state] in Hl; by destruct (current_state (core s)));
    assert (starting s) as St by (left; congruence); rewrite (Hn St), app_nil_r; auto.
  cbn [app]. assert (current_state (core s) = IDLE) as Hi by (destruct (current_state (core s)); [done|by specialize (L eq_refl)|done]).
  apply (first _ e (rest ++ new) es); [by apply (reader_takes _ _ _ e rest)|done|done|by rewrite C'|apply core_idle; [done|rewrite W; by intros [? _]]|].
  cbn. by rewrite E.
Qed.

(** With a write out: the queue behind it. *)
Lemma writing_clock s g new e es :
  orderly s (g, new) -> slave_mode (core s) = false -> rd s = mkReader true e.1 e.2 true -> starts_last (e :: visible (fifo s)) ->
  current_state (core s) = IDLE -> ready s = true -> asked s = es ++ e :: visible (fifo s) ->
  served (es ++ [e]) (accepted s ++ [e]) -> way (port_clock (g, new) s) (visible (fifo s) ++ new).
Proof.
  intros (Hr & Hn & _) Hm R Hl Hi Hy A S. destruct (free_port g (core s) Hm Hi (Hr Hy Hi)) as [Ws Wm]. cbn [fst snd] in *.
  pose proof (taken_clock s g new e R Ws) as C'. assert (visible (fifo (port_clock (g, new) s)) = tl (visible (fifo s)) ++ new) as V' by (by rewrite visible_clock, R).
  assert (asked (port_clock (g, new) s) = (es ++ [e]) ++ visible (fifo s) ++ new) as A' by (cbn; by rewrite A, <- !app_assoc).
  destruct (visible (fifo s)) as [|f rest] eqn:V; cbn [tl app] in *.
  - enough (way (port_clock (g, new) s) (visible (fifo (port_clock (g, new) s)))) as K by (by rewrite V' in K). destruct (reader_rests (mgmt_waitrequest g (core s)) (fifo s) (rd s)) as [W' R']; [by right|].
    apply (resting _ (es ++ [e])); [done|done|by rewrite V'|by rewrite C'|]. intros Hw. rewrite V'. apply Hn. right; left.
    rewrite R, (cfg_of s e R). split; [done|]. destruct (decide (e.1 = START_REG)) as [|Hne]; [done|].
    cbn [port_clock core fst] in Hw. rewrite core_idle in Hw; [done|done|]. rewrite (cfg_of s e R). by intros [_ ?].
  - rewrite <- V'. apply (next _ f (es ++ [e])); [by apply (reader_takes _ _ _ f rest)|by rewrite V'|by rewrite C'| |cbn; by rewrite Wm].
    apply core_idle; [done|]. rewrite (cfg_of s e R). intros [_ H]. by specialize (Hl [] e (f :: rest) eq_refl H).
Qed.

(** The first write. *)
Lemma first_clock s g new e rest es :
  orderly s (g, new) -> slave_mode (core s) = false -> rd s = mkReader true e.1 e.2 true -> visible (fifo s) = e :: rest -> starts_last (e :: rest) ->
  current_state (core s) = IDLE -> ready s = true -> asked s = es ++ e :: rest -> served es (accepted s) ->
  way (port_clock (g, new) s) (e :: rest ++ new).
Proof.
  intros (Hr & Hn & _) Hm R V Hl Hi Hy A S. destruct (free_port g (core s) Hm Hi (Hr Hy Hi)) as [Ws Wm]. cbn [fst snd] in *.
  pose proof (taken_clock s g new e R Ws) as C'. assert (visible (fifo (port_clock (g, new) s)) = rest ++ new) as V' by (by rewrite visible_clock, R, V).
  rewrite <- V'. apply (again _ e es (accepted s)); [by apply (reader_takes _ _ _ e rest)|cbn [port_clock asked snd]; by rewrite A, V', <- app_assoc|done|done|].
  destruct (decide (e.1 = START_REG)) as [Hs|Hs].
  - assert (rest = []) as -> by exact (Hl [] e rest eq_refl Hs). assert (new = []) as ->.
    { apply Hn. right; left. rewrite R, (cfg_of s e R). done. }
    destruct (current_state (core (port_clock (g, []) s))) eqn:E; [left|by right|].
    + split; [done|]. cbn. by rewrite Wm.
    + by destruct (core_not_locked g (cfg_write (rd s)) (cfg s) (core s) Hm ltac:(congruence)).
  - left. split; [|cbn; by rewrite Wm]. apply core_idle; [done|]. rewrite (cfg_of s e R). by intros [_ ?].
Qed.

(** The second write, while the port works on a reconfiguration. *)
Lemma reconfiguring_clock s g e es l :
  orderly s (g, []) -> rd s = mkReader true e.1 e.2 true -> visible (fifo s) = [] -> asked s = es ++ [e] -> served es l -> accepted s = l ++ [e] ->
  way (port_clock (g, []) s) [].
Proof.
  intros _ R V A S Ac. assert (visible (fifo (port_clock (g, []) s)) = []) as V' by (by rewrite visible_clock, R, V).
  enough (way (port_clock (g, []) s) (visible (fifo (port_clock (g, []) s)))) as K by (by rewrite V' in K).
  destruct (reader_rests (mgmt_waitrequest g (core s)) (fifo s) (rd s)) as [W' R']; [by right|].
  apply (resting _ (es ++ [e])); [done|done|by rewrite V', app_nil_r; cbn; rewrite A, app_nil_r| |done].
  cbn [port_clock accepted fst]. rewrite Ac, (cfg_of s e R). destruct (_ && _); [by apply served_twice|by apply served_once].
Qed.

Lemma way_clock s i l :
  orderly s i -> slave_mode (core s) = false -> current_state (core s) <> LOCKED -> starts_last l -> way s l ->
  exists k l', way (port_clock i s) l' /\ l ++ i.2 = k ++ l'.
Proof.
  intros O Hm Hnl Hl. destruct 1 as [es W R A S L|e rest es R V A S C Hr|e es l R A S Ac [[C Hr]|[C V]]|e es R A S C Hr]; destruct i as [g new].
  - exists [], (visible (fifo s) ++ new). split; [by apply (resting_clock _ (g, new) es)|done].
  - exists [], (e :: rest ++ new). split; [by apply (first_clock _ _ _ e rest es)|done].
  - exists [e], (visible (fifo s) ++ new). split; [|done]. apply (writing_clock s g new e es); try done. rewrite Ac. by apply served_twice.
  - assert (new = []) as -> by (destruct O as (_ & Hn & _); apply Hn; left; congruence). rewrite V in *. exists [e], []. split; [by eapply reconfiguring_clock|done].
  - exists [e], (visible (fifo s) ++ new). split; [|done]. apply (writing_clock s g new e es); try done. by apply served_once.
Qed.

Lemma underway_clock s i : orderly s i -> underway s -> underway (port_clock i s).
Proof.
  intros O [Hm Hs (l & Hw & Hl & Hq)]. destruct (way_clock s i l O Hm Hs Hl Hw) as (k & l' & Hw' & E). destruct O as (_ & Hn & Hn1 & Hn2). split.
  - apply core_mode; [done|]. intros Hc. by apply (way_request s l).
  - by apply core_not_locked.
  - exists l'. split; [done|]. assert (starts_last (k ++ l')) as Hk.
    { rewrite <- E. apply starts_last_app; [done|done|]. intros H. apply Hn. by apply (way_starting s l). }
    split; [by apply starts_last_suffix in Hk|]. assert (Forall request_ok (k ++ l')) as Hf by (rewrite <- E; by apply Forall_app_2).
    by apply Forall_app in Hf as [_ ?].
Qed.

Lemma underway_reached s0 s : underway s0 -> port_reaches s0 s -> underway s.
Proof. intros H0. induction 1 as [|s i _ IH Hp]; [done|by apply underway_clock]. Qed.

(** ** The end of the requests *)

(** Clocks without a wait to the end. *)
Definition rank (s : pll_port) : nat :=
  if cfg_write (rd s) then length (visible (fifo s)) + 1
  else match visible (fifo s) with [] => 0 | l => length l + 2 end.

Lemma rank_zero s : underway s -> rank s = 0%nat -> port_idle s /\ served (asked s) (accepted s).
Proof.
  intros [_ _ (l & Hw & _)]. unfold rank. destruct Hw as [es W R A S L|e rest es R V A S C Hr|e es l R A S Ac C|e es R A S C Hr].
  - rewrite W. destruct (visible (fifo s)) eqn:V; [|done]. intros _. rewrite A, app_nil_r. done.
  - rewrite R. cbn. lia.
  - rewrite R. cbn. lia.
  - rewrite R. cbn. lia.
Qed.

Lemma rank_clock s g :
  underway s -> orderly s (g, []) -> (rank (port_clock (g, []) s) <= if mgmt_waitrequest g (core s) then rank s else Nat.pred (rank s))%nat.
Proof.
  intros [Hm _ (l & Hw & _)] (Hr' & _). unfold rank at 1. rewrite visible_clock. cbn [port_clock rd snd fst] in *. rewrite app_nil_r.
  unfold reader_clock. rewrite rdempty_spec. unfold rank.
  destruct Hw as [es W R A S L|e rest es R V A S C Hr|e es l R A S Ac [[C Hr]|[C V]]|e es R A S C Hr]; try destruct (free_port g (core s) Hm C (Hr' Hr C)) as [_ ->]; rewrite R, ?W, ?V.
  - destruct (mgmt_waitrequest g (core s)), (visible (fifo s)); cbn; lia.
  - cbn. lia.
  - destruct (visible (fifo s)) as [|f [|f' r]]; cbn; lia.
  - destruct (mgmt_waitrequest g (core s)); cbn; lia.
  - destruct (visible (fifo s)) as [|f [|f' r]]; cbn; lia.
Qed.

Lemma run_ends l : forall s, underway s -> orderly_run l s -> Forall (fun i => i.2 = []) l -> (rank s <= ready_clocks l s)%nat ->
  let s' := port_run l s in underway s' /\ rank s' = 0%nat /\ asked s' = asked s.
Proof.
  induction l as [|[g new] l IH]; intros s U O H Hk; [cbn in *; split; [done|]; split; [lia|done]|].
  apply Forall_cons_iff in H as [Hn H]. cbn in Hn. subst new. destruct O as [O1 O]. cbn [port_run foldl ready_clocks fst] in *.
  pose proof (rank_clock s g U O1) as Hc. destruct (IH _ (underway_clock _ _ O1 U) O H) as (U' & R' & A').
  { destruct (mgmt_waitrequest g (core s)); lia. }
  split; [exact U'|]. split; [exact R'|]. etransitivity; [exact A'|]. cbn. apply app_nil_r.
Qed.
End reader.

(** The requests of the firmware: the program of a mode ends with its only
    reconfiguration, and leaves the port in its waiting mode. *)
Lemma program_orderly c m k : starts_last (crt_program c m k) /\ Forall request_ok (crt_program c m k).
Proof.
  unfold crt_program, pll_program. split; [|repeat apply Forall_cons_2; first [apply Forall_nil_2|by intros ?]].
  intros l1 e l2 E He. repeat (destruct l1 as [|? l1]; cbn in E; [injection E as <- <-; done|injection E as _ E]).
  by destruct l1.
Qed.


(** C21: Every request to the PLL is carried out.  The port may be unready for
    any time from power on, and during a reconfiguration it may do anything;
    once ready it stays so until the next one (a locked PLL keeps its lock).
    Requests may arrive at any time and in any number, except between a
    reconfiguration and its end.  Then in every state that is reached, in any
    clocks that follow without new requests, two clocks without a wait more
    than there are requests in the queue are enough for the port to have taken
    every request that was made, in order, each once or twice in a row. *)
Theorem requests_served {F : Type} {HF : ReadFifo F} {HS : ShowAhead F} (s0 s : pll_port (F := F)) (l : list (pll_signals * list entry)) :
  port_idle s0 -> asked s0 = [] -> accepted s0 = [] -> core s0 = mkCore false IDLE -> port_reaches s0 s ->
  orderly_run l s -> Forall (fun i => i.2 = []) l -> (length (visible (fifo s)) + 2 <= ready_clocks l s)%nat ->
  let s' := port_run l s in
  asked s' = asked s /\ served (asked s') (accepted s') /\ port_idle s'.
Proof.
  intros (V0 & W0 & R0) A0 C0 K0 R O H Hk. assert (underway s0) as U0.
  { split; [by rewrite K0|by rewrite K0|]. exists (visible (fifo s0)). rewrite V0 at 2 3. split; [|split; [by intros [|] ? ? ?|constructor]].
    apply (resting _ []); [done|done|by rewrite A0, V0|by rewrite C0; constructor|done]. }
  destruct (run_ends l s (underway_reached s0 s U0 R) O H) as (U & Z & A).
  { etransitivity; [|exact Hk]. unfold rank. destruct (cfg_write (rd s)), (visible (fifo s)); cbn [length]; lia. }
  destruct (rank_zero _ U Z). done.
Qed.

(** A queue. *)
#[export] Instance list_fifo : ReadFifo (list entry) := {
  visible f := f;
  rdempty f := match f with [] => true | _ => false end;
  fifo_q f := match f with [] => (0, 0) | e :: _ => e end;
  rdclock req new f := (if req then tl f else f) ++ new
}.
#[export] Instance list_show_ahead : ShowAhead (list entry).
Proof. split; [done| |done]. intros f e es E. cbn in E. by subst f. Qed.

Definition demo_port : pll_port (F := list entry) :=
  {| rd := {| cfg_write := false; cfg_address := 0; cfg_data := 0; rdack := false |}; fifo := []; core := mkCore false IDLE;
     accepted := []; ready := false; asked := [] |}.

(** The PLL without a lock, locked, and at work on a reconfiguration. *)
Definition demo_down : pll_signals := mkSignals false false true true true true false.
Definition demo_up : pll_signals := mkSignals false true true true true true false.
Definition demo_busy : pll_signals := mkSignals false true true true false true false.

(** Two parameters arrive before the PLL is locked, then a reconfiguration,
    which has been taken and makes the reader wait. *)
Definition demo_history : list (pll_signals * list entry) :=
  [(demo_down, [(4, 7); (5, 1)]); (demo_down, []); (demo_up, []); (demo_up, []); (demo_up, []); (demo_up, []); (demo_up, [(2, 0)]);
   (demo_up, []); (demo_up, []); (demo_busy, [])].

Definition demo_after : list (pll_signals * list entry) := [(demo_down, []); (demo_up, []); (demo_up, [])].

Lemma demo_port_reaches l : forall s0 s, port_reaches (F := list entry) s0 s -> orderly_run l s -> port_reaches s0 (port_run l s).
Proof. induction l as [|i l IH]; intros s0 s R O; [done|]. destruct O as [O1 O]. apply (IH s0); [by apply port_step|done]. Qed.

Lemma start_last_one a v : starts_last [(a, v)].
Proof. intros [|x l1] e l2 E _; [by injection E as <- <-|]. by destruct l1. Qed.

Lemma demo_orderly : orderly_run (demo_history ++ demo_after) demo_port.
Proof.
  assert (forall s g, orderly (F := list entry) s (g, []) <-> (ready s = true -> current_state (core s) = IDLE -> up g = true)) as K.
  { intros s g. split; [by intros [? _]|]. intros H. split; [done|]. split; [done|]. split; [by intros [|] ? ? ?|constructor]. }
  unfold demo_history, demo_after. cbn [app orderly_run]. split_and!; try (apply K; vm_compute; congruence); try done.
  - split_and!; [done|by intros [?|[[? _]|?%Exists_nil]]| |by repeat constructor; intros ?].
    intros [|x [|y l1]] e l2 E He; [by injection E as <- <-|by injection E as _ <- <-|by destruct l1].
  - split_and!; [done|by intros [?|[[? _]|?%Exists_nil]]|apply start_last_one|by repeat constructor; intros ?].
Qed.

Lemma requests_served_witness :
  let s' := port_run demo_after (port_run demo_history demo_port) in
  asked s' = [(4, 7); (5, 1); (2, 0)] /\ accepted s' = [(4, 7); (4, 7); (5, 1); (2, 0)] /\ served (asked s') (accepted s') /\ port_idle s'.
Proof.
  intros s'. assert (orderly_run demo_history demo_port /\ orderly_run demo_after (port_run demo_history demo_port)) as [O1 O2].
  { pose proof demo_orderly as O. unfold demo_history, demo_after in *. cbn [app orderly_run port_run foldl] in *. tauto. }
  destruct (requests_served demo_port (port_run demo_history demo_port) demo_after) as (E1 & E2 & E3);
    [by split_and!|done|done|done|by apply demo_port_reaches; [constructor|]|done|by repeat constructor|vm_compute; lia|].
  by split_and!.
Defined.

(** A request that is behind a reconfiguration in the queue is removed without
    having been passed on. *)
Lemma request_lost :
  let s := port_run [(demo_up, [(2, 0); (4, 7)]); (demo_up, []); (demo_up, []); (demo_busy, []); (demo_busy, [])] demo_port in
  fifo s = [] /\ cfg_write (rd s) = false /\ accepted s = [(2, 0)].
Proof. by vm_compute. Qed.
