(* ===== verification/TileBus.v ===== *)
(** * Drawing over the bus (rtl/system.sv, rtl/blitter.sv, rtl/tilemap.sv)

    The blitter with its register port, the tile memory they share with the
    processor and the tile map that scans it, as one clocked machine; and the
    refinement between the drawing accesses of gfx.c and the bus cycles that
    carry them.  A write to [submit] starts the job again as long as it is
    held: a job may run several times, and the refinement shows that this
    does not matter. *)

From S2P Require Import Prelude Input Blitter Float Hdmi HdmiProps Printf Formats Gfx GfxProps Video Crtc Tilemap SysBus.

(** ** The register port of the blitter *)

Definition with_regs (h : blit_hw) (r : Blitter) : blit_hw :=
  {| regs := r; blit_active := blit_active h; blit_wr := false; blit_addr := blit_addr h; blit_dout := blit_dout h;
     blit_next_addr := blit_next_addr h; blit_span_count := blit_span_count h;
     blit_repeat_count := blit_repeat_count h; ram := ram h |}.

(** [case(address[3:0])] of an idle blitter. *)
Definition blit_port (wr0 wr1 : bool) (address din : Z) (h : blit_hw) : blit_hw :=
  let r := regs h in
  let assign := word_write wr0 wr1 din in
  if address =? 0 then with_regs h {| value := assign (value r); span := span r; skip := skip r; repeat := repeat r; addr := addr r |}
  else if address =? 1 then with_regs h {| value := value r; span := assign (span r); skip := skip r; repeat := repeat r; addr := addr r |}
  else if address =? 2 then with_regs h {| value := value r; span := span r; skip := assign (skip r); repeat := repeat r; addr := addr r |}
  else if address =? 3 then with_regs h {| value := value r; span := span r; skip := skip r; repeat := assign (repeat r); addr := addr r |}
  else if address =? 4 then with_regs h {| value := value r; span := span r; skip := skip r; repeat := repeat r; addr := assign (addr r) |}
  else if (address =? 7) && wr0 then hw_submit h
  else with_regs h r.

Definition blit_read (address : Z) (h : blit_hw) (dout : Z) : Z :=
  let r := regs h in
  if address =? 0 then value r else if address =? 1 then span r else if address =? 2 then skip r
  else if address =? 3 then repeat r else if address =? 4 then addr r else dout.

(** ** The tile memory *)

Definition with_ram (h : blit_hw) (m : vmem) : blit_hw :=
  {| regs := regs h; blit_active := blit_active h; blit_wr := blit_wr h; blit_addr := blit_addr h; blit_dout := blit_dout h;
     blit_next_addr := blit_next_addr h; blit_span_count := blit_span_count h;
     blit_repeat_count := blit_repeat_count h; ram := m |}.

(** A byte lane of a write of the processor to a region. *)
Definition lane (sel : cpu_bus -> bool) (b : cpu_bus) (strobe : bool) : bool := sel b && negb (b_rw b) && strobe.

(** The write port of the memory: the blitter has it while it is active. *)
Definition tile_ram (b : cpu_bus) (h : blit_hw) : vmem :=
  if blit_active h then if blit_wr h then vwrite (blit_addr h) (blit_dout h) (ram h) else ram h
  else
    let wr0 := lane tilemap_ram_sel b (b_lds b) in
    let wr1 := lane tilemap_ram_sel b (b_uds b) in
    let a := (b_addr b / 2) mod 65536 in
    if wr0 || wr1 then vwrite a (word_write wr0 wr1 (b_dout b) (ram h (a mod VRAM_WORDS))) (ram h) else ram h.

(** The register port of the tile map. *)
Definition tm_port (b : cpu_bus) (h : blit_hw) : tm_in :=
  {| m_cs_reg := negb (blit_active h) && tilemap_reg_sel b;
     m_wr0 := if blit_active h then blit_wr h else lane tilemap_sel b (b_lds b);
     m_wr1 := if blit_active h then blit_wr h else lane tilemap_sel b (b_uds b);
     m_vert := Z.odd (if blit_active h then blit_addr h else b_addr b / 2);
     m_din := if blit_active h then blit_dout h else b_dout b |}.

(** A clock of the blitter and the memory. *)
Definition blit_clock (reset : bool) (b : cpu_bus) (h : blit_hw) : blit_hw :=
  let h' := with_ram h (tile_ram b h) in
  if reset then
    {| regs := regs h; blit_active := false; blit_wr := false; blit_addr := blit_addr h; blit_dout := blit_dout h;
       blit_next_addr := blit_next_addr h; blit_span_count := blit_span_count h;
       blit_repeat_count := blit_repeat_count h; ram := ram h' |}
  else if blit_active h then hw_clock h
  else blit_port (lane blitter_sel b (b_lds b)) (lane blitter_sel b (b_uds b)) ((b_addr b / 2) mod 16) (b_dout b) h'.

(** ** The machine *)

(** A clock of the bus with its address strobe, and whether the cycle is an
    interrupt acknowledge. *)
Record bus_clk : Type := mkBusClk { k_as_n : bool; k_iack : bool; k_bus : cpu_bus }.

Section device.
Context {ROM PAL : Type} {HR : MemBlock ROM} {HP : PalBlock PAL}.

(** [dout] is the read register of the blitter. *)
Record tile_dev : Type := mkTileDev {
  blitter : blit_hw;
  dout : Z;
  acks : ack;
  pic : picture (ROM := ROM) (PAL := PAL)
}.

Definition scan_clock (b : cpu_bus) (h : blit_hw) (p : picture (ROM := ROM) (PAL := PAL)) : picture (ROM := ROM) (PAL := PAL) :=
  let s := pic_crtc p in
  {| pic_crtc := crtc_clock (crtc_port b) s;
     pic_tiles := tm_clock (tm_port b h) (ram h) (ce_pixel s) (hcnt s) (vcnt s) (pic_tiles p);
     pic_pal := pal_step (pal_port b) (color_out (pic_tiles p)) (pic_pal p) |}.

Definition dev_clock (c : bus_clk) (d : tile_dev) : tile_dev :=
  let b := k_bus c in
  let h := blitter d in
  {| blitter := blit_clock false b h;
     dout := if blit_active h then dout d else blit_read ((b_addr b / 2) mod 16) h (dout d);
     acks := ack_clock false (k_as_n c) (k_iack c) b (acks d);
     pic := scan_clock b h (pic d) |}.

Definition dev_run (cs : list bus_clk) (d : tile_dev) : tile_dev := foldl (fun d c => dev_clock c d) d cs.

(** What the processor sees of the acknowledge. *)
Definition acknowledged (d : tile_dev) : bool := negb (DTACKn (blit_active (blitter d)) (acks d)).

(** ** Accesses *)

Inductive breg : Type := Value | Span | Skip | Repeat | Addr.

Inductive draw_op : Type :=
  | Store (a x : Z)
  | SetReg (r : breg) (x : Z)
  | Submit
  | Scroll (vert : bool) (x : Z).

Definition breg_index (r : breg) : Z := match r with Value => 0 | Span => 1 | Skip => 2 | Repeat => 3 | Addr => 4 end.

Definition set_breg (i : breg) (x : Z) (r : Blitter) : Blitter :=
  match i with
  | Value => {| value := x; span := span r; skip := skip r; repeat := repeat r; addr := addr r |}
  | Span => {| value := value r; span := x; skip := skip r; repeat := repeat r; addr := addr r |}
  | Skip => {| value := value r; span := span r; skip := x; repeat := repeat r; addr := addr r |}
  | Repeat => {| value := value r; span := span r; skip := skip r; repeat := x; addr := addr r |}
  | Addr => {| value := value r; span := span r; skip := skip r; repeat := repeat r; addr := x |}
  end.

(** The clock of a bus cycle in which the strobes are asserted. *)
Definition clk_of (o : draw_op) : bus_clk :=
  let word a x := {| k_as_n := false; k_iack := false; k_bus := {| b_addr := a; b_rw := false; b_lds := true; b_uds := true; b_dout := x |} |} in
  match o with
  | Store a x => word (0x900000 + 2 * a) x
  | SetReg r x => word (0x930000 + 2 * breg_index r) x
  | Submit => word 0x93000e 1
  | Scroll vert x => word (0x910000 + 2 * Z.b2z vert) x
  end.

(** Any other clock: a read, a clock without strobes, a write elsewhere. *)
Definition quiet (b : cpu_bus) : bool :=
  b_rw b || (negb (b_lds b) && negb (b_uds b)) || (negb (tilemap_sel b) && negb (blitter_sel b)).

(** The accesses [ops] on the bus.  The processor holds each for any number of
    clocks, and does not end it before it has seen an acknowledge. *)
Inductive carried : list draw_op -> list bus_clk -> tile_dev -> Prop :=
  | carried_nil d : carried [] [] d
  | carried_quiet ops c cs d : quiet (k_bus c) = true -> carried ops cs (dev_clock c d) -> carried ops (c :: cs) d
  | carried_op o ops n cs d :
      (exists k, (k < n)%nat /\ acknowledged (dev_run (replicate k (clk_of o)) d) = true) ->
      carried ops cs (dev_run (replicate n (clk_of o)) d) -> carried (o :: ops) (replicate n (clk_of o) ++ cs) d.
End device.

(** ** What the accesses mean *)

Record drawing : Type := mkDrawing { d_regs : Blitter; d_tiles : vmem; d_ofs : Z * Z }.

Definition op_step (o : draw_op) (s : drawing) : result drawing :=
  match o with
  | Store a x => Ok {| d_regs := d_regs s; d_tiles := vwrite a x (d_tiles s); d_ofs := d_ofs s |}
  | SetReg r x => Ok {| d_regs := set_breg r x (d_regs s); d_tiles := d_tiles s; d_ofs := d_ofs s |}
  | Submit => m ← blit (d_regs s) (d_tiles s); Ok {| d_regs := d_regs s; d_tiles := m; d_ofs := d_ofs s |}
  | Scroll vert x =>
      Ok {| d_regs := d_regs s; d_tiles := d_tiles s;
            d_ofs := if vert then ((d_ofs s).1, x) else (x, (d_ofs s).2) |}
  end.

Fixpoint op_run (ops : list draw_op) (s : drawing) : result drawing :=
  match ops with [] => Ok s | o :: ops => s ← op_step o s; op_run ops s end.

(** ** Memories are compared cell by cell *)

Definition same_mem : relation vmem := pointwise_relation Z eq.
Infix "≈" := same_mem (at level 70, no associativity).

#[export] Instance same_mem_equivalence : Equivalence same_mem.
Proof. unfold same_mem. apply _. Qed.

#[export] Instance vwrite_proper a x : Proper (same_mem ==> same_mem) (vwrite a x).
Proof. intros m m' E b. unfold vwrite. by destruct (b =? _). Qed.

#[export] Instance write_all_proper x cells : Proper (same_mem ==> same_mem) (write_all x cells).
Proof.
  unfold write_all. induction cells as [|a cells IH]; intros m m' E; [done|]. cbn [foldl]. apply IH. by rewrite E.
Qed.

Lemma vwrite_twice a x m : vwrite a x (vwrite a x m) ≈ vwrite a x m.
Proof. intros b. unfold vwrite. by destruct (b =? _). Qed.

(** The cell [b] after a job. *)
Lemma write_all_cell x cells m b :
  write_all x cells m b = if bool_decide (b ∈ map (fun a => a mod VRAM_WORDS) cells) then x else m b.
Proof.
  unfold write_all. revert m. induction cells as [|a cells IH]; intros m; [done|]. cbn [foldl map]. rewrite IH. unfold vwrite.
  rewrite (bool_decide_ext _ _ (elem_of_cons _ b (a mod VRAM_WORDS))).
  destruct (Z.eqb_spec b (a mod VRAM_WORDS)) as [E|E]; repeat case_bool_decide; try done; naive_solver.
Qed.

Lemma write_all_twice x cells m : write_all x cells (write_all x cells m) ≈ write_all x cells m.
Proof. intros b. rewrite !write_all_cell. by case_bool_decide. Qed.

Lemma blit_proper r m m' n : m ≈ m' -> blit r m = Ok n -> exists n', blit r m' = Ok n' /\ n ≈ n'.
Proof.
  unfold blit. intros E. destruct (_ =? _); [done|]. generalize (job_writes (addr r) (S (Z.to_nat (span r))) (S (Z.to_nat (repeat r))) (span r + skip r)). intros cells [= <-].
  eexists. split; [reflexivity|]. by rewrite E.
Qed.

Lemma blit_twice r m n : blit r m = Ok n -> exists n', blit r n = Ok n' /\ n' ≈ n.
Proof.
  unfold blit. destruct (_ =? _); [done|]. generalize (job_writes (addr r) (S (Z.to_nat (span r))) (S (Z.to_nat (repeat r))) (span r + skip r)). intros cells [= <-].
  eexists. split; [reflexivity|]. apply write_all_twice.
Qed.

(** Drawings that cannot be told apart. *)
Record same_drawing (s s' : drawing) : Prop := {
  same_regs : d_regs s = d_regs s';
  same_tiles : d_tiles s ≈ d_tiles s';
  same_ofs : d_ofs s = d_ofs s'
}.

(** An access again changes nothing. *)
Lemma op_again o s s' : op_step o s = Ok s' -> exists s'', op_step o s' = Ok s'' /\ same_drawing s'' s'.
Proof.
  destruct o as [a x|r x| |v x]; cbn; try (intros [= <-]; eexists; split; [done|]; split; cbn; try done).
  - apply vwrite_twice.
  - by destruct r.
  - destruct (blit _ _) as [m|] eqn:E; [|done]. cbn. intros [= <-]. cbn. destruct (blit_twice _ _ _ E) as (m' & -> & Em).
    eexists. split; [done|]. by split.
  - by destruct v.
Qed.

(** ** The simulation *)

(** The blitter is active for [n] more clocks and then leaves [m]. *)
Definition finishes (n : nat) (h : blit_hw) (m : vmem) : Prop :=
  (forall k, (k < n)%nat -> blit_active (hw_clocks k h) = true) /\
  blit_active (hw_clocks n h) = false /\ ram (hw_clocks n h) ≈ m.

Definition regs_ok (r : Blitter) : Prop := is_u16 (span r) /\ is_u16 (repeat r) /\ is_u16 (addr r).

Definition op_ok (o : draw_op) : Prop :=
  match o with
  | Store a x => 0 <= a < VRAM_WORDS /\ is_u16 x
  | SetReg _ x | Scroll _ x => is_u16 x
  | Submit => True
  end.

Lemma finishes_clock n h m : finishes (S n) h m -> finishes n (hw_clock h) m.
Proof.
  assert (forall k, hw_clocks k (hw_clock h) = hw_clocks (S k) h) as E by (intros k; symmetry; apply (hw_clocks_add 1 k)).
  intros (H1 & H2 & H3). split; [|by rewrite E]. intros k Hk. rewrite E. apply H1. lia.
Qed.

Lemma finishes_active n h m : finishes n h m -> blit_active h = true -> exists k, n = S k /\ finishes k (hw_clock h) m.
Proof.
  intros H A. destruct n as [|n]; [|exists n; split; [done|by apply finishes_clock]]. destruct H as (_ & H & _). cbn in H. congruence.
Qed.

Lemma finishes_idle n h m : finishes n h m -> blit_active h = false -> ram h ≈ m.
Proof. intros (H1 & _ & H3) A. destruct n as [|n]; [done|]. specialize (H1 0%nat ltac:(lia)). cbn in H1. congruence. Qed.

Lemma submit_finishes h m : regs_ok (regs h) -> blit (regs h) (ram h) = Ok m -> finishes (job_clocks (regs h)) (hw_submit h) m.
Proof.
  intros (Hs & Hr & Ha) E. pose proof (blitter_job h Hs Hr Ha) as J. rewrite E in J. destruct J as [J1 J2]. split_and!.
  - intros k Hk. rewrite J2. by apply bool_decide_true.
  - rewrite J2. apply bool_decide_false. lia.
  - by rewrite J1.
Qed.

Section simulation.
Context {ROM PAL : Type} {HR : MemBlock ROM} {HP : PalBlock PAL}.
Implicit Types d : tile_dev (ROM := ROM) (PAL := PAL).

Definition offsets d : Z * Z := (t_hofs (pic_tiles (pic d)), t_vofs (pic_tiles (pic d))).

(** The device in the middle of the drawing [s]. *)
Record shows (s : drawing) d : Prop := {
  s_regs : regs (blitter d) = d_regs s;
  s_ofs : offsets d = d_ofs s;
  s_ok : regs_ok (d_regs s);
  s_tiles : exists n, finishes n (blitter d) (d_tiles s)
}.

Lemma shows_same s s' d : shows s d -> same_drawing s s' -> shows s' d.
Proof.
  intros [H1 H2 H3 (n & F1 & F2 & F3)] [E1 E2 E3]. split; [congruence|congruence|congruence|]. exists n. split; [done|].
  split; [done|]. by rewrite F3.
Qed.

Lemma dev_run_app cs cs' d : dev_run (cs ++ cs') d = dev_run cs' (dev_run cs d).
Proof. apply foldl_app. Qed.

(** The offsets change with a write to them only, which needs the memory port. *)
Lemma offsets_clock c d :
  offsets (dev_clock c d) =
    if negb (blit_active (blitter d)) && tilemap_reg_sel (k_bus c) then
      let w := word_write (lane tilemap_sel (k_bus c) (b_lds (k_bus c))) (lane tilemap_sel (k_bus c) (b_uds (k_bus c))) (b_dout (k_bus c)) in
      if Z.odd (b_addr (k_bus c) / 2) then ((offsets d).1, w (offsets d).2) else (w (offsets d).1, (offsets d).2)
    else offsets d.
Proof.
  unfold offsets. cbn [dev_clock pic scan_clock pic_tiles tm_clock t_hofs t_vofs tm_port m_cs_reg m_vert m_wr0 m_wr1 m_din fst snd].
  destruct (blit_active (blitter d)); cbn [negb andb]; [done|]. destruct (tilemap_reg_sel _); cbn [andb]; [|done].
  by destruct (Z.odd _).
Qed.

Lemma hw_clock_regs h : regs (hw_clock h) = regs h.
Proof. unfold hw_clock. destruct (negb _); [done|]. destruct (_ <? _); [done|]. by destruct (_ =? _). Qed.

(** While the blitter is active the bus does not matter. *)
Lemma busy_clock s c d : shows s d -> blit_active (blitter d) = true -> shows s (dev_clock c d).
Proof.
  intros [H1 H2 H3 (n & F)] A. destruct (finishes_active _ _ _ F A) as (k & -> & F').
  assert (blitter (dev_clock c d) = hw_clock (blitter d)) as E by (cbn; unfold blit_clock; by rewrite A).
  split; [by rewrite E, hw_clock_regs| |done|].
  - by rewrite offsets_clock, A.
  - exists k. by rewrite E.
Qed.

Lemma quiet_lanes b :
  quiet b = true ->
  (lane blitter_sel b (b_lds b) = false /\ lane blitter_sel b (b_uds b) = false) /\
  (lane tilemap_ram_sel b (b_lds b) = false /\ lane tilemap_ram_sel b (b_uds b) = false) /\
  (lane tilemap_sel b (b_lds b) = false /\ lane tilemap_sel b (b_uds b) = false).
Proof.
  unfold quiet, lane, tilemap_sel. destruct (b_rw b), (b_lds b), (b_uds b), (tilemap_ram_sel b), (tilemap_reg_sel b), (blitter_sel b); done.
Qed.

Lemma blit_port_none a x h :
  let h' := blit_port false false a x h in regs h' = regs h /\ blit_active h' = blit_active h /\ ram h' = ram h.
Proof.
  unfold blit_port. rewrite andb_false_r. destruct (regs h) eqn:E. cbn -[word_write]. rewrite !word_write_none.
  repeat (destruct (_ =? _); [by cbn|]). by cbn.
Qed.

(** An idle blitter after a clock whose memory access is [m]. *)
Lemma idle_clock c d :
  blit_active (blitter d) = false ->
  blitter (dev_clock c d) =
    let b := k_bus c in
    blit_port (lane blitter_sel b (b_lds b)) (lane blitter_sel b (b_uds b)) ((b_addr b / 2) mod 16) (b_dout b)
      (with_ram (blitter d) (tile_ram b (blitter d))).
Proof. intros A. cbn. unfold blit_clock. by rewrite A. Qed.

Lemma finishes_now h m : blit_active h = false -> ram h ≈ m -> exists n, finishes n h m.
Proof. intros A E. exists 0%nat. split; [lia|]. by split. Qed.

Lemma quiet_dev_clock s c d : shows s d -> quiet (k_bus c) = true -> shows s (dev_clock c d).
Proof.
  intros S Q. destruct (blit_active (blitter d)) eqn:A; [by apply busy_clock|]. destruct S as [H1 H2 H3 (n & F)].
  destruct (quiet_lanes _ Q) as ([B0 B1] & [R0 R1] & [T0 T1]). pose proof (idle_clock c d A) as E. cbv zeta in E.
  rewrite B0, B1 in E. unfold tile_ram in E. rewrite A, R0, R1 in E. cbn [orb] in E.
  destruct (blit_port_none ((b_addr (k_bus c) / 2) mod 16) (b_dout (k_bus c)) (with_ram (blitter d) (ram (blitter d)))) as (P1 & P2 & P3).
  split; [by rewrite E, P1| |done|].
  - rewrite offsets_clock, A, T0, T1. cbv zeta. rewrite !word_write_none. rewrite <- surjective_pairing, H2. repeat case_match; done.
  - apply finishes_now; rewrite E; [by rewrite P2|]. rewrite P3. cbn. by eapply finishes_idle.
Qed.

(** Where the addresses of the accesses are. *)
Lemma clk_decoded o :
  op_ok o ->
  let b := k_bus (clk_of o) in
  tilemap_ram_sel b = (match o with Store _ _ => true | _ => false end) /\
  tilemap_reg_sel b = (match o with Scroll _ _ => true | _ => false end) /\
  blitter_sel b = (match o with SetReg _ _ | Submit => true | _ => false end) /\
  match o with
  | Store a _ => (b_addr b / 2) mod 65536 = a
  | SetReg r _ => (b_addr b / 2) mod 16 = breg_index r
  | Submit => (b_addr b / 2) mod 16 = 7
  | Scroll vert _ => Z.odd (b_addr b / 2) = vert
  end.
Proof.
  destruct o as [a x|r x| |vert x]; cbn [op_ok]; intros Ho; [|by destruct r|done|by destruct vert].
  destruct Ho as [Ha _]. unfold VRAM_WORDS in Ha. unfold tilemap_ram_sel, tilemap_reg_sel, blitter_sel, sel. cbn [clk_of k_bus b_addr].
  replace ((0x900000 + 2 * a) / 65536) with 0x90 by word_lia. split_and!; try done. word_lia.
Qed.

Lemma set_breg_port r x h : blit_port true true (breg_index r) x h = with_regs h (set_breg r x (regs h)).
Proof. unfold blit_port. rewrite !word_write_both. by destruct r. Qed.

Lemma set_breg_ok i x r : regs_ok r -> is_u16 x -> regs_ok (set_breg i x r).
Proof. intros (H1 & H2 & H3) Hx. by destruct i. Qed.

Lemma op_clock s s' o d :
  shows s d -> op_ok o -> blit_active (blitter d) = false -> op_step o s = Ok s' -> shows s' (dev_clock (clk_of o) d).
Proof.
  intros [H1 H2 H3 (n & F)] Ho A E. pose proof (finishes_idle _ _ _ F A) as M. clear F n.
  destruct (clk_decoded o Ho) as (Sr & St & Sb & Ad). pose proof (idle_clock (clk_of o) d A) as B. cbv zeta in B, Sr, St, Sb, Ad.
  pose proof (offsets_clock (clk_of o) d) as O. rewrite A, St in O. unfold tile_ram, lane in B. rewrite A, Sr, Sb in B.
  unfold lane, tilemap_sel in O. rewrite Sr, St in O.
  destruct o as [a x|r x| |vert x]; cbn [op_step] in E; cbn [clk_of k_bus b_rw b_lds b_uds b_dout b_addr negb andb orb] in *;
    rewrite ?word_write_both in *.
  - injection E as <-. rewrite Ad in B.
    destruct (blit_port_none ((0x900000 + 2 * a) / 2 mod 16) x (with_ram (blitter d) (vwrite a x (ram (blitter d))))) as (P1 & P2 & P3).
    split; cbn [d_regs d_tiles d_ofs]; [by rewrite B, P1|by rewrite O|done|]. apply finishes_now; rewrite B; [by rewrite P2|].
    rewrite P3. cbn. by rewrite M.
  - injection E as <-. rewrite Ad, set_breg_port in B. split; cbn [d_regs d_tiles d_ofs]; [by rewrite B; cbn; rewrite H1|by rewrite O|by apply set_breg_ok|].
    apply finishes_now; by rewrite B.
  - destruct (blit (d_regs s) (d_tiles s)) as [m|] eqn:Eb; [|done]. injection E as <-. rewrite Ad in B. change (7 =? 7) with true in B.
    destruct (blit_proper _ _ _ _ (symmetry M) Eb) as (m' & Em & Emm). rewrite <- H1 in Em, H3.
    split; cbn [d_regs d_tiles d_ofs]; [by rewrite B|by rewrite O|by rewrite <- H1|].
    pose proof (submit_finishes (with_ram (blitter d) (ram (blitter d))) m' H3 Em) as (F1 & F2 & F3).
    exists (job_clocks (regs (blitter d))). rewrite B. split; [exact F1|]. split; [exact F2|]. etransitivity; [exact F3|]. by symmetry.
  - injection E as <-. destruct (blit_port_none ((0x910000 + 2 * Z.b2z vert) / 2 mod 16) x (with_ram (blitter d) (ram (blitter d)))) as (P1 & P2 & P3).
    split; cbn [d_regs d_tiles d_ofs]; [by rewrite B, P1| |done|apply finishes_now; rewrite B; [by rewrite P2|by rewrite P3]].
    rewrite O, Ad, H2. by destruct vert.
Qed.

(** The clocks of an access after it was done, and all of them. *)
Lemma op_held_after s s' o n : forall d,
  shows s' d -> op_ok o -> op_step o s = Ok s' -> shows s' (dev_run (replicate n (clk_of o)) d).
Proof.
  induction n as [|n IH]; intros d S Ho E; [done|]. cbn [replicate dev_run foldl]. apply IH; [|done|done].
  destruct (blit_active (blitter d)) eqn:A; [by apply busy_clock|]. destruct (op_again _ _ _ E) as (s'' & E' & Ss).
  eapply shows_same; [by eapply op_clock|done].
Qed.

Lemma acknowledged_idle d : acknowledged d = true -> blit_active (blitter d) = false.
Proof. unfold acknowledged, DTACKn. destruct (blit_active _); [by rewrite orb_true_r|done]. Qed.

Lemma op_held s s' o n : forall d,
  shows s d -> op_ok o -> op_step o s = Ok s' ->
  (exists k, (k < n)%nat /\ acknowledged (dev_run (replicate k (clk_of o)) d) = true) ->
  shows s' (dev_run (replicate n (clk_of o)) d).
Proof.
  induction n as [|n IH]; intros d S Ho E (k & Hk & A); [lia|]. cbn [replicate dev_run foldl].
  destruct (blit_active (blitter d)) eqn:Act.
  - destruct k as [|k]; [apply acknowledged_idle in A; cbn in A; congruence|].
    apply IH; [by apply busy_clock|done|done|]. exists k. split; [lia|exact A].
  - apply (op_held_after s); [by eapply op_clock|done|done].
Qed.

Lemma carried_shows ops cs d : carried ops cs d ->
  forall s s', shows s d -> Forall op_ok ops -> op_run ops s = Ok s' -> shows s' (dev_run cs d).
Proof.
  induction 1 as [d|ops c cs d Q _ IH|o ops n cs d A _ IH]; intros s s' S Ho E.
  - injection E as <-. done.
  - apply (IH s); [by apply quiet_dev_clock|done|done].
  - apply Forall_cons_iff in Ho as [Ho Hos]. cbn [op_run] in E. apply bind_Ok in E as (s1 & E1 & E2).
    rewrite dev_run_app. apply (IH s1); [by eapply op_held|done|done].
Qed.

(** ** Every cycle ends *)

Lemma held_ack o n d : dtack_n (acks (dev_run (replicate (S n) (clk_of o)) d)) = false.
Proof.
  revert d. induction n as [|n IH]; intros d; [|apply (IH (dev_clock (clk_of o) d))]. by destruct o.
Qed.

Lemma held_busy o n : forall d m, finishes n (blitter d) m -> blit_active (blitter (dev_run (replicate n (clk_of o)) d)) = false.
Proof.
  induction n as [|n IH]; intros d m F; [apply F|]. cbn [replicate dev_run foldl]. apply (IH _ m).
  assert (blit_active (blitter d) = true) as A by (apply (proj1 F 0%nat); lia).
  cbn [dev_clock blitter]. unfold blit_clock. rewrite A. by apply finishes_clock.
Qed.

Lemma cycle_ends s s' o d :
  shows s d -> op_ok o -> op_step o s = Ok s' -> exists k, acknowledged (dev_run (replicate k (clk_of o)) d) = true.
Proof.
  intros Sh Ho E. assert (exists t, shows t (dev_clock (clk_of o) d)) as (t & [_ _ _ (n & F)]).
  { destruct (blit_active (blitter d)) eqn:A; [exists s; by apply busy_clock|exists s'; by eapply op_clock]. }
  exists (S n). unfold acknowledged, DTACKn. rewrite held_ack. cbn [orb]. apply negb_true_iff. exact (held_busy o n _ _ F).
Qed.

(** The accesses can be carried. *)
Lemma can_carry ops : forall d s s', shows s d -> Forall op_ok ops -> op_run ops s = Ok s' ->
  exists cs, carried ops cs d /\ Forall (fun c => exists o, op_ok o /\ c = clk_of o) cs.
Proof.
  induction ops as [|o ops IH]; intros d s s' Sh Ho E; [exists []; by split; constructor|].
  apply Forall_cons_iff in Ho as [Ho Hos]. cbn [op_run] in E. apply bind_Ok in E as (s1 & E1 & E2).
  destruct (cycle_ends s s1 o d Sh Ho E1) as [k A]. assert (exists k', (k' < S k)%nat /\ acknowledged (dev_run (replicate k' (clk_of o)) d) = true) as A' by (exists k; split; [lia|done]).
  destruct (IH (dev_run (replicate (S k) (clk_of o)) d) s1 s') as (cs & H & F); [by eapply op_held|done|done|].
  eexists. split; [by eapply carried_op|]. apply Forall_app_2; [|done]. apply Forall_replicate. by exists o.
Qed.

(** While the blitter is active it runs by itself. *)
Lemma busy_run m cs : forall n d, finishes n (blitter d) m -> (length cs <= n)%nat -> blitter (dev_run cs d) = hw_clocks (length cs) (blitter d).
Proof.
  induction cs as [|c cs IH]; intros n d F Hn; [done|]. destruct n as [|n]; [cbn in Hn; lia|]. cbn [dev_run foldl length] in *.
  assert (blitter (dev_clock c d) = hw_clock (blitter d)) as E.
  { cbn. unfold blit_clock. by rewrite (proj1 F 0%nat ltac:(lia) : blit_active (blitter d) = true). }
  rewrite (hw_clocks_add 1 (length cs)). change (hw_clocks 1 (blitter d)) with (hw_clock (blitter d)). rewrite <- E.
  apply (IH n); [rewrite E; by apply finishes_clock|lia].
Qed.

(** A job that never ends stops the processor at its next access. *)
Lemma stuck_run cs : forall d, (forall k, blit_active (hw_clocks k (blitter d)) = true) -> acknowledged (dev_run cs d) = false.
Proof.
  induction cs as [|c cs IH]; intros d H; [unfold acknowledged, DTACKn; pose proof (H 0%nat) as E; cbn in E; cbn; by rewrite E, orb_true_r|].
  apply (IH (dev_clock c d)). intros k. cbn [dev_clock blitter]. unfold blit_clock. rewrite (H 0%nat : blit_active (blitter d) = true).
  rewrite <- (hw_clocks_add 1 k). apply H.
Qed.

Lemma hang_stops s d :
  shows s d -> blit_active (blitter d) = false -> repeat (d_regs s) = 65535 ->
  forall ops cs, carried ops cs (dev_clock (clk_of Submit) d) -> ops = [].
Proof.
  intros Sh A E ops cs. pose proof (idle_clock (clk_of Submit) d A) as B. unfold tile_ram in B. rewrite A in B.
  assert (forall k, blit_active (hw_clocks k (blitter (dev_clock (clk_of Submit) d))) = true) as H.
  { intros k. rewrite B. apply (hw_stuck k (with_ram (blitter d) (ram (blitter d)))). cbn. by rewrite (s_regs _ _ Sh). }
  clear B Sh A E. revert H. generalize (dev_clock (clk_of Submit) d). clear. intros d H C. induction C as [d|ops c cs d _ _ IH|o ops n cs d (k & _ & Ak) _ _]; [done| |].
  - apply IH. intros k. pose proof (H (S k)) as Hk. rewrite (hw_clocks_add 1 k) in Hk. cbn [dev_clock blitter]. unfold blit_clock.
    by rewrite (H 0%nat : blit_active (blitter d) = true).
  - rewrite stuck_run in Ak by done. done.
Qed.
End simulation.

(** ** The accesses of gfx.c *)

(** In the order of the assignments: [addr], [value], [span], [repeat],
    [skip] and [submit] of a job, [hofs] and [vofs] of a flip. *)
Definition ops_of (x : access) : list draw_op :=
  match x with
  | Stored a v => [Store a v]
  | Filled r => [SetReg Addr (addr r); SetReg Value (value r); SetReg Span (span r); SetReg Repeat (repeat r);
                 SetReg Skip (skip r); Submit]
  | Flipped tc => [Scroll false tc.1; Scroll true tc.2]
  end.

Definition ops_of_all (xs : list access) : list draw_op := concat (map ops_of xs).

Lemma op_run_app ops ops' s s' : op_run ops s = Ok s' -> op_run (ops ++ ops') s = op_run ops' s'.
Proof.
  revert s. induction ops as [|o ops IH]; intros s E; [by injection E as <-|]. cbn [op_run Datatypes.app] in *.
  apply bind_Ok in E as (s1 & E1 & E2). rewrite E1. cbn [mbind result_bind]. by apply IH.
Qed.

Lemma access_ops x r m m' tc :
  regs_ok r -> access_ok x -> access_run x m = Ok m' ->
  exists r', regs_ok r' /\ op_run (ops_of x) (mkDrawing r m tc) = Ok (mkDrawing r' m' (ofs_after [x] tc)) /\ Forall op_ok (ops_of x).
Proof.
  intros Hr Hx E. destruct x as [a v|j|tc']; cbn [access_run access_ok ops_of] in *.
  - injection E as <-. exists r. split; [done|]. split; [done|]. apply Forall_cons_2; [done|apply Forall_nil_2].
  - destruct Hx as (H1 & H2 & H3 & H4 & H5). exists j. split; [done|]. split; [|repeat apply Forall_cons_2; first [done|apply Forall_nil_2]].
    destruct j as [v sp sk re ad]. cbn -[blit] in *. unfold set_breg in E. cbn -[blit] in *. by rewrite E.
  - injection E as <-. exists r. split; [done|]. destruct tc' as [ho vo], Hx as [H1 H2]. split; [done|].
    repeat apply Forall_cons_2; first [done|apply Forall_nil_2].
Qed.

Lemma accesses_ops xs : forall r m m' tc,
  regs_ok r -> Forall access_ok xs -> access_runs xs m = Ok m' ->
  exists r', op_run (ops_of_all xs) (mkDrawing r m tc) = Ok (mkDrawing r' m' (ofs_after xs tc)) /\ Forall op_ok (ops_of_all xs).
Proof.
  induction xs as [|x xs IH]; intros r m m' tc Hr Hx E; [injection E as <-; exists r; split; [done|apply Forall_nil_2]|].
  apply Forall_cons_iff in Hx as [Hx Hxs]. cbn [access_runs] in E. apply bind_Ok in E as (m1 & E1 & E2).
  destruct (access_ops x r m m1 tc Hr Hx E1) as (r1 & Hr1 & O1 & F1). destruct (IH r1 m1 m' (ofs_after [x] tc) Hr1 Hxs E2) as (r' & O & F).
  exists r'. split; [|by apply Forall_app_2]. unfold ops_of_all in *. cbn [map concat]. by rewrite (op_run_app _ _ _ _ O1).
Qed.

Section delivered.
Context {ROM PAL : Type} {HR : MemBlock ROM} {HP : PalBlock PAL}.
Implicit Types d : tile_dev (ROM := ROM) (PAL := PAL).

(** The device has the offsets [tc], and [m] after [n] clocks in which no
    access is acknowledged, whatever is on the bus. *)
Definition settles (m : vmem) (tc : Z * Z) d : Prop :=
  offsets d = tc /\
  exists n, forall cs,
    ((length cs < n)%nat -> acknowledged (dev_run cs d) = false) /\
    (length cs = n -> blit_active (blitter (dev_run cs d)) = false /\ ram (blitter (dev_run cs d)) ≈ m).

Lemma shows_settles s d : shows s d -> settles (d_tiles s) (d_ofs s) d.
Proof.
  intros [_ Ho _ (n & Fn)]. split; [exact Ho|]. exists n. intros cs. pose proof (busy_run _ cs n _ Fn) as B. destruct Fn as (F1 & F2 & F3). split.
  - intros Hl. unfold acknowledged, DTACKn. by rewrite (B ltac:(lia)), F1, orb_true_r by done.
  - intros Hl. rewrite (B ltac:(lia)), Hl. by split.
Qed.

(** The accesses can be carried, and then the device settles to their effect. *)
Lemma accesses_delivered xs r m m' tc d :
  shows (mkDrawing r m tc) d -> Forall access_ok xs -> access_runs xs m = Ok m' ->
  (exists cs, carried (ops_of_all xs) cs d /\ Forall (fun c => exists o, op_ok o /\ c = clk_of o) cs) /\
  forall cs, carried (ops_of_all xs) cs d -> settles m' (ofs_after xs tc) (dev_run cs d).
Proof.
  intros Sh Hx E. destruct (accesses_ops xs r m m' tc (s_ok _ _ Sh) Hx E) as (r' & O & F).
  split; [by eapply can_carry|]. intros cs C. exact (shows_settles _ _ (carried_shows _ _ _ C _ _ Sh F O)).
Qed.
End delivered.

(** While [submit] is held, a job of one cell starts again. *)
#[local] Existing Instances demo_rom demo_pal.

Definition demo_dev : tile_dev (ROM := Z * Z) (PAL := (Z -> Z) * Z) :=
  {| blitter := with_ram demo_job (tiles demo_gfx); dout := 0;
     acks := {| dtack_n := true; vpa_n := true; prev_ds_n := true |}; pic := demo_picture |}.

Lemma job_repeats :
  let ready := dev_clock (clk_of (SetReg Repeat 0)) (dev_clock (clk_of (SetReg Span 0)) demo_dev) in
  map (fun n => blit_active (blitter (dev_run (replicate n (clk_of Submit)) ready))) [1; 2; 3; 4]%nat = [true; true; false; true].
Proof. vm_compute. reflexivity. Qed.

(** ** The picture while the firmware draws *)

Section steady.
Context {ROM PAL : Type} {HR : MemBlock ROM} {HP : PalBlock PAL}.
Implicit Types d : tile_dev (ROM := ROM) (PAL := PAL).

(** A part of the memory, and what it holds. *)
Context (page : Z -> Prop) (m0 : vmem).

(** The [col]-th cell of the [row]-th row of a job. *)
Definition job_cell (r : Blitter) (row col : Z) : Z := u16 (addr r + row * (span r + skip r) + col) mod VRAM_WORDS.

Definition job_off (r : Blitter) : Prop :=
  forall row col, 0 <= row <= repeat r -> 0 <= col <= span r -> ~ page (job_cell r row col).

(** No access writes to the page or to the offsets. *)
Definition op_off (r : Blitter) (o : draw_op) : Prop :=
  match o with
  | Store a _ => ~ page (a mod VRAM_WORDS)
  | SetReg _ _ => True
  | Submit => job_off r
  | Scroll _ _ => False
  end.

Fixpoint ops_off (r : Blitter) (ops : list draw_op) : Prop :=
  match ops with
  | [] => True
  | o :: ops => op_off r o /\ ops_off (match o with SetReg i x => set_breg i x r | _ => r end) ops
  end.

(** A blitter inside a job that keeps off the page. *)
Record in_job (h : blit_hw) : Prop := {
  j_off : job_off (regs h);
  j_col : 0 <= blit_span_count h <= span (regs h);
  j_row : 0 <= blit_repeat_count h <= repeat (regs h) + 1;
  j_last : repeat (regs h) < 65535;
  j_span : span (regs h) < 65536;
  j_next : blit_next_addr h = u16 (addr (regs h) + blit_repeat_count h * (span (regs h) + skip (regs h)) + blit_span_count h);
  j_out : blit_wr h = true -> ~ page (blit_addr h mod VRAM_WORDS)
}.

Definition keeps (h : blit_hw) : Prop := (forall a, page a -> ram h a = m0 a) /\ (blit_active h = true -> in_job h).

Lemma vwrite_off a x m : ~ page (a mod VRAM_WORDS) -> (forall b, page b -> m b = m0 b) -> forall b, page b -> vwrite a x m b = m0 b.
Proof. intros Ha Hm b Hb. unfold vwrite. destruct (Z.eqb_spec b (a mod VRAM_WORDS)) as [->|]; [done|by apply Hm]. Qed.

Lemma keeps_clock h : keeps h -> keeps (hw_clock h).
Proof.
  intros [Hm Hj]. unfold hw_clock. destruct (blit_active h) eqn:A; cbn [negb andb]; [|done].
  destruct (Hj eq_refl) as [J1 J2 J3 J4 J5 J6 J7].
  assert (forall b, page b -> (if blit_wr h then vwrite (blit_addr h) (blit_dout h) (ram h) else ram h) b = m0 b) as Hm'.
  { destruct (blit_wr h); [|done]. apply vwrite_off; [by apply J7|done]. }
  destruct (Z.ltb_spec (repeat (regs h)) (blit_repeat_count h)); [by split|].
  assert (~ page (blit_next_addr h mod VRAM_WORDS)) as Hn by (rewrite J6; apply J1; lia).
  destruct (Z.eqb_spec (blit_span_count h) (span (regs h))) as [E|E]; (split; [exact Hm'|]); intros _;
    (split; cbn [regs blit_span_count blit_repeat_count blit_next_addr blit_addr]; try done; try lia).
  - rewrite u16_small by (unfold is_u16; lia). lia.
  - rewrite J6, E, (u16_small (blit_repeat_count h + 1)) by (unfold is_u16; lia). unfold u16. rewrite Zplus_mod_idemp_l. f_equal. lia.
  - rewrite u16_small by (unfold is_u16; lia). lia.
  - rewrite J6, (u16_small (blit_span_count h + 1)) by (unfold is_u16; lia). unfold u16. rewrite Zplus_mod_idemp_l. f_equal. lia.
Qed.

(** One clock: quiet, or one of an access that keeps off. *)
Lemma keeps_dev s c d :
  shows s d -> keeps (blitter d) -> quiet (k_bus c) = true \/ (exists o, c = clk_of o /\ op_ok o /\ op_off (d_regs s) o /\ is_Ok (op_step o s)) ->
  keeps (blitter (dev_clock c d)) /\ offsets (dev_clock c d) = offsets d.
Proof.
  intros Sh K Hc. destruct (blit_active (blitter d)) eqn:A.
  { rewrite offsets_clock, A. split; [|done]. cbn [dev_clock blitter]. unfold blit_clock. rewrite A. by apply keeps_clock. }
  pose proof (idle_clock c d A) as E. cbv zeta in E. rewrite E. destruct K as [Hm _]. destruct Hc as [Q|(o & -> & Ho & Hoff & Hok)].
  - destruct (quiet_lanes _ Q) as ([B0 B1] & [R0 R1] & _). rewrite B0, B1 in *. unfold tile_ram. rewrite A, R0, R1. cbn [orb].
    destruct (blit_port_none ((b_addr (k_bus c) / 2) mod 16) (b_dout (k_bus c)) (with_ram (blitter d) (ram (blitter d)))) as (P1 & P2 & P3).
    split; [split; [by rewrite P3|rewrite P2; cbn; congruence]|].
    by rewrite (s_ofs _ _ (quiet_dev_clock _ _ _ Sh Q)), (s_ofs _ _ Sh).
  - destruct (clk_decoded o Ho) as (Sr & St & Sb & Ad). cbv zeta in *. split; [|by rewrite offsets_clock, A, St; destruct o].
    unfold tile_ram, lane. rewrite A, Sr, Sb. destruct o as [a x|r x| |vert x]; [| | |done];
      cbn [clk_of k_bus b_rw b_lds b_uds b_dout b_addr negb andb orb] in *; rewrite ?word_write_both.
    + rewrite Ad. destruct (blit_port_none ((0x900000 + 2 * a) / 2 mod 16) x (with_ram (blitter d) (vwrite a x (ram (blitter d))))) as (P1 & P2 & P3).
      split; [rewrite P3; by apply vwrite_off|rewrite P2; cbn; congruence].
    + rewrite Ad, set_breg_port. split; [done|]. cbn. congruence.
    + rewrite Ad. change (7 =? 7) with true. split; [done|]. intros _. destruct (s_ok _ _ Sh) as (H1 & H2 & H3). rewrite <- (s_regs _ _ Sh) in *.
      destruct Hok as [s' Hok]. cbn in Hok. unfold blit in Hok. rewrite <- (s_regs _ _ Sh) in Hok.
      destruct (Z.eqb_spec (repeat (regs (blitter d))) 65535); [done|]. unfold is_u16 in *.
      split; cbn; try done; try lia. rewrite Z.add_0_r, u16_small; [lia|unfold is_u16; lia].
Qed.

Lemma op_regs o s s' : op_step o s = Ok s' -> d_regs s' = match o with SetReg i x => set_breg i x (d_regs s) | _ => d_regs s end.
Proof. destruct o; cbn; try (by intros [= <-]). destruct (blit _ _); [|done]. cbn. by intros [= <-]. Qed.

(** The clocks of one access, before and after it is done. *)
Lemma keeps_held s s' o n : forall d,
  op_ok o -> op_off (d_regs s) o -> op_step o s = Ok s' -> shows s d \/ shows s' d -> keeps (blitter d) ->
  forall k, (k <= n)%nat -> let d' := dev_run (replicate k (clk_of o)) d in keeps (blitter d') /\ offsets d' = offsets d.
Proof.
  induction n as [|n IH]; intros d Ho Hoff E Sh K k Hk; [by destruct k; [|lia]|]. destruct k as [|k]; [done|]. cbv zeta. cbn [replicate dev_run foldl].
  assert (exists t, shows t d /\ op_off (d_regs t) o /\ is_Ok (op_step o t)) as (t & St & Ht & Hk').
  { destruct (op_again _ _ _ E) as (s'' & E'' & _). destruct Sh as [Sh|Sh]; [by exists s; split_and!; [..|eexists]|].
    exists s'. split; [done|]. split; [|by eexists]. apply op_regs in E. rewrite E. by destruct o. }
  destruct (keeps_dev t (clk_of o) d St K) as [K' O']; [right; by exists o|].
  destruct (IH (dev_clock (clk_of o) d) Ho Hoff E) with (k := k) as [K'' O'']; [|done|lia|by rewrite <- O'].
  destruct (blit_active (blitter d)) eqn:A; [destruct Sh; [left|right]; by apply busy_clock|right].
  destruct Sh as [Sh|Sh]; [by apply (op_clock s s')|]. by apply (op_held_after s s' o 1).
Qed.

Lemma take_replicate_app {A} k n (x : A) l : take k (replicate n x ++ l) = replicate (k `min` n) x ++ take (k - n) l.
Proof. by rewrite take_app, take_replicate, length_replicate. Qed.

(** At every clock of the accesses the page is as it was. *)
Lemma carried_keeps ops cs d : carried ops cs d ->
  forall s s', shows s d -> Forall op_ok ops -> op_run ops s = Ok s' -> ops_off (d_regs s) ops -> keeps (blitter d) ->
  forall k, let d' := dev_run (take k cs) d in keeps (blitter d') /\ offsets d' = offsets d.
Proof.
  induction 1 as [d|ops c cs d Q _ IH|o ops n cs d A _ IH]; intros s s' Sh Ho E Hoff K k.
  - by rewrite take_nil.
  - destruct k as [|k]; [done|]. cbv zeta. cbn [take dev_run foldl]. destruct (keeps_dev s c d Sh K (or_introl Q)) as [K' O'].
    destruct (IH s s' (quiet_dev_clock _ _ _ Sh Q) Ho E Hoff K' k) as [K'' O'']. split; [exact K''|]. etransitivity; [exact O''|exact O'].
  - apply Forall_cons_iff in Ho as [Ho Hos]. cbn [op_run ops_off] in *. apply bind_Ok in E as (s1 & E1 & E2). destruct Hoff as [Hoff Hoffs].
    rewrite <- (op_regs _ _ _ E1) in Hoffs. cbv zeta. rewrite take_replicate_app, dev_run_app.
    pose proof (keeps_held s s1 o n d Ho Hoff E1 (or_introl Sh) K) as H. destruct (Nat.le_gt_cases k n) as [Hk|Hk].
    + replace (k - n)%nat with 0%nat by lia. rewrite Nat.min_l by done. apply (H k Hk).
    + rewrite Nat.min_r by lia. destruct (H n ltac:(lia)) as [K' O'].
      destruct (IH s1 s' (op_held _ _ _ _ _ Sh Ho E1 A) Hos E2 Hoffs K' (k - n)%nat) as [K'' O'']. split; [exact K''|].
      etransitivity; [exact O''|exact O'].
Qed.
End steady.

(** Accesses inside the page [p] keep off another one. *)
Lemma inside_off p q xs : (forall a, in_page p a -> ~ in_page q a) -> (p = 0 \/ p = 8192) -> Forall (inside p) xs ->
  forall r, ops_off (in_page q) r (ops_of_all xs).
Proof.
  intros Hpq Hp. induction 1 as [|x xs Hx _ IH]; intros r; [done|]. unfold ops_of_all in *. cbn [map concat].
  destruct x as [a v|j|]; cbn [inside ops_of Datatypes.app ops_off op_off] in *; [| |done].
  - destruct Hx as [Ha _]. split; [|apply IH]. unfold VRAM_WORDS. rewrite Z.mod_small by (unfold in_page in Ha; lia). by apply Hpq.
  - destruct Hx as [(_ & Hs & _ & Hr & _) Hx]. split_and!; try done. destruct j as [v sp sk re ad].
    intros row col H1 H2. apply Hpq. unfold job_cell. apply Hx. apply elem_of_job_writes. exists row, col. cbn in *. unfold is_u16 in *.
    split; [lia|]. split; [lia|done].
Qed.

(** Without a submission an idle blitter stays idle. *)
Section idle.
Context {ROM PAL : Type} {HR : MemBlock ROM} {HP : PalBlock PAL}.
Implicit Types d : tile_dev (ROM := ROM) (PAL := PAL).

Lemma quiet_idle c d : blit_active (blitter d) = false -> quiet (k_bus c) = true -> blit_active (blitter (dev_clock c d)) = false.
Proof. intros A Q. destruct (quiet_lanes _ Q) as ([B0 B1] & _). rewrite idle_clock by done. cbv zeta. rewrite B0, B1. by rewrite (proj1 (proj2 (blit_port_none _ _ _))). Qed.

Lemma op_idle o d : blit_active (blitter d) = false -> op_ok o -> o <> Submit -> blit_active (blitter (dev_clock (clk_of o) d)) = false.
Proof.
  intros A Ho Hs. destruct (clk_decoded o Ho) as (_ & _ & Sb & Ad). cbv zeta in Sb, Ad. rewrite idle_clock by done. cbv zeta. unfold lane. rewrite Sb.
  destruct o as [a x|r x| |vert x]; [| |done|]; cbn [clk_of k_bus b_rw b_lds b_uds b_dout negb andb] in *.
  - by rewrite (proj1 (proj2 (blit_port_none _ _ _))).
  - by rewrite Ad, set_breg_port.
  - by rewrite (proj1 (proj2 (blit_port_none _ _ _))).
Qed.

Lemma held_idle o n : forall d,
  op_ok o -> o <> Submit -> blit_active (blitter d) = false -> blit_active (blitter (dev_run (replicate n (clk_of o)) d)) = false.
Proof. induction n as [|n IH]; intros d Ho Hs A; [done|]. apply IH; [done..|]. by apply op_idle. Qed.

Lemma carried_idle ops cs d :
  carried ops cs d -> Forall op_ok ops -> Forall (fun o => o <> Submit) ops -> blit_active (blitter d) = false ->
  blit_active (blitter (dev_run cs d)) = false.
Proof.
  induction 1 as [d|ops c cs d Q _ IH|o ops n cs d _ _ IH]; intros Ho Hs A; [done| |].
  - apply IH; [done|done|by apply quiet_idle].
  - apply Forall_cons_iff in Ho as [Ho Hos], Hs as [Hs Hss]. rewrite dev_run_app. apply IH; [done|done|]. by apply held_idle.
Qed.

(** An access that is no submission ends when the blitter is idle. *)
Lemma carried_ends ops cs d :
  carried ops cs d -> ops <> [] -> Forall op_ok ops -> Forall (fun o => o <> Submit) ops -> blit_active (blitter (dev_run cs d)) = false.
Proof.
  induction 1 as [d|ops c cs d Q _ IH|o ops n cs d (k & Hk & A) C _]; intros Hne Ho Hs; [done|by apply IH|].
  apply Forall_cons_iff in Ho as [Ho Hos], Hs as [Hs Hss]. rewrite dev_run_app. apply (carried_idle _ _ _ C); [done|done|].
  replace n with (k + (n - k))%nat by lia. rewrite replicate_add, dev_run_app. apply held_idle; [done..|]. by apply acknowledged_idle.
Qed.
End idle.

Section scan.
Context {ROM PAL : Type} {HR : MemBlock ROM} {HP : PalBlock PAL}.
Implicit Types d : tile_dev (ROM := ROM) (PAL := PAL).

(** No write to the CRT controller. *)
Definition crtc_quiet (c : bus_clk) : Prop := c_wr0 (crtc_port (k_bus c)) = false /\ c_wr1 (crtc_port (k_bus c)) = false.

Lemma crtc_clock_quiet b s : c_wr0 (crtc_port b) = false -> c_wr1 (crtc_port b) = false -> crtc_clock (crtc_port b) s = crtc_tick s.
Proof. intros H0 H1. destruct (crtc_port b) as [rs w0 w1 a x] eqn:E. cbn in *. subst. unfold crtc_port in E. by injection E as <- _ _ _ _. Qed.

Lemma scan_quiet c d : crtc_quiet c -> offsets (dev_clock c d) = offsets d -> pic (dev_clock c d) = pic_clock (ram (blitter d), pal_port (k_bus c)) (pic d).
Proof.
  intros [H0 H1] O. injection O as O1 O2. cbn [dev_clock pic] in *. unfold scan_clock, pic_clock in *. cbn [pic_tiles] in *.
  rewrite crtc_clock_quiet by done. f_equal. unfold tm_clock in *. cbn [t_hofs t_vofs] in O1, O2. f_equal; [exact O1|exact O2].
Qed.

(** The tile memory and the port of the palette at each of the clocks. *)
Fixpoint rams (cs : list bus_clk) d : list (vmem * pal_in) :=
  match cs with [] => [] | c :: cs => (ram (blitter d), pal_port (k_bus c)) :: rams cs (dev_clock c d) end.

Lemma length_rams cs : forall d, length (rams cs d) = length cs.
Proof. induction cs as [|c cs IH]; intros d; [done|]. cbn. by rewrite IH. Qed.

Lemma rams_app cs cs' : forall d, rams (cs ++ cs') d = rams cs d ++ rams cs' (dev_run cs d).
Proof. induction cs as [|c cs IH]; intros d; [done|]. cbn. by rewrite IH. Qed.

Lemma rams_Forall (P : vmem -> Prop) cs : forall d, (forall k, P (ram (blitter (dev_run (take k cs) d)))) -> Forall (fun x => P x.1) (rams cs d).
Proof.
  induction cs as [|c cs IH]; intros d H; [constructor|]. cbn [rams]. apply Forall_cons_2; [apply (H 0%nat)|]. apply IH. intros k. apply (H (S k)).
Qed.

Lemma scan_run cs : forall d,
  Forall crtc_quiet cs -> (forall k, offsets (dev_run (take k cs) d) = offsets d) -> pic (dev_run cs d) = pic_run (rams cs d) (pic d).
Proof.
  induction cs as [|c cs IH]; intros d Hq Ho; [done|]. apply Forall_cons_iff in Hq as [Hc Hq]. cbn [rams dev_run foldl pic_run].
  pose proof (Ho 1%nat) as O1. cbn [take dev_run foldl] in O1. rewrite <- (scan_quiet c d Hc) by (by rewrite take_0 in O1).
  apply (IH (dev_clock c d) Hq). intros k. rewrite take_0 in O1. etransitivity; [exact (Ho (S k))|by symmetry].
Qed.
End scan.

(** The screen while accesses are carried that keep off the page [p]: a pixel
    of a line that began at clock [k]. *)
Lemma steady_picture {ROM PAL : Type} {HR : MemBlock ROM} {HP : PalBlock PAL} (gfx_rom : Z -> Z)
    (Hrom : BlockReads ROM 2 gfx_rom) (Hpal : PalReads PAL)
    (wide : bool) (f : float) (g : gfx) (r : Blitter) (s' : drawing) (d : tile_dev (ROM := ROM) (PAL := PAL)) (ops : list draw_op)
    (cs : list bus_clk) (k : nat) (x y : Z) :
  let md := mode_240p wide f in
  let shown k := pic (dev_run (take k cs) d) in
  (forall a, 0 <= gfx_rom a < 2 ^ 32) -> flipped wide g -> shows (mkDrawing r (tiles g) (tile_ctrl g)) d -> blit_active (blitter d) = false ->
  Forall op_ok ops -> op_run ops (mkDrawing r (tiles g) (tile_ctrl g)) = Ok s' -> ops_off (in_page (front_page g)) r ops ->
  carried ops cs d -> Forall crtc_quiet cs ->
  0 <= x < hact md -> 0 <= y < vact md -> pixel_ok md (pic_crtc (shown k)) -> beam (pic_crtc (shown k)) = (0, vbp md + y) ->
  (k + Z.to_nat (4 * (hbp md + x)) <= length cs)%nat ->
  let n := (k + Z.to_nat (4 * (hbp md + x)))%nat in
  let p' := shown n in
  let entry := tile_pixel gfx_rom (tiles g) (front_page g) x y in
  beam (pic_crtc p') = (hbp md + x, vbp md + y) /\ hblank (pic_crtc p') = false /\ vblank (pic_crtc p') = false /\
  color_out (pic_tiles p') = entry /\
  forall c, cs !! Nat.pred n = Some c -> pal_hit (pal_port (k_bus c)) entry = false -> pal_q (pic_pal p') = pal_mem (pic_pal (shown (Nat.pred n))) entry.
Proof.
  intros md shown Hw Hg Sh Hi F O Hoff C Hq Hxx Hyy P Eb Hl n p' entry.
  assert (keeps (in_page (front_page g)) (tiles g) (blitter d)) as K.
  { split; [|congruence]. intros a _. destruct (s_tiles _ _ Sh) as [n' Fn]. apply (finishes_idle _ _ _ Fn Hi). }
  pose proof (carried_keeps _ (tiles g) _ _ _ C _ _ Sh F O Hoff K) as A. set (N := Z.to_nat (4 * (hbp md + x))) in *.
  assert (forall i j, dev_run (take j (take i (drop k cs))) (dev_run (take k cs) d) = dev_run (take (k + j `min` i) cs) d) as T.
  { intros i j. by rewrite <- dev_run_app, take_take, take_take_drop. }
  assert (forall i, shown (k + i)%nat = pic_run (rams (take i (drop k cs)) (dev_run (take k cs) d)) (shown k)) as R.
  { intros i. unfold shown. rewrite <- take_take_drop, dev_run_app. apply scan_run.
    - by apply Forall_take, Forall_drop.
    - intros j. rewrite T. destruct (A (k + j `min` i)%nat) as [_ ->], (A k) as [_ ->]. done. }
  destruct (picture_shown gfx_rom Hrom Hpal wide f g (shown k) (rams (take N (drop k cs)) (dev_run (take k cs) d)) x y) as (H1 & H2 & H3 & H4 & H5); try done.
  { destruct (A k) as [_ Ok]. change (offsets (dev_run (take k cs) d) = tile_ctrl g). rewrite Ok. apply (s_ofs _ _ Sh). }
  { transitivity N; [|done]. rewrite length_rams, length_take, length_drop. lia. }
  { apply (rams_Forall (fun m => forall a, in_page (front_page g) a -> m a = tiles g a)). intros j. rewrite T. apply (A (k + j `min` N)%nat). }
  unfold p', n. rewrite R. split; [exact H1|]. split; [exact H2|]. split; [exact H3|]. split; [exact H4|]. intros c Hc Hh.
  assert (0 < N)%nat as HN by (unfold N, md; destruct wide; cbn in *; lia). replace (Nat.pred (k + N)) with (k + Nat.pred N)%nat in * by lia.
  rewrite (H5 (rams (take (Nat.pred N) (drop k cs)) (dev_run (take k cs) d)) (ram (blitter (dev_run (take (Nat.pred N) (drop k cs)) (dev_run (take k cs) d))), pal_port (k_bus c)));
    [by rewrite R| |done].
  assert (take N (drop k cs) = take (Nat.pred N) (drop k cs) ++ [c]) as ->; [|by rewrite rams_app].
  replace N with (S (Nat.pred N)) at 1 by lia. apply take_S_r. by rewrite lookup_drop.
Qed.

(** The palette after some clocks of the bus. *)
Definition palette_after (cs : list bus_clk) (m : Z -> Z) : Z -> Z := foldl (fun m c => pal_clock (k_bus c) m) m cs.

Lemma palette_ext cs : forall m m' j, m j = m' j -> palette_after cs m j = palette_after cs m' j.
Proof. induction cs as [|c cs IH]; intros m m' j E; [done|]. cbn [palette_after foldl]. apply IH. unfold pal_clock, pal_write. by rewrite E. Qed.

Lemma palette_carried {ROM PAL : Type} {HR : MemBlock ROM} {HP : PalBlock PAL} (Hpal : PalReads PAL) cs : forall (d : tile_dev (ROM := ROM) (PAL := PAL)) j,
  pal_mem (pic_pal (pic (dev_run cs d))) j = palette_after cs (pal_mem (pic_pal (pic d))) j.
Proof.
  induction cs as [|c cs IH]; intros d j; [done|]. cbn [dev_run palette_after foldl]. etransitivity; [apply IH|].
  apply palette_ext. apply pal_mem_step.
Qed.

(** No write to an entry other than [e]. *)
Definition only_entry (e : Z) (c : bus_clk) : Prop := let i := pal_port (k_bus c) in w_wr0 i || w_wr1 i = true -> w_address i = e.

Lemma only_entry_keeps e cs j m : Forall (only_entry e) cs -> j <> e -> palette_after cs m j = m j.
Proof.
  intros H Hj. revert m. induction H as [|c cs Hc _ IH]; intros m; [done|]. cbn [palette_after foldl]. etransitivity; [apply IH|].
  unfold pal_clock, pal_write. destruct (Z.eqb_spec j (w_address (pal_port (k_bus c)))) as [E|]; [|done]. unfold only_entry in Hc.
  destruct (w_wr0 _), (w_wr1 _); [exfalso; apply Hj; rewrite E; by apply Hc..|apply word_write_none].
Qed.

Lemma only_entry_hit e c j : only_entry e c -> j <> e -> pal_hit (pal_port (k_bus c)) j = false.
Proof.
  unfold only_entry, pal_hit. intros H Hj. destruct (_ || _); [|done]. cbn [andb]. apply Z.eqb_neq. rewrite H by done. congruence.
Qed.
