(* ===== verification/Board.v ===== *)
(** * The program on its board

    The composition: the program of System.v, its drawing accesses carried to
    the tile map and the blitter (TileBus.v) and its writes carried to the two
    video outputs (SysBus.v) by the same clocks of the bus. *)

From S2P Require Import Prelude Clock Interrupts Sampling SamplingProps History Input Blitter Float Hdmi HdmiProps.
From S2P Require Import Printf Numerals Formats Util Gfx GfxProps Video Modes Menu Canvas Status Main Screens Config Firmware System.
From S2P Require Import Crtc Tilemap SysBus TileBus.

(** ** One bus, two machines *)

(** A trace of the bus, with the tick counter: what [tile_dev] and [board]
    make of it. *)
Definition dev_side (tr : list (Z * bus_clk)) : list bus_clk := map snd tr.
Definition board_side (tr : list (Z * bus_clk)) : list (Z * cpu_bus) := map (fun t => (t.1, k_bus t.2)) tr.

(** Both hold the same CRT controller. *)
Lemma same_controller {ROM PAL : Type} {HR : MemBlock ROM} {HP : PalBlock PAL} tr : forall (d : tile_dev (ROM := ROM) (PAL := PAL)) x,
  pic_crtc (pic d) = crtc x -> pic_crtc (pic (dev_run (dev_side tr) d)) = crtc (board_run (board_side tr) x).
Proof.
  induction tr as [|t tr IH]; intros d x E; [done|]. cbn [dev_side board_side map dev_run board_run foldl]. apply IH.
  cbn [dev_clock pic scan_clock pic_crtc board_clock crtc snd]. by rewrite E.
Qed.

(** ** A trace exists *)

Definition write_clk (w : bus_write) : Z * bus_clk := (0, {| k_as_n := false; k_iack := false; k_bus := bus_of w |}).
Definition quiet_clk : Z * bus_clk := (0, {| k_as_n := true; k_iack := false; k_bus := quiet_bus |}).
Definition write_clks (ws : list bus_write) : list (Z * bus_clk) := concat (map (fun w => [write_clk w; quiet_clk]) ws).

Lemma write_quiet w : crtc_regs_ok w -> quiet (bus_of w) = true.
Proof.
  destruct w as [v|v|reg v]; [done..|]. cbn. intros H. unfold quiet, tilemap_sel, tilemap_ram_sel, tilemap_reg_sel, blitter_sel, sel. cbn [bus_of b_addr].
  by replace ((0x800000 + 2 * reg) / 65536) with 0x80 by word_lia.
Qed.

Lemma op_quiet o : op_ok o -> quietb (k_bus (clk_of o)) = true.
Proof.
  destruct o as [a v|r v| |[] v]; cbn [op_ok]; intros Ho; try done; [|by destruct r].
  unfold quietb, vio_sel, crtc_sel, sel. cbn [clk_of k_bus b_addr].
  replace ((0x900000 + 2 * a) / 65536) with 0x90 by (unfold VRAM_WORDS in *; word_lia). by rewrite orb_true_r.
Qed.

Lemma write_clks_cycles ws : cycles ws (board_side (write_clks ws)).
Proof.
  induction ws as [|w ws IH]; [constructor|]. exact (cycles_write w ws [0] (0, quiet_bus) _ ltac:(done) eq_refl IH).
Qed.

Section trace.
Context {ROM PAL : Type} {HR : MemBlock ROM} {HP : PalBlock PAL}.
Implicit Types d : tile_dev (ROM := ROM) (PAL := PAL).

Lemma carried_then_quiet ops cs qs d : carried ops cs d -> Forall (fun c => quiet (k_bus c) = true) qs -> carried ops (cs ++ qs) d.
Proof.
  intros C Q. induction C as [d|ops c cs d Hc _ IH|o ops n cs d A _ IH].
  - revert d. induction Q as [|c qs Hc _ IH]; intros d; [constructor|]. by apply carried_quiet.
  - by apply carried_quiet.
  - rewrite <- app_assoc. by apply carried_op.
Qed.

(** The two machines on a trace that carries the accesses [ops] and the
    writes [ws]. *)
Definition carries (ops : list draw_op) (ws : list bus_write) (tr : list (Z * bus_clk)) d : Prop :=
  carried ops (dev_side tr) d /\ cycles ws (board_side tr).

Lemma trace_exists ops ws cs d :
  carried ops cs d -> Forall (fun c => exists o, op_ok o /\ c = clk_of o) cs -> Forall crtc_regs_ok ws -> exists tr, carries ops ws tr d.
Proof.
  intros C F W. exists (map (fun c => (0, c)) cs ++ write_clks ws). split.
  - unfold dev_side. rewrite map_app, map_map, map_id. apply carried_then_quiet; [done|].
    unfold write_clks. clear C F. induction W as [|w ws Hw _ IH]; [constructor|]. cbn [map concat Datatypes.app].
    apply Forall_cons_2; [by apply write_quiet|]. by apply Forall_cons_2.
  - unfold board_side. rewrite map_app, map_map. clear C. induction F as [|c cs (o & Ho & ->) _ IH]; [apply write_clks_cycles|].
    cbn [map Datatypes.app]. apply cycles_quiet; [by apply op_quiet|]. apply IH.
Qed.
End trace.

(** ** The whole program *)

(** The screen of a reachable state is what the accesses since power on make. *)
Lemma reachable_traced r0 q0 N a0 g0 s :
  rx_idle r0 -> app_ok r0 q0 a0 -> pll_answers (8 * S N) (hw a0) -> traced g0 (screen a0) ->
  rtc sys_step (sys_start a0) s -> (drawn s <= N)%nat -> few (cworld (scfg s)) -> traced g0 (screen (sapp s)).
Proof.
  intros Hr Ha Hb Ht. revert s. refine (rtc_ind_r (fun s => (drawn s <= N)%nat -> few (cworld (scfg s)) -> traced g0 (screen (sapp s))) _ _ _); [done|].
  intros s s' Hs St IH Hd Hf. assert (few (cworld (scfg s))) as Hf0.
  { apply sys_step_machine, recorded_mono, prefix_length in St. unfold few, zlen in *. lia. }
  destruct St as [ch c c' a n _ _|w a n _|c c' a n _ _ _|e c c' a a' n D _ He E]; cbn [scfg sapp drawn] in *; try by apply IH.
  specialize (IH ltac:(lia) Hf0). destruct (draw_returns r0 q0 Hr N a0 Ha Hb (Sys c a n) e Hs) as (x & Ex & _ & Hx); [cbn; lia|done..|].
  cbn [scfg sapp] in Ex, Hx. rewrite E in Ex. injection Ex as <-. destruct Hx as (_ & _ & _ & _ & _ & _ & Hx). by eapply traced_trans.
Qed.

(** The CRT controller scans the 240p frame at [hz], and its PLL was set last
    to the parameters of that rate. *)
Definition scans (hz : Z) (wide : bool) (x : board) : Prop :=
  let md := crt_mode hz wide in
  let frame := Z.to_nat (4 * video_mode_pixels md) in
  exists cp k,
    pll_params F32 (fmul F32 (mhz_240p (of_Z F32 hz) wide) (of_Z F32 4)) = Ok cp /\
    ends_with (queued x) (crt_program cp.1.1 cp.1.2 cp.2) /\ Z.of_nat k <= 689 + 4 * htotal md /\
    let s := Nat.iter k crtc_tick (crtc x) in
    pixel_ok md s /\ forall n, let s' := Nat.iter (n * frame) crtc_tick s in beam s' = beam s /\ rises vblank frame s' = 1.

(** Both outputs are set to the choice; before any, the HDMI port is untouched. *)
Definition outputs_set (r0 : vio_rx) (o : option (Z * Z * Z)) (x : board) : Prop :=
  match o with
  | None => hdmi x = r0 /\ scans 60 false x
  | Some c => exists r hz md hp cp, mode_set c r hz md hp cp /\ programmed md (hdmi x) /\
      ends_with (pll_writes (hdmi x)) (pll_program hp.1.1 hp.1.2 hp.2) /\ scans hz (choice_wide c) x
  end.

Lemma crt_shows_scans q0 hz wide b x :
  crt_shows q0 hz wide b -> (forall j, 0 <= j < 16 -> creg (crtc x) j = ctrl (controller q0 b) j) ->
  queued x = crtc_pll (controller q0 b) -> 0 <= cencnt (ce (crtc x)) < 2048 -> scans hz wide x.
Proof.
  intros (cp & Ep & Hh & Hq) G Q C. pose proof (countable_240p wide (mhz_240p (of_Z F32 hz) wide)) as Hc. fold (crt_mode hz wide) in Hc.
  destruct (crtc_recovers (crt_mode hz wide) Hc (crtc x)) as (k & Hk & P).
  { unfold crtc_set. cbn [map]. rewrite !G by lia. exact (f_equal (take 10) Hh). }
  { done. }
  exists cp, k. rewrite Q. split; [exact Ep|]. split; [exact Hq|]. split; [exact Hk|]. split; [exact P|]. intros n.
  apply pixel_frames; [done| |  |done]; unfold crt_mode; by destruct wide.
Qed.

Lemma run_cencnt_any bs x : 0 <= cencnt (ce (crtc x)) < 2048 -> 0 <= cencnt (ce (crtc (board_run bs x))) < 2048.
Proof. intros H. destruct bs; [done|]. by apply run_cencnt. Qed.

Lemma hardware_outputs r0 q0 o b bs x :
  hardware_shows r0 q0 o b -> cycles (writes b) bs -> in_step r0 q0 x -> 0 <= cencnt (ce (crtc x)) < 2048 ->
  outputs_set r0 o (board_run bs x).
Proof.
  intros [W H] C S Hc. destruct (cycles_step _ bs C W r0 q0 x S) as (Nr & E1 & E2).
  pose proof (n_regs _ _ _ _ _ Nr) as G. pose proof (run_cencnt_any bs x Hc) as Hc'.
  destruct o as [ch|]; cbn [outputs_set].
  - destruct H as (r & hz & md & hp & cp & Hms & Hcrt & Hp & He). exists r, hz, md, hp, cp. rewrite E1.
    split; [exact Hms|]. split; [exact Hp|]. split; [exact He|]. by eapply crt_shows_scans.
  - destruct H as [H1 H2]. rewrite E1. split; [exact H1|]. by eapply crt_shows_scans.
Qed.

(** C2: The program drives its hardware.  From power on, in every interleaving
    of the loop of [main] with the interrupts, the accesses and writes made so
    far can be carried over the bus; and however many clocks each is held and
    whatever happens between them, when they have been carried, the blitter
    comes to rest, the tile memory and the offsets of the tile map hold the
    picture of the program, the decoder of the HDMI port holds the timing of
    the mode applied last, and the CRT controller that scans this picture
    shows, after a line and some clocks, the 240p frame at the refresh rate of
    that mode, forever. *)
Theorem board_follows {ROM PAL : Type} {HR : MemBlock ROM} {HP : PalBlock PAL} (m : vmem) (b : bus) (ctrl io : Z) (pal : list Z)
    (r0 : vio_rx) (q0 : crtc_rx) (N : nat) (r : Blitter) (d : tile_dev (ROM := ROM) (PAL := PAL)) (x : board) :
  rx_idle r0 -> writes b = [] -> (128 < length pal)%nat -> pll_answers (8 * S (S N)) b ->
  shows (mkDrawing r m (0, 0)) d -> in_step r0 q0 x -> pic_crtc (pic d) = crtc x -> 0 <= cencnt (ce (crtc x)) < 2048 ->
  exists a0 pal',
    main_start (app_init m b ctrl, pal, io) = Ok (a0, pal', 0xffff) /\
    forall s, rtc sys_step (sys_start a0) s -> (drawn s <= N)%nat -> few (cworld (scfg s)) ->
      let a := sapp s in
      let g := screen a in
      (exists tr, carries (ops_of_all (log g)) (writes (hw a)) tr d) /\
      forall tr, carries (ops_of_all (log g)) (writes (hw a)) tr d ->
        let d' := dev_run (dev_side tr) d in
        let x' := board_run (board_side tr) x in
        settles (tiles g) (tile_ctrl g) d' /\ outputs_set r0 (statics_applied (statics a)) x' /\ pic_crtc (pic d') = crtc x'.
Proof.
  intros Hr Hw Hl Hb Sh Hx Hp Hc. replace (8 * S (S N))%nat with (8 + 8 * S N)%nat in Hb by lia.
  destruct (main_start_spec r0 q0 m b ctrl pal io _ Hw Hb Hl) as (a0 & pal' & E & Ha & Hb1 & _ & _ & Ht).
  exists a0, pal'. split; [exact E|]. clear E. intros s Hs Hd Hf a g.
  destruct (sys_ok_reachable r0 q0 Hr N a0 Ha Hb1 s Hs Hd Hf) as [(_ & _ & _ & _ & _ & _ & Hh) _].
  destruct (reachable_traced r0 q0 N a0 _ s Hr Ha Hb1 Ht Hs Hd Hf) as (xs & L & F & R & O). cbn in L.
  destruct (accesses_delivered xs r m (tiles g) (0, 0) d Sh F R) as [(cs & C & Fc) D]. fold a g in L, O, Hh. rewrite L.
  split; [by apply (trace_exists _ _ cs); [..|apply Hh]|]. intros tr [T1 T2] d' x'.
  split; [rewrite <- O; by apply D|]. split; [by eapply hardware_outputs|]. by apply same_controller.
Qed.

#[local] Existing Instances demo_rom demo_pal demo_pal_reads.

(** The devices at power on, with clear memories. *)
Definition power_dev : tile_dev (ROM := Z * Z) (PAL := (Z -> Z) * Z) :=
  {| blitter := demo_job; dout := 0; acks := {| dtack_n := true; vpa_n := true; prev_ds_n := true |};
     pic := {| pic_crtc := demo_crtc_hw; pic_pal := (fun _ => 0, 0);
               pic_tiles := {| t_hofs := 0; t_vofs := 0; tileref_q := 0; tileref := 0; rom := (0, 0); shiftout := 0; color := 0;
                               color_out := 0; stage := 0; vcnt_prev := 0 |} |} |}.

Lemma power_shows : shows (mkDrawing (regs demo_job) (fun _ => 0) (0, 0)) power_dev.
Proof. split; [done|done|by split_and!|]. by apply finishes_now. Qed.

Lemma board_follows_witness :
  exists a pal' s tr,
    main_start demo_start = Ok (a, pal', 0xffff) /\ rtc sys_step (sys_start a) s /\ drawn s = 3%nat /\
    let g := screen (sapp s) in
    carries (ops_of_all (log g)) (writes (hw (sapp s))) tr power_dev /\
    settles (tiles g) (tile_ctrl g) (dev_run (dev_side tr) power_dev) /\
    outputs_set (hdmi demo_board) (statics_applied (statics (sapp s))) (board_run (board_side tr) demo_board).
Proof.
  destruct (board_follows (HR := demo_rom) (HP := demo_pal) (fun _ => 0) demo_bus 0 0 (replicate 256 0) (hdmi demo_board)
    {| ctrl := creg demo_crtc_hw; crtc_pll := [] |} 8 (regs demo_job) power_dev demo_board) as (a & pal' & E & H);
    [by split|done|cbn; lia|apply demo_answers; cbn; lia|exact power_shows|exact demo_in_step|done|cbn; lia|].
  destruct (demo_system_reaches a pal' _ _ E demo_system_spec) as (s & Hs & Ev). injection Ev as D M S R N.
  destruct (H s Hs) as [[tr T] F]; [rewrite N; lia|unfold few; by rewrite R|].
  destruct (F tr T) as (F1 & F2 & _). exists a, pal', s, tr.
  split; [exact E|]. split; [exact Hs|]. split; [exact N|]. split; [exact T|]. split; [exact F1|exact F2].
Defined.

(** ** What is on the screen while a frame is drawn *)

(** The color of an entry, from the palette before the last clock. *)
Lemma colors_of {ROM PAL : Type} {HR : MemBlock ROM} {HP : PalBlock PAL} (Hpal : PalReads PAL) cs1 cs2 n entry
    (d : tile_dev (ROM := ROM) (PAL := PAL)) (q : Z) :
  (0 < n <= length cs2)%nat ->
  (forall c, cs2 !! Nat.pred n = Some c -> pal_hit (pal_port (k_bus c)) entry = false ->
     q = pal_mem (pic_pal (pic (dev_run (take (Nat.pred n) cs2) (dev_run cs1 d)))) entry) ->
  (forall c, cs2 !! Nat.pred n = Some c -> pal_hit (pal_port (k_bus c)) entry = false ->
     rgb q = rgb (palette_after (cs1 ++ take (Nat.pred n) cs2) (pal_mem (pic_pal (pic d))) entry)) /\
  (Forall (only_entry 0x80) (cs1 ++ cs2) -> entry <> 0x80 -> rgb q = rgb (pal_mem (pic_pal (pic d)) entry)).
Proof.
  intros Hn H. assert (forall c, cs2 !! Nat.pred n = Some c -> pal_hit (pal_port (k_bus c)) entry = false ->
    q = palette_after (cs1 ++ take (Nat.pred n) cs2) (pal_mem (pic_pal (pic d))) entry) as K.
  { intros c Hc Hh. rewrite (H c Hc Hh), <- dev_run_app. by apply palette_carried. }
  split; [intros c Hc Hh; by rewrite (K c)|]. intros Ho He. destruct (lookup_lt_is_Some_2 cs2 (Nat.pred n)) as [c Hc]; [lia|].
  apply Forall_app in Ho as [O1 O2]. rewrite (K c Hc).
  - rewrite (only_entry_keeps 0x80); [done| |done]. apply Forall_app_2; [done|by apply Forall_take].
  - apply (only_entry_hit 0x80); [|done]. by apply (Forall_lookup_1 _ _ _ _ O2 Hc).
Qed.

(** C6: The screen never shows a picture that is being drawn.  In a frame that
    sets no mode, the program writes no register of an output; it flips, and
    then draws.  While the bus carries what it draws, however slowly, every
    pixel of a line that begins after the flip is, at its place on the screen
    and outside the blanking, the pixel of the picture the frame before drew:
    the entry of the palette that the pattern of its tile gives.  Its color is
    the one that the writes to the palette have left in that entry before the
    clock, unless it is written in this very clock; and as long as only the
    entry 0x80 is written, which the program flashes, every other color is
    that of the palette at the start of the frame. *)
Theorem frame_steady {ROM PAL : Type} {HR : MemBlock ROM} {HP : PalBlock PAL} (gfx_rom : Z -> Z)
    (Hrom : BlockReads ROM 2 gfx_rom) (Hpal : PalReads PAL)
    (r0 : vio_rx) (q0 : crtc_rx) (e : frame_env) (a a' : Main.app) (f : float) (r : Blitter) (d : tile_dev (ROM := ROM) (PAL := PAL)) :
  (forall i, 0 <= gfx_rom i < 2 ^ 32) -> rx_idle r0 -> app_ok r0 q0 a -> env_ok e -> pll_answers 8 (hw a) ->
  (settings_spec (mode a) (new_mode a) (buttons e a) (settings_of a)).2 = false -> Main.frame e a = Ok (tt, a') ->
  shows (mkDrawing r (tiles (screen a)) (tile_ctrl (screen a))) d ->
  let md := mode_240p (applied_wide (statics_applied (statics a))) f in
  hw a' = hw a /\
  exists tc ys, log (screen a') = log (screen a) ++ Flipped tc :: ys /\
  forall cs1 cs2 k x y,
    carried (ops_of (Flipped tc)) cs1 d -> carried (ops_of_all ys) cs2 (dev_run cs1 d) -> Forall crtc_quiet cs2 ->
    let shown k := pic (dev_run (take k cs2) (dev_run cs1 d)) in
    0 <= x < hact md -> 0 <= y < vact md -> pixel_ok md (pic_crtc (shown k)) -> beam (pic_crtc (shown k)) = (0, vbp md + y) ->
    (k + Z.to_nat (4 * (hbp md + x)) <= length cs2)%nat ->
    let n := (k + Z.to_nat (4 * (hbp md + x)))%nat in
    let p' := shown n in
    let entry := tile_pixel gfx_rom (tiles (screen a)) (back_page (screen a)) x y in
    beam (pic_crtc p') = (hbp md + x, vbp md + y) /\ hblank (pic_crtc p') = false /\ vblank (pic_crtc p') = false /\
    color_out (pic_tiles p') = entry /\
    (forall c, cs2 !! Nat.pred n = Some c -> pal_hit (pal_port (k_bus c)) entry = false ->
       rgb (pal_q (pic_pal p')) = rgb (palette_after (cs1 ++ take (Nat.pred n) cs2) (pal_mem (pic_pal (pic d))) entry)) /\
    (Forall (only_entry 0x80) (cs1 ++ cs2) -> entry <> 0x80 -> rgb (pal_q (pic_pal p')) = rgb (pal_mem (pic_pal (pic d)) entry)).
Proof.
  intros Hw Hr Ha He Hb Hno E Sh md. destruct (frame_spec r0 q0 0 e a Hr Ha He Hb) as (z & E' & _ & _ & (_ & _ & _ & Hu & _)).
  rewrite E in E'. injection E' as <-. destruct (Hu Hno) as [Eh (g1 & Hf & Hpf & Ht & Hlog & (_ & (ys & L & F & R) & _))].
  split; [exact Eh|]. exists (tile_ctrl g1), ys. split; [by rewrite L, Hlog, <- app_assoc|].
  intros cs1 cs2 k x y C1 C2 Hq shown Hx Hy P Eb Hl. rewrite <- Ht in Sh |- *. destruct (flipped_u16 _ _ Hf) as [U1 U2].
  assert (page_at (back_page g1) g1 /\ back_page (screen a) = front_page g1 /\ forall c, in_page (back_page g1) c -> ~ in_page (front_page g1) c) as ([_ Hp] & -> & Hoff).
  { split; [apply Hf|]. destruct Hf as ((_ & _ & [Ef|Ef]) & _); unfold back_page, front_page, in_page; rewrite Ef in *;
      replace (page_front (screen a)) with (1 - page_front g1) by lia; rewrite Ef; cbn; (split; [done|lia]). }
  destruct (accesses_ops [Flipped (tile_ctrl g1)] r (tiles g1) (tiles g1) (tile_ctrl (screen a)) (s_ok _ _ Sh)) as (r1 & O1 & F1);
    [by apply Forall_cons_2|done|].
  pose proof (carried_shows _ _ _ C1 _ _ Sh F1 O1) as Sh1. injection O1 as <-.
  assert (blit_active (blitter (dev_run cs1 d)) = false) as Hi
    by (apply (carried_ends _ _ _ C1); [done|done|repeat apply Forall_cons_2; first [done|apply Forall_nil_2]]).
  assert (Forall access_ok ys) as Fy by (revert F; apply List.Forall_impl; intros z; by apply inside_ok).
  destruct (accesses_ops ys r (tiles g1) _ (tile_ctrl g1) (s_ok _ _ Sh) Fy R) as (r2 & O2 & F2).
  destruct (steady_picture gfx_rom Hrom Hpal _ f g1 r _ (dev_run cs1 d) (ops_of_all ys) cs2 k x y Hw Hf Sh1 Hi F2 O2) as (H1 & H2 & H3 & H4 & H5); try done.
  { by eapply inside_off. }
  split; [exact H1|]. split; [exact H2|]. split; [exact H3|]. split; [exact H4|].
  apply (colors_of Hpal); [|exact H5]. split; [|exact Hl]. unfold md. destruct (applied_wide _); cbn in *; lia.
Qed.

(** The scrolls of a flip, each acknowledged in its second clock. *)
Definition flip_clks (tc : Z * Z) : list bus_clk :=
  replicate 2 (clk_of (Scroll false tc.1)) ++ replicate 2 (clk_of (Scroll true tc.2)) ++ [].

Lemma flip_carried {ROM PAL : Type} {HR : MemBlock ROM} {HP : PalBlock PAL} tc (d : tile_dev (ROM := ROM) (PAL := PAL)) :
  blit_active (blitter d) = false -> is_u16 tc.1 -> is_u16 tc.2 -> carried (ops_of (Flipped tc)) (flip_clks tc) d.
Proof.
  intros A U1 U2. assert (forall o (e : tile_dev (ROM := ROM) (PAL := PAL)), op_ok o -> o <> Submit -> blit_active (blitter e) = false ->
    acknowledged (dev_run (replicate 1 (clk_of o)) e) = true) as K.
  { intros o e Ho Hs B. unfold acknowledged, DTACKn. rewrite held_ack. cbn [orb]. apply negb_true_iff. by apply op_idle. }
  apply carried_op; [exists 1%nat; split; [lia|by apply K]|]. apply carried_op; [|constructor].
  exists 1%nat. split; [lia|]. apply K; [done|done|]. by apply held_idle.
Qed.

(** The devices with the picture [g], a pixel before line 26. *)
Definition demo_before : crtc_hw :=
  {| creg := fun i => nth (Z.to_nat i) [1; 4; 320; 8; 32; 40; 240; 3; 4; 6; 0; 0; 0; 0; 0; 0; 399; 25] 0;
     hb_start := 360; vb_start := 246; hs_start := 368; vs_start := 249; hs_end := 400; vs_end := 253;
     pll_io_req_prev := false; pll_write := false;
     ce := {| cencnt := 0; half := false; edgecnt := 0; cen := 1; cenb := 0 |} |}.

Definition demo_screen (g : gfx) : tile_dev (ROM := Z * Z) (PAL := (Z -> Z) * Z) :=
  {| blitter := with_ram demo_job (tiles g); dout := 0; acks := {| dtack_n := true; vpa_n := true; prev_ds_n := true |};
     pic := {| pic_crtc := demo_before; pic_pal := demo_colors;
               pic_tiles := {| t_hofs := (tile_ctrl g).1; t_vofs := (tile_ctrl g).2; tileref_q := 1; tileref := 2; rom := (3, 4);
                               shiftout := 5; color := 6; color_out := 7; stage := 0; vcnt_prev := 0 |} |} |}.

Lemma demo_screen_shows g : shows (mkDrawing (regs demo_job) (tiles g) (tile_ctrl g)) (demo_screen g).
Proof. split; [done|symmetry; apply surjective_pairing|by split_and!|]. by apply finishes_now. Qed.

Lemma quiet_ticks {ROM PAL : Type} {HR : MemBlock ROM} {HP : PalBlock PAL} cs : forall (d : tile_dev (ROM := ROM) (PAL := PAL)),
  Forall crtc_quiet cs -> pic_crtc (pic (dev_run cs d)) = Nat.iter (length cs) crtc_tick (pic_crtc (pic d)).
Proof.
  induction cs as [|c cs IH]; intros d H; [done|]. apply Forall_cons_iff in H as [[H0 H1] H]. cbn [dev_run foldl length].
  rewrite Nat.iter_succ_r. etransitivity; [apply IH, H|]. f_equal. by apply crtc_clock_quiet.
Qed.

Lemma demo_screen_line tc g :
  let s := pic_crtc (pic (dev_run (flip_clks tc) (demo_screen g))) in pixel_ok (mode_240p false (of_Z F32 0)) s /\ beam s = (0, 26).
Proof.
  intros s. assert (s = Nat.iter 4 crtc_tick demo_before) as -> by (apply quiet_ticks; repeat apply Forall_cons_2; first [by split|apply Forall_nil_2]).
  split; [|vm_compute; reflexivity].
  split; [split; vm_compute; reflexivity|split; vm_compute; reflexivity|vm_compute; split_and!; discriminate || reflexivity].
Qed.

(** Drawing does not write the palette. *)
Lemma draw_off_palette e o : op_ok o -> only_entry e (clk_of o).
Proof.
  intros Ho. unfold only_entry, pal_port, pal_sel, sel. destruct o as [a v|r v| |[] v]; cbn [clk_of k_bus b_addr w_wr0 w_wr1]; try done; [|by destruct r].
  cbn [op_ok] in Ho. replace ((0x900000 + 2 * a) / 65536) with 0x90 by (unfold VRAM_WORDS in *; word_lia). done.
Qed.

(** The rest of a frame on the bus, followed by quiet clocks. *)
Lemma demo_rest xs ys tc g g1 :
  traced g g1 -> log g1 = log g ++ Flipped tc :: ys ->
  exists cs, carried (ops_of_all ys) cs (dev_run (flip_clks tc) (demo_screen g)) /\ Forall crtc_quiet cs /\ (xs <= length cs)%nat /\
    carried (ops_of (Flipped tc)) (flip_clks tc) (demo_screen g) /\ Forall (only_entry 0x80) (flip_clks tc ++ cs).
Proof.
  intros (zs & L & F & R & O) L'. rewrite L in L'. apply app_inv_head in L' as ->. apply Forall_cons_iff in F as [[U1 U2] F].
  pose proof (flip_carried tc (demo_screen g) eq_refl U1 U2) as C.
  destruct (accesses_ops [Flipped tc] (regs demo_job) (tiles g) (tiles g) (tile_ctrl g)) as (r1 & O1 & F1);
    [by split_and!|by apply Forall_cons_2|done|].
  pose proof (carried_shows _ _ _ C _ _ (demo_screen_shows g) F1 O1) as Sh.
  destruct (accesses_delivered ys r1 (tiles g) (tiles g1) _ _ Sh F) as [(cs & Cs & Q) _]; [exact R|].
  exists (cs ++ replicate xs quiet_clk.2). split_and!; [| |rewrite length_app, length_replicate; lia|done|].
  - apply carried_then_quiet; [done|]. by apply Forall_replicate.
  - apply Forall_app_2; [|by apply Forall_replicate]. revert Q. apply List.Forall_impl. intros c (o & Ho & ->).
    by destruct (quiet_signals _ (op_quiet o Ho)) as (_ & ? & ?).
  - apply Forall_app_2; [|apply Forall_app_2; [|by apply Forall_replicate]].
    + repeat apply Forall_cons_2; first [apply Forall_nil_2|by apply draw_off_palette].
    + revert Q. apply List.Forall_impl. intros c (o & Ho & ->). by apply draw_off_palette.
Qed.

Lemma frame_steady_witness :
  exists a pal' a1 a' cs1 cs2, main_start demo_start = Ok (a, pal', 0xffff) /\ run demo_frames a = Ok (tt, a1) /\
    Main.frame (demo_env 0) a1 = Ok (tt, a') /\ hw a' = hw a1 /\
    let p' := pic (dev_run (take 272 cs2) (dev_run cs1 (demo_screen (screen a1)))) in
    let entry := tile_pixel (fun i => i mod 7 * 0x1234567) (tiles (screen a1)) (back_page (screen a1)) 28 20 in
    beam (pic_crtc p') = (68, 26) /\ hblank (pic_crtc p') = false /\ vblank (pic_crtc p') = false /\ color_out (pic_tiles p') = entry /\
    (entry <> 0x80 -> rgb (pal_q (pic_pal p')) = rgb (32767 - entry * 5)).
Proof.
  destruct (demo_reaches demo_frames demo_frames_ok ltac:(cbn; lia)) as (a & pal' & a1 & E & E1 & Ha & Hb).
  set (st := {| chosen := (7, 12, 0); applied := None; position := 0; selection := 3; items := 5 |}).
  destruct (demo_outcome_spec demo_frames (demo_env 0) a pal' _ a1 (st, false) E E1) as [Hm Hspec]; [vm_compute; reflexivity|].
  destruct (frame_spec rx0 demo_crtc 0 (demo_env 0) a1) as (a' & E' & _ & _ & (_ & _ & _ & _ & _ & _ & Ht));
    [by split|exact Ha|apply demo_env_ok|exact Hb|].
  destruct (frame_steady (HR := demo_rom) (HP := demo_pal) (fun i => i mod 7 * 0x1234567) (fun i x => eq_refl) demo_pal_reads
    rx0 demo_crtc (demo_env 0) a1 a' (of_Z F32 0) (regs demo_job) (demo_screen (screen a1))) as (Eh & tc & ys & L & H).
  { intros i. pose proof (Z.mod_pos_bound i 7). lia. }
  { by split. }
  { exact Ha. }
  { apply demo_env_ok. }
  { exact Hb. }
  { rewrite Hm. cbn [settings_spec]. by rewrite Hspec. }
  { exact E'. }
  { apply demo_screen_shows. }
  assert (statics_applied (statics a1) = None) as En.
  { change (statics_applied (statics a1)) with (applied (settings_of a1)).
    pose proof (menu_spec_applied (new_mode a1) (buttons (demo_env 0) a1) (settings_of a1)) as Hap. rewrite Hspec in Hap. by rewrite <- Hap. }
  rewrite En in H. destruct (demo_rest 272 ys tc _ _ Ht L) as (cs & C & Q & Hl & C1 & Ho). destruct (demo_screen_line tc (screen a1)) as [P Eb].
  exists a, pal', a1, a', (flip_clks tc), cs. split; [exact E|]. split; [exact E1|]. split; [exact E'|]. split; [exact Eh|].
  specialize (H (flip_clks tc) cs 0%nat 28 20 C1 C Q). cbv beta zeta in H. rewrite take_0 in H.
  change (0 + Z.to_nat (4 * (hbp (mode_240p (applied_wide None) (of_Z F32 0)) + 28)))%nat with 272%nat in H.
  assert (pal_mem (pic_pal (pic (demo_screen (screen a1)))) = fun i => 32767 - i * 5) as Ec by reflexivity.
  clear C C1. revert H P Eb. generalize (dev_run (flip_clks tc) (demo_screen (screen a1))). intros d H P Eb. change (dev_run [] d) with d in H.
  destruct H as (H1 & H2 & H3 & H4 & _ & H6); [by split|by split|exact P|exact Eb|exact Hl|].
  split; [exact H1|]. split; [exact H2|]. split; [exact H3|]. split; [exact H4|]. intros He. rewrite (H6 Ho He). by rewrite Ec.
Defined.
