(* ===== verification/Mif.v ===== *)
(** * Memory images (firmware/genmif.py)

    The text of a memory initialisation file as [write_mif] writes it, as the
    list of its characters, and a reader of such texts.  [math.log] is not
    modelled: the number of digits it gives for the addresses is an argument,
    and nothing below depends on it. *)

From S2P Require Import Prelude Printf PrintfProps Numerals.

(** ** Writing *)

(** [format(v, f'0{width}X')] and [format(v, f'0{width}b')], for the base 16
    and 2, and [f'{v}'] with the width 0 and the base 10. *)
Definition digit (d : Z) : Z := if d <? 10 then 48 + d else 55 + d.
Definition digits_of (base v : Z) : list Z := rev (lsb_digits (S (Z.to_nat (Z.log2 v))) base v).
Definition format_num (base : Z) (width : nat) (v : Z) : list Z :=
  let s := map digit (digits_of base v) in replicate (width - length s) 48 ++ s.

Inductive byteorder : Type := little | big.

Definition from_bytes (order : byteorder) (bs : list Z) : Z :=
  horner 256 0 (match order with big => bs | little => rev bs end).

(** [data[ofs:ofs+chunk_size]] for the offsets of the range. *)
Fixpoint chunks (fuel k : nat) (data : list Z) : list (list Z) :=
  match fuel, data with
  | S fuel, _ :: _ => take k data :: chunks fuel k (drop k data)
  | _, _ => []
  end.

Section image.
Context (addr_len : nat) (width : Z).

Definition entry (addr v : Z) : list Z :=
  format_num 16 addr_len addr ++ chars " : " ++ format_num 2 (Z.to_nat width) v ++ chars ";" ++ [10].

Fixpoint write_words (addr : Z) (vs : list Z) : list Z :=
  match vs with
  | [] => []
  | v :: vs => entry addr v ++ write_words (addr + 1) vs
  end.

(** [while addr < depth] *)
Fixpoint write_zeros (fuel : nat) (addr depth : Z) : list Z :=
  match fuel with
  | S fuel => if addr <? depth then entry addr 0 ++ write_zeros fuel (addr + 1) depth else []
  | O => []
  end.

Definition header (depth : Z) : list Z :=
  chars "DEPTH = " ++ format_num 10 0 depth ++ chars ";" ++ [10] ++ chars "WIDTH = " ++ format_num 10 0 width ++ chars ";" ++ [10] ++
  chars "DATA_RADIX = BIN;" ++ [10] ++ chars "ADDRESS_RADIX = HEX;" ++ [10] ++ chars "CONTENT" ++ [10] ++ chars "BEGIN" ++ [10].

Definition footer : list Z := chars "END;" ++ [10].
End image.

(** The words of the image. *)
Definition words_of (data : list Z) (width : Z) (order : byteorder) : list Z :=
  map (from_bytes order) (chunks (length data) (Z.to_nat ((width + 7) / 8)) data).

(** [None]: an exception, from [math.log], [range] or [format]. *)
Definition write_mif (addr_len : nat) (data : list Z) (width depth : Z) (order : byteorder) : option (list Z) :=
  if (width <=? 0) || (depth <=? 0) then None
  else
    let ws := words_of data width order in
    let addr := zlen ws in
    Some (header width depth ++ write_words addr_len width 0 ws ++
          write_zeros addr_len width (Z.to_nat (depth - addr)) addr depth ++ footer).

(** ** Reading *)

Definition digit_value (base c : Z) : option Z :=
  let d := if (48 <=? c) && (c <=? 57) then c - 48 else if (65 <=? c) && (c <=? 70) then c - 55 else base in
  if d <? base then Some d else None.

Fixpoint number (base acc : Z) (cs : list Z) : Z * list Z :=
  match cs with
  | c :: cs' => match digit_value base c with Some d => number base (acc * base + d) cs' | None => (acc, cs) end
  | [] => (acc, [])
  end.

Fixpoint expect (p cs : list Z) : option (list Z) :=
  match p, cs with
  | [], _ => Some cs
  | c :: p, c' :: cs => if c =? c' then expect p cs else None
  | _ :: _, [] => None
  end.

Definition read_entry (cs : list Z) : option (Z * Z * list Z) :=
  let '(a, cs) := number 16 0 cs in
  cs ← expect (chars " : ") cs;
  let '(v, cs) := number 2 0 cs in
  cs ← expect (chars ";" ++ [10]) cs;
  Some (a, v, cs).

Fixpoint read_entries (fuel : nat) (cs : list Z) : option (list (Z * Z)) :=
  match fuel with
  | O => None
  | S fuel =>
      match expect footer cs with
      | Some rest => if rest is [] then Some [] else None
      | None => '(a, v, cs) ← read_entry cs; es ← read_entries fuel cs; Some ((a, v) :: es)
      end
  end.

(** A memory image: its depth, its width and its words with their addresses. *)
Record image : Type := mkImage { i_depth : Z; i_width : Z; i_entries : list (Z * Z) }.

Definition read_mif (cs : list Z) : option image :=
  cs ← expect (chars "DEPTH = ") cs;
  let '(d, cs) := number 10 0 cs in
  cs ← expect (chars ";" ++ [10] ++ chars "WIDTH = ") cs;
  let '(w, cs) := number 10 0 cs in
  cs ← expect (chars ";" ++ [10] ++ chars "DATA_RADIX = BIN;" ++ [10] ++ chars "ADDRESS_RADIX = HEX;" ++ [10] ++ chars "CONTENT" ++ [10] ++ chars "BEGIN" ++ [10]) cs;
  es ← read_entries (S (length cs)) cs;
  Some (mkImage d w es).

(** Words at successive addresses. *)
Fixpoint numbered (a : Z) (ws : list Z) : list (Z * Z) :=
  match ws with [] => [] | w :: ws => (a, w) :: numbered (a + 1) ws end.

(** The word at an address. *)
Fixpoint word_at (es : list (Z * Z)) (a : Z) : option Z :=
  match es with [] => None | (b, w) :: es => if b =? a then Some w else word_at es a end.

(** ** Round trip *)

Lemma digit_value_digit base d : 2 <= base <= 16 -> 0 <= d < base -> digit_value base (digit d) = Some d.
Proof.
  intros Hb Hd. unfold digit_value, digit. destruct (Z.ltb_spec d 10).
  - rewrite (proj2 (Z.leb_le 48 _)), (proj2 (Z.leb_le _ 57)) by lia. cbn [andb]. replace (48 + d - 48) with d by lia.
    by rewrite (proj2 (Z.ltb_lt d base)) by lia.
  - rewrite (proj2 (Z.leb_le 48 _)), (proj2 (Z.leb_gt _ 57)), (proj2 (Z.leb_le 65 _)), (proj2 (Z.leb_le _ 70)) by lia. cbn [andb].
    replace (55 + d - 55) with d by lia. by rewrite (proj2 (Z.ltb_lt d base)) by lia.
Qed.

(** The text does not go on with a digit. *)
Definition ends (base : Z) (cs : list Z) : Prop := match cs with c :: _ => digit_value base c = None | [] => True end.

Lemma number_digits base ds rest : forall acc,
  2 <= base <= 16 -> Forall (fun d => 0 <= d < base) ds -> ends base rest ->
  number base acc (map digit ds ++ rest) = (horner base acc ds, rest).
Proof.
  induction ds as [|d ds IH]; intros acc Hb Hd He; cbn [map app horner].
  - destruct rest as [|c rest]; [done|]. cbn in *. by rewrite He.
  - apply Forall_cons_iff in Hd as [Hd Hds]. cbn [number Datatypes.app]. rewrite digit_value_digit by done. by apply IH.
Qed.

Lemma digits_of_value base v : 2 <= base -> 0 <= v -> horner base 0 (digits_of base v) = v.
Proof.
  intros Hb Hv. apply lsb_digits_value; [done| |lia]. split; [done|]. rewrite Nat2Z.inj_succ, Z2Nat.id by apply Z.log2_nonneg.
  destruct (Z.eq_dec v 0) as [->|]; [done|]. apply Z.log2_spec. lia.
Qed.

Lemma number_format base width v rest :
  2 <= base <= 16 -> 0 <= v -> ends base rest -> number base 0 (format_num base width v ++ rest) = (v, rest).
Proof.
  intros Hb Hv He. unfold format_num. set (n := (width - _)%nat).
  change (replicate n 48) with (replicate n (digit 0)). rewrite <- (fmap_replicate digit n 0). change (digit <$> ?l) with (map digit l).
  rewrite <- map_app, number_digits; [by rewrite horner_zeros, digits_of_value by lia|done| |done].
  apply Forall_app_2; [apply Forall_replicate; lia|]. apply Forall_rev, lsb_digits_range. lia.
Qed.

Lemma expect_prefix p cs : expect p (p ++ cs) = Some cs.
Proof. induction p as [|c p IH]; [done|]. cbn. by rewrite Z.eqb_refl. Qed.

Lemma expect_skip p cs rest : cs = p ++ rest -> expect p cs = Some rest.
Proof. intros ->. apply expect_prefix. Qed.

Lemma format_digits width base v :
  2 <= base -> exists ds, format_num base width v = map digit ds /\ ds <> [] /\ Forall (fun d => 0 <= d < base) ds.
Proof.
  intros Hb. exists (replicate (width - length (map digit (digits_of base v))) 0 ++ digits_of base v). split_and!.
  - unfold format_num. rewrite map_app. f_equal. symmetry. apply (fmap_replicate digit _ 0).
  - unfold digits_of. cbn [lsb_digits rev]. by intros [_ [_ [=]]%app_eq_nil]%app_eq_nil.
  - apply Forall_app_2; [apply Forall_replicate; lia|]. apply Forall_rev, lsb_digits_range. lia.
Qed.

(** An address is not mistaken for the end, although it may start with E. *)
Lemma entry_not_footer n w a v rest : expect footer (entry n w a v ++ rest) = None.
Proof.
  unfold entry. destruct (format_digits n 16 a ltac:(lia)) as (ds & -> & Hne & Hds). rewrite <- !app_assoc.
  destruct ds as [|d ds]; [done|]. change (footer) with [69; 78; 68; 59; 10]. cbn [map Datatypes.app expect]. destruct (69 =? _); [|done].
  destruct ds as [|e ds]; [done|]. cbn [map Datatypes.app]. apply Forall_cons_iff in Hds as [_ [He _]%Forall_cons_iff].
  rewrite (proj2 (Z.eqb_neq 78 (digit e))); [done|]. unfold digit. destruct (Z.ltb_spec e 10); lia.
Qed.

Lemma read_entry_entry n w a v rest : 0 <= a -> 0 <= v -> read_entry (entry n w a v ++ rest) = Some (a, v, rest).
Proof.
  intros Ha Hv. unfold read_entry, entry. rewrite <- !app_assoc, number_format by done. cbv iota beta. rewrite expect_prefix. cbn [mbind option_bind].
  rewrite number_format by done. cbv iota beta. by rewrite (app_assoc (chars ";")), expect_prefix.
Qed.

Lemma read_entries_words n w ws : forall fuel a,
  0 <= a -> Forall (Z.le 0) ws -> (length ws < fuel)%nat -> read_entries fuel (write_words n w a ws ++ footer) = Some (numbered a ws).
Proof.
  induction ws as [|v ws IH]; intros fuel a Ha Hws Hf; (destruct fuel as [|fuel]; [lia|]); cbn [read_entries write_words numbered]; [done|].
  apply Forall_cons_iff in Hws as [Hv Hws]. rewrite <- app_assoc, entry_not_footer, read_entry_entry by done. cbn [mbind option_bind length] in *.
  rewrite IH by (done || lia). done.
Qed.

Lemma zeros_words n w depth fuel : forall a,
  fuel = Z.to_nat (depth - a) -> write_zeros n w fuel a depth = write_words n w a (replicate fuel 0).
Proof.
  induction fuel as [|fuel IH]; intros a E; [done|]. cbn [write_zeros replicate write_words]. rewrite (proj2 (Z.ltb_lt a depth)) by lia.
  by rewrite IH by lia.
Qed.

Lemma write_words_app n w ws ws' : forall a, write_words n w a (ws ++ ws') = write_words n w a ws ++ write_words n w (a + zlen ws) ws'.
Proof.
  induction ws as [|v ws IH]; intros a; cbn [Datatypes.app write_words]; [f_equal; unfold zlen; cbn; lia|].
  rewrite IH, <- app_assoc. do 3 f_equal. unfold zlen. cbn [length]. lia.
Qed.

Lemma write_words_length n w ws : forall a, (length ws <= length (write_words n w a ws))%nat.
Proof.
  induction ws as [|v ws IH]; intros a; [done|]. cbn [write_words length]. rewrite length_app. specialize (IH (a + 1)).
  unfold entry. rewrite !length_app. cbn [chars length]. lia.
Qed.

Lemma from_bytes_nonneg order bs : Forall is_u8 bs -> 0 <= from_bytes order bs.
Proof.
  intros H. assert (Forall is_u8 (match order with big => bs | little => rev bs end)) as H' by (destruct order; [by apply Forall_rev|done]).
  unfold from_bytes. revert H'. generalize (match order with big => bs | little => rev bs end). clear. intros l.
  assert (forall acc, 0 <= acc -> Forall is_u8 l -> 0 <= horner 256 acc l) as K; [|by apply K].
  induction l as [|b l IH]; intros acc Ha Hl; [done|]. apply Forall_cons_iff in Hl as [Hb Hl]. cbn. apply IH; [unfold is_u8 in *; lia|done].
Qed.

Lemma chunks_Forall (P : Z -> Prop) fuel k : forall data, Forall P data -> Forall (Forall P) (chunks fuel k data).
Proof.
  induction fuel as [|fuel IH]; intros data H; [constructor|]. destruct data as [|b data]; [constructor|]. cbn [chunks].
  apply Forall_cons_2; [by apply Forall_take|]. by apply IH, Forall_drop.
Qed.

Lemma words_nonneg data width order : Forall is_u8 data -> Forall (Z.le 0) (words_of data width order).
Proof.
  intros H. apply Forall_map. apply (chunks_Forall is_u8 (length data) (Z.to_nat ((width + 7) / 8))) in H. revert H.
  apply List.Forall_impl. intros bs. apply from_bytes_nonneg.
Qed.

Lemma image_read addr_len width depth ws :
  0 < width -> 0 < depth -> Forall (Z.le 0) ws ->
  read_mif (header width depth ++ write_words addr_len width 0 ws ++ footer) = Some (mkImage depth width (numbered 0 ws)).
Proof.
  intros Hw Hd Hl. unfold read_mif, header. rewrite <- !app_assoc, expect_prefix. cbn [mbind option_bind].
  rewrite number_format by (done || lia). cbv iota beta.
  erewrite expect_skip; [|rewrite <- !app_assoc; reflexivity]. cbn [mbind option_bind].
  rewrite number_format by (done || lia). cbv iota beta.
  erewrite expect_skip; [|rewrite <- !app_assoc; reflexivity]. cbn [mbind option_bind].
  rewrite read_entries_words; [done|done|done|]. rewrite length_app. pose proof (write_words_length addr_len width ws 0). lia.
Qed.

(** The text of an image gives it back: the words at their addresses from
    zero on, then zeros up to the depth. *)
Lemma mif_read addr_len data width depth order :
  0 < width -> 0 < depth -> Forall is_u8 data ->
  let ws := words_of data width order in
  write_mif addr_len data width depth order ≫= read_mif =
    Some (mkImage depth width (numbered 0 (ws ++ replicate (Z.to_nat (depth - zlen ws)) 0))).
Proof.
  intros Hw Hd Hdata ws. unfold write_mif. rewrite (proj2 (Z.leb_gt width 0)), (proj2 (Z.leb_gt depth 0)) by done. cbn [orb]. fold ws.
  cbn [mbind option_bind]. rewrite zeros_words by done. set (zs := replicate _ 0).
  assert (write_words addr_len width 0 ws ++ write_words addr_len width (zlen ws) zs = write_words addr_len width 0 (ws ++ zs)) as E
    by (by rewrite write_words_app).
  rewrite (app_assoc (write_words _ _ _ ws)), E. apply image_read; [done|done|].
  apply Forall_app_2; [by apply words_nonneg|by apply Forall_replicate].
Qed.

(** ** Words and bytes *)

Lemma word_at_numbered ws : forall a i, a <= i -> word_at (numbered a ws) i = ws !! Z.to_nat (i - a).
Proof.
  induction ws as [|w ws IH]; intros a i Hi; [done|]. cbn [numbered word_at]. destruct (Z.eqb_spec a i) as [->|].
  - by rewrite Z.sub_diag.
  - rewrite IH by lia. replace (Z.to_nat (i - a)) with (S (Z.to_nat (i - (a + 1)))) by lia. done.
Qed.

Lemma chunks_lookup fuel k : forall data j,
  (0 < k)%nat -> (length data <= fuel)%nat ->
  chunks fuel k data !! j = if decide (j * k < length data)%nat then Some (take k (drop (j * k) data)) else None.
Proof.
  induction fuel as [|fuel IH]; intros data j Hk Hf.
  - rewrite decide_False by lia. done.
  - destruct data as [|b data]; [by rewrite decide_False by (cbn; lia)|]. cbn [chunks]. destruct j as [|j]; [by rewrite decide_True by (cbn; lia)|].
    cbn [lookup list_lookup]. rewrite IH; [|done|rewrite length_drop; cbn in *; lia]. rewrite length_drop, drop_drop. cbn [Nat.mul].
    repeat case_decide; try lia; done.
Qed.

(** The [j]-th word of 16 bits, of a file with both its bytes. *)
Lemma words_lookup data j hi lo :
  data !! (2 * j)%nat = Some hi -> data !! (2 * j + 1)%nat = Some lo -> words_of data 16 big !! j = Some (hi * 256 + lo).
Proof.
  intros H1 H2. unfold words_of. change (Z.to_nat ((16 + 7) / 8)) with 2%nat. rewrite list_lookup_fmap, chunks_lookup by lia.
  pose proof (lookup_lt_Some _ _ _ H2). rewrite decide_True by lia. cbn [fmap option_fmap option_map].
  replace (j * 2)%nat with (2 * j)%nat by lia. rewrite (drop_S _ hi) by done.
  replace (S (2 * j)) with (2 * j + 1)%nat by lia. rewrite (drop_S _ lo) by done. done.
Qed.

Lemma words_length data : zlen (words_of data 16 big) = (zlen data + 1) / 2.
Proof.
  unfold words_of, zlen. change (Z.to_nat ((16 + 7) / 8)) with 2%nat. rewrite length_map. set (l := chunks _ _ _).
  assert (forall j, (j < length l <-> j * 2 < length data)%nat) as H.
  { intros j. rewrite <- lookup_lt_is_Some. unfold l. rewrite chunks_lookup by lia. split; [intros [x Hx]|intros Hj]; case_decide; try done. }
  destruct (H (length l)) as [_ H1]. destruct (length l) as [|m]; [destruct (length data); [done|lia]|]. destruct (H m) as [H2 _]. specialize (H2 ltac:(lia)). word_lia.
Qed.

Lemma numbered_addresses l : forall a, map fst (numbered a l) = seqZ a (Z.of_nat (length l)).
Proof.
  induction l as [|w l IH]; intros a; [done|]. cbn [numbered map length]. rewrite seqZ_cons, IH by lia. do 2 f_equal; lia.
Qed.

(** The last byte of a file of odd length is put in the low half of its
    word, at the next address. *)
Lemma odd_tail hi : words_of [hi] 16 big = [hi].
Proof. done. Qed.

(** the image of the program's ROM.  For a file of at most 64 KiB, of an
    even length, the text genmif.py writes with the arguments of the Makefile
    reads back as 32768 words of 16 bits at the addresses from zero on, each
    once: the bytes of the file in the order of the processor, the one at the
    even address in the high half, and zeros after them. *)
Theorem rom_image (addr_len : nat) (data : list Z) :
  Forall is_u8 data -> (zlen data) mod 2 = 0 -> zlen data <= 65536 ->
  exists img, write_mif addr_len data 16 32768 big ≫= read_mif = Some img /\ i_depth img = 32768 /\ i_width img = 16 /\
    map fst (i_entries img) = seqZ 0 32768 /\
    forall a, 0 <= a < 32768 ->
      word_at (i_entries img) a =
        Some (match data !! Z.to_nat (2 * a), data !! Z.to_nat (2 * a + 1) with Some hi, Some lo => hi * 256 + lo | _, _ => 0 end).
Proof.
  intros Hd He Hl. eexists. split; [by apply mif_read|]. cbn [i_depth i_width i_entries]. rewrite words_length.
  pose proof (words_length data) as L. set (ws := words_of data 16 big) in *. set (zs := replicate _ 0).
  assert (Z.of_nat (length (ws ++ zs)) = 32768) as Ln.
  { unfold zs. rewrite length_app, length_replicate. unfold zlen in L at 1. word_lia. }
  split_and!; try done.
  - rewrite <- Ln. apply numbered_addresses.
  - intros a Ha. rewrite word_at_numbered, Z.sub_0_r by lia. destruct (Z.ltb_spec (2 * a) (zlen data)) as [Hlt|Hge].
    + destruct (lookup_lt_is_Some_2 data (Z.to_nat (2 * a))) as [hi Hhi]; [unfold zlen in *; lia|].
      destruct (lookup_lt_is_Some_2 data (Z.to_nat (2 * a + 1))) as [lo Hlo]; [unfold zlen in *; word_lia|]. rewrite Hhi, Hlo.
      assert (ws !! Z.to_nat a = Some (hi * 256 + lo)) as E.
      { apply words_lookup; [by replace (2 * Z.to_nat a)%nat with (Z.to_nat (2 * a)) by lia|].
        by replace (2 * Z.to_nat a + 1)%nat with (Z.to_nat (2 * a + 1)) by lia. }
      by rewrite (lookup_app_l_Some _ _ _ _ E).
    + rewrite (lookup_ge_None_2 data) by (unfold zlen in *; lia).
      rewrite lookup_app_r by (unfold zlen in L at 1; word_lia). unfold zs. apply lookup_replicate. split; [done|].
      unfold zlen in L at 1. word_lia.
Qed.

Lemma rom_image_witness :
  let data := [0x12; 0x34; 0xab; 0xcd] in
  exists img, write_mif 4 data 16 32768 big ≫= read_mif = Some img /\ i_depth img = 32768 /\ i_width img = 16 /\
    map fst (i_entries img) = seqZ 0 32768 /\ word_at (i_entries img) 1 = Some 0xabcd /\ word_at (i_entries img) 2 = Some 0.
Proof.
  intros data. destruct (rom_image 4 data) as (img & E & E1 & E2 & E3 & W); [repeat apply Forall_cons_2; first [by split|apply Forall_nil_2]|done|done|].
  exists img. split; [exact E|]. split; [exact E1|]. split; [exact E2|]. split; [exact E3|].
  split; [apply (W 1); lia|apply (W 2); lia].
Defined.
