(* ===== verification/RomLoad.v ===== *)
(** * Loading the program (sys/sys_top.v, sys/hps_io.sv, rtl/system.sv)

    The other way the program gets into its ROM: the host sends the file over
    the port of the processor system, a word at a time.  The synchroniser and
    the strobe of sys_top.v, the transfer of hps_io.sv (in its wide mode) and
    the ROM of system.sv as one clocked machine; and the refinement between
    the words the host sends and the clocks that carry them. *)

From S2P Require Import Prelude Mif Clock Float Hdmi HdmiProps Crtc SysBus.

(** ** The transfer *)

Definition FIO_FILE_TX : Z := 0x53.
Definition FIO_FILE_TX_DAT : Z := 0x54.
Definition FIO_FILE_INDEX : Z := 0x55.
Definition FIO_FILE_INFO : Z := 0x56.

(** The registers of [fio_block]; [file_ext] is [ioctl_file_ext], its two
    halves.  [fio_cnt] has 3 bits, the addresses 27. *)
Record fio : Type := mkFio {
  fio_cmd : Z;
  fio_cnt : Z;
  fio_has_cmd : bool;
  fio_addr : Z;
  ioctl_download : bool;
  ioctl_upload : bool;
  ioctl_addr : Z;
  ioctl_dout : Z;
  ioctl_index : Z;
  file_ext : Z * Z;
  fp_dout : Z
}.

Definition u27 (x : Z) : Z := x mod 2 ^ 27.
Definition u3 (x : Z) : Z := x mod 8.

(** [ioctl_addr[15:0] <= d] and [ioctl_addr[26:16] <= d[10:0]]. *)
Definition set_low (a d : Z) : Z := a / 65536 * 65536 + d.
Definition set_high (a d : Z) : Z := d mod 2048 * 65536 + a mod 65536.

Definition with_cmd (f : fio) (c n : Z) (h : bool) : fio :=
  {| fio_cmd := c; fio_cnt := n; fio_has_cmd := h; fio_addr := fio_addr f; ioctl_download := ioctl_download f;
     ioctl_upload := ioctl_upload f; ioctl_addr := ioctl_addr f; ioctl_dout := ioctl_dout f; ioctl_index := ioctl_index f;
     file_ext := file_ext f; fp_dout := fp_dout f |}.
Definition with_addrs (f : fio) (a i : Z) (down up : bool) : fio :=
  {| fio_cmd := fio_cmd f; fio_cnt := fio_cnt f; fio_has_cmd := fio_has_cmd f; fio_addr := a; ioctl_download := down;
     ioctl_upload := up; ioctl_addr := i; ioctl_dout := ioctl_dout f; ioctl_index := ioctl_index f;
     file_ext := file_ext f; fp_dout := fp_dout f |}.
Definition with_words (f : fio) (d i : Z) (e : Z * Z) (p : Z) : fio :=
  {| fio_cmd := fio_cmd f; fio_cnt := fio_cnt f; fio_has_cmd := fio_has_cmd f; fio_addr := fio_addr f; ioctl_download := ioctl_download f;
     ioctl_upload := ioctl_upload f; ioctl_addr := ioctl_addr f; ioctl_dout := d; ioctl_index := i; file_ext := e; fp_dout := p |}.

(** A word after the command: the new registers, [wr] and [ioctl_rd].  The
    input [ioctl_din] of uploads is not connected. *)
Definition fio_data (w : Z) (f : fio) : fio * bool * bool :=
  let n := fio_cnt f in
  if fio_cmd f =? FIO_FILE_INFO then
    (if Z.testbit n 1 then f
     else with_cmd (with_words f (ioctl_dout f) (ioctl_index f)
            (if n =? 0 then (w, (file_ext f).2) else if n =? 1 then ((file_ext f).1, w) else file_ext f) (fp_dout f))
            (fio_cmd f) (u3 (n + 1)) true, false, false)
  else if fio_cmd f =? FIO_FILE_INDEX then (with_words f (ioctl_dout f) w (file_ext f) (fp_dout f), false, false)
  else if fio_cmd f =? FIO_FILE_TX then
    let f := with_cmd f (fio_cmd f) (u3 (n + 1)) true in
    if n =? 0 then
      if w mod 256 =? 0xaa then (with_addrs f (fio_addr f) 0 (ioctl_download f) true, false, true)
      else if negb (w mod 256 =? 0) then (with_addrs f 0 (ioctl_addr f) true (ioctl_upload f), false, false)
      else (with_addrs f (fio_addr f) (if ioctl_download f then fio_addr f else ioctl_addr f) false false, false, false)
    else if n =? 1 then (with_addrs f (set_low (fio_addr f) w) (set_low (ioctl_addr f) w) (ioctl_download f) (ioctl_upload f), false, false)
    else if n =? 2 then (with_addrs f (set_high (fio_addr f) w) (set_high (ioctl_addr f) w) (ioctl_download f) (ioctl_upload f), false, false)
    else (f, false, false)
  else if fio_cmd f =? FIO_FILE_TX_DAT then
    if ioctl_download f then
      (with_words (with_addrs f (u27 (fio_addr f + 2)) (fio_addr f) true (ioctl_upload f)) w (ioctl_index f) (file_ext f) (fp_dout f), true, false)
    else
      (with_words (with_addrs f (fio_addr f) (u27 (ioctl_addr f + 2)) false (ioctl_upload f)) (ioctl_dout f) (ioctl_index f) (file_ext f) 0,
       false, true)
  else (f, false, false).

(** A clock of the block. *)
Definition fio_clock (fp_enable io_strobe : bool) (io_din : Z) (f : fio) : fio * bool * bool :=
  if negb fp_enable then (with_cmd f (fio_cmd f) (fio_cnt f) false, false, false)
  else if io_strobe then
    if negb (fio_has_cmd f) then (with_cmd f io_din 0 true, false, false) else fio_data io_din f
  else (f, false, false).

(** ** The machine *)

(** The bits of [gp_out] that are used. *)
Record gp : Type := mkGp { gp_din : Z; gp_clk : bool; gp_ss0 : bool; gp_ss1 : bool }.
Definition io_fpga (g : gp) : bool := negb (gp_ss1 g) && gp_ss0 g.

(** What follows the synchroniser: the strobe, the block and the ROM. *)
Record core : Type := mkCore {
  rack : bool;
  io_ack : bool;
  block : fio;
  wr : bool;
  ioctl_wr : bool;
  ioctl_rd : bool;
  rom : Z -> Z
}.

(** [.data({ioctl_dout[7:0], ioctl_dout[15:8]})], at [ioctl_addr[15:1]]. *)
Definition rom_write (a d : Z) (m : Z -> Z) : Z -> Z := fun j => if j =? (a / 2) mod 32768 then d mod 256 * 256 + d / 256 mod 256 else m j.

Definition rom_clock (c : core) : Z -> Z :=
  if ioctl_download (block c) && ioctl_wr c then rom_write (ioctl_addr (block c)) (ioctl_dout (block c)) (rom c) else rom c.

(** [wait] is [io_wait | vs_wait]. *)
Definition core_clock (wait : bool) (g : gp) (c : core) : core :=
  let io_strobe := negb (rack c) && gp_clk g in
  let '(f, w, r) := fio_clock (io_fpga g) io_strobe (gp_din g) (block c) in
  let go := negb wait || io_strobe in
  {| rack := if go then gp_clk g else rack c; io_ack := if go then rack c else io_ack c;
     block := f; wr := w; ioctl_wr := wr c; ioctl_rd := r; rom := rom_clock c |}.

Record loader : Type := mkLoader { gp_outd : gp; gp_outr : gp; inner : core }.

Definition load_clock (wait : bool) (g : gp) (l : loader) : loader :=
  {| gp_outd := g; gp_outr := gp_outd l; inner := core_clock wait (gp_outr l) (inner l) |}.

(** [io_wait] is zero (MiSTerLaggy.sv), and the host does not wait for a
    vertical blanking. *)
Definition core_run (gs : list gp) (c : core) : core := foldl (fun c g => core_clock false g c) c gs.
Definition load_run (gs : list gp) (l : loader) : loader := foldl (fun l g => load_clock false g l) l gs.

(** ** What the words mean *)

(** The host selects the port for some words, then leaves it. *)
Inductive event : Type := Word (w : Z) | Off.

Definition event_step (e : event) (s : fio * (Z -> Z)) : fio * (Z -> Z) :=
  let '(f, m) := s in
  match e with
  | Off => (with_cmd f (fio_cmd f) (fio_cnt f) false, m)
  | Word w =>
      let '(f', wr, _) := fio_clock true true w f in
      (f', if wr then rom_write (ioctl_addr f') (ioctl_dout f') m else m)
  end.

(** The clocks of the events: a word is up with its clock for some clocks and
    then down for one or more. *)
Definition up (w : Z) : gp := {| gp_din := w; gp_clk := true; gp_ss0 := true; gp_ss1 := false |}.
Definition down (w : Z) : gp := {| gp_din := w; gp_clk := false; gp_ss0 := true; gp_ss1 := false |}.
Definition off (g : gp) : bool := negb (io_fpga g) && negb (gp_clk g).

Inductive sends : list event -> list gp -> Prop :=
  | sends_nil : sends [] []
  | sends_down w es gs : sends es gs -> sends es (down w :: gs)
  | sends_word w n es gs : sends es gs -> sends (Word w :: es) (replicate (S n) (up w) ++ down w :: gs)
  | sends_off g es gs : off g = true -> sends es gs -> sends (Off :: es) (g :: gs)
  | sends_more g es gs : off g = true -> sends (Off :: es) gs -> sends (Off :: es) (g :: gs).

(** ** The refinement *)

Lemma load_delay gs : forall l, inner (load_run gs l) = core_run (take (length gs) (gp_outr l :: gp_outd l :: gs)) (inner l).
Proof.
  induction gs as [|g gs IH]; intros l; [done|]. cbn [load_run foldl]. etransitivity; [apply (IH (load_clock false g l))|].
  cbn [length take core_run foldl load_clock gp_outr gp_outd inner]. done.
Qed.

(** The ROM with the write that is under way. *)
Definition committed (c : core) : Z -> Z :=
  if wr c || (ioctl_download (block c) && ioctl_wr c) then rom_write (ioctl_addr (block c)) (ioctl_dout (block c)) (rom c) else rom c.

Record follows (s : fio * (Z -> Z)) (c : core) : Prop := {
  fo_block : block c = s.1;
  fo_rom : committed c = s.2;
  fo_wr : wr c = true -> rack c = true /\ ioctl_download (block c) = true /\ ioctl_wr c = false
}.

(** A clock without a strobe. *)
Lemma still_clock s c g :
  follows s c -> negb (rack c) && gp_clk g = false ->
  follows (if io_fpga g then s else event_step Off s) (core_clock false g c).
Proof.
  intros [F1 F2 F3] Hs. destruct s as [f m]. cbn [fst snd] in *. subst f m. unfold core_clock. rewrite Hs. unfold fio_clock.
  assert (forall f', ioctl_download f' = ioctl_download (block c) -> ioctl_addr f' = ioctl_addr (block c) -> ioctl_dout f' = ioctl_dout (block c) ->
    (if ioctl_download f' && wr c then rom_write (ioctl_addr f') (ioctl_dout f') (rom_clock c) else rom_clock c) = committed c) as K.
  { intros f' -> -> ->. unfold committed, rom_clock. destruct (wr c).
    - destruct (F3 eq_refl) as (_ & -> & ->). done.
    - rewrite andb_false_r. done. }
  destruct (io_fpga g); cbn [negb]; (split; cbn [block wr ioctl_wr rack fst snd event_step]; [done|by apply K|done]).
Qed.

(** The clock of a strobe. *)
Lemma strobe_clock s c w : follows s c -> rack c = false -> follows (event_step (Word w) s) (core_clock false (up w) c).
Proof.
  intros [F1 F2 F3] Hr. destruct s as [f m]. cbn [fst snd] in *. subst f m. unfold core_clock. rewrite Hr. cbn [negb andb gp_clk up io_fpga gp_ss0 gp_ss1 gp_din orb].
  assert (wr c = false) as Hw by (destruct (wr c); [|done]; destruct (F3 eq_refl); congruence).
  assert (rom_clock c = committed c) as K by (unfold committed, rom_clock; by rewrite Hw). cbn [event_step].
  destruct (fio_clock true true w (block c)) as [[f' w'] r'] eqn:E.
  assert (w' = true -> ioctl_download f' = true) as D.
  { revert E. unfold fio_clock, fio_data. cbn [negb]. repeat case_match; intros [= <- <- <-]; done. }
  split; cbn [block wr ioctl_wr rack fst snd]; [done| |intros ->; by rewrite D].
  rewrite <- K. unfold committed. cbn [block wr ioctl_wr rom]. rewrite Hw, andb_false_r, orb_false_r. done.
Qed.

Lemma rack_clock g c : rack (core_clock false g c) = gp_clk g.
Proof. unfold core_clock. by destruct (fio_clock _ _ _ _) as [[??]?]. Qed.

Lemma sends_follow es gs : sends es gs ->
  forall s c, follows s c -> rack c = false -> let c' := core_run gs c in follows (foldl (fun s e => event_step e s) s es) c' /\ rack c' = false.
Proof.
  induction 1 as [|w es gs _ IH|w n es gs _ IH|g es gs Hg _ IH|g es gs Hg _ IH]; intros s c F R; [done| | | |].
  - apply IH; [|apply rack_clock]. apply (still_clock s c (down w) F). by rewrite andb_false_r.
  - cbv zeta. unfold core_run. rewrite foldl_app. apply IH; [|apply rack_clock]. cbn [replicate foldl].
    assert (follows (event_step (Word w) s) (core_clock false (up w) c)) as F' by (by apply strobe_clock).
    assert (rack (core_clock false (up w) c) = true) as R' by apply rack_clock.
    revert F' R'. generalize (core_clock false (up w) c). clear -n. induction n as [|n IHn]; intros c F R.
    + apply (still_clock _ c (down w) F). by rewrite andb_false_r.
    + cbn [replicate foldl]. apply IHn; [apply (still_clock _ c (up w) F); by rewrite R|apply rack_clock].
  - apply andb_true_iff in Hg as [Hs Hc]. apply negb_true_iff in Hs, Hc. pose proof (still_clock s c g F) as F'. rewrite Hs, Hc, andb_false_r in F'.
    apply IH; [by apply F'|]. by rewrite rack_clock.
  - apply andb_true_iff in Hg as [Hs Hc]. apply negb_true_iff in Hs, Hc. pose proof (still_clock s c g F) as F'. rewrite Hs, Hc, andb_false_r in F'.
    destruct (IH (event_step Off s) (core_clock false g c)) as [H1 H2]; [by apply F'|by rewrite rack_clock|].
    split; [|exact H2]. cbn [foldl] in H1. by destruct s as [f m].
Qed.

(** ** A file *)

(** The host starts a transfer, sends the words of the file, the first byte in
    the low half, and ends it. *)
Definition transfer (b : Z) (ws : list Z) : list event :=
  [Word FIO_FILE_TX; Word b; Off; Word FIO_FILE_TX_DAT] ++ map Word ws ++ [Off; Word FIO_FILE_TX; Word 0; Off].

Definition events (es : list event) (s : fio * (Z -> Z)) : fio * (Z -> Z) := foldl (fun s e => event_step e s) s es.

Fixpoint rom_writes (a : Z) (ws : list Z) (m : Z -> Z) : Z -> Z :=
  match ws with [] => m | w :: ws => rom_writes (u27 (a + 2)) ws (rom_write a w m) end.

Lemma events_app es es' s : events (es ++ es') s = events es' (events es s).
Proof. apply foldl_app. Qed.

Lemma events_words ws : forall f m,
  fio_has_cmd f = true -> fio_cmd f = FIO_FILE_TX_DAT -> ioctl_download f = true ->
  exists f', events (map Word ws) (f, m) = (f', rom_writes (fio_addr f) ws m) /\ ioctl_download f' = true.
Proof.
  induction ws as [|w ws IH]; intros f m H1 H2 H3; [by exists f|]. cbn [map events foldl event_step].
  unfold fio_clock, fio_data. rewrite H1, H2, H3. cbn [negb Z.eqb Pos.eqb FIO_FILE_TX_DAT FIO_FILE_INFO FIO_FILE_INDEX FIO_FILE_TX].
  by destruct (IH (with_words (with_addrs f (u27 (fio_addr f + 2)) (fio_addr f) true (ioctl_upload f)) w (ioctl_index f) (file_ext f) (fp_dout f))
    (rom_write (fio_addr f) w m)) as (f' & E & D); [..|exists f'].
Qed.

Lemma command_step w f m : fio_has_cmd f = false -> event_step (Word w) (f, m) = (with_cmd f w 0 true, m).
Proof. intros H. cbn [event_step]. unfold fio_clock. by rewrite H. Qed.

Lemma tx_step b f m :
  fio_has_cmd f = true -> fio_cmd f = FIO_FILE_TX -> fio_cnt f = 0 -> b mod 256 <> 0xaa ->
  event_step (Word b) (f, m) =
    (let g := with_cmd f FIO_FILE_TX 1 true in
     if b mod 256 =? 0 then with_addrs g (fio_addr f) (if ioctl_download f then fio_addr f else ioctl_addr f) false false
     else with_addrs g 0 (ioctl_addr f) true (ioctl_upload f), m).
Proof.
  intros H1 H2 H3 Hb. cbn [event_step]. unfold fio_clock, fio_data. rewrite H1, H2, H3.
  cbn [negb Z.eqb Pos.eqb FIO_FILE_TX_DAT FIO_FILE_INFO FIO_FILE_INDEX FIO_FILE_TX]. rewrite (proj2 (Z.eqb_neq _ _) Hb).
  by destruct (_ =? 0).
Qed.

Lemma events_transfer b ws f m :
  fio_has_cmd f = false -> b mod 256 <> 0 -> b mod 256 <> 0xaa ->
  exists f', events (transfer b ws) (f, m) = (f', rom_writes 0 ws m) /\ ioctl_download f' = false.
Proof.
  intros H1 Hb Ha. unfold transfer. rewrite !events_app. set (s := events _ (f, m)).
  assert (exists g, s = (g, m) /\ fio_has_cmd g = true /\ fio_cmd g = FIO_FILE_TX_DAT /\ ioctl_download g = true /\ fio_addr g = 0) as (g & -> & G1 & G2 & G3 & G4).
  { subst s. unfold events. cbn [foldl]. rewrite command_step, tx_step by done. rewrite (proj2 (Z.eqb_neq _ _) Hb). cbv zeta. set (g := with_addrs _ _ _ _ _).
    change (event_step Off (g, m)) with (with_cmd g (fio_cmd g) (fio_cnt g) false, m). rewrite command_step by done. eexists. split; [reflexivity|done]. }
  destruct (events_words ws g m G1 G2 G3) as (g' & -> & D). rewrite G4. unfold events. cbn [foldl].
  change (event_step Off (g', rom_writes 0 ws m)) with (with_cmd g' (fio_cmd g') (fio_cnt g') false, rom_writes 0 ws m). rewrite command_step, tx_step by done.
  eexists. split; [reflexivity|done].
Qed.

Definition swapped (w : Z) : Z := w mod 256 * 256 + w / 256 mod 256.

Lemma rom_writes_at ws : forall k m j,
  0 <= k -> k + zlen ws <= 32768 -> 0 <= j < 32768 ->
  rom_writes (2 * k) ws m j = match (if k <=? j then ws !! Z.to_nat (j - k) else None) with Some w => swapped w | None => m j end.
Proof.
  induction ws as [|w ws IH]; intros k m j Hk Hl Hj; cbn [rom_writes]; [by destruct (_ <=? _)|].
  unfold zlen in *. cbn [length] in Hl. unfold u27. rewrite Z.mod_small by lia. replace (2 * k + 2) with (2 * (k + 1)) by lia.
  rewrite IH by (unfold zlen; lia). unfold rom_write. replace ((2 * k / 2) mod 32768) with k by word_lia.
  destruct (Z.eqb_spec j k) as [->|].
  - by rewrite (proj2 (Z.leb_gt (k + 1) k)), Z.leb_refl, Z.sub_diag by lia.
  - destruct (Z.leb_spec k j); [|by rewrite (proj2 (Z.leb_gt (k + 1) j)) by lia]. rewrite (proj2 (Z.leb_le (k + 1) j)) by lia.
    by replace (Z.to_nat (j - k)) with (S (Z.to_nat (j - (k + 1)))) by lia.
Qed.

(** The words of a file with the first byte in the low half. *)
Lemma host_words data j :
  Forall is_u8 data ->
  swapped <$> words_of data 16 little !! j =
    match data !! (2 * j)%nat, data !! (2 * j + 1)%nat with Some hi, Some lo => Some (hi * 256 + lo) | Some hi, None => Some (hi * 256) | _, _ => None end.
Proof.
  intros Hd. unfold words_of. change (Z.to_nat ((16 + 7) / 8)) with 2%nat. rewrite list_lookup_fmap, chunks_lookup by lia.
  replace (j * 2)%nat with (2 * j)%nat by lia. destruct (data !! (2 * j)%nat) as [hi|] eqn:E1.
  - rewrite decide_True by (apply lookup_lt_Some in E1; lia). pose proof (Forall_lookup_1 _ _ _ _ Hd E1) as B1. rewrite (drop_S _ hi) by done.
    replace (S (2 * j)) with (2 * j + 1)%nat by lia. unfold is_u8, swapped in *. destruct (data !! (2 * j + 1)%nat) as [lo|] eqn:E2.
    + pose proof (Forall_lookup_1 _ _ _ _ Hd E2) as B2. rewrite (drop_S _ lo) by done. cbn [take fmap option_fmap option_map].
      rewrite take_0. change (from_bytes little [hi; lo]) with ((0 * 256 + lo) * 256 + hi). f_equal. unfold is_u8 in *. word_lia.
    + rewrite drop_ge by (apply lookup_ge_None_1 in E2; lia). cbn [take fmap option_fmap option_map].
      change (from_bytes little [hi]) with (0 * 256 + hi). f_equal. cbv beta. word_lia.
  - rewrite decide_False by (apply lookup_ge_None_1 in E1; lia). done.
Qed.

Lemma host_length data : zlen (words_of data 16 little) = (zlen data + 1) / 2.
Proof. rewrite <- words_length. unfold zlen, words_of. by rewrite !length_map. Qed.

(** A machine before the transfer. *)
Definition load_idle (l : loader) : Prop :=
  off (gp_outd l) = true /\ off (gp_outr l) = true /\ rack (inner l) = false /\ fio_has_cmd (block (inner l)) = false /\
  wr (inner l) = false /\ ioctl_wr (inner l) = false.

(** C24: The program is the same, whichever way it gets into the ROM.  A file
    of bytes, of an even length and at most 64 KiB, is sent by the host, each
    word up and down on the port for any number of clocks: afterwards the
    transfer is over, the words of the ROM are those of the image genmif.py
    makes of the file, and the processor reads the bytes of the file at their
    addresses. *)
Theorem program_loaded (addr_len : nat) (data : list Z) (b : Z) (gs : list gp) (g1 g2 : gp) (l : loader) :
  Forall is_u8 data -> zlen data mod 2 = 0 -> zlen data <= 65536 -> b mod 256 <> 0 -> b mod 256 <> 0xaa ->
  load_idle l -> sends (transfer b (words_of data 16 little)) gs ->
  let c := inner (load_run (gs ++ [g1; g2]) l) in
  exists img, write_mif addr_len data 16 32768 big ≫= read_mif = Some img /\ ioctl_download (block c) = false /\
    forall a hi lo, data !! Z.to_nat a = Some hi -> data !! Z.to_nat (a + 1) = Some lo -> 0 <= a -> Z.even a = true ->
      word_at (i_entries img) (a / 2) = Some (rom c (a / 2)) /\
      forall o, rom_dout o = rom c (rom_word (read_at a)) -> cpu_din o (read_at a) = hi * 256 + lo.
Proof.
  intros Hd He Hl Hb Ha (P1 & P2 & R & Hc & W1 & W2) Hs c.
  destruct (rom_image addr_len data Hd He Hl) as (img & E & _ & _ & _ & Him). exists img. split; [exact E|].
  assert (c = core_run (gp_outr l :: gp_outd l :: gs) (inner l)) as Ec.
  { unfold c. rewrite load_delay, length_app. change (length [g1; g2]) with 2%nat. f_equal.
    rewrite Nat.add_comm. cbn [take Nat.add]. by rewrite take_app_length. }
  assert (follows (block (inner l), rom (inner l)) (inner l)) as F0.
  { split; [done| |by rewrite W1]. unfold committed. by rewrite W1, W2, andb_false_r. }
  pose proof (sends_more _ _ _ P2 (sends_off _ _ _ P1 Hs)) as Hs'. destruct (sends_follow _ _ Hs' _ _ F0 R) as [F _]. rewrite <- Ec in F.
  set (f0 := with_cmd (block (inner l)) (fio_cmd (block (inner l))) (fio_cnt (block (inner l))) false).
  destruct (events_transfer b (words_of data 16 little) f0 (rom (inner l)) eq_refl Hb Ha) as (f & Ev & Df).
  change (foldl _ _ (Off :: ?es)) with (events es (f0, rom (inner l))) in F. rewrite Ev in F. destruct F as [F1 F2 F3]. cbn [fst snd] in F1, F2.
  rewrite F1 in *. split; [exact Df|]. rewrite Df in F3. unfold committed in F2. rewrite F1, Df in F2. destruct (wr c); [by destruct (F3 eq_refl) as (_ & [=] & _)|].
  cbn [orb andb] in F2. intros a hi lo Hhi Hlo H0 Hev. apply Z.even_spec in Hev as [j ->]. replace (2 * j / 2) with j by word_lia.
  assert (0 <= j < 32768) as Hj by (apply lookup_lt_Some in Hlo; unfold zlen in *; lia).
  assert (rom c j = hi * 256 + lo) as Er.
  { rewrite F2, (rom_writes_at _ 0) by (done || (rewrite host_length; word_lia)). cbn [Z.leb Z.compare]. rewrite (proj2 (Z.leb_le 0 j)), Z.sub_0_r by lia.
    pose proof (host_words data (Z.to_nat j) Hd) as Hw. replace (2 * Z.to_nat j)%nat with (Z.to_nat (2 * j)) in Hw by lia.
    replace (Z.to_nat (2 * j) + 1)%nat with (Z.to_nat (2 * j + 1)) in Hw by lia. rewrite Hhi, Hlo in Hw.
    destruct (words_of data 16 little !! Z.to_nat j); [|done]. by injection Hw. }
  split; [rewrite Him, Hhi, Hlo, Er by done; done|]. intros o Ho.
  destruct (reads_decoded o) as (_ & _ & _ & _ & _ & _ & _ & _ & _ & Hrom). rewrite Hrom, Ho by lia. unfold rom_word. cbn [read_at b_addr].
  by replace (2 * j / 2 mod 32768) with j by word_lia.
Qed.

(** The shortest clocks of some events. *)
Definition idle_gp : gp := {| gp_din := 0; gp_clk := false; gp_ss0 := false; gp_ss1 := false |}.
Definition clocks_of (es : list event) : list gp :=
  concat (map (fun e => match e with Word w => [up w; down w] | Off => [idle_gp] end) es).

Lemma clocks_sent es : sends es (clocks_of es).
Proof.
  induction es as [|[w|] es IH]; [constructor|exact (sends_word w 0 es _ IH)|exact (sends_off idle_gp es _ eq_refl IH)].
Qed.

Definition demo_loader : loader :=
  {| gp_outd := idle_gp; gp_outr := idle_gp;
     inner := {| rack := false; io_ack := false;
                 block := {| fio_cmd := 0; fio_cnt := 0; fio_has_cmd := false; fio_addr := 0; ioctl_download := false; ioctl_upload := false;
                             ioctl_addr := 0; ioctl_dout := 0; ioctl_index := 0; file_ext := (0, 0); fp_dout := 0 |};
                 wr := false; ioctl_wr := false; ioctl_rd := false; rom := fun _ => 0xffff |} |}.

Lemma program_loaded_witness :
  let data := [0x12; 0x34; 0xab; 0xcd] in
  let c := inner (load_run (clocks_of (transfer 0xff (words_of data 16 little)) ++ [idle_gp; idle_gp]) demo_loader) in
  exists img, write_mif 4 data 16 32768 big ≫= read_mif = Some img /\ ioctl_download (block c) = false /\
    word_at (i_entries img) 1 = Some (rom c 1) /\ rom c 1 = 0xabcd.
Proof.
  intros data c.
  destruct (program_loaded 4 data 0xff (clocks_of (transfer 0xff (words_of data 16 little))) idle_gp idle_gp demo_loader) as (img & E & D & H).
  { repeat apply Forall_cons_2; first [by split|apply Forall_nil_2]. }
  { done. }
  { done. }
  { done. }
  { done. }
  { by split_and!. }
  { apply clocks_sent. }
  exists img. split; [exact E|]. split; [exact D|]. destruct (H 2 0xab 0xcd) as [W _]; [done..|]. split; [exact W|vm_compute; reflexivity].
Defined.
