(* ===== verification/Sheet.v ===== *)
(** * The tiles (roms/gfxgen.py) and what is drawn with them

    The patterns of the tiles, from the font and the picture to the memory
    image of the graphics ROM, and the pixels a text or an image of gfx.c
    shows with them.  The images are read by the Python Imaging Library: the
    pixels of the font, and the pixels of a part of the picture, are arguments. *)

From S2P Require Import Prelude Printf PrintfProps Numerals Mif Input Blitter Float Hdmi HdmiProps Gfx GfxProps Video Crtc Tilemap.

(** ** The sheet *)

(** The dictionary of patterns: 64 pixels each, a row after the other. *)
Abbreviation sheet := (gmap Z (list Z)).

(** [for x in range(n): mapping[x + from] = x + to] *)
Definition map_range (n : nat) (from to : Z) (m : gmap Z Z) : gmap Z Z :=
  foldl (fun m x => <[x + from := x + to]> m) m (seqZ 0 (Z.of_nat n)).

Definition mapping : gmap Z Z := map_range 32 96 0x60 (map_range 32 64 0 (map_range 64 0 0x20 ∅)).

(** A pixel is the tuple of its components. *)
Definition one_bit (x : list Z) : Z := if decide (x = [0; 0; 0]) then 0 else 1.

(** [None]: a [KeyError], after more than 128 tiles. *)
Fixpoint import_tiles (idx : Z) (tiles : list (list Z)) (s : sheet) : option sheet :=
  match tiles with
  | [] => Some s
  | t :: tiles => k ← mapping !! idx; import_tiles (idx + 1) tiles (<[k := t]> s)
  end.

Definition import_font (data : list (list Z)) (s : sheet) : option sheet :=
  import_tiles 0 (chunks (length data) 64 (map one_bit data)) s.

Section picture.
(** [im.width], [im.height], and [list(im.crop((x, y, x + 8, y + 8)).getdata())]. *)
Context (width height : Z) (crop : Z -> Z -> list Z).

(** [range(0, n, 8)] *)
Definition eighths (n : Z) : list Z := map (fun i => 8 * i) (seqZ 0 ((n + 7) / 8)).

Definition positions : list (Z * Z) := concat (map (fun yy => map (fun xx => (xx, yy)) (eighths width)) (eighths height)).

Fixpoint import_crops (idx : Z) (ps : list (Z * Z)) (s : sheet) : sheet :=
  match ps with
  | [] => s
  | (xx, yy) :: ps => import_crops (idx + 1) ps (<[idx := crop xx yy]> s)
  end.

Definition import_misterkun (s : sheet) : sheet := import_crops 128 positions s.
End picture.

(** The colours it prints: [RGB(r,g,b),] for each three of the palette.
    [None]: an [IndexError]. *)
Fixpoint print_palette (palette : list Z) : option (list (Z * Z * Z)) :=
  let c x := Z.min (x + 7) 255 in
  match palette with
  | [] => Some []
  | r :: g :: b :: palette => l ← print_palette palette; Some ((c r, c g, c b) :: l)
  | _ => None
  end.

(** ** The image of the ROM *)

Definition blank : list Z := replicate 64 0.

Definition row32 (bs : list Z) : Z := foldl (fun v b => v <<< 4 ||| b &&& 0x0f) 0 bs.

Definition tile_rows (byte_data : list Z) : list Z :=
  map (fun row_start => row32 (take 8 (drop row_start byte_data))) [0; 8; 16; 24; 32; 40; 48; 56]%nat.

Definition sheet_words (s : sheet) : list Z := concat (map (fun idx => tile_rows (default blank (s !! idx))) (seqZ 0 256)).

Definition write_sheet (s : sheet) : list Z :=
  chars "DEPTH = 2048;" ++ [10] ++ chars "WIDTH = 32;" ++ [10] ++ chars "DATA_RADIX = BIN;" ++ [10] ++
  chars "ADDRESS_RADIX = HEX;" ++ [10] ++ chars "CONTENT" ++ [10] ++ chars "BEGIN" ++ [10] ++
  write_words 4 32 0 (sheet_words s) ++ footer.

(** The script: the text of the image, and the colours it prints.  [font] are
    the pixels of the font, [palette] is the palette of the picture. *)
Definition gfxgen (font : list (list Z)) (palette : list Z) (width height : Z) (crop : Z -> Z -> list Z) :
    option (list Z * list (Z * Z * Z)) :=
  s ← import_font font ∅;
  colors ← print_palette palette;
  Some (write_sheet (import_misterkun width height crop s), colors).

(** ** The words of the image *)

(** The pixel of a pattern. *)
Definition pattern_pixel (l : list Z) (row col : Z) : Z := nth (Z.to_nat (8 * row + col)) l 0 mod 16.

(** Bits above and below. *)
Lemma lor_shift n v b : 0 <= n -> 0 <= b < 2 ^ n -> v <<< n ||| b = v * 2 ^ n + b.
Proof.
  intros Hn Hb. assert (Z.land (v <<< n) b = 0) as E; [|rewrite <- Z.shiftl_mul_pow2, <- Z.add_lor_land, E by lia; lia].
  apply Z.bits_inj'. intros i Hi. rewrite Z.land_spec, Z.bits_0.
  destruct (Z.ltb_spec i n); [by rewrite Z.shiftl_spec_low by lia|]. rewrite (testbit_high b n) by lia. apply andb_false_r.
Qed.

Lemma row32_step v b : v <<< 4 ||| b &&& 0x0f = v * 16 + b mod 16.
Proof.
  change 0x0f with (Z.ones 4). rewrite Z.land_ones by lia. change (2 ^ 4) with 16. apply lor_shift; [done|]. by apply Z.mod_pos_bound.
Qed.

Lemma horner_bound base ds : 0 < base -> Forall (fun d => 0 <= d < base) ds -> 0 <= horner base 0 ds < base ^ Z.of_nat (length ds).
Proof.
  intros Hb. induction 1 as [|d ds Hd _ IH]; cbn [horner length]; [cbn; lia|]. rewrite horner_scale, Nat2Z.inj_succ, Z.pow_succ_r by lia. nia.
Qed.

(** A digit of a number. *)
Lemma horner_digit base ds i d :
  0 < base -> Forall (fun d => 0 <= d < base) ds -> ds !! i = Some d ->
  (horner base 0 ds / base ^ (Z.of_nat (length ds) - 1 - Z.of_nat i)) mod base = d.
Proof.
  intros Hb Hds Hi. pose proof (lookup_lt_Some _ _ _ Hi). rewrite <- (take_drop_middle ds i d Hi) at 1. rewrite horner_app. cbn [horner].
  rewrite horner_scale. pose proof (horner_bound base (drop (S i) ds) Hb ltac:(by apply Forall_drop)) as B. rewrite length_drop in *.
  replace (Z.of_nat (length ds) - 1 - Z.of_nat i) with (Z.of_nat (length ds - S i)) by lia.
  rewrite Z.div_add_l, (Z.div_small (horner _ _ _)) by lia. rewrite Z.add_0_r, (Z.add_comm _ d), Z.mod_add by lia.
  apply Z.mod_small. by apply (Forall_lookup_1 _ _ _ _ Hds Hi).
Qed.

Lemma row32_horner bs : forall v, 0 <= v -> foldl (fun v b => v <<< 4 ||| b &&& 0x0f) v bs = horner 16 v (map (fun b => b mod 16) bs).
Proof.
  induction bs as [|b bs IH]; intros v Hv; [done|]. cbn [foldl map horner]. rewrite row32_step. apply IH.
  pose proof (Z.mod_pos_bound b 16). lia.
Qed.

Lemma nibbles bs : Forall (fun d => 0 <= d < 16) (map (fun b => b mod 16) bs).
Proof. apply Forall_map, Forall_true. intros b. apply Z.mod_pos_bound. lia. Qed.

(** The leftmost pixel is in the top four bits. *)
Lemma row32_pixel bs col b :
  length bs = 8%nat -> 0 <= col < 8 -> bs !! Z.to_nat col = Some b -> (row32 bs / 16 ^ (7 - col)) mod 16 = b mod 16.
Proof.
  intros Hl Hc Hb. unfold row32. rewrite row32_horner by done.
  pose proof (horner_digit 16 (map (fun b => b mod 16) bs) (Z.to_nat col) (b mod 16) ltac:(lia) (nibbles bs)) as H.
  rewrite length_map, Hl in H. replace (7 - col) with (Z.of_nat 8 - 1 - Z.of_nat (Z.to_nat col)) by lia. apply H. by rewrite list_lookup_fmap, Hb.
Qed.

Lemma row32_nonneg bs : 0 <= row32 bs.
Proof. unfold row32. rewrite row32_horner by done. apply (horner_bound 16); [lia|apply nibbles]. Qed.

Lemma rows_lookup {A} (f : Z -> list A) n i j : forall k,
  (forall x, length (f x) = 8%nat) -> (i < n)%nat -> (j < 8)%nat -> concat (map f (seqZ k (Z.of_nat n))) !! (8 * i + j)%nat = f (k + Z.of_nat i) !! j.
Proof.
  revert i. induction n as [|n IH]; intros i k Hf Hi Hj; [lia|]. rewrite seqZ_cons by lia. cbn [map concat]. destruct i as [|i].
  - rewrite lookup_app_l by (rewrite Hf; lia). do 2 f_equal; lia.
  - rewrite lookup_app_r by (rewrite Hf; lia). rewrite Hf. replace (Z.pred (Z.of_nat (S n))) with (Z.of_nat n) by lia.
    replace (8 * S i + j - 8)%nat with (8 * i + j)%nat by lia. rewrite IH by (done || lia). do 2 f_equal. lia.
Qed.

(** The word of a row of a tile, and its pixels. *)
Lemma sheet_word s idx row :
  0 <= idx < 256 -> 0 <= row < 8 ->
  sheet_words s !! Z.to_nat (idx * 8 + row) = Some (row32 (take 8 (drop (Z.to_nat (8 * row)) (default blank (s !! idx))))).
Proof.
  intros Hi Hr. unfold sheet_words. replace (Z.to_nat (idx * 8 + row)) with (8 * Z.to_nat idx + Z.to_nat row)%nat by lia.
  change 256 with (Z.of_nat 256). rewrite rows_lookup by (done || lia). rewrite Z2Nat.id, Z.add_0_l by lia. unfold tile_rows.
  rewrite list_lookup_fmap. assert ([0; 8; 16; 24; 32; 40; 48; 56]%nat !! Z.to_nat row = Some (Z.to_nat (8 * row))) as ->; [|done].
  assert (row = 0 \/ row = 1 \/ row = 2 \/ row = 3 \/ row = 4 \/ row = 5 \/ row = 6 \/ row = 7) as H by lia. by repeat (destruct H as [->|H]; [done|]); subst row.
Qed.

(** The ROM that is initialised with an image. *)
Definition rom_of (i : image) (a : Z) : Z := default 0 (word_at (i_entries i) a).

Lemma sheet_read s :
  exists img, read_mif (write_sheet s) = Some img /\ i_depth img = 2048 /\ i_width img = 32 /\
    forall idx row col, 0 <= idx < 256 -> 0 <= row < 8 -> 0 <= col < 8 -> length (default blank (s !! idx)) = 64%nat ->
      (rom_of img (idx * 8 + row) / 16 ^ (7 - col)) mod 16 = pattern_pixel (default blank (s !! idx)) row col.
Proof.
  exists (mkImage 2048 32 (numbered 0 (sheet_words s))). split; [|split_and!; [done|done|]].
  - apply (image_read 4 32 2048); [done|done|]. unfold sheet_words. apply Forall_concat, Forall_map, Forall_true. intros idx.
    apply Forall_map, Forall_true. intros r. apply row32_nonneg.
  - intros idx row col Hi Hr Hc Hl. unfold rom_of. cbn [i_entries]. rewrite word_at_numbered, Z.sub_0_r, sheet_word by lia. cbn [from_option id].
    set (l := default blank (s !! idx)) in *. assert (is_Some (l !! Z.to_nat (8 * row + col))) as [b Hb] by (apply lookup_lt_is_Some_2; lia).
    rewrite (row32_pixel _ _ b); [by unfold pattern_pixel; rewrite (nth_lookup_Some _ _ _ _ Hb)|rewrite length_take, length_drop; lia|done|].
    rewrite lookup_take_lt, lookup_drop by lia. by replace (Z.to_nat (8 * row) + Z.to_nat col)%nat with (Z.to_nat (8 * row + col)) by lia.
Qed.

(** ** The patterns *)

Lemma map_range_lookup n from to m i :
  map_range n from to m !! i = if decide (from <= i < from + Z.of_nat n) then Some (i - from + to) else m !! i.
Proof.
  unfold map_range. induction n as [|n IH]; [by rewrite decide_False by lia|].
  rewrite (seqZ_S 0 n), foldl_app. cbn [foldl]. destruct (decide (i = Z.of_nat n + from)) as [->|Hi].
  - rewrite Z.add_0_l, lookup_insert_eq, decide_True by lia. f_equal. lia.
  - rewrite Z.add_0_l, lookup_insert_ne, IH by done. repeat case_decide; (done || lia).
Qed.

(** The place of a character in the font. *)
Definition glyph_of (c : Z) : Z := if c <? 32 then c + 64 else if c <? 96 then c - 32 else c.

Lemma mapping_glyph i k : mapping !! i = Some k <-> 0 <= k < 128 /\ glyph_of k = i.
Proof.
  unfold mapping, glyph_of. rewrite !map_range_lookup, lookup_empty. cbn [Z.of_nat]. destruct (Z.ltb_spec k 32), (Z.ltb_spec k 96);
    repeat case_decide; split; (intros [= <-] || intros [? ?]); try lia; try done; f_equal; lia.
Qed.

Lemma import_tiles_lookup ts : forall idx s s' c,
  import_tiles idx ts s = Some s' -> 0 <= c < 128 ->
  s' !! c = match (if idx <=? glyph_of c then ts !! Z.to_nat (glyph_of c - idx) else None) with Some t => Some t | None => s !! c end.
Proof.
  induction ts as [|t ts IH]; intros idx s s' c E Hc; cbn [import_tiles] in E; [injection E as <-; by destruct (_ <=? _)|].
  apply bind_Some in E as (k & Hk & E). rewrite (IH _ _ _ c E Hc). apply mapping_glyph in Hk as [Hk Hg]. destruct (decide (k = c)) as [->|Hne].
  - rewrite Hg. rewrite (proj2 (Z.leb_gt (idx + 1) idx)), Z.leb_refl, Z.sub_diag by lia. by rewrite lookup_insert_eq.
  - rewrite lookup_insert_ne by done. destruct (Z.leb_spec idx (glyph_of c)) as [Hle|Hgt]; [|by rewrite (proj2 (Z.leb_gt (idx + 1) _)) by lia].
    destruct (Z.eq_dec (glyph_of c) idx) as [He|].
    { exfalso. apply Hne. assert (mapping !! idx = Some k) as H1 by (by apply mapping_glyph).
      assert (mapping !! idx = Some c) as H2 by (by apply mapping_glyph). congruence. }
    rewrite (proj2 (Z.leb_le (idx + 1) _)) by lia. by replace (Z.to_nat (glyph_of c - idx)) with (S (Z.to_nat (glyph_of c - (idx + 1)))) by lia.
Qed.

Lemma import_crops_lookup crop ps : forall idx s c,
  import_crops crop idx ps s !! c =
    match (if idx <=? c then ps !! Z.to_nat (c - idx) else None) with Some p => Some (crop p.1 p.2) | None => s !! c end.
Proof.
  induction ps as [|[xx yy] ps IH]; intros idx s c; cbn [import_crops]; [by destruct (_ <=? _)|]. rewrite IH.
  destruct (decide (idx = c)) as [->|Hne].
  - rewrite (proj2 (Z.leb_gt (c + 1) c)), Z.leb_refl, Z.sub_diag by lia. by rewrite lookup_insert_eq.
  - rewrite lookup_insert_ne by done. destruct (Z.leb_spec idx c); [|by rewrite (proj2 (Z.leb_gt (idx + 1) c)) by lia].
    rewrite (proj2 (Z.leb_le (idx + 1) c)) by lia. by replace (Z.to_nat (c - idx)) with (S (Z.to_nat (c - (idx + 1)))) by lia.
Qed.

Lemma eighths_lookup n i : 0 <= i < (n + 7) / 8 -> eighths n !! Z.to_nat i = Some (8 * i).
Proof. intros H. unfold eighths. rewrite list_lookup_fmap, lookup_seqZ_lt by lia. cbn. f_equal. lia. Qed.

Lemma blocks_lookup {A B} (f : A -> list B) (l : list A) m i j x : 
  (forall x, length (f x) = m) -> l !! i = Some x -> (j < m)%nat -> concat (map f l) !! (i * m + j)%nat = f x !! j.
Proof.
  intros Hf. revert i. induction l as [|y l IH]; intros i Hi Hj; [done|]. cbn [map concat]. destruct i as [|i].
  - injection Hi as ->. by rewrite lookup_app_l by (rewrite Hf; lia).
  - rewrite lookup_app_r, Hf by (rewrite Hf; lia). replace (S i * m + j - m)%nat with (i * m + j)%nat by lia. by apply IH.
Qed.

Lemma positions_lookup width height i j :
  let cols := (width + 7) / 8 in
  0 <= i < cols -> 0 <= j < (height + 7) / 8 -> positions width height !! Z.to_nat (j * cols + i) = Some (8 * i, 8 * j).
Proof.
  intros cols Hi Hj. unfold positions. replace (Z.to_nat (j * cols + i)) with (Z.to_nat j * Z.to_nat cols + Z.to_nat i)%nat by nia.
  rewrite (blocks_lookup _ _ (Z.to_nat cols) (Z.to_nat j) (Z.to_nat i) (8 * j)); [|intros x; unfold eighths; rewrite !length_map, length_seqZ; done|by apply eighths_lookup|lia].
  by rewrite list_lookup_fmap, eighths_lookup.
Qed.

(** ** The pixels of the ROM *)

(** What the library gives: the pixels of a part, a row after the other. *)
Definition crop_reads (pixel : Z -> Z -> Z) (crop : Z -> Z -> list Z) : Prop :=
  forall xx yy, length (crop xx yy) = 64%nat /\
    forall row col, 0 <= row < 8 -> 0 <= col < 8 -> crop xx yy !! Z.to_nat (8 * row + col) = Some (pixel (xx + col) (yy + row)).

Section rom.
Context (font : list (list Z)) (width height : Z) (pixel : Z -> Z -> Z) (crop : Z -> Z -> list Z) (Hcrop : crop_reads pixel crop).

Definition rom_shows (gfx_rom : Z -> Z) : Prop :=
  (forall c row col px, 0 <= c < 128 -> 0 <= row < 8 -> 0 <= col < 8 -> (glyph_of c + 1) * 64 <= zlen font ->
     font !! Z.to_nat (64 * glyph_of c + 8 * row + col) = Some px -> (gfx_rom (c * 8 + row) / 16 ^ (7 - col)) mod 16 = one_bit px) /\
  (forall i j row col, let cols := (width + 7) / 8 in
     0 <= i < cols -> 0 <= j < (height + 7) / 8 -> 128 + (j * cols + i) < 256 -> 0 <= row < 8 -> 0 <= col < 8 ->
     (gfx_rom ((128 + (j * cols + i)) * 8 + row) / 16 ^ (7 - col)) mod 16 = pixel (8 * i + col) (8 * j + row) mod 16).
End rom.

Lemma one_bit_small px : one_bit px mod 16 = one_bit px.
Proof. unfold one_bit. by destruct (decide _). Qed.

Lemma import_tiles_total ts : forall idx s, 0 <= idx -> idx + zlen ts <= 128 -> exists s', import_tiles idx ts s = Some s'.
Proof.
  induction ts as [|t ts IH]; intros idx s H0 Hl; [by exists s|]. unfold zlen in Hl. cbn [length] in Hl.
  assert (exists k, mapping !! idx = Some k) as [k Hk].
  { exists (if idx <? 64 then idx + 32 else if idx <? 96 then idx - 64 else idx). apply mapping_glyph. unfold glyph_of.
    destruct (Z.ltb_spec idx 64), (Z.ltb_spec idx 96); repeat case_match; lia. }
  cbn [import_tiles]. rewrite Hk. apply IH; [lia|unfold zlen; lia].
Qed.

(** The [k]-th tile of the font. *)
Lemma font_tile font k : chunks (length font) 64 (map one_bit font) !! k = if decide (k * 64 < length font)%nat then Some (take 64 (drop (k * 64) (map one_bit font))) else None.
Proof. rewrite chunks_lookup by (rewrite ?length_map; lia). by rewrite length_map. Qed.

Lemma font_tiles font : zlen font <= 8192 -> zlen (chunks (length font) 64 (map one_bit font)) <= 128.
Proof.
  intros Hl. unfold zlen in *. destruct (Z.le_gt_cases (Z.of_nat (length (chunks (length font) 64 (map one_bit font)))) 128) as [|Hgt]; [done|].
  destruct (lookup_lt_is_Some_2 (chunks (length font) 64 (map one_bit font)) 128) as [t Ht]; [lia|]. rewrite font_tile in Ht. case_decide; [lia|done].
Qed.

Lemma font_sheet font s c :
  import_font font ∅ = Some s -> 0 <= c < 128 -> (glyph_of c + 1) * 64 <= zlen font ->
  s !! c = Some (take 64 (drop (Z.to_nat (64 * glyph_of c)) (map one_bit font))).
Proof.
  intros E Hc Hl. assert (0 <= glyph_of c) as Hg by (unfold glyph_of; repeat case_match; lia).
  rewrite (import_tiles_lookup _ _ _ _ c E Hc), (proj2 (Z.leb_le _ _)), font_tile, decide_True by (unfold zlen in *; lia).
  by replace (Z.to_nat (glyph_of c - 0) * 64)%nat with (Z.to_nat (64 * glyph_of c)) by lia.
Qed.

(** The tile of a part of the picture. *)
Lemma picture_sheet width height crop s i j :
  let cols := (width + 7) / 8 in
  0 <= i < cols -> 0 <= j < (height + 7) / 8 -> import_misterkun width height crop s !! (128 + (j * cols + i)) = Some (crop (8 * i) (8 * j)).
Proof.
  intros cols Hi Hj. unfold import_misterkun. rewrite import_crops_lookup, (proj2 (Z.leb_le _ _)) by nia.
  replace (128 + (j * cols + i) - 128) with (j * cols + i) by lia. 
  pose proof (positions_lookup width height i j Hi Hj) as E. cbv zeta in E. fold cols in E. by rewrite E.
Qed.

Lemma print_palette_total n : forall palette, length palette = (3 * n)%nat -> exists l, print_palette palette = Some l.
Proof.
  induction n as [|n IH]; intros palette Hl; [destruct palette; [by exists []|done]|].
  destruct palette as [|r [|g [|b palette]]]; cbn in Hl; try lia. destruct (IH palette ltac:(lia)) as [l E]. cbn [print_palette]. rewrite E. by eexists.
Qed.

Lemma gfxgen_rom font palette width height pixel crop :
  crop_reads pixel crop -> zlen font <= 8192 -> zlen palette mod 3 = 0 ->
  exists text colors img, gfxgen font palette width height crop = Some (text, colors) /\ read_mif text = Some img /\ i_depth img = 2048 /\ i_width img = 32 /\
    rom_shows font width height pixel (rom_of img).
Proof.
  intros Hcrop Hl Hpal. destruct (print_palette_total (Z.to_nat (zlen palette / 3)) palette) as [colors Ecol]; [unfold zlen in *; word_lia|].
  destruct (import_tiles_total (chunks (length font) 64 (map one_bit font)) 0 ∅) as [s Es];
    [done|rewrite Z.add_0_l; by apply font_tiles|]. fold (import_font font ∅) in Es.
  destruct (sheet_read (import_misterkun width height crop s)) as (img & Er & D & W & P).
  exists (write_sheet (import_misterkun width height crop s)), colors, img. unfold gfxgen. rewrite Es. cbn [mbind option_bind]. rewrite Ecol. split_and!; try done. split.
  - intros c row col px Hc Hr Hcol Hg Hpx. pose proof (font_sheet font s c Es Hc Hg) as Hs.
    assert (import_misterkun width height crop s !! c = s !! c) as Hk
      by (unfold import_misterkun; by rewrite import_crops_lookup, (proj2 (Z.leb_gt 128 c)) by lia).
    assert (0 <= glyph_of c) by (unfold glyph_of; repeat case_match; lia).
    rewrite P by (lia || (rewrite Hk, Hs; cbn [from_option id]; rewrite length_take, length_drop, length_map; unfold zlen in Hg; lia)).
    rewrite Hk, Hs. cbn [from_option id]. unfold pattern_pixel. rewrite (nth_lookup_Some _ _ _ (one_bit px)); [apply one_bit_small|].
    rewrite lookup_take_lt, lookup_drop by lia. rewrite list_lookup_fmap.
    replace (Z.to_nat (64 * glyph_of c) + Z.to_nat (8 * row + col))%nat with (Z.to_nat (64 * glyph_of c + 8 * row + col)) by lia. by rewrite Hpx.
  - intros i j row col cols Hi Hj Ht Hr Hcol. pose proof (picture_sheet width height crop s i j Hi Hj) as Hs. cbv zeta in Hs. fold cols in Hs.
    destruct (Hcrop (8 * i) (8 * j)) as [L Hp]. rewrite P by (nia || (rewrite Hs; exact L)). rewrite Hs. cbn [from_option id].
    unfold pattern_pixel. by rewrite (nth_lookup_Some _ _ _ _ (Hp row col Hr Hcol)).
Qed.

(** ** What is drawn *)

Section image.
Context (g : gfx) (p r c h base : Z) (Hp : page_at p g) (Hr : 0 <= r) (Hrh : r + h <= 64) (Hc : 0 <= c) (Hch : c + h <= TILE_MAX_W) (Hh : 0 < h).

(** The cell of the [k]-th tile of a square, and the first [n] of them drawn. *)
Definition image_cell (k : Z) : Z := cell p (r + k / h) (c + k mod h).

Definition image_part (n : Z) (g' : gfx) : Prop :=
  exists xs m, g' = with_tiles g xs m /\ (forall k, 0 <= k < n -> m (image_cell k) = u16 (base + k)) /\
    forall a, (forall k, 0 <= k < n -> a <> image_cell k) -> m a = tiles g a.

Lemma image_cell_inj k k' : 0 <= k -> 0 <= k' -> image_cell k = image_cell k' -> k = k'.
Proof.
  unfold image_cell, cell, TILE_MAX_W in *. intros H1 H2 E. pose proof (Z.mod_pos_bound k h Hh). pose proof (Z.mod_pos_bound k' h Hh).
  pose proof (Z_div_mod_eq_full k h). pose proof (Z_div_mod_eq_full k' h).
  assert (k / h = k' / h) as Ed by lia. rewrite Ed in *. lia.
Qed.

Lemma image_store i j : 0 <= i < h -> 0 <= j < h ->
  hoare (image_part (i * h + j)) (vram_store (r * TILE_MAX_W + c + i * TILE_MAX_W + j) (u16 (base + i * h + j))) (fun _ => image_part (i * h + j + 1)).
Proof.
  intros Hi Hj g1 (xs & m & -> & M1 & M2). replace (r * TILE_MAX_W + c + i * TILE_MAX_W + j) with ((r + i) * TILE_MAX_W + (c + j)) by lia.
  destruct (store_spec p (r + i) (c + j) (u16 (base + i * h + j)) (with_tiles g xs m)) as (m' & E & _ & Hm); [exact Hp|lia|unfold TILE_MAX_W in *; lia|].
  assert (image_cell (i * h + j) = cell p (r + i) (c + j)) as Ec.
  { unfold image_cell. rewrite (Z.add_comm (i * h)), Z.div_add, Z.mod_add, Z.div_small, Z.mod_small by lia. f_equal; lia. }
  eexists tt, _. split; [exact E|]. eexists (xs ++ _), m'. split; [unfold with_tiles; cbn; by rewrite app_assoc|]. cbn [tiles with_tiles] in Hm. split.
  - intros k Hk. rewrite Hm, <- Ec. destruct (Z.eqb_spec (image_cell k) (image_cell (i * h + j))) as [E'|Hne].
    + apply image_cell_inj in E' as ->; [|lia|nia]. rewrite u16_idemp. f_equal. lia.
    + apply M1. destruct (Z.eq_dec k (i * h + j)); [congruence|lia].
  - intros a Ha. rewrite Hm, <- Ec. destruct (Z.eqb_spec a (image_cell (i * h + j))) as [->|]; [exfalso; apply (Ha (i * h + j)); [nia|done]|].
    apply M2. intros k Hk. apply Ha. lia.
Qed.

Lemma image_loops :
  hoare (image_part 0)
    (for_from (Z.to_nat h) 0 (fun y2 => for_from (Z.to_nat h) 0 (fun x2 => vram_store (r * TILE_MAX_W + c + y2 * TILE_MAX_W + x2) (u16 (base + y2 * h + x2)))))
    (fun _ => image_part (h * h)).
Proof.
  pose proof (hoare_for (fun y2 => image_part (y2 * h)) (Z.to_nat h) 0) as H. cbv beta in H. rewrite Z.mul_0_l, Z.add_0_l, Z2Nat.id in H by lia.
  apply H. intros i Hi. pose proof (hoare_for (fun x2 => image_part (i * h + x2)) (Z.to_nat h) 0) as H'. cbv beta in H'.
  rewrite Z.add_0_r, Z.add_0_l, Z2Nat.id in H' by lia. replace ((i + 1) * h) with (i * h + h) by lia. apply H'.
  intros j Hj. rewrite Z.add_assoc. apply image_store; lia.
Qed.
End image.

(** [gfx_image] draws a square of tiles, numbered along its rows. *)
Lemma image_draws l cx g p tile color x y' w h :
  stack l cx g -> page_at p g -> fits cx x y' h h -> is_u8 tile -> is_u8 color ->
  exists g', gfx_image tile color x y' w h g = Ok (tt, g') /\
    forall i j, 0 <= i < h -> 0 <= j < h -> tiles g' (cell p (ry cx + y' + i) (rx cx + x + j)) = u16 (color * 256 + tile + (i * h + j)).
Proof.
  intros Hs Hp Hf Ht Hco. unfold fits, TILE_MAX_W in Hf. unfold gfx_image.
  rewrite (u8_small tile), (u8_small color), (u16_small x), (u16_small y'), (u16_small h) by (done || (unfold is_u16; lia)).
  unfold mbind, M_bind. rewrite (get_ctx_stack _ _ _ Hs). rewrite <- (Z.add_assoc _ x).
  assert (u16 (color <<< 8 ||| tile) = color * 256 + tile) as ->.
  { rewrite lor_shift by done. apply u16_small. unfold is_u8, is_u16 in *. lia. }
  destruct (image_loops g p (ry cx + y') (x + rx cx) h (color * 256 + tile) Hp ltac:(lia) ltac:(lia) ltac:(lia) ltac:(unfold TILE_MAX_W; lia) ltac:(lia) g)
    as ([] & g' & E & (xs & m & -> & M & _)).
  { exists [], (tiles g). split; [unfold with_tiles; rewrite app_nil_r; by destruct g|]. split; [lia|done]. }
  eexists. split; [exact E|]. intros i j Hi Hj. cbn [tiles with_tiles]. rewrite <- M by nia. f_equal. unfold image_cell.
  rewrite (Z.add_comm (i * h)), Z.div_add, Z.mod_add, Z.div_small, Z.mod_small by lia. f_equal; lia.
Qed.

(** C25: The picture appears.  With the ROM made by gfxgen.py from a picture
    of 32 by 64 pixels and a palette of whole colours, [gfx_image] with the arguments of main.c draws its
    upper half, or with the tile 16 further its lower half: every pixel of the
    square is the entry 0x40 and up of the palette for the pixel at that place
    of the picture. *)
Theorem mascot_shown (font : list (list Z)) (palette : list Z) (pixel : Z -> Z -> Z) (crop : Z -> Z -> list Z)
    (l : list Context) (c : Context) (g : gfx) (p x y' half : Z) :
  crop_reads pixel crop -> zlen font <= 8192 -> zlen palette mod 3 = 0 -> stack l c g -> page_at p g -> fits c x y' 4 4 -> half = 0 \/ half = 1 ->
  exists text colors img g', gfxgen font palette 32 64 crop = Some (text, colors) /\ read_mif text = Some img /\
    gfx_image (0x80 + 16 * half) 0x40 x y' 4 4 g = Ok (tt, g') /\
    forall i j, 0 <= i < 32 -> 0 <= j < 32 ->
      tile_pixel (rom_of img) (tiles g') p (8 * (rx c + x) + i) (8 * (ry c + y') + j) = 0x40 + pixel i (32 * half + j) mod 16.
Proof.
  intros Hcrop Hl Hpal Hs Hp Hf Hh. destruct (gfxgen_rom font palette 32 64 pixel crop Hcrop Hl Hpal) as (text & colors & img & E1 & E2 & _ & _ & (_ & Hpic)).
  destruct (image_draws l c g p (0x80 + 16 * half) 0x40 x y' 4 4 Hs Hp Hf) as (g' & E3 & Hg); [unfold is_u8; lia|done|].
  cbv zeta in Hpic. change ((32 + 7) / 8) with 4 in Hpic. change ((64 + 7) / 8) with 8 in Hpic.
  exists text, colors, img, g'. split_and!; try done. intros i j Hi Hj. unfold tile_pixel.
  assert ((8 * (ry c + y') + j) / 8 = ry c + y' + j / 8 /\ (8 * (rx c + x) + i) / 8 = rx c + x + i / 8 /\
    (8 * (ry c + y') + j) mod 8 = j mod 8 /\ (8 * (rx c + x) + i) mod 8 = i mod 8) as (-> & -> & -> & ->) by word_lia.
  rewrite Hg by word_lia. set (k := 4 * half + j / 8).
  assert (u16 (0x40 * 256 + (0x80 + 16 * half) + (j / 8 * 4 + i / 8)) = 0x40 * 256 + (128 + (k * 4 + i / 8))) as -> by (unfold k; rewrite u16_small; [lia|unfold is_u16; word_lia]).
  assert (0 <= k < 8 /\ 0 <= i / 8 < 4) as [Hk Hi8] by (unfold k; word_lia).
  replace ((0x40 * 256 + (128 + (k * 4 + i / 8))) mod 256) with (128 + (k * 4 + i / 8)) by word_lia.
  replace ((0x40 * 256 + (128 + (k * 4 + i / 8))) / 256) with 0x40 by word_lia.
  rewrite (Hpic (i / 8) k (j mod 8) (i mod 8)); [|done|done|lia|apply Z.mod_pos_bound; lia..].
  replace (8 * (i / 8) + i mod 8) with i by word_lia. replace (8 * k + j mod 8) with (32 * half + j) by (unfold k; word_lia).
  pose proof (Z.mod_pos_bound (pixel i (32 * half + j)) 16 ltac:(lia)). rewrite (u8_small 0x40) by done. rewrite u8_small by (unfold is_u8; lia). lia.
Qed.

Lemma printed_colors font width height crop text colors l :
  gfxgen font l width height crop = Some (text, colors) -> forall l', print_palette l = Some l' -> colors = l'.
Proof. unfold gfxgen. intros (s & _ & (c & E & [= _ <-])%bind_Some)%bind_Some l' E'. congruence. Qed.

(** A picture, and how it is cut. *)
Definition demo_pixel (x y : Z) : Z := (x + 3 * y) mod 16.
Definition demo_crop (xx yy : Z) : list Z := map (fun n => demo_pixel (xx + n mod 8) (yy + n / 8)) (seqZ 0 64).
Definition demo_font : list (list Z) := replicate 4096 [0; 0; 0] ++ replicate 4096 [255; 255; 255].

Lemma demo_crop_reads : crop_reads demo_pixel demo_crop.
Proof.
  intros xx yy. split; [done|]. intros row col Hr Hc. unfold demo_crop. rewrite list_lookup_fmap, lookup_seqZ_lt by lia. cbn [fmap option_fmap option_map].
  do 2 f_equal; word_lia.
Qed.

Lemma mascot_shown_witness :
  exists text img g', gfxgen demo_font [1; 180; 255] 32 64 demo_crop = Some (text, [(8, 187, 255)]) /\ read_mif text = Some img /\
    gfx_image (0x80 + 16 * 1) 0x40 3 2 4 4 GfxProps.demo_gfx = Ok (tt, g') /\
    tile_pixel (rom_of img) (tiles g') 8192 (8 * 3 + 5) (8 * 2 + 7) = 0x40 + (5 + 3 * 39) mod 16.
Proof.
  destruct (mascot_shown demo_font [1; 180; 255] demo_pixel demo_crop [demo_ctx] demo_ctx GfxProps.demo_gfx 8192 3 2 1) as (text & colors & img & g' & E1 & E2 & E3 & H).
  { exact demo_crop_reads. }
  { vm_compute. discriminate || reflexivity. }
  { reflexivity. }
  { exact demo_stack. }
  { exact demo_page. }
  { by split_and!. }
  { by right. }
  assert (colors = [(8, 187, 255)]) as -> by exact (printed_colors _ _ _ _ _ _ _ E1 _ eq_refl).
  exists text, img, g'. split; [exact E1|]. split; [exact E2|]. split; [exact E3|]. clear E1 E2 E3. apply (H 5 7); lia.
Defined.

(** C10: The text appears.  With the ROM made by gfxgen.py from a font of 128
    characters (and any picture with a palette of whole colours), the pixels of the characters [gfx_text_aligned] draws are
    those of the font, the character being looked up by its ASCII code in the
    order of the font: the background of the pen where the font is black, the
    colour above it elsewhere. *)
Theorem text_shown (font : list (list Z)) (palette : list Z) (width height : Z) (pixel : Z -> Z -> Z) (crop : Z -> Z -> list Z)
    (l : list Context) (c : Context) (g : gfx) (p align : Z) (str : list Z) :
  crop_reads pixel crop -> zlen font = 8192 -> zlen palette mod 3 = 0 -> stack l c g -> page_at p g -> text_fits align str c ->
  is_u8 (pen c) -> pen c < 255 -> Forall (fun ch => 0 <= ch < 128) str ->
  let x := text_col align (zlen str) c in
  let r := ry c + text_row c in
  exists text colors img g', gfxgen font palette width height crop = Some (text, colors) /\ read_mif text = Some img /\
    gfx_text_aligned align str g = Ok (tt, g') /\
    forall i ch col row px, str !! i = Some ch -> 0 <= col < 8 -> 0 <= row < 8 ->
      font !! Z.to_nat (64 * glyph_of ch + 8 * row + col) = Some px ->
      tile_pixel (rom_of img) (tiles g') p (8 * (rx c + x + Z.of_nat i) + col) (8 * r + row) = pen c + one_bit px.
Proof.
  intros Hcrop Hl Hpal Hs Hp Hf Hpen Hpen' Hstr x r.
  destruct (gfxgen_rom font palette width height pixel crop Hcrop ltac:(lia) Hpal) as (text & colors & img & E1 & E2 & _ & _ & (Hfont & _)).
  destruct (text_spec l c g p align str Hs Hp Hf) as (g' & E & _ & _ & _ & _ & Ht).
  exists text, colors, img, g'. split_and!; try done. intros i ch col row px Hi Hcol Hrow Hpx. unfold tile_pixel.
  replace ((8 * (rx c + x + Z.of_nat i) + col) / 8) with (rx c + x + Z.of_nat i) by word_lia. replace ((8 * r + row) / 8) with r by word_lia.
  replace ((8 * (rx c + x + Z.of_nat i) + col) mod 8) with col by word_lia. replace ((8 * r + row) mod 8) with row by word_lia.
  pose proof (Forall_lookup_1 _ _ _ _ Hstr Hi) as Hch. cbv beta in Hch. assert (0 <= glyph_of ch < 128) as Hg by (unfold glyph_of; repeat case_match; lia).
  rewrite Ht, (drawn_text_cell _ _ _ _ _ _ i ch); [|unfold text_fits in Hf; fold x in Hf; lia..|done]. unfold is_u8 in *.
  rewrite lor_shift by lia. change (2 ^ 8) with 256. rewrite u16_small by (unfold is_u16; lia).
  replace ((pen c * 256 + ch) mod 256) with ch by word_lia. replace ((pen c * 256 + ch) / 256) with (pen c) by word_lia.
  rewrite (Hfont ch row col px) by (done || lia). assert (0 <= one_bit px <= 1) by (unfold one_bit; case_decide; lia).
  rewrite (u8_small (pen c)) by done. rewrite u8_small by (unfold is_u8; lia). lia.
Qed.

Lemma text_shown_witness :
  exists text img g', gfxgen demo_font [1; 180; 255] 32 64 demo_crop = Some (text, [(8, 187, 255)]) /\ read_mif text = Some img /\
    gfx_text_aligned ALIGN_RIGHT [72; 5] GfxProps.demo_gfx = Ok (tt, g') /\
    tile_pixel (rom_of img) (tiles g') 8192 (8 * 38 + 1) 6 = 4 + 0 /\ tile_pixel (rom_of img) (tiles g') 8192 (8 * 39 + 1) 6 = 4 + 1.
Proof.
  destruct (text_shown demo_font [1; 180; 255] 32 64 demo_pixel demo_crop [demo_ctx] demo_ctx GfxProps.demo_gfx 8192 ALIGN_RIGHT [72; 5]) as (text & colors & img & g' & E1 & E2 & E3 & H).
  { exact demo_crop_reads. }
  { vm_compute. discriminate || reflexivity. }
  { reflexivity. }
  { exact demo_stack. }
  { exact demo_page. }
  { by split_and!. }
  { done. }
  { done. }
  { repeat apply Forall_cons_2; first [by split|apply Forall_nil_2]. }
  assert (colors = [(8, 187, 255)]) as -> by exact (printed_colors _ _ _ _ _ _ _ E1 _ eq_refl).
  exists text, img, g'. split; [exact E1|]. split; [exact E2|]. split; [exact E3|].
  clear E1 E2 E3. split; [apply (H 0%nat 72 1 6 [0; 0; 0])|apply (H 1%nat 5 1 6 [255; 255; 255])]; (reflexivity || (split; [discriminate|reflexivity])).
Defined.
