(* ===== verification/CpuRam.v ===== *)
(** * The memory of the processor (rtl/system.sv)

    The two byte lanes of the RAM as a clocked machine, and the refinement
    between the byte memory of Util.v and the bus cycles that carry the
    stores of the processor. *)

From S2P Require Import Prelude Printf Formats Util Clock Float Hdmi HdmiProps Crtc SysBus.

(** ** The lanes *)

(** [cpu_ram_0] holds the low bytes, [cpu_ram_1] the high ones. *)
Record cpu_ram : Type := mkCpuRam { ram_0 : Z -> Z; ram_1 : Z -> Z }.

Definition ram_index (b : cpu_bus) : Z := (b_addr b / 2) mod 32768.

Definition ram_clock (b : cpu_bus) (r : cpu_ram) : cpu_ram :=
  let wr lane := ram_sel b && negb (b_rw b) && lane in
  let a := ram_index b in
  {| ram_0 := fun i => if wr (b_lds b) && (i =? a) then b_dout b mod 256 else ram_0 r i;
     ram_1 := fun i => if wr (b_uds b) && (i =? a) then b_dout b / 256 mod 256 else ram_1 r i |}.

Definition ram_run (bs : list cpu_bus) (r : cpu_ram) : cpu_ram := foldl (fun r b => ram_clock b r) r bs.

(** The word at the address of the bus. *)
Definition ram_word (b : cpu_bus) (r : cpu_ram) : Z := ram_1 r (ram_index b) * 256 + ram_0 r (ram_index b).

(** ** Stores *)

(** A store of a byte or a word at an offset from the start of the RAM. *)
Inductive store : Type := Byte (a v : Z) | Half (a v : Z).

Definition RAM_BASE : Z := 0x100000.

(** The processor puts a byte on both halves of the bus and asserts the
    strobe of its half: the upper one at an even address. *)
Definition bus_of_store (s : store) : cpu_bus :=
  match s with
  | Byte a v => {| b_addr := RAM_BASE + 2 * (a / 2); b_rw := false; b_lds := Z.odd a; b_uds := Z.even a; b_dout := v * 257 |}
  | Half a v => {| b_addr := RAM_BASE + a; b_rw := false; b_lds := true; b_uds := true; b_dout := v |}
  end.

Definition store_step (s : store) (m : list Z) : result (list Z) :=
  match s with Byte a v => aset m a v | Half a v => store16 m a v end.

Fixpoint store_run (ss : list store) (m : list Z) : result (list Z) :=
  match ss with [] => Ok m | s :: ss => m ← store_step s m; store_run ss m end.

(** No write to the RAM. *)
Definition ram_quiet (b : cpu_bus) : bool := b_rw b || (negb (b_lds b) && negb (b_uds b)) || negb (ram_sel b).

(** The stores on the bus, each held for some clocks. *)
Inductive ram_cycles : list store -> list cpu_bus -> Prop :=
  | ram_nil : ram_cycles [] []
  | ram_still b ss bs : ram_quiet b = true -> ram_cycles ss bs -> ram_cycles ss (b :: bs)
  | ram_store s n ss bs : ram_cycles ss bs -> ram_cycles (s :: ss) (replicate (S n) (bus_of_store s) ++ bs).

(** The bytes of the memory. *)
Definition ram_byte (r : cpu_ram) (i : Z) : Z := if Z.even i then ram_1 r (i / 2) else ram_0 r (i / 2).

Definition ram_holds (m : list Z) (r : cpu_ram) : Prop :=
  length m = Z.to_nat 65536 /\ forall i, 0 <= i < 65536 -> m !! Z.to_nat i = Some (ram_byte r i).

Definition store_ok (s : store) : Prop := match s with Byte _ v => is_u8 v | Half _ v => is_u16 v end.

(** ** The refinement *)

Lemma quiet_ram b r i : ram_quiet b = true -> ram_byte (ram_clock b r) i = ram_byte r i.
Proof.
  unfold ram_quiet, ram_byte, ram_clock. cbn [ram_0 ram_1]. intros Q.
  assert (ram_sel b && negb (b_rw b) && b_lds b = false /\ ram_sel b && negb (b_rw b) && b_uds b = false) as [-> ->]
    by (destruct (b_rw b), (b_lds b), (b_uds b), (ram_sel b); done). done.
Qed.

(** The bytes after a clock of a store. *)
Definition stored (s : store) (i : Z) : option Z :=
  match s with
  | Byte a v => if i =? a then Some v else None
  | Half a v => if i =? a then Some (v / 256) else if i =? a + 1 then Some (v mod 256) else None
  end.

Lemma even_mod i : Z.even i = (i mod 2 =? 0).
Proof. rewrite Zmod_even. by destruct (Z.even i). Qed.

Lemma odd_mod i : Z.odd i = (i mod 2 =? 1).
Proof. rewrite Zmod_odd. by destruct (Z.odd i). Qed.

Lemma store_clock s r i :
  store_ok s -> (match s with Byte a _ => 0 <= a < 65536 | Half a _ => 0 <= a < 65536 /\ Z.odd a = false end) -> 0 <= i < 65536 ->
  ram_byte (ram_clock (bus_of_store s) r) i = default (ram_byte r i) (stored s i).
Proof.
  intros Hv Ha Hi. unfold ram_byte, ram_clock, ram_sel, sel, ram_index, RAM_BASE. cbn [ram_0 ram_1]. destruct s as [a v|a v]; cbn [stored bus_of_store store_ok b_addr b_rw b_lds b_uds b_dout negb] in *.
  - unfold is_u8, RAM_BASE in *. replace ((0x100000 + 2 * (a / 2)) / 65536 mod 256) with 0x10 by word_lia.
    replace ((0x100000 + 2 * (a / 2)) / 2 mod 32768) with (a / 2) by word_lia.
    replace (v * 257 mod 256) with v by word_lia. replace (v * 257 / 256 mod 256) with v by word_lia. rewrite !even_mod, odd_mod. cbn [andb Z.eqb Pos.eqb].
    destruct (Z.eqb_spec (i mod 2) 0), (Z.eqb_spec (a mod 2) 0), (Z.eqb_spec (a mod 2) 1), (Z.eqb_spec (i / 2) (a / 2)), (Z.eqb_spec i a); cbn [andb from_option id]; try done; word_lia.
  - destruct Ha as [Ha Ho]. rewrite odd_mod in Ho. unfold is_u16, RAM_BASE in *. assert (a mod 2 = 0) as Ho' by (destruct (Z.eqb_spec (a mod 2) 1); [done|word_lia]). clear Ho.
    replace ((0x100000 + a) / 65536 mod 256) with 0x10 by word_lia. replace ((0x100000 + a) / 2 mod 32768) with (a / 2) by word_lia.
    replace (v / 256 mod 256) with (v / 256) by word_lia. rewrite even_mod. cbn [andb Z.eqb Pos.eqb].
    destruct (Z.eqb_spec (i mod 2) 0), (Z.eqb_spec (i / 2) (a / 2)), (Z.eqb_spec i a), (Z.eqb_spec i (a + 1)); cbn [andb from_option id]; try done; word_lia.
Qed.

Lemma aset_length (m : list Z) (a v : Z) (m' : list Z) : aset m a v = Ok m' -> 0 <= a < Z.of_nat (length m) /\ m' = <[Z.to_nat a := v]> m.
Proof.
  intros E. destruct (decide (0 <= a < Z.of_nat (length m))) as [H|H]; [|by rewrite aset_out in E]. rewrite aset_in in E by done. by injection E as <-.
Qed.

(** What a store changes. *)
Lemma store_step_bytes s m m' :
  length m = Z.to_nat 65536 -> store_step s m = Ok m' ->
  (match s with Byte a _ => 0 <= a < 65536 | Half a _ => 0 <= a < 65536 /\ Z.odd a = false end) /\ length m' = length m /\
  forall i, 0 <= i < 65536 -> m' !! Z.to_nat i = match stored s i with Some v => Some v | None => m !! Z.to_nat i end.
Proof.
  intros Hl E. destruct s as [a v|a v]; cbn [store_step stored] in *.
  - apply aset_length in E as [Ha ->]. split_and!; [lia..|by rewrite length_insert|]. intros i Hi. destruct (Z.eqb_spec i a) as [->|].
    + apply list_lookup_insert_eq. lia.
    + apply list_lookup_insert_ne. lia.
  - unfold store16 in E. destruct (Z.odd a) eqn:Ho; [done|]. apply bind_Ok in E as (m1 & E1 & E2). apply aset_length in E1 as [Ha ->].
    apply aset_length in E2 as [Hb ->]. rewrite length_insert in Hb. split_and!; [lia..|done|by rewrite !length_insert|]. intros i Hi.
    destruct (Z.eqb_spec i a) as [->|]; [|destruct (Z.eqb_spec i (a + 1)) as [->|]].
    + rewrite list_lookup_insert_ne by lia. apply list_lookup_insert_eq. lia.
    + apply list_lookup_insert_eq. rewrite length_insert. lia.
    + by rewrite !list_lookup_insert_ne by lia.
Qed.

Lemma store_held s m m' n : forall r,
  store_ok s -> store_step s m = Ok m' -> ram_holds m r \/ ram_holds m' r -> ram_holds m' (ram_run (replicate (S n) (bus_of_store s)) r).
Proof.
  intros r Hs E H. assert (length m = Z.to_nat 65536) as Hl.
  { destruct H as [[H _]|[H _]]; [done|]. rewrite <- H. symmetry. revert E. destruct s as [a v|a v]; cbn [store_step].
    - intros [_ ->]%aset_length. by rewrite length_insert.
    - unfold store16. destruct (Z.odd a); [done|]. intros (m1 & [_ ->]%aset_length & [_ ->]%aset_length)%bind_Ok. by rewrite !length_insert. }
  destruct (store_step_bytes s m m' Hl E) as (Ha & Hl' & Hb).
  assert (forall r, ram_holds m r \/ ram_holds m' r -> ram_holds m' (ram_clock (bus_of_store s) r)) as K.
  { intros r1 H1. split; [congruence|]. intros i Hi. rewrite store_clock, Hb by done. destruct H1 as [[_ H1]|[_ H1]]; specialize (H1 i Hi).
    - by destruct (stored s i).
    - rewrite Hb in H1 by done. by destruct (stored s i). }
  revert r H. induction n as [|n IH]; intros r H; [by apply K|]. cbn [replicate ram_run foldl]. apply IH. right. by apply K.
Qed.

Lemma stores_carried ss bs : ram_cycles ss bs ->
  forall m m' r, ram_holds m r -> Forall store_ok ss -> store_run ss m = Ok m' -> ram_holds m' (ram_run bs r).
Proof.
  induction 1 as [|b ss bs Q _ IH|s n ss bs _ IH]; intros m m' r H Hs E.
  - injection E as <-. done.
  - apply (IH m); [|done|done]. destruct H as [H1 H2]. split; [done|]. intros i Hi. by rewrite quiet_ram, H2.
  - apply Forall_cons_iff in Hs as [Hs Hss]. cbn [store_run] in E. apply bind_Ok in E as (m1 & E1 & E2). unfold ram_run. rewrite foldl_app.
    apply (IH m1); [|done|done]. by apply (store_held s m); [..|left].
Qed.

(** C22: The memory of the processor is the byte memory of the model.  When
    the bus has carried some stores of bytes and words, each held for any
    number of clocks, the two lanes of the RAM hold the memory the stores
    leave, and every word the processor then reads is the one that is loaded
    from that memory. *)
Theorem ram_refines (ss : list store) (bs : list cpu_bus) (m m' : list Z) (r : cpu_ram) :
  ram_cycles ss bs -> Forall store_ok ss -> ram_holds m r -> store_run ss m = Ok m' ->
  let r' := ram_run bs r in
  ram_holds m' r' /\
  forall a o, 0 <= a < 65536 -> Z.odd a = false -> let b := read_at (RAM_BASE + a) in
    ram_dout o = ram_word b r' -> load16 m' a = Ok (cpu_din o b).
Proof.
  intros C Hs H E r'. pose proof (stores_carried _ _ C _ _ _ H Hs E) as [L B]. fold r' in B. split; [done|]. intros a o Ha Ho b Hd.
  destruct (reads_decoded o) as [Hr _]. unfold b. rewrite Hr by (unfold RAM_BASE; lia). rewrite Hd. unfold load16. rewrite Ho.
  rewrite odd_mod in Ho. assert (a mod 2 = 0) as Hm by (destruct (Z.eqb_spec (a mod 2) 1); [done|word_lia]).
  rewrite (aget_lookup m' a (ram_byte r' a)), (aget_lookup m' (a + 1) (ram_byte r' (a + 1))) by (lia || apply B; word_lia). cbn [mbind result_bind].
  unfold ram_word, ram_byte, ram_index, b, RAM_BASE. cbn [read_at b_addr]. rewrite !even_mod.
  replace ((0x100000 + a) / 2 mod 32768) with (a / 2) by word_lia. rewrite Hm. replace ((a + 1) mod 2) with 1 by word_lia.
  by replace ((a + 1) / 2) with (a / 2) by word_lia.
Qed.

(** Two stores over a clear memory, the first held for two clocks. *)
Lemma ram_refines_witness :
  let ss := [Byte 5 0xab; Half 6 0x1234] in
  let bs := replicate 2 (bus_of_store (Byte 5 0xab)) ++ [quiet_bus] ++ [bus_of_store (Half 6 0x1234)] in
  let r' := ram_run bs {| ram_0 := fun _ => 0; ram_1 := fun _ => 0 |} in
  exists m', store_run ss (replicate (Z.to_nat 65536) 0) = Ok m' /\ ram_holds m' r' /\ ram_0 r' 2 = 0xab /\ ram_1 r' 3 = 0x12 /\ ram_0 r' 3 = 0x34.
Proof.
  intros ss bs r'. set (m := replicate (Z.to_nat 65536) 0).
  assert (length m = Z.to_nat 65536) as Lm by apply length_replicate.
  set (m1 := <[Z.to_nat 5 := 0xab]> m). set (m2 := <[Z.to_nat (6 + 1) := 0x1234 mod 256]> (<[Z.to_nat 6 := 0x1234 / 256]> m1)).
  assert (store_run ss m = Ok m2) as E.
  { unfold ss. cbn [store_run store_step]. rewrite aset_in by (rewrite Lm; lia). cbn [mbind result_bind]. unfold store16. change (Z.odd 6) with false. cbv iota.
    rewrite aset_in by (rewrite length_insert, Lm; lia). cbn [mbind result_bind]. rewrite aset_in by (rewrite !length_insert, Lm; lia). reflexivity. }
  exists m2. split; [exact E|].
  destruct (ram_refines ss bs m m2 {| ram_0 := fun _ => 0; ram_1 := fun _ => 0 |}) as [H _].
  { apply (ram_store _ 1). apply ram_still; [reflexivity|]. apply (ram_store _ 0). apply ram_nil. }
  { repeat apply Forall_cons_2; first [by split|apply Forall_nil_2]. }
  { split; [exact Lm|]. intros i Hi. unfold m. rewrite lookup_replicate_2 by lia.
    unfold ram_byte. cbn [ram_0 ram_1]. by destruct (Z.even i). }
  { exact E. }
  split; [exact H|]. clear. split; [reflexivity|]. split; reflexivity.
Defined.
