(* ===== verification/ReadBack.v ===== *)
(** * Byte lanes and reads (rtl/dpramv.sv, rtl/tilemap.sv, rtl/crtc.sv)

    The tile memory as the code builds it, two dual-port memories of bytes;
    that they implement the memory of words of TileBus.v, for the beam and for
    the processor; and what the processor reads from the CRT controller while
    it polls the PLL. *)

From S2P Require Import Prelude Input Blitter Float Hdmi HdmiProps Printf Formats Gfx GfxProps Video Crtc Tilemap SysBus TileBus.

(** ** The dual-port memory *)

Record dualport_ram : Type := mkDualport { dp_ram : Z -> Z; q_a : Z; q_b : Z }.

(** Reads give the contents before the clock, writes pass to the output of
    their port.  (Port B does not write in either instance.) *)
Definition dualport_clock (wren_a : bool) (address_a data_a : Z) (wren_b : bool) (address_b data_b : Z) (r : dualport_ram) : dualport_ram :=
  {| dp_ram := fun i => if wren_b && (i =? address_b) then data_b else if wren_a && (i =? address_a) then data_a else dp_ram r i;
     q_a := if wren_a then data_a else dp_ram r address_a;
     q_b := if wren_b then data_b else dp_ram r address_b |}.

(** ** The tile memory *)

Record tile_lanes : Type := mkLanes { ram_0 : dualport_ram; ram_1 : dualport_ram }.

(** The inputs of the tile map that the memory uses. *)
Record tram_in : Type := mkTramIn { r_cs_ram : bool; r_wr0 : bool; r_wr1 : bool; r_address : Z; r_din : Z }.

Definition tram_port (b : cpu_bus) (h : blit_hw) : tram_in :=
  {| r_cs_ram := if blit_active h then true else tilemap_ram_sel b;
     r_wr0 := if blit_active h then blit_wr h else lane tilemap_sel b (b_lds b);
     r_wr1 := if blit_active h then blit_wr h else lane tilemap_sel b (b_uds b);
     r_address := if blit_active h then blit_addr h else (b_addr b / 2) mod 65536;
     r_din := if blit_active h then blit_dout h else b_dout b |}.

Definition lanes_clock (i : tram_in) (H V : Z) (l : tile_lanes) : tile_lanes :=
  let a := r_address i mod 16384 in
  let fetch := ((V / 8) mod 128) * 128 + (H / 8) mod 128 in
  {| ram_0 := dualport_clock (r_wr0 i && r_cs_ram i) a (r_din i mod 256) false fetch 0 (ram_0 l);
     ram_1 := dualport_clock (r_wr1 i && r_cs_ram i) a (r_din i / 256 mod 256) false fetch 0 (ram_1 l) |}.

(** The words on the two ports. *)
Definition lanes_q (q : dualport_ram -> Z) (l : tile_lanes) : Z := q (ram_1 l) * 256 + q (ram_0 l).

(** The read port of the CRT controller. *)
Definition crtc_read (pll_busy : bool) (address : Z) (s : crtc_hw) : Z :=
  if address =? PLL_IO_REG then if pll_busy then 0xffff else 0 else creg s address.

Section lanes.
Context {ROM PAL : Type} {HR : MemBlock ROM} {HP : PalBlock PAL}.

(** The read port of the tile map. *)
Definition tile_dout (b : cpu_bus) (d : tile_dev (ROM := ROM) (PAL := PAL)) (l : tile_lanes) : Z :=
  let t := pic_tiles (pic d) in
  let vert := Z.odd (if blit_active (blitter d) then blit_addr (blitter d) else b_addr b / 2) in
  let cs_reg := negb (blit_active (blitter d)) && tilemap_reg_sel b in
  if cs_reg && negb vert then t_hofs t else if cs_reg && vert then t_vofs t else lanes_q q_a l.

(** The lanes beside the device, clock by clock. *)
Definition lanes_step (c : bus_clk) (d : tile_dev (ROM := ROM) (PAL := PAL)) (l : tile_lanes) : tile_lanes :=
  let t := pic_tiles (pic d) in
  let s := pic_crtc (pic d) in
  lanes_clock (tram_port (k_bus c) (blitter d)) (u12 (hcnt s + t_hofs t)) (u12 (vcnt s + t_vofs t)) l.

Fixpoint lanes_run (cs : list bus_clk) (d : tile_dev (ROM := ROM) (PAL := PAL)) (l : tile_lanes) : tile_lanes :=
  match cs with [] => l | c :: cs => lanes_run cs (dev_clock c d) (lanes_step c d l) end.

(** ** The lanes implement the memory of words *)

Definition lanes_hold (m : vmem) (l : tile_lanes) : Prop :=
  forall i, 0 <= i < VRAM_WORDS -> dp_ram (ram_0 l) i = m i mod 256 /\ dp_ram (ram_1 l) i = m i / 256 mod 256.

Lemma lanes_word m l i : lanes_hold m l -> 0 <= i < VRAM_WORDS -> dp_ram (ram_1 l) i * 256 + dp_ram (ram_0 l) i = u16 (m i).
Proof. intros H Hi. destruct (H i Hi) as [-> ->]. word_lia. Qed.

Lemma blit_clock_ram b h : ram (blit_clock false b h) = tile_ram b h.
Proof.
  unfold blit_clock. destruct (blit_active h) eqn:A.
  - unfold hw_clock, tile_ram. rewrite A. cbn [negb andb]. by repeat case_match.
  - unfold blit_port. by repeat case_match.
Qed.

Lemma word_write_bytes wr0 wr1 x y :
  word_write wr0 wr1 x y mod 256 = (if wr0 then x else y) mod 256 /\ word_write wr0 wr1 x y / 256 = (if wr1 then x else y) / 256.
Proof. unfold word_write. destruct wr0, wr1; word_lia. Qed.

Lemma lanes_hold_step c d l : lanes_hold (ram (blitter d)) l -> lanes_hold (ram (blitter (dev_clock c d))) (lanes_step c d l).
Proof.
  intros H i Hi. specialize (H i Hi) as [H0 H1]. cbn [dev_clock blitter]. rewrite blit_clock_ram. set (b := k_bus c). set (h := blitter d) in *.
  unfold lanes_step, lanes_clock, tram_port, tile_ram. cbn [ram_0 ram_1 dualport_clock dp_ram andb r_cs_ram r_wr0 r_wr1 r_address r_din]. fold b h.
  destruct (blit_active h) eqn:A.
  { rewrite !andb_true_r. destruct (blit_wr h); [|done]. unfold vwrite, VRAM_WORDS. by destruct (i =? _). }
  assert (forall s, lane tilemap_sel b s && tilemap_ram_sel b = lane tilemap_ram_sel b s) as E.
  { intros s. unfold lane, tilemap_sel. by destruct (tilemap_ram_sel b), (tilemap_reg_sel b), (b_rw b), s. }
  rewrite !E. set (a := (b_addr b / 2) mod 65536). generalize (lane tilemap_ram_sel b (b_lds b)) (lane tilemap_ram_sel b (b_uds b)). intros wr0 wr1.
  destruct (wr0 || wr1) eqn:W; [|by destruct wr0, wr1]. unfold vwrite, VRAM_WORDS. destruct (Z.eqb_spec i (a mod 16384)) as [<-|]; [|by rewrite !andb_false_r].
  rewrite !andb_true_r. destruct (word_write_bytes wr0 wr1 (b_dout b) (ram h i)) as [-> ->]. by destruct wr0, wr1.
Qed.

Lemma fetch_step c d l : lanes_hold (ram (blitter d)) l -> lanes_q q_b (lanes_step c d l) = u16 (tileref_q (pic_tiles (pic (dev_clock c d)))).
Proof. intros H. apply (lanes_word _ _ _ H). unfold VRAM_WORDS. word_lia. Qed.

Lemma lanes_hold_run cs : forall d l, lanes_hold (ram (blitter d)) l -> lanes_hold (ram (blitter (dev_run cs d))) (lanes_run cs d l).
Proof. induction cs as [|c cs IH]; intros d l H; [done|]. cbn [lanes_run dev_run foldl]. by apply IH, lanes_hold_step. Qed.

Lemma lanes_run_snoc cs c : forall d l, lanes_run (cs ++ [c]) d l = lanes_step c (dev_run cs d) (lanes_run cs d l).
Proof. induction cs as [|c' cs IH]; intros d l; [done|]. cbn [lanes_run app]. by rewrite IH. Qed.

(** What the processor reads in a cycle after any run: a word of the memory,
    or an offset. *)
Lemma tile_read d l c a o :
  let b := read_at (0x900000 + 2 * a) in
  lanes_hold (ram (blitter d)) l -> blit_active (blitter d) = false -> k_bus c = b -> 0 <= a < VRAM_WORDS ->
  SysBus.tilemap_dout o = tile_dout b (dev_clock c d) (lanes_step c d l) -> cpu_din o b = u16 (ram (blitter d) a).
Proof.
  intros b H A Eb Ha Ho. destruct (reads_decoded o) as (_ & _ & _ & _ & _ & _ & Hr & _). unfold b, VRAM_WORDS in *. rewrite Hr, Ho by lia.
  assert (forall r, sel r (read_at (0x900000 + 2 * a)) = (0x90 =? r)) as D by (intros r; unfold sel; cbn [read_at b_addr]; f_equal; word_lia).
  unfold tile_dout, tilemap_reg_sel. rewrite D. cbn [Z.eqb Pos.eqb]. rewrite !andb_false_r. cbn [andb].
  unfold lanes_step, lanes_clock, tram_port, lanes_q. rewrite A, Eb. unfold lane. cbn [read_at b_rw b_addr ram_0 ram_1 dualport_clock q_a r_cs_ram r_wr0 r_wr1 r_address negb].
  rewrite !andb_false_r. cbn [andb]. replace ((0x900000 + 2 * a) / 2 mod 65536 mod 16384) with a by word_lia. by apply lanes_word.
Qed.
End lanes.

(** C23: The tile memory is the memory of words of the model.  After any
    clocks of the bus, with the blitter or the processor writing and the beam
    reading, the two byte-wide dual-port memories hold the words; what their
    second port gives the beam is the tile the pipeline fetches, and a read of
    the processor gives it the word. *)
Theorem lanes_refine {ROM PAL : Type} {HR : MemBlock ROM} {HP : PalBlock PAL} (cs : list bus_clk) (c : bus_clk)
    (d : tile_dev (ROM := ROM) (PAL := PAL)) (l : tile_lanes) :
  lanes_hold (ram (blitter d)) l ->
  let d' := dev_run (cs ++ [c]) d in
  let l' := lanes_run (cs ++ [c]) d l in
  lanes_hold (ram (blitter d')) l' /\ lanes_q q_b l' = u16 (tileref_q (pic_tiles (pic d'))) /\
  forall a o, let b := read_at (0x900000 + 2 * a) in
    blit_active (blitter (dev_run cs d)) = false -> k_bus c = b -> 0 <= a < VRAM_WORDS -> SysBus.tilemap_dout o = tile_dout b d' l' ->
    cpu_din o b = u16 (ram (blitter (dev_run cs d)) a).
Proof.
  intros H d' l'. pose proof (lanes_hold_run cs d l H) as H'. unfold l', d'. rewrite lanes_run_snoc, dev_run_app.
  split; [by apply lanes_hold_step|]. split; [by apply fetch_step|]. intros a o A Eb Ha. exact (tile_read _ _ c a o H' A Eb Ha).
Qed.

(** A word, then a byte in its lower half, and the word read back. *)
#[local] Existing Instances demo_rom demo_pal.

Definition demo_clk (b : cpu_bus) : bus_clk := {| k_as_n := false; k_iack := false; k_bus := b |}.

Definition demo_stores : list bus_clk :=
  [clk_of (Store 5 0x1234); demo_clk {| b_addr := 0x90000a; b_rw := false; b_lds := true; b_uds := false; b_dout := 0xabab |}].

Definition demo_lanes : tile_lanes :=
  let m := tiles demo_gfx in
  {| ram_0 := {| dp_ram := fun i => m i mod 256; q_a := 0; q_b := 0 |}; ram_1 := {| dp_ram := fun i => m i / 256 mod 256; q_a := 0; q_b := 0 |} |}.

Lemma lanes_refine_witness :
  let b := read_at 0x90000a in
  let cs := demo_stores ++ [demo_clk b] in
  let l' := lanes_run cs demo_dev demo_lanes in
  let o := {| ram_dout := 1; crtc_dout := 2; tilemap_dout := tile_dout b (dev_run cs demo_dev) l'; pal_dout := 3; o_ticks_latch := 4; user_in := 5;
              gamepad := 6; vio_dout := 7; o_int_ctrl := 8; blitter_dout := 9; BDI := 10; rom_dout := 11 |} in
  lanes_hold (ram (blitter (dev_run cs demo_dev))) l' /\ cpu_din o b = 0x12ab.
Proof.
  intros b cs l' o. destruct (lanes_refine demo_stores (demo_clk b) demo_dev demo_lanes) as (H & _ & R); [by intros i Hi|].
  split; [exact H|]. clear H. etransitivity; [apply (R 5 o); [vm_compute; reflexivity|reflexivity|unfold VRAM_WORDS; lia|reflexivity]|].
  vm_compute. reflexivity.
Defined.

(** ** Polling *)

(** [while (crtc->pll_io != 0)] ends with the first read that finds the queue
    not full, whatever the registers hold. *)
Lemma poll_waits s n ws busy :
  let reads := map (fun busy => crtc_read busy CRTC_pll_io s) in
  wait_pll_io {| writes := ws; pll_io_reads := reads (replicate n true ++ false :: busy) |} =
  Ok (tt, {| writes := ws; pll_io_reads := reads busy |}).
Proof.
  intros reads. unfold wait_pll_io. cbn [pll_io_reads writes].
  assert (skip_busy (reads (replicate n true ++ false :: busy)) = Ok (reads busy)) as ->; [|done].
  induction n as [|n IH]; [done|]. exact IH.
Qed.
